(* ===== verification/_CoqProject ===== *)
-Q . S2P
Prelude.v
Interval.v
Normalize.v
Calendar.v
SeatLayout.v
SeatAssign.v
SeatRoundRobin.v
Planner.v
Constraints.v
Catalog.v
Store.v
Accounts.v
Forms.v
RoomWindow.v
MainWindow.v
UserWindows.v
ExcelImport.v
ImportWindow.v
PlannerProps.v
Pipeline.v
ListWindows.v
PyRecords.v
SeatStore.v
SeatingPdf.v
SeatingWindow.v
ExcelReport.v
Maintenance.v
SampleTimetable.v
