(* ===== verification/Prelude.v ===== *)
(** * Verification of the dynamic exam scheduling system

    This development models, in Rocq, the repository
    [dynamic-exam-scheduling-system] (Python): the exam timetable
    planner of [src/planner.py] with its constraint layer, the two
    seat-assignment engines of [src/oturma_atayici.py] and
    [src/koltuk_atama.py] and the seat-layout generator they share, the
    reads and writes of [src/veri_deposu.py] over the schema of
    [src/veritabani.py], the start-up of [src/main.py], and the Tk
    windows under [src/arayuz/] that change the database or the window
    state: the room window, the main window's tabs, the user
    administration and login windows, the spreadsheet import window with
    the parsers of [src/excel_parser.py] and the bulk writers behind it,
    the create handler of the exam window, the windows that list
    courses, students and the timetable, the seating tab with its PDF
    writer ([src/raporlar/oturma_plani_pdf.py]) and the timetable
    export to Excel ([export_sinav_programi_to_excel] and [_export_excel]),
    the seat-plan functions of [veri_deposu], its sample timetable, and
    the one-off clean-up script under [src/bakim/].
    What is left out is listed at the end of this comment.

    ** How the parts interact

    [main.py] creates the schema and the default rows, then opens the
    login window; [_giris_yap] checks the address and the bcrypt hash
    against [kullanicilar] and opens the main window, whose tabs depend
    on the role: an administrator gets the user window, a coordinator
    the room window, the import window (locked until the department has
    a room) and, after a timer, the data tabs.  The room window calls the
    room operations of [veri_deposu]; its first successful insert calls
    back into the main window to unlock the import tab.  The import
    window checks that the department has a room, parses the chosen
    workbook with [ders_excel_parse] or [ogrenci_excel_parse], writes the
    records with [dersleri_toplu_yaz] or [ogrencileri_toplu_yaz_ve_kayitla]
    and calls the main window back, which adds or refreshes the data
    tabs.  The exam window
    reads normalised course and room records
    ([dersler_ogrsay_ve_alanlar_detayli], [derslikler_kapasite_listesi]),
    builds a [PlanKisit], and hands them to [planner.planla], which
    returns placements, warnings and a fatal flag; the window clears the
    old timetable and stores the placements with [sinav_kaydet], which
    refuses a room/time overlap.  The seat engines [atama_yap] (two
    versions) take the students and rooms of one exam and return
    [(ogr_id, derslik_id, sira, sutun)] tuples; both build each room's
    seat order with [_koltuk_listesi].

    ** Files

    - [Prelude] (this file): the result type [Sonuc] for code that
      raises Python exceptions, with its monad instances and the
      notation [m ?= x]; a stable insertion sort [sirala] standing for
      Python's [sorted]/[list.sort] (stable, [reverse=True] keeps
      stability) with its permutation, sortedness, minimum-at-head and
      stability lemmas; [kaldir], the model of [list.remove]; [py_range];
      [ekle], insertion into a list ordered by a key (the Tk [after]
      queue); [sirayla], a [for] loop whose body may raise, with its
      invariant lemma, and [fold_left_inv]; the hint databases
      [sinav]/[sinav_rw] and the tactics [bool_prop], [mod_lia] and
      [karar] shared by all files.
    - [Interval]: [_overlaps] / [_zaman_cakisiyor_mu] on half-open
      intervals of minutes (module [Aralik]), and Python [date]/[datetime]
      (module [Tarih]: proleptic ordinals, [weekday], [combine], the
      additions of a [timedelta], which raise [OverflowError] outside
      [date.min .. datetime.max]).
    - [Normalize]: [_to_time] and [_normalize_gun_disi] of
      [src/planner.py] over Python strings as code-point lists, with the
      parts of [str.strip], [str.lower], [str.isdigit], [int] and
      [str.split] they use, and [strftime('%H:%M')].
    - [SeatLayout]: [_koltuk_listesi] (both copies) and its theorems:
      length [enine*boyuna], no duplicate seat, every seat in the grid,
      row-major order, dispersion (one seat per desk first).
    - [SeatAssign]: [oturma_atayici.atama_yap]: capacity-descending room
      order, sequential fill with its two [break]s, shortfall warnings;
      a refinement theorem states the whole function as an abstract
      contract ([atama_ozeti]: a [zip] of the students with the seats),
      from which seat uniqueness, input order, validity follow; a
      counterexample shows that uniqueness needs distinct room ids.
    - [SeatRoundRobin]: [koltuk_atama.atama_yap], the second seat engine:
      its [while] loop with a modulo room index and [pop] is defined with
      Equations by well-founded recursion (students left plus rooms
      left), and its invariant is proved by functional elimination
      ([funelim]).  Theorems: no seat is handed out twice (for any
      rooms), the seated students are a prefix of the class, every seat
      is valid, no seat stays free while a student waits, and the exact
      round-robin order (student [j] in room [j mod m] at seat [j / m])
      when every room has [ceil(n/m)] seats; a counterexample shows that
      its shortfall warning reads the [kapasite] column, not the seats.
    - [Planner]: [planner.planla] from its normalised constraint dict on
      (lines 272-409) as explicit state passing over [PState] (room and
      student time tables, room-usage counters, the course pool,
      placements, warnings), one definition per loop level: [ders_dene]
      (one course in one slot), [slot_dongusu], [slotlar_dongusu],
      [gun_dongusu]; [planla] returns [Sonuc].
    - [Constraints]: the alias layer in front of it: the [PlanKisit]
      dataclass and its [__post_init__], the dict form with its legacy
      keys, [_normalize_ders_sureleri], and [planla_girdi], the whole of
      [planla] on either input form; the two forms agree, and the
      canonical key does not always win over an alias.
    - [Catalog]: the course, student and room reads of [veri_deposu]
      (the course records with their student sets and the class-year
      majority vote, the room list by capacity, the student search).
    - [Store]: the timetable writer of [src/veri_deposu.py] over the
      tables [sinav_programi], [sinav_programi_derslik] and
      [oturma_plani] ([_derslikte_cakisiyor_mu], [_program_satiri_yaz],
      [sinav_kaydet], [sinav_programi_kaydet],
      [sinav_programini_temizle]), with the unique index and primary key
      as [IntegrityError] and the commit/rollback of [with baglanti()].
      [KayitUygun] is the interface the writer needs from a plan.  The
      writers form a transition system [adim]; by rule induction every
      reachable database has disjoint room bookings and unique courses
      per department and exam type; the guard rejects an overlapping
      booking with the database unchanged; a counterexample shows that
      it does not compare different exam types.
    - [Accounts]: the state [Sistem] of the whole database, the user and
      department operations with their role checks, the room operations
      of the room window, and the start-up of [main.py] as a transition
      system; an invariant on users and departments holds in every
      reachable state, and a coordinator only ever sees and changes the
      rooms of their own department.
    - [Forms]: the text conversions of the windows: UTF-8 encoding and
      decoding between the database's byte strings and Python's code
      points, [str(int)] with the round trip [int(str(n)) = n],
      [str.strip()], the department combobox items and their split, and
      [EMAIL_RE.match].
    - [RoomWindow]: [src/arayuz/derslik_penceresi.py]: the form, the
      tree and the canvas as the record [Pencere], every handler
      ([_int_or_error], [_yenile], [_ekle], [_guncelle], [_sil],
      [_ara_goster], [_ciz_oturma_duzeni]) and the step relation of the
      window over the database; every room it stores has a non-blank
      code and name and a positive capacity, column count and row count
      (the desk size, [Sıra Yapısı], is stored whatever integer it is,
      as [_int_or_error] exempts it from the positivity test), an update
      from the selected row stores the row unchanged, and the seat
      drawing stays on the grid.
    - [MainWindow]: [src/arayuz/ana_pencere.py]: the notebook as a list
      of tabs, the dict of data-tab references as a [gmap], the Tk
      [after] queue as a list ordered by due time; [_build], the lock of
      the import tab, [_on_first_derslik_added], [_ensure_data_tabs],
      [_focus_tab] and [_on_after_import]; the invariant [ana_inv] holds
      along every run, no tab kind appears twice, the import tab is
      enabled exactly when the department has a room, and the data tabs
      always arrive (liveness: a finite run of timer events adds them).
    - [UserWindows]: [src/arayuz/kullanici_yonetimi.py] and
      [src/arayuz/giris_penceresi.py]: the add-user form and [_ekle],
      and [_giris_yap]; bcrypt is a pair of functions [hashpw]/[checkpw]
      with the one law the code relies on, so a user just added can log
      in with the password typed into the form.
    - [ExcelImport]: [src/excel_parser.py] (module [Aktarim]): the
      regular expressions as a pattern type [Desen] with a declarative
      match relation and an executable matcher proved equal to it (with
      [re.match]'s rule for [$] before a final newline); [_norm],
      [_clean_headingish], the title-token and course-name tests, the
      swap of name and instructor, [_infer_sinif_from_kod]; the header
      search and row filters of [ders_excel_parse] and the per-row
      student and enrolment collection of [ogrenci_excel_parse], over the
      tables pandas returns.  Theorems: every returned course code
      matches [RE_KOD] and occurs once; students are unique and the
      enrolments sorted and duplicate-free; the guessed class is 1 to 4;
      findings: sheet errors are dropped, keys with [_] or [/] can never
      match, a header in Turkish capitals is not recognised.
    - [ImportWindow]: [dersleri_toplu_yaz] and
      [ogrencileri_toplu_yaz_ve_kayitla] of [src/veri_deposu.py] (the
      upserts with [COALESCE], [NOT NULL] as [IntegrityError] rolling back
      the block, the id maps, [INSERT OR IGNORE]) and the two handlers of
      [src/arayuz/import_penceresi.py].  Theorems: the writers keep every
      key unique and touch no other department; enrolments are stored;
      findings: a code with a blank ([BLM 203]) is parsed and counted but
      never stored, a student without a name aborts the whole import,
      and end to end the example course sheet reports three courses and
      stores one.
    - [PlannerProps]: the invariant [Inv] of [PState] (placements
      recorded in the time tables, pairwise compatible, pool plus placed
      courses a permutation of the input) and its preservation by every
      loop level; hence no room double-booking, no student conflict,
      room capacity respected, each course placed at most once; the
      room choice is a minimum of its key; one course per slot with
      [tek_seans]; [list.remove] never raises, [OverflowError] is the
      only exception, raised exactly when the period reaches [date.max]
      (totality below it); the fuel of the day loop is enough; two
      counterexamples: [tek_seans] still allows exams that overlap in
      time, and a course skipped for a student conflict gets no warning.
    - [Pipeline]: the create handler [_olustur] of the exam window
      ([src/arayuz/sinav_programi_penceresi.py]): the slot text parser,
      the [PlanKisit] it builds, [planla], clear, one [sinav_kaydet] per
      placement.  Every result of [planla] meets [KayitUygun], so the
      handler always stores the whole plan, and the stored timetable has
      no student conflict according to the enrolment table.
    - [ListWindows]: the course list window
      ([ders_listesi_penceresi.py]: [_dersleri_yukle], [_ders_secildi]),
      the student search ([ogrenci_listesi_penceresi.py]: [_ara]) and
      the timetable list and clear of the exam window ([_listele],
      [_temizle] over [sinav_programi_listele]); on a database whose keys are unique
      and whose foreign keys hold ([kayitlar_butun]) the counts agree
      with the enrolment table, the search shows exactly the student's
      courses, and the list after a create shows every placement once of
      the plan made with the constraints the handler built from its own
      entries,
      with its times written back by [isoformat]; the detail read
      [sinav_programi_detay] is the list read on the normalised exam
      type.
    - [PyRecords]: the records callbacks return (a dict or an
      [sqlite3.Row]) and the Python operations the seating code applies
      to them: [rec.get], [rec[k]], [str], [int], [or].
    - [SeatingPdf]: [src/raporlar/oturma_plani_pdf.py] as the list of
      drawing commands it issues, one page per room; every seat of the
      room gets its label at its grid position, and (finding) the
      student list under the grid ends after its first line, since the
      bound is 10 mm and a line is 5 mm below the previous one.
    - [SeatingWindow]: [src/arayuz/oturma_plani_penceresi.py]: the
      callback lookup by name in [veri_deposu] with its arity retries,
      the tree of programs, the selection and the three buttons, and the
      way [ana_pencere.py] opens it; the selected row gives the program
      id, and (finding) the tab the application opens never lists an
      exam, because its callbacks are missing and the module's own
      functions are called with the wrong arguments.
    - [ExcelReport]: [export_sinav_programi_to_excel] of [veri_deposu]: the
      query, the per-row parsing with its heading tests and the swap of
      course name and instructor, the sheet it writes (header, bold
      titles, date cells); every exported row is a stored exam with its
      course, rooms and times, and (finding) a course whose name is
      shorter than its instructor's gets the two swapped.
    - [SeatStore]: the seat-plan functions of [veri_deposu]
      ([sinav_derslikleri], [oturma_plani_temizle], [oturma_plani_kaydet],
      [oturma_plani_listele]) and the way [oturma_atayici.atama_yap]
      reads the rows it is given ([_g] with its two caught exceptions,
      [int(... or d)]).  Clearing and storing the seat engine's result
      never raises and leaves exactly its assignments; the writer appends
      a plan that respects [PRIMARY KEY(sinav_id, ogrenci_id)] and
      otherwise raises [IntegrityError] with the store unchanged; the
      listing shows each stored seat once; (finding) the rows of
      [sinav_derslikleri] have no [sira_yapisi], so the engine seats every
      room read from them as a room of two-seat desks.
    - [Maintenance]: the clean-up script
      [src/bakim/veri_temizle_yeniden_yukle.py] ([temizle]): the course
      rows it keeps are exactly those of other departments or with a
      matching code and no heading field; the keys and the enrolments'
      foreign key survive it; (findings) the bookings and seat plans of
      the exams it deletes stay behind, and in every database a course
      named [DERSİN ADI] or [2. Sınıf] (in any spelling with the same
      normal form) with a matching code is not removed.
    - [SampleTimetable]: [ornek_sinav_programi_olustur] of
      [veri_deposu]: on a department and exam type without exams it
      stores every course at its announced slot (three a day, two hours
      apart, in the largest room) and warns nothing.

    ** Theorems, fuel and bounds

    The claims of the development are the theorems whose doc comment
    starts with [C<n>]; each with hypotheses has a witness lemma
    ([..._ornek]) evaluating the model on concrete data (two courses
    sharing a student, one room, two slots on 2024-01-01; a database
    with one department, an administrator and a coordinator).  The day
    loop [while gun <= tarih_bit] runs on fuel [gun_sayisi = Z.to_nat
    (tarih_bit - tarih_bas + 1)], the exact number of its iterations;
    [gun_dongusu_yakit_yeterli] shows that more fuel changes nothing,
    so no result depends on the fuel.  The [while] loop of the
    round-robin seat engine is defined by well-founded recursion, so it
    needs no fuel.  [str(int)] collects digits on fuel [log2 n + 1],
    which is at least the number of decimal digits.  All other loops
    are structural.  Totality ([planla_toplam]) holds for periods inside
    [[date.min, date.max)], slots in [[0, 1440)] minutes and durations in
    [[0, 1440]]: a slot plus a duration then stays inside the datetime
    range.

    ** Modelling conventions

    Python integers are [Z].  A date is its proleptic Gregorian ordinal
    ([date.toordinal], 0001-01-01 is 1) and a datetime with minute
    resolution is [ordinal * 1440 + minute_of_day]; this is exact for the
    planner, whose datetimes are [datetime.combine(day, slot)] plus a
    whole number of minutes.  Python sets ([ogr_ids]) are [gset Z] and
    dicts used as maps are [gmap].  Exceptions are values of [Sonuc].
    Warning strings and message boxes are values of inductive types
    carrying exactly the data the f-string interpolates.  Python strings
    are lists of code points ([pystr]); the database's text columns and
    the window entries are Rocq [string]s holding their UTF-8 bytes, as
    SQLite stores TEXT, decoded with [metin] where the code computes on
    characters ([int], [strip], [len], [re.match]) and encoded back with
    [utf8_kodla].  [str.lower] is modelled on the letters of the weekday
    table in the planner and, in the spreadsheet parsers, on every code
    point below U+0180 (Latin-1 and Latin Extended-A, which hold the
    Turkish letters; [İ] lowers to [i] and U+0307 as in Python);
    [str.isdigit]/[int] on ASCII digits.  [int(float(txt))] and the
    column-scoring heuristics of the parsers are Section variables:
    the theorems hold for every choice of them.  [AUTOINCREMENT] ids are
    one more than the largest id, which is what SQLite gives while no
    row is deleted; the windows never delete courses or students, but
    the maintenance script [veri_temizle_yeniden_yukle.py] deletes
    courses (line 38), after which SQLite's id can be larger than this
    one.  Every theorem uses only that the id is fresh, which holds for
    both.  A window is a record
    of its widget contents; a handler maps the database and the window to
    new ones and the message boxes it shows.

    ** Not modelled

    Reading the workbook ([pd.ExcelFile], [xls.parse]: the model starts
    from the tables they return) and the scores that choose columns when
    no header is found ([_score_*_col]), the error log files of the
    import window, the fonts, styles, column widths and file output of
    reportlab and openpyxl (the model stops at the commands and cells
    the code hands to them), the file dialogs, the seating window's
    canvas drawing, the column additions of [veritabani._migrate] (the
    model has the migrated columns), and the widget layout code of every
    window.  Stored
    datetimes are ISO strings ([isoformat_dk] writes them and
    [datetime_fromisoformat] reads them back, proved inverse), which
    compare like the minutes the model keeps. *)

From stdpp Require Export base list gmap strings.
From Stdlib Require Export ZArith Lia Sorted.

Declare Scope sinav_scope.
Delimit Scope sinav_scope with sinav.
Open Scope Z_scope.

Create HintDb sinav.
Create Rewrite HintDb sinav_rw.

(** ** Python exceptions as values *)

Inductive Istisna :=
  | OverflowError
  | ValueError
  | KeyError
  | TypeError
  | PermissionError
  | IntegrityError    (* [sqlite3.IntegrityError] *)
  | AttributeError
  | IndexError
  | TclError.         (* [tkinter.TclError] *)

Inductive Sonuc (A : Type) :=
  | Tamam (x : A)
  | Hata (e : Istisna).
Arguments Tamam {A} x.
Arguments Hata {A} e.

#[export] Instance Sonuc_ret : MRet Sonuc := fun _ x => Tamam x.
#[export] Instance Sonuc_bind : MBind Sonuc :=
  fun _ _ f m => match m with Tamam x => f x | Hata e => Hata e end.

#[export] Instance Istisna_eq_dec : EqDecision Istisna.
Proof. solve_decision. Defined.

Notation "m '?=' x" := (m = Tamam x) (at level 70, no associativity) : sinav_scope.
Open Scope sinav_scope.

Lemma elem_of_List_filter {A} (f : A -> bool) (l : list A) x :
  x ∈ List.filter f l <-> x ∈ l /\ f x = true.
Proof. rewrite !list_elem_of_In. apply List.filter_In. Qed.

Lemma tamam_inj {A} (x y : A) : Tamam x = Tamam y -> x = y.
Proof. congruence. Qed.

Lemma bind_tamam {A B} (m : Sonuc A) (f : A -> Sonuc B) y :
  (m ≫= f) ?= y <-> exists x, m ?= x /\ f x ?= y.
Proof.
  destruct m as [x|e]; simpl; split.
  - eauto.
  - intros (x' & [= ->] & H). exact H.
  - discriminate.
  - intros (? & ? & _). discriminate.
Qed.

(** A loop [for x in xs:] whose body may raise: the first exception ends
    it (and, inside [with baglanti()], rolls the block back). *)
Fixpoint sirayla {S A} (adim : S -> A -> Sonuc S) (s : S) (xs : list A) : Sonuc S :=
  match xs with
  | [] => Tamam s
  | x :: r => s1 ← adim s x; sirayla adim s1 r
  end.

Lemma sirayla_korur {S A} (P : S -> Prop) (adim : S -> A -> Sonuc S) :
  (forall s x s', adim s x ?= s' -> P s -> P s') ->
  forall xs s s', sirayla adim s xs ?= s' -> P s -> P s'.
Proof.
  intros Had xs. induction xs as [|x xs IH]; intros s s'; simpl; [by intros [= <-]|].
  destruct (adim s x) as [s1|] eqn:E; simpl; [|discriminate]. intros H Hs. exact (IH s1 s' H (Had _ _ _ E Hs)).
Qed.

(** ** Stable sorting: Python's [sorted] and [list.sort]

    [sirala le l] is an insertion sort that inserts each element before
    the first element it is [le]-below.  Processing the list from the
    right, an element is inserted before all elements equivalent to it
    that follow it in the input, so the sort is stable, as Timsort is.
    [sorted(l, key=k, reverse=True)] is [sirala (fun x y => k y <=? k x)]:
    Python's [reverse=True] keeps equal keys in input order. *)

Section Sirala.
Context {A : Type} (le : A -> A -> bool).

Fixpoint ekle (x : A) (l : list A) : list A :=
  match l with
  | [] => [x]
  | y :: ys => if le x y then x :: y :: ys else y :: ekle x ys
  end.

Fixpoint sirala (l : list A) : list A :=
  match l with
  | [] => []
  | x :: xs => ekle x (sirala xs)
  end.

Lemma ekle_perm x l : ekle x l ≡ₚ x :: l.
Proof.
  induction l as [|y ys IH]; simpl; [done|].
  destruct (le x y); [done|]. rewrite IH. constructor.
Qed.

Lemma sirala_perm l : sirala l ≡ₚ l.
Proof.
  induction l as [|x xs IH]; simpl; [done|]. by rewrite ekle_perm, IH.
Qed.

Lemma sirala_length l : length (sirala l) = length l.
Proof. apply Permutation_length, sirala_perm. Qed.

Lemma sirala_elem x l : x ∈ sirala l <-> x ∈ l.
Proof. apply elem_of_Permutation_proper, sirala_perm. Qed.

Section Preorder.
Hypothesis le_total : forall x y, le x y = true \/ le y x = true.
Hypothesis le_trans : forall x y z, le x y = true -> le y z = true -> le x z = true.

Lemma ekle_sorted x l :
  Sorted (fun a b => le a b = true) l -> Sorted (fun a b => le a b = true) (ekle x l).
Proof.
  induction 1 as [|y ys Hs IH Hhd]; simpl; [by repeat constructor|].
  destruct (le x y) eqn:Exy; [by repeat constructor|].
  constructor; [done|].
  destruct ys as [|z zs]; simpl.
  - constructor. destruct (le_total x y); congruence.
  - inversion Hhd; subst. simpl in IH.
    destruct (le x z); constructor; try done.
    destruct (le_total x y); congruence.
Qed.

Lemma sirala_sorted l : Sorted (fun a b => le a b = true) (sirala l).
Proof. induction l; simpl; [constructor|]. by apply ekle_sorted. Qed.

Lemma sirala_strongly_sorted l :
  StronglySorted (fun a b => le a b = true) (sirala l).
Proof.
  apply Sorted_StronglySorted; [intros ???; apply le_trans|]. apply sirala_sorted.
Qed.

(** The head of the sorted list is below every element of the input:
  [uygunlar.sort(key=...); uygunlar[0]] picks a minimum. *)
Lemma sirala_head_min l x r :
  sirala l = x :: r -> forall y, y ∈ l -> le x y = true.
Proof.
  intros Hl y Hy. pose proof (sirala_strongly_sorted l) as Hs. rewrite Hl in Hs.
  apply (sirala_elem y l) in Hy. rewrite Hl in Hy.
  apply StronglySorted_inv in Hs as [_ Hall].
  apply elem_of_cons in Hy as [->|Hy].
  - destruct (le_total x x); done.
  - rewrite Forall_forall in Hall. by apply Hall.
Qed.

(** Stability: the elements equivalent to [z] keep their input order. *)
Definition denk (z y : A) : bool := le z y && le y z.

Lemma ekle_stable z x l :
  List.filter (denk z) (ekle x l) = List.filter (denk z) (x :: l).
Proof.
  induction l as [|y ys IH]; simpl; [done|].
  destruct (le x y) eqn:Exy; simpl; [done|].
  rewrite IH; simpl.
  destruct (denk z x) eqn:Ezx, (denk z y) eqn:Ezy; try done.
  exfalso. unfold denk in *. apply andb_true_iff in Ezx as [Hzx Hxz].
  apply andb_true_iff in Ezy as [Hzy Hyz].
  assert (le x y = true) by eauto. congruence.
Qed.

Lemma sirala_stable z l :
  List.filter (denk z) (sirala l) = List.filter (denk z) l.
Proof.
  induction l as [|x xs IH]; simpl; [done|].
  rewrite ekle_stable; simpl. by rewrite IH.
Qed.
End Preorder.
End Sirala.

(** Sorting commutes with a map that carries one order to the other. *)
Lemma sirala_fmap {A B} (le1 : A -> A -> bool) (le2 : B -> B -> bool) (f : A -> B) (l : list A) :
  (forall x y, le2 (f x) (f y) = le1 x y) -> f <$> sirala le1 l = sirala le2 (f <$> l).
Proof.
  intros Hf. induction l as [|x l IH]; [done|]. cbn [sirala fmap list_fmap]. rewrite <- IH.
  generalize (sirala le1 l) as k. induction k as [|y k IHk]; [done|]. cbn [ekle fmap list_fmap].
  rewrite Hf. destruct (le1 x y); [done|]. cbn. by rewrite IHk.
Qed.

(** Python's key-sorts. *)
Definition sirala_azalan {A} (k : A -> Z) : list A -> list A :=
  sirala (fun x y => k y <=? k x).
Definition sirala_artan {A} (k : A -> Z) : list A -> list A :=
  sirala (fun x y => k x <=? k y).

Lemma key_desc_total {A} (k : A -> Z) x y :
  (k y <=? k x) = true \/ (k x <=? k y) = true.
Proof. rewrite !Z.leb_le. lia. Qed.
Lemma key_desc_trans {A} (k : A -> Z) x y z :
  (k y <=? k x) = true -> (k z <=? k y) = true -> (k z <=? k x) = true.
Proof. rewrite !Z.leb_le. lia. Qed.
#[export] Hint Resolve key_desc_total key_desc_trans : sinav.

(** ** [list.remove(x)]: removes the first element equal to [x];
    raises [ValueError] when there is none. *)
Fixpoint kaldir {A} `{EqDecision A} (x : A) (l : list A) : Sonuc (list A) :=
  match l with
  | [] => Hata ValueError
  | y :: ys => if decide (x = y) then Tamam ys else (ys' ← kaldir x ys; Tamam (y :: ys'))
  end.

Lemma kaldir_elem {A} `{EqDecision A} (x : A) l :
  x ∈ l -> exists l', kaldir x l ?= l' /\ l ≡ₚ x :: l'.
Proof.
  induction l as [|y ys IH]; intros Hx; [by apply elem_of_nil in Hx|]. simpl.
  case_decide as E; [subst; by eexists|].
  apply elem_of_cons in Hx as [->|Hx]; [done|].
  destruct (IH Hx) as (l' & -> & Hp). exists (y :: l'). split; [done|].
  rewrite Hp. constructor.
Qed.

(** ** Boolean tests of the code as propositions *)
Ltac bool_prop :=
  repeat match goal with
  | H : (_ && _)%bool = true |- _ => apply andb_true_iff in H as [? ?]
  | H : (_ || _)%bool = false |- _ => apply orb_false_iff in H as [? ?]
  | H : negb _ = true |- _ => apply negb_true_iff in H
  | H : (_ <=? _) = true |- _ => apply Z.leb_le in H
  | H : (_ <=? _) = false |- _ => apply Z.leb_gt in H
  | H : (_ <? _) = true |- _ => apply Z.ltb_lt in H
  | H : (_ <? _) = false |- _ => apply Z.ltb_ge in H
  | H : (_ =? _) = true |- _ => apply Z.eqb_eq in H
  | H : (_ =? _) = false |- _ => apply Z.eqb_neq in H
  end.

(** ** Python's [range(start, stop, step)] for a positive step *)
Definition py_range (start stop step : Z) : list Z :=
  (fun i => start + step * i) <$> seqZ 0 ((stop - start + step - 1) / step).

Lemma py_range_nil a b s : 0 < s -> b <= a -> py_range a b s = [].
Proof.
  intros Hs Hb. unfold py_range. rewrite seqZ_nil; [done|].
  assert ((b - a + s - 1) / s < 1) by (apply Z.div_lt_upper_bound; lia). lia.
Qed.

Lemma py_range_cons a b s : 0 < s -> a < b -> py_range a b s = a :: py_range (a + s) b s.
Proof.
  intros Hs Hb. unfold py_range.
  assert (E : (b - (a + s) + s - 1) / s = (b - a + s - 1) / s - 1).
  { replace (b - (a + s) + s - 1) with ((b - a + s - 1) + (-1) * s) by lia.
    rewrite Z.div_add by lia. lia. }
  rewrite E. rewrite (seqZ_cons 0).
  2:{ apply Z.div_str_pos. lia. }
  simpl. f_equal; [lia|].
  rewrite <- (fmap_add_seqZ 1 0), <- list_fmap_compose. apply list_fmap_ext.
  intros i x _. simpl. lia.
Qed.

Lemma elem_of_py_range a b s x :
  0 < s -> x ∈ py_range a b s <-> a <= x < b /\ (x - a) mod s = 0.
Proof.
  intros Hs. unfold py_range. rewrite list_elem_of_fmap. setoid_rewrite elem_of_seqZ.
  split.
  - intros (i & -> & Hi1 & Hi2).
    assert (Hq : s * (i + 1) <= b - a + s - 1).
    { pose proof (Z.mul_div_le (b - a + s - 1) s Hs). nia. }
    split; [nia|]. replace (a + s * i - a) with (i * s) by lia. apply Z.mod_mul. lia.
  - intros [[H1 H2] H3]. exists ((x - a) / s).
    pose proof (Z.div_mod (x - a) s ltac:(lia)) as Hd. rewrite H3 in Hd.
    split; [lia|]. split; [apply Z.div_pos; lia|].
    apply Z.div_lt_upper_bound; [lia|]. 
    assert (s * ((x - a) / s) <= b - a - 1) by lia.
    pose proof (Z.mul_div_le (b - a + s - 1) s Hs).
    pose proof (Z.mod_pos_bound (b - a + s - 1) s Hs).
    pose proof (Z.div_mod (b - a + s - 1) s ltac:(lia)). nia.
Qed.

Lemma py_range_1 a b : py_range a b 1 = seqZ a (b - a).
Proof.
  unfold py_range. replace ((b - a + 1 - 1) / 1) with (b - a) by (rewrite Z.div_1_r; lia).
  replace (seqZ a (b - a)) with (seqZ (a + 0) (b - a)) by (f_equal; lia).
  rewrite <- fmap_add_seqZ. apply list_fmap_ext. intros; lia.
Qed.

Lemma NoDup_py_range a b s : 0 < s -> NoDup (py_range a b s).
Proof.
  intros Hs. unfold py_range. apply NoDup_fmap_2; [|apply NoDup_seqZ].
  intros i j ?. nia.
Qed.

(** [[c for c in l if p(c)] + [c for c in l if not p(c)]] is a permutation of [l]. *)
Lemma filter_app_compl {A} (p q : A -> bool) (l : list A) :
  (forall x, q x = negb (p x)) -> List.filter p l ++ List.filter q l ≡ₚ l.
Proof.
  intros Hq. induction l as [|x xs IH]; simpl; [done|]. rewrite Hq.
  destruct (p x); simpl; [by constructor|].
  rewrite <- Permutation_middle. by constructor.
Qed.

(** [lia] after turning [mod] and [/] into their Euclidean equations. *)
Ltac mod_lia := intros; Z.to_euclidean_division_equations; lia.

(** Close a decidable closed goal by evaluation. *)
Ltac karar := lazymatch goal with |- ?P => apply (bool_decide_eq_true_1 P); vm_compute; reflexivity end.

Lemma kaldir_perm {A} `{EqDecision A} (x : A) l l' : kaldir x l ?= l' -> l ≡ₚ x :: l'.
Proof.
  revert l'. induction l as [|y ys IH]; intros l' H; simpl in H; [discriminate|].
  case_decide; [by simplify_eq|].
  destruct (kaldir x ys) as [ys'|e] eqn:E; simpl in H; [|discriminate].
  injection H as <-. rewrite (IH ys') by done. constructor.
Qed.

(** An invariant of a loop [for b in l: a = f(a, b)]. *)
Lemma fold_left_inv {A B} (P : A -> Prop) (f : A -> B -> A) (l : list B) (a : A) :
  (forall a b, b ∈ l -> P a -> P (f a b)) -> P a -> P (fold_left f l a).
Proof.
  revert a. induction l as [|b l IH]; intros a Hf Ha; simpl; [done|].
  apply IH; [intros; apply Hf; [set_solver|done]|apply Hf; [set_solver|done]].
Qed.

Lemma submseteq_NoDup_inv {A} (l k : list A) : l ⊆+ k -> NoDup k -> NoDup l.
Proof.
  intros (k' & Hp)%submseteq_Permutation Hk. rewrite Hp in Hk.
  by apply NoDup_app in Hk as [? _].
Qed.

(** Two elements with the same image under a key that has no
    duplicates on the list are equal. *)
Lemma NoDup_fmap_esit {A B} (f : A -> B) (l : list A) x y :
  NoDup (f <$> l) -> x ∈ l -> y ∈ l -> f x = f y -> x = y.
Proof.
  induction l as [|a l IH]; intros Hnd Hx Hy Hf; [by apply not_elem_of_nil in Hx|].
  rewrite fmap_cons in Hnd. apply NoDup_cons in Hnd as [Ha Hnd].
  apply elem_of_cons in Hx as [->|Hx], Hy as [->|Hy]; [done| | |by apply IH].
  - destruct Ha. rewrite Hf. by apply list_elem_of_fmap_2.
  - destruct Ha. rewrite <- Hf. by apply list_elem_of_fmap_2.
Qed.

(** A filter that no element passes, or that every element passes. *)
Lemma filter_bos {A} (P : A -> Prop) `{forall x, Decision (P x)} (l : list A) :
  (forall x, x ∈ l -> ~ P x) -> filter P l = [].
Proof.
  induction l as [|a l IH]; intros Hl; [done|]. rewrite filter_cons_False by set_solver.
  apply IH. set_solver.
Qed.

Lemma filter_hepsi {A} (P : A -> Prop) `{forall x, Decision (P x)} (l : list A) :
  (forall x, x ∈ l -> P x) -> filter P l = l.
Proof.
  induction l as [|a l IH]; intros Hl; [done|]. rewrite filter_cons_True by set_solver.
  f_equal. apply IH. set_solver.
Qed.

(** Filtering keeps a key duplicate-free. *)
Lemma fmap_filter_NoDup {A B} (f : A -> B) (P : A -> Prop) `{!forall a, Decision (P a)} (l : list A) :
  NoDup (f <$> l) -> NoDup (f <$> filter P l).
Proof. apply submseteq_NoDup_inv, fmap_submseteq, sublist_submseteq, sublist_filter. Qed.

(** [mapM] over a mapped list on which the function always succeeds. *)
Lemma mapM_fmap_tamam {A B C} (f : B -> Sonuc C) (g : A -> B) (h : A -> C) (l : list A) :
  (forall x, x ∈ l -> f (g x) = Tamam (h x)) -> mapM f (g <$> l) = Tamam (h <$> l).
Proof.
  induction l as [|x l IH]; intros Hf; [done|]. cbn [mapM fmap list_fmap].
  rewrite (Hf x (list_elem_of_here _ _)). cbn [mbind Sonuc_bind].
  rewrite IH; [done|]. intros y Hy. apply Hf. by right.
Qed.
