(* ===== verification/Interval.v ===== *)
(** * Interval: half-open intervals and Python dates

    [_overlaps] of [src/planner.py] and [_zaman_cakisiyor_mu] of
    [src/veri_deposu.py] on datetimes as minutes, and the part of
    Python's [date]/[datetime] that [planla] uses: [weekday], [combine]
    and the additions of a [timedelta], which raise [OverflowError]
    outside the representable range. *)

From S2P Require Import Prelude.

Module Aralik.

(** [_overlaps(a_start, a_end, b_start, b_end)] (planner.py 14-16). *)
Definition overlaps (a_start a_end b_start b_end : Z) : bool :=
  negb ((a_end <=? b_start) || (b_end <=? a_start)).

(** [_zaman_cakisiyor_mu(bas1, bit1, bas2, bit2)] (veri_deposu.py 102-103). *)
Definition zaman_cakisiyor_mu (bas1 bit1 bas2 bit2 : Z) : bool :=
  negb ((bit1 <=? bas2) || (bit2 <=? bas1)).

(** The overlap of two stored intervals [(b0, b1)]. *)
Definition cakisir (iv jv : Z * Z) : bool := overlaps iv.1 iv.2 jv.1 jv.2.

Lemma overlaps_true_iff a0 a1 b0 b1 :
  overlaps a0 a1 b0 b1 = true <-> b0 < a1 /\ a0 < b1.
Proof.
  unfold overlaps. rewrite negb_true_iff, orb_false_iff, !Z.leb_gt. done.
Qed.

Lemma overlaps_false_iff a0 a1 b0 b1 :
  overlaps a0 a1 b0 b1 = false <-> a1 <= b0 \/ b1 <= a0.
Proof.
  unfold overlaps. rewrite negb_false_iff, orb_true_iff, !Z.leb_le. done.
Qed.

Lemma overlaps_comm a0 a1 b0 b1 : overlaps a0 a1 b0 b1 = overlaps b0 b1 a0 a1.
Proof. unfold overlaps. by rewrite orb_comm. Qed.

Lemma cakisir_comm iv jv : cakisir iv jv = cakisir jv iv.
Proof. apply overlaps_comm. Qed.

(** Meaning of [_overlaps]: for two non-empty half-open
    intervals, [_overlaps] holds exactly when some minute lies in both. *)
Theorem overlaps_ortak_an a0 a1 b0 b1 :
  a0 < a1 -> b0 < b1 ->
  overlaps a0 a1 b0 b1 = true <-> exists t, a0 <= t < a1 /\ b0 <= t < b1.
Proof.
  intros Ha Hb. rewrite overlaps_true_iff. split.
  - intros [H1 H2]. exists (Z.max a0 b0). lia.
  - intros (t & H1 & H2). lia.
Qed.

Lemma overlaps_ortak_an_ornek :
  (540 < 630 /\ 600 < 690) /\
  (overlaps 540 630 600 690 = true <-> exists t, 540 <= t < 630 /\ 600 <= t < 690).
Proof. split; [lia|]. apply overlaps_ortak_an; lia. Defined.

End Aralik.

#[export] Hint Rewrite Aralik.overlaps_true_iff Aralik.overlaps_false_iff : sinav_rw.
#[export] Hint Resolve Aralik.cakisir_comm : sinav.

(** ** Python [date] and [datetime] at minute resolution *)
Module Tarih.

(** [date.min.toordinal()] and [date.max.toordinal()] (9999-12-31). *)
Definition MINORD : Z := 1.
Definition MAXORD : Z := 3652059.
Definition DAKIKA_GUN : Z := 1440.

Definition gecerli_tarih (g : Z) : bool := (MINORD <=? g) && (g <=? MAXORD).
Definition gecerli_saat (s : Z) : bool := (0 <=? s) && (s <? DAKIKA_GUN).
(** The range of [datetime] values with whole minutes: from
    [datetime.min] to the last whole minute of [datetime.max]. *)
Definition gecerli_an (t : Z) : bool :=
  (MINORD * DAKIKA_GUN <=? t) && (t <=? MAXORD * DAKIKA_GUN + (DAKIKA_GUN - 1)).

(** [date.weekday()]: Monday is 0; [weekday() = (toordinal() + 6) % 7]. *)
Definition weekday (g : Z) : Z := (g + 6) mod 7.

(** [datetime.combine(gun, slot)] *)
Definition combine (g slot : Z) : Z := g * DAKIKA_GUN + slot.

(** [gun + timedelta(days=n)]: [OverflowError] outside [date.min .. date.max]. *)
Definition gun_ekle (g n : Z) : Sonuc Z :=
  if gecerli_tarih (g + n) then Tamam (g + n) else Hata OverflowError.

(** [an + timedelta(minutes=n)] on a datetime. *)
Definition dakika_ekle (t n : Z) : Sonuc Z :=
  if gecerli_an (t + n) then Tamam (t + n) else Hata OverflowError.

Lemma weekday_range g : 0 <= weekday g < 7.
Proof. unfold weekday. apply Z.mod_pos_bound. lia. Qed.

Lemma weekday_next g : weekday (g + 1) = (weekday g + 1) mod 7.
Proof. unfold weekday. rewrite Z.add_mod_idemp_l by lia. f_equal. lia. Qed.

Lemma gun_ekle_ok g n :
  MINORD <= g + n <= MAXORD -> gun_ekle g n ?= g + n.
Proof.
  intros H. unfold gun_ekle, gecerli_tarih. rewrite !(proj2 (Z.leb_le _ _)) by lia. done.
Qed.

Lemma gun_ekle_overflow g n :
  MAXORD < g + n -> gun_ekle g n = Hata OverflowError.
Proof.
  intros H. unfold gun_ekle, gecerli_tarih.
  rewrite (proj2 (Z.leb_gt (g + n) MAXORD)) by lia. by rewrite andb_false_r.
Qed.

Lemma combine_range g s :
  gecerli_tarih g = true -> gecerli_saat s = true ->
  MINORD * DAKIKA_GUN <= combine g s <= MAXORD * DAKIKA_GUN + (DAKIKA_GUN - 1).
Proof.
  unfold gecerli_tarih, gecerli_saat, combine, MINORD, MAXORD, DAKIKA_GUN.
  intros H1 H2; bool_prop; lia.
Qed.

Lemma dakika_ekle_ok t n :
  gecerli_an (t + n) = true -> dakika_ekle t n ?= t + n.
Proof. unfold dakika_ekle. by intros ->. Qed.

(** The only exception the two additions raise is [OverflowError]. *)
Lemma gun_ekle_hata g n e : gun_ekle g n = Hata e -> e = OverflowError.
Proof. unfold gun_ekle. by destruct (gecerli_tarih _); intros [=]. Qed.

Lemma dakika_ekle_hata t n e : dakika_ekle t n = Hata e -> e = OverflowError.
Proof. unfold dakika_ekle. by destruct (gecerli_an _); intros [=]. Qed.

(** A slot of a day before [date.max] plus at most a day stays in range. *)
Lemma gecerli_an_combine g s n :
  MINORD <= g < MAXORD -> 0 <= s < DAKIKA_GUN -> 0 <= n <= DAKIKA_GUN ->
  gecerli_an (combine g s + n) = true.
Proof.
  unfold gecerli_an, combine, MINORD, MAXORD, DAKIKA_GUN. intros.
  apply andb_true_iff. rewrite !Z.leb_le. lia.
Qed.

End Tarih.
