(* ===== verification/Normalize.v ===== *)
(** * Normalize: the input normalisers of [src/planner.py]

    [_to_time] (lines 62-73) and [_normalize_gun_disi] (lines 35-59),
    the two helpers [planla] applies to its slot list and to its
    excluded-day list before it plans.  A Python [str] is modelled as the
    list of its Unicode code points ([list Z]); [str.strip()] removes
    exactly Python's whitespace code points, [int()] is Python's decimal
    [int] on ASCII digits (surrounding whitespace, one sign, single
    underscores between digits), and [str.lower()] is modelled on
    [A-Z], [Ç] and [Ş]: the only code points whose lower-case form occurs
    in the weekday table, so the lookup gives Python's answer. *)

From S2P Require Import Prelude.

Module Normal.

(** A Python string: its code points. *)
Abbreviation pystr := (list Z).

(** An ASCII literal as a Python string. *)
Definition ascii_str (s : string) : pystr :=
  map (fun a => Z.of_N (Ascii.N_of_ascii a)) (String.list_ascii_of_string s).

(** [str.isspace()] on one code point. *)
Definition bosluk (c : Z) : bool :=
  ((9 <=? c) && (c <=? 13)) || ((28 <=? c) && (c <=? 32)) || (c =? 133) || (c =? 160) ||
  (c =? 5760) || ((8192 <=? c) && (c <=? 8202)) || (c =? 8232) || (c =? 8233) ||
  (c =? 8239) || (c =? 8287) || (c =? 12288).

Fixpoint bas_kirp (s : pystr) : pystr :=
  match s with
  | c :: r => if bosluk c then bas_kirp r else s
  | [] => []
  end.

(** [str.strip()] *)
Definition py_strip (s : pystr) : pystr := rev (bas_kirp (rev (bas_kirp s))).

(** [str.lower()] on the code points that matter (see the file header). *)
Definition kucuk_harf (c : Z) : Z :=
  if (65 <=? c) && (c <=? 90) then c + 32
  else if c =? 199 then 231      (* Ç -> ç *)
  else if c =? 350 then 351      (* Ş -> ş *)
  else c.
Definition py_lower (s : pystr) : pystr := map kucuk_harf s.

Definition rakam (c : Z) : bool := (48 <=? c) && (c <=? 57).

(** [str.isdigit()] on ASCII digits: non-empty and all digits. *)
Definition py_isdigit (s : pystr) : bool :=
  match s with [] => false | _ => forallb rakam s end.

Definition rakam_degeri (s : pystr) : Z := fold_left (fun acc c => 10 * acc + (c - 48)) s 0.

(** The digit part of [int()]: digits with single underscores between them. *)
Fixpoint alt_cizgili_rakamlar (s : pystr) : bool :=
  match s with
  | [] => false
  | [c] => rakam c
  | c :: 95 :: r => rakam c && alt_cizgili_rakamlar r
  | c :: r => rakam c && alt_cizgili_rakamlar r
  end.

(** [int(s)] in base 10: [None] where Python raises [ValueError]. *)
Definition py_int (s : pystr) : option Z :=
  let t := py_strip s in
  let '(isaret, govde) :=
    match t with
    | 43 :: r => (1, r)
    | 45 :: r => (-1, r)
    | _ => (1, t)
    end in
  if alt_cizgili_rakamlar govde
  then Some (isaret * rakam_degeri (List.filter (fun c => negb (c =? 95)) govde))
  else None.

(** [str.split(":")] *)
Fixpoint bol (ayirici : Z) (s : pystr) : list pystr :=
  match s with
  | [] => [[]]
  | c :: r =>
      if c =? ayirici then [] :: bol ayirici r
      else match bol ayirici r with
           | p :: ps => (c :: p) :: ps
           | [] => [[c]]
           end
  end.

(** The values [_to_time] receives: a [time] (as minutes of the day), a
    string, or [None]. *)
Inductive SaatDegeri :=
  | SaatNesnesi (dakika : Z)
  | SaatMetni (s : pystr)
  | SaatYok.

(** [_to_time(x)] (lines 62-73): [hh, mm = s.split(":")] fails unless
    there is exactly one colon; [int] may fail; [time(h, m)] fails
    outside [0..23] x [0..59]; every failure is caught and gives [None]. *)
Definition to_time (x : SaatDegeri) : option Z :=
  match x with
  | SaatNesnesi m => Some m
  | SaatYok => None
  | SaatMetni s =>
      match bol 58 (py_strip s) with
      | [hh; mm] =>
          h ← py_int hh; m ← py_int mm;
          if (0 <=? h) && (h <=? 23) && (0 <=? m) && (m <=? 59) then Some (h * 60 + m) else None
      | _ => None
      end
  end.

(** Minutes in a day: the range of a [time] at minute resolution. *)
Definition DAKIKA : Z := 1440.

(** [slot.strftime('%H:%M')] *)
Definition iki_hane (n : Z) : pystr := [48 + n / 10; 48 + n mod 10].
Definition saat_yaz (m : Z) : pystr := iki_hane (m / 60) ++ [58] ++ iki_hane (m mod 60).

(** The elements [_normalize_gun_disi] receives: integers or strings. *)
Inductive GunDegeri :=
  | GunSayi (n : Z)
  | GunMetni (s : pystr).

(** [_TR_TO_WEEKDAY] (lines 35-38). *)
Definition TR_TO_WEEKDAY : list (pystr * Z) :=
  [(ascii_str "pazartesi", 0); ([115; 97; 108; 305], 1); (ascii_str "sali", 1);
   ([231; 97; 114; 351; 97; 109; 98; 97], 2); (ascii_str "carsamba", 2);
   ([112; 101; 114; 351; 101; 109; 98; 101], 3); (ascii_str "persembe", 3);
   (ascii_str "cuma", 4); (ascii_str "cumartesi", 5); (ascii_str "pazar", 6)].

Definition tablo_bul (s : pystr) : option Z :=
  snd <$> List.find (fun kv => bool_decide (kv.1 = s)) TR_TO_WEEKDAY.

(** One iteration of the loop of [_normalize_gun_disi] (lines 46-58). *)
Definition gun_adimi (out : gset Z) (it : GunDegeri) : gset Z :=
  match it with
  | GunSayi n => if (0 <=? n) && (n <=? 6) then {[n]} ∪ out else out
  | GunMetni s0 =>
      let s := py_lower (py_strip s0) in
      if py_isdigit s && (0 <=? rakam_degeri s) && (rakam_degeri s <=? 6)
      then {[rakam_degeri s]} ∪ out
      else match tablo_bul s with
           | Some n => {[n]} ∪ out
           | None => out
           end
  end.

(** [_normalize_gun_disi(v)]; [None] and [[]] are both the empty list. *)
Definition normalize_gun_disi (v : list GunDegeri) : gset Z := fold_left gun_adimi v ∅.

(** ** Properties *)

Lemma tablo_bul_aralik s n : tablo_bul s = Some n -> 0 <= n <= 6.
Proof.
  unfold tablo_bul. intros (kv & Hf & ->)%fmap_Some.
  apply find_some in Hf as [Hin _]. simpl in Hin.
  intuition (subst; simpl; lia).
Qed.

Lemma gun_adimi_aralik out it x :
  (forall y, y ∈ out -> 0 <= y <= 6) -> x ∈ gun_adimi out it -> 0 <= x <= 6.
Proof.
  intros Hout. destruct it as [n|s0]; simpl.
  - destruct ((0 <=? n) && (n <=? 6)) eqn:E; [|auto]. bool_prop.
    rewrite elem_of_union, elem_of_singleton. intros [->|]; auto.
  - destruct (py_isdigit _ && _ && _) eqn:E.
    + bool_prop. rewrite elem_of_union, elem_of_singleton. intros [->|]; auto.
    + destruct (tablo_bul _) eqn:T; [|auto].
      rewrite elem_of_union, elem_of_singleton. intros [->|]; eauto using tablo_bul_aralik.
Qed.

(** Every hour and minute [strftime('%H:%M')] writes, [_to_time] reads back. *)
Lemma saat_yaz_tablo :
  Forall (fun m => to_time (SaatMetni (saat_yaz m)) = Some m) (seqZ 0 DAKIKA).
Proof. karar. Qed.

(** Range of [_normalize_gun_disi]: every weekday number the
    normaliser returns is in [0..6], whatever mix of integers and strings
    it is given; integers and digit strings outside [0..6] and unknown
    names are dropped. *)
Theorem normalize_gun_disi_aralik v x :
  x ∈ normalize_gun_disi v -> 0 <= x <= 6.
Proof.
  unfold normalize_gun_disi.
  cut (forall out, (forall y, y ∈ out -> 0 <= y <= 6) ->
       x ∈ fold_left gun_adimi v out -> 0 <= x <= 6); [intros H; apply H; set_solver|].
  induction v as [|it v IH]; simpl; [auto|]. intros out Hout. apply IH.
  intros y. by apply gun_adimi_aralik.
Qed.

(** Range of [_to_time] on strings: a string [_to_time]
    accepts denotes a minute of the day in [[0, 1440)]. *)
Theorem to_time_aralik s m : to_time (SaatMetni s) = Some m -> 0 <= m < DAKIKA.
Proof.
  unfold DAKIKA. simpl. destruct (bol 58 (py_strip s)) as [|hh [|mm [|]]]; try discriminate.
  destruct (py_int hh) as [h|]; simpl; [|discriminate].
  destruct (py_int mm) as [m'|]; simpl; [|discriminate].
  destruct (_ && _) eqn:E; [|discriminate]. intros [= <-]. bool_prop. lia.
Qed.

(** [strftime] then [_to_time]: writing a minute of the day
    as ["HH:MM"] and reading it back with [_to_time] gives the minute. *)
Theorem to_time_saat_yaz m : 0 <= m < DAKIKA -> to_time (SaatMetni (saat_yaz m)) = Some m.
Proof.
  intros Hm. apply (proj1 (Forall_forall _ _) saat_yaz_tablo m). apply elem_of_seqZ. lia.
Qed.

Lemma normalize_gun_disi_aralik_ornek :
  normalize_gun_disi [GunSayi 5; GunMetni (ascii_str " Pazar "); GunMetni (ascii_str "7");
    GunSayi 9; GunMetni [199; 65; 82; 350; 65; 77; 66; 65]] = {[5; 6; 2]} /\
  (2 ∈ normalize_gun_disi [GunSayi 5; GunMetni (ascii_str " Pazar "); GunMetni (ascii_str "7");
    GunSayi 9; GunMetni [199; 65; 82; 350; 65; 77; 66; 65]] -> 0 <= 2 <= 6).
Proof.
  split; [vm_compute; reflexivity|]. apply normalize_gun_disi_aralik.
Defined.

Lemma to_time_aralik_ornek :
  to_time (SaatMetni (ascii_str " 9 : 3_0 ")) = Some 570 /\ 0 <= 570 < DAKIKA.
Proof.
  split; [vm_compute; reflexivity|].
  apply (to_time_aralik (ascii_str " 9 : 3_0 ")). vm_compute. reflexivity.
Defined.

Lemma to_time_saat_yaz_ornek :
  saat_yaz 570 = ascii_str "09:30" /\ to_time (SaatMetni (saat_yaz 570)) = Some 570.
Proof. split; [vm_compute; reflexivity|]. apply to_time_saat_yaz. unfold DAKIKA. lia. Defined.

End Normal.
