(* ===== verification/Calendar.v ===== *)
(** * Calendar: Python's proleptic Gregorian calendar and ISO texts

    The application stores datetimes as the text
    [strftime("%Y-%m-%d %H:%M")] (sinav_programi_penceresi.py 150-151)
    and reads them back with [datetime.fromisoformat] (veri_deposu.py
    484-485 and 514-515); the exam window reads its period with
    [date.fromisoformat] (lines 112-113) from entries initialised with
    [date.today().isoformat()] (lines 35-36).  This file models the
    calendar these library calls use, the ordinal conversions
    [_ymd2ord] and [_ord2ymd] of CPython's [datetime] module, and the
    four text conversions, and proves that reading a written datetime
    gives it back: the other files may keep datetimes as minutes.

    [%Y] is written with four digits as Python documents it (glibc
    writes years below 1000 without padding, so the round trip is
    stated from year 1000).  [fromisoformat] is modelled on the shapes
    [YYYY-MM-DD] and [YYYY-MM-DD?HH:MM] the application writes; other
    shapes raise [ValueError] in the model (Python also accepts seconds,
    fractions and offsets, which the application never writes). *)

From S2P Require Import Prelude Interval Normalize.

Module Takvim.
Import Tarih Normal.

(** ** The calendar of CPython's [datetime] *)

(** [l[i]] on the module's tables (indexes are 1 to 12). *)
Definition tablo (l : list Z) (i : Z) : Z := nth (Z.to_nat i) l 0.

Definition _DAYS_IN_MONTH : list Z := [-1; 31; 28; 31; 30; 31; 30; 31; 31; 30; 31; 30; 31].
Definition _DAYS_BEFORE_MONTH : list Z := [-1; 0; 31; 59; 90; 120; 151; 181; 212; 243; 273; 304; 334].

Definition _is_leap (year : Z) : bool :=
  (year mod 4 =? 0) && (negb (year mod 100 =? 0) || (year mod 400 =? 0)).

Definition _days_before_year (year : Z) : Z :=
  let y := year - 1 in y * 365 + y / 4 - y / 100 + y / 400.

Definition _days_in_month (year month : Z) : Z :=
  if (month =? 2) && _is_leap year then 29 else tablo _DAYS_IN_MONTH month.

Definition artik (b : bool) : Z := if b then 1 else 0.

Definition _days_before_month (year month : Z) : Z :=
  tablo _DAYS_BEFORE_MONTH month + artik ((2 <? month) && _is_leap year).

Definition _ymd2ord (year month day : Z) : Z :=
  _days_before_year year + _days_before_month year month + day.

Definition _DI400Y : Z := 146097.
Definition _DI100Y : Z := 36524.
Definition _DI4Y : Z := 1461.

(** The month and day of the [n]th day (from 0) of a year, the end of
    [_ord2ymd]: [month = (n + 50) >> 5] is an estimate that is at most
    one too large. *)
Definition ay_gun (leapyear : bool) (n : Z) : Z * Z :=
  let month := Z.shiftr (n + 50) 5 in
  let preceding := tablo _DAYS_BEFORE_MONTH month + artik ((2 <? month) && leapyear) in
  if preceding >? n then
    let month' := month - 1 in
    let preceding' := preceding - (tablo _DAYS_IN_MONTH month' + artik ((month' =? 2) && leapyear)) in
    (month', n - preceding' + 1)
  else (month, n - preceding + 1).

(** [_ord2ymd(n)]: the divisions by 400-, 100-, 4- and 1-year blocks. *)
Definition _ord2ymd (n : Z) : Z * Z * Z :=
  let n := n - 1 in
  let n400 := n / _DI400Y in let n := n mod _DI400Y in
  let year := n400 * 400 + 1 in
  let n100 := n / _DI100Y in let n := n mod _DI100Y in
  let n4 := n / _DI4Y in let n := n mod _DI4Y in
  let n1 := n / 365 in let n := n mod 365 in
  let year := year + n100 * 100 + n4 * 4 + n1 in
  if (n1 =? 4) || (n100 =? 4) then (year - 1, 12, 31)
  else
    let leapyear := (n1 =? 3) && (negb (n4 =? 24) || (n100 =? 3)) in
    let '(month, day) := ay_gun leapyear n in (year, month, day).

(** [_check_date_fields]: the arguments [date(year, month, day)] accepts. *)
Definition gecerli_ymd (y m d : Z) : bool :=
  (1 <=? y) && (y <=? 9999) && (1 <=? m) && (m <=? 12) && (1 <=? d) && (d <=? _days_in_month y m).

(** ** Texts *)

(** ["%0kd" % n] for [0 <= n < 10^k]. *)
Fixpoint basamaklar (k : nat) (n : Z) : pystr :=
  match k with O => [] | S k' => basamaklar k' (n / 10) ++ [48 + n mod 10] end.

(** [int(s)] of a field of ASCII digits, as [fromisoformat] reads it. *)
Fixpoint rakam_alani_aux (acc : Z) (s : pystr) : option Z :=
  match s with
  | [] => Some acc
  | c :: r => if (48 <=? c) && (c <=? 57) then rakam_alani_aux (acc * 10 + (c - 48)) r else None
  end.
Definition rakam_alani (s : pystr) : option Z := rakam_alani_aux 0 s.

(** [date.isoformat()]: ["%04d-%02d-%02d"]. *)
Definition isoformat (g : Z) : pystr :=
  let '(y, m, d) := _ord2ymd g in basamaklar 4 y ++ [45] ++ basamaklar 2 m ++ [45] ++ basamaklar 2 d.

(** A datetime kept as minutes written [YYYY-MM-DD?HH:MM], with the
    separator [ayirac]. *)
Definition tarih_saat_metni (ayirac : Z) (t : Z) : pystr :=
  isoformat (t / DAKIKA_GUN) ++ [ayirac] ++ basamaklar 2 ((t mod DAKIKA_GUN) / 60) ++ [58] ++
  basamaklar 2 ((t mod DAKIKA_GUN) mod 60).

(** [strftime("%Y-%m-%d %H:%M")] *)
Definition strftime_dk (t : Z) : pystr := tarih_saat_metni 32 t.

(** [isoformat(timespec="minutes")], the text [_program_satiri_yaz]
    stores in [sinav_programi.baslangic] and [bitis]. *)
Definition isoformat_dk (t : Z) : pystr := tarih_saat_metni 84 t.

(** [date.fromisoformat(s)] on [YYYY-MM-DD]: the fields, then
    [date(y, m, d)], which raises [ValueError] on an invalid date. *)
Definition date_fromisoformat (s : pystr) : Sonuc Z :=
  match s with
  | [y1; y2; y3; y4; t1; m1; m2; t2; d1; d2] =>
      if (t1 =? 45) && (t2 =? 45) then
        match rakam_alani [y1; y2; y3; y4], rakam_alani [m1; m2], rakam_alani [d1; d2] with
        | Some y, Some m, Some d => if gecerli_ymd y m d then Tamam (_ymd2ord y m d) else Hata ValueError
        | _, _, _ => Hata ValueError
        end
      else Hata ValueError
  | _ => Hata ValueError
  end.

(** [datetime.fromisoformat(s)] on [YYYY-MM-DD] and [YYYY-MM-DD?HH:MM]
    (any separator character), as minutes. *)
Definition datetime_fromisoformat (s : pystr) : Sonuc Z :=
  g ← date_fromisoformat (take 10 s);
  match drop 10 s with
  | [] => Tamam (g * DAKIKA_GUN)
  | [_; h1; h2; c; n1; n2] =>
      if c =? 58 then
        match rakam_alani [h1; h2], rakam_alani [n1; n2] with
        | Some h, Some n => if (h <? 24) && (n <? 60) then Tamam (g * DAKIKA_GUN + h * 60 + n) else Hata ValueError
        | _, _ => Hata ValueError
        end
      else Hata ValueError
  | _ => Hata ValueError
  end.

(** ** The ordinal conversions *)

Lemma artik_aralik b : 0 <= artik b <= 1.
Proof. destruct b; simpl; lia. Qed.

Lemma seqZ_In a k n : a <= n < a + k -> In n (seqZ a k).
Proof. intros. apply list_elem_of_In, elem_of_seqZ. lia. Qed.

(** The month table, checked on every day of both kinds of year. *)
Definition ay_gun_uygun (leapyear : bool) (n : Z) : bool :=
  let '(m, d) := ay_gun leapyear n in
  (1 <=? m) && (m <=? 12) && (1 <=? d) &&
  (d <=? tablo _DAYS_IN_MONTH m + artik ((m =? 2) && leapyear)) &&
  (tablo _DAYS_BEFORE_MONTH m + artik ((2 <? m) && leapyear) + d =? n + 1).

Lemma ay_gun_tablo leapyear : forallb (ay_gun_uygun leapyear) (seqZ 0 365) = true.
Proof. destruct leapyear; vm_compute; reflexivity. Qed.

Lemma ay_gun_dogru leapyear n :
  0 <= n < 365 ->
  exists m d, ay_gun leapyear n = (m, d) /\ 1 <= m <= 12 /\
    1 <= d <= tablo _DAYS_IN_MONTH m + artik ((m =? 2) && leapyear) /\
    tablo _DAYS_BEFORE_MONTH m + artik ((2 <? m) && leapyear) + d = n + 1.
Proof.
  intros Hn. pose proof (ay_gun_tablo leapyear) as H.
  rewrite forallb_forall in H. specialize (H n (seqZ_In 0 365 n ltac:(lia))).
  unfold ay_gun_uygun in H. destruct (ay_gun leapyear n) as [m d]. bool_prop.
  exists m, d. split_and!; done || lia.
Qed.

(** The days before year [400a + 100b + 4c + e + 1]: the blocks of 400,
    100, 4 and 1 years that [_ord2ymd] divides by. *)
Lemma days_before_year_blok a b c e :
  0 <= b <= 3 -> 0 <= c <= 24 -> 0 <= e <= 3 ->
  _days_before_year (a * 400 + 1 + b * 100 + c * 4 + e) = a * 146097 + b * 36524 + c * 1461 + e * 365.
Proof.
  intros. unfold _days_before_year.
  replace (a * 400 + 1 + b * 100 + c * 4 + e - 1) with (a * 400 + b * 100 + c * 4 + e) by lia.
  rewrite <- (Z.div_unique (a * 400 + b * 100 + c * 4 + e) 4 (a * 100 + b * 25 + c) e),
    <- (Z.div_unique (a * 400 + b * 100 + c * 4 + e) 100 (a * 4 + b) (c * 4 + e)),
    <- (Z.div_unique (a * 400 + b * 100 + c * 4 + e) 400 a (b * 100 + c * 4 + e)) by lia.
  lia.
Qed.

Lemma is_leap_blok a b c e :
  0 <= b <= 3 -> 0 <= c <= 24 -> 0 <= e <= 3 ->
  _is_leap (a * 400 + 1 + b * 100 + c * 4 + e) = (e =? 3) && (negb (c =? 24) || (b =? 3)).
Proof.
  intros. unfold _is_leap.
  replace ((a * 400 + 1 + b * 100 + c * 4 + e) mod 4 =? 0) with (e =? 3)
    by (apply Bool.eq_iff_eq_true; rewrite !Z.eqb_eq; Z.div_mod_to_equations; lia).
  replace ((a * 400 + 1 + b * 100 + c * 4 + e) mod 100 =? 0) with ((e =? 3) && (c =? 24))
    by (apply Bool.eq_iff_eq_true; rewrite andb_true_iff, !Z.eqb_eq; Z.div_mod_to_equations; lia).
  replace ((a * 400 + 1 + b * 100 + c * 4 + e) mod 400 =? 0) with ((e =? 3) && (c =? 24) && (b =? 3))
    by (apply Bool.eq_iff_eq_true; rewrite !andb_true_iff, !Z.eqb_eq; Z.div_mod_to_equations; lia).
  by destruct (e =? 3), (c =? 24), (b =? 3).
Qed.

(** [_ord2ymd] on an ordinal of [date.min .. date.max] gives a valid
    date whose ordinal is that ordinal. *)
Lemma ord2ymd_dogru n :
  MINORD <= n <= MAXORD ->
  let '(y, m, d) := _ord2ymd n in gecerli_ymd y m d = true /\ _ymd2ord y m d = n.
Proof.
  unfold MINORD, MAXORD, _ord2ymd, _DI400Y, _DI100Y, _DI4Y. intros Hn. cbv zeta.
  remember (n - 1) as x eqn:Hx.
  pose proof (Z.div_mod x 146097 ltac:(lia)). pose proof (Z.mod_pos_bound x 146097 ltac:(lia)).
  set (a := x / 146097) in *. set (r1 := x mod 146097) in *.
  pose proof (Z.div_mod r1 36524 ltac:(lia)). pose proof (Z.mod_pos_bound r1 36524 ltac:(lia)).
  set (b := r1 / 36524) in *. set (r2 := r1 mod 36524) in *.
  pose proof (Z.div_mod r2 1461 ltac:(lia)). pose proof (Z.mod_pos_bound r2 1461 ltac:(lia)).
  set (c := r2 / 1461) in *. set (r3 := r2 mod 1461) in *.
  pose proof (Z.div_mod r3 365 ltac:(lia)). pose proof (Z.mod_pos_bound r3 365 ltac:(lia)).
  set (e := r3 / 365) in *. set (r4 := r3 mod 365) in *.
  assert (0 <= a <= 24) by lia. assert (0 <= b <= 4) by lia.
  assert (0 <= c <= 24) by lia. assert (0 <= e <= 4) by lia.
  clearbody a r1 b r2 c r3 e r4.
  unfold gecerli_ymd, _ymd2ord, _days_before_month, _days_in_month.
  destruct (Z.eqb_spec b 4) as [->|Hb4]; [|destruct (Z.eqb_spec e 4) as [->|He4]].
  - (* the last day of a 400-year block *)
    rewrite orb_true_r.
    replace (a * 400 + 1 + 4 * 100 + c * 4 + e - 1) with (a * 400 + 1 + 3 * 100 + 24 * 4 + 3) by lia.
    rewrite days_before_year_blok, is_leap_blok by lia. simpl.
    change (tablo _DAYS_IN_MONTH 12) with 31. change (tablo _DAYS_BEFORE_MONTH 12) with 334.
    split; [bool_prop; lia|lia].
  - (* the last day of a 4-year block *)
    simpl.
    replace (a * 400 + 1 + b * 100 + c * 4 + 4 - 1) with (a * 400 + 1 + b * 100 + c * 4 + 3) by lia.
    rewrite days_before_year_blok, is_leap_blok by lia.
    rewrite (proj2 (Z.eqb_neq c 24)) by lia. simpl.
    change (tablo _DAYS_IN_MONTH 12) with 31. change (tablo _DAYS_BEFORE_MONTH 12) with 334.
    split; [bool_prop; lia|lia].
  - (* an ordinary day *)
    cbn [orb].
    destruct (ay_gun_dogru ((e =? 3) && (negb (c =? 24) || (b =? 3))) r4) as (m & d & -> & Hm & Hd & Hsum);
      [lia|].
    rewrite days_before_year_blok, is_leap_blok by lia.
    set (L := (e =? 3) && (negb (c =? 24) || (b =? 3))) in *.
    assert (Hdim : (if (m =? 2) && L then 29 else tablo _DAYS_IN_MONTH m) =
                   tablo _DAYS_IN_MONTH m + artik ((m =? 2) && L)).
    { destruct (Z.eqb_spec m 2) as [->|]; simpl; [by destruct L|lia]. }
    rewrite Hdim. split; [bool_prop; lia|lia].
Qed.

(** Month lengths and offsets of a year with [leap] extra days in
    February. *)
Definition ay_uzunlugu (leap : bool) (m : Z) : Z := tablo _DAYS_IN_MONTH m + artik ((m =? 2) && leap).
Definition ay_oncesi (leap : bool) (m : Z) : Z := tablo _DAYS_BEFORE_MONTH m + artik ((2 <? m) && leap).

Lemma days_in_month_ay y m : _days_in_month y m = ay_uzunlugu (_is_leap y) m.
Proof.
  unfold _days_in_month, ay_uzunlugu. destruct (Z.eqb_spec m 2) as [->|]; simpl; [|lia].
  by destruct (_is_leap y).
Qed.

Lemma days_before_month_ay y m : _days_before_month y m = ay_oncesi (_is_leap y) m.
Proof. done. Qed.

(** Months follow each other without gaps or overlaps. *)
Definition aylar_uygun (leap : bool) : bool :=
  forallb (fun m => (1 <=? ay_uzunlugu leap m) && (ay_uzunlugu leap m <=? 31) && (0 <=? ay_oncesi leap m) &&
                    (ay_oncesi leap m + ay_uzunlugu leap m <=? 365 + artik leap) &&
                    forallb (fun m' => (m' <=? m) || (ay_oncesi leap m + ay_uzunlugu leap m <=? ay_oncesi leap m'))
                      (seqZ 1 12))
    (seqZ 1 12).

Lemma aylar_tablo leap : aylar_uygun leap = true.
Proof. destruct leap; vm_compute; reflexivity. Qed.

Lemma ay_sinirlari leap m :
  1 <= m <= 12 ->
  1 <= ay_uzunlugu leap m <= 31 /\ 0 <= ay_oncesi leap m /\
  ay_oncesi leap m + ay_uzunlugu leap m <= 365 + artik leap /\
  forall m', m < m' <= 12 -> ay_oncesi leap m + ay_uzunlugu leap m <= ay_oncesi leap m'.
Proof.
  intros Hm. pose proof (aylar_tablo leap) as H. unfold aylar_uygun in H.
  rewrite forallb_forall in H.
  specialize (H m (seqZ_In 1 12 m ltac:(lia))).
  bool_prop. split_and!; [lia|lia|lia|lia|]. intros m' Hm'.
  rewrite forallb_forall in H0.
  specialize (H0 m' (seqZ_In 1 12 m' ltac:(lia))).
  apply orb_true_iff in H0 as [H0|H0]; bool_prop; lia.
Qed.

(** A year has 365 days, 366 when it is a leap year. *)
Lemma days_before_year_ardisik y :
  _days_before_year (y + 1) = _days_before_year y + 365 + artik (_is_leap y).
Proof.
  unfold _days_before_year, _is_leap, artik.
  replace (y + 1 - 1) with y by lia.
  destruct (Z.eqb_spec (y mod 4) 0), (Z.eqb_spec (y mod 100) 0), (Z.eqb_spec (y mod 400) 0); simpl;
    Z.div_mod_to_equations; lia.
Qed.

Lemma days_before_year_artar y k : 0 <= k -> _days_before_year y + 365 * k <= _days_before_year (y + k).
Proof.
  intros Hk. pattern k. apply natlike_ind; [rewrite Z.mul_0_r, !Z.add_0_r; lia| |exact Hk].
  intros j Hj IH. replace (y + Z.succ j) with (y + j + 1) by lia. rewrite days_before_year_ardisik.
  pose proof (artik_aralik (_is_leap (y + j))). lia.
Qed.

(** The ordinal of a valid date lies in its year. *)
Lemma ymd2ord_yilda y m d :
  gecerli_ymd y m d = true ->
  _days_before_year y < _ymd2ord y m d <= _days_before_year (y + 1).
Proof.
  unfold gecerli_ymd, _ymd2ord. rewrite days_in_month_ay, days_before_month_ay, days_before_year_ardisik.
  intros H. bool_prop. destruct (ay_sinirlari (_is_leap y) m) as (Hu1 & Hu0 & Hu2 & _); [lia|].
  lia.
Qed.

(** [_ymd2ord] is one-to-one on valid dates. *)
Lemma ymd2ord_birebir y m d y' m' d' :
  gecerli_ymd y m d = true -> gecerli_ymd y' m' d' = true ->
  _ymd2ord y m d = _ymd2ord y' m' d' -> (y, m, d) = (y', m', d').
Proof.
  intros H H' E.
  assert (y = y') as <-.
  { pose proof (ymd2ord_yilda _ _ _ H). pose proof (ymd2ord_yilda _ _ _ H').
    destruct (Z.lt_trichotomy y y') as [Hl|[?|Hl]]; [|done|];
      [pose proof (days_before_year_artar (y + 1) (y' - (y + 1)) ltac:(lia))
      |pose proof (days_before_year_artar (y' + 1) (y - (y' + 1)) ltac:(lia))];
      rewrite Z.add_sub_assoc, Z.add_simpl_l in *; replace (y + 1 + y' - (y + 1)) with y' in * by lia;
      replace (y' + 1 + y - (y' + 1)) with y in * by lia; lia. }
  unfold gecerli_ymd, _ymd2ord in *. rewrite !days_in_month_ay in H, H'. rewrite !days_before_month_ay in E.
  bool_prop. assert (m = m') as <-.
  { destruct (Z.lt_trichotomy m m') as [Hl|[?|Hl]]; [|done|].
    - destruct (ay_sinirlari (_is_leap y) m) as (_ & _ & _ & Hs); [lia|]. specialize (Hs m'). lia.
    - destruct (ay_sinirlari (_is_leap y) m') as (_ & _ & _ & Hs); [lia|]. specialize (Hs m). lia. }
  f_equal. lia.
Qed.

Lemma days_before_year_sinir y : 1 <= y <= 9999 -> 0 <= _days_before_year y /\ _days_before_year (y + 1) <= MAXORD.
Proof.
  intros Hy. pose proof (days_before_year_artar 1 (y - 1) ltac:(lia)).
  pose proof (days_before_year_artar (y + 1) (9999 - y) ltac:(lia)).
  replace (1 + (y - 1)) with y in * by lia. replace (y + 1 + (9999 - y)) with 10000 in * by lia.
  assert (_days_before_year 1 = 0) as E1 by reflexivity.
  assert (_days_before_year 10000 = MAXORD) as E2 by reflexivity. lia.
Qed.

(** [_ord2ymd] inverts [_ymd2ord] on valid dates. *)
Lemma ord2ymd_ymd2ord y m d : gecerli_ymd y m d = true -> _ord2ymd (_ymd2ord y m d) = (y, m, d).
Proof.
  intros H. pose proof (ymd2ord_yilda _ _ _ H) as Hr.
  assert (1 <= y <= 9999) as Hy by (unfold gecerli_ymd in H; bool_prop; lia).
  pose proof (days_before_year_sinir y Hy).
  pose proof (ord2ymd_dogru (_ymd2ord y m d) ltac:(unfold MINORD; lia)) as Ho.
  destruct (_ord2ymd _) as [[y' m'] d']. destruct Ho as [Hv E].
  symmetry. by apply ymd2ord_birebir.
Qed.

(** ** Reading the digits back *)

Lemma basamaklar_uzunluk k n : length (basamaklar k n) = k.
Proof. revert n. induction k; intros n; simpl; [done|]. rewrite length_app, IHk. simpl. lia. Qed.

Lemma rakam_alani_aux_app acc l r :
  rakam_alani_aux acc (l ++ r) = (v ← rakam_alani_aux acc l; rakam_alani_aux v r).
Proof. revert acc. induction l as [|c l IH]; intros acc; simpl; [done|]. case_match; auto. Qed.

Lemma rakam_alani_basamaklar k n : 0 <= n < 10 ^ Z.of_nat k -> rakam_alani (basamaklar k n) = Some n.
Proof.
  revert n. induction k as [|k IH]; intros n Hn; cbn [basamaklar].
  - change (10 ^ Z.of_nat 0) with 1 in Hn. assert (n = 0) as -> by lia. done.
  - unfold rakam_alani in *. rewrite rakam_alani_aux_app, IH.
    + simpl. rewrite !(proj2 (Z.leb_le _ _)) by (pose proof (Z.mod_pos_bound n 10); lia). simpl.
      f_equal. pose proof (Z.div_mod n 10). lia.
    + rewrite Nat2Z.inj_succ, Z.pow_succ_r in Hn by lia. split; [apply Z.div_pos; lia|].
      apply Z.div_lt_upper_bound; lia.
Qed.

(** Four digits, a dash, two digits, a dash and two digits. *)
Lemma date_fromisoformat_alanlar y m d :
  0 <= y < 10000 -> 0 <= m < 100 -> 0 <= d < 100 ->
  date_fromisoformat (basamaklar 4 y ++ [45] ++ basamaklar 2 m ++ [45] ++ basamaklar 2 d) =
    if gecerli_ymd y m d then Tamam (_ymd2ord y m d) else Hata ValueError.
Proof.
  intros Hy Hm Hd.
  pose proof (rakam_alani_basamaklar 4 y Hy) as Ry. pose proof (rakam_alani_basamaklar 2 m Hm) as Rm.
  pose proof (rakam_alani_basamaklar 2 d Hd) as Rd.
  pose proof (basamaklar_uzunluk 4 y) as Ly. pose proof (basamaklar_uzunluk 2 m) as Lm.
  pose proof (basamaklar_uzunluk 2 d) as Ld.
  destruct (basamaklar 4 y) as [|y1 [|y2 [|y3 [|y4 [|]]]]]; try discriminate Ly.
  destruct (basamaklar 2 m) as [|m1 [|m2 [|]]]; try discriminate Lm.
  destruct (basamaklar 2 d) as [|d1 [|d2 [|]]]; try discriminate Ld.
  simpl. by rewrite Ry, Rm, Rd.
Qed.

Lemma ord2ymd_aralik g :
  MINORD <= g <= MAXORD -> let '(y, m, d) := _ord2ymd g in 0 <= y < 10000 /\ 0 <= m < 100 /\ 0 <= d < 100.
Proof.
  intros Hg. pose proof (ord2ymd_dogru g Hg) as H. destruct (_ord2ymd g) as [[y m] d].
  destruct H as [Hv _]. unfold gecerli_ymd in Hv. rewrite days_in_month_ay in Hv. bool_prop.
  destruct (ay_sinirlari (_is_leap y) m) as (Hs & _); [lia|]. lia.
Qed.

(** [date.fromisoformat(d.isoformat()) == d] for every date. *)
Lemma isoformat_geri_donus g : MINORD <= g <= MAXORD -> date_fromisoformat (isoformat g) = Tamam g.
Proof.
  intros Hg. pose proof (ord2ymd_dogru g Hg) as H. pose proof (ord2ymd_aralik g Hg) as Ha.
  unfold isoformat. destruct (_ord2ymd g) as [[y m] d]. destruct H as [Hv E]. destruct Ha as (? & ? & ?).
  rewrite date_fromisoformat_alanlar by done. by rewrite Hv, E.
Qed.

Lemma isoformat_uzunluk g : length (isoformat g) = 10%nat.
Proof.
  unfold isoformat. destruct (_ord2ymd g) as [[y m] d].
  rewrite !length_app, !basamaklar_uzunluk. done.
Qed.

(** [date(1000, 1, 1).toordinal()]: from this year on, [%Y] has four
    digits on every platform. *)
Definition YIL_1000 : Z := 364878.

Lemma YIL_1000_ord : _ymd2ord 1000 1 1 = YIL_1000.
Proof. reflexivity. Qed.

Lemma tarih_saat_geri_donus ayirac t :
  YIL_1000 * DAKIKA_GUN <= t < (MAXORD + 1) * DAKIKA_GUN ->
  datetime_fromisoformat (tarih_saat_metni ayirac t) = Tamam t.
Proof.
  unfold YIL_1000, MAXORD, DAKIKA_GUN. intros Ht. unfold tarih_saat_metni, datetime_fromisoformat, DAKIKA_GUN.
  pose proof (Z.div_mod t 1440 ltac:(lia)). pose proof (Z.mod_pos_bound t 1440 ltac:(lia)).
  set (g := t / 1440) in *. set (s := t mod 1440) in *.
  rewrite take_app_length' by (symmetry; apply isoformat_uzunluk).
  rewrite drop_app_length' by (symmetry; apply isoformat_uzunluk).
  rewrite isoformat_geri_donus by (unfold MINORD, MAXORD; lia). cbn [mbind Sonuc_bind].
  assert (0 <= s / 60 < 24) by (split; [apply Z.div_pos|apply Z.div_lt_upper_bound]; lia).
  assert (0 <= s mod 60 < 60) by (apply Z.mod_pos_bound; lia).
  pose proof (rakam_alani_basamaklar 2 (s / 60) ltac:(simpl; lia)) as Rh.
  pose proof (rakam_alani_basamaklar 2 (s mod 60) ltac:(simpl; lia)) as Rn.
  pose proof (basamaklar_uzunluk 2 (s / 60)) as Lh. pose proof (basamaklar_uzunluk 2 (s mod 60)) as Ln.
  destruct (basamaklar 2 (s / 60)) as [|h1 [|h2 [|]]]; try discriminate Lh.
  destruct (basamaklar 2 (s mod 60)) as [|n1 [|n2 [|]]]; try discriminate Ln.
  simpl. rewrite Rh, Rn. rewrite !(proj2 (Z.ltb_lt _ _)) by lia. simpl.
  f_equal. pose proof (Z.div_mod s 60 ltac:(lia)). lia.
Qed.

(** Reading back the texts of a datetime: [datetime.fromisoformat]
    of what [strftime("%Y-%m-%d %H:%M")] writes (the exam window, before
    [sinav_kaydet]) and of what [isoformat(timespec="minutes")] writes
    (the stored [baslangic] and [bitis], read by the Excel export) gives
    back the datetime, for whole minutes from year 1000 to
    [datetime.max]; so these conversions lose nothing. *)
Theorem strftime_geri_donus t :
  YIL_1000 * DAKIKA_GUN <= t < (MAXORD + 1) * DAKIKA_GUN ->
  datetime_fromisoformat (strftime_dk t) = Tamam t /\ datetime_fromisoformat (isoformat_dk t) = Tamam t.
Proof. intros Ht. split; by apply tarih_saat_geri_donus. Qed.

Lemma strftime_geri_donus_ornek :
  strftime_dk (738886 * 1440 + 600) = ascii_str "2024-01-01 10:00" /\
  isoformat_dk (738886 * 1440 + 600) = ascii_str "2024-01-01T10:00" /\
  datetime_fromisoformat (strftime_dk (738886 * 1440 + 600)) = Tamam (738886 * 1440 + 600) /\
  datetime_fromisoformat (isoformat_dk (738886 * 1440 + 600)) = Tamam (738886 * 1440 + 600).
Proof.
  split; [vm_compute; reflexivity|]. split; [vm_compute; reflexivity|].
  apply strftime_geri_donus. unfold YIL_1000, MAXORD, DAKIKA_GUN. lia.
Defined.

End Takvim.
