(* ===== verification/SeatLayout.v ===== *)
(** * SeatLayout: the seat order of a room

    [_koltuk_listesi(enine, boyuna, sira_yapisi)], defined twice in the
    repository with the same body ([src/oturma_atayici.py] 18-42 and
    [src/koltuk_atama.py] 4-28).  Seats are [(sira, sutun)] pairs,
    1-indexed, row by row; inside a row the columns are visited one
    desk-group residue at a time (odd columns first for desks of two;
    columns 1,4,7,... then 2,5,8,... then 3,6,9,... for desks of three).
    The theorems: the order covers the [enine * boyuna] grid exactly once,
    it is row-major, and the first [ceil(enine / g)] seats of every row
    sit in pairwise different desks. *)

From S2P Require Import Prelude.

Module Koltuk.

(** [sira_yapisi = 3 if int(sira_yapisi or 0) == 3 else 2] *)
Definition sira_yapisi_norm (g : Z) : Z := if g =? 3 then 3 else 2.

(** The column order [siralama] of one row (lines 28-36). *)
Definition sutun_sirasi (enine g : Z) : list Z :=
  if g =? 2 then
    let tek := List.filter (fun c => c mod 2 =? 1) (py_range 1 (enine + 1) 1) in
    let cift := List.filter (fun c => c mod 2 =? 0) (py_range 1 (enine + 1) 1) in
    tek ++ cift
  else
    let grup1 := py_range 1 (enine + 1) 3 in
    let grup2 := py_range 2 (enine + 1) 3 in
    let grup3 := py_range 3 (enine + 1) 3 in
    grup1 ++ grup2 ++ grup3.

(** [_koltuk_listesi] of [oturma_atayici.py]. *)
Definition koltuk_listesi (enine boyuna sira_yapisi : Z) : list (Z * Z) :=
  if (enine <=? 0) || (boyuna <=? 0) then []
  else
    let siralama := sutun_sirasi enine (sira_yapisi_norm sira_yapisi) in
    List.flat_map (fun sira => map (fun sut => (sira, sut)) siralama)
      (py_range 1 (boyuna + 1) 1).

(** The copy in [koltuk_atama.py], written out with its own names. *)
Definition koltuk_listesi_ka (enine boyuna sira_yapisi : Z) : list (Z * Z) :=
  if (enine <=? 0) || (boyuna <=? 0) then []
  else
    let sira_yapisi := sira_yapisi_norm sira_yapisi in
    let sutun_sirasi :=
      if sira_yapisi =? 2 then
        List.filter (fun c => c mod 2 =? 1) (py_range 1 (enine + 1) 1)
          ++ List.filter (fun c => c mod 2 =? 0) (py_range 1 (enine + 1) 1)
      else
        py_range 1 (enine + 1) 3 ++ py_range 2 (enine + 1) 3
          ++ py_range 3 (enine + 1) 3 in
    List.flat_map (fun sira => map (fun sut => (sira, sut)) sutun_sirasi)
      (py_range 1 (boyuna + 1) 1).

(** The desk of a column when desks hold [g] seats. *)
Definition masa (g c : Z) : Z := (c - 1) / g.

(** ** Rows of pairs: generic lemmas on [flat_map] of rows *)
Section Satirlar.
Context {A B : Type}.

Definition satirlar (rows : list A) (cols : list B) : list (A * B) :=
  List.flat_map (fun r => map (fun c => (r, c)) cols) rows.

Lemma elem_of_satirlar rows cols r c :
  (r, c) ∈ satirlar rows cols <-> r ∈ rows /\ c ∈ cols.
Proof.
  unfold satirlar. rewrite !list_elem_of_In, in_flat_map.
  setoid_rewrite in_map_iff. setoid_rewrite <- list_elem_of_In.
  split; [intros (r' & Hr & c' & [= -> ->] & Hc); done|].
  intros [Hr Hc]. exists r. split; [done|]. by exists c.
Qed.

Lemma NoDup_satirlar rows cols :
  NoDup rows -> NoDup cols -> NoDup (satirlar rows cols).
Proof.
  intros Hr Hc. induction Hr as [|r rs Hnot Hrs IH]; simpl; [constructor|].
  apply NoDup_app. split; [|split; [|done]].
  - apply NoDup_fmap_2; [|done]. by intros ?? [=].
  - intros [r' c'] Hx Hy. apply list_elem_of_In, in_map_iff in Hx as (? & [= -> ->] & _).
    apply elem_of_satirlar in Hy as [? _]. done.
Qed.

Lemma length_satirlar rows cols :
  length (satirlar rows cols) = (length rows * length cols)%nat.
Proof.
  induction rows as [|r rs IH]; simpl; [done|].
  rewrite length_app, length_map, IH. lia.
Qed.

Lemma satirlar_perm rows cols cols' :
  cols ≡ₚ cols' -> satirlar rows cols ≡ₚ satirlar rows cols'.
Proof.
  intros Hp. induction rows as [|r rs IH]; simpl; [done|].
  apply Permutation_app; [by apply Permutation_map|done].
Qed.

(** Position [k] of the row-major list is row [k / n], column [k mod n]. *)
Lemma lookup_satirlar rows cols k :
  length cols <> 0%nat ->
  satirlar rows cols !! k =
  (r ← rows !! (k / length cols)%nat; c ← cols !! (k mod length cols)%nat; Some (r, c)).
Proof.
  intros Hn. revert k. induction rows as [|r rs IH]; intros k; simpl; [done|].
  destruct (decide (k < length cols)%nat) as [Hk|Hk].
  - rewrite lookup_app_l by (by rewrite length_map).
    rewrite Nat.div_small, Nat.mod_small by done. simpl.
    rewrite list_lookup_fmap. by destruct (cols !! k).
  - rewrite lookup_app_r by (rewrite length_map; lia). rewrite length_map, IH.
    replace (k / length cols)%nat with (S ((k - length cols) / length cols))%nat.
    + simpl. replace (k mod length cols)%nat with ((k - length cols) mod length cols)%nat;
        [done|].
      rewrite <- (Nat.Div0.mod_add (k - length cols) 1). f_equal. lia.
    + rewrite <- Nat.add_1_r, <- (Nat.div_add (k - length cols) 1) by done.
      f_equal. lia.
Qed.
End Satirlar.

(** The grid in plain row-major order. *)
Definition izgara (enine boyuna : Z) : list (Z * Z) := satirlar (seqZ 1 boyuna) (seqZ 1 enine).

(** ** The column order of a row *)

Lemma sutun_sirasi_perm e g : sutun_sirasi e g ≡ₚ seqZ 1 e.
Proof.
  unfold sutun_sirasi. destruct (g =? 2).
  - rewrite py_range_1. replace (e + 1 - 1) with e by lia.
    apply filter_app_compl. intros c. pose proof (Z.mod_pos_bound c 2).
    destruct (Z.eqb_spec (c mod 2) 0), (Z.eqb_spec (c mod 2) 1); simpl; done || lia.
  - apply NoDup_Permutation; [|apply NoDup_seqZ|].
    + rewrite !NoDup_app. repeat split; try apply NoDup_py_range; try lia;
        intros x; rewrite ?elem_of_app, !elem_of_py_range by lia; mod_lia.
    + intros x. rewrite !elem_of_app, !elem_of_py_range, elem_of_seqZ by lia. mod_lia.
Qed.

Lemma length_sutun_sirasi e g : length (sutun_sirasi e g) = Z.to_nat e.
Proof. by rewrite (sutun_sirasi_perm e g), length_seqZ. Qed.

Lemma koltuk_listesi_satirlar e b g :
  0 < e -> 0 < b ->
  koltuk_listesi e b g = satirlar (seqZ 1 b) (sutun_sirasi e (sira_yapisi_norm g)).
Proof.
  intros He Hb. unfold koltuk_listesi.
  rewrite (proj2 (Z.leb_gt e 0)), (proj2 (Z.leb_gt b 0)) by lia. simpl.
  rewrite py_range_1. by replace (b + 1 - 1) with b by lia.
Qed.

Lemma koltuk_listesi_perm e b g :
  0 < e -> 0 < b -> koltuk_listesi e b g ≡ₚ izgara e b.
Proof.
  intros He Hb. rewrite koltuk_listesi_satirlar by done.
  apply satirlar_perm, sutun_sirasi_perm.
Qed.

(** [koltuk_atama.py] and [oturma_atayici.py] generate the same seats. *)
Lemma koltuk_listesi_ka_eq e b g : koltuk_listesi_ka e b g = koltuk_listesi e b g.
Proof. reflexivity. Qed.

Lemma filter_tek_py_range (k : nat) a :
  a mod 2 = 1 ->
  List.filter (fun c => c mod 2 =? 1) (seqZ a (Z.of_nat k)) = py_range a (a + Z.of_nat k) 2.
Proof.
  revert a. induction k as [k IH] using lt_wf_ind. intros a Ha.
  destruct k as [|[|k]].
  - rewrite seqZ_nil, py_range_nil by lia. done.
  - rewrite seqZ_cons, seqZ_nil, py_range_cons, py_range_nil by lia. simpl.
    by rewrite Ha.
  - rewrite (seqZ_cons a), (seqZ_cons (Z.succ a)), (py_range_cons a) by lia. simpl.
    rewrite Ha. replace ((Z.succ a) mod 2 =? 1) with false.
    2:{ symmetry. apply Z.eqb_neq. rewrite <- Z.add_1_r, Zplus_mod, Ha. done. }
    f_equal. replace (Z.pred (Z.pred (Z.of_nat (S (S k))))) with (Z.of_nat k) by lia.
    replace (a + Z.of_nat (S (S k))) with (a + 2 + Z.of_nat k) by lia.
    replace (Z.succ (Z.succ a)) with (a + 2) by lia. apply IH; [lia|].
    rewrite Zplus_mod, Ha. done.
Qed.

Lemma masa_py_range g e :
  0 < g -> masa g <$> py_range 1 (e + 1) g = seqZ 0 ((e + g - 1) / g).
Proof.
  intros Hg. unfold py_range. replace (e + 1 - 1 + g - 1) with (e + g - 1) by lia.
  rewrite <- list_fmap_compose. rewrite <- (list_fmap_id (seqZ 0 _)) at 2.
  apply list_fmap_ext. intros i x _. unfold masa, compose, id.
  replace (1 + g * x - 1) with (x * g) by lia. apply Z.div_mul. lia.
Qed.

Lemma sutun_sirasi_ilk e g :
  0 <= e -> exists rest,
    sutun_sirasi e (sira_yapisi_norm g) = py_range 1 (e + 1) (sira_yapisi_norm g) ++ rest.
Proof.
  intros He. unfold sira_yapisi_norm, sutun_sirasi. destruct (g =? 3); simpl; [by eexists|].
  eexists. f_equal. rewrite py_range_1. replace (e + 1 - 1) with e by lia.
  rewrite <- (Z2Nat.id e) at 1 by lia. rewrite filter_tek_py_range by done.
  rewrite Z2Nat.id by lia. f_equal. lia.
Qed.

Lemma lookup_py_range a b s (i : nat) :
  0 < s -> (Z.of_nat i < (b - a + s - 1) / s) -> py_range a b s !! i = Some (a + s * Z.of_nat i).
Proof.
  intros Hs Hi. unfold py_range. rewrite list_lookup_fmap, lookup_seqZ_lt by done. done.
Qed.

Lemma koltuk_listesi_bos e b g :
  e <= 0 \/ b <= 0 -> koltuk_listesi e b g = [].
Proof.
  intros H. unfold koltuk_listesi.
  destruct H as [H|H]; [rewrite (proj2 (Z.leb_le e 0) H)|rewrite (proj2 (Z.leb_le b 0) H), orb_true_r];
    done.
Qed.

Lemma koltuk_listesi_nodup e b g : NoDup (koltuk_listesi e b g).
Proof.
  destruct (decide (0 < e /\ 0 < b)) as [[He Hb]|Hn].
  - rewrite koltuk_listesi_satirlar by done. apply NoDup_satirlar; [apply NoDup_seqZ|].
    rewrite sutun_sirasi_perm. apply NoDup_seqZ.
  - rewrite koltuk_listesi_bos by lia. constructor.
Qed.

Lemma elem_of_koltuk_listesi e b g r c :
  (r, c) ∈ koltuk_listesi e b g <-> 0 < e /\ 0 < b /\ 1 <= r <= b /\ 1 <= c <= e.
Proof.
  destruct (decide (0 < e /\ 0 < b)) as [[He Hb]|Hn].
  - rewrite koltuk_listesi_satirlar, elem_of_satirlar, sutun_sirasi_perm, !elem_of_seqZ by done.
    lia.
  - rewrite koltuk_listesi_bos by lia. rewrite elem_of_nil. lia.
Qed.

Lemma length_koltuk_listesi e b g :
  length (koltuk_listesi e b g) = if (e <=? 0) || (b <=? 0) then 0%nat else Z.to_nat (e * b).
Proof.
  destruct (decide (0 < e /\ 0 < b)) as [[He Hb]|Hn].
  - rewrite koltuk_listesi_satirlar by done.
    rewrite (proj2 (Z.leb_gt e 0)), (proj2 (Z.leb_gt b 0)) by lia. simpl.
    rewrite length_satirlar, length_sutun_sirasi, length_seqZ, Z2Nat.inj_mul by lia. lia.
  - rewrite koltuk_listesi_bos by lia.
    destruct (Z.leb_spec e 0), (Z.leb_spec b 0); simpl; lia.
Qed.

(** ** Theorems *)

(** for a room with positive width and depth, the seat order lists
    every cell [(sira, sutun)] of the [boyuna x enine] grid exactly once:
    no duplicates, exactly the cells with [1 <= sira <= boyuna] and
    [1 <= sutun <= enine], hence [enine * boyuna] seats. *)
Theorem koltuk_listesi_kapsar e b g :
  0 < e -> 0 < b ->
  NoDup (koltuk_listesi e b g) /\
  (forall r c, (r, c) ∈ koltuk_listesi e b g <-> 1 <= r <= b /\ 1 <= c <= e) /\
  length (koltuk_listesi e b g) = Z.to_nat (e * b).
Proof.
  intros He Hb. split; [apply koltuk_listesi_nodup|split].
  - intros r c. rewrite elem_of_koltuk_listesi. lia.
  - rewrite length_koltuk_listesi, (proj2 (Z.leb_gt e 0)), (proj2 (Z.leb_gt b 0)) by lia. done.
Qed.

(** The order is row-major: the seat at position [k] is in row
    [1 + k / enine] and its column is the [k mod enine]-th entry of the
    row's column order. *)
Theorem koltuk_listesi_satir_sirasi e b g (k : nat) r c :
  0 < e -> 0 < b ->
  koltuk_listesi e b g !! k = Some (r, c) ->
  r = 1 + Z.of_nat k / e /\
  sutun_sirasi e (sira_yapisi_norm g) !! (k mod Z.to_nat e)%nat = Some c.
Proof.
  intros He Hb. rewrite koltuk_listesi_satirlar, lookup_satirlar by (rewrite ?length_sutun_sirasi; lia).
  rewrite length_sutun_sirasi. intros Hk.
  destruct (seqZ 1 b !! _) as [r'|] eqn:Er; [|done]. simpl in Hk.
  destruct (sutun_sirasi _ _ !! _) eqn:Ec; [|done]. simpl in Hk. simplify_eq.
  apply lookup_seqZ in Er as [Er _]. split; [|done]. subst.
  rewrite Nat2Z.inj_div, Z2Nat.id by lia. lia.
Qed.

(** (dispersion): with desks of [g] seats ([g] normalised to 2 or 3),
    the first [ceil(enine / g)] seats of every row [r] are the first
    seat of each desk in turn, [(r, 1 + g * i)] at position
    [(r - 1) * enine + i]: a partly filled room seats its first students
    of a row one per desk.  For [g = 2] these are the odd columns. *)
Theorem koltuk_listesi_dagitik e b g r i :
  0 < e -> 1 <= r <= b ->
  0 <= i < (e + sira_yapisi_norm g - 1) / sira_yapisi_norm g ->
  koltuk_listesi e b g !! Z.to_nat ((r - 1) * e + i) =
    Some (r, 1 + sira_yapisi_norm g * i) /\
  masa (sira_yapisi_norm g) (1 + sira_yapisi_norm g * i) = i.
Proof.
  set (g' := sira_yapisi_norm g). intros He Hr Hi.
  assert (Hg : 2 <= g' <= 3) by (subst g'; unfold sira_yapisi_norm; destruct (g =? 3); lia).
  assert (Hie : i < e).
  { assert ((e + g' - 1) / g' <= e) by (apply Z.div_le_upper_bound; nia). lia. }
  split.
  - rewrite koltuk_listesi_satirlar, lookup_satirlar by (rewrite ?length_sutun_sirasi; lia).
    rewrite length_sutun_sirasi.
    assert (Hd : (Z.to_nat ((r - 1) * e + i) / Z.to_nat e)%nat = Z.to_nat (r - 1)).
    { apply Nat2Z.inj. rewrite Nat2Z.inj_div, !Z2Nat.id by nia.
      rewrite Z.div_add_l by lia. rewrite Z.div_small by lia. lia. }
    assert (Hm : (Z.to_nat ((r - 1) * e + i) mod Z.to_nat e)%nat = Z.to_nat i).
    { apply Nat2Z.inj. rewrite Nat2Z.inj_mod, !Z2Nat.id by nia.
      rewrite Z.add_comm, Z.mod_add by lia. apply Z.mod_small. lia. }
    rewrite Hd, Hm, lookup_seqZ_lt by lia. simpl.
    destruct (sutun_sirasi_ilk e g) as [rest ->]; [lia|]. fold g'.
    rewrite lookup_app_l.
    + rewrite lookup_py_range; [simpl|lia|].
      2:{ rewrite Z2Nat.id by lia. replace (e + 1 - 1 + g' - 1) with (e + g' - 1) by lia. lia. }
      rewrite !Z2Nat.id by lia. do 2 f_equal; lia.
    + unfold py_range. rewrite length_fmap, length_seqZ.
      replace (e + 1 - 1 + g' - 1) with (e + g' - 1) by lia. lia.
  - unfold masa. replace (1 + g' * i - 1) with (i * g') by lia. apply Z.div_mul. lia.
Qed.

(** Witness of [koltuk_listesi_dagitik]: a room 8 wide, 5 deep, desks of two: the fourth seat
    of row 3 is column 7, in desk 3. *)
Lemma koltuk_listesi_dagitik_ornek :
  (0 < 8 /\ 1 <= 3 <= 5 /\ 0 <= 3 < (8 + sira_yapisi_norm 2 - 1) / sira_yapisi_norm 2) /\
  koltuk_listesi 8 5 2 !! Z.to_nat ((3 - 1) * 8 + 3) = Some (3, 1 + sira_yapisi_norm 2 * 3) /\
  masa (sira_yapisi_norm 2) (1 + sira_yapisi_norm 2 * 3) = 3.
Proof.
  assert (H : (8 + sira_yapisi_norm 2 - 1) / sira_yapisi_norm 2 = 4) by reflexivity.
  split; [rewrite H; lia|]. apply (koltuk_listesi_dagitik 8 5 2 3 3); rewrite ?H; lia.
Defined.

(** Witness of [koltuk_listesi_kapsar] on the spec's 8 x 5 room. *)
Lemma koltuk_listesi_kapsar_ornek :
  (0 < 8 /\ 0 < 5) /\ length (koltuk_listesi 8 5 2) = 40%nat.
Proof.
  split; [lia|]. apply (koltuk_listesi_kapsar 8 5 2); lia.
Defined.

(** Witness of [koltuk_listesi_satir_sirasi]. *)
Lemma koltuk_listesi_satir_sirasi_ornek :
  koltuk_listesi 8 5 2 !! 13%nat = Some (2, 4) /\
  2 = 1 + Z.of_nat 13 / 8 /\ sutun_sirasi 8 (sira_yapisi_norm 2) !! (13 mod Z.to_nat 8)%nat = Some 4.
Proof.
  split; [vm_compute; reflexivity|].
  apply (koltuk_listesi_satir_sirasi 8 5 2 13 2 4); [lia|lia|vm_compute; reflexivity].
Defined.

End Koltuk.
