(* ===== verification/SeatAssign.v ===== *)
(** * SeatAssign: the greedy seat engine of [src/oturma_atayici.py]

    [atama_yap(ogrenciler, derslikler)] (lines 44-98): every room's seat
    order is built with [_koltuk_listesi] and stored in a dict by room id,
    the rooms are sorted by capacity (descending, stable), and the
    students are given the seats of the first room, then of the next, in
    order, until students or seats run out.  The main theorem states the
    nested loop with its two [break]s as a single [zip] of the students
    with the concatenated seat sequence; uniqueness of seats, the count
    of seated students and the warnings follow from it. *)

From S2P Require Import Prelude SeatLayout.

Module Oturma.
Import Koltuk.

(** A room row as [atama_yap] reads it with [_g(dl, key, default)]
    (lines 59-62 and 76): a row of [derslikler], whose columns are all
    [NOT NULL] integers, so [_g] finds every key and never returns its
    default. *)
Record Derslik := {
  dl_id : Z;
  kapasite : Z;
  enine : Z;
  boyuna : Z;
  sira_yapisi : Z
}.

(** [(ogr_id, derslik_id, sira, sut)] *)
Record Atama := {
  a_ogr : Z;
  a_derslik : Z;
  a_sira : Z;
  a_sutun : Z
}.

(** The warning strings of [atama_yap], by the data they interpolate. *)
Inductive Uyari :=
  | KapasiteYetersiz (ogrenci koltuk : Z)   (* "Kapasite yetersiz: {n} öğrenci için {t} koltuk var." *)
  | OgrenciYok                              (* "Bu sınav için öğrenci bulunamadı." *)
  | Yerlesemedi (kalan : Z).                (* "{kalan} öğrenci yerleşemedi (kapasite dolu)." *)

#[export] Instance Uyari_eq_dec : EqDecision Uyari.
Proof. solve_decision. Defined.

(** Python's [x or d] on an integer. *)
Definition py_or (x d : Z) : Z := if x =? 0 then d else x.

(** The seats of one room: [_koltuk_listesi(enine, boyuna, sira_yapisi)]
    with [sira_yapisi = int(_g(dl, "sira_yapisi", 2) or 2)]. *)
Definition derslik_koltuklari (dl : Derslik) : list (Z * Z) :=
  koltuk_listesi (py_or (enine dl) 0) (py_or (boyuna dl) 0) (py_or (sira_yapisi dl) 2).

(** The body of the loop of lines 58-65: [derslik_koltuklari[dl_id] =
    koltuklar; toplam_kapasite += len(koltuklar)]. *)
Definition harita_adimi (st : gmap Z (list (Z * Z)) * Z) (dl : Derslik)
    : gmap Z (list (Z * Z)) * Z :=
  let '(m, toplam) := st in
  let koltuklar := derslik_koltuklari dl in
  (<[dl_id dl := koltuklar]> m, toplam + Z.of_nat (length koltuklar)).

(** Lines 55-65: the dict [derslik_koltuklari] and [toplam_kapasite]. *)
Definition koltuk_haritasi (derslikler : list Derslik) : gmap Z (list (Z * Z)) * Z :=
  fold_left harita_adimi derslikler (∅, 0).

(** The sort key [int(_g(d, "kapasite", enine*boyuna) or 0)] (line 76):
    the row has its [kapasite], so the default [enine*boyuna] is not
    used, and [or 0] maps a zero capacity to zero. *)
Definition kapasite_anahtari (dl : Derslik) : Z := py_or (kapasite dl) 0.

(** The inner loop [for (sira, sut) in koltuklar] (lines 84-90), with
    its [break] once every student is seated. *)
Fixpoint koltuk_dongusu (id : Z) (koltuklar : list (Z * Z)) (ogrenciler : list Z)
    (ogr_idx : nat) (atamalar : list Atama) : nat * list Atama :=
  match koltuklar with
  | [] => (ogr_idx, atamalar)
  | (sira, sut) :: rest =>
      if decide (length ogrenciler <= ogr_idx)%nat then (ogr_idx, atamalar)
      else match ogrenciler !! ogr_idx with
           | Some og =>
               koltuk_dongusu id rest ogrenciler (S ogr_idx)
                 (atamalar ++ [{| a_ogr := og; a_derslik := id; a_sira := sira; a_sutun := sut |}])
           | None => (ogr_idx, atamalar)
           end
  end.

(** The outer loop [for dl in derslikler_sirali] (lines 81-92). *)
Fixpoint derslik_dongusu (harita : gmap Z (list (Z * Z))) (derslikler : list Derslik)
    (ogrenciler : list Z) (ogr_idx : nat) (atamalar : list Atama) : nat * list Atama :=
  match derslikler with
  | [] => (ogr_idx, atamalar)
  | dl :: rest =>
      let koltuklar := default [] (harita !! dl_id dl) in
      let '(ogr_idx', atamalar') := koltuk_dongusu (dl_id dl) koltuklar ogrenciler ogr_idx atamalar in
      if decide (length ogrenciler <= ogr_idx')%nat then (ogr_idx', atamalar')
      else derslik_dongusu harita rest ogrenciler ogr_idx' atamalar'
  end.

(** [atama_yap(ogrenciler, derslikler)]: students are given by their ids,
    the only field of a student record the function reads. *)
Definition atama_yap (ogrenciler : list Z) (derslikler : list Derslik)
    : list Atama * list Uyari :=
  let '(harita, toplam_kapasite) := koltuk_haritasi derslikler in
  let n := Z.of_nat (length ogrenciler) in
  let uyarilar := if toplam_kapasite <? n then [KapasiteYetersiz n toplam_kapasite] else [] in
  match ogrenciler with
  | [] => ([], [OgrenciYok])
  | _ =>
      let derslikler_sirali := sirala_azalan kapasite_anahtari derslikler in
      let '(ogr_idx, atamalar) := derslik_dongusu harita derslikler_sirali ogrenciler 0 [] in
      let uyarilar :=
        if decide (ogr_idx < length ogrenciler)%nat
        then uyarilar ++ [Yerlesemedi (n - Z.of_nat ogr_idx)] else uyarilar in
      (atamalar, uyarilar)
  end.

(** ** The loops as a [zip] *)

(** The seat sequence of a list of rooms, each seat tagged with its room. *)
Definition etiketle (harita : gmap Z (list (Z * Z))) (dls : list Derslik) : list (Z * (Z * Z)) :=
  List.flat_map (fun dl => map (fun k => (dl_id dl, k)) (default [] (harita !! dl_id dl))) dls.

Definition ata (og : Z) (k : Z * (Z * Z)) : Atama :=
  {| a_ogr := og; a_derslik := k.1; a_sira := k.2.1; a_sutun := k.2.2 |}.

Lemma koltuk_dongusu_spec id ks ogr idx acc :
  koltuk_dongusu id ks ogr idx acc =
    (idx + min (length ks) (length ogr - idx),
     acc ++ zip_with ata (drop idx ogr) (map (fun k => (id, k)) ks))%nat.
Proof.
  revert idx acc. induction ks as [|[s c] ks IH]; intros idx acc; cbn [koltuk_dongusu map].
  - rewrite zip_with_nil_r, app_nil_r. f_equal. simpl. lia.
  - case_decide.
    + rewrite drop_ge by lia. rewrite zip_with_nil_l, app_nil_r. f_equal. cbn [length]. lia.
    + destruct (ogr !! idx) as [og|] eqn:E; [|apply lookup_ge_None in E; lia].
      rewrite IH, (drop_S ogr og idx E). cbn [zip_with map]. rewrite <- app_assoc.
      f_equal. cbn [length]. lia.
Qed.

Lemma etiketle_cons harita dl dls :
  etiketle harita (dl :: dls) =
    map (fun k => (dl_id dl, k)) (default [] (harita !! dl_id dl)) ++ etiketle harita dls.
Proof. reflexivity. Qed.

Lemma derslik_dongusu_spec harita dls ogr idx acc :
  derslik_dongusu harita dls ogr idx acc =
    (idx + min (length (etiketle harita dls)) (length ogr - idx),
     acc ++ zip_with ata (drop idx ogr) (etiketle harita dls))%nat.
Proof.
  revert idx acc. induction dls as [|dl dls IH]; intros idx acc; cbn [derslik_dongusu].
  - unfold etiketle; simpl. rewrite zip_with_nil_r, app_nil_r. f_equal. lia.
  - rewrite koltuk_dongusu_spec, etiketle_cons. set (ks := map _ (default [] _)).
    rewrite length_app, zip_with_app_r, zip_with_take_l, drop_drop, app_assoc.
    assert (Hks : length ks = length (default [] (harita !! dl_id dl))) by apply length_map.
    case_decide.
    + rewrite (drop_ge ogr (idx + length ks)) by lia.
      rewrite zip_with_nil_l, app_nil_r. f_equal. lia.
    + rewrite IH. f_equal; [lia|]. do 3 f_equal. lia.
Qed.

(** The shape of [atama_yap]'s result, for a non-empty class. *)
Lemma atama_yap_spec ogr dls :
  ogr <> [] ->
  let '(harita, toplam) := koltuk_haritasi dls in
  let ks := etiketle harita (sirala_azalan kapasite_anahtari dls) in
  let n := length ogr in
  atama_yap ogr dls =
    (zip_with ata ogr ks,
     (if toplam <? Z.of_nat n then [KapasiteYetersiz (Z.of_nat n) toplam] else []) ++
     (if decide (length ks < n)%nat then [Yerlesemedi (Z.of_nat n - Z.of_nat (length ks))] else [])).
Proof.
  intros Hne. unfold atama_yap. destruct (koltuk_haritasi dls) as [harita toplam].
  destruct ogr as [|o os]; [done|]. rewrite derslik_dongusu_spec. simpl. f_equal.
  repeat case_decide; rewrite ?app_nil_r; try done; try lia.
  do 3 f_equal. lia.
Qed.

(** ** The seat dict *)

(** The seats of all rooms, in room order, tagged with the room id. *)
Definition tum_koltuklar (dls : list Derslik) : list (Z * (Z * Z)) :=
  List.flat_map (fun dl => map (fun k => (dl_id dl, k)) (derslik_koltuklari dl)) dls.

Lemma harita_toplam dls m t :
  (fold_left harita_adimi dls (m, t)).2 = t + Z.of_nat (length (tum_koltuklar dls)).
Proof.
  revert m t. induction dls as [|dl dls IH]; intros m t; simpl; [lia|].
  rewrite IH, length_app, length_map. lia.
Qed.

Lemma harita_disinda dls m t i :
  i ∉ dl_id <$> dls -> (fold_left harita_adimi dls (m, t)).1 !! i = m !! i.
Proof.
  revert m t. induction dls as [|dl dls IH]; intros m t Hi; simpl; [done|].
  rewrite fmap_cons, elem_of_cons in Hi. rewrite IH by naive_solver.
  apply lookup_insert_ne. naive_solver.
Qed.

Lemma harita_icinde dls m t dl :
  NoDup (dl_id <$> dls) -> dl ∈ dls ->
  (fold_left harita_adimi dls (m, t)).1 !! dl_id dl = Some (derslik_koltuklari dl).
Proof.
  revert m t. induction dls as [|dl' dls IH]; intros m t Hnd Hdl; simpl;
    [by apply elem_of_nil in Hdl|].
  rewrite fmap_cons, NoDup_cons in Hnd. destruct Hnd as [Hn Hnd].
  apply elem_of_cons in Hdl as [->|Hdl].
  - rewrite harita_disinda by done. apply lookup_insert_eq.
  - by apply IH.
Qed.

Lemma etiketle_tum harita dls :
  (forall dl, dl ∈ dls -> harita !! dl_id dl = Some (derslik_koltuklari dl)) ->
  etiketle harita dls = tum_koltuklar dls.
Proof.
  induction dls as [|dl dls IH]; intros H; [done|].
  rewrite etiketle_cons, (H dl) by apply list_elem_of_here. simpl. f_equal.
  apply IH. intros dl' ?. apply H. by apply list_elem_of_further.
Qed.

Lemma elem_of_tum_koltuklar dls i k :
  (i, k) ∈ tum_koltuklar dls <-> exists dl, dl ∈ dls /\ i = dl_id dl /\ k ∈ derslik_koltuklari dl.
Proof.
  induction dls as [|dl dls IH]; simpl.
  - rewrite elem_of_nil. split; [done|]. intros (? & Hd & _). by apply elem_of_nil in Hd.
  - rewrite elem_of_app, IH, list_elem_of_fmap. split.
    + intros [(k' & [= -> ->] & Hk)|(dl' & Hdl' & -> & Hk)].
      * exists dl. split; [apply list_elem_of_here|done].
      * exists dl'. split; [by apply list_elem_of_further|done].
    + intros (dl' & Hdl' & -> & Hk). apply elem_of_cons in Hdl' as [->|Hdl']; [left|right]; eauto.
Qed.

Lemma NoDup_tum_koltuklar dls : NoDup (dl_id <$> dls) -> NoDup (tum_koltuklar dls).
Proof.
  induction dls as [|dl dls IH]; intros Hnd; simpl; [constructor|].
  rewrite fmap_cons, NoDup_cons in Hnd. destruct Hnd as [Hn Hnd].
  apply NoDup_app. split; [|split; [|by apply IH]].
  - apply NoDup_fmap_2; [by intros ?? [=]|apply koltuk_listesi_nodup].
  - intros [i k] Hx Hy. apply list_elem_of_fmap in Hx as (k' & [= -> ->] & _).
    apply elem_of_tum_koltuklar in Hy as (dl' & Hdl' & Hid & _).
    apply Hn. rewrite Hid. by apply list_elem_of_fmap_2.
Qed.

Lemma sirali_perm dls : sirala_azalan kapasite_anahtari dls ≡ₚ dls.
Proof. apply sirala_perm. Qed.

Lemma sirali_nodup dls :
  NoDup (dl_id <$> dls) -> NoDup (dl_id <$> sirala_azalan kapasite_anahtari dls).
Proof. by rewrite sirali_perm. Qed.

Lemma tum_koltuklar_perm dls dls' : dls ≡ₚ dls' -> tum_koltuklar dls ≡ₚ tum_koltuklar dls'.
Proof. intros Hp. unfold tum_koltuklar. by rewrite Hp. Qed.

(** With distinct room ids the dict holds every room's own seats. *)
Lemma harita_etiketle dls :
  NoDup (dl_id <$> dls) ->
  etiketle (koltuk_haritasi dls).1 (sirala_azalan kapasite_anahtari dls) =
    tum_koltuklar (sirala_azalan kapasite_anahtari dls).
Proof.
  intros Hnd. apply etiketle_tum. intros dl Hdl. rewrite sirali_perm in Hdl.
  by apply harita_icinde.
Qed.

Lemma harita_toplam_sirali dls :
  (koltuk_haritasi dls).2 = Z.of_nat (length (tum_koltuklar (sirala_azalan kapasite_anahtari dls))).
Proof.
  unfold koltuk_haritasi. rewrite harita_toplam, (tum_koltuklar_perm _ _ (sirali_perm dls)). lia.
Qed.

Lemma atama_yap_zip ogr dls :
  NoDup (dl_id <$> dls) ->
  (atama_yap ogr dls).1 = zip_with ata ogr (tum_koltuklar (sirala_azalan kapasite_anahtari dls)).
Proof.
  intros Hnd. destruct ogr as [|o os]; [by unfold atama_yap; destruct (koltuk_haritasi dls)|].
  pose proof (atama_yap_spec (o :: os) dls ltac:(done)) as Hs.
  pose proof (harita_etiketle dls Hnd) as He.
  destruct (koltuk_haritasi dls) as [h t]. simpl in He. by rewrite Hs, He.
Qed.

Lemma koltuk_zip l K :
  (fun a => (a_derslik a, (a_sira a, a_sutun a))) <$> zip_with ata l K = take (length l) K.
Proof.
  revert K. induction l as [|o l IH]; intros [|[i [r c]] K]; simpl; try done.
  by rewrite IH.
Qed.

Lemma ogrenci_zip l K : a_ogr <$> zip_with ata l K = take (length K) l.
Proof.
  revert K. induction l as [|o l IH]; intros [|[i [r c]] K]; simpl; try done.
  by rewrite IH.
Qed.

Lemma NoDup_take_l {A} (l : list A) n : NoDup l -> NoDup (take n l).
Proof. rewrite <- (take_drop n l) at 1. intros H. by apply NoDup_app in H as [? _]. Qed.

Lemma py_or_0 x : py_or x 0 = x.
Proof. unfold py_or. destruct (Z.eqb_spec x 0); lia. Qed.

(** The abstract contract of the seat engine: students in input order
    are zipped with the seats of the rooms taken by decreasing capacity;
    the warnings report an empty class or the shortfall. *)
Definition atama_ozeti (ogr : list Z) (dls : list Derslik) : list Atama * list Uyari :=
  let K := tum_koltuklar (sirala_azalan kapasite_anahtari dls) in
  let n := Z.of_nat (length ogr) in
  let k := Z.of_nat (length K) in
  (zip_with ata ogr K,
   match ogr with
   | [] => [OgrenciYok]
   | _ => if k <? n then [KapasiteYetersiz n k; Yerlesemedi (n - k)] else []
   end).

(** ** Theorems *)

(** C13 (refinement): for rooms with distinct ids, [atama_yap] (its dict,
    its total, its two nested loops with their [break]s and its
    warnings) computes exactly the abstract contract [atama_ozeti]. *)
Theorem atama_yap_ozet ogr dls :
  NoDup (dl_id <$> dls) -> atama_yap ogr dls = atama_ozeti ogr dls.
Proof.
  intros Hnd. unfold atama_ozeti.
  destruct ogr as [|o os]; [by unfold atama_yap; destruct (koltuk_haritasi dls)|].
  pose proof (atama_yap_spec (o :: os) dls ltac:(done)) as Hs.
  pose proof (harita_etiketle dls Hnd) as He. pose proof (harita_toplam_sirali dls) as Ht.
  destruct (koltuk_haritasi dls) as [h t]. simpl in He, Ht. rewrite Hs, He, Ht. f_equal.
  destruct (Z.ltb_spec (Z.of_nat (length (tum_koltuklar (sirala_azalan kapasite_anahtari dls))))
              (Z.of_nat (length (o :: os)))); case_decide; try lia; done.
Qed.

(** C14 (seat uniqueness): for rooms with distinct ids, no two students of
    the result share a seat [(derslik_id, sira, sutun)]. *)
Theorem atama_yap_koltuk_tekil ogr dls :
  NoDup (dl_id <$> dls) ->
  NoDup ((fun a => (a_derslik a, (a_sira a, a_sutun a))) <$> (atama_yap ogr dls).1).
Proof.
  intros Hnd. rewrite atama_yap_zip, koltuk_zip by done.
  apply NoDup_take_l, NoDup_tum_koltuklar, sirali_nodup, Hnd.
Qed.

(** the seated students are the first [min(#students, #seats)]
    students, in input order: the [k]-th assignment goes to the [k]-th
    student, and everybody is seated when the seats suffice. *)
Theorem atama_yap_ogrenci_sirasi ogr dls :
  NoDup (dl_id <$> dls) ->
  a_ogr <$> (atama_yap ogr dls).1 = take (Z.to_nat (koltuk_haritasi dls).2) ogr.
Proof.
  intros Hnd. rewrite atama_yap_zip, ogrenci_zip, harita_toplam_sirali, Nat2Z.id by done.
  done.
Qed.

(** Every assignment names a room of the input and a seat of that
    room's grid: [1 <= sira <= boyuna] and [1 <= sutun <= enine]. *)
Theorem atama_yap_gecerli ogr dls a :
  NoDup (dl_id <$> dls) -> a ∈ (atama_yap ogr dls).1 ->
  exists dl, dl ∈ dls /\ a_derslik a = dl_id dl /\
    1 <= a_sira a <= boyuna dl /\ 1 <= a_sutun a <= enine dl.
Proof.
  intros Hnd Ha. rewrite atama_yap_zip in Ha by done.
  apply (list_elem_of_fmap_2 (fun a => (a_derslik a, (a_sira a, a_sutun a)))) in Ha.
  rewrite koltuk_zip in Ha. apply elem_of_take in Ha as (? & Ha & _).
  apply list_elem_of_lookup_2 in Ha.
  apply elem_of_tum_koltuklar in Ha as (dl & Hdl & Hid & Hk).
  rewrite sirali_perm in Hdl. exists dl. split; [done|split; [done|]].
  unfold derslik_koltuklari in Hk. rewrite elem_of_koltuk_listesi, !py_or_0 in Hk. lia.
Qed.

(** ** Witnesses on the spec's scenarios *)

Definition oda_8x5 : Derslik :=
  {| dl_id := 7; kapasite := 40; enine := 8; boyuna := 5; sira_yapisi := 2 |}.
Definition oda_6x5 : Derslik :=
  {| dl_id := 9; kapasite := 30; enine := 6; boyuna := 5; sira_yapisi := 3 |}.

(** Witness of [atama_yap_ozet]: 50 students and one room of 30 seats give 30
    assignments and the warnings "50 students for 30 seats" and
    "20 students not placed". *)
Lemma atama_yap_ozet_ornek :
  NoDup (dl_id <$> [oda_6x5]) /\
  atama_yap (seqZ 100 50) [oda_6x5] = atama_ozeti (seqZ 100 50) [oda_6x5] /\
  length (atama_yap (seqZ 100 50) [oda_6x5]).1 = 30%nat /\
  (atama_yap (seqZ 100 50) [oda_6x5]).2 = [KapasiteYetersiz 50 30; Yerlesemedi 20].
Proof.
  assert (Hn : NoDup (dl_id <$> [oda_6x5])) by karar.
  pose proof (atama_yap_ozet (seqZ 100 50) [oda_6x5] Hn) as H.
  split; [exact Hn|]. split; [exact H|]. rewrite H. split; vm_compute; reflexivity.
Defined.

(** Witness of [atama_yap_koltuk_tekil]: two rooms, 60 students. *)
Lemma atama_yap_koltuk_tekil_ornek :
  NoDup (dl_id <$> [oda_6x5; oda_8x5]) /\
  NoDup ((fun a => (a_derslik a, (a_sira a, a_sutun a))) <$>
           (atama_yap (seqZ 1 60) [oda_6x5; oda_8x5]).1).
Proof.
  assert (Hn : NoDup (dl_id <$> [oda_6x5; oda_8x5]))
    by karar.
  split; [exact Hn|]. exact (atama_yap_koltuk_tekil (seqZ 1 60) [oda_6x5; oda_8x5] Hn).
Defined.

(** Witness of [atama_yap_ogrenci_sirasi]: with 70 seats, 60 students are all seated in order. *)
Lemma atama_yap_ogrenci_sirasi_ornek :
  NoDup (dl_id <$> [oda_6x5; oda_8x5]) /\
  a_ogr <$> (atama_yap (seqZ 1 60) [oda_6x5; oda_8x5]).1 = seqZ 1 60.
Proof.
  assert (Hn : NoDup (dl_id <$> [oda_6x5; oda_8x5]))
    by karar.
  split; [exact Hn|]. rewrite (atama_yap_ogrenci_sirasi _ _ Hn). vm_compute. reflexivity.
Defined.

(** Witness of [atama_yap_gecerli]: the first assignment of the 8 x 5 room. *)
Lemma atama_yap_gecerli_ornek :
  exists a, a ∈ (atama_yap [1] [oda_8x5]).1 /\
  exists dl, dl ∈ [oda_8x5] /\ a_derslik a = dl_id dl /\
    1 <= a_sira a <= boyuna dl /\ 1 <= a_sutun a <= enine dl.
Proof.
  assert (Hn : NoDup (dl_id <$> [oda_8x5])) by karar.
  exists {| a_ogr := 1; a_derslik := 7; a_sira := 1; a_sutun := 1 |}.
  assert (Ha : {| a_ogr := 1; a_derslik := 7; a_sira := 1; a_sutun := 1 |}
                 ∈ (atama_yap [1] [oda_8x5]).1)
    by (vm_compute; apply list_elem_of_here).
  split; [exact Ha|]. exact (atama_yap_gecerli [1] [oda_8x5] _ Hn Ha).
Defined.

(** (counterexample to seat uniqueness without distinct room ids):
    a room listed twice is filled twice, so two students get the same
    seat.  The dict [derslik_koltuklari] keeps one entry per id while
    the fill loop visits every list element. *)
Theorem atama_yap_cift_derslik :
  let r := {| dl_id := 5; kapasite := 1; enine := 1; boyuna := 1; sira_yapisi := 2 |} in
  (atama_yap [1; 2] [r; r]).1 =
    [{| a_ogr := 1; a_derslik := 5; a_sira := 1; a_sutun := 1 |};
     {| a_ogr := 2; a_derslik := 5; a_sira := 1; a_sutun := 1 |}] /\
  ~ NoDup ((fun a => (a_derslik a, (a_sira a, a_sutun a))) <$> (atama_yap [1; 2] [r; r]).1).
Proof.
  split; [vm_compute; reflexivity|].
  intros H. vm_compute in H. apply NoDup_cons in H as [Hn _]. apply Hn, list_elem_of_here.
Qed.

End Oturma.
