(* ===== verification/SeatRoundRobin.v ===== *)
(** * SeatRoundRobin: the round-robin seat engine of [src/koltuk_atama.py]

    [atama_yap(ogrenciler, derslikler)] (lines 31-106) of
    [koltuk_atama.py]: the total of the rooms' [kapasite] columns is
    compared with the number of students, the rooms are sorted by
    [kapasite] (descending, stable), every room's seat order is built
    with the module's own [_koltuk_listesi], and a [while] loop hands
    the students out one at a time to the rooms in turn
    ([derslik_index % len(derslikler)]), removing a room from the list
    with [pop] once it is full.  The loop is not structural: it is
    defined with Equations by well-founded recursion on the number of
    students left plus the number of rooms left, which every iteration
    decreases, so the definition itself is the termination proof.

    Fill counters are kept per room id (the dict [doluluk]), so unlike
    the greedy engine of [SeatAssign] no seat is handed out twice even
    when a room is listed twice. *)

From S2P Require Import Prelude SeatLayout SeatAssign.
From Equations Require Import Equations.

Module RoundRobin.
Import Koltuk Oturma.

(** The warnings of this engine (their wording differs from those of
    [oturma_atayici]): "Kapasite yetersiz: {n} öğrenci için toplam {t}
    koltuk var.", "Bu sınav için öğrenci bulunamadı.", "{kalan} öğrenci
    yerleştirilemedi (kapasite dolu)." *)
Inductive Uyari :=
  | KapasiteYetersiz (ogrenci toplam : Z)
  | OgrenciYok
  | Yerlestirilemedi (kalan : Z).

(** [derslik_index % len(derslikler)] *)
Definition siradaki (di n : nat) : nat := (di mod n)%nat.
Arguments siradaki : simpl never.

Lemma siradaki_lt di n : (0 < n)%nat -> (siradaki di n < n)%nat.
Proof. intros. unfold siradaki. apply Nat.mod_upper_bound. lia. Qed.

Lemma length_delete_lt {A} (l : list A) k : (k < length l)%nat -> (length (delete k l) < length l)%nat.
Proof. intros Hk. rewrite length_delete; [lia|]. by apply lookup_lt_is_Some_2. Qed.

(** The [while] loop of lines 77-99, with the list [derslikler], the
    dict [doluluk], the two indices and the assignments built so far. *)
Equations dongu (ogrenciler : list Z) (harita : gmap Z (list (Z * Z)))
    (derslikler : list Derslik) (doluluk : gmap Z nat) (derslik_index ogrenci_index : nat)
    (atamalar : list Atama) : list Atama * nat
  by wf (length ogrenciler - ogrenci_index + length derslikler)%nat lt :=
  dongu ogrenciler harita [] doluluk di oi atamalar := (atamalar, oi);
  dongu ogrenciler harita (d0 :: dr) doluluk di oi atamalar
    with decide (oi < length ogrenciler)%nat := {
    | right _ => (atamalar, oi);
    | left Hoi =>
        let i := siradaki di (length (d0 :: dr)) in
        let dl := default d0 ((d0 :: dr) !! i) in
        let koltuklar := default [] (harita !! dl_id dl) in
        let dolu := default 0%nat (doluluk !! dl_id dl) in
        if decide (dolu < length koltuklar)%nat then
          let '(sira, sut) := default (0, 0) (koltuklar !! dolu) in
          let ogr := default 0 (ogrenciler !! oi) in
          dongu ogrenciler harita (d0 :: dr) (<[dl_id dl := S dolu]> doluluk) (S di) (S oi)
            (atamalar ++ [{| a_ogr := ogr; a_derslik := dl_id dl; a_sira := sira; a_sutun := sut |}])
        else dongu ogrenciler harita (delete i (d0 :: dr)) doluluk di oi atamalar }.
Next Obligation. lia. Qed.
Next Obligation.
  pose proof (length_delete_lt (d0 :: dr) (siradaki di (S (length dr)))
    (siradaki_lt di (S (length dr)) ltac:(lia))). simpl in *. lia.
Qed.


(** [derslik_koltuklari] (lines 58-63): the seat order of every room, by id. *)
Definition koltuk_haritasi (derslikler : list Derslik) : gmap Z (list (Z * Z)) :=
  fold_left (fun m dl =>
      <[dl_id dl := koltuk_listesi_ka (py_or (enine dl) 0) (py_or (boyuna dl) 0) (py_or (sira_yapisi dl) 2)]> m)
    derslikler ∅.

(** [sum(max(0, int(dl.get("kapasite") or 0)) for dl in derslikler)] (line 48). *)
Definition toplam_kapasite (derslikler : list Derslik) : Z :=
  foldr (fun dl acc => Z.max 0 (py_or (kapasite dl) 0) + acc) 0 derslikler.

(** [doluluk = {dl["id"]: 0 for dl in derslikler}] (line 75). *)
Definition doluluk_ilk (derslikler : list Derslik) : gmap Z nat :=
  fold_left (fun m dl => <[dl_id dl := 0%nat]> m) derslikler ∅.

(** [atama_yap(ogrenciler, derslikler)] (lines 31-106), students by id;
    the sort key [int(d.get("kapasite") or 0)] is the [kapasite] field. *)
Definition atama_yap (ogrenciler : list Z) (derslikler : list Derslik) : list Atama * list Uyari :=
  let n := Z.of_nat (length ogrenciler) in
  let toplam := toplam_kapasite derslikler in
  let uyarilar := if toplam <? n then [KapasiteYetersiz n toplam] else [] in
  let sirali := sirala_azalan kapasite derslikler in
  let harita := koltuk_haritasi sirali in
  match ogrenciler with
  | [] => ([], [OgrenciYok])
  | _ =>
      let '(atamalar, oi) := dongu ogrenciler harita sirali (doluluk_ilk sirali) 0 0 [] in
      (atamalar, if decide (oi < length ogrenciler)%nat
                 then uyarilar ++ [Yerlestirilemedi (n - Z.of_nat oi)] else uyarilar)
  end.

(** ** The loop invariant *)

(** An assignment as the seat it takes: [(derslik_id, (sira, sutun))]. *)
Definition uclu (a : Atama) : Z * (Z * Z) := (a_derslik a, (a_sira a, a_sutun a)).

(** The seats taken in room [r], in the order they were handed out. *)
Definition odadaki (r : Z) (acc : list Atama) : list (Z * Z) :=
  (fun a => (a_sira a, a_sutun a)) <$> List.filter (fun a => a_derslik a =? r) acc.

Section Dongu.
Context (ogrenciler : list Z) (harita : gmap Z (list (Z * Z))) (sirali : list Derslik).
Hypothesis harita_nodup : forall r ks, harita !! r = Some ks -> NoDup ks.

Abbreviation koltuklari r := (default [] (harita !! r)).
Abbreviation dolu dol r := (default 0%nat (dol !! r)).

Record RRInv (dls : list Derslik) (dol : gmap Z nat) (oi : nat) (acc : list Atama) : Prop := {
  rr_ogr : a_ogr <$> acc = take oi ogrenciler;
  rr_oi : (oi <= length ogrenciler)%nat;
  rr_oda : forall r, odadaki r acc = take (dolu dol r) (koltuklari r);
  rr_sinir : forall r, (dolu dol r <= length (koltuklari r))%nat;
  rr_tekil : NoDup (uclu <$> acc);
  rr_dolu : forall dl, dl ∈ sirali -> dl ∈ dls \/ dolu dol (dl_id dl) = length (koltuklari (dl_id dl))
}.

Lemma koltuklari_nodup r : NoDup (koltuklari r).
Proof. destruct (harita !! r) eqn:E; simpl; [by eapply harita_nodup|constructor]. Qed.

Lemma odadaki_snoc r acc a :
  odadaki r (acc ++ [a]) = odadaki r acc ++ (if a_derslik a =? r then [(a_sira a, a_sutun a)] else []).
Proof.
  unfold odadaki. rewrite List.filter_app, fmap_app. f_equal. simpl. by destruct (a_derslik a =? r).
Qed.

(** Handing out seat number [dolu] of room [r] to the next student. *)
Lemma rr_ata dls dol oi acc r s :
  RRInv dls dol oi acc -> (oi < length ogrenciler)%nat -> koltuklari r !! dolu dol r = Some s ->
  RRInv dls (<[r := S (dolu dol r)]> dol) (S oi)
    (acc ++ [{| a_ogr := default 0 (ogrenciler !! oi); a_derslik := r; a_sira := s.1; a_sutun := s.2 |}]).
Proof.
  intros [Ho Hoi Hoda Hs Ht Hd] Hlt Hk.
  assert (Hlt' : (dolu dol r < length (koltuklari r))%nat) by (by apply lookup_lt_Some in Hk).
  split.
  - rewrite fmap_app, Ho. simpl. destruct (ogrenciler !! oi) as [o|] eqn:E;
      [|apply lookup_ge_None in E; lia].
    by rewrite (take_S_r _ _ o E).
  - lia.
  - intros r'. rewrite odadaki_snoc. simpl. destruct (Z.eqb_spec r r') as [<-|Hne].
    + rewrite lookup_insert_eq, Hoda. simpl. rewrite (take_S_r _ _ s Hk). by destruct s.
    + rewrite lookup_insert_ne by done. by rewrite app_nil_r.
  - intros r'. destruct (decide (r = r')) as [<-|Hne].
    + rewrite lookup_insert_eq. simpl. lia.
    + rewrite lookup_insert_ne by done. apply Hs.
  - rewrite fmap_app. apply NoDup_app. split; [done|]. split; [|apply NoDup_singleton].
    intros x (a & -> & Ha)%list_elem_of_fmap Hx%list_elem_of_singleton.
    unfold uclu in Hx. simpl in Hx. injection Hx as Hr Hs1 Hs2.
    assert (Hin : s ∈ take (dolu dol r) (koltuklari r)).
    { rewrite <- Hoda. apply list_elem_of_fmap. exists a. split; [destruct s; simpl in *; congruence|].
      apply list_elem_of_In, filter_In. split; [by apply list_elem_of_In|].
      rewrite Hr. apply Z.eqb_refl. }
    apply elem_of_take in Hin as (i & Hi & Hilt).
    pose proof (NoDup_lookup _ _ _ _ (koltuklari_nodup r) Hi Hk). lia.
  - intros dl Hdl. destruct (Hd dl Hdl) as [H|H]; [by left|right].
    destruct (decide (r = dl_id dl)) as [->|Hne]; [lia|].
    by rewrite lookup_insert_ne by done.
Qed.

Lemma elem_of_delete_or {A} (l : list A) i x y :
  x ∈ l -> l !! i = Some y -> x ∈ delete i l \/ x = y.
Proof.
  intros Hx Hy. rewrite <- (take_drop_middle l i y Hy) in Hx. rewrite delete_take_drop.
  rewrite elem_of_app, elem_of_cons in Hx. rewrite elem_of_app. naive_solver.
Qed.

(** Removing a full room from the list ([pop], line 96). *)
Lemma rr_cikar dls dol oi acc i dl :
  RRInv dls dol oi acc -> dls !! i = Some dl ->
  (length (koltuklari (dl_id dl)) <= dolu dol (dl_id dl))%nat ->
  RRInv (delete i dls) dol oi acc.
Proof.
  intros [Ho Hoi Hoda Hs Ht Hd] Hi Hfull. split; try done.
  intros dl' Hdl'. destruct (Hd dl' Hdl') as [Hin|Hf]; [|by right].
  destruct (elem_of_delete_or dls i dl' dl Hin Hi) as [Hin'| ->]; [by left|right].
  specialize (Hs (dl_id dl)). lia.
Qed.

(** The loop ends with the invariant, and with every student seated or
    no room left in the list. *)
Lemma dongu_spec dls dol di oi acc :
  RRInv dls dol oi acc ->
  exists dls' dol', RRInv dls' dol' (dongu ogrenciler harita dls dol di oi acc).2
                      (dongu ogrenciler harita dls dol di oi acc).1 /\
    ((dongu ogrenciler harita dls dol di oi acc).2 = length ogrenciler \/ dls' = []).
Proof.
  funelim (dongu ogrenciler harita dls dol di oi acc); intros Hinv.
  - simpl. eauto.
  - set (i := siradaki di (length (d0 :: dr))) in *.
    set (dl := default d0 ((d0 :: dr) !! i)) in *.
    assert (Hi : (d0 :: dr) !! i = Some dl).
    { subst dl. destruct ((d0 :: dr) !! i) eqn:E; [done|]. exfalso. apply lookup_ge_None in E.
      pose proof (siradaki_lt di (length (d0 :: dr))). simpl in *. lia. }
    case_decide as Hlt.
    + destruct (koltuklari (dl_id dl) !! dolu doluluk (dl_id dl)) as [[sira sut]|] eqn:Hk;
        [|apply lookup_ge_None in Hk; lia].
      simpl. apply H; [done|]. by apply (rr_ata _ _ _ _ _ (sira, sut)).
    + apply H0; [done|]. eapply rr_cikar; [exact Hinv|exact Hi|lia].
  - simpl. exists (d0 :: dr), doluluk. split; [done|]. left.
    pose proof (rr_oi _ _ _ _ Hinv). lia.
Qed.

End Dongu.

(** ** The seat dict and the counters of [atama_yap] *)

Lemma lookup_fold_insert {A} (f : Derslik -> A) dls (m : gmap Z A) r x :
  fold_left (fun m dl => <[dl_id dl := f dl]> m) dls m !! r = Some x ->
  m !! r = Some x \/ exists dl, dl ∈ dls /\ dl_id dl = r /\ x = f dl.
Proof.
  revert m. induction dls as [|d dls IH]; intros m; simpl; [by left|].
  intros [Hm|(dl & Hdl & Hr & ->)]%IH.
  - destruct (decide (dl_id d = r)) as [<-|Hne].
    + rewrite lookup_insert_eq in Hm. injection Hm as <-. right. exists d. split; [constructor|done].
    + rewrite lookup_insert_ne in Hm by done. by left.
  - right. exists dl. split; [by constructor|done].
Qed.

Lemma lookup_fold_insert_yok {A} (f : Derslik -> A) dls (m : gmap Z A) r :
  r ∉ dl_id <$> dls -> fold_left (fun m dl => <[dl_id dl := f dl]> m) dls m !! r = m !! r.
Proof.
  revert m. induction dls as [|d dls IH]; intros m Hr; simpl; [done|].
  rewrite IH by set_solver. apply lookup_insert_ne. set_solver.
Qed.

Lemma lookup_fold_insert_nodup {A} (f : Derslik -> A) dls (m : gmap Z A) dl :
  NoDup (dl_id <$> dls) -> dl ∈ dls ->
  fold_left (fun m dl => <[dl_id dl := f dl]> m) dls m !! dl_id dl = Some (f dl).
Proof.
  revert m. induction dls as [|d dls IH]; intros m Hnd Hdl; [by apply elem_of_nil in Hdl|].
  simpl in *. apply NoDup_cons in Hnd as [Hnin Hnd].
  apply elem_of_cons in Hdl as [->|Hdl].
  - rewrite lookup_fold_insert_yok by done. apply lookup_insert_eq.
  - by apply IH.
Qed.

Lemma koltuk_haritasi_lookup dls r ks :
  koltuk_haritasi dls !! r = Some ks ->
  exists dl, dl ∈ dls /\ dl_id dl = r /\ ks = derslik_koltuklari dl.
Proof.
  intros [Hm|H]%lookup_fold_insert; [by rewrite lookup_empty in Hm|].
  destruct H as (dl & Hdl & Hr & ->). exists dl. split; [done|]. split; [done|].
  unfold derslik_koltuklari. by rewrite koltuk_listesi_ka_eq.
Qed.

Lemma koltuk_haritasi_nodup dls r ks : koltuk_haritasi dls !! r = Some ks -> NoDup ks.
Proof. intros (dl & _ & _ & ->)%koltuk_haritasi_lookup. apply koltuk_listesi_nodup. Qed.

Lemma doluluk_ilk_sifir dls r : default 0%nat (doluluk_ilk dls !! r) = 0%nat.
Proof.
  destruct (doluluk_ilk dls !! r) as [n|] eqn:E; [|done].
  apply lookup_fold_insert in E as [E|(_ & _ & _ & ->)]; [by rewrite lookup_empty in E|done].
Qed.

Lemma rr_ilk ogr dls :
  RRInv ogr (koltuk_haritasi dls) dls dls (doluluk_ilk dls) 0 [].
Proof.
  split; simpl; try done.
  - lia.
  - intros r. by rewrite doluluk_ilk_sifir.
  - intros r. rewrite doluluk_ilk_sifir. lia.
  - constructor.
  - intros dl Hdl. by left.
Qed.

(** The result of [atama_yap] on a non-empty class: the final state of
    the loop and its invariant. *)
Lemma atama_yap_dongu ogr dls :
  ogr <> [] ->
  exists dls' dol' oi, let sirali := sirala_azalan kapasite dls in
    RRInv ogr (koltuk_haritasi sirali) sirali dls' dol' oi (atama_yap ogr dls).1 /\
    (oi = length ogr \/ dls' = []) /\
    (atama_yap ogr dls).2 =
      (if toplam_kapasite dls <? Z.of_nat (length ogr)
       then [KapasiteYetersiz (Z.of_nat (length ogr)) (toplam_kapasite dls)] else []) ++
      (if decide (oi < length ogr)%nat then [Yerlestirilemedi (Z.of_nat (length ogr) - Z.of_nat oi)]
       else []).
Proof.
  intros Hne. unfold atama_yap. destruct ogr as [|o os]; [done|].
  set (sirali := sirala_azalan kapasite dls).
  destruct (dongu_spec (o :: os) (koltuk_haritasi sirali) sirali (koltuk_haritasi_nodup sirali)
    sirali (doluluk_ilk sirali) 0 0 [] (rr_ilk _ _)) as (dls' & dol' & Hinv & Hend).
  destruct (dongu _ _ _ _ _ _ _) as [acc oi]. simpl in *.
  exists dls', dol', oi. split; [done|]. split; [done|].
  case_decide; [done|]. by rewrite app_nil_r.
Qed.

Lemma odadaki_elem a acc : a ∈ acc -> (a_sira a, a_sutun a) ∈ odadaki (a_derslik a) acc.
Proof.
  intros Ha. apply list_elem_of_fmap. exists a. split; [done|].
  apply list_elem_of_In, filter_In. split; [by apply list_elem_of_In|apply Z.eqb_refl].
Qed.

Lemma elem_of_odadaki r acc s :
  s ∈ odadaki r acc -> exists a, a ∈ acc /\ a_derslik a = r /\ (a_sira a, a_sutun a) = s.
Proof.
  intros (a & -> & Ha)%list_elem_of_fmap. apply list_elem_of_In, filter_In in Ha as [Ha Hr].
  apply Z.eqb_eq in Hr. exists a. split; [by apply list_elem_of_In|done].
Qed.

Lemma koltuk_haritasi_nodup_lookup dls dl :
  NoDup (dl_id <$> dls) -> dl ∈ dls -> koltuk_haritasi dls !! dl_id dl = Some (derslik_koltuklari dl).
Proof.
  intros Hnd Hdl. unfold koltuk_haritasi. rewrite lookup_fold_insert_nodup by done.
  unfold derslik_koltuklari. by rewrite koltuk_listesi_ka_eq.
Qed.

Lemma atama_yap_bos dls : atama_yap [] dls = ([], [OgrenciYok]).
Proof. reflexivity. Qed.

Lemma rr_uzunluk ogr harita sirali dls dol oi acc :
  RRInv ogr harita sirali dls dol oi acc -> length acc = oi.
Proof.
  intros Hinv. rewrite <- (length_fmap a_ogr acc), (rr_ogr _ _ _ _ _ _ _ Hinv), length_take.
  pose proof (rr_oi _ _ _ _ _ _ _ Hinv). lia.
Qed.

(** ** Concrete rooms: a row of two seats and a row of three *)
Definition oda_a : Derslik := {| dl_id := 1; kapasite := 2; enine := 2; boyuna := 1; sira_yapisi := 2 |}.
Definition oda_b : Derslik := {| dl_id := 2; kapasite := 3; enine := 3; boyuna := 1; sira_yapisi := 2 |}.
(** A room whose [kapasite] column says 40 but whose layout has no seats. *)
Definition oda_bos : Derslik := {| dl_id := 3; kapasite := 40; enine := 0; boyuna := 5; sira_yapisi := 2 |}.

(** ** While no room is full: the round-robin order *)

(** How many of the students [0 .. oi-1] the room at position [k] of [m]
    rooms has received: those [j] with [j mod m = k]. *)
Definition sayac (m oi k : nat) : nat :=
  length (List.filter (fun j => Nat.eqb (j mod m) k) (seq 0 oi)).

Lemma sayac_S m oi k :
  sayac m (S oi) k = (sayac m oi k + if Nat.eqb (oi mod m) k then 1 else 0)%nat.
Proof.
  unfold sayac. rewrite seq_S, List.filter_app, length_app. simpl.
  destruct (Nat.eqb _ _); simpl; lia.
Qed.

Lemma divmod_S m oi : (0 < m)%nat ->
  (S oi mod m = if Nat.eqb (S (oi mod m)) m then 0 else S (oi mod m))%nat /\
  (S oi / m = if Nat.eqb (S (oi mod m)) m then S (oi / m) else oi / m)%nat.
Proof.
  intros Hm. pose proof (Nat.div_mod oi m ltac:(lia)) as Hd. pose proof (Nat.mod_upper_bound oi m ltac:(lia)).
  set (q := (oi / m)%nat) in *. set (r := (oi mod m)%nat) in *.
  destruct (Nat.eqb_spec (S r) m) as [Hr|Hr].
  - assert (E : S oi = (m * S q + 0)%nat) by (rewrite Nat.mul_succ_r; lia).
    split; [symmetry; apply (Nat.mod_unique _ _ (S q)); lia|].
    symmetry. apply (Nat.div_unique _ _ _ 0); lia.
  - assert (E : S oi = (m * q + S r)%nat) by lia.
    split; [symmetry; apply (Nat.mod_unique _ _ q); lia|].
    symmetry. apply (Nat.div_unique _ _ _ (S r)); lia.
Qed.

Lemma sayac_formul m oi k : (0 < m)%nat -> (k < m)%nat ->
  sayac m oi k = (oi / m + if decide (k < oi mod m)%nat then 1 else 0)%nat.
Proof.
  intros Hm Hk. induction oi as [|oi IH].
  - rewrite Nat.Div0.div_0_l, Nat.Div0.mod_0_l. unfold sayac. simpl.
    destruct (decide (k < 0)%nat); lia.
  - rewrite sayac_S, IH. destruct (divmod_S m oi Hm) as [Em Ed]. rewrite Em, Ed.
    pose proof (Nat.mod_upper_bound oi m ltac:(lia)).
    destruct (Nat.eqb_spec (S (oi mod m)) m), (Nat.eqb_spec (oi mod m) k),
      (decide (k < oi mod m)%nat), (decide (k < 0)%nat), (decide (k < S (oi mod m))%nat); lia.
Qed.

Lemma sayac_kendi m oi : (0 < m)%nat -> sayac m oi (oi mod m) = (oi / m)%nat.
Proof.
  intros Hm. rewrite sayac_formul by (try apply Nat.mod_upper_bound; lia).
  case_decide; lia.
Qed.

Section Sirayla.
Context (ogrenciler : list Z) (sirali : list Derslik) (d0 : Derslik).
Hypothesis sirali_nodup : NoDup (dl_id <$> sirali).
Hypothesis sirali_dolu : sirali <> [].
Hypothesis yeterli : forall dl, dl ∈ sirali ->
  (length ogrenciler <= length sirali * length (derslik_koltuklari dl))%nat.

(** The assignment of student [j] in round-robin order. *)
Definition beklenen (j : nat) : Atama :=
  let dl := default d0 (sirali !! (j mod length sirali)%nat) in
  let s := default (0, 0) (derslik_koltuklari dl !! (j / length sirali)%nat) in
  {| a_ogr := default 0 (ogrenciler !! j); a_derslik := dl_id dl; a_sira := s.1; a_sutun := s.2 |}.

Record RRSira (dol : gmap Z nat) (di oi : nat) (acc : list Atama) : Prop := {
  rs_di : di = oi;
  rs_oi : (oi <= length ogrenciler)%nat;
  rs_dol : forall k dl, sirali !! k = Some dl ->
    default 0%nat (dol !! dl_id dl) = sayac (length sirali) oi k;
  rs_acc : acc = beklenen <$> seq 0 oi
}.

Lemma dongu_sirayla harita dls dol di oi acc :
  harita = koltuk_haritasi sirali -> dls = sirali -> RRSira dol di oi acc ->
  dongu ogrenciler harita dls dol di oi acc =
    (beklenen <$> seq 0 (length ogrenciler), length ogrenciler).
Proof.
  funelim (dongu ogrenciler harita dls dol di oi acc); intros Hh Hs Hinv; subst.
  - by destruct sirali_dolu.
  - destruct Hinv as [-> Hoi' Hdol Hacc]. subst atamalar.
    set (i := siradaki oi (length (d1 :: dr))) in *.
    assert (Him : i = (oi mod length sirali)%nat) by (subst i; rewrite Hs; reflexivity).
    assert (Hm : (0 < length sirali)%nat) by (destruct sirali; [done|simpl; lia]).
    destruct (sirali !! i) as [dl|] eqn:Hi;
      [|exfalso; apply lookup_ge_None in Hi; rewrite Him in Hi;
        pose proof (Nat.mod_upper_bound oi (length sirali)); lia].
    assert (Hdl : default d1 ((d1 :: dr) !! i) = dl) by (rewrite Hs, Hi; reflexivity).
    rewrite Hdl in H |- *.
    assert (Hk : koltuk_haritasi sirali !! dl_id dl = Some (derslik_koltuklari dl))
      by (apply koltuk_haritasi_nodup_lookup; [done|by eapply list_elem_of_lookup_2]).
    rewrite Hk in H |- *. cbn [default from_option id] in H |- *.
    assert (Hd : default 0%nat (doluluk !! dl_id dl) = (oi / length sirali)%nat)
      by (rewrite (Hdol i dl Hi), Him; by apply sayac_kendi).
    rewrite Hd in H |- *.
    assert (Hlt : (oi / length sirali < length (derslik_koltuklari dl))%nat).
    { apply Nat.div_lt_upper_bound; [lia|].
      specialize (yeterli dl ltac:(by eapply list_elem_of_lookup_2)). lia. }
    rewrite decide_True by done.
    destruct (derslik_koltuklari dl !! (oi / length sirali)%nat) as [[sira sut]|] eqn:Hseat;
      [|apply lookup_ge_None in Hseat; lia].
    cbn [default from_option id]. apply (H Hlt sira sut); [done|done|]. split; [done|lia| |].
    + intros k dl' Hk'. rewrite sayac_S. destruct (decide (k = i)) as [->|Hne].
      * rewrite Hi in Hk'. injection Hk' as <-. rewrite lookup_insert_eq, <- Him, Nat.eqb_refl.
        simpl. rewrite <- Hd, (Hdol i dl Hi). lia.
      * assert (Hid : dl_id dl <> dl_id dl').
        { intros Hideq. apply Hne. eapply (NoDup_lookup (dl_id <$> sirali)); [done| |].
          - rewrite list_lookup_fmap, Hk'. simpl. by rewrite <- Hideq.
          - by rewrite list_lookup_fmap, Hi. }
        rewrite lookup_insert_ne by done. rewrite (Hdol k dl' Hk').
        rewrite <- Him. rewrite (proj2 (Nat.eqb_neq i k)) by congruence. lia.
    + rewrite seq_S, fmap_app. simpl. do 2 f_equal. unfold beklenen.
      rewrite <- Him, Hi. simpl. by rewrite Hseat.
  - destruct Hinv as [-> Hoi' Hdol Hacc]. subst atamalar.
    assert (Hn : oi = length ogrenciler) by lia. by rewrite Hn.
Qed.

End Sirayla.

(** ** Theorems *)

(** (seat uniqueness, whatever the rooms): no two assignments of the
    round-robin engine share a (room, row, column) seat, even when a
    room is listed twice: the fill counter and the seat list are kept
    per room id. *)
Theorem rr_koltuk_tekil ogr dls : NoDup (uclu <$> (atama_yap ogr dls).1).
Proof.
  destruct ogr as [|o os]; [rewrite atama_yap_bos; constructor|].
  destruct (atama_yap_dongu (o :: os) dls) as (dls' & dol' & oi & Hinv & _ & _); [done|].
  exact (rr_tekil _ _ _ _ _ _ _ Hinv).
Qed.

(** Students in order: the seated students are a prefix of the
    class list, in its order, each once. *)
Theorem rr_ogrenci_sirasi ogr dls :
  a_ogr <$> (atama_yap ogr dls).1 = take (length (atama_yap ogr dls).1) ogr.
Proof.
  destruct ogr as [|o os]; [by rewrite atama_yap_bos|].
  destruct (atama_yap_dongu (o :: os) dls) as (dls' & dol' & oi & Hinv & _ & _); [done|].
  rewrite (rr_uzunluk _ _ _ _ _ _ _ Hinv). exact (rr_ogr _ _ _ _ _ _ _ Hinv).
Qed.

(** Valid seats: every assignment names a room of the input and a
    seat of that room's layout. *)
Theorem rr_gecerli ogr dls a :
  a ∈ (atama_yap ogr dls).1 ->
  exists dl, dl ∈ dls /\ a_derslik a = dl_id dl /\ (a_sira a, a_sutun a) ∈ derslik_koltuklari dl.
Proof.
  destruct ogr as [|o os]; [rewrite atama_yap_bos; intros Ha; by apply elem_of_nil in Ha|].
  destruct (atama_yap_dongu (o :: os) dls) as (dls' & dol' & oi & Hinv & _ & _); [done|].
  intros Ha. pose proof (odadaki_elem _ _ Ha) as Hs.
  rewrite (rr_oda _ _ _ _ _ _ _ Hinv) in Hs.
  apply elem_of_take in Hs as (i & Hi & _). apply list_elem_of_lookup_2 in Hi. rename Hi into Hs.
  destruct (koltuk_haritasi (sirala_azalan kapasite dls) !! a_derslik a) as [ks|] eqn:E;
    simpl in Hs; [|by apply elem_of_nil in Hs].
  apply koltuk_haritasi_lookup in E as (dl & Hdl & Hid & ->). exists dl.
  split; [by apply sirala_elem in Hdl|done].
Qed.

(** No seat left free while a student waits: when the rooms have
    distinct ids and some student is not seated, every seat of every
    room is taken. *)
Theorem rr_tamamlar ogr dls dl s :
  NoDup (dl_id <$> dls) -> (length (atama_yap ogr dls).1 < length ogr)%nat ->
  dl ∈ dls -> s ∈ derslik_koltuklari dl -> (dl_id dl, s) ∈ uclu <$> (atama_yap ogr dls).1.
Proof.
  intros Hnd Hlt Hdl Hs. destruct ogr as [|o os]; [simpl in Hlt; lia|].
  destruct (atama_yap_dongu (o :: os) dls) as (dls' & dol' & oi & Hinv & Hend & _); [done|].
  rewrite (rr_uzunluk _ _ _ _ _ _ _ Hinv) in Hlt.
  destruct Hend as [-> | ->]; [lia|].
  assert (Hdl' : dl ∈ sirala_azalan kapasite dls) by (by apply sirala_elem).
  assert (Hk : koltuk_haritasi (sirala_azalan kapasite dls) !! dl_id dl = Some (derslik_koltuklari dl)).
  { apply koltuk_haritasi_nodup_lookup; [|done].
    unfold sirala_azalan. by rewrite sirala_perm. }
  destruct (rr_dolu _ _ _ _ _ _ _ Hinv dl Hdl') as [Hin|Hfull]; [by apply elem_of_nil in Hin|].
  pose proof (rr_oda _ _ _ _ _ _ _ Hinv (dl_id dl)) as Hoda. rewrite Hfull, take_ge in Hoda by lia.
  rewrite Hk in Hoda. simpl in Hoda. rewrite <- Hoda in Hs.
  apply elem_of_odadaki in Hs as (a & Ha & Hr & Hseat). apply list_elem_of_fmap.
  exists a. split; [|done]. unfold uclu. by rewrite Hr, Hseat.
Qed.

(** (shortfall warning from the [kapasite] column): the engine
    compares the class size with the sum of the rooms' [kapasite]
    columns, not with the seats their layouts have; a room whose column
    says 40 but whose layout has no seat gets no shortfall warning, and
    all three students are reported unplaced, while the greedy engine
    warns of the shortfall. *)
Theorem rr_kapasite_uyarisi_eksik :
  exists ogr dls,
    atama_yap ogr dls = ([], [Yerlestirilemedi 3]) /\
    Oturma.atama_yap ogr dls = ([], [Oturma.KapasiteYetersiz 3 0; Oturma.Yerlesemedi 3]) /\
    Forall (fun dl => derslik_koltuklari dl = []) dls.
Proof.
  exists [1; 2; 3], [oda_bos]. split; [vm_compute; reflexivity|]. split; [vm_compute; reflexivity|].
  repeat constructor.
Qed.

(** (round robin): when the rooms have distinct ids and each has at
    least [ceil(n / m)] seats for [n] students and [m] rooms, no room is
    ever full when its turn comes: every student is seated, and student
    [j] sits in room [j mod m] of the capacity-sorted list, at seat
    [j / m] of that room's order. *)
Theorem rr_sirayla ogr dls :
  dls <> [] -> NoDup (dl_id <$> dls) ->
  (forall dl, dl ∈ dls -> (length ogr <= length dls * length (derslik_koltuklari dl))%nat) ->
  length (atama_yap ogr dls).1 = length ogr /\
  forall j o, ogr !! j = Some o ->
    exists dl s, sirala_azalan kapasite dls !! (j mod length dls)%nat = Some dl /\
      derslik_koltuklari dl !! (j / length dls)%nat = Some s /\
      (atama_yap ogr dls).1 !! j = Some {| a_ogr := o; a_derslik := dl_id dl; a_sira := s.1; a_sutun := s.2 |}.
Proof.
  intros Hne Hnd Hy. destruct dls as [|d0 dr]; [done|].
  set (sirali := sirala_azalan kapasite (d0 :: dr)).
  assert (Hlen : length sirali = length (d0 :: dr)) by apply sirala_length.
  assert (Hnd' : NoDup (dl_id <$> sirali)) by (unfold sirali, sirala_azalan; by rewrite sirala_perm).
  assert (Hne' : sirali <> []) by (intros E; rewrite E in Hlen; discriminate).
  assert (Hy' : forall dl, dl ∈ sirali ->
    (length ogr <= length sirali * length (derslik_koltuklari dl))%nat)
    by (intros dl Hdl; rewrite Hlen; apply Hy; by apply sirala_elem in Hdl).
  assert (E : ogr <> [] -> (atama_yap ogr (d0 :: dr)).1 = beklenen ogr sirali d0 <$> seq 0 (length ogr)).
  { intros Hogr. unfold atama_yap. destruct ogr as [|o os]; [done|]. fold sirali.
    rewrite (dongu_sirayla (o :: os) sirali d0 Hnd' Hne' Hy' (koltuk_haritasi sirali) sirali
      (doluluk_ilk sirali) 0 0 []); [done|done|done|].
    split; [done|simpl; lia| |done]. intros k dl _. by rewrite doluluk_ilk_sifir. }
  destruct ogr as [|o os]; [split; [done|intros j o Hj; by rewrite lookup_nil in Hj]|].
  rewrite E by done. split; [by rewrite length_fmap, length_seq|].
  intros j o' Hj. pose proof (lookup_lt_Some _ _ _ Hj) as Hjl.
  rewrite <- Hlen. destruct (sirali !! (j mod length sirali)%nat) as [dl|] eqn:Hdl;
    [|apply lookup_ge_None in Hdl; pose proof (Nat.mod_upper_bound j (length sirali)); destruct sirali; simpl in *; lia].
  assert (Hjm : (j / length sirali < length (derslik_koltuklari dl))%nat).
  { apply Nat.div_lt_upper_bound; [destruct sirali; simpl in *; lia|].
    specialize (Hy' dl ltac:(by eapply list_elem_of_lookup_2)). lia. }
  destruct (derslik_koltuklari dl !! (j / length sirali)%nat) as [st|] eqn:Hs;
    [|apply lookup_ge_None in Hs; lia].
  exists dl, st. split; [done|]. split; [done|].
  rewrite list_lookup_fmap, lookup_seq_lt by done. simpl. unfold beklenen.
  by rewrite Hdl, Hj; simpl; rewrite Hs.
Qed.

(** ** Witnesses *)

Lemma rr_gecerli_ornek :
  (atama_yap [10; 11; 12; 13; 14; 15; 16] [oda_a; oda_b]).1 !! 0%nat =
    Some {| a_ogr := 10; a_derslik := 2; a_sira := 1; a_sutun := 1 |} /\
  exists dl, dl ∈ [oda_a; oda_b] /\ 2 = dl_id dl /\ (1, 1) ∈ derslik_koltuklari dl.
Proof.
  assert (E : (atama_yap [10; 11; 12; 13; 14; 15; 16] [oda_a; oda_b]).1 !! 0%nat =
    Some {| a_ogr := 10; a_derslik := 2; a_sira := 1; a_sutun := 1 |}) by (vm_compute; reflexivity).
  split; [exact E|].
  apply (rr_gecerli [10; 11; 12; 13; 14; 15; 16] [oda_a; oda_b]
    {| a_ogr := 10; a_derslik := 2; a_sira := 1; a_sutun := 1 |}).
  by apply list_elem_of_lookup_2 in E.
Defined.

Lemma rr_tamamlar_ornek :
  length (atama_yap [10; 11; 12; 13; 14; 15; 16] [oda_a; oda_b]).1 = 5%nat /\
  (1, (1, 2)) ∈ uclu <$> (atama_yap [10; 11; 12; 13; 14; 15; 16] [oda_a; oda_b]).1.
Proof.
  split; [vm_compute; reflexivity|].
  apply (rr_tamamlar [10; 11; 12; 13; 14; 15; 16] [oda_a; oda_b] oda_a (1, 2)).
  - karar.
  - vm_compute. lia.
  - apply list_elem_of_here.
  - vm_compute. apply list_elem_of_further, list_elem_of_here.
Defined.

Lemma rr_sirayla_ornek :
  (atama_yap [10; 11; 12; 13] [oda_a; oda_b]).1 !! 2%nat =
    Some {| a_ogr := 12; a_derslik := 2; a_sira := 1; a_sutun := 3 |} /\
  (length (atama_yap [10; 11; 12; 13] [oda_a; oda_b]).1 = length [10; 11; 12; 13] /\
   forall j o, [10; 11; 12; 13] !! j = Some o ->
     exists dl s, sirala_azalan kapasite [oda_a; oda_b] !! (j mod length [oda_a; oda_b])%nat = Some dl /\
       derslik_koltuklari dl !! (j / length [oda_a; oda_b])%nat = Some s /\
       (atama_yap [10; 11; 12; 13] [oda_a; oda_b]).1 !! j =
         Some {| a_ogr := o; a_derslik := dl_id dl; a_sira := s.1; a_sutun := s.2 |}).
Proof.
  split; [vm_compute; reflexivity|].
  apply (rr_sirayla [10; 11; 12; 13] [oda_a; oda_b]); [discriminate|karar|].
  intros dl Hdl. apply list_elem_of_In in Hdl. simpl in Hdl.
  destruct Hdl as [<-|[<-|[]]]; vm_compute; lia.
Defined.

End RoundRobin.
