(* ===== verification/Planner.v ===== *)
(** * Planner: [planla] of [src/planner.py] as explicit state passing

    The local variables of [planla] that change while it runs
    ([derslik_zaman], [ogr_zaman], [kullanim_say], [dersler_sirali],
    [yerlestirmeler], [uyarilar]) form the record [PState]; each loop of
    the function is one definition: [ders_dene] is one iteration of
    [for d in list(dersler_sirali)], [slot_dongusu] that loop,
    [slotlar_dongusu] the loop over the slots of a day and [gun_dongusu]
    the [while gun <= tarih_bit] loop.  Datetimes are minutes
    ([Interval.Tarih]); the additions of a [timedelta] may raise
    [OverflowError], and [list.remove] may raise [ValueError], so the
    loops return [Sonuc].  The placement list keeps, next to every
    placement dict, the course record [d] it was built from. *)

From S2P Require Import Prelude Interval Normalize.

Module Plan.
Import Aralik Tarih Normal.

(** A course dict as [dersler_ogrsay_ve_alanlar_detayli] builds it. *)
Record Ders := {
  ders_id : Z;
  kod : string;
  ad : string;
  hoca : option string;
  sinif : option Z;
  ogr_say : Z;
  ogr_ids : gset Z
}.

#[export] Instance Ders_eq_dec : EqDecision Ders.
Proof. solve_decision. Defined.

(** A room row; [planla] reads its [id] and [kapasite]. *)
Record Derslik := {
  dl_id : Z;
  kapasite : Z
}.

(** The normalised constraint dict [k] (lines 222-235 for a [PlanKisit]). *)
Record Kisit := {
  tarih_bas : Z;
  tarih_bit : Z;
  slot_saatleri : list SaatDegeri;
  varsayilan_sure_dk : Z;
  bekleme_dk : Z;
  tek_seans : bool;
  dahil_ders_ids : option (list Z);
  gun_disi : list GunDegeri;
  ders_istisna_sure : gmap Z Z
}.

(** A placement dict [{ders_id, baslangic, bitis, derslik_ids}]. *)
Record Yerlestirme := {
  y_ders_id : Z;
  baslangic : Z;
  bitis : Z;
  derslik_ids : list Z
}.

(** The warning of line 377-379, by the data it interpolates. *)
Inductive Uyari :=
  | DerslikBulunamadi (kod : string) (gun : Z) (saat : pystr).

Record PState := {
  derslik_zaman : gmap Z (list (Z * Z));
  ogr_zaman : gmap Z (list (Z * Z));
  kullanim_say : gmap Z Z;
  dersler_sirali : list Ders;
  yerlesenler : list (Ders * Yerlestirme);
  uyarilar : list Uyari
}.

(** Nothing of an interval list overlaps [[bas, bit)]. *)
Definition bos_mu (ivs : list (Z * Z)) (bas bit : Z) : bool :=
  forallb (fun iv => negb (overlaps bas bit iv.1 iv.2)) ivs.

(** [derslik_musait] (lines 301-305). *)
Definition derslik_musait (st : PState) (id bas bit : Z) : bool :=
  bos_mu (default [] (derslik_zaman st !! id)) bas bit.

(** [ogrenciler_musait] (lines 307-312). *)
Definition ogrenciler_musait (st : PState) (ids : gset Z) (bas bit : Z) : bool :=
  forallb (fun oid => bos_mu (default [] (ogr_zaman st !! oid)) bas bit) (elements ids).

(** [uygunlar] (lines 358-363). *)
Definition uygunlar (st : PState) (derslikler : list Derslik) (ogr_say bas bit : Z) : list Derslik :=
  List.filter (fun dl => (ogr_say <=? kapasite dl) && derslik_musait st (dl_id dl) bas bit)
    derslikler.

(** The sort key [(kullanim_say[id], kapasite)] of lines 367-370, compared
    lexicographically.  Every room id is a key of [kullanim_say] from line
    320 on, so the [default 0] never replaces a [KeyError]. *)
Definition anahtar_le (kullanim : gmap Z Z) (a b : Derslik) : bool :=
  let ua := default 0 (kullanim !! dl_id a) in
  let ub := default 0 (kullanim !! dl_id b) in
  (ua <? ub) || ((ua =? ub) && (kapasite a <=? kapasite b)).

(** Lines 355-373: sort [uygunlar] and take its first element. *)
Definition derslik_sec (st : PState) (derslikler : list Derslik) (ogr_say bas bit : Z)
    : option Derslik :=
  head (sirala (anahtar_le (kullanim_say st)) (uygunlar st derslikler ogr_say bas bit)).

(** [ogr_zaman.setdefault(oid, []).append((bas, bit))] for every student. *)
Definition ogr_ekle (m : gmap Z (list (Z * Z))) (ids : gset Z) (bas bit : Z)
    : gmap Z (list (Z * Z)) :=
  fold_left (fun m oid => <[oid := default [] (m !! oid) ++ [(bas, bit)]]> m) (elements ids) m.

(** Lines 382-400: record the placement, update the time tables and the
    usage counter, remove the course from the pool. *)
Definition yerlestir (st : PState) (d : Ders) (r bas bit : Z) : Sonuc PState :=
  kalan ← kaldir d (dersler_sirali st);
  Tamam {|
    yerlesenler := yerlesenler st ++
      [(d, {| y_ders_id := ders_id d; baslangic := bas; bitis := bit; derslik_ids := [r] |})];
    derslik_zaman := <[r := default [] (derslik_zaman st !! r) ++ [(bas, bit)]]> (derslik_zaman st);
    ogr_zaman := ogr_ekle (ogr_zaman st) (ogr_ids d) bas bit;
    kullanim_say := <[r := default 0 (kullanim_say st !! r) + 1]> (kullanim_say st);
    dersler_sirali := kalan;
    uyarilar := uyarilar st
  |}.

Definition uyari_ekle (st : PState) (u : Uyari) : PState :=
  {| derslik_zaman := derslik_zaman st; ogr_zaman := ogr_zaman st;
     kullanim_say := kullanim_say st; dersler_sirali := dersler_sirali st;
     yerlesenler := yerlesenler st; uyarilar := uyarilar st ++ [u] |}.

(** The constants of one run: the normalised constraints and the sorted rooms. *)
Record Ortam := {
  o_tek_seans : bool;
  o_sure_map : gmap Z Z;
  o_default_sure : Z;
  o_derslikler : list Derslik
}.

(** One iteration of [for d in list(dersler_sirali)] after the
    [eklendi_bu_slot] test (lines 343-404).  The boolean tells whether
    the course was placed. *)
Definition ders_dene (o : Ortam) (gun slot : Z) (d : Ders) (st : PState) : Sonuc (PState * bool) :=
  let sure_dk := default (o_default_sure o) (o_sure_map o !! ders_id d) in
  let bas := combine gun slot in
  bit ← dakika_ekle bas sure_dk;
  if negb (ogrenciler_musait st (ogr_ids d) bas bit) then Tamam (st, false)
  else match derslik_sec st (o_derslikler o) (ogr_say d) bas bit with
       | None => Tamam (uyari_ekle st (DerslikBulunamadi (kod d) gun (saat_yaz slot)), false)
       | Some dl => st' ← yerlestir st d (dl_id dl) bas bit; Tamam (st', true)
       end.

(** The loop [for d in list(dersler_sirali)] (lines 339-404). *)
Fixpoint slot_dongusu (o : Ortam) (gun slot : Z) (max_ders : nat) (aday : list Ders)
    (eklendi : nat) (st : PState) : Sonuc PState :=
  match aday with
  | [] => Tamam st
  | d :: rest =>
      if decide (max_ders <= eklendi)%nat then Tamam st
      else match ders_dene o gun slot d st with
           | Hata e => Hata e
           | Tamam (st', true) =>
               if o_tek_seans o then Tamam st'
               else slot_dongusu o gun slot max_ders rest (S eklendi) st'
           | Tamam (st', false) => slot_dongusu o gun slot max_ders rest eklendi st'
           end
  end.

(** The loop [for slot in slot_saatleri] of one day (lines 330-404). *)
Fixpoint slotlar_dongusu (o : Ortam) (gun : Z) (slotlar : list Z) (st : PState) : Sonuc PState :=
  match slotlar with
  | [] => Tamam st
  | slot :: rest =>
      match dersler_sirali st with
      | [] => Tamam st
      | _ =>
          let max_ders := if o_tek_seans o then 1%nat else length (dersler_sirali st) in
          st' ← slot_dongusu o gun slot max_ders (dersler_sirali st) 0 st;
          slotlar_dongusu o gun rest st'
      end
  end.

(** The loop [while gun <= tarih_bit] (lines 323-406), with fuel. *)
Fixpoint gun_dongusu (o : Ortam) (tarih_bit : Z) (gun_disi : gset Z) (slotlar : list Z)
    (yakit : nat) (gun : Z) (st : PState) : Sonuc PState :=
  match yakit with
  | O => Tamam st
  | S yakit' =>
      if gun <=? tarih_bit then
        if bool_decide (weekday gun ∈ gun_disi) then
          gun' ← gun_ekle gun 1; gun_dongusu o tarih_bit gun_disi slotlar yakit' gun' st
        else
          st' ← slotlar_dongusu o gun slotlar st;
          gun' ← gun_ekle gun 1; gun_dongusu o tarih_bit gun_disi slotlar yakit' gun' st'
      else Tamam st
  end.

(** The number of iterations of the day loop. *)
Definition gun_sayisi (k : Kisit) : nat := Z.to_nat (tarih_bit k - tarih_bas k + 1).

(** Line 295: [if dahil_ders_ids:] filters; [None] and [[]] do not. *)
Definition dahil_filtre (dahil : option (list Z)) (dersler : list Ders) : list Ders :=
  match dahil with
  | Some ((_ :: _) as izinli) => List.filter (fun d => bool_decide (ders_id d ∈ izinli)) dersler
  | _ => dersler
  end.

(** [default_sure_dk = int(k.get("varsayilan_sure_dk", 75) or 75)]. *)
Definition default_sure (k : Kisit) : Z :=
  if varsayilan_sure_dk k =? 0 then 75 else varsayilan_sure_dk k.

(** [kullanim_say = {id: 0 for dl in derslikler_sirali}] (line 320). *)
Definition kullanim_ilk (derslikler : list Derslik) : gmap Z Z :=
  fold_left (fun m dl => <[dl_id dl := 0]> m) derslikler ∅.

Definition ortam (k : Kisit) (derslikler : list Derslik) : Ortam :=
  {| o_tek_seans := tek_seans k; o_sure_map := ders_istisna_sure k;
     o_default_sure := default_sure k;
     o_derslikler := sirala_azalan kapasite derslikler |}.

Definition ilk_durum (k : Kisit) (dersler : list Ders) (derslikler : list Derslik) : PState :=
  {| derslik_zaman := ∅; ogr_zaman := ∅;
     kullanim_say := kullanim_ilk (sirala_azalan kapasite derslikler);
     dersler_sirali := sirala_azalan ogr_say (dahil_filtre (dahil_ders_ids k) dersler);
     yerlesenler := []; uyarilar := [] |}.

(** The run of the day loop from the initial state. *)
Definition planla_durum (k : Kisit) (dersler : list Ders) (derslikler : list Derslik) : Sonuc PState :=
  gun_dongusu (ortam k derslikler) (tarih_bit k) (normalize_gun_disi (gun_disi k))
    (omap to_time (slot_saatleri k)) (gun_sayisi k) (tarih_bas k) (ilk_durum k dersler derslikler).

(** [planla(kisitlar, dersler, derslikler)] (lines 205-409):
    [(yerlestirmeler, uyarilar, fatal)], or the exception it raises. *)
Definition planla (k : Kisit) (dersler : list Ders) (derslikler : list Derslik)
    : Sonuc (list Yerlestirme * list Uyari * bool) :=
  st ← planla_durum k dersler derslikler;
  Tamam (snd <$> yerlesenler st, uyarilar st, false).

End Plan.
