(* ===== verification/Constraints.v ===== *)
(** * Constraints: the constraint alias layer of [src/planner.py]

    [planla] accepts its constraints either as a [PlanKisit] dataclass or
    as a plain dict, both with legacy alias names.  This file models the
    layer that turns either form into the dict [k] that the body of
    [planla] reads (lines 205-290), and the helper
    [_normalize_ders_sureleri] (lines 76-110):
    - [PyDeger] is a Python value of the fields typed [Any] (the
      per-course durations); [py_truthy], [py_or] and [py_int_deger] are
      Python's truth test, [or] and [int()] on it;
    - [PlanKisit] is the dataclass with every field, [post_init] its
      [__post_init__] (lines 172-198);
    - [HamSozluk] is the dict form: one field per key the code reads, [None]
      when the key is absent and [Some v] when present (with [v] itself
      optional where the code tests [is not None]); [alias_coz] is the
      [else] branch of lines 236-270, [plankisit_sozluk] the dict built from
      a [PlanKisit] (lines 222-235); both give the resolved dict [Sozluk];
    - [sozluk_oku] is the reading of [k] at lines 272-290 that gives the
      record [Plan.Kisit] the planner model starts from, and
      [planla_girdi] is the whole of [planla] on either input form.
    Dict and dataclass fields other than the per-course durations hold
    values of their annotated types; a set given for the durations is not
    modelled (its iteration order is not determined by the code). *)

From S2P Require Import Prelude Normalize Planner.

Module Kisitlar.
Import Normal Plan.

(** ** Python values *)

#[warnings="-register-all"]
Inductive PyDeger :=
  | PyNone
  | PyBool (b : bool)
  | PyInt (z : Z)
  | PyStr (s : pystr)
  | PyList (l : list PyDeger)
  | PyTuple (l : list PyDeger)
  | PyDict (l : list (PyDeger * PyDeger)).

(** [bool(v)]. *)
Definition py_truthy (v : PyDeger) : bool :=
  match v with
  | PyNone => false
  | PyBool b => b
  | PyInt z => negb (z =? 0)
  | PyStr s => negb (bool_decide (s = []))
  | PyList l | PyTuple l => negb (bool_decide (l = []))
  | PyDict l => negb (bool_decide (l = []))
  end.

(** [a or b]. *)
Definition py_or (a b : PyDeger) : PyDeger := if py_truthy a then a else b.

(** [int(v)]; [None] where it raises ([TypeError] or [ValueError]). *)
Definition py_int_deger (v : PyDeger) : option Z :=
  match v with
  | PyInt z => Some z
  | PyBool b => Some (if b then 1 else 0)
  | PyStr s => py_int s
  | _ => None
  end.

(** [d.get(key)] for a string key of a dict. *)
Definition dict_get (l : list (PyDeger * PyDeger)) (key : string) : option PyDeger :=
  snd <$> List.find (fun kv => match kv.1 with
                               | PyStr s => bool_decide (s = ascii_str key)
                               | _ => false
                               end) l.

(** ** [_normalize_ders_sureleri] (lines 76-110) *)

(** [try: out[int(a)] = int(b) except Exception: pass]. *)
Definition cift_ekle (out : gmap Z Z) (a b : PyDeger) : gmap Z Z :=
  match py_int_deger a, py_int_deger b with
  | Some i, Some v => <[i := v]> out
  | _, _ => out
  end.

(** One iteration of [for it in v] over a list or tuple (lines 95-108). *)
Definition oge_adimi (out : gmap Z Z) (it : PyDeger) : gmap Z Z :=
  match it with
  | PyList (a :: b :: _) | PyTuple (a :: b :: _) => cift_ekle out a b
  | PyDict l =>
      let cid := match dict_get l "ders_id" with
                 | Some x => x | None => default PyNone (dict_get l "id") end in
      let dk := match dict_get l "sure" with
                | Some x => x | None => default PyNone (dict_get l "dk") end in
      match cid, dk with
      | PyNone, _ | _, PyNone => out
      | _, _ => cift_ekle out cid dk
      end
  | _ => out
  end.

Definition normalize_ders_sureleri (v : PyDeger) : gmap Z Z :=
  if negb (py_truthy v) then ∅
  else match v with
       | PyDict l => fold_left (fun out kv => cift_ekle out kv.1 kv.2) l ∅
       | PyList l | PyTuple l => fold_left oge_adimi l ∅
       | _ => ∅
       end.

(** ** The dataclass [PlanKisit] (lines 117-198) *)

Record PlanKisit := {
  pk_tarih_bas : Z;
  pk_tarih_bit : Z;
  pk_slot_saatleri : option (list SaatDegeri);
  pk_gunluk_slot_saatleri : option (list SaatDegeri);
  pk_varsayilan_sure_dk : option Z;
  pk_default_sure : option Z;
  pk_sure_dk : option Z;
  pk_vars_sure_dk : option Z;
  pk_bekleme_dk : option Z;
  pk_bekleme : option Z;
  pk_bekleme_suresi_dk : option Z;
  pk_sinav_turu : string;
  pk_tek_seans : option bool;
  pk_paralel_yasak : option bool;
  pk_tek_oturum : option bool;
  pk_dahil_ders_ids : option (list Z);
  pk_gun_disi : option (list GunDegeri);
  pk_ders_istisna_sure : PyDeger;
  pk_ders_sureleri : PyDeger;
  pk_ders_ozel_sureleri : PyDeger;
  pk_per_ders_sure : PyDeger;
  pk_slotlar : list Z;
  pk_ders_sure_map : gmap Z Z
}.

(** [next((x for x in kaynaklar if x is not None), ...)]. *)
Definition ilk_dolu {A} (kaynaklar : list (option A)) : option A := head (omap id kaynaklar).

(** [__post_init__] (lines 172-198): the slots parsed with [_to_time]
    (a [time] is always true), the first non-[None] duration, buffer and
    no-parallel flag, and the per-course durations of
    [a or b or c or d]. *)
Definition post_init (p : PlanKisit) : PlanKisit :=
  let raw := match pk_slot_saatleri p with
             | Some l => l | None => default [] (pk_gunluk_slot_saatleri p) end in
  let ds := py_or (py_or (py_or (pk_ders_istisna_sure p) (pk_ders_sureleri p))
                         (pk_ders_ozel_sureleri p)) (pk_per_ders_sure p) in
  {| pk_tarih_bas := pk_tarih_bas p; pk_tarih_bit := pk_tarih_bit p;
     pk_slot_saatleri := pk_slot_saatleri p;
     pk_gunluk_slot_saatleri := pk_gunluk_slot_saatleri p;
     pk_varsayilan_sure_dk := Some (default 75 (ilk_dolu [pk_varsayilan_sure_dk p;
        pk_default_sure p; pk_sure_dk p; pk_vars_sure_dk p]));
     pk_default_sure := pk_default_sure p; pk_sure_dk := pk_sure_dk p;
     pk_vars_sure_dk := pk_vars_sure_dk p;
     pk_bekleme_dk := Some (default 0 (ilk_dolu [pk_bekleme_dk p; pk_bekleme p;
        pk_bekleme_suresi_dk p]));
     pk_bekleme := pk_bekleme p; pk_bekleme_suresi_dk := pk_bekleme_suresi_dk p;
     pk_sinav_turu := pk_sinav_turu p;
     pk_tek_seans := Some (default false (ilk_dolu [pk_tek_seans p; pk_paralel_yasak p;
        pk_tek_oturum p]));
     pk_paralel_yasak := pk_paralel_yasak p; pk_tek_oturum := pk_tek_oturum p;
     pk_dahil_ders_ids := pk_dahil_ders_ids p; pk_gun_disi := pk_gun_disi p;
     pk_ders_istisna_sure := pk_ders_istisna_sure p; pk_ders_sureleri := pk_ders_sureleri p;
     pk_ders_ozel_sureleri := pk_ders_ozel_sureleri p; pk_per_ders_sure := pk_per_ders_sure p;
     pk_slotlar := omap to_time raw;
     pk_ders_sure_map := normalize_ders_sureleri ds |}.

(** ** The constraint dict *)

(** A dict given to [planla]: for each key, [None] when it is absent. *)
Record HamSozluk := {
  s_tarih_bas : option Z;
  s_tarih_bit : option Z;
  s_slot_saatleri : option (option (list SaatDegeri));
  s_gunluk_slot_saatleri : option (option (list SaatDegeri));
  s_varsayilan_sure_dk : option (option Z);
  s_default_sure : option (option Z);
  s_sure_dk : option (option Z);
  s_vars_sure_dk : option (option Z);
  s_bekleme_dk : option (option Z);
  s_bekleme : option (option Z);
  s_bekleme_suresi_dk : option (option Z);
  s_tek_seans : option (option bool);
  s_paralel_yasak : option (option bool);
  s_tek_oturum : option (option bool);
  s_dahil_ders_ids : option (option (list Z));
  s_gun_disi : option (option (list GunDegeri));
  s_ders_istisna_sure : option PyDeger;
  s_ders_sureleri : option PyDeger;
  s_ders_ozel_sureleri : option PyDeger;
  s_per_ders_sure : option PyDeger
}.

(** The keys of [k] that lines 272-290 read, after alias resolution. *)
Record Sozluk := {
  k_tarih_bas : option Z;
  k_tarih_bit : option Z;
  k_slot_saatleri : option (option (list SaatDegeri));
  k_varsayilan_sure_dk : option (option Z);
  k_bekleme_dk : option (option Z);
  k_tek_seans : option (option bool);
  k_dahil_ders_ids : option (option (list Z));
  k_gun_disi : option (option (list GunDegeri));
  k_ders_istisna_sure : option (gmap Z Z)
}.

(** [if alias in k and k[alias] is not None: ...; break] over the aliases. *)
Definition ilk_alias {A} (aliaslar : list (option (option A))) : option A :=
  ilk_dolu (map (fun o => o ≫= id) aliaslar).

(** [if "x" not in k: <alias loop>]: a present canonical key is kept. *)
Definition kanonik_yoksa {A} (kanonik : option (option A)) (aliaslar : list (option (option A)))
    : option (option A) :=
  match kanonik with
  | Some v => Some v
  | None => Some <$> ilk_alias aliaslar
  end.

(** Lines 236-270: the alias resolution of a dict. *)
Definition alias_coz (h : HamSozluk) : Sozluk :=
  {| k_tarih_bas := s_tarih_bas h; k_tarih_bit := s_tarih_bit h;
     k_slot_saatleri :=
       match s_slot_saatleri h, s_gunluk_slot_saatleri h with
       | None, Some g => Some (Some (default [] g))
       | s, _ => s
       end;
     k_varsayilan_sure_dk := kanonik_yoksa (s_varsayilan_sure_dk h)
       [s_default_sure h; s_sure_dk h; s_vars_sure_dk h];
     k_bekleme_dk := kanonik_yoksa (s_bekleme_dk h) [s_bekleme h; s_bekleme_suresi_dk h];
     k_tek_seans := kanonik_yoksa (s_tek_seans h) [s_paralel_yasak h; s_tek_oturum h];
     k_dahil_ders_ids := s_dahil_ders_ids h;
     k_gun_disi := s_gun_disi h;
     k_ders_istisna_sure :=
       match s_ders_istisna_sure h with
       | Some v => Some (normalize_ders_sureleri v)
       | None => normalize_ders_sureleri <$>
           head (List.filter py_truthy
                   (omap id [s_ders_sureleri h; s_ders_ozel_sureleri h; s_per_ders_sure h]))
       end |}.

(** Lines 222-235: the dict built from a [PlanKisit]. *)
Definition plankisit_sozluk (p : PlanKisit) : Sozluk :=
  {| k_tarih_bas := Some (pk_tarih_bas p); k_tarih_bit := Some (pk_tarih_bit p);
     k_slot_saatleri := Some (Some (SaatNesnesi <$> pk_slotlar p));
     k_varsayilan_sure_dk := Some (pk_varsayilan_sure_dk p);
     k_bekleme_dk := Some (pk_bekleme_dk p);
     k_tek_seans := Some (pk_tek_seans p);
     k_dahil_ders_ids := Some (pk_dahil_ders_ids p);
     k_gun_disi := Some (pk_gun_disi p);
     k_ders_istisna_sure := Some (pk_ders_sure_map p) |}.

(** [k.get(key, d)] on a key whose value may be [None]. *)
Definition al {A} (v : option (option A)) (d : option A) : option A :=
  match v with Some x => x | None => d end.

(** Lines 272-290: iterating [k.get("slot_saatleri", [])] raises
    [TypeError] on [None]; [k["tarih_bas"]] raises [KeyError]; the other
    reads take their [.get] defaults.  [int(x or 75)] is completed by
    [Plan.default_sure], which reads a [None] as the default it stands for. *)
Definition sozluk_oku (k : Sozluk) : Sonuc Kisit :=
  match al (k_slot_saatleri k) (Some []) with
  | None => Hata TypeError
  | Some slotlar =>
      match k_tarih_bas k, k_tarih_bit k with
      | Some bas, Some bit =>
          Tamam {| tarih_bas := bas; tarih_bit := bit; slot_saatleri := slotlar;
                   varsayilan_sure_dk := default 75 (al (k_varsayilan_sure_dk k) None);
                   bekleme_dk := default 0 (al (k_bekleme_dk k) None);
                   tek_seans := default false (al (k_tek_seans k) None);
                   dahil_ders_ids := al (k_dahil_ders_ids k) None;
                   gun_disi := default [] (al (k_gun_disi k) None);
                   ders_istisna_sure := default ∅ (k_ders_istisna_sure k) |}
      | _, _ => Hata KeyError
      end
  end.

(** The two input forms of [planla] (the [isinstance] test of line 221). *)
Inductive Girdi :=
  | GKisit (p : PlanKisit)
  | GSozluk (h : HamSozluk).

Definition kisit_coz (g : Girdi) : Sonuc Kisit :=
  sozluk_oku (match g with GKisit p => plankisit_sozluk p | GSozluk h => alias_coz h end).

(** [planla(kisitlar, dersler, derslikler)] on either input form. *)
Definition planla_girdi (g : Girdi) (dersler : list Ders) (derslikler : list Derslik)
    : Sonuc (list Yerlestirme * list Uyari * bool) :=
  k ← kisit_coz g; planla k dersler derslikler.

(** ** The equivalence of constraints that [planla] cannot tell apart

    [planla] reads the dates, the slots through [_to_time], the default
    duration through [or 75], the flags, the allow-list, the excluded days
    through [_normalize_gun_disi] and the per-course durations; the buffer
    is never read. *)
Definition kisit_denk (k1 k2 : Kisit) : Prop :=
  tarih_bas k1 = tarih_bas k2 /\ tarih_bit k1 = tarih_bit k2 /\
  omap to_time (slot_saatleri k1) = omap to_time (slot_saatleri k2) /\
  default_sure k1 = default_sure k2 /\ tek_seans k1 = tek_seans k2 /\
  dahil_ders_ids k1 = dahil_ders_ids k2 /\
  normalize_gun_disi (gun_disi k1) = normalize_gun_disi (gun_disi k2) /\
  ders_istisna_sure k1 = ders_istisna_sure k2.

#[export] Instance kisit_denk_equiv : Equivalence kisit_denk.
Proof.
  split.
  - intros k. unfold kisit_denk. split_and!; done.
  - intros k1 k2 (?&?&?&?&?&?&?&?). split_and!; congruence.
  - intros k1 k2 k3. unfold kisit_denk. intros (?&?&?&?&?&?&?&?) (?&?&?&?&?&?&?&?). split_and!; congruence.
Qed.

#[export] Instance planla_proper : Proper (kisit_denk ==> eq ==> eq ==> eq) planla.
Proof.
  intros k1 k2 (Hb & Hbit & Hs & Hd & Ht & Hdh & Hg & Hds) ds ? <- rs ? <-.
  unfold planla, planla_durum, ortam, ilk_durum, gun_sayisi.
  rewrite Hb, Hbit, Hs, Hd, Ht, Hdh, Hg, Hds. reflexivity.
Qed.

(** ** Spec-side encodings of the three accepted duration formats *)

Definition sozluk_bicimi (m : gmap Z Z) : PyDeger :=
  PyDict ((fun iv => (PyInt iv.1, PyInt iv.2)) <$> map_to_list m).
Definition cift_bicimi (m : gmap Z Z) : PyDeger :=
  PyList ((fun iv => PyTuple [PyInt iv.1; PyInt iv.2]) <$> map_to_list m).
Definition kayit_bicimi (m : gmap Z Z) : PyDeger :=
  PyList ((fun iv => PyDict [(PyStr (ascii_str "ders_id"), PyInt iv.1);
                             (PyStr (ascii_str "sure"), PyInt iv.2)]) <$> map_to_list m).

(** The dict a caller would pass for a [PlanKisit]: a field that is [None]
    is left out. *)
Definition varsa (v : PyDeger) : option PyDeger :=
  match v with PyNone => None | _ => Some v end.

Definition sozluk_of (p : PlanKisit) : HamSozluk :=
  {| s_tarih_bas := Some (pk_tarih_bas p); s_tarih_bit := Some (pk_tarih_bit p);
     s_slot_saatleri := Some <$> pk_slot_saatleri p;
     s_gunluk_slot_saatleri := Some <$> pk_gunluk_slot_saatleri p;
     s_varsayilan_sure_dk := Some <$> pk_varsayilan_sure_dk p;
     s_default_sure := Some <$> pk_default_sure p; s_sure_dk := Some <$> pk_sure_dk p;
     s_vars_sure_dk := Some <$> pk_vars_sure_dk p;
     s_bekleme_dk := Some <$> pk_bekleme_dk p; s_bekleme := Some <$> pk_bekleme p;
     s_bekleme_suresi_dk := Some <$> pk_bekleme_suresi_dk p;
     s_tek_seans := Some <$> pk_tek_seans p; s_paralel_yasak := Some <$> pk_paralel_yasak p;
     s_tek_oturum := Some <$> pk_tek_oturum p;
     s_dahil_ders_ids := Some <$> pk_dahil_ders_ids p;
     s_gun_disi := Some <$> pk_gun_disi p;
     s_ders_istisna_sure := varsa (pk_ders_istisna_sure p);
     s_ders_sureleri := varsa (pk_ders_sureleri p);
     s_ders_ozel_sureleri := varsa (pk_ders_ozel_sureleri p);
     s_per_ders_sure := varsa (pk_per_ders_sure p) |}.

(** ** Lemmas *)

Lemma fold_ekle_map {B} (f : gmap Z Z -> B -> gmap Z Z) (g : Z * Z -> B)
    (l : list (Z * Z)) (acc : gmap Z Z) :
  (forall acc iv, f acc (g iv) = <[iv.1 := iv.2]> acc) ->
  NoDup l.*1 -> fold_left f (g <$> l) acc = list_to_map l ∪ acc.
Proof.
  intros Hf. revert acc. induction l as [|[i v] l IH]; intros acc Hnd; simpl.
  - by rewrite map_empty_union.
  - rewrite Hf. simpl. apply NoDup_cons in Hnd as [Hi Hnd].
    rewrite IH by done. rewrite <- insert_union_l, <- insert_union_r; [done|].
    by apply not_elem_of_list_to_map_1.
Qed.

Lemma normalize_bicim {B} (f : gmap Z Z -> B -> gmap Z Z) (g : Z * Z -> B)
    (yap : list B -> PyDeger) (m : gmap Z Z) :
  (forall acc iv, f acc (g iv) = <[iv.1 := iv.2]> acc) ->
  (forall l, py_truthy (yap l) = negb (bool_decide (l = []))) ->
  (forall l, py_truthy (yap l) = true ->
     normalize_ders_sureleri (yap l) = fold_left f l ∅) ->
  normalize_ders_sureleri (yap (g <$> map_to_list m)) = m.
Proof.
  intros Hf Ht Hn. destruct (map_to_list m) as [|iv l] eqn:Hm.
  - unfold normalize_ders_sureleri. rewrite Ht. simpl.
    symmetry. by apply map_to_list_empty_iff.
  - rewrite <- Hm, Hn.
    + rewrite fold_ekle_map by (done || apply NoDup_fst_map_to_list).
      by rewrite map_union_empty, list_to_map_to_list.
    + rewrite Ht, Hm. by rewrite bool_decide_false.
Qed.

Lemma omap_to_time_nesne (l : list Z) : omap to_time (SaatNesnesi <$> l) = l.
Proof. induction l as [|a l IH]; [done|]. cbn. by rewrite IH. Qed.

Lemma ilk_alias_fmap {A} (l : list (option A)) : ilk_alias ((fun o : option A => Some <$> o) <$> l) = ilk_dolu l.
Proof. unfold ilk_alias, ilk_dolu. induction l as [|[]]; simpl; auto. Qed.

Lemma kanonik_yoksa_fmap {A} (a : option A) (l : list (option A)) :
  al (kanonik_yoksa (Some <$> a) ((fun o : option A => Some <$> o) <$> l)) None = ilk_dolu (a :: l).
Proof.
  destruct a as [x|]; [done|]. simpl.
  rewrite ilk_alias_fmap. unfold ilk_dolu, al.
  change (omap id (None :: l)) with (omap id l). by destruct (head (omap id l)).
Qed.

Lemma filter_varsa (l : list PyDeger) :
  List.filter py_truthy (omap id (varsa <$> l)) = List.filter py_truthy l.
Proof.
  induction l as [|a l IH]; [done|].
  assert (E : omap id (varsa <$> a :: l) =
              match varsa a with Some x => x :: omap id (varsa <$> l)
                               | None => omap id (varsa <$> l) end)
    by (destruct a; reflexivity).
  rewrite E. destruct a; cbn [varsa List.filter py_truthy]; rewrite IH; reflexivity.
Qed.

Lemma normalize_falsy v : py_truthy v = false -> normalize_ders_sureleri v = ∅.
Proof. unfold normalize_ders_sureleri. by intros ->. Qed.

Lemma sozluk_oku_tamam k kk :
  sozluk_oku k ?= kk ->
  al (k_slot_saatleri k) (Some []) = Some (slot_saatleri kk) /\
  k_tarih_bas k = Some (tarih_bas kk) /\ k_tarih_bit k = Some (tarih_bit kk) /\
  varsayilan_sure_dk kk = default 75 (al (k_varsayilan_sure_dk k) None) /\
  bekleme_dk kk = default 0 (al (k_bekleme_dk k) None) /\
  tek_seans kk = default false (al (k_tek_seans k) None) /\
  dahil_ders_ids kk = al (k_dahil_ders_ids k) None /\
  gun_disi kk = default [] (al (k_gun_disi k) None) /\
  ders_istisna_sure kk = default ∅ (k_ders_istisna_sure k).
Proof. unfold sozluk_oku. intros H. repeat case_match; simplify_eq/=. by split_and!. Qed.

Lemma py_or_dogru a b : py_truthy a = true -> py_or a b = a.
Proof. unfold py_or. by intros ->. Qed.

Lemma py_or_yanlis a b : py_truthy a = false -> py_or a b = b.
Proof. unfold py_or. by intros ->. Qed.

(** The per-course durations of both paths when the canonical field is
    [None] or true. *)
Lemma ders_sure_denk (a b c d : PyDeger) :
  a = PyNone \/ py_truthy a = true ->
  default ∅ (match varsa a with
             | Some v => Some (normalize_ders_sureleri v)
             | None => normalize_ders_sureleri <$>
                 head (List.filter py_truthy (omap id [varsa b; varsa c; varsa d]))
             end) =
  normalize_ders_sureleri (py_or (py_or (py_or a b) c) d).
Proof.
  intros [-> | Ha].
  - change (omap id [varsa b; varsa c; varsa d]) with (omap id (varsa <$> [b; c; d])).
    rewrite filter_varsa, (py_or_yanlis PyNone) by done. simpl.
    destruct (py_truthy b) eqn:Hb; simpl.
    { by rewrite (py_or_dogru b c), (py_or_dogru b d) by done. }
    rewrite (py_or_yanlis b c) by done. destruct (py_truthy c) eqn:Hc; simpl.
    { by rewrite (py_or_dogru c d) by done. }
    rewrite (py_or_yanlis c d) by done. destruct (py_truthy d) eqn:Hd; simpl; [done|].
    by rewrite normalize_falsy.
  - rewrite (py_or_dogru a b), (py_or_dogru a c), (py_or_dogru a d) by done.
    destruct a; simpl in Ha; try discriminate; done.
Qed.

(** ** Theorems *)

(** The three formats that [_normalize_ders_sureleri] documents, a
    dict [{ders_id: sure}], a list of pairs and a list of
    [{"ders_id": .., "sure": ..}] dicts, all give back the map they encode. *)
Theorem normalize_ders_sureleri_bicimler (m : gmap Z Z) :
  normalize_ders_sureleri (sozluk_bicimi m) = m /\
  normalize_ders_sureleri (cift_bicimi m) = m /\
  normalize_ders_sureleri (kayit_bicimi m) = m.
Proof.
  split_and!;
    [eapply (normalize_bicim (fun out kv => cift_ekle out kv.1 kv.2) _ PyDict)
    | eapply (normalize_bicim oge_adimi _ PyList) | eapply (normalize_bicim oge_adimi _ PyList)];
    solve [intros; reflexivity | intros ? Ht; unfold normalize_ders_sureleri; by rewrite Ht].
Qed.

(** Building constraints from a [PlanKisit] never raises, and its
    canonical duration, buffer, no-parallel flag and slot list win over
    their aliases whenever they are not [None]. *)
Theorem plankisit_kanonik_kazanir p :
  exists k, kisit_coz (GKisit (post_init p)) ?= k /\
  (forall n, pk_varsayilan_sure_dk p = Some n -> varsayilan_sure_dk k = n) /\
  (forall n, pk_bekleme_dk p = Some n -> bekleme_dk k = n) /\
  (forall b, pk_tek_seans p = Some b -> tek_seans k = b) /\
  (forall l, pk_slot_saatleri p = Some l -> omap to_time (slot_saatleri k) = omap to_time l).
Proof.
  eexists. split; [reflexivity|]. simpl.
  split_and!; intros ? E; rewrite E; [done..|]. apply omap_to_time_nesne.
Qed.

(** In the dict path a canonical key that is present wins over its
    aliases: the duration, buffer, no-parallel flag and slot list given
    under the canonical name are the ones [planla] uses, and the
    per-course durations are the normalised canonical value. *)
Theorem sozluk_kanonik_kazanir h k :
  kisit_coz (GSozluk h) ?= k ->
  (forall n, s_varsayilan_sure_dk h = Some (Some n) -> varsayilan_sure_dk k = n) /\
  (forall n, s_bekleme_dk h = Some (Some n) -> bekleme_dk k = n) /\
  (forall b, s_tek_seans h = Some (Some b) -> tek_seans k = b) /\
  (forall l, s_slot_saatleri h = Some (Some l) -> slot_saatleri k = l) /\
  (forall v, s_ders_istisna_sure h = Some v -> ders_istisna_sure k = normalize_ders_sureleri v).
Proof.
  intros H. apply sozluk_oku_tamam in H as (Hs & _ & _ & Hv & Hb & Ht & _ & _ & Hd).
  unfold alias_coz in *; simpl in *.
  split_and!; intros ? E; rewrite E in *; simpl in *; congruence.
Qed.

(** The dict path raises exactly [TypeError] when [slot_saatleri] is
    present with [None] (line 274 iterates it) and otherwise [KeyError]
    when a date is missing (lines 280-281); nothing else raises. *)
Theorem kisit_coz_sozluk_hata h e :
  kisit_coz (GSozluk h) = Hata e <->
  (s_slot_saatleri h = Some None /\ e = TypeError) \/
  (s_slot_saatleri h <> Some None /\ (s_tarih_bas h = None \/ s_tarih_bit h = None) /\
   e = KeyError).
Proof.
  destruct h as [tb tt ss gs ? ? ? ? ? ? ? ? ? ? ? ? ? ? ? ?].
  unfold kisit_coz, sozluk_oku, alias_coz; simpl.
  destruct ss as [[]|], gs as [[]|], tb, tt; simpl; split; intros; intuition congruence.
Qed.

(** C24 The two input forms agree: a [PlanKisit] and the dict holding its
    non-[None] fields plan the same way, unless the canonical per-course
    durations are an empty (false) value, which the dataclass skips. *)
Theorem planla_girdi_denk p ds rs :
  pk_ders_istisna_sure p = PyNone \/ py_truthy (pk_ders_istisna_sure p) = true ->
  planla_girdi (GSozluk (sozluk_of p)) ds rs = planla_girdi (GKisit (post_init p)) ds rs.
Proof.
  intros Hds. unfold planla_girdi, kisit_coz.
  destruct p as [tb tt sl gsl v1 v2 v3 v4 b1 b2 b3 tur t1 t2 t3 dh gd d1 d2 d3 d4 ? ?].
  simpl in Hds. pose proof (ders_sure_denk d1 d2 d3 d4 Hds) as Hd.
  destruct sl, gsl; simpl in *; apply planla_proper; try done;
    unfold kisit_denk, default_sure; simpl; split_and!;
    first [ done | by rewrite omap_to_time_nesne | by destruct v1, v2, v3, v4
          | by destruct t1, t2, t3 | by destruct gd | by destruct dh ].
Qed.

(** ** Examples and witnesses *)

Definition ornek_pk : PlanKisit :=
  {| pk_tarih_bas := 738000; pk_tarih_bit := 738004;
     pk_slot_saatleri := None; pk_gunluk_slot_saatleri := Some [SaatNesnesi 540];
     pk_varsayilan_sure_dk := None; pk_default_sure := Some 90; pk_sure_dk := None;
     pk_vars_sure_dk := None; pk_bekleme_dk := Some 15; pk_bekleme := None;
     pk_bekleme_suresi_dk := None; pk_sinav_turu := "vize";
     pk_tek_seans := None; pk_paralel_yasak := Some true; pk_tek_oturum := None;
     pk_dahil_ders_ids := None; pk_gun_disi := Some [GunSayi 5; GunSayi 6];
     pk_ders_istisna_sure := PyDict []; pk_ders_sureleri := PyDict [(PyInt 1, PyInt 120)];
     pk_ders_ozel_sureleri := PyNone; pk_per_ders_sure := PyNone;
     pk_slotlar := []; pk_ders_sure_map := ∅ |}.

Definition ornek_sozluk : HamSozluk :=
  {| s_tarih_bas := Some 738000; s_tarih_bit := Some 738004;
     s_slot_saatleri := None; s_gunluk_slot_saatleri := Some (Some [SaatMetni (ascii_str "09:00")]);
     s_varsayilan_sure_dk := Some None; s_default_sure := Some (Some 90); s_sure_dk := None;
     s_vars_sure_dk := None; s_bekleme_dk := None; s_bekleme := Some (Some 15);
     s_bekleme_suresi_dk := None; s_tek_seans := None; s_paralel_yasak := Some (Some true);
     s_tek_oturum := None; s_dahil_ders_ids := None; s_gun_disi := None;
     s_ders_istisna_sure := Some (PyDict []); s_ders_sureleri := Some (PyDict [(PyInt 1, PyInt 120)]);
     s_ders_ozel_sureleri := None; s_per_ders_sure := None |}.

(** Neither input form lets a present canonical field always win: a
    [PlanKisit] whose [ders_istisna_sure] is the empty dict takes the
    durations of its alias [ders_sureleri], and a dict whose
    [varsayilan_sure_dk] is present with [None] ignores [default_sure]
    and plans with 75 minutes. *)
Theorem kanonik_her_zaman_kazanmaz :
  (exists k, kisit_coz (GKisit (post_init ornek_pk)) ?= k /\
             ders_istisna_sure k = {[1 := 120]} /\ default_sure k = 90) /\
  (exists k, kisit_coz (GSozluk ornek_sozluk) ?= k /\
             ders_istisna_sure k = ∅ /\ default_sure k = 75).
Proof. split; eexists; split; [reflexivity | vm_compute; done | reflexivity | vm_compute; done]. Qed.

Definition ornek_sozluk_tamam : Kisit :=
  {| tarih_bas := 738000; tarih_bit := 738004; slot_saatleri := [SaatMetni (ascii_str "09:00")];
     varsayilan_sure_dk := 75; bekleme_dk := 15; tek_seans := true; dahil_ders_ids := None;
     gun_disi := []; ders_istisna_sure := ∅ |}.

(** Witness of [sozluk_kanonik_kazanir]. *)
Lemma sozluk_kanonik_kazanir_ornek :
  kisit_coz (GSozluk ornek_sozluk) ?= ornek_sozluk_tamam /\
  (forall v, s_ders_istisna_sure ornek_sozluk = Some v ->
             ders_istisna_sure ornek_sozluk_tamam = normalize_ders_sureleri v).
Proof.
  assert (H : kisit_coz (GSozluk ornek_sozluk) ?= ornek_sozluk_tamam) by reflexivity.
  split; [exact H|]. apply (sozluk_kanonik_kazanir ornek_sozluk ornek_sozluk_tamam H).
Defined.

Definition ornek_pk2 : PlanKisit :=
  {| pk_tarih_bas := 738000; pk_tarih_bit := 738001;
     pk_slot_saatleri := Some [SaatMetni (ascii_str "09:00"); SaatMetni (ascii_str "9")];
     pk_gunluk_slot_saatleri := None;
     pk_varsayilan_sure_dk := None; pk_default_sure := None; pk_sure_dk := Some 60;
     pk_vars_sure_dk := None; pk_bekleme_dk := None; pk_bekleme := None;
     pk_bekleme_suresi_dk := None; pk_sinav_turu := "final";
     pk_tek_seans := None; pk_paralel_yasak := None; pk_tek_oturum := Some false;
     pk_dahil_ders_ids := Some [1]; pk_gun_disi := None;
     pk_ders_istisna_sure := PyList [PyTuple [PyInt 1; PyInt 90]];
     pk_ders_sureleri := PyNone; pk_ders_ozel_sureleri := PyNone; pk_per_ders_sure := PyNone;
     pk_slotlar := []; pk_ders_sure_map := ∅ |}.

(** Witness of [planla_girdi_denk]. *)
Lemma planla_girdi_denk_ornek :
  py_truthy (pk_ders_istisna_sure ornek_pk2) = true /\
  planla_girdi (GSozluk (sozluk_of ornek_pk2)) [] [] =
  planla_girdi (GKisit (post_init ornek_pk2)) [] [].
Proof. split; [reflexivity|]. apply planla_girdi_denk. right. reflexivity. Defined.

End Kisitlar.
