(* ===== verification/Catalog.v ===== *)
(** * Catalog: the course and room reads of [src/veri_deposu.py]

    The tables [dersler], [ogrenciler], [ogrenci_ders] and [derslikler]
    of [src/veritabani.py] as lists of rows in rowid order ([Katalog]),
    and the queries that feed the planner and the UI:
    [dersler_ogrsay_ve_alanlar_detayli] (lines 418-457) and its copy
    inside [plan_kaynagini_hazirla] (lines 279-325), which build the
    course records [Plan.Ders] with the enrolled-student set and the
    class-year majority vote; [derslikler_kapasite_listesi] (lines
    459-466); the student search [ogrenci_ara_ve_dersleri_getir] (lines
    236-254) and [derse_kayitli_ogrenciler] (lines 356-367).

    A [WHERE] clause is a [filter], a join a filter of one table by the
    other, [ORDER BY] the stable sort [sirala] on the key (the rows of a
    department have distinct codes, [UNIQUE(bolum_id, kod)], so the sort
    on [kod] does not depend on the scan order; for equal capacities the
    model keeps rowid order).  Text is compared bytewise, as SQLite's
    [BINARY] collation does.  The [sinif] column holds an integer or
    [NULL]; [hoca] and [tur] hold a text or [NULL] (only the spreadsheet
    import of [ImportWindow] writes [tur]). *)

From S2P Require Import Prelude Planner.

Module Katalog.
Import Plan.

(** ** Rows and tables *)

Record DersSatiri := {
  ds_id : Z;
  ds_bolum_id : Z;
  ds_kod : string;
  ds_ad : string;
  ds_hoca : option string;
  ds_sinif : option Z;
  ds_tur : option string
}.

Record OgrenciSatiri := {
  og_id : Z;
  og_bolum_id : Z;
  og_ogr_no : string;
  og_adsoyad : string;
  og_sinif : option Z
}.

Record KayitSatiri := {
  kd_ogrenci_id : Z;
  kd_ders_id : Z
}.

Record DerslikSatiri := {
  dl_satir_id : Z;
  dl_bolum_id : Z;
  dl_kodu : string;
  dl_adi : string;
  dl_kapasite : Z;
  dl_enine : Z;
  dl_boyuna : Z;
  dl_sira_yapisi : Z
}.

Record Katalog := {
  t_dersler : list DersSatiri;
  t_ogrenciler : list OgrenciSatiri;
  t_ogrenci_ders : list KayitSatiri;
  t_derslikler : list DerslikSatiri
}.

(** [ORDER BY] on a text column. *)
Definition metin_le (a b : string) : bool :=
  match String.compare a b with Gt => false | _ => true end.

(** ** The class-year majority vote (lines 441-450) *)

(** One iteration of [for r in sinif_rows]: [NULL] is skipped. *)
Definition frek_adimi (frek : gmap Z Z) (r : OgrenciSatiri) : gmap Z Z :=
  match og_sinif r with
  | None => frek
  | Some s => <[s := default 0 (frek !! s) + 1]> frek
  end.

Definition frek_hesapla (rows : list OgrenciSatiri) : gmap Z Z := fold_left frek_adimi rows ∅.

(** The order of [key=lambda x: (-x[1], x[0])]. *)
Definition frek_le (x y : Z * Z) : bool := (y.2 <? x.2) || ((x.2 =? y.2) && (x.1 <=? y.1)).

(** [if frek: sorted(frek.items(), key=...)[0][0]]. *)
Definition cogunluk (frek : gmap Z Z) : option Z :=
  fst <$> head (sirala frek_le (map_to_list frek)).

(** ** The course records (lines 427-456) *)

(** [{r["ogrenci_id"] for r in SELECT ogrenci_id FROM ogrenci_ders WHERE ders_id=?}]. *)
Definition ogr_ids_of (kt : Katalog) (d_id : Z) : gset Z :=
  list_to_set (kd_ogrenci_id <$> filter (fun r => kd_ders_id r = d_id) (t_ogrenci_ders kt)).

(** [SELECT sinif FROM ogrenciler WHERE id IN (...)]. *)
Definition sinif_satirlari (kt : Katalog) (ids : gset Z) : list OgrenciSatiri :=
  filter (fun o => og_id o ∈ ids) (t_ogrenciler kt).

Definition ders_sinifi (kt : Katalog) (d : DersSatiri) (ids : gset Z) : option Z :=
  match ds_sinif d with
  | Some s => Some s
  | None => if decide (ids = ∅) then None else cogunluk (frek_hesapla (sinif_satirlari kt ids))
  end.

Definition ders_kaydi (kt : Katalog) (d : DersSatiri) : Ders :=
  let ids := ogr_ids_of kt (ds_id d) in
  {| ders_id := ds_id d; kod := ds_kod d; ad := ds_ad d; hoca := ds_hoca d;
     sinif := ders_sinifi kt d ids; ogr_say := Z.of_nat (size ids); ogr_ids := ids |}.

(** [SELECT ... FROM dersler d WHERE d.bolum_id=? ORDER BY d.kod]. *)
Definition bolum_dersleri (kt : Katalog) (bolum_id : Z) : list DersSatiri :=
  sirala (fun a b => metin_le (ds_kod a) (ds_kod b))
    (filter (fun d => ds_bolum_id d = bolum_id) (t_dersler kt)).

Definition dersler_ogrsay_ve_alanlar_detayli (kt : Katalog) (bolum_id : Z) : list Ders :=
  ders_kaydi kt <$> bolum_dersleri kt bolum_id.

(** Lines 459-466: [WHERE bolum_id=? ORDER BY kapasite DESC]. *)
Definition derslikler_kapasite_listesi (kt : Katalog) (bolum_id : Z) : list DerslikSatiri :=
  sirala_azalan dl_kapasite (filter (fun r => dl_bolum_id r = bolum_id) (t_derslikler kt)).

(** Lines 279-325: the same two queries in one connection. *)
Definition plan_kaynagini_hazirla (kt : Katalog) (bolum_id : Z) : list Ders * list DerslikSatiri :=
  let derslikler := sirala_azalan dl_kapasite
                      (filter (fun r => dl_bolum_id r = bolum_id) (t_derslikler kt)) in
  let dersler := sirala (fun a b => metin_le (ds_kod a) (ds_kod b))
                   (filter (fun d => ds_bolum_id d = bolum_id) (t_dersler kt)) in
  (ders_kaydi kt <$> dersler, derslikler).

(** The fields [planla] reads of a room row ([_getv(dl, "id")],
    [_getv(dl, "kapasite")]). *)
Definition derslik_gorunumu (r : DerslikSatiri) : Derslik :=
  {| dl_id := dl_satir_id r; kapasite := dl_kapasite r |}.

(** ** The student search (lines 236-254) and the class list (lines 356-367) *)

Definition ogrenci_ara_ve_dersleri_getir (kt : Katalog) (bolum_id : Z) (ogr_no : string)
    : option OgrenciSatiri * list (string * string) :=
  match List.find (fun o => bool_decide (og_bolum_id o = bolum_id /\ og_ogr_no o = ogr_no))
          (t_ogrenciler kt) with
  | None => (None, [])
  | Some o =>
      let satirlar := filter (fun '(e, d) => kd_ogrenci_id e = og_id o /\ ds_id d = kd_ders_id e)
                        (cprod (t_ogrenci_ders kt) (t_dersler kt)) in
      (Some o, (fun ed => (ds_kod ed.2, ds_ad ed.2)) <$>
                 sirala (fun a b => metin_le (ds_kod a.2) (ds_kod b.2)) satirlar)
  end.

Definition derse_kayitli_ogrenciler (kt : Katalog) (ders_id : Z) : list OgrenciSatiri :=
  let satirlar := filter (fun '(e, o) => kd_ders_id e = ders_id /\ og_id o = kd_ogrenci_id e)
                    (cprod (t_ogrenci_ders kt) (t_ogrenciler kt)) in
  snd <$> sirala (fun a b => metin_le (og_ogr_no a.2) (og_ogr_no b.2)) satirlar.

(** ** Spec side: the number of rows of a class year *)

Definition sayi (rows : list OgrenciSatiri) (t : Z) : Z :=
  Z.of_nat (length (filter (fun o => og_sinif o = Some t) rows)).

(** ** Lemmas *)

Lemma sayi_nonneg rows t : 0 <= sayi rows t.
Proof. unfold sayi. lia. Qed.

Lemma frek_fold_lookup rows acc t :
  fold_left frek_adimi rows acc !! t =
  if decide (sayi rows t = 0) then acc !! t else Some (default 0 (acc !! t) + sayi rows t).
Proof.
  revert acc. induction rows as [|o rows IH]; intros acc; simpl; [done|].
  rewrite IH. unfold sayi in *. unfold frek_adimi.
  destruct (og_sinif o) as [s|] eqn:Es.
  - destruct (decide (s = t)) as [<-|Hne].
    + rewrite filter_cons_True by done. simpl length. rewrite lookup_insert.
      repeat case_decide; simpl; f_equal; lia.
    + rewrite filter_cons_False by congruence. rewrite lookup_insert_ne by congruence. done.
  - rewrite filter_cons_False by congruence. done.
Qed.

Lemma frek_hesapla_lookup rows t :
  frek_hesapla rows !! t = if decide (sayi rows t = 0) then None else Some (sayi rows t).
Proof. unfold frek_hesapla. rewrite frek_fold_lookup. by case_decide. Qed.

Lemma frek_le_total x y : frek_le x y = true \/ frek_le y x = true.
Proof. unfold frek_le. rewrite ?orb_true_iff, ?andb_true_iff, ?Z.ltb_lt, ?Z.eqb_eq, ?Z.leb_le. lia. Qed.

Lemma frek_le_trans x y z : frek_le x y = true -> frek_le y z = true -> frek_le x z = true.
Proof. unfold frek_le. rewrite ?orb_true_iff, ?andb_true_iff, ?Z.ltb_lt, ?Z.eqb_eq, ?Z.leb_le. lia. Qed.

#[export] Hint Resolve frek_le_total frek_le_trans : sinav.

Lemma cogunluk_some f s :
  cogunluk f = Some s ->
  exists c, f !! s = Some c /\ forall t c', f !! t = Some c' -> c' < c \/ (c' = c /\ s <= t).
Proof.
  unfold cogunluk. destruct (sirala frek_le (map_to_list f)) as [|[s' c] r] eqn:E;
    simpl; [discriminate|]. intros [= <-].
  exists c. split.
  - apply elem_of_map_to_list, (sirala_elem frek_le). rewrite E. left.
  - intros t c' Ht. apply elem_of_map_to_list in Ht.
    pose proof (sirala_head_min frek_le frek_le_total frek_le_trans _ _ _ E _ Ht) as Hle.
    unfold frek_le in Hle; simpl in Hle.
    rewrite ?orb_true_iff, ?andb_true_iff, ?Z.ltb_lt, ?Z.eqb_eq, ?Z.leb_le in Hle. lia.
Qed.

Lemma cogunluk_none f : cogunluk f = None -> f = ∅.
Proof.
  unfold cogunluk. destruct (sirala frek_le (map_to_list f)) eqn:E; [|discriminate].
  intros _. apply map_to_list_empty_iff. apply Permutation_nil.
  rewrite <- E. apply sirala_perm.
Qed.

Lemma sinif_satirlari_bos kt : sinif_satirlari kt ∅ = [].
Proof.
  unfold sinif_satirlari. induction (t_ogrenciler kt); [done|].
  rewrite filter_cons_False; set_solver.
Qed.

Lemma ders_kaydi_id kt (l : list DersSatiri) : ders_id <$> (ders_kaydi kt <$> l) = ds_id <$> l.
Proof. by rewrite <- list_fmap_compose. Qed.

Lemma elem_of_ogr_ids kt i s :
  s ∈ ogr_ids_of kt i <->
  exists e, e ∈ t_ogrenci_ders kt /\ kd_ogrenci_id e = s /\ kd_ders_id e = i.
Proof.
  unfold ogr_ids_of. rewrite elem_of_list_to_set, list_elem_of_fmap.
  setoid_rewrite list_elem_of_filter. naive_solver.
Qed.

Lemma elem_of_bolum_dersleri kt b r :
  r ∈ bolum_dersleri kt b <-> r ∈ t_dersler kt /\ ds_bolum_id r = b.
Proof. unfold bolum_dersleri. rewrite sirala_elem, list_elem_of_filter. tauto. Qed.

(** ** Theorems *)

(** C23 The class-year majority vote: a course without a class year gets
    the class year that most of its enrolled students with a class year
    have, the smallest one on a tie, and none when no enrolled student has
    a class year. *)
Theorem ders_sinifi_cogunluk kt d :
  ds_sinif d = None ->
  let rows := sinif_satirlari kt (ogr_ids_of kt (ds_id d)) in
  match sinif (ders_kaydi kt d) with
  | None => forall t, sayi rows t = 0
  | Some s => 0 < sayi rows s /\
      forall t, sayi rows t < sayi rows s \/ (sayi rows t = sayi rows s /\ s <= t)
  end.
Proof.
  intros Hd rows. simpl. unfold ders_sinifi. rewrite Hd. subst rows.
  case_decide as Hids.
  { rewrite Hids, sinif_satirlari_bos. done. }
  destruct (cogunluk _) as [s|] eqn:E.
  - apply cogunluk_some in E as (c & Hs & Hmax).
    rewrite frek_hesapla_lookup in Hs. case_decide as Hs0; [done|]. injection Hs as <-.
    split; [pose proof (sayi_nonneg (sinif_satirlari kt (ogr_ids_of kt (ds_id d))) s); lia|].
    intros t. destruct (decide (sayi (sinif_satirlari kt (ogr_ids_of kt (ds_id d))) t = 0)).
    + left. pose proof (sayi_nonneg (sinif_satirlari kt (ogr_ids_of kt (ds_id d))) s). lia.
    + apply Hmax. rewrite frek_hesapla_lookup. by case_decide.
  - apply cogunluk_none in E. intros t.
    pose proof (frek_hesapla_lookup (sinif_satirlari kt (ogr_ids_of kt (ds_id d))) t) as Ht.
    rewrite E, lookup_empty in Ht. by case_decide.
Qed.

(** The course-supply contract: with distinct course ids in the table,
    the course list of a department names each course of the department
    exactly once, and each record's student set is the set of students
    enrolled in it. *)
Theorem dersler_sozlesme kt b :
  NoDup (ds_id <$> t_dersler kt) ->
  let out := dersler_ogrsay_ve_alanlar_detayli kt b in
  NoDup (ders_id <$> out) /\
  (forall i, i ∈ ders_id <$> out <->
     exists r, r ∈ t_dersler kt /\ ds_id r = i /\ ds_bolum_id r = b) /\
  Forall (fun d => forall s, s ∈ ogr_ids d <->
     exists e, e ∈ t_ogrenci_ders kt /\ kd_ogrenci_id e = s /\ kd_ders_id e = ders_id d) out.
Proof.
  intros Hnd out. subst out. unfold dersler_ogrsay_ve_alanlar_detayli.
  rewrite ders_kaydi_id. split_and!.
  - unfold bolum_dersleri. rewrite (sirala_perm _ (filter _ _)).
    eapply sublist_NoDup; [exact Hnd|]. apply fmap_sublist, sublist_filter.
  - intros i. rewrite list_elem_of_fmap. setoid_rewrite elem_of_bolum_dersleri. naive_solver.
  - apply Forall_forall. intros d (r & -> & _)%list_elem_of_fmap s. apply elem_of_ogr_ids.
Qed.

(** The student search and the planner agree: a course is listed for a
    found student exactly when the student is in the enrolled set of the
    course record the planner receives. *)
Theorem ogrenci_ara_tutarli kt b no o :
  (ogrenci_ara_ve_dersleri_getir kt b no).1 = Some o ->
  forall kod ad, (kod, ad) ∈ (ogrenci_ara_ve_dersleri_getir kt b no).2 <->
    exists r, r ∈ t_dersler kt /\ ds_kod r = kod /\ ds_ad r = ad /\
              og_id o ∈ ogr_ids (ders_kaydi kt r).
Proof.
  unfold ogrenci_ara_ve_dersleri_getir.
  destruct (List.find _ _) as [o'|]; simpl; [|discriminate]. intros [= <-] kod ad.
  rewrite list_elem_of_fmap. setoid_rewrite sirala_elem.
  setoid_rewrite list_elem_of_filter. setoid_rewrite list_elem_of_cprod.
  setoid_rewrite elem_of_ogr_ids. split.
  - intros ([e r] & [= -> ->] & [Hs Hi] & He & Hr). simpl in *.
    exists r. split_and!; [done..|]. exists e. split_and!; congruence.
  - intros (r & Hr & <- & <- & e & He & Hs & Hi). exists (e, r). simpl.
    split_and!; congruence.
Qed.

(** The class list of a course ([derse_kayitli_ogrenciler], used for
    seating) holds exactly the student rows whose id is in the enrolled set
    of the planner's course record. *)
Theorem derse_kayitli_tutarli kt i o :
  o ∈ derse_kayitli_ogrenciler kt i <-> o ∈ t_ogrenciler kt /\ og_id o ∈ ogr_ids_of kt i.
Proof.
  unfold derse_kayitli_ogrenciler. rewrite list_elem_of_fmap. setoid_rewrite sirala_elem.
  setoid_rewrite list_elem_of_filter. setoid_rewrite list_elem_of_cprod.
  rewrite elem_of_ogr_ids. split.
  - intros ([e o'] & -> & [Hi Hs] & He & Ho). simpl in *.
    split; [done|]. exists e. split_and!; congruence.
  - intros (Ho & e & He & Hs & Hi). exists (e, o). simpl. split_and!; congruence.
Qed.

(** ** Examples and witnesses *)

Definition ornek_mat_satir : DersSatiri :=
  {| ds_id := 1; ds_bolum_id := 1; ds_kod := "MAT101"; ds_ad := "Matematik I";
     ds_hoca := None; ds_sinif := None; ds_tur := None |}.

Definition ornek_katalog : Katalog :=
  {| t_dersler := [ornek_mat_satir;
       {| ds_id := 2; ds_bolum_id := 1; ds_kod := "FIZ101"; ds_ad := "Fizik I";
          ds_hoca := Some "Dr. A"; ds_sinif := Some 1; ds_tur := None |};
       {| ds_id := 3; ds_bolum_id := 2; ds_kod := "KIM101"; ds_ad := "Kimya";
          ds_hoca := None; ds_sinif := None; ds_tur := None |}];
     t_ogrenciler := [
       {| og_id := 10; og_bolum_id := 1; og_ogr_no := "2001"; og_adsoyad := "A"; og_sinif := Some 2 |};
       {| og_id := 11; og_bolum_id := 1; og_ogr_no := "2002"; og_adsoyad := "B"; og_sinif := Some 1 |};
       {| og_id := 12; og_bolum_id := 1; og_ogr_no := "2003"; og_adsoyad := "C"; og_sinif := Some 2 |};
       {| og_id := 13; og_bolum_id := 1; og_ogr_no := "2004"; og_adsoyad := "D"; og_sinif := None |}];
     t_ogrenci_ders := [
       {| kd_ogrenci_id := 10; kd_ders_id := 1 |}; {| kd_ogrenci_id := 11; kd_ders_id := 1 |};
       {| kd_ogrenci_id := 12; kd_ders_id := 1 |}; {| kd_ogrenci_id := 13; kd_ders_id := 1 |};
       {| kd_ogrenci_id := 11; kd_ders_id := 2 |}];
     t_derslikler := [
       {| dl_satir_id := 5; dl_bolum_id := 1; dl_kodu := "D1"; dl_adi := "Derslik 1";
          dl_kapasite := 30; dl_enine := 6; dl_boyuna := 5; dl_sira_yapisi := 2 |};
       {| dl_satir_id := 6; dl_bolum_id := 1; dl_kodu := "D2"; dl_adi := "Derslik 2";
          dl_kapasite := 60; dl_enine := 10; dl_boyuna := 6; dl_sira_yapisi := 3 |}] |}.

(** Witness of [ders_sinifi_cogunluk]: two of the three students of
    MAT101 with a class year are in year 2. *)
Lemma ders_sinifi_cogunluk_ornek :
  ds_sinif ornek_mat_satir = None /\
  sinif (ders_kaydi ornek_katalog ornek_mat_satir) = Some 2 /\
  let rows := sinif_satirlari ornek_katalog (ogr_ids_of ornek_katalog (ds_id ornek_mat_satir)) in
  match sinif (ders_kaydi ornek_katalog ornek_mat_satir) with
  | None => forall t, sayi rows t = 0
  | Some s => 0 < sayi rows s /\
      forall t, sayi rows t < sayi rows s \/ (sayi rows t = sayi rows s /\ s <= t)
  end.
Proof.
  split; [reflexivity|]. split; [vm_compute; reflexivity|].
  apply (ders_sinifi_cogunluk ornek_katalog ornek_mat_satir). reflexivity.
Defined.

(** Witness of [dersler_sozlesme]. *)
Lemma dersler_sozlesme_ornek :
  NoDup (ds_id <$> t_dersler ornek_katalog) /\
  ders_id <$> dersler_ogrsay_ve_alanlar_detayli ornek_katalog 1 = [2; 1] /\
  let out := dersler_ogrsay_ve_alanlar_detayli ornek_katalog 1 in
  NoDup (ders_id <$> out) /\
  (forall i, i ∈ ders_id <$> out <->
     exists r, r ∈ t_dersler ornek_katalog /\ ds_id r = i /\ ds_bolum_id r = 1) /\
  Forall (fun d => forall s, s ∈ ogr_ids d <->
     exists e, e ∈ t_ogrenci_ders ornek_katalog /\ kd_ogrenci_id e = s /\
               kd_ders_id e = ders_id d) out.
Proof.
  assert (H : NoDup (ds_id <$> t_dersler ornek_katalog)) by karar.
  split; [exact H|]. split; [vm_compute; reflexivity|].
  exact (dersler_sozlesme ornek_katalog 1 H).
Defined.

(** Witness of [ogrenci_ara_tutarli]: student 2002 takes FIZ101 and MAT101. *)
Lemma ogrenci_ara_tutarli_ornek :
  (ogrenci_ara_ve_dersleri_getir ornek_katalog 1 "2002").2 =
    [("FIZ101", "Fizik I"); ("MAT101", "Matematik I")]%string /\
  forall kod ad,
    (kod, ad) ∈ (ogrenci_ara_ve_dersleri_getir ornek_katalog 1 "2002").2 <->
    exists r, r ∈ t_dersler ornek_katalog /\ ds_kod r = kod /\ ds_ad r = ad /\
      og_id {| og_id := 11; og_bolum_id := 1; og_ogr_no := "2002"; og_adsoyad := "B";
               og_sinif := Some 1 |} ∈ ogr_ids (ders_kaydi ornek_katalog r).
Proof.
  split; [vm_compute; reflexivity|].
  apply (ogrenci_ara_tutarli ornek_katalog 1 "2002"). vm_compute. reflexivity.
Defined.

End Katalog.
