(* ===== verification/Store.v ===== *)
(** * Store: the exam-timetable writer of [src/veri_deposu.py]

    The tables [sinav_programi] and [sinav_programi_derslik] (schema in
    [src/veritabani.py], lines 67-90) as lists of rows, with the
    [AUTOINCREMENT] counter of [sinav_programi]; [oturma_plani] is kept
    because clearing a timetable deletes from it.  The writer checks
    every room of a new exam with [_derslikte_cakisiyor_mu] and raises
    [ValueError] on an overlap; the unique index [ux_sp_bolum_ders_tur]
    and the primary key of [sinav_programi_derslik] raise
    [IntegrityError].  A [with baglanti() as vt:] block commits when it
    ends normally and rolls back when it raises ([baglanti_ile]).
    Stored datetimes are ISO strings [YYYY-MM-DDTHH:MM], which compare
    like the datetimes they write; they are kept as minutes.

    [KayitUygun] is what the writer needs of a list of placements: it is
    the interface between the planner and the store. *)

From S2P Require Import Prelude Interval Planner.

Module Kalici.
Import Aralik Plan.

(** A row of [sinav_programi]. *)
Record SinavSatiri := {
  sp_id : Z;
  sp_bolum : Z;
  sp_ders : Z;
  sp_tur : string;
  sp_bas : Z;
  sp_bit : Z;
  sp_sure : Z;
  sp_bekleme : Z
}.

(** A row of [oturma_plani]. *)
Record OturmaSatiri := {
  op_sinav : Z;
  op_ogrenci : Z;
  op_derslik : Z;
  op_sira : Z;
  op_sutun : Z
}.

(** The tables the writer reads and changes; [sinav_programi_derslik]
    holds [(sinav_id, derslik_id)] pairs and [sqlite_sequence] the last
    id handed out by [AUTOINCREMENT]. *)
Record Veritabani := {
  sinav_programi : list SinavSatiri;
  sinav_programi_derslik : list (Z * Z);
  oturma_plani : list OturmaSatiri;
  sqlite_sequence : Z
}.

(** The rows of one department and exam type ([WHERE bolum_id=? AND
    sinav_turu=?]). *)
Definition secili (bolum_id : Z) (sinav_turu : string) (sp : SinavSatiri) : bool :=
  (sp_bolum sp =? bolum_id) && bool_decide (sp_tur sp = sinav_turu).

(** [_derslikte_cakisiyor_mu] (lines 105-119): a row of the department
    and type, linked to the room, with
    [NOT (sp.bitis <= bas OR sp.baslangic >= bit)]. *)
Definition derslikte_cakisiyor_mu (vt : Veritabani) (bolum_id : Z) (sinav_turu : string)
    (derslik_id bas_dt bit_dt : Z) : bool :=
  existsb (fun sp =>
      secili bolum_id sinav_turu sp &&
      bool_decide ((sp_id sp, derslik_id) ∈ sinav_programi_derslik vt) &&
      negb ((sp_bit sp <=? bas_dt) || (bit_dt <=? sp_bas sp)))
    (sinav_programi vt).

(** [INSERT INTO sinav_programi ... RETURNING id] (lines 266-274): the
    unique index on [(bolum_id, ders_id, sinav_turu)] and the next
    [AUTOINCREMENT] id. *)
Definition sinav_ekle (vt : Veritabani) (bolum_id ders_id : Z) (sinav_turu : string)
    (bas_dt bit_dt sure_dk bekleme_dk : Z) : Sonuc (Veritabani * Z) :=
  if existsb (fun sp => secili bolum_id sinav_turu sp && (sp_ders sp =? ders_id))
       (sinav_programi vt)
  then Hata IntegrityError
  else
    let yeni := sqlite_sequence vt + 1 in
    Tamam ({| sinav_programi := sinav_programi vt ++
                [{| sp_id := yeni; sp_bolum := bolum_id; sp_ders := ders_id;
                    sp_tur := sinav_turu; sp_bas := bas_dt; sp_bit := bit_dt;
                    sp_sure := sure_dk; sp_bekleme := bekleme_dk |}];
              sinav_programi_derslik := sinav_programi_derslik vt;
              oturma_plani := oturma_plani vt;
              sqlite_sequence := yeni |}, yeni).

(** [INSERT INTO sinav_programi_derslik] (line 276) and its primary key. *)
Definition derslik_bagla (vt : Veritabani) (sinav_id derslik_id : Z) : Sonuc Veritabani :=
  if bool_decide ((sinav_id, derslik_id) ∈ sinav_programi_derslik vt) then Hata IntegrityError
  else Tamam {| sinav_programi := sinav_programi vt;
                sinav_programi_derslik := sinav_programi_derslik vt ++ [(sinav_id, derslik_id)];
                oturma_plani := oturma_plani vt;
                sqlite_sequence := sqlite_sequence vt |}.

(** The loop of lines 275-276. *)
Fixpoint derslikleri_bagla (vt : Veritabani) (sinav_id : Z) (derslik_ids : list Z)
    : Sonuc Veritabani :=
  match derslik_ids with
  | [] => Tamam vt
  | dl :: rest => vt' ← derslik_bagla vt sinav_id dl; derslikleri_bagla vt' sinav_id rest
  end.

(** [_program_satiri_yaz] (lines 256-277); [sure_dk] is
    [max(1, round(minutes))] of the interval. *)
Definition program_satiri_yaz (vt : Veritabani) (bolum_id ders_id : Z) (sinav_turu : string)
    (bas_dt bit_dt bekleme_dk : Z) (derslik_ids : list Z) : Sonuc (Veritabani * Z) :=
  if existsb (fun dl => derslikte_cakisiyor_mu vt bolum_id sinav_turu dl bas_dt bit_dt) derslik_ids
  then Hata ValueError
  else
    let sure_dk := Z.max 1 (bit_dt - bas_dt) in
    match sinav_ekle vt bolum_id ders_id sinav_turu bas_dt bit_dt sure_dk bekleme_dk with
    | Hata e => Hata e
    | Tamam (vt1, sp_id) => vt2 ← derslikleri_bagla vt1 sp_id derslik_ids; Tamam (vt2, sp_id)
    end.

(** [with baglanti() as vt:]: commit at the end of the block, rollback
    when it raises (the exception propagates). *)
Definition baglanti_ile {A} (vt : Veritabani) (r : Sonuc (Veritabani * A)) : Veritabani * Sonuc A :=
  match r with
  | Tamam (vt', x) => (vt', Tamam x)
  | Hata e => (vt, Hata e)
  end.

(** The loop of [sinav_programi_kaydet] (lines 329-333); a placement of
    [planla] always has a [baslangic], so the [continue] never fires. *)
Fixpoint kaydet_dongusu (vt : Veritabani) (bolum_id : Z) (sinav_turu : string) (bekleme_dk : Z)
    (ys : list Yerlestirme) : Sonuc Veritabani :=
  match ys with
  | [] => Tamam vt
  | y :: rest =>
      match program_satiri_yaz vt bolum_id (y_ders_id y) sinav_turu (baslangic y) (bitis y)
              bekleme_dk (derslik_ids y) with
      | Hata e => Hata e
      | Tamam (vt', _) => kaydet_dongusu vt' bolum_id sinav_turu bekleme_dk rest
      end
  end.

(** [sinav_programi_kaydet] (lines 327-333): the whole list in one transaction. *)
Definition sinav_programi_kaydet (vt : Veritabani) (bolum_id : Z) (sinav_turu : string)
    (ys : list Yerlestirme) (bekleme_dk : Z) : Veritabani * Sonuc unit :=
  baglanti_ile vt (vt' ← kaydet_dongusu vt bolum_id sinav_turu bekleme_dk ys; Tamam (vt', tt)).

(** [sinav_programini_temizle] (lines 468-478). *)
Definition sinav_programini_temizle (vt : Veritabani) (bolum_id : Z) (sinav_turu : string)
    : Veritabani :=
  let ids := sp_id <$> List.filter (secili bolum_id sinav_turu) (sinav_programi vt) in
  match ids with
  | [] => vt
  | _ =>
      {| oturma_plani := List.filter (fun op => negb (bool_decide (op_sinav op ∈ ids))) (oturma_plani vt);
         sinav_programi_derslik :=
           List.filter (fun l => negb (bool_decide (l.1 ∈ ids))) (sinav_programi_derslik vt);
         sinav_programi := List.filter (fun sp => negb (secili bolum_id sinav_turu sp)) (sinav_programi vt);
         sqlite_sequence := sqlite_sequence vt |}
  end.

(** [sinav_kaydet] (lines 480-486), one exam in its own transaction.  The
    caller passes the datetimes as text and [fromisoformat] reads them
    back; the model takes the datetimes.  [sure_dk] is not used. *)
Definition sinav_kaydet (vt : Veritabani) (bolum_id ders_id : Z) (sinav_turu : string)
    (bas_dt bit_dt sure_dk bekleme_dk : Z) (derslik_ids : list Z) : Veritabani * Sonuc Z :=
  baglanti_ile vt (program_satiri_yaz vt bolum_id ders_id sinav_turu bas_dt bit_dt bekleme_dk derslik_ids).

(** ** What the writer needs of a plan *)

(** Two placements that share a room do not overlap. *)
Definition ayrik (y1 y2 : Yerlestirme) : Prop :=
  forall r, r ∈ derslik_ids y1 -> r ∈ derslik_ids y2 ->
    overlaps (baslangic y1) (bitis y1) (baslangic y2) (bitis y2) = false.

(** The contract between [planla] and the writer: distinct courses, no
    room twice in one placement, no room used twice at overlapping times. *)
Record KayitUygun (ys : list Yerlestirme) : Prop := {
  ku_ders : NoDup (y_ders_id <$> ys);
  ku_derslik : forall y, y ∈ ys -> NoDup (derslik_ids y);
  ku_ayrik : forall i j y1 y2, (i < j)%nat -> ys !! i = Some y1 -> ys !! j = Some y2 -> ayrik y1 y2
}.

(** The room bookings a store holds for a department and exam type:
    [(derslik_id, baslangic, bitis)] for every row and each of its rooms. *)
Definition oda_kayitlari (vt : Veritabani) (bolum_id : Z) (sinav_turu : string)
    : list (Z * Z * Z) :=
  List.flat_map (fun sp =>
      if secili bolum_id sinav_turu sp
      then map (fun l => (l.2, sp_bas sp, sp_bit sp))
             (List.filter (fun l => l.1 =? sp_id sp) (sinav_programi_derslik vt))
      else [])
    (sinav_programi vt).

Definition ders_kayitlari (vt : Veritabani) (bolum_id : Z) (sinav_turu : string) : list Z :=
  sp_ders <$> List.filter (secili bolum_id sinav_turu) (sinav_programi vt).

(** The bookings a list of placements makes. *)
Definition plan_kayitlari (ys : list Yerlestirme) : list (Z * Z * Z) :=
  List.flat_map (fun y => map (fun dl => (dl, baslangic y, bitis y)) (derslik_ids y)) ys.

(** Well-formed store: no id above the [AUTOINCREMENT] counter. *)
Definition saglam (vt : Veritabani) : Prop :=
  Forall (fun sp => sp_id sp <= sqlite_sequence vt) (sinav_programi vt) /\
  Forall (fun l => l.1 <= sqlite_sequence vt) (sinav_programi_derslik vt).

(** ** The guard as a search over bookings *)

Lemma secili_refl b t sp : sp_bolum sp = b -> sp_tur sp = t -> secili b t sp = true.
Proof. intros <- <-. unfold secili. rewrite Z.eqb_refl. simpl. by apply bool_decide_eq_true_2. Qed.

(** One row of the join: the row is linked to the room and overlaps. *)
Lemma satir_cakisir sp L dl bas bit :
  bool_decide ((sp_id sp, dl) ∈ L) && negb ((sp_bit sp <=? bas) || (bit <=? sp_bas sp)) =
  existsb (fun f => (f.1.1 =? dl) && negb ((f.2 <=? bas) || (bit <=? f.1.2)))
    (map (fun l => (l.2, sp_bas sp, sp_bit sp)) (List.filter (fun l => l.1 =? sp_id sp) L)).
Proof.
  apply Bool.eq_iff_eq_true. rewrite andb_true_iff, bool_decide_eq_true, existsb_exists. split.
  - intros [Hin Ho]. exists (dl, sp_bas sp, sp_bit sp). split; simpl.
    + apply in_map_iff. exists (sp_id sp, dl). split; [done|].
      apply filter_In. split; [by apply list_elem_of_In|]. apply Z.eqb_refl.
    + by rewrite Z.eqb_refl.
  - intros (f & ([a c] & <- & [Hl Hid]%filter_In)%in_map_iff & Hf). simpl in *.
    apply andb_true_iff in Hf as [Hd Ho]. apply Z.eqb_eq in Hd, Hid. subst.
    split; [by apply list_elem_of_In|done].
Qed.

(** [_derslikte_cakisiyor_mu] looks for an overlapping booking of the room. *)
Lemma derslikte_cakisiyor_mu_kayit vt b t dl bas bit :
  derslikte_cakisiyor_mu vt b t dl bas bit =
  existsb (fun f => (f.1.1 =? dl) && overlaps f.1.2 f.2 bas bit) (oda_kayitlari vt b t).
Proof.
  unfold derslikte_cakisiyor_mu, oda_kayitlari, overlaps.
  induction (sinav_programi vt) as [|sp rows IH]; simpl; [done|].
  rewrite existsb_app, IH. f_equal.
  destruct (secili b t sp); simpl; [|done]. apply satir_cakisir.
Qed.

Lemma cakisma_yok vt b t dls bas bit :
  (forall f, f ∈ oda_kayitlari vt b t -> f.1.1 ∈ dls -> overlaps f.1.2 f.2 bas bit = false) ->
  existsb (fun dl => derslikte_cakisiyor_mu vt b t dl bas bit) dls = false.
Proof.
  intros H. destruct (existsb _ dls) eqn:E; [|done]. exfalso.
  apply existsb_exists in E as (dl & Hdl & E). rewrite derslikte_cakisiyor_mu_kayit in E.
  apply existsb_exists in E as (f & Hf & E). apply andb_true_iff in E as [Hd Ho].
  apply Z.eqb_eq in Hd. subst dl. apply list_elem_of_In in Hf, Hdl.
  by rewrite (H f Hf Hdl) in Ho.
Qed.

(** ** Fresh ids *)

Lemma filter_id_map (k id : Z) (dls : list Z) :
  List.filter (fun l : Z * Z => l.1 =? id) (map (fun dl => (k, dl)) dls) =
  if k =? id then map (fun dl => (k, dl)) dls else [].
Proof. induction dls as [|dl dls IH]; simpl; [by destruct (k =? id)|]. rewrite IH. by destruct (k =? id). Qed.

Lemma filter_id_eski (links : list (Z * Z)) (k : Z) :
  Forall (fun l => l.1 < k) links -> List.filter (fun l => l.1 =? k) links = [].
Proof.
  induction 1 as [|l links Hl _ IH]; simpl; [done|]. rewrite IH.
  by rewrite (proj2 (Z.eqb_neq _ _)) by lia.
Qed.

(** Linking rooms to an exam appends the links, and fails on a room
    that is linked already or repeated. *)
Lemma derslikleri_bagla_tamam vt id dls vt' :
  derslikleri_bagla vt id dls ?= vt' ->
  NoDup dls /\ (forall d, d ∈ dls -> (id, d) ∉ sinav_programi_derslik vt) /\
  vt' = {| sinav_programi := sinav_programi vt;
           sinav_programi_derslik := sinav_programi_derslik vt ++ map (fun dl => (id, dl)) dls;
           oturma_plani := oturma_plani vt; sqlite_sequence := sqlite_sequence vt |}.
Proof.
  revert vt. induction dls as [|dl dls IH]; intros vt; simpl.
  - intros [= <-]. split; [constructor|]. split; [intros d Hd; by apply elem_of_nil in Hd|].
    rewrite app_nil_r. by destruct vt.
  - unfold derslik_bagla. case_bool_decide as Hin; simpl; [discriminate|].
    intros (Hnd & Hfresh & ->)%IH. simpl in *. rewrite <- app_assoc. simpl.
    split; [|split; [|done]].
    + constructor; [|done]. intros Hd. apply (Hfresh dl Hd). set_solver.
    + intros d [->|Hd]%elem_of_cons; [done|]. specialize (Hfresh d Hd). set_solver.
Qed.

Lemma derslikleri_bagla_taze vt id dls :
  NoDup dls -> (forall d, d ∈ dls -> (id, d) ∉ sinav_programi_derslik vt) ->
  derslikleri_bagla vt id dls ?=
    {| sinav_programi := sinav_programi vt;
       sinav_programi_derslik := sinav_programi_derslik vt ++ map (fun dl => (id, dl)) dls;
       oturma_plani := oturma_plani vt; sqlite_sequence := sqlite_sequence vt |}.
Proof.
  intros Hnd. revert vt. induction Hnd as [|dl dls Hdl Hnd IH]; intros vt Hl; simpl.
  - rewrite app_nil_r. by destruct vt.
  - unfold derslik_bagla. rewrite bool_decide_eq_false_2 by (apply Hl; set_solver).
    simpl. rewrite IH; simpl.
    + by rewrite <- app_assoc.
    + intros d Hd. rewrite elem_of_app, list_elem_of_singleton. intros [Hin|[= <-]].
      * by apply (Hl d); [set_solver|].
      * done.
Qed.

(** ** One insertion *)

(** The store after [_program_satiri_yaz] has written the row [sp] and
    linked it to the rooms [dls]. *)
Definition eklenmis (vt : Veritabani) (sp : SinavSatiri) (dls : list Z) : Veritabani :=
  {| sinav_programi := sinav_programi vt ++ [sp];
     sinav_programi_derslik := sinav_programi_derslik vt ++ map (fun dl => (sp_id sp, dl)) dls;
     oturma_plani := oturma_plani vt; sqlite_sequence := sp_id sp |}.

(** The row [_program_satiri_yaz] inserts. *)
Definition yeni_satir (vt : Veritabani) (b d : Z) (t : string) (bas bit bek : Z) : SinavSatiri :=
  {| sp_id := sqlite_sequence vt + 1; sp_bolum := b; sp_ders := d; sp_tur := t;
     sp_bas := bas; sp_bit := bit; sp_sure := Z.max 1 (bit - bas); sp_bekleme := bek |}.

(** A successful write passed the room guard and the unique index, had
    no repeated room, and appended one row and its links. *)
Lemma program_satiri_yaz_tamam vt b d t bas bit bek dls vt' id :
  program_satiri_yaz vt b d t bas bit bek dls ?= (vt', id) ->
  existsb (fun dl => derslikte_cakisiyor_mu vt b t dl bas bit) dls = false /\
  existsb (fun sp => secili b t sp && (sp_ders sp =? d)) (sinav_programi vt) = false /\
  NoDup dls /\ id = sqlite_sequence vt + 1 /\ vt' = eklenmis vt (yeni_satir vt b d t bas bit bek) dls.
Proof.
  unfold program_satiri_yaz, sinav_ekle.
  destruct (existsb _ dls) eqn:Ec; [discriminate|].
  destruct (existsb _ (sinav_programi vt)) eqn:Eu; [discriminate|].
  destruct (derslikleri_bagla _ _ dls) as [vt2|e] eqn:Eb; simpl; [|discriminate].
  intros [= <- <-]. apply derslikleri_bagla_tamam in Eb as (Hnd & _ & ->).
  do 4 (split; [done|]). done.
Qed.

Lemma program_satiri_yaz_ok vt b d t bas bit bek dls :
  saglam vt -> NoDup dls ->
  existsb (fun dl => derslikte_cakisiyor_mu vt b t dl bas bit) dls = false ->
  existsb (fun sp => secili b t sp && (sp_ders sp =? d)) (sinav_programi vt) = false ->
  program_satiri_yaz vt b d t bas bit bek dls ?=
    (eklenmis vt (yeni_satir vt b d t bas bit bek) dls, sqlite_sequence vt + 1).
Proof.
  intros [_ Hl] Hnd Ec Eu. unfold program_satiri_yaz, sinav_ekle. rewrite Ec, Eu.
  rewrite derslikleri_bagla_taze; [done..|]. simpl.
  intros dl _ Hin. rewrite Forall_forall in Hl. specialize (Hl _ Hin). simpl in Hl. lia.
Qed.

Section Ekleme.
Context (vt : Veritabani) (sp : SinavSatiri) (dls : list Z).
Hypothesis Hsaglam : saglam vt.
Hypothesis Hid : sp_id sp = sqlite_sequence vt + 1.

Lemma eklenmis_saglam : saglam (eklenmis vt sp dls).
Proof.
  destruct Hsaglam as [Hr Hl]. split; simpl; rewrite Hid; apply Forall_app; split.
  - eapply Forall_impl; [exact Hr|]. simpl. lia.
  - apply Forall_singleton. lia.
  - eapply Forall_impl; [exact Hl|]. simpl. lia.
  - apply Forall_forall. intros l (dl & -> & _)%list_elem_of_fmap. simpl. lia.
Qed.

Lemma oda_kayitlari_eklenmis b t :
  oda_kayitlari (eklenmis vt sp dls) b t =
  oda_kayitlari vt b t ++
    (if secili b t sp then map (fun dl => (dl, sp_bas sp, sp_bit sp)) dls else []).
Proof.
  destruct Hsaglam as [Hr Hl]. unfold oda_kayitlari, eklenmis; simpl.
  rewrite flat_map_app. f_equal.
  - induction Hr as [|r rows Hr' _ IH]; simpl; [done|]. f_equal; [|done].
    destruct (secili b t r); [|done]. rewrite List.filter_app, filter_id_map, Hid.
    rewrite (proj2 (Z.eqb_neq _ _)) by lia. by rewrite app_nil_r.
  - simpl. rewrite app_nil_r. destruct (secili b t sp); [|done].
    rewrite List.filter_app, filter_id_map, Z.eqb_refl, Hid, filter_id_eski.
    + simpl. by rewrite map_map.
    + eapply Forall_impl; [exact Hl|]. simpl. lia.
Qed.

Lemma ders_kayitlari_eklenmis b t :
  ders_kayitlari (eklenmis vt sp dls) b t =
  ders_kayitlari vt b t ++ (if secili b t sp then [sp_ders sp] else []).
Proof.
  unfold ders_kayitlari, eklenmis; simpl. rewrite List.filter_app, fmap_app. f_equal. simpl.
  by destruct (secili b t sp).
Qed.

End Ekleme.

(** ** Writing a plan that meets the contract *)

Lemma plan_kayitlari_snoc pre y :
  plan_kayitlari (pre ++ [y]) = plan_kayitlari pre ++ map (fun dl => (dl, baslangic y, bitis y)) (derslik_ids y).
Proof. unfold plan_kayitlari. rewrite flat_map_app. simpl. by rewrite app_nil_r. Qed.

Lemma elem_of_plan_kayitlari f ys :
  f ∈ plan_kayitlari ys <-> exists y dl, y ∈ ys /\ dl ∈ derslik_ids y /\ f = (dl, baslangic y, bitis y).
Proof.
  unfold plan_kayitlari. rewrite list_elem_of_In, in_flat_map. setoid_rewrite in_map_iff.
  setoid_rewrite <- list_elem_of_In. naive_solver.
Qed.

(** The contract seen from the placement at position [length pre]. *)
Lemma kayit_uygun_orta pre y suf :
  KayitUygun (pre ++ y :: suf) ->
  NoDup (derslik_ids y) /\ y_ders_id y ∉ (y_ders_id <$> pre) /\ forall y', y' ∈ pre -> ayrik y' y.
Proof.
  intros [Hd Hr Ha]. split; [apply Hr; set_solver|]. split.
  - rewrite fmap_app in Hd. apply NoDup_app in Hd as (_ & Hd & _). intros Hin.
    apply (Hd _ Hin). apply list_elem_of_fmap_2, list_elem_of_here.
  - intros y' (i & Hi)%list_elem_of_lookup. eapply (Ha i (length pre)).
    + by apply lookup_lt_Some in Hi.
    + by rewrite lookup_app_l by (by apply lookup_lt_Some in Hi).
    + by rewrite list_lookup_middle.
Qed.

(** One placement of a plan is written when the store holds exactly the
    placements before it. *)
Lemma kayit_adimi vt b t bek pre y suf :
  saglam vt -> oda_kayitlari vt b t = plan_kayitlari pre ->
  ders_kayitlari vt b t = y_ders_id <$> pre -> KayitUygun (pre ++ y :: suf) ->
  exists vt', program_satiri_yaz vt b (y_ders_id y) t (baslangic y) (bitis y) bek (derslik_ids y)
      ?= (vt', sqlite_sequence vt + 1) /\
    saglam vt' /\ oda_kayitlari vt' b t = plan_kayitlari (pre ++ [y]) /\
    ders_kayitlari vt' b t = y_ders_id <$> (pre ++ [y]).
Proof.
  intros Hs Ho Hd Hk. destruct (kayit_uygun_orta _ _ _ Hk) as (Hnd & Hnin & Ha).
  eexists. split; [apply program_satiri_yaz_ok; [done|done| |]|].
  - apply cakisma_yok. rewrite Ho. intros f (y' & dl & Hy' & Hdl & ->)%elem_of_plan_kayitlari Hdl'.
    simpl in *. by apply (Ha y' Hy' dl).
  - destruct (existsb _ _) eqn:E; [|done]. exfalso. apply Hnin. rewrite <- Hd.
    apply existsb_exists in E as (sp & Hsp & E). apply andb_true_iff in E as [Hsel Hde].
    apply Z.eqb_eq in Hde. rewrite <- Hde. apply list_elem_of_fmap_2, list_elem_of_In, filter_In.
    done.
  - assert (Hsel : secili b t (yeni_satir vt b (y_ders_id y) t (baslangic y) (bitis y) bek) = true)
      by (by apply secili_refl).
    split; [by apply eklenmis_saglam|].
    rewrite oda_kayitlari_eklenmis, ders_kayitlari_eklenmis, Hsel, Ho, Hd, fmap_app
      by done.
    split; [|done]. by rewrite plan_kayitlari_snoc.
Qed.

Lemma kaydet_dongusu_basarili vt b t bek pre ys :
  saglam vt -> oda_kayitlari vt b t = plan_kayitlari pre ->
  ders_kayitlari vt b t = y_ders_id <$> pre -> KayitUygun (pre ++ ys) ->
  exists vt', kaydet_dongusu vt b t bek ys ?= vt' /\ saglam vt' /\
    oda_kayitlari vt' b t = plan_kayitlari (pre ++ ys) /\
    ders_kayitlari vt' b t = y_ders_id <$> (pre ++ ys).
Proof.
  revert vt pre. induction ys as [|y ys IH]; intros vt pre Hs Ho Hd Hk; simpl.
  - rewrite app_nil_r. eauto.
  - destruct (kayit_adimi vt b t bek pre y ys) as (vt1 & -> & Hs1 & Ho1 & Hd1); [done..|].
    rewrite cons_middle, app_assoc in Hk |- *. by apply IH.
Qed.

(** ** Clearing a timetable *)

Lemma temizle_secili vt b t sp :
  sp ∈ sinav_programi (sinav_programini_temizle vt b t) -> secili b t sp = false.
Proof.
  unfold sinav_programini_temizle.
  destruct (sp_id <$> List.filter (secili b t) (sinav_programi vt)) as [|i ids] eqn:E; simpl.
  - apply fmap_nil_inv in E. intros Hsp. destruct (secili b t sp) eqn:Hs; [|done].
    assert (Hin : In sp (List.filter (secili b t) (sinav_programi vt)))
      by (apply filter_In; split; [by apply list_elem_of_In|done]).
    by rewrite E in Hin.
  - intros [_ Hs]%list_elem_of_In%filter_In. by apply negb_true_iff.
Qed.

Lemma secili_yok_bos vt b t :
  (forall sp, sp ∈ sinav_programi vt -> secili b t sp = false) ->
  oda_kayitlari vt b t = [] /\ ders_kayitlari vt b t = [].
Proof.
  unfold oda_kayitlari, ders_kayitlari. induction (sinav_programi vt) as [|sp rows IH]; intros H; [done|].
  simpl. rewrite (H sp) by apply list_elem_of_here. simpl. apply IH.
  intros sp' Hsp'. apply H. by apply list_elem_of_further.
Qed.

Lemma Forall_list_filter {A} (P : A -> Prop) (f : A -> bool) l :
  Forall P l -> Forall P (List.filter f l).
Proof. rewrite !Forall_forall. intros H x Hx%list_elem_of_In%filter_In. apply H, list_elem_of_In, Hx. Qed.

Lemma temizle_saglam vt b t : saglam vt -> saglam (sinav_programini_temizle vt b t).
Proof.
  intros [Hr Hl]. unfold sinav_programini_temizle.
  destruct (sp_id <$> _); [done|]. split; simpl; by apply Forall_list_filter.
Qed.

Lemma list_filter_sublist {A} (f : A -> bool) l : List.filter f l `sublist_of` l.
Proof.
  induction l as [|x l IH]; simpl; [done|].
  destruct (f x); [by apply sublist_skip|by apply sublist_cons].
Qed.

Lemma list_filter_comm {A} (f g : A -> bool) l :
  List.filter f (List.filter g l) = List.filter g (List.filter f l).
Proof.
  induction l as [|x l IH]; simpl; [done|].
  destruct (g x) eqn:Eg, (f x) eqn:Ef; simpl; rewrite ?Eg, ?Ef; by rewrite IH.
Qed.

Lemma map_sublist {A B} (f : A -> B) l k : l `sublist_of` k -> map f l `sublist_of` map f k.
Proof. induction 1; simpl; by constructor. Qed.

(** Clearing one timetable keeps a sublist of the bookings of any other. *)
Lemma temizle_oda_kayitlari vt b t b' t' :
  oda_kayitlari (sinav_programini_temizle vt b t) b' t' `sublist_of` oda_kayitlari vt b' t'.
Proof.
  unfold sinav_programini_temizle.
  destruct (sp_id <$> _) as [|i ids]; [done|]. unfold oda_kayitlari. simpl.
  induction (sinav_programi vt) as [|sp rows IH]; simpl; [done|].
  destruct (negb (secili b t sp)); simpl.
  - apply sublist_app; [|done]. destruct (secili b' t' sp); [|done].
    apply map_sublist. rewrite list_filter_comm. apply list_filter_sublist.
  - by apply sublist_inserts_l.
Qed.

(** ** The room bookings stay disjoint *)

(** Two bookings of the same room do not overlap. *)
Definition cakismaz (f g : Z * Z * Z) : Prop :=
  f.1.1 = g.1.1 -> overlaps f.1.2 f.2 g.1.2 g.2 = false.

Definition oda_ayrik (fs : list (Z * Z * Z)) : Prop := ForallOrdPairs cakismaz fs.

Lemma oda_ayrik_app fs gs :
  oda_ayrik fs -> oda_ayrik gs -> (forall f g, f ∈ fs -> g ∈ gs -> cakismaz f g) ->
  oda_ayrik (fs ++ gs).
Proof.
  intros Hf Hg Hx. induction Hf as [|f fs Hf1 Hf2 IH]; simpl; [done|]. constructor.
  - apply Forall_app. split; [done|]. apply Forall_forall. intros g Hg'.
    apply Hx; [apply list_elem_of_here|done].
  - apply IH. intros f' g Hf' Hg'. apply Hx; [by apply list_elem_of_further|done].
Qed.

Lemma oda_ayrik_sublist fs gs : fs `sublist_of` gs -> oda_ayrik gs -> oda_ayrik fs.
Proof.
  induction 1 as [|x l1 l2 Hs IH|x l1 l2 Hs IH]; intros Hg; [constructor| |].
  - inversion Hg as [|? ? Hx Hl]; subst. constructor; [|by apply IH].
    eapply incl_Forall; [|exact Hx]. intros y Hy. apply list_elem_of_In.
    eapply elem_of_sublist; [apply list_elem_of_In, Hy|exact Hs].
  - inversion Hg; subst. by apply IH.
Qed.

(** The bookings of one write: the same interval in distinct rooms. *)
Lemma oda_ayrik_tek dls bas bit :
  NoDup dls -> oda_ayrik (map (fun dl => (dl, bas, bit)) dls).
Proof.
  induction 1 as [|dl dls Hdl _ IH]; simpl; constructor; [|done].
  apply Forall_forall. intros g (dl' & <- & Hin)%list_elem_of_In%in_map_iff Heq.
  simpl in Heq. subst. by apply list_elem_of_In in Hin.
Qed.

(** What the store keeps true of the timetable of one department and
    exam type: disjoint room bookings, and each course at most once. *)
Definition tablo_inv (vt : Veritabani) (b : Z) (t : string) : Prop :=
  oda_ayrik (oda_kayitlari vt b t) /\ NoDup (ders_kayitlari vt b t).

Lemma ders_yok vt b t d :
  existsb (fun sp => secili b t sp && (sp_ders sp =? d)) (sinav_programi vt) = false ->
  d ∉ ders_kayitlari vt b t.
Proof.
  intros E (sp & -> & Hsp)%list_elem_of_fmap. apply list_elem_of_In, filter_In in Hsp as [Hin Hs].
  assert (Hc : existsb (fun sp' => secili b t sp' && (sp_ders sp' =? sp_ders sp)) (sinav_programi vt) = true)
    by (apply existsb_exists; exists sp; by rewrite Hs, Z.eqb_refl).
  congruence.
Qed.

Lemma secili_yeni vt b d t bas bit bek b' t' :
  secili b' t' (yeni_satir vt b d t bas bit bek) = true -> b' = b /\ t' = t.
Proof.
  unfold secili. simpl. intros [Hb Ht]%andb_true_iff.
  apply Z.eqb_eq in Hb. apply bool_decide_eq_true_1 in Ht. by subst.
Qed.

(** One successful write keeps the timetable invariant of every
    department and exam type. *)
Lemma program_satiri_yaz_ayrik vt b d t bas bit bek dls vt' id b' t' :
  saglam vt -> tablo_inv vt b' t' ->
  program_satiri_yaz vt b d t bas bit bek dls ?= (vt', id) ->
  saglam vt' /\ tablo_inv vt' b' t'.
Proof.
  intros Hs [Ho Hn] (Ec & Eu & Hnd & -> & ->)%program_satiri_yaz_tamam.
  split; [by apply eklenmis_saglam|].
  unfold tablo_inv. rewrite oda_kayitlari_eklenmis, ders_kayitlari_eklenmis by done.
  destruct (secili b' t' _) eqn:Hsel; [|by rewrite !app_nil_r].
  apply secili_yeni in Hsel as [-> ->]. split.
  - apply oda_ayrik_app; [done|by apply oda_ayrik_tek|].
    intros f g Hf (dl & <- & Hdl)%list_elem_of_In%in_map_iff Heq. simpl in *. subst dl.
    destruct (derslikte_cakisiyor_mu vt b t f.1.1 bas bit) eqn:E.
    + assert (Hc : existsb (fun dl => derslikte_cakisiyor_mu vt b t dl bas bit) dls = true)
        by (apply existsb_exists; eauto).
      congruence.
    + rewrite derslikte_cakisiyor_mu_kayit in E.
      destruct (overlaps f.1.2 f.2 bas bit) eqn:Eo; [|done]. exfalso.
      assert (Hc : existsb (fun g => (g.1.1 =? f.1.1) && overlaps g.1.2 g.2 bas bit)
                     (oda_kayitlari vt b t) = true).
      { apply existsb_exists. exists f. split; [by apply list_elem_of_In|].
        by rewrite Z.eqb_refl, Eo. }
      congruence.
  - apply NoDup_app. split; [done|]. split; [|apply NoDup_singleton].
    intros x Hx ->%list_elem_of_singleton. by apply (ders_yok vt b t d) in Eu.
Qed.

Lemma kaydet_dongusu_ayrik vt b t bek ys vt' b' t' :
  saglam vt -> tablo_inv vt b' t' -> kaydet_dongusu vt b t bek ys ?= vt' ->
  saglam vt' /\ tablo_inv vt' b' t'.
Proof.
  revert vt. induction ys as [|y ys IH]; intros vt Hs Ho; simpl; [by intros [= <-]|].
  destruct (program_satiri_yaz _ _ _ _ _ _ _ _) as [[vt1 id]|e] eqn:E; [|discriminate].
  apply (program_satiri_yaz_ayrik _ _ _ _ _ _ _ _ _ _ b' t') in E as [Hs1 Ho1]; [|done..].
  by apply IH.
Qed.

Lemma temizle_ders_kayitlari vt b t b' t' :
  ders_kayitlari (sinav_programini_temizle vt b t) b' t' `sublist_of` ders_kayitlari vt b' t'.
Proof.
  unfold sinav_programini_temizle. destruct (sp_id <$> _); [done|].
  unfold ders_kayitlari. simpl. apply fmap_sublist. rewrite list_filter_comm.
  apply list_filter_sublist.
Qed.

(** ** The writers as a transition system

    A committed call of one of the three writers of [veri_deposu] that
    touch the timetable tables; a call that raises rolls back and leaves
    the store as it was. *)
Inductive adim : Veritabani -> Veritabani -> Prop :=
  | Adim_kaydet vt b d t bas bit sure bek dls vt' id :
      sinav_kaydet vt b d t bas bit sure bek dls = (vt', Tamam id) -> adim vt vt'
  | Adim_toplu vt b t ys bek vt' :
      sinav_programi_kaydet vt b t ys bek = (vt', Tamam tt) -> adim vt vt'
  | Adim_temizle vt b t : adim vt (sinav_programini_temizle vt b t).

(** The empty database created by [veritabani_baslat]. *)
Definition bos_veritabani : Veritabani :=
  {| sinav_programi := []; sinav_programi_derslik := []; oturma_plani := []; sqlite_sequence := 0 |}.

Definition depo_inv (vt : Veritabani) : Prop :=
  saglam vt /\ forall b t, tablo_inv vt b t.

Lemma adim_inv vt vt' : depo_inv vt -> adim vt vt' -> depo_inv vt'.
Proof.
  intros [Hs Ho] Hadim. destruct Hadim as [vt b d t bas bit sure bek dls vt' id E|vt b t ys bek vt' E|vt b t].
  - unfold sinav_kaydet, baglanti_ile in E.
    destruct (program_satiri_yaz _ _ _ _ _ _ _ _) as [[vt1 id']|e] eqn:Ey; [|discriminate].
    injection E as <- _.
    assert (H : forall b' t', saglam vt1 /\ tablo_inv vt1 b' t')
      by (intros b' t'; eapply program_satiri_yaz_ayrik; [exact Hs|apply Ho|exact Ey]).
    split; [apply (H 0 EmptyString)|intros b' t'; apply H].
  - unfold sinav_programi_kaydet, baglanti_ile in E.
    destruct (kaydet_dongusu _ _ _ _ _) as [vt1|e] eqn:Ek; simpl in E; [|discriminate].
    injection E as <-.
    assert (H : forall b' t', saglam vt1 /\ tablo_inv vt1 b' t')
      by (intros b' t'; eapply kaydet_dongusu_ayrik; [exact Hs|apply Ho|exact Ek]).
    split; [apply (H 0 EmptyString)|intros b' t'; apply H].
  - split; [by apply temizle_saglam|]. intros b' t'. destruct (Ho b' t') as [Ho' Hn']. split.
    + eapply oda_ayrik_sublist; [apply temizle_oda_kayitlari|exact Ho'].
    + eapply sublist_NoDup; [exact Hn'|apply temizle_ders_kayitlari].
Qed.

Lemma bos_veritabani_inv : depo_inv bos_veritabani.
Proof. split; [split; constructor|]. intros b t. split; constructor. Qed.

Lemma rtc_adim_inv vt vt' : rtc adim vt vt' -> depo_inv vt -> depo_inv vt'.
Proof. induction 1 as [|x y z Hxy _ IH]; [done|]. intros Hx. apply IH. by eapply adim_inv. Qed.

(** ** Concrete data: one exam of course 10 in room 7, 2024-01-01 09:00-10:30 *)
Definition ornek_vt : Veritabani :=
  fst (sinav_kaydet bos_veritabani 1 10 "vize"%string (738886 * 1440 + 540) (738886 * 1440 + 630)
         90 0 [7]).

Lemma ornek_vt_erisilebilir : rtc adim bos_veritabani ornek_vt.
Proof.
  eapply rtc_l; [|apply rtc_refl].
  apply (Adim_kaydet bos_veritabani 1 10 "vize"%string (738886 * 1440 + 540) (738886 * 1440 + 630)
    90 0 [7] ornek_vt 1).
  vm_compute. reflexivity.
Qed.

(** The same room booked at 09:30-11:00 for the final exam. *)
Definition ornek_vt2 : Veritabani :=
  fst (sinav_kaydet ornek_vt 1 11 "final"%string (738886 * 1440 + 570) (738886 * 1440 + 660)
         90 0 [7]).

Lemma ornek_vt_saglam : saglam ornek_vt.
Proof. split; vm_compute; repeat constructor; discriminate. Qed.

Definition ornek_plan : list Yerlestirme :=
  [{| y_ders_id := 10; baslangic := 738886 * 1440 + 540; bitis := 738886 * 1440 + 630;
      derslik_ids := [7] |};
   {| y_ders_id := 11; baslangic := 738886 * 1440 + 720; bitis := 738886 * 1440 + 810;
      derslik_ids := [7] |}].

Lemma ornek_plan_uygun : KayitUygun ornek_plan.
Proof.
  split.
  - karar.
  - intros y Hy. apply list_elem_of_In in Hy. simpl in Hy.
    destruct Hy as [<-|[<-|[]]]; karar.
  - intros i j y1 y2 Hij Hi Hj r _ _.
    destruct i as [|[|i]], j as [|[|j]]; simplify_eq/=; try lia; reflexivity.
Qed.

(** ** Theorems *)

(** C10 (the store never double-books a room): in every database reached
    from the empty one by committed calls of [sinav_kaydet],
    [sinav_programi_kaydet] and [sinav_programini_temizle], two bookings
    of the same room in the timetable of one department and exam type
    do not overlap, and no course occurs twice in that timetable. *)
Theorem erisilebilir_oda_ayrik vt b t :
  rtc adim bos_veritabani vt ->
  oda_ayrik (oda_kayitlari vt b t) /\ NoDup (ders_kayitlari vt b t).
Proof.
  intros H. apply (rtc_adim_inv _ _ H bos_veritabani_inv).
Qed.

(** (the guard rejects a double booking): when a room of a new exam
    already has an overlapping booking in the timetable of the same
    department and exam type, [sinav_kaydet] raises [ValueError] and
    the transaction leaves the database unchanged. *)
Theorem sinav_kaydet_reddeder vt b d t bas bit sure bek dls f :
  f ∈ oda_kayitlari vt b t -> f.1.1 ∈ dls -> overlaps f.1.2 f.2 bas bit = true ->
  sinav_kaydet vt b d t bas bit sure bek dls = (vt, Hata ValueError).
Proof.
  intros Hf Hdl Ho. unfold sinav_kaydet, program_satiri_yaz.
  replace (existsb _ dls) with true; [done|]. symmetry. apply existsb_exists.
  exists f.1.1. split; [by apply list_elem_of_In|].
  rewrite derslikte_cakisiyor_mu_kayit. apply existsb_exists. exists f.
  split; [by apply list_elem_of_In|]. by rewrite Z.eqb_refl, Ho.
Qed.

(** (writing a plan that meets the contract): after
    [sinav_programini_temizle], [sinav_programi_kaydet] writes a list of
    placements that satisfies [KayitUygun] without an exception, and the
    timetable of the department and exam type then holds exactly the
    placements' courses and room bookings, in order. *)
Theorem sinav_programi_kaydet_temiz vt b t ys bek :
  saglam vt -> KayitUygun ys ->
  exists vt', sinav_programi_kaydet (sinav_programini_temizle vt b t) b t ys bek = (vt', Tamam tt) /\
    oda_kayitlari vt' b t = plan_kayitlari ys /\ ders_kayitlari vt' b t = y_ders_id <$> ys.
Proof.
  intros Hs Hk. destruct (secili_yok_bos (sinav_programini_temizle vt b t) b t) as [Ho Hd];
    [apply temizle_secili|].
  destruct (kaydet_dongusu_basarili (sinav_programini_temizle vt b t) b t bek [] ys)
    as (vt' & Ek & _ & Ho' & Hd'); [by apply temizle_saglam|done|done|done|].
  exists vt'. unfold sinav_programi_kaydet, baglanti_ile. by rewrite Ek.
Qed.

(** (the guard is per exam type): the room guard only looks at the
    timetable of the same department and exam type, so a midterm and a
    final of one department can hold the same room at overlapping times;
    both writes commit. *)
Theorem farkli_tur_cakisir :
  exists vt bas1 bit1 bas2 bit2, rtc adim bos_veritabani vt /\
    (7, bas1, bit1) ∈ oda_kayitlari vt 1 "vize"%string /\
    (7, bas2, bit2) ∈ oda_kayitlari vt 1 "final"%string /\
    overlaps bas1 bit1 bas2 bit2 = true.
Proof.
  exists ornek_vt2, (738886 * 1440 + 540), (738886 * 1440 + 630),
    (738886 * 1440 + 570), (738886 * 1440 + 660).
  split; [|split; [|split]].
  - eapply rtc_r; [exact ornek_vt_erisilebilir|].
    apply (Adim_kaydet ornek_vt 1 11 "final"%string (738886 * 1440 + 570) (738886 * 1440 + 660)
      90 0 [7] ornek_vt2 2).
    vm_compute. reflexivity.
  - assert (E : oda_kayitlari ornek_vt2 1 "vize"%string =
                [(7, 738886 * 1440 + 540, 738886 * 1440 + 630)]) by (vm_compute; reflexivity).
    rewrite E. apply list_elem_of_here.
  - assert (E : oda_kayitlari ornek_vt2 1 "final"%string =
                [(7, 738886 * 1440 + 570, 738886 * 1440 + 660)]) by (vm_compute; reflexivity).
    rewrite E. apply list_elem_of_here.
  - vm_compute. reflexivity.
Qed.

(** ** Witnesses *)

Lemma erisilebilir_oda_ayrik_ornek :
  rtc adim bos_veritabani ornek_vt /\
  oda_ayrik (oda_kayitlari ornek_vt 1 "vize"%string) /\ NoDup (ders_kayitlari ornek_vt 1 "vize"%string).
Proof.
  split; [exact ornek_vt_erisilebilir|].
  apply (erisilebilir_oda_ayrik ornek_vt 1 "vize"%string). exact ornek_vt_erisilebilir.
Defined.

Lemma sinav_kaydet_reddeder_ornek :
  oda_kayitlari ornek_vt 1 "vize"%string = [(7, 738886 * 1440 + 540, 738886 * 1440 + 630)] /\
  sinav_kaydet ornek_vt 1 11 "vize"%string (738886 * 1440 + 600) (738886 * 1440 + 690) 90 0 [8; 7]
    = (ornek_vt, Hata ValueError).
Proof.
  assert (E : oda_kayitlari ornek_vt 1 "vize"%string = [(7, 738886 * 1440 + 540, 738886 * 1440 + 630)])
    by (vm_compute; reflexivity).
  split; [exact E|].
  apply (sinav_kaydet_reddeder ornek_vt 1 11 "vize"%string (738886 * 1440 + 600)
    (738886 * 1440 + 690) 90 0 [8; 7] (7, 738886 * 1440 + 540, 738886 * 1440 + 630)).
  - rewrite E. apply list_elem_of_here.
  - simpl. apply list_elem_of_further, list_elem_of_here.
  - vm_compute. reflexivity.
Defined.

Lemma sinav_programi_kaydet_temiz_ornek :
  saglam ornek_vt /\ KayitUygun ornek_plan /\
  exists vt', sinav_programi_kaydet (sinav_programini_temizle ornek_vt 1 "vize"%string) 1
      "vize"%string ornek_plan 0 = (vt', Tamam tt) /\
    oda_kayitlari vt' 1 "vize"%string = plan_kayitlari ornek_plan /\
    ders_kayitlari vt' 1 "vize"%string = y_ders_id <$> ornek_plan.
Proof.
  split; [exact ornek_vt_saglam|]. split; [exact ornek_plan_uygun|].
  apply sinav_programi_kaydet_temiz; [exact ornek_vt_saglam|exact ornek_plan_uygun].
Defined.

End Kalici.
