(* ===== verification/Accounts.v ===== *)
(** * Accounts: users, departments, start-up and room administration

    The role checks of [src/veri_deposu.py] around the tables
    [kullanicilar], [bolumler] and [derslikler]: [kullanici_bul] (lines
    54-56), [_bolumde_koordinator_var_mi] (58-64),
    [yetkili_kullanici_ekle] (66-83), [tum_bolumleri_getir] (85-87),
    [kullaniciya_gorunecek_bolumler] (89-93) and the room operations
    [derslik_listele] ... [derslik_ara_id] (124-181); the start-up of
    [src/main.py] with [veritabani_baslat] and [varsayilan_veri_yukle]
    of [src/veritabani.py].

    The state [Sistem] holds these tables, the [AUTOINCREMENT] counters,
    the catalog of [Catalog] (whose [derslikler] table the room operations
    change) and the timetable tables of [Store].  A [UNIQUE] constraint
    is checked on the table a statement produces: the statement raises
    [IntegrityError] and changes nothing when two rows would share the
    key.  [PRAGMA foreign_keys=ON] is part of the schema script only, and
    [baglanti()] does not issue it, so foreign keys are not checked.  The
    database file is [Dosya]: whether it exists and its size. *)

From S2P Require Import Prelude Planner Catalog Store.

Module Yetki.
Import Katalog Kalici.

(** ** Tables *)

Record KullaniciSatiri := {
  ku_id : Z;
  ku_eposta : string;
  ku_sifre_hash : string;
  ku_rol : string;
  ku_bolum_id : option Z
}.

Record Sistem := {
  bolumler : list (Z * string);
  bolum_seq : Z;
  kullanicilar : list KullaniciSatiri;
  kullanici_seq : Z;
  katalog : Katalog;
  derslik_seq : Z;
  program : Veritabani
}.

Definition kullanicilar_yaz (s : Sistem) (us : list KullaniciSatiri) (seq : Z) : Sistem :=
  {| bolumler := bolumler s; bolum_seq := bolum_seq s; kullanicilar := us; kullanici_seq := seq;
     katalog := katalog s; derslik_seq := derslik_seq s; program := program s |}.

Definition derslikler_yaz (s : Sistem) (rs : list DerslikSatiri) (seq : Z) : Sistem :=
  {| bolumler := bolumler s; bolum_seq := bolum_seq s; kullanicilar := kullanicilar s;
     kullanici_seq := kullanici_seq s;
     katalog := {| t_dersler := t_dersler (katalog s); t_ogrenciler := t_ogrenciler (katalog s);
                   t_ogrenci_ders := t_ogrenci_ders (katalog s); t_derslikler := rs |};
     derslik_seq := seq; program := program s |}.

Definition katalog_yaz (s : Sistem) (kt : Katalog) : Sistem :=
  {| bolumler := bolumler s; bolum_seq := bolum_seq s; kullanicilar := kullanicilar s;
     kullanici_seq := kullanici_seq s; katalog := kt; derslik_seq := derslik_seq s;
     program := program s |}.

(** ** Users *)

(** [SELECT * FROM kullanicilar WHERE eposta=?] ([UNIQUE(eposta)]). *)
Definition kullanici_bul (s : Sistem) (eposta : string) : option KullaniciSatiri :=
  List.find (fun u => bool_decide (ku_eposta u = eposta)) (kullanicilar s).

Definition _bolumde_koordinator_var_mi (s : Sistem) (bolum_id : Z) : bool :=
  existsb (fun u => bool_decide (ku_rol u = "koordinator" /\ ku_bolum_id u = Some bolum_id))
    (kullanicilar s).

(** [INSERT INTO kullanicilar(eposta,sifre_hash,rol,bolum_id)]. *)
Definition kullanici_ekle (s : Sistem) (eposta sifre_hash rol : string) (bolum_id : option Z)
    : Sonuc Sistem :=
  if bool_decide (eposta ∈ ku_eposta <$> kullanicilar s) then Hata IntegrityError
  else Tamam (kullanicilar_yaz s (kullanicilar s ++
         [{| ku_id := kullanici_seq s + 1; ku_eposta := eposta; ku_sifre_hash := sifre_hash;
             ku_rol := rol; ku_bolum_id := bolum_id |}]) (kullanici_seq s + 1)).

(** Lines 66-83; [if not bolum_id] rejects [None] and [0]. *)
Definition yetkili_kullanici_ekle (s : Sistem) (giris_yapan : KullaniciSatiri)
    (eposta sifre_hash rol : string) (bolum_id : option Z) : Sonuc Sistem :=
  if decide (ku_rol giris_yapan <> "admin") then Hata PermissionError
  else if decide (rol <> "admin" /\ rol <> "koordinator") then Hata ValueError
  else if decide (rol = "koordinator") then
    match bolum_id with
    | None => Hata ValueError
    | Some b =>
        if decide (b = 0) then Hata ValueError
        else if _bolumde_koordinator_var_mi s b then Hata ValueError
        else kullanici_ekle s eposta sifre_hash rol (Some b)
    end
  else kullanici_ekle s eposta sifre_hash rol None.

(** [SELECT id, ad FROM bolumler ORDER BY ad]. *)
Definition tum_bolumleri_getir (s : Sistem) : list (Z * string) :=
  sirala (fun a b => metin_le a.2 b.2) (bolumler s).

Definition kullaniciya_gorunecek_bolumler (s : Sistem) (kullanici : KullaniciSatiri)
    : list (Z * string) :=
  if decide (ku_rol kullanici = "admin") then tum_bolumleri_getir s
  else match ku_bolum_id kullanici with
       | None => tum_bolumleri_getir s
       | Some b => filter (fun r => r.1 = b) (bolumler s)
       end.

(** ** Rooms *)

Definition koordinator_mu (k : KullaniciSatiri) : bool := bool_decide (ku_rol k = "koordinator").

(** [WHERE bolum_id=?] with the user's [bolum_id]; [= NULL] holds for no row. *)
Definition bolumun (k : KullaniciSatiri) (r : DerslikSatiri) : Prop := Some (dl_bolum_id r) = ku_bolum_id k.

#[export] Instance bolumun_dec k r : Decision (bolumun k r).
Proof. unfold bolumun. apply _. Defined.

(** [UNIQUE(bolum_id, derslik_kodu)]. *)
Definition derslik_anahtari (r : DerslikSatiri) : Z * string := (dl_bolum_id r, dl_kodu r).

Definition benzersiz (rs : list DerslikSatiri) : bool := bool_decide (NoDup (derslik_anahtari <$> rs)).

Definition derslik_listele (s : Sistem) (k : KullaniciSatiri) : list DerslikSatiri :=
  if koordinator_mu k
  then sirala (fun a b => metin_le (dl_kodu a) (dl_kodu b)) (filter (bolumun k) (t_derslikler (katalog s)))
  else [].

Definition derslik_sayisi (s : Sistem) (k : KullaniciSatiri) : Z :=
  if koordinator_mu k then Z.of_nat (length (filter (bolumun k) (t_derslikler (katalog s)))) else 0.

(** Lines 145-152; [bolum_id] is [NOT NULL]. *)
Definition derslik_ekle (s : Sistem) (k : KullaniciSatiri) (kod ad : string)
    (kapasite enine boyuna sira_yapisi : Z) : Sonuc Sistem :=
  if negb (koordinator_mu k) then Hata PermissionError
  else match ku_bolum_id k with
       | None => Hata IntegrityError
       | Some b =>
           let rs := t_derslikler (katalog s) ++
             [{| dl_satir_id := derslik_seq s + 1; dl_bolum_id := b; dl_kodu := kod; dl_adi := ad;
                 dl_kapasite := kapasite; dl_enine := enine; dl_boyuna := boyuna;
                 dl_sira_yapisi := sira_yapisi |}] in
           if benzersiz rs then Tamam (derslikler_yaz s rs (derslik_seq s + 1))
           else Hata IntegrityError
       end.

(** Lines 154-162: [UPDATE ... WHERE id=? AND bolum_id=?]. *)
Definition derslik_guncelle (s : Sistem) (k : KullaniciSatiri) (derslik_id : Z) (kod ad : string)
    (kapasite enine boyuna sira_yapisi : Z) : Sonuc Sistem :=
  if negb (koordinator_mu k) then Hata PermissionError
  else
    let yeni r := if decide (dl_satir_id r = derslik_id /\ bolumun k r)
                  then {| dl_satir_id := dl_satir_id r; dl_bolum_id := dl_bolum_id r;
                          dl_kodu := kod; dl_adi := ad; dl_kapasite := kapasite;
                          dl_enine := enine; dl_boyuna := boyuna; dl_sira_yapisi := sira_yapisi |}
                  else r in
    let rs := yeni <$> t_derslikler (katalog s) in
    if benzersiz rs then Tamam (derslikler_yaz s rs (derslik_seq s)) else Hata IntegrityError.

(** Lines 164-168: [DELETE FROM derslikler WHERE id=? AND bolum_id=?]. *)
Definition derslik_sil (s : Sistem) (k : KullaniciSatiri) (derslik_id : Z) : Sonuc Sistem :=
  if negb (koordinator_mu k) then Hata PermissionError
  else Tamam (derslikler_yaz s
         (filter (fun r => ~ (dl_satir_id r = derslik_id /\ bolumun k r)) (t_derslikler (katalog s)))
         (derslik_seq s)).

Definition derslik_ara_id (s : Sistem) (k : KullaniciSatiri) (sinif_id : Z) : option DerslikSatiri :=
  if koordinator_mu k
  then List.find (fun r => bool_decide (dl_satir_id r = sinif_id /\ bolumun k r)) (t_derslikler (katalog s))
  else None.

(** ** Start-up *)

Record Dosya := {
  dosya_var : bool;
  dosya_boyut : Z
}.

(** The size of the schema a fresh database file holds: one page per
    table and index at SQLite's default page size. *)
Definition sema_boyutu : Z := 12 * 4096.

(** [veritabani_baslat]: [sqlite3.connect] creates the file and the
    script writes the schema; the tables it creates are empty. *)
Definition veritabani_baslat (f : Dosya) : Dosya :=
  {| dosya_var := true; dosya_boyut := if dosya_var f then dosya_boyut f else sema_boyutu |}.

Definition varsayilan_bolumler : list string :=
  ["Bilgisayar Mühendisliği"; "Yazılım Mühendisliği"; "Elektrik Mühendisliği";
   "Elektronik Mühendisliği"; "İnşaat Mühendisliği"].

(** [INSERT OR IGNORE INTO bolumler(ad)] ([UNIQUE(ad)]). *)
Definition bolum_ekle (s : Sistem) (ad : string) : Sistem :=
  if bool_decide (ad ∈ snd <$> bolumler s) then s
  else {| bolumler := bolumler s ++ [(bolum_seq s + 1, ad)]; bolum_seq := bolum_seq s + 1;
          kullanicilar := kullanicilar s; kullanici_seq := kullanici_seq s; katalog := katalog s;
          derslik_seq := derslik_seq s; program := program s |}.

(** [varsayilan_veri_yukle] (lines 130-144 of [veritabani.py]). *)
Definition varsayilan_veri_yukle (s : Sistem) (admin_sifre_hash : string) : Sistem :=
  let s1 := fold_left bolum_ekle varsayilan_bolumler s in
  match kullanici_ekle s1 "admin@uni.edu" admin_sifre_hash "admin" None with
  | Tamam s2 => s2
  | Hata _ => s1
  end.

(** [main.py]: [veritabani_baslat()], then the default data only if the
    file is missing or empty. *)
Definition main_baslat (f : Dosya) (s : Sistem) (admin_hash : string) : Dosya * Sistem :=
  let f1 := veritabani_baslat f in
  if negb (dosya_var f1) || (dosya_boyut f1 =? 0)
  then (f1, varsayilan_veri_yukle s admin_hash)
  else (f1, s).

Definition bos_katalog : Katalog :=
  {| t_dersler := []; t_ogrenciler := []; t_ogrenci_ders := []; t_derslikler := [] |}.

Definition bos_sistem : Sistem :=
  {| bolumler := []; bolum_seq := 0; kullanicilar := []; kullanici_seq := 0;
     katalog := bos_katalog; derslik_seq := 0; program := bos_veritabani |}.

(** ** The application as a transition system

    A step is a committed call of a writer of this file by a user who
    logged in: [giris_penceresi._giris_yap] hands on the row that
    [kullanici_bul] found (the password check is not modelled). *)
Inductive uygulama_adimi : Sistem -> Sistem -> Prop :=
  | Adim_kullanici s u e h r b s' :
      u ∈ kullanicilar s -> yetkili_kullanici_ekle s u e h r b ?= s' -> uygulama_adimi s s'
  | Adim_derslik_ekle s u kod ad kap en boy sira s' :
      u ∈ kullanicilar s -> derslik_ekle s u kod ad kap en boy sira ?= s' -> uygulama_adimi s s'
  | Adim_derslik_guncelle s u i kod ad kap en boy sira s' :
      u ∈ kullanicilar s -> derslik_guncelle s u i kod ad kap en boy sira ?= s' ->
      uygulama_adimi s s'
  | Adim_derslik_sil s u i s' :
      u ∈ kullanicilar s -> derslik_sil s u i ?= s' -> uygulama_adimi s s'.

(** ** The account invariant *)

(** The departments of the coordinators, one entry per coordinator. *)
Definition koordinator_bolumleri (us : list KullaniciSatiri) : list Z :=
  omap (fun u => if decide (ku_rol u = "koordinator") then ku_bolum_id u else None) us.

(** A row the [CHECK] and the role rules allow: an admin without a
    department or a coordinator with a department id other than 0. *)
Definition rol_uygun (u : KullaniciSatiri) : Prop :=
  (ku_rol u = "admin" /\ ku_bolum_id u = None) \/
  (ku_rol u = "koordinator" /\ exists b, ku_bolum_id u = Some b /\ b <> 0).

Definition hesap_inv (s : Sistem) : Prop :=
  NoDup (ku_eposta <$> kullanicilar s) /\ Forall rol_uygun (kullanicilar s) /\
  NoDup (koordinator_bolumleri (kullanicilar s)) /\
  NoDup (derslik_anahtari <$> t_derslikler (katalog s)).

(** ** Lemmas *)

Lemma kullanici_ekle_tamam s e h r b s' :
  kullanici_ekle s e h r b ?= s' ->
  (e ∉ ku_eposta <$> kullanicilar s) /\ katalog s' = katalog s /\
  kullanicilar s' = kullanicilar s ++
    [{| ku_id := kullanici_seq s + 1; ku_eposta := e; ku_sifre_hash := h; ku_rol := r;
        ku_bolum_id := b |}].
Proof. unfold kullanici_ekle. case_bool_decide; intros; simplify_eq/=. done. Qed.

Lemma koordinator_bolumleri_app us vs :
  koordinator_bolumleri (us ++ vs) = koordinator_bolumleri us ++ koordinator_bolumleri vs.
Proof. apply omap_app. Qed.

Lemma koordinator_var_mi_spec s b :
  _bolumde_koordinator_var_mi s b = false -> b ∉ koordinator_bolumleri (kullanicilar s).
Proof.
  unfold _bolumde_koordinator_var_mi, koordinator_bolumleri. intros Hf Hb.
  apply list_elem_of_omap in Hb as (u & Hu & Hb). case_decide; [|discriminate].
  assert (existsb (fun u => bool_decide (ku_rol u = "koordinator" /\ ku_bolum_id u = Some b))
            (kullanicilar s) = true) as Ht; [|congruence].
  apply existsb_exists. exists u. split; [by apply list_elem_of_In|]. by apply bool_decide_eq_true.
Qed.

(** Only an admin adds a user, and the row it adds keeps the invariant. *)
Lemma yetkili_kullanici_ekle_inv s u e h r b s' :
  hesap_inv s -> yetkili_kullanici_ekle s u e h r b ?= s' ->
  ku_rol u = "admin" /\ hesap_inv s'.
Proof.
  intros (He & Hr & Hk & Hd) E. unfold yetkili_kullanici_ekle in E.
  case_decide as Hadm; [discriminate|].
  assert (Ha : ku_rol u = "admin") by (destruct (decide (ku_rol u = "admin")); tauto).
  case_decide as Hrol; [discriminate|]. split; [done|].
  case_decide as Hko.
  - destruct b as [b|]; [|discriminate]. case_decide as Hb0; [discriminate|].
    destruct (_bolumde_koordinator_var_mi s b) eqn:Hvar; [discriminate|].
    apply kullanici_ekle_tamam in E as (Hn & Hkat & Hus).
    unfold hesap_inv. rewrite Hus, Hkat, fmap_app, koordinator_bolumleri_app.
    split_and!.
    + apply NoDup_app. split_and!; [done| |by apply NoDup_singleton]. set_solver.
    + apply Forall_app. split; [done|]. constructor; [|constructor]. right. simpl. eauto.
    + apply NoDup_app. simpl. rewrite decide_True by done. split_and!; [done| |].
      * intros x Hx ->%list_elem_of_singleton. exact (koordinator_var_mi_spec s b Hvar Hx).
      * apply NoDup_singleton.
    + done.
  - apply kullanici_ekle_tamam in E as (Hn & Hkat & Hus).
    assert (r = "admin") as -> by (destruct (decide (r = "admin")); tauto).
    unfold hesap_inv. rewrite Hus, Hkat, fmap_app, koordinator_bolumleri_app.
    split_and!.
    + apply NoDup_app. split_and!; [done| |by apply NoDup_singleton]. set_solver.
    + apply Forall_app. split; [done|]. constructor; [|constructor]. left. done.
    + simpl. repeat case_decide; try discriminate. all: by rewrite ?app_nil_r.
    + done.
Qed.

Lemma derslikler_yaz_kullanicilar s rs seq : kullanicilar (derslikler_yaz s rs seq) = kullanicilar s.
Proof. done. Qed.

Lemma benzersiz_NoDup rs : benzersiz rs = true -> NoDup (derslik_anahtari <$> rs).
Proof. unfold benzersiz. by rewrite bool_decide_eq_true. Qed.

#[export] Hint Resolve benzersiz_NoDup : sinav.

(** A committed room operation was made by a coordinator, leaves the users
    as they were, keeps the room keys unique and does not touch the rooms
    of another department. *)
Definition bolum_odalari (s : Sistem) (b : Z) : list DerslikSatiri :=
  filter (fun r => dl_bolum_id r = b) (t_derslikler (katalog s)).

Definition derslik_islemi (s : Sistem) (k : KullaniciSatiri) (s' : Sistem) : Prop :=
  (exists kod ad kap en boy sira, derslik_ekle s k kod ad kap en boy sira ?= s') \/
  (exists i kod ad kap en boy sira, derslik_guncelle s k i kod ad kap en boy sira ?= s') \/
  (exists i, derslik_sil s k i ?= s').

Lemma derslik_islemi_tamam s k s' :
  derslik_islemi s k s' ->
  ku_rol k = "koordinator" /\ kullanicilar s' = kullanicilar s /\
  (NoDup (derslik_anahtari <$> t_derslikler (katalog s)) ->
   NoDup (derslik_anahtari <$> t_derslikler (katalog s'))) /\
  forall b, ku_bolum_id k <> Some b -> bolum_odalari s' b = bolum_odalari s b.
Proof.
  unfold derslik_islemi, bolum_odalari, derslik_ekle, derslik_guncelle, derslik_sil, koordinator_mu.
  intros [(kod & ad & kap & en & boy & sira & H) | [(i & kod & ad & kap & en & boy & sira & H) | (i & H)]];
    (case_bool_decide as Hk; [|discriminate]); simpl in H.
  - destruct (ku_bolum_id k) as [b|] eqn:Hb; [|discriminate].
    destruct (benzersiz _) eqn:Hu; [|discriminate]. injection H as <-.
    split_and!; [done..|auto with sinav|]. intros b' Hb'. simpl.
    rewrite filter_app, filter_cons_False, app_nil_r; [done|]. simpl. congruence.
  - destruct (benzersiz _) eqn:Hu; [|discriminate]. injection H as <-.
    split_and!; [done..|auto with sinav|]. intros b' Hb'. simpl. clear Hu.
    induction (t_derslikler (katalog s)) as [|r rs IH]; [done|]. rewrite fmap_cons.
    case_decide as Hr.
    + destruct Hr as [_ Hr]. unfold bolumun in Hr.
      rewrite !filter_cons_False by (simpl; congruence). done.
    + rewrite !filter_cons. by rewrite IH.
  - injection H as <-. split_and!; [done..| |].
    + simpl. intros Hnd. eapply sublist_NoDup; [exact Hnd|]. apply fmap_sublist, sublist_filter.
    + intros b' Hb'. simpl. rewrite list_filter_filter. apply list_filter_iff.
      intros r. unfold bolumun. split; [tauto|]. intros ->. split; [done|]. intros [_ ?]. congruence.
Qed.

Lemma uygulama_adimi_inv s s' : hesap_inv s -> uygulama_adimi s s' -> hesap_inv s'.
Proof.
  intros Hinv Hs. destruct Hs as [s u e h r b s' _ E|s u kod ad kap en boy sira s' _ E
                                 |s u i kod ad kap en boy sira s' _ E|s u i s' _ E].
  - by eapply yetkili_kullanici_ekle_inv.
  - destruct (derslik_islemi_tamam s u s') as (_ & Hus & Hnd & _); [left; eauto 10|].
    destruct Hinv as (He & Hr & Hk & Hd). unfold hesap_inv. rewrite Hus. auto.
  - destruct (derslik_islemi_tamam s u s') as (_ & Hus & Hnd & _); [right; left; eauto 10|].
    destruct Hinv as (He & Hr & Hk & Hd). unfold hesap_inv. rewrite Hus. auto.
  - destruct (derslik_islemi_tamam s u s') as (_ & Hus & Hnd & _); [right; right; eauto|].
    destruct Hinv as (He & Hr & Hk & Hd). unfold hesap_inv. rewrite Hus. auto.
Qed.

Lemma varsayilan_inv h : hesap_inv (varsayilan_veri_yukle bos_sistem h).
Proof.
  unfold hesap_inv. cbn. split_and!.
  - apply NoDup_singleton.
  - constructor; [left; done|constructor].
  - constructor.
  - constructor.
Qed.

Lemma rtc_uygulama_inv s s' : rtc uygulama_adimi s s' -> hesap_inv s -> hesap_inv s'.
Proof. induction 1; eauto using uygulama_adimi_inv. Qed.

Lemma koordinator_bolumleri_cons u us :
  koordinator_bolumleri (u :: us) =
  (if decide (ku_rol u = "koordinator") then from_option (fun b => [b]) [] (ku_bolum_id u) else [])
  ++ koordinator_bolumleri us.
Proof. unfold koordinator_bolumleri. simpl. by destruct (decide _), (ku_bolum_id u). Qed.

Lemma koordinator_bolumleri_yok b us :
  b ∉ koordinator_bolumleri us ->
  filter (fun u => ku_rol u = "koordinator" /\ ku_bolum_id u = Some b) us = [].
Proof.
  induction us as [|u us IH]; intros Hb; [done|].
  rewrite koordinator_bolumleri_cons in Hb. rewrite filter_cons_False.
  - apply IH. set_solver.
  - intros [Hr Hu]. apply Hb. rewrite decide_True, Hu by done. simpl. left.
Qed.

Lemma tek_koordinator b us :
  NoDup (koordinator_bolumleri us) ->
  (length (filter (fun u => ku_rol u = "koordinator" /\ ku_bolum_id u = Some b) us) <= 1)%nat.
Proof.
  induction us as [|u us IH]; intros Hnd; [simpl; lia|].
  rewrite koordinator_bolumleri_cons in Hnd. rewrite filter_cons.
  destruct (decide (ku_rol u = "koordinator" /\ ku_bolum_id u = Some b)) as [[Hr Hb]|Hn].
  - rewrite decide_True, Hb in Hnd by done. simpl in Hnd.
    apply NoDup_cons in Hnd as [Hn _]. rewrite koordinator_bolumleri_yok by done. simpl. lia.
  - apply IH. apply NoDup_app in Hnd as (_ & _ & ?). done.
Qed.

(** ** Theorems *)

(** C19 From the data [varsayilan_veri_yukle] loads, every state the
    application reaches keeps the account invariant: e-mail addresses are
    unique, every admin has no department and every coordinator a non-zero
    one, no department has two coordinators, and room codes are unique
    within a department. *)
Theorem hesap_inv_korunur h s :
  rtc uygulama_adimi (varsayilan_veri_yukle bos_sistem h) s ->
  hesap_inv s /\
  forall b, (length (filter (fun u => ku_rol u = "koordinator" /\ ku_bolum_id u = Some b)
                     (kullanicilar s)) <= 1)%nat.
Proof.
  intros Hr. assert (Hinv : hesap_inv s) by (eapply rtc_uygulama_inv; [exact Hr|apply varsayilan_inv]).
  split; [done|]. intros b. apply tek_koordinator. apply Hinv.
Qed.

(** C20 Room administration is the coordinator's: for any other role
    every room writer raises [PermissionError] and the readers return
    nothing; a coordinator sees exactly the rooms of the own department,
    and a committed room operation leaves the rooms of every other
    department as they were. *)
Theorem derslik_yetkisi s k :
  (ku_rol k <> "koordinator" ->
     (forall kod ad kap en boy sira, derslik_ekle s k kod ad kap en boy sira = Hata PermissionError) /\
     (forall i kod ad kap en boy sira,
        derslik_guncelle s k i kod ad kap en boy sira = Hata PermissionError) /\
     (forall i, derslik_sil s k i = Hata PermissionError) /\
     derslik_listele s k = [] /\ derslik_sayisi s k = 0 /\ (forall i, derslik_ara_id s k i = None)) /\
  (ku_rol k = "koordinator" ->
     forall r, r ∈ derslik_listele s k <-> r ∈ t_derslikler (katalog s) /\ bolumun k r) /\
  (forall s', derslik_islemi s k s' ->
     forall b, ku_bolum_id k <> Some b -> bolum_odalari s' b = bolum_odalari s b).
Proof.
  unfold derslik_ekle, derslik_guncelle, derslik_sil, derslik_listele, derslik_sayisi,
    derslik_ara_id, koordinator_mu.
  split_and!.
  - intros Hk. rewrite bool_decide_false by done. simpl. split_and!; done.
  - intros Hk r. rewrite bool_decide_true by done. rewrite sirala_elem, list_elem_of_filter. tauto.
  - intros s' Hs. apply derslik_islemi_tamam in Hs as (_ & _ & _ & Hb). exact Hb.
Qed.

(** A fresh installation never gets a user: [main.py] creates the
    database before it tests whether the file is missing or empty, so
    the default departments and the admin are never loaded, and no
    sequence of operations (each needs a logged-in user) adds a user or a
    room. *)
Theorem ilk_kurulum_kullanicisiz h s :
  rtc uygulama_adimi (main_baslat {| dosya_var := false; dosya_boyut := 0 |} bos_sistem h).2 s ->
  kullanicilar s = [] /\ t_derslikler (katalog s) = [].
Proof.
  simpl. intros Hr. remember bos_sistem as s0 eqn:E.
  induction Hr as [x|x y z Hxy _ IH]; subst; [done|].
  exfalso. inversion Hxy; subst;
    match goal with H : _ ∈ kullanicilar bos_sistem |- _ => by apply not_elem_of_nil in H end.
Qed.

(** ** Examples and witnesses *)

Definition ornek_admin : KullaniciSatiri :=
  {| ku_id := 1; ku_eposta := "admin@uni.edu"; ku_sifre_hash := "h"; ku_rol := "admin";
     ku_bolum_id := None |}.

Definition ornek_sistem : Sistem := varsayilan_veri_yukle bos_sistem "h".

Definition ornek_sistem2 : Sistem :=
  match yetkili_kullanici_ekle ornek_sistem ornek_admin "k@uni.edu" "h2" "koordinator" (Some 1) with
  | Tamam s => s | Hata _ => ornek_sistem end.

(** Witness of [hesap_inv_korunur]: the admin adds the coordinator of
    department 1; a second coordinator for it is refused. *)
Lemma hesap_inv_korunur_ornek :
  yetkili_kullanici_ekle ornek_sistem2 ornek_admin "k2@uni.edu" "h3" "koordinator" (Some 1)
    = Hata ValueError /\
  hesap_inv ornek_sistem2 /\
  forall b, (length (filter (fun u => ku_rol u = "koordinator" /\ ku_bolum_id u = Some b)
                     (kullanicilar ornek_sistem2)) <= 1)%nat.
Proof.
  split; [vm_compute; reflexivity|].
  apply (hesap_inv_korunur "h" ornek_sistem2).
  eapply rtc_l; [|apply rtc_refl].
  apply (Adim_kullanici ornek_sistem ornek_admin "k@uni.edu" "h2" "koordinator" (Some 1)).
  - vm_compute. left.
  - reflexivity.
Defined.

(** Witness of [ilk_kurulum_kullanicisiz]. *)
Lemma ilk_kurulum_kullanicisiz_ornek :
  kullanicilar (main_baslat {| dosya_var := false; dosya_boyut := 0 |} bos_sistem "h").2 = [] /\
  t_derslikler (katalog (main_baslat {| dosya_var := false; dosya_boyut := 0 |} bos_sistem "h").2) = [].
Proof. apply (ilk_kurulum_kullanicisiz "h"). apply rtc_refl. Defined.

Definition ornek_koordinator : KullaniciSatiri :=
  {| ku_id := 2; ku_eposta := "k@uni.edu"; ku_sifre_hash := "h2"; ku_rol := "koordinator";
     ku_bolum_id := Some 1 |}.

(** Department 1 with room 7, which the exam of [Kalici.ornek_vt] books. *)
Definition ornek_sistem3 : Sistem :=
  {| bolumler := bolumler ornek_sistem2; bolum_seq := bolum_seq ornek_sistem2;
     kullanicilar := kullanicilar ornek_sistem2; kullanici_seq := kullanici_seq ornek_sistem2;
     katalog := {| t_dersler := []; t_ogrenciler := []; t_ogrenci_ders := [];
                   t_derslikler := [{| dl_satir_id := 7; dl_bolum_id := 1; dl_kodu := "D7";
                                       dl_adi := "Derslik 7"; dl_kapasite := 40; dl_enine := 8;
                                       dl_boyuna := 5; dl_sira_yapisi := 2 |}] |};
     derslik_seq := 7; program := ornek_vt |}.

(** Foreign keys are not enforced: a coordinator can delete a room
    that an exam in the timetable still books, which leaves a
    [sinav_programi_derslik] row naming a room that no longer exists. *)
Theorem derslik_sil_sarkan :
  exists s', derslik_sil ornek_sistem3 ornek_koordinator 7 ?= s' /\
    (exists e, (e, 7) ∈ sinav_programi_derslik (program s')) /\
    7 ∉ dl_satir_id <$> t_derslikler (katalog s').
Proof.
  eexists. split; [reflexivity|]. split.
  - exists 1. vm_compute. left.
  - vm_compute. apply not_elem_of_nil.
Qed.

End Yetki.
