(* ===== verification/Forms.v ===== *)
(** * Forms: the text the windows read and write

    The windows of [src/arayuz] read their entries as [str] and turn them
    into numbers with [int()] and into keys with [str.strip()] and
    [str.split()]; they write numbers into the widgets with [str()].  A
    text value is a Rocq [string] holding its UTF-8 bytes, as SQLite
    stores a [TEXT] column written from Python; [metin] decodes it to the
    Python [str] (its code points, [pystr] of [Normalize]), on which
    [py_int] and [py_strip] of [Normalize] are Python's [int] and
    [str.strip], and [utf8_kodla] encodes a [str] back.  This file holds:
    - the codec [utf8_kod]/[utf8_coz_b] and its round trip;
    - [str_of_Z], Python's [str(int)], and the round trip
      [int(str(n)) = n] the windows rely on when they use a row id as a
      tree item id and read it back (derslik_penceresi.py lines 120,
      171 and 196);
    - [metin_strip], [str.strip()] on a [string], equal to [py_strip];
    - [ile_baslar], [str.startswith], byte by byte: UTF-8 is a prefix
      code, so a byte prefix of a valid encoding is the encoding of a
      prefix;
    - [bolum_secimi_id], [secim.split(" - ", 1)[0]] followed by [int()]
      of kullanici_yonetimi.py lines 100-101, and its round trip with the
      combobox items [f"{bid} - {ad}"] of line 48 (the separator is
      ASCII, and ASCII bytes never occur inside a multi-byte sequence,
      so splitting the bytes splits the text);
    - [EMAIL_RE_match], [EMAIL_RE.match] of kullanici_yonetimi.py line 8,
      and the shape of the addresses it accepts. *)

From S2P Require Import Prelude Normalize.
From Stdlib Require Ascii String.

Module Metin.
Import Normal.

(** ** Message boxes *)

(** [bilgi], [uyari] and [hata] of the message helpers the windows
    import from [utils.mesaj]; [hata(str(e))]
    of an exception raised by the database layer is [HataIstisna e]. *)
Inductive Bildirim :=
  | Bilgi (m : string)
  | Uyari (m : string)
  | HataMesaji (m : string)
  | HataIstisna (e : Istisna).

(** ** [str(n)] *)

Definition rakam_karakteri (d : Z) : Ascii.ascii := Ascii.ascii_of_N (Z.to_N (48 + d)).

(** The decimal digits of [n >= 0], least significant first; [f] bounds
    the number of digits. *)
Fixpoint ters_rakamlar (f : nat) (n : Z) : list Ascii.ascii :=
  match f with
  | O => []
  | S f' => rakam_karakteri (n mod 10) :: (if n <? 10 then [] else ters_rakamlar f' (n / 10))
  end.

(** A number below [2 ^ k] has at most [k] decimal digits. *)
Definition rakam_yakiti (n : Z) : nat := Z.to_nat (Z.log2 n + 1).

Definition str_of_Z (z : Z) : string :=
  if z <? 0
  then String (Ascii.ascii_of_N 45) (String.string_of_list_ascii (rev (ters_rakamlar (rakam_yakiti (- z)) (- z))))
  else String.string_of_list_ascii (rev (ters_rakamlar (rakam_yakiti z) z)).

(** ** Text as UTF-8 bytes *)

Definition kod (a : Ascii.ascii) : Z := Z.of_N (Ascii.N_of_ascii a).

(** [str.encode("utf-8")] of one code point. *)
Definition utf8_kod (c : Z) : list Z :=
  if c <? 128 then [c]
  else if c <? 2048 then [192 + c / 64; 128 + c mod 64]
  else if c <? 65536 then [224 + c / 4096; 128 + (c / 64) mod 64; 128 + c mod 64]
  else [240 + c / 262144; 128 + (c / 4096) mod 64; 128 + (c / 64) mod 64; 128 + c mod 64].

Definition utf8_kodla (p : pystr) : string :=
  String.string_of_list_ascii ((fun b => Ascii.ascii_of_N (Z.to_N b)) <$> (p ≫= utf8_kod)).

(** A continuation byte [10xxxxxx]. *)
Definition devam (b : Z) : bool := (128 <=? b) && (b <? 192).

(** [bytes.decode("utf-8", "replace")]: a lead byte and its continuation
    bytes give one code point; a byte that starts no sequence gives
    U+FFFD.  On the valid UTF-8 that Python writes it is Python's
    decoder. *)
Fixpoint utf8_coz_b (l : list Z) : pystr :=
  match l with
  | [] => []
  | b0 :: r =>
      if b0 <? 128 then b0 :: utf8_coz_b r else
      match r with
      | b1 :: r1 =>
          if (192 <=? b0) && (b0 <? 224) && devam b1
          then (b0 - 192) * 64 + (b1 - 128) :: utf8_coz_b r1 else
          match r1 with
          | b2 :: r2 =>
              if (224 <=? b0) && (b0 <? 240) && devam b1 && devam b2
              then ((b0 - 224) * 64 + (b1 - 128)) * 64 + (b2 - 128) :: utf8_coz_b r2 else
              match r2 with
              | b3 :: r3 =>
                  if (240 <=? b0) && (b0 <? 248) && devam b1 && devam b2 && devam b3
                  then (((b0 - 240) * 64 + (b1 - 128)) * 64 + (b2 - 128)) * 64 + (b3 - 128)
                         :: utf8_coz_b r3
                  else 65533 :: utf8_coz_b r
              | [] => 65533 :: utf8_coz_b r
              end
          | [] => 65533 :: utf8_coz_b r
          end
      | [] => [65533]
      end
  end.

(** The Python [str] a stored [string] holds. *)
Definition metin (s : string) : pystr := utf8_coz_b (ascii_str s).

(** ** [str.strip()] on a [string] *)

Definition metin_strip (s : string) : string := utf8_kodla (py_strip (metin s)).

(** ** [secim.split(" - ", 1)[0]] *)

(** [s.startswith(p)] *)
Fixpoint ile_baslar (p s : string) : bool :=
  match p, s with
  | EmptyString, _ => true
  | String a p', String b s' => Ascii.eqb a b && ile_baslar p' s'
  | _, _ => false
  end.

Fixpoint ayirac_oncesi (s : string) : string :=
  match s with
  | EmptyString => EmptyString
  | String c r => if ile_baslar " - " s then EmptyString else String c (ayirac_oncesi r)
  end.

(** [int(secim.split(" - ", 1)[0])], [None] where [int] raises. *)
Definition bolum_secimi_id (secim : string) : option Z :=
  py_int (metin (ayirac_oncesi secim)).

(** The combobox item of a department (line 48). *)
Definition bolum_ogesi (b : Z * string) : string := str_of_Z b.1 +:+ " - " +:+ b.2.

(** ** [EMAIL_RE = re.compile(r"^[^@\s]+@[^@\s]+\.[^@\s]+$")] *)

(** [[^@\s]] *)
Definition eposta_karakteri (c : Z) : bool := negb (c =? 64) && negb (bosluk c).

(** [[^@\s]+\.[^@\s]+] after the [@] has consumed the characters before
    [d]: some [.] of [d] has a character before and after it; [bos] tells
    whether nothing of the domain has been read yet. *)
Fixpoint noktali (bos : bool) (d : pystr) : bool :=
  match d with
  | [] => false
  | c :: r => (negb bos && (c =? 46) && negb (bool_decide (r = []))) || noktali false r
  end.

Definition eposta_govdesi (s : pystr) : bool :=
  match bol 64 s with
  | [a; d] => negb (bool_decide (a = [])) && forallb eposta_karakteri a &&
              forallb eposta_karakteri d && noktali true d
  | _ => false
  end.

(** [re.match] anchors at the start; [$] matches at the end of the string
    or before a newline that ends it. *)
Definition EMAIL_RE_match (s : string) : bool :=
  let p := metin s in
  eposta_govdesi p ||
  match last p with
  | Some 10 => eposta_govdesi (removelast p)
  | _ => false
  end.

(** ** Lemmas *)

Lemma kod_rakam d : 0 <= d < 10 -> kod (rakam_karakteri d) = 48 + d.
Proof.
  intros Hd. unfold kod, rakam_karakteri. rewrite Ascii.N_ascii_embedding; [lia|].
  apply N.ltb_lt. destruct Hd as [H0 H1].
  assert (Hn : (Z.to_N (48 + d) < 256)%N) by lia. by apply N.ltb_lt in Hn.
Qed.

(** The value of the digits, read most significant first. *)
Fixpoint ters_deger (l : pystr) : Z :=
  match l with [] => 0 | c :: r => 10 * ters_deger r + (c - 48) end.

Lemma rakam_degeri_rev l : rakam_degeri (rev l) = ters_deger l.
Proof.
  unfold rakam_degeri. rewrite <- fold_left_rev_right, rev_involutive.
  induction l as [|c l IH]; simpl; [done|]. rewrite IH. lia.
Qed.

Lemma rakam_48 d : 0 <= d < 10 -> rakam (48 + d) = true.
Proof. intros. unfold rakam. apply andb_true_intro. split; apply Z.leb_le; lia. Qed.

Lemma ters_rakamlar_spec f n :
  0 <= n < 10 ^ Z.of_nat f -> (f > 0)%nat ->
  ters_deger (kod <$> ters_rakamlar f n) = n /\
  Forall (fun c => rakam c = true) (kod <$> ters_rakamlar f n) /\
  kod <$> ters_rakamlar f n <> [].
Proof.
  revert n. induction f as [|f IH]; intros n Hn Hf; [lia|].
  pose proof (Z.mod_pos_bound n 10).
  cbn [ters_rakamlar fmap list_fmap]. rewrite kod_rakam by lia.
  destruct (Z.ltb_spec n 10).
  - cbn. rewrite Z.mod_small by lia. split_and!; [lia| |done].
    constructor; [|constructor]. apply rakam_48. lia.
  - destruct f as [|f]; [simpl in Hn; lia|].
    destruct (IH (n / 10)) as (Hv & Hr & _); [|lia|].
    + rewrite Nat2Z.inj_succ, Z.pow_succ_r in Hn by lia.
      split; [apply Z.div_pos; lia|]. apply Z.div_lt_upper_bound; lia.
    + cbn [ters_deger]. rewrite Hv. pose proof (Z.div_mod n 10).
      split_and!; [lia|constructor; [apply rakam_48; lia|done]|done].
Qed.

Lemma rakam_bosluk c : rakam c = true -> bosluk c = false.
Proof.
  unfold rakam. intros H. bool_prop.
  assert (c = 48 \/ c = 49 \/ c = 50 \/ c = 51 \/ c = 52 \/ c = 53 \/ c = 54 \/ c = 55 \/
          c = 56 \/ c = 57) as Hc by lia.
  by repeat destruct Hc as [-> | Hc]; [..|subst].
Qed.

Lemma rakam_ayrik c : rakam c = true -> c <> 43 /\ c <> 45 /\ c <> 95.
Proof. unfold rakam. intros H. bool_prop. lia. Qed.

Lemma bas_kirp_bosluksuz l : Forall (fun c => bosluk c = false) l -> bas_kirp l = l.
Proof. destruct l as [|c l]; [done|]. intros Hl. inversion Hl; subst. simpl. by rewrite H1. Qed.

Lemma py_strip_bosluksuz l : Forall (fun c => bosluk c = false) l -> py_strip l = l.
Proof.
  intros Hl. unfold py_strip. rewrite (bas_kirp_bosluksuz l Hl), bas_kirp_bosluksuz.
  - apply rev_involutive.
  - apply Forall_forall. intros c Hc%list_elem_of_In%in_rev%list_elem_of_In.
    by apply (Forall_forall (fun c => bosluk c = false) l) in Hc.
Qed.

(** The sign test of [int()] on a string that does not start with a sign. *)
Lemma isaret_yok (c : Z) (r : pystr) : c <> 43 -> c <> 45 ->
  match c :: r with 43 :: r' => (1, r') | 45 :: r' => (-1, r') | _ => (1, c :: r) end = (1, c :: r).
Proof.
  intros H1 H2. destruct c as [|p|p]; try reflexivity.
  do 7 (try (destruct p as [p|p|]; try reflexivity)); congruence.
Qed.

Lemma alt_cizgili_cons c d r : d <> 95 ->
  alt_cizgili_rakamlar (c :: d :: r) = rakam c && alt_cizgili_rakamlar (d :: r).
Proof.
  intros Hd. destruct d as [|p|p]; try reflexivity.
  do 7 (try (destruct p as [p|p|]; try reflexivity)); congruence.
Qed.

Lemma alt_cizgili_rakam l :
  l <> [] -> Forall (fun c => rakam c = true) l -> alt_cizgili_rakamlar l = true.
Proof.
  induction l as [|c [|d r] IH]; intros Hne Hl; [done| |].
  - inversion Hl. simpl. done.
  - inversion Hl as [|? ? Hc Hr]; subst. inversion Hr as [|? ? Hd _]; subst.
    rewrite alt_cizgili_cons by apply (rakam_ayrik d Hd). rewrite Hc. by apply IH.
Qed.

Lemma py_int_rakamlar l :
  l <> [] -> Forall (fun c => rakam c = true) l -> py_int l = Some (rakam_degeri l).
Proof.
  intros Hne Hl. unfold py_int.
  rewrite py_strip_bosluksuz by (eapply Forall_impl; [done|apply rakam_bosluk]).
  destruct l as [|c r]; [done|]. inversion Hl as [|? ? Hc _]; subst.
  destruct (rakam_ayrik c Hc) as (H43 & H45 & _). rewrite isaret_yok by done.
  rewrite alt_cizgili_rakam by done. rewrite List.filter_ext_in with (g := fun _ => true),
    filter_true by (intros a Ha%list_elem_of_In; apply (Forall_forall (fun c => rakam c = true) _) in Ha; [|exact Hl];
                    destruct (rakam_ayrik a Ha) as (_ & _ & H95); apply negb_true_iff, Z.eqb_neq, H95).
  f_equal. lia.
Qed.

Lemma py_int_eksi l :
  l <> [] -> Forall (fun c => rakam c = true) l -> py_int (45 :: l) = Some (- rakam_degeri l).
Proof.
  intros Hne Hl. unfold py_int.
  rewrite py_strip_bosluksuz
    by (constructor; [reflexivity|]; eapply Forall_impl; [done|apply rakam_bosluk]).
  cbn [fst snd]. rewrite alt_cizgili_rakam by done.
  rewrite List.filter_ext_in with (g := fun _ => true),
    filter_true by (intros a Ha%list_elem_of_In; apply (Forall_forall (fun c => rakam c = true) _) in Ha; [|exact Hl];
                    destruct (rakam_ayrik a Ha) as (_ & _ & H95); apply negb_true_iff, Z.eqb_neq, H95).
  all: f_equal; lia.
Qed.

Lemma ascii_str_liste l : ascii_str (String.string_of_list_ascii l) = kod <$> l.
Proof. unfold ascii_str. by rewrite String.list_ascii_of_string_of_list_ascii. Qed.

Lemma ascii_str_kod s : ascii_str s = kod <$> String.list_ascii_of_string s.
Proof. done. Qed.

Lemma rakam_yakiti_yeter n : 0 <= n -> 0 <= n < 10 ^ Z.of_nat (rakam_yakiti n) /\ (rakam_yakiti n > 0)%nat.
Proof.
  intros Hn. unfold rakam_yakiti. pose proof (Z.log2_nonneg n).
  rewrite Z2Nat.id by lia. split; [split; [done|]|lia].
  destruct (Z.eq_dec n 0) as [->|Hn0]; [simpl; lia|].
  apply Z.lt_le_trans with (2 ^ (Z.log2 n + 1)).
  - rewrite Z.add_1_r. apply Z.log2_spec. lia.
  - apply Z.pow_le_mono_l. lia.
Qed.

Lemma fmap_rev {A B} (f : A -> B) (l : list A) : f <$> rev l = rev (f <$> l).
Proof. induction l as [|x l IH]; [done|]. simpl. by rewrite fmap_app, IH. Qed.

Lemma rakamlar_deger n : 0 <= n ->
  let l := kod <$> rev (ters_rakamlar (rakam_yakiti n) n) in
  l <> [] /\ Forall (fun c => rakam c = true) l /\ rakam_degeri l = n.
Proof.
  intros Hn l. subst l. rewrite fmap_rev.
  destruct (rakam_yakiti_yeter n Hn) as [Hb Hf].
  destruct (ters_rakamlar_spec _ _ Hb Hf) as (Hv & Hr & Hne).
  rewrite rakam_degeri_rev. split_and!; [|by apply Forall_rev|done].
  intros Hnil. apply Hne. apply (f_equal length) in Hnil. rewrite length_rev in Hnil. by destruct (kod <$> _).
Qed.

(** *** The codec *)

Lemma kod_bayt b : 0 <= b < 256 -> kod (Ascii.ascii_of_N (Z.to_N b)) = b.
Proof.
  intros Hb. unfold kod. rewrite Ascii.N_ascii_embedding; lia.
Qed.

Lemma kod_bayt_liste l :
  Forall (fun b => 0 <= b < 256) l -> kod <$> ((fun b => Ascii.ascii_of_N (Z.to_N b)) <$> l) = l.
Proof. induction 1 as [|b l Hb _ IH]; [done|]. cbn. by rewrite kod_bayt, IH. Qed.

Lemma ascii_str_bayt s : Forall (fun b => 0 <= b < 256) (ascii_str s).
Proof.
  apply Forall_forall. intros b (a & <- & _)%list_elem_of_In%in_map_iff.
  pose proof (Ascii.N_ascii_bounded a). lia.
Qed.

Lemma utf8_coz_ascii l : Forall (fun c => 0 <= c < 128) l -> utf8_coz_b l = l.
Proof.
  induction 1 as [|c l Hc _ IH]; [done|]. cbn [utf8_coz_b].
  rewrite (proj2 (Z.ltb_lt c 128)) by lia. by rewrite IH.
Qed.

(** Decide the comparisons of the goal from the context, divisions
    included. *)
Local Ltac z_karar :=
  repeat match goal with
  | |- context [?x <? ?y] =>
      first [ rewrite (proj2 (Z.ltb_lt x y)) by (Z.to_euclidean_division_equations; lia)
            | rewrite (proj2 (Z.ltb_ge x y)) by (Z.to_euclidean_division_equations; lia) ]
  | |- context [?x <=? ?y] =>
      first [ rewrite (proj2 (Z.leb_le x y)) by (Z.to_euclidean_division_equations; lia)
            | rewrite (proj2 (Z.leb_gt x y)) by (Z.to_euclidean_division_equations; lia) ]
  end.

(** Decoding the encoding of a code point gives it back. *)
Lemma utf8_kod_coz c r : 0 <= c < 2097152 -> utf8_coz_b (utf8_kod c ++ r) = c :: utf8_coz_b r.
Proof.
  intros Hc. unfold utf8_kod.
  destruct (Z.ltb_spec c 128); [cbn [app utf8_coz_b]; by z_karar|].
  destruct (Z.ltb_spec c 2048); [|destruct (Z.ltb_spec c 65536)];
    cbn [app utf8_coz_b]; unfold devam; z_karar; cbn [andb];
    f_equal; Z.to_euclidean_division_equations; lia.
Qed.

Lemma utf8_kod_bayt c : 0 <= c < 2097152 -> Forall (fun b => 0 <= b < 256) (utf8_kod c).
Proof.
  intros Hc. unfold utf8_kod.
  destruct (Z.ltb_spec c 128); [|destruct (Z.ltb_spec c 2048); [|destruct (Z.ltb_spec c 65536)]];
    repeat constructor; Z.to_euclidean_division_equations; lia.
Qed.

(** The decoder only produces code points below [2 ^ 21]. *)
Lemma utf8_coz_aralik l :
  Forall (fun b => 0 <= b < 256) l -> Forall (fun c => 0 <= c < 2097152) (utf8_coz_b l).
Proof.
  induction l as [l IH] using (induction_ltof1 _ (@length Z)); unfold ltof in IH.
  intros Hl. rewrite Forall_forall in Hl.
  destruct l as [|b0 r]; [constructor|]. cbn [utf8_coz_b].
  pose proof (Hl b0 ltac:(set_solver)).
  repeat case_match; bool_prop; unfold devam in *; bool_prop.
  all: constructor; [lia|]; try constructor.
  all: apply IH; [simpl; lia|apply Forall_forall; intros x Hx; apply Hl; set_solver].
Qed.

Lemma metin_aralik s : Forall (fun c => 0 <= c < 2097152) (metin s).
Proof. apply utf8_coz_aralik, ascii_str_bayt. Qed.

(** A code point sequence survives encoding and decoding. *)
Lemma metin_kodla p : Forall (fun c => 0 <= c < 2097152) p -> metin (utf8_kodla p) = p.
Proof.
  intros Hp. unfold metin, utf8_kodla. rewrite ascii_str_liste, kod_bayt_liste.
  - induction Hp as [|c p Hc _ IH]; [done|].
    change ((c :: p) ≫= utf8_kod) with (utf8_kod c ++ p ≫= utf8_kod).
    by rewrite utf8_kod_coz, IH.
  - apply Forall_bind. eapply Forall_impl; [exact Hp|]. intros c Hc. by apply utf8_kod_bayt.
Qed.

(** *** [str.strip()] *)

Lemma bas_kirp_Forall (P : Z -> Prop) l : Forall P l -> Forall P (bas_kirp l).
Proof. induction 1 as [|c l Hc Hl IH]; [done|]. simpl. destruct (bosluk c); [done|by constructor]. Qed.

Lemma py_strip_Forall (P : Z -> Prop) l : Forall P l -> Forall P (py_strip l).
Proof. intros Hl. unfold py_strip. by apply Forall_rev, bas_kirp_Forall, Forall_rev, bas_kirp_Forall. Qed.

(** [metin_strip] is [str.strip()] of [Normalize] on the text. *)
Lemma metin_strip_py s : metin (metin_strip s) = py_strip (metin s).
Proof. unfold metin_strip. apply metin_kodla, py_strip_Forall, metin_aralik. Qed.

Lemma bas_kirp_bas m c r : bas_kirp m = c :: r -> bosluk c = false.
Proof.
  induction m as [|x m IH]; simpl; [discriminate|].
  destruct (bosluk x) eqn:E; [exact IH|]. by intros [= <- _].
Qed.

Lemma py_strip_son s l c : py_strip s = l ++ [c] -> bosluk c = false.
Proof.
  unfold py_strip. intros H.
  apply (f_equal (@rev _)) in H. rewrite rev_involutive, rev_app_distr in H. simpl in H.
  by apply bas_kirp_bas in H.
Qed.

(** A stripped string does not end in whitespace, a newline included. *)
Lemma metin_strip_son s l c : metin (metin_strip s) = l ++ [c] -> bosluk c = false.
Proof. rewrite metin_strip_py. apply py_strip_son. Qed.

(** A string keeps its prefix when text is appended to it. *)
Lemma ile_baslar_app p s t : ile_baslar p s = true -> ile_baslar p (s +:+ t) = true.
Proof.
  revert s. induction p as [|c p IH]; intros [|d s] H; simpl in *; try done.
  apply andb_prop in H as [H1 H2]. rewrite H1. by apply IH.
Qed.

Lemma ile_baslar_kendi p t : ile_baslar p (p +:+ t) = true.
Proof. induction p as [|c p IH]; [done|]. simpl. by rewrite Ascii.eqb_refl, IH. Qed.

(** *** [str(n)] has no whitespace *)

Lemma str_of_Z_karakterler z :
  Forall (fun a => kod a = 45 \/ rakam (kod a) = true) (String.list_ascii_of_string (str_of_Z z)).
Proof.
  unfold str_of_Z. destruct (Z.ltb_spec z 0).
  - destruct (rakamlar_deger (- z)) as (_ & Hr & _); [lia|].
    cbn [String.list_ascii_of_string]. constructor; [by left|].
    rewrite String.list_ascii_of_string_of_list_ascii.
    apply Forall_fmap in Hr. eapply Forall_impl; [exact Hr|]. intros a Ha. by right.
  - destruct (rakamlar_deger z) as (_ & Hr & _); [lia|].
    rewrite String.list_ascii_of_string_of_list_ascii.
    apply Forall_fmap in Hr. eapply Forall_impl; [exact Hr|]. intros a Ha. by right.
Qed.

Lemma str_of_Z_metin z : metin (str_of_Z z) = ascii_str (str_of_Z z).
Proof.
  apply utf8_coz_ascii. rewrite ascii_str_kod. apply Forall_fmap.
  eapply Forall_impl; [apply str_of_Z_karakterler|]. intros a [H|H]; simpl; [lia|].
  unfold rakam in H. bool_prop. lia.
Qed.

(** [int(str(n)) = n]: a number written by [str] reads back as itself. *)
Theorem int_str_geri_donus z : py_int (metin (str_of_Z z)) = Some z.
Proof.
  rewrite str_of_Z_metin. unfold str_of_Z. destruct (Z.ltb_spec z 0).
  - destruct (rakamlar_deger (- z)) as (Hne & Hr & Hv); [lia|].
    cbn [ascii_str String.list_ascii_of_string map]. fold (ascii_str (String.string_of_list_ascii
      (rev (ters_rakamlar (rakam_yakiti (- z)) (- z))))).
    rewrite ascii_str_liste, py_int_eksi, Hv by done. f_equal. lia.
  - destruct (rakamlar_deger z) as (Hne & Hr & Hv); [lia|].
    by rewrite ascii_str_liste, py_int_rakamlar, Hv.
Qed.

Lemma ayirac_oncesi_app s t :
  Forall (fun a => kod a <> 32) (String.list_ascii_of_string s) ->
  ayirac_oncesi (s +:+ " - " +:+ t) = s.
Proof.
  induction s as [|c r IH]; intros Hs; [reflexivity|].
  inversion Hs as [|? ? Hc Hr]; subst. change (String c r +:+ ?x) with (String c (r +:+ x)). cbn [ayirac_oncesi ile_baslar].
  destruct (Ascii.eqb _ c) eqn:E; cbn [andb]; [apply Ascii.eqb_eq in E; subst c; by vm_compute in Hc|by rewrite IH].
Qed.

(** Choosing a department's item in the combobox and reading its id back
    ([secim.split(" - ", 1)[0]], [int]) gives the department's id. *)
Lemma bolum_secimi_ogesi b : bolum_secimi_id (bolum_ogesi b) = Some b.1.
Proof.
  unfold bolum_secimi_id, bolum_ogesi. rewrite ayirac_oncesi_app; [apply int_str_geri_donus|].
  eapply Forall_impl; [apply str_of_Z_karakterler|]. intros a [H|H]; [lia|].
  unfold rakam in H. bool_prop. lia.
Qed.

(** *** [EMAIL_RE] *)

Lemma bol_bos_degil c s : bol c s <> [].
Proof. destruct s as [|x s]; simpl; [done|]. destruct (x =? c); [done|]. by destruct (bol c s). Qed.

Lemma bol_tek c s d : bol c s = [d] -> s = d.
Proof.
  revert d. induction s as [|x r IH]; intros d H; simpl in H; [by injection H|].
  destruct (x =? c).
  - injection H as _ Hr. by apply bol_bos_degil in Hr.
  - destruct (bol c r) as [|p ps] eqn:E; [by apply bol_bos_degil in E|].
    injection H as <- ->. by rewrite (IH p).
Qed.

Lemma bol_iki c s a d : bol c s = [a; d] -> s = a ++ c :: d.
Proof.
  revert a. induction s as [|x r IH]; intros a H; simpl in H; [discriminate|].
  destruct (Z.eqb_spec x c) as [->|_].
  - injection H as <- Hr. simpl. by rewrite (bol_tek c r d Hr).
  - destruct (bol c r) as [|p ps] eqn:E; [by apply bol_bos_degil in E|]. injection H as <- ->.
    simpl. by rewrite (IH p).
Qed.

Lemma forallb_Forall {A} (f : A -> bool) l : forallb f l = true -> Forall (fun x => f x = true) l.
Proof. intros H. apply List.Forall_forall, forallb_forall, H. Qed.

Lemma noktali_spec b d : noktali b d = true ->
  exists x y, d = x ++ 46 :: y /\ (b = true -> x <> []) /\ y <> [].
Proof.
  revert b. induction d as [|c r IH]; intros b H; simpl in H; [discriminate|].
  apply orb_true_iff in H as [H|H].
  - apply andb_prop in H as [H Hr]. apply andb_prop in H as [Hb Hc]. apply negb_true_iff, bool_decide_eq_false in Hr.
    apply Z.eqb_eq in Hc as ->. destruct b; [discriminate|].
    exists [], r. split_and!; [done|discriminate|done].
  - destruct (IH false H) as (x & y & -> & _ & Hy).
    exists (c :: x), y. split_and!; [done|discriminate|done].
Qed.

Lemma eposta_govdesi_spec p : eposta_govdesi p = true ->
  exists a x y, p = a ++ 64 :: x ++ 46 :: y /\ a <> [] /\ x <> [] /\ y <> [] /\
    Forall (fun c => eposta_karakteri c = true) (a ++ x ++ 46 :: y).
Proof.
  unfold eposta_govdesi. destruct (bol 64 p) as [|a [|d [|]]] eqn:E; try discriminate.
  intros H. apply andb_prop in H as [H Hn]. apply andb_prop in H as [H Hd].
  apply andb_prop in H as [Ha0 Ha]. apply negb_true_iff, bool_decide_eq_false in Ha0.
  apply forallb_Forall in Ha, Hd.
  destruct (noktali_spec true d Hn) as (x & y & -> & Hx & Hy).
  exists a, x, y. split_and!; [by apply bol_iki|done|by apply Hx|done|].
  apply Forall_app. by split.
Qed.

(** The addresses [EMAIL_RE.match] accepts: a non-empty local part, [@],
    a domain with a [.] that has a character on each side, none of them
    [@] or whitespace; [$] also lets one final newline through. *)
Theorem EMAIL_RE_sekli s : EMAIL_RE_match s = true ->
  exists a x y, (metin s = a ++ 64 :: x ++ 46 :: y \/ metin s = (a ++ 64 :: x ++ 46 :: y) ++ [10]) /\
    a <> [] /\ x <> [] /\ y <> [] /\
    Forall (fun c => c <> 64 /\ bosluk c = false) (a ++ x ++ 46 :: y).
Proof.
  unfold EMAIL_RE_match. set (p := metin s). intros H.
  assert (Hk : forall l, Forall (fun c => eposta_karakteri c = true) l ->
                         Forall (fun c => c <> 64 /\ bosluk c = false) l).
  { intros l Hl. eapply Forall_impl; [exact Hl|]. unfold eposta_karakteri. intros c Hc.
    apply andb_prop in Hc as [H1 H2]. apply negb_true_iff in H1, H2. apply Z.eqb_neq in H1. done. }
  apply orb_true_iff in H as [H|H].
  - destruct (eposta_govdesi_spec p H) as (a & x & y & Hp & ? & ? & ? & ?).
    exists a, x, y. split_and!; auto.
  - destruct (last p) as [z|] eqn:El; [|discriminate].
    destruct (Z.eq_dec z 10) as [->|Hz];
      [|destruct z as [|q|q]; try discriminate; do 5 (try (destruct q as [q|q|]; try discriminate)); lia].
    apply last_Some in El as [l' El]. rewrite El, removelast_last in H.
    destruct (eposta_govdesi_spec _ H) as (a & x & y & Hp & ? & ? & ? & ?).
    exists a, x, y. split_and!; auto. right. by rewrite <- Hp.
Qed.

End Metin.
