(* ===== verification/RoomWindow.v ===== *)
(** * RoomWindow: the room window of [src/arayuz/derslik_penceresi.py]

    [DerslikPenceresi] is the coordinator's tab for the rooms of the own
    department.  Its state is [Pencere]: the six entries [self.vars]
    ([Form]), the rows of the tree ([dp_agac], each with its item id
    [str(row["id"])] and its six values as text), the selected item, the
    search entry and what the canvas shows.  Each handler is one
    definition: [_int_or_error] (lines 101-108), [_form_temizle]
    (110-111), [_yenile] (115-127), [_liste_secildi] (129-137) after a
    click, [_ekle] (140-164), [_guncelle] (166-189), [_sil] (191-205),
    [_ara_goster] (209-219) and [_ciz_oturma_duzeni] (221-246), calling
    the room operations of [Accounts].  A handler
    returns the new database, the new window and the message boxes it
    showed ([bilgi], [uyari], [hata]); [_guncelle] and [_sil] also return
    [Hata ValueError] where [int(sel[0])] would raise outside their
    [try].  Canvas items are kept as grid positions (the pixel position of
    the seat [(x, y)] is an affine function of [x] and [y]).

    Deleting all items of the tree removes them from its selection, so
    [_yenile] leaves nothing selected. *)

From S2P Require Import Prelude Normalize Catalog Accounts Forms.

Module DerslikPenceresi.
Import Normal Katalog Yetki Metin.

(** ** State *)

(** [self.vars]: Kodu, Adı, Kapasite, Enine, Boyuna, Sıra Yapısı. *)
Record Form := {
  f_kodu : string;
  f_adi : string;
  f_kapasite : string;
  f_enine : string;
  f_boyuna : string;
  f_sira : string
}.

Definition bos_form : Form := {| f_kodu := ""; f_adi := ""; f_kapasite := ""; f_enine := "";
                                 f_boyuna := ""; f_sira := "" |}.

(** What the canvas holds: a seat, a group separator after column [x],
    and the caption. *)
Inductive Cizim :=
  | Koltuk (x y : Z)
  | Ayirici (x y : Z)
  | Baslik (boyuna enine sira_yapisi : Z).

Record Pencere := {
  dp_form : Form;
  dp_agac : list (string * Form);
  dp_secim : option string;
  dp_arama : string;
  dp_tuval : list Cizim
}.

Definition form_yaz (w : Pencere) (f : Form) : Pencere :=
  {| dp_form := f; dp_agac := dp_agac w; dp_secim := dp_secim w; dp_arama := dp_arama w;
     dp_tuval := dp_tuval w |}.

(** ** Helpers *)

Definition SIRA_ETIKETI : string := "Sıra Yapısı (2/3/4)".

(** [_int_or_error]: [inl] carries the text of the
    [ValueError] it raises. *)
Definition _int_or_error (s alan_adi : string) : string + Z :=
  let hata := ("'" +:+ alan_adi +:+ "' sayısal ve pozitif olmalıdır.")%string in
  match py_int (metin s) with
  | Some v => if bool_decide (v <= 0) && negb (bool_decide (alan_adi = SIRA_ETIKETI))
              then inl hata else inr v
  | None => inl hata
  end.

Definition sonra {A B} (m : string + A) (f : A -> string + B) : string + B :=
  match m with inl e => inl e | inr x => f x end.

(** The reads at the top of [_ekle] and [_guncelle] (lines 142-150 and
    173-181): code, name, capacity, columns, rows, group size. *)
Definition form_oku (f : Form) : string + (string * string * Z * Z * Z * Z) :=
  let kod := metin_strip (f_kodu f) in
  let ad := metin_strip (f_adi f) in
  if bool_decide (kod = "") || bool_decide (ad = "")
  then inl "Derslik Kodu ve Derslik Adı zorunludur."
  else sonra (_int_or_error (f_kapasite f) "Kapasite") (fun kapasite =>
       sonra (_int_or_error (f_enine f) "Enine (sütun)") (fun enine =>
       sonra (_int_or_error (f_boyuna f) "Boyuna (sıra)") (fun boyuna =>
       sonra (_int_or_error (f_sira f) SIRA_ETIKETI) (fun sira =>
       inr (kod, ad, kapasite, enine, boyuna, sira))))).

(** The values a tree row shows, as the text [_liste_secildi] copies. *)
Definition satir_formu (r : DerslikSatiri) : Form :=
  {| f_kodu := dl_kodu r; f_adi := dl_adi r; f_kapasite := str_of_Z (dl_kapasite r);
     f_enine := str_of_Z (dl_enine r); f_boyuna := str_of_Z (dl_boyuna r);
     f_sira := str_of_Z (dl_sira_yapisi r) |}.

(** ** Handlers *)

(** [_form_temizle] *)
Definition _form_temizle (w : Pencere) : Pencere := form_yaz w bos_form.

(** [_yenile]: the tree shows [derslik_listele], item id [str(row["id"])]. *)
Definition _yenile (s : Sistem) (k : KullaniciSatiri) (w : Pencere) : Pencere :=
  {| dp_form := dp_form w;
     dp_agac := (fun r => (str_of_Z (dl_satir_id r), satir_formu r)) <$> derslik_listele s k;
     dp_secim := None; dp_arama := dp_arama w; dp_tuval := dp_tuval w |}.

(** A click on the item [iid] selects it, and [_liste_secildi] copies the
    row's values into the form. *)
Definition secim_yap (iid : string) (w : Pencere) : Pencere :=
  match List.find (fun it => bool_decide (it.1 = iid)) (dp_agac w) with
  | Some (_, f) => {| dp_form := f; dp_agac := dp_agac w; dp_secim := Some iid;
                      dp_arama := dp_arama w; dp_tuval := dp_tuval w |}
  | None => w
  end.

(** [_ekle]: the flag it returns tells whether [on_derslik_eklendi] was
    called ([cb] is whether the window was given one). *)
Definition _ekle (cb : bool) (s : Sistem) (k : KullaniciSatiri) (w : Pencere)
    : Sistem * Pencere * list Bildirim * bool :=
  match form_oku (dp_form w) with
  | inl m => (s, w, [HataMesaji m], false)
  | inr (kod, ad, kapasite, enine, boyuna, sira) =>
      match derslik_ekle s k kod ad kapasite enine boyuna sira with
      | Hata e => (s, w, [HataIstisna e], false)
      | Tamam s' => (s', _form_temizle (_yenile s' k w), [Bilgi "Derslik eklendi."],
                     cb && bool_decide (0 < derslik_sayisi s' k))
      end
  end.

(** [_guncelle] *)
Definition _guncelle (s : Sistem) (k : KullaniciSatiri) (w : Pencere)
    : Sonuc (Sistem * Pencere * list Bildirim) :=
  match dp_secim w with
  | None => Tamam (s, w, [Uyari "Güncellemek için listeden bir satır seçin."])
  | Some iid =>
      match py_int (metin iid) with
      | None => Hata ValueError
      | Some derslik_id =>
          match form_oku (dp_form w) with
          | inl m => Tamam (s, w, [HataMesaji m])
          | inr (kod, ad, kapasite, enine, boyuna, sira) =>
              match derslik_guncelle s k derslik_id kod ad kapasite enine boyuna sira with
              | Hata e => Tamam (s, w, [HataIstisna e])
              | Tamam s' => Tamam (s', _yenile s' k w, [Bilgi "Derslik güncellendi."])
              end
          end
      end
  end.

(** [_sil]; [onay] is the answer to [sor("Bu derslik silinsin mi?")]. *)
Definition _sil (s : Sistem) (k : KullaniciSatiri) (w : Pencere) (onay : bool)
    : Sonuc (Sistem * Pencere * list Bildirim) :=
  match dp_secim w with
  | None => Tamam (s, w, [Uyari "Silmek için listeden bir satır seçin."])
  | Some iid =>
      match py_int (metin iid) with
      | None => Hata ValueError
      | Some derslik_id =>
          if negb onay then Tamam (s, w, [])
          else match derslik_sil s k derslik_id with
               | Hata e => Tamam (s, w, [HataIstisna e])
               | Tamam s' => Tamam (s', _form_temizle (_yenile s' k w), [Bilgi "Derslik silindi."])
               end
      end
  end.

(** [_ciz_oturma_duzeni]: a seat per column and row, a separator after
    every [sira_yapisi]-th column but the last, and the caption. *)
Definition _ciz_oturma_duzeni (enine boyuna sira_yapisi : Z) : list Cizim :=
  if bool_decide (enine = 0) || bool_decide (boyuna = 0) then []
  else (y ← seqZ 0 boyuna;
        x ← seqZ 0 enine;
        Koltuk x y :: (if negb (bool_decide (sira_yapisi = 0)) &&
                          bool_decide ((x + 1) mod sira_yapisi = 0) && negb (bool_decide (x = enine - 1))
                       then [Ayirici x y] else [])) ++ [Baslik boyuna enine sira_yapisi].

(** [_ara_goster] *)
Definition _ara_goster (s : Sistem) (k : KullaniciSatiri) (w : Pencere) : Pencere * list Bildirim :=
  match py_int (metin (dp_arama w)) with
  | None => (w, [HataMesaji "Geçerli bir sayı girin."])
  | Some sinif_id =>
      match derslik_ara_id s k sinif_id with
      | None => (w, [Uyari "Derslik bulunamadı."])
      | Some r => ({| dp_form := dp_form w; dp_agac := dp_agac w; dp_secim := dp_secim w;
                      dp_arama := dp_arama w;
                      dp_tuval := _ciz_oturma_duzeni (dl_enine r) (dl_boyuna r) (dl_sira_yapisi r) |}, [])
      end
  end.

(** ** The window as a transition system

    One step is one user action on the tab of coordinator [k]: typing into
    the form or the search entry, clicking a row, or pressing a button;
    [cb] is whether the window was given [on_derslik_eklendi]. *)
Inductive pencere_adimi (cb : bool) (k : KullaniciSatiri)
    : Sistem * Pencere -> bool -> Sistem * Pencere -> Prop :=
  | Pa_yaz s w f : pencere_adimi cb k (s, w) false (s, form_yaz w f)
  | Pa_arama s w a : pencere_adimi cb k (s, w) false
      (s, {| dp_form := dp_form w; dp_agac := dp_agac w; dp_secim := dp_secim w;
             dp_arama := a; dp_tuval := dp_tuval w |})
  | Pa_sec s w iid : pencere_adimi cb k (s, w) false (s, secim_yap iid w)
  | Pa_ekle s w s' w' ms b : _ekle cb s k w = (s', w', ms, b) -> pencere_adimi cb k (s, w) b (s', w')
  | Pa_guncelle s w s' w' ms :
      _guncelle s k w ?= (s', w', ms) -> pencere_adimi cb k (s, w) false (s', w')
  | Pa_sil s w onay s' w' ms :
      _sil s k w onay ?= (s', w', ms) -> pencere_adimi cb k (s, w) false (s', w')
  | Pa_ara s w w' ms : _ara_goster s k w = (w', ms) -> pencere_adimi cb k (s, w) false (s, w').

(** A step whatever the callback flag. *)
Definition pencere_gecisi (cb : bool) (k : KullaniciSatiri) (x y : Sistem * Pencere) : Prop :=
  exists b, pencere_adimi cb k x b y.

(** A room the form lets through: code and name not blank, capacity,
    columns and rows positive. *)
Definition oda_gecerli (r : DerslikSatiri) : Prop :=
  dl_kodu r <> "" /\ dl_adi r <> "" /\ 0 < dl_kapasite r /\ 0 < dl_enine r /\ 0 < dl_boyuna r.

Definition odalar_gecerli (s : Sistem) : Prop := Forall oda_gecerli (t_derslikler (katalog s)).

(** ** Lemmas *)

Lemma int_or_error_inr s a v :
  _int_or_error s a = inr v -> py_int (metin s) = Some v /\ (a <> SIRA_ETIKETI -> 0 < v).
Proof.
  unfold _int_or_error. destruct (py_int (metin s)) as [x|]; [|discriminate].
  case_bool_decide; case_bool_decide; simpl; intros [= <-]; split; auto; intros; lia || done.
Qed.

Lemma int_or_error_str z a :
  _int_or_error (str_of_Z z) a = if bool_decide (z <= 0) && negb (bool_decide (a = SIRA_ETIKETI))
                                 then inl ("'" +:+ a +:+ "' sayısal ve pozitif olmalıdır.")%string
                                 else inr z.
Proof. unfold _int_or_error. by rewrite int_str_geri_donus. Qed.

Lemma form_oku_inr f kod ad kap en boy sira :
  form_oku f = inr (kod, ad, kap, en, boy, sira) ->
  kod = metin_strip (f_kodu f) /\ ad = metin_strip (f_adi f) /\ kod <> "" /\ ad <> "" /\
  0 < kap /\ 0 < en /\ 0 < boy /\ py_int (metin (f_sira f)) = Some sira.
Proof.
  unfold form_oku. case_bool_decide as Hk; [discriminate|]. case_bool_decide as Ha; [discriminate|].
  simpl. unfold sonra.
  destruct (_int_or_error (f_kapasite f) _) as [|c] eqn:E1; [discriminate|].
  destruct (_int_or_error (f_enine f) _) as [|e] eqn:E2; [discriminate|].
  destruct (_int_or_error (f_boyuna f) _) as [|b] eqn:E3; [discriminate|].
  destruct (_int_or_error (f_sira f) _) as [|z] eqn:E4; [discriminate|].
  intros [= <- <- <- <- <- <-].
  apply int_or_error_inr in E1 as [_ H1], E2 as [_ H2], E3 as [_ H3], E4 as [H4 _].
  split_and!; try done; [apply H1|apply H2|apply H3]; by unfold SIRA_ETIKETI.
Qed.

Lemma derslik_ekle_satir s k kod ad kap en boy sira s' :
  derslik_ekle s k kod ad kap en boy sira ?= s' ->
  exists b, ku_bolum_id k = Some b /\
    t_derslikler (katalog s') = t_derslikler (katalog s) ++
      [{| dl_satir_id := derslik_seq s + 1; dl_bolum_id := b; dl_kodu := kod; dl_adi := ad;
          dl_kapasite := kap; dl_enine := en; dl_boyuna := boy; dl_sira_yapisi := sira |}].
Proof.
  unfold derslik_ekle. destruct (negb (koordinator_mu k)); [discriminate|].
  destruct (ku_bolum_id k) as [b|]; [|discriminate]. destruct (benzersiz _); [|discriminate].
  intros [= <-]. by exists b.
Qed.

Lemma derslik_guncelle_satirlar s k i kod ad kap en boy sira s' :
  derslik_guncelle s k i kod ad kap en boy sira ?= s' ->
  forall r', r' ∈ t_derslikler (katalog s') ->
    (exists r, r ∈ t_derslikler (katalog s) /\ r' = r) \/
    (dl_kodu r' = kod /\ dl_adi r' = ad /\ dl_kapasite r' = kap /\ dl_enine r' = en /\
     dl_boyuna r' = boy /\ dl_sira_yapisi r' = sira).
Proof.
  unfold derslik_guncelle. destruct (negb (koordinator_mu k)); [discriminate|].
  destruct (benzersiz _); [|discriminate]. intros [= <-] r' Hr. simpl in Hr.
  apply list_elem_of_fmap in Hr as (r & -> & Hr). case_decide; [by right|left; eauto].
Qed.

Lemma derslik_sil_altkume s k i s' :
  derslik_sil s k i ?= s' -> forall r, r ∈ t_derslikler (katalog s') -> r ∈ t_derslikler (katalog s).
Proof.
  unfold derslik_sil. destruct (negb (koordinator_mu k)); [discriminate|].
  intros [= <-] r Hr. simpl in Hr. by apply list_elem_of_filter in Hr as [_ Hr].
Qed.

Lemma pencere_adimi_gecerli cb k s w b s' w' :
  pencere_adimi cb k (s, w) b (s', w') -> odalar_gecerli s -> odalar_gecerli s'.
Proof.
  unfold odalar_gecerli. intros Hs Hinv. inversion Hs; subst; try done.
  - match goal with H : _ekle _ _ _ _ = _ |- _ => unfold _ekle in H end.
    destruct (form_oku (dp_form w)) as [m|[[[[[kod ad] kap] en] boy] sira]] eqn:Ef;
      [by simplify_eq|].
    destruct (derslik_ekle _ _ _ _ _ _ _ _) as [s1|e] eqn:Ee; simplify_eq; [|done].
    apply derslik_ekle_satir in Ee as (b & _ & ->). apply form_oku_inr in Ef.
    apply Forall_app. split; [done|]. repeat constructor; simpl; tauto.
  - match goal with H : _guncelle _ _ _ ?= _ |- _ => unfold _guncelle in H end.
    repeat case_match; simplify_eq; try done.
    apply Forall_forall. intros r' Hr'.
    match goal with E : derslik_guncelle _ _ _ _ _ _ _ _ _ ?= _ |- _ =>
      destruct (derslik_guncelle_satirlar _ _ _ _ _ _ _ _ _ _ E r' Hr') as [(r & Hr & ->)|Hn] end.
    + by apply (Forall_forall oda_gecerli _) in Hr; [|exact Hinv].
    + match goal with E : form_oku _ = inr _ |- _ => apply form_oku_inr in E end.
      unfold oda_gecerli. destruct Hn as (-> & -> & -> & -> & -> & _). tauto.
  - match goal with H : _sil _ _ _ _ ?= _ |- _ => unfold _sil in H end.
    repeat case_match; simplify_eq; try done.
    apply Forall_forall. intros r' Hr'.
    match goal with E : derslik_sil _ _ _ ?= _ |- _ => pose proof (derslik_sil_altkume _ _ _ _ E r' Hr') as Hr end.
    by apply (Forall_forall oda_gecerli _) in Hr; [|exact Hinv].
Qed.

Lemma pencere_rtc_gecerli cb k x y :
  rtc (pencere_gecisi cb k) x y -> odalar_gecerli x.1 -> odalar_gecerli y.1.
Proof.
  induction 1 as [|[s w] [s1 w1] z [b Hxy] _ IH]; [done|].
  intros H. apply IH. by eapply pencere_adimi_gecerli.
Qed.

(** Row ids are unique: [id INTEGER PRIMARY KEY AUTOINCREMENT]. *)
Definition kimlik_tekil (s : Sistem) : Prop := NoDup (dl_satir_id <$> t_derslikler (katalog s)).

Lemma str_of_Z_inj a b : str_of_Z a = str_of_Z b -> a = b.
Proof.
  intros H. apply (f_equal (fun t => py_int (metin t))) in H.
  rewrite !int_str_geri_donus in H. by injection H.
Qed.

Lemma listele_elem s k r :
  r ∈ derslik_listele s k -> koordinator_mu k = true /\ r ∈ t_derslikler (katalog s) /\ bolumun k r.
Proof.
  unfold derslik_listele. destruct (koordinator_mu k); [|by intros ?%not_elem_of_nil].
  rewrite sirala_elem, list_elem_of_filter. tauto.
Qed.

(** Clicking the row of room [r] selects its item and loads its values. *)
Lemma secim_yap_satir s k w r :
  kimlik_tekil s -> r ∈ derslik_listele s k ->
  secim_yap (str_of_Z (dl_satir_id r)) (_yenile s k w) =
  {| dp_form := satir_formu r; dp_agac := dp_agac (_yenile s k w);
     dp_secim := Some (str_of_Z (dl_satir_id r)); dp_arama := dp_arama w; dp_tuval := dp_tuval w |}.
Proof.
  intros Hid Hr. unfold secim_yap.
  destruct (List.find _ _) as [[iid f]|] eqn:E.
  - apply find_some in E as [Hin Heq]. apply bool_decide_eq_true in Heq. simpl in Heq. subst iid.
    apply list_elem_of_In, list_elem_of_fmap in Hin as (r' & [= Hid' ->] & Hr').
    apply str_of_Z_inj in Hid'.
    apply listele_elem in Hr as (_ & Hr & _), Hr' as (_ & Hr' & _).
    by rewrite (NoDup_fmap_esit _ _ _ _ Hid Hr Hr' Hid').
  - exfalso. eapply find_none in E; [|apply list_elem_of_In, list_elem_of_fmap_2, Hr].
    simpl in E. by rewrite bool_decide_true in E.
Qed.

Lemma benzersiz_true rs : NoDup (derslik_anahtari <$> rs) -> benzersiz rs = true.
Proof. intros H. by apply bool_decide_eq_true. Qed.

Lemma koltuk_sayisi_bind {A} (f : A -> list Cizim) (l : list A) n :
  (forall a, length (List.filter (fun c => match c with Koltuk _ _ => true | _ => false end) (f a)) = n) ->
  length (List.filter (fun c => match c with Koltuk _ _ => true | _ => false end) (l ≫= f)) = (length l * n)%nat.
Proof.
  intros Hf. induction l as [|a l IH]; [done|]. change ((a :: l) ≫= f) with (f a ++ (l ≫= f)).
  rewrite List.filter_app, length_app, Hf, IH. simpl. lia.
Qed.

(** ** The number of rooms of the department, for the main window *)

Lemma filter_fmap_length {A} (P : A -> Prop) `{!forall x, Decision (P x)} (f : A -> A) (l : list A) :
  (forall x, P (f x) <-> P x) -> length (filter P (f <$> l)) = length (filter P l).
Proof.
  intros Hf. induction l as [|x l IH]; [done|]. rewrite fmap_cons.
  destruct (decide (P x)) as [Hx|Hx].
  - rewrite !filter_cons_True by first [done | by apply Hf]. simpl. by rewrite IH.
  - rewrite !filter_cons_False by first [done | by rewrite Hf]. done.
Qed.

Lemma filter_filter_length {A} (P Q : A -> Prop) `{!forall x, Decision (P x)} `{!forall x, Decision (Q x)}
    (l : list A) : (length (filter P (filter Q l)) <= length (filter P l))%nat.
Proof.
  induction l as [|x l IH]; [done|]. destruct (decide (Q x)).
  - rewrite filter_cons_True by done. destruct (decide (P x)).
    + rewrite !filter_cons_True by done. simpl. lia.
    + by rewrite !filter_cons_False.
  - rewrite filter_cons_False by done. destruct (decide (P x)).
    + rewrite (filter_cons_True _ _ _ p). simpl. lia.
    + by rewrite (filter_cons_False _ _ _ n0).
Qed.

Lemma derslik_ekle_sayisi s k kod ad kap en boy sira s' :
  derslik_ekle s k kod ad kap en boy sira ?= s' -> 0 < derslik_sayisi s' k.
Proof.
  intros H. pose proof H as (b & Hb & Hrs)%derslik_ekle_satir.
  unfold derslik_ekle in H. unfold derslik_sayisi.
  destruct (koordinator_mu k); [|discriminate]. rewrite Hrs, filter_app, length_app.
  rewrite filter_cons_True by (unfold bolumun; simpl; congruence). simpl. lia.
Qed.

(** A step of the tab that does not call [on_derslik_eklendi] (the
    window is given one) does not add a room of the department. *)
Lemma pencere_adimi_sayisi k s w b s' w' :
  pencere_adimi true k (s, w) b (s', w') ->
  if b then 0 < derslik_sayisi s' k else derslik_sayisi s' k <= derslik_sayisi s k.
Proof.
  intros Hs. inversion Hs; subst; try lia.
  - match goal with H : _ekle _ _ _ _ = _ |- _ => unfold _ekle in H end.
    repeat case_match; simplify_eq; simpl; try lia.
    + by case_bool_decide.
    + exfalso. match goal with H : derslik_ekle _ _ _ _ _ _ _ _ ?= _ |- _ =>
        apply derslik_ekle_sayisi in H end. by case_bool_decide.
  - match goal with H : _guncelle _ _ _ ?= _ |- _ => unfold _guncelle in H end.
    repeat case_match; simplify_eq; try lia.
    match goal with H : derslik_guncelle _ _ _ _ _ _ _ _ _ ?= _ |- _ => unfold derslik_guncelle in H end.
    unfold derslik_sayisi. destruct (koordinator_mu k); [|discriminate]. simpl in *.
    destruct (benzersiz _); [|discriminate]. simplify_eq. simpl.
    rewrite filter_fmap_length; [lia|]. intros r. case_decide; [|done]. unfold bolumun. done.
  - match goal with H : _sil _ _ _ _ ?= _ |- _ => unfold _sil in H end.
    repeat case_match; simplify_eq; try lia.
    match goal with H : derslik_sil _ _ _ ?= _ |- _ => unfold derslik_sil in H end.
    unfold derslik_sayisi. destruct (koordinator_mu k); simpl in *; simplify_eq; simpl.
    match goal with |- context [filter ?P (filter ?Q ?l)] => pose proof (filter_filter_length P Q l) end.
    lia.
Qed.

(** ** Properties *)

(** C26 The room window lets only well-formed rooms into the database:
    along any sequence of user actions in the tab (typing, clicking a
    row, Ekle, Güncelle, Sil, Bul), every stored room keeps a non-blank
    code and name and a positive capacity, column count and row count. *)
Theorem pencere_odalari_gecerli cb k s w s' w' :
  odalar_gecerli s -> rtc (pencere_gecisi cb k) (s, w) (s', w') -> odalar_gecerli s'.
Proof. intros H Hr. exact (pencere_rtc_gecerli cb k (s, w) (s', w') Hr H). Qed.

(** Every integer the entries hold is read back by [_int_or_error]
    as itself; the group size ([Sıra Yapısı (2/3/4)]) is accepted
    whatever its value, 0 and negative numbers included, while every
    other field is accepted exactly when it is positive. *)
Theorem int_or_error_alanlar z :
  _int_or_error (str_of_Z z) SIRA_ETIKETI = inr z /\
  (forall a, a <> SIRA_ETIKETI -> _int_or_error (str_of_Z z) a = inr z <-> 0 < z).
Proof.
  split.
  - rewrite int_or_error_str, (bool_decide_true (SIRA_ETIKETI = SIRA_ETIKETI)) by done.
    by rewrite andb_false_r.
  - intros a Ha. rewrite int_or_error_str, (bool_decide_false (a = _)) by done.
    case_bool_decide; simpl; split; intros; try discriminate; try lia; done.
Qed.

(** A row chosen in the tree is the row the buttons act on: after
    clicking the row of room [r] and pressing Sil and confirming, [r] is
    gone and every other room of the table is still there. *)
Theorem sil_secilen_oda s k w r :
  kimlik_tekil s -> r ∈ derslik_listele s k ->
  exists s' w' ms,
    (_sil s k (secim_yap (str_of_Z (dl_satir_id r)) (_yenile s k w)) true ?= (s', w', ms)) /\
    (r ∉ t_derslikler (katalog s')) /\
    forall r', r' ∈ t_derslikler (katalog s) -> dl_satir_id r' <> dl_satir_id r ->
               r' ∈ t_derslikler (katalog s').
Proof.
  intros Hid Hr. rewrite secim_yap_satir by done. unfold _sil. simpl.
  rewrite int_str_geri_donus. simpl. apply listele_elem in Hr as (Hk & Hr & Hb).
  unfold derslik_sil. rewrite Hk. simpl.
  eexists _, _, _. split; [reflexivity|]. simpl. split.
  - rewrite list_elem_of_filter. tauto.
  - intros r' Hr' Hne. apply list_elem_of_filter. split; [tauto|done].
Qed.

(** Showing a room and saving it back is the identity: after clicking
    the row of a well-formed room whose code and name have no surrounding
    blanks and pressing Güncelle without editing, the form reads back the
    room's own values ([int(str(n)) = n]) and the table is unchanged. *)
Theorem guncelle_duzenlemeden s k w r :
  kimlik_tekil s -> NoDup (derslik_anahtari <$> t_derslikler (katalog s)) ->
  r ∈ derslik_listele s k -> oda_gecerli r ->
  metin_strip (dl_kodu r) = dl_kodu r -> metin_strip (dl_adi r) = dl_adi r ->
  exists s' w',
    (_guncelle s k (secim_yap (str_of_Z (dl_satir_id r)) (_yenile s k w)) ?=
      (s', w', [Bilgi "Derslik güncellendi."])) /\
    t_derslikler (katalog s') = t_derslikler (katalog s).
Proof.
  intros Hid Hnd Hr (Hkod & Had & Hkap & Hen & Hboy) Hsk Hsa.
  rewrite secim_yap_satir by done. unfold _guncelle. simpl. rewrite int_str_geri_donus.
  unfold form_oku. simpl. rewrite Hsk, Hsa, !bool_decide_false by done. simpl.
  rewrite !int_or_error_str, !(bool_decide_false (_ <= 0)) by lia.
  rewrite (bool_decide_true (SIRA_ETIKETI = _)) by done. rewrite andb_false_r. simpl.
  apply listele_elem in Hr as (Hk & Hr & Hb).
  unfold derslik_guncelle. rewrite Hk. simpl.
  match goal with |- context [benzersiz (?f <$> ?l)] => assert (Hm : f <$> l = l) end.
  { rewrite <- (list_fmap_id (t_derslikler _)) at 2. apply list_fmap_ext. intros i r' Hr'%list_elem_of_lookup_2. unfold id. case_decide as Hc; [|done].
    destruct Hc as [Hc _]. rewrite <- (NoDup_fmap_esit _ _ _ _ Hid Hr' Hr Hc). by destruct r'. }
  rewrite Hm, benzersiz_true by done. by eexists _, _.
Qed.

Lemma ciz_elem_sinir enine boyuna sira c :
  c ∈ _ciz_oturma_duzeni enine boyuna sira ->
  match c with
  | Koltuk x y => 0 <= x < enine /\ 0 <= y < boyuna
  | Ayirici x y => 0 <= x < enine - 1 /\ 0 <= y < boyuna /\ (x + 1) mod sira = 0 /\ sira <> 0
  | Baslik b e g => b = boyuna /\ e = enine /\ g = sira
  end.
Proof.
  unfold _ciz_oturma_duzeni. case_bool_decide; [by intros ?%not_elem_of_nil|].
  case_bool_decide; [by intros ?%not_elem_of_nil|]. simpl.
  intros [Hc|Hc]%elem_of_app.
  - apply list_elem_of_bind in Hc as (y & Hc & Hy%elem_of_seqZ).
    apply list_elem_of_bind in Hc as (x & Hc & Hx%elem_of_seqZ).
    apply elem_of_cons in Hc as [->|Hc]; [lia|].
    case_bool_decide as H1; case_bool_decide as H2; case_bool_decide as H3; simpl in Hc;
      try by apply not_elem_of_nil in Hc.
    apply list_elem_of_singleton in Hc as ->. split_and!; lia || done.
  - apply list_elem_of_singleton in Hc as ->. done.
Qed.

Lemma koltuk_sayisi enine boyuna sira :
  0 < enine -> 0 < boyuna ->
  length (List.filter (fun c => match c with Koltuk _ _ => true | _ => false end)
            (_ciz_oturma_duzeni enine boyuna sira)) = Z.to_nat (enine * boyuna).
Proof.
  intros He Hb. unfold _ciz_oturma_duzeni.
  rewrite !bool_decide_false by lia. simpl. rewrite List.filter_app. simpl. rewrite app_nil_r.
  rewrite (koltuk_sayisi_bind _ _ (Z.to_nat enine)).
  - rewrite length_seqZ. rewrite Z2Nat.inj_mul by lia. lia.
  - intros y. rewrite (koltuk_sayisi_bind _ _ 1); [rewrite length_seqZ; lia|].
    intros x. simpl. by destruct (_ && _).
Qed.

(** What [Bul ve Göster] draws stays inside the room: every seat is
    at a column below [enine] and a row below [boyuna], every group
    separator follows a column that is a multiple of the group size and
    not the last one, and a room with positive sizes shows exactly
    [enine * boyuna] seats. *)
Theorem ciz_oturma_sinirlar enine boyuna sira :
  (forall c, c ∈ _ciz_oturma_duzeni enine boyuna sira ->
   match c with
   | Koltuk x y => 0 <= x < enine /\ 0 <= y < boyuna
   | Ayirici x y => 0 <= x < enine - 1 /\ 0 <= y < boyuna /\ (x + 1) mod sira = 0 /\ sira <> 0
   | Baslik b e g => b = boyuna /\ e = enine /\ g = sira
   end) /\
  (0 < enine -> 0 < boyuna ->
   length (List.filter (fun c => match c with Koltuk _ _ => true | _ => false end)
             (_ciz_oturma_duzeni enine boyuna sira)) = Z.to_nat (enine * boyuna)).
Proof. split; [apply ciz_elem_sinir|apply koltuk_sayisi]. Qed.

(** ** Examples and witnesses *)

Definition ornek_form : Form :=
  {| f_kodu := " D8 "; f_adi := "Derslik 8"; f_kapasite := "30"; f_enine := " 6";
     f_boyuna := "5"; f_sira := "0" |}.

Definition ornek_pencere : Pencere :=
  {| dp_form := ornek_form; dp_agac := []; dp_secim := None; dp_arama := "7"; dp_tuval := [] |}.

Definition ornek_ekle := _ekle true ornek_sistem3 ornek_koordinator ornek_pencere.

(** Witness of [pencere_odalari_gecerli]: the coordinator adds room D8
    through the form; its group size 0 is stored as typed. *)
Lemma pencere_odalari_gecerli_ornek :
  odalar_gecerli ornek_ekle.1.1.1 /\
  map dl_sira_yapisi (t_derslikler (katalog ornek_ekle.1.1.1)) = [2; 0].
Proof.
  split; [|vm_compute; reflexivity].
  apply (pencere_odalari_gecerli true ornek_koordinator ornek_sistem3 ornek_pencere
           ornek_ekle.1.1.1 ornek_ekle.1.1.2).
  - unfold odalar_gecerli, oda_gecerli. simpl. repeat constructor; simpl; (discriminate || lia).
  - apply rtc_once. eexists. eapply Pa_ekle. reflexivity.
Defined.

(** Witness of [int_or_error_alanlar]. *)
Lemma int_or_error_alanlar_ornek :
  _int_or_error (str_of_Z (-3)) SIRA_ETIKETI = inr (-3) /\
  (_int_or_error (str_of_Z (-3)) "Kapasite" = inr (-3) <-> 0 < -3).
Proof.
  destruct (int_or_error_alanlar (-3)) as [H1 H2]. split; [exact H1|apply H2; discriminate].
Defined.

Lemma ornek_kimlik : kimlik_tekil ornek_sistem3.
Proof. unfold kimlik_tekil. simpl. repeat constructor. set_solver. Qed.

Definition ornek_oda7 : DerslikSatiri :=
  {| dl_satir_id := 7; dl_bolum_id := 1; dl_kodu := "D7"; dl_adi := "Derslik 7"; dl_kapasite := 40;
     dl_enine := 8; dl_boyuna := 5; dl_sira_yapisi := 2 |}.

Lemma ornek_oda_listede : ornek_oda7 ∈ derslik_listele ornek_sistem3 ornek_koordinator.
Proof. vm_compute. left. Qed.

(** Witness of [sil_secilen_oda]: room 7 of department 1. *)
Lemma sil_secilen_oda_ornek :
  exists s' w' ms,
    (_sil ornek_sistem3 ornek_koordinator
       (secim_yap (str_of_Z (dl_satir_id ornek_oda7)) (_yenile ornek_sistem3 ornek_koordinator ornek_pencere)) true
     ?= (s', w', ms)) /\
    t_derslikler (katalog s') = [].
Proof.
  destruct (sil_secilen_oda ornek_sistem3 ornek_koordinator ornek_pencere _ ornek_kimlik
              ornek_oda_listede) as (s' & w' & ms & H & Hr & _).
  exists s', w', ms. split; [exact H|].
  vm_compute in H. injection H as <- _ _. reflexivity.
Defined.

(** Witness of [guncelle_duzenlemeden]. *)
Lemma guncelle_duzenlemeden_ornek :
  exists s' w',
    (_guncelle ornek_sistem3 ornek_koordinator
       (secim_yap (str_of_Z (dl_satir_id ornek_oda7)) (_yenile ornek_sistem3 ornek_koordinator ornek_pencere))
     ?= (s', w', [Bilgi "Derslik güncellendi."])) /\
    t_derslikler (katalog s') = t_derslikler (katalog ornek_sistem3).
Proof.
  apply (guncelle_duzenlemeden ornek_sistem3 ornek_koordinator ornek_pencere ornek_oda7 ornek_kimlik).
  - vm_compute. repeat constructor; set_solver.
  - exact ornek_oda_listede.
  - unfold oda_gecerli. simpl. split_and!; (discriminate || lia).
  - vm_compute. reflexivity.
  - vm_compute. reflexivity.
Defined.

(** Witness of [ciz_oturma_sinirlar]: a 3 x 2 room in groups of 2. *)
Lemma ciz_oturma_sinirlar_ornek :
  _ciz_oturma_duzeni 3 2 2 = [Koltuk 0 0; Koltuk 1 0; Ayirici 1 0; Koltuk 2 0;
                              Koltuk 0 1; Koltuk 1 1; Ayirici 1 1; Koltuk 2 1; Baslik 2 3 2] /\
  length (List.filter (fun c => match c with Koltuk _ _ => true | _ => false end)
            (_ciz_oturma_duzeni 3 2 2)) = 6%nat.
Proof.
  split; [vm_compute; reflexivity|]. apply (ciz_oturma_sinirlar 3 2 2); lia.
Defined.

End DerslikPenceresi.
