(* ===== verification/MainWindow.v ===== *)
(** * MainWindow: the tabs of [src/arayuz/ana_pencere.py]

    [AnaPencere] is the window a user gets after logging in.  Its state
    [Ana] is the notebook ([ap_sekmeler]: each tab's widget, kind, text and
    whether it is enabled), the dictionary [self._tab_refs] (a [gmap] from
    its keys to widgets), the selected tab, the widget counter, the
    callbacks [self.after] has scheduled ([ap_bekleyen], in the order Tk
    runs them: by due time, first come first served), the department
    names the admin's [Genel] tab lists, and the room tab of
    [RoomWindow].

    [_build] (lines 46-88) builds the tabs of the role: for a coordinator
    [Derslikler], [Excel Aktar] (disabled, with [_bilgilendir_kilit]
    scheduled after 400 ms, while the department has no room) and
    [Oturma Planı], and [_ensure_data_tabs] after 100 ms; for an admin
    [Kullanıcı Yönetimi] and [Genel].  The other handlers are
    [_bilgilendir_kilit] (90-92), [_on_first_derslik_added] (95-101),
    [_on_after_import] (103-114), [_focus_tab] (116-123) and
    [_ensure_data_tabs] (125-149).  [ana_adimi] is the session as a
    transition system: a scheduled callback runs, the user works in the
    room tab (whose [Ekle] calls [_on_first_derslik_added]), imports a
    spreadsheet in the [Excel Aktar] tab (which calls [_on_after_import];
    the parsed rows only change the course and student tables, the
    parser is not modelled), or clicks an enabled tab. *)

From S2P Require Import Prelude Catalog Accounts Forms RoomWindow.

Module AnaPencere.
Import Katalog Yetki Metin DerslikPenceresi.

#[local] Arguments ile_baslar : simpl never.

(** ** State *)

Inductive SekmeTuru :=
  | Derslikler | ExcelAktar | OturmaPlani | SinavProgrami | OgrenciListesi | DersListesi
  | KullaniciYonetimi | Genel.

#[export] Instance SekmeTuru_eq_dec : EqDecision SekmeTuru.
Proof. solve_decision. Defined.

Record Sekme := {
  sk_widget : nat;
  sk_tur : SekmeTuru;
  sk_metin : string;
  sk_etkin : bool
}.

(** The callbacks of [self.after]. *)
Inductive Olay :=
  | BilgilendirKilit (idx : nat)
  | VeriSekmeleri.

Record Ana := {
  ap_sekmeler : list Sekme;
  ap_refs : gmap string nat;
  ap_secili : option nat;
  ap_sayac : nat;
  ap_bekleyen : list (Z * Olay);
  ap_gorunen : list string;
  ap_derslik : Pencere
}.

Definition sekmeler_yaz (a : Ana) (l : list Sekme) : Ana :=
  {| ap_sekmeler := l; ap_refs := ap_refs a; ap_secili := ap_secili a; ap_sayac := ap_sayac a;
     ap_bekleyen := ap_bekleyen a; ap_gorunen := ap_gorunen a; ap_derslik := ap_derslik a |}.
Definition refs_yaz (a : Ana) (key : string) (w : nat) : Ana :=
  {| ap_sekmeler := ap_sekmeler a; ap_refs := <[key := w]> (ap_refs a); ap_secili := ap_secili a;
     ap_sayac := ap_sayac a; ap_bekleyen := ap_bekleyen a; ap_gorunen := ap_gorunen a;
     ap_derslik := ap_derslik a |}.
Definition secili_yaz (a : Ana) (i : nat) : Ana :=
  {| ap_sekmeler := ap_sekmeler a; ap_refs := ap_refs a; ap_secili := Some i; ap_sayac := ap_sayac a;
     ap_bekleyen := ap_bekleyen a; ap_gorunen := ap_gorunen a; ap_derslik := ap_derslik a |}.
Definition bekleyen_yaz (a : Ana) (l : list (Z * Olay)) : Ana :=
  {| ap_sekmeler := ap_sekmeler a; ap_refs := ap_refs a; ap_secili := ap_secili a;
     ap_sayac := ap_sayac a; ap_bekleyen := l; ap_gorunen := ap_gorunen a; ap_derslik := ap_derslik a |}.
Definition derslik_yaz (a : Ana) (w : Pencere) : Ana :=
  {| ap_sekmeler := ap_sekmeler a; ap_refs := ap_refs a; ap_secili := ap_secili a;
     ap_sayac := ap_sayac a; ap_bekleyen := ap_bekleyen a; ap_gorunen := ap_gorunen a;
     ap_derslik := w |}.

(** ** Notebook operations *)

(** [nb.add(frame, text=...)]: a new widget; the first tab added becomes
    the selected one. *)
Definition sekme_ekle (a : Ana) (t : SekmeTuru) (metin : string) : Ana * nat :=
  let w := ap_sayac a in
  ({| ap_sekmeler := ap_sekmeler a ++ [{| sk_widget := w; sk_tur := t; sk_metin := metin; sk_etkin := true |}];
      ap_refs := ap_refs a;
      ap_secili := match ap_secili a with None => Some (length (ap_sekmeler a)) | Some i => Some i end;
      ap_sayac := S w; ap_bekleyen := ap_bekleyen a; ap_gorunen := ap_gorunen a;
      ap_derslik := ap_derslik a |}, w).

(** [list(nb.tabs()).index(str(w))] *)
Definition sekme_indeksi (a : Ana) (w : nat) : option nat :=
  fst <$> list_find (fun t => sk_widget t = w) (ap_sekmeler a).

(** [nb.tab(idx, ...)] on an existing tab. *)
Definition sekme_degistir (a : Ana) (i : nat) (f : Sekme -> Sekme) : Ana :=
  sekmeler_yaz a (alter f i (ap_sekmeler a)).

Definition etkin_yap (b : bool) (t : Sekme) : Sekme :=
  {| sk_widget := sk_widget t; sk_tur := sk_tur t; sk_metin := sk_metin t; sk_etkin := b |}.

Definition metin_yaz (m : string) (t : Sekme) : Sekme :=
  {| sk_widget := sk_widget t; sk_tur := sk_tur t; sk_metin := m; sk_etkin := sk_etkin t |}.

(** [self.after(ms, f)]: the callback joins the queue after those due no
    later. *)
Definition sonra_calistir (a : Ana) (ms : Z) (e : Olay) : Ana :=
  bekleyen_yaz a (ekle (fun x y => x.1 <? y.1) (ms, e) (ap_bekleyen a)).

(** ** Handlers *)

Definition KILIT_EKI : string := " (Önce derslik girin)".

(** [_bilgilendir_kilit] *)
Definition _bilgilendir_kilit (a : Ana) (idx : nat) : Ana :=
  match ap_sekmeler a !! idx with
  | Some t => sekme_degistir a idx (metin_yaz (sk_metin t +:+ KILIT_EKI))
  | None => a
  end.

(** [_on_first_derslik_added]: the first tab whose text starts with
    [Excel Aktar] is enabled. *)
Definition _on_first_derslik_added (a : Ana) : Ana :=
  match list_find (fun t => ile_baslar "Excel Aktar" (sk_metin t) = true) (ap_sekmeler a) with
  | Some (i, _) => sekme_degistir a i (etkin_yap true)
  | None => a
  end.

(** One block of [_ensure_data_tabs]. *)
Definition veri_sekmesi (a : Ana) (key : string) (t : SekmeTuru) (metin : string) : Ana :=
  match ap_refs a !! key with
  | Some _ => a
  | None => let '(a', w) := sekme_ekle a t metin in refs_yaz a' key w
  end.

(** [_ensure_data_tabs] *)
Definition _ensure_data_tabs (a : Ana) : Ana :=
  let a := veri_sekmesi a "sinav_programi" SinavProgrami "Sınav Programı" in
  let a := veri_sekmesi a "ogrenci_listesi" OgrenciListesi "Öğrenci Listesi" in
  veri_sekmesi a "ders_listesi" DersListesi "Ders Listesi".

(** [_focus_tab] *)
Definition _focus_tab (a : Ana) (key : string) : Ana :=
  match ap_refs a !! key with
  | None => a
  | Some w => match sekme_indeksi a w with Some i => secili_yaz a i | None => a end
  end.

(** [_on_after_import] *)
Definition _on_after_import (a : Ana) (tip : string) : Ana :=
  let a := _ensure_data_tabs a in
  if bool_decide (tip = "ders") then _focus_tab a "sinav_programi" else _focus_tab a "ogrenci_listesi".

Definition olay_calistir (a : Ana) (e : Olay) : Ana :=
  match e with
  | BilgilendirKilit idx => _bilgilendir_kilit a idx
  | VeriSekmeleri => _ensure_data_tabs a
  end.

Definition bos_pencere : Pencere :=
  {| dp_form := bos_form; dp_agac := []; dp_secim := None; dp_arama := ""; dp_tuval := [] |}.

Definition bos_ana : Ana :=
  {| ap_sekmeler := []; ap_refs := ∅; ap_secili := None; ap_sayac := 0%nat; ap_bekleyen := [];
     ap_gorunen := []; ap_derslik := bos_pencere |}.

(** [_build]; [Hata ValueError] where [list.index] would raise. *)
Definition _build (s : Sistem) (k : KullaniciSatiri) : Sonuc Ana :=
  if bool_decide (ku_rol k = "koordinator") then
    let '(a1, _) := sekme_ekle (derslik_yaz bos_ana (_yenile s k bos_pencere)) Derslikler "Derslikler" in
    let '(a2, w_import) := sekme_ekle a1 ExcelAktar "Excel Aktar" in
    let '(a3, w_oturma) := sekme_ekle a2 OturmaPlani "Oturma Planı" in
    let a4 := refs_yaz a3 "oturma" w_oturma in
    a5 ← (if bool_decide (derslik_sayisi s k = 0) then
            match sekme_indeksi a4 w_import with
            | None => Hata ValueError
            | Some idx => Tamam (sonra_calistir (sekme_degistir a4 idx (etkin_yap false)) 400
                                   (BilgilendirKilit idx))
            end
          else Tamam a4);
    Tamam (sonra_calistir a5 100 VeriSekmeleri)
  else
    let '(a1, _) := sekme_ekle bos_ana KullaniciYonetimi "Kullanıcı Yönetimi" in
    let '(a2, _) := sekme_ekle a1 Genel "Genel" in
    Tamam {| ap_sekmeler := ap_sekmeler a2; ap_refs := ap_refs a2; ap_secili := ap_secili a2;
             ap_sayac := ap_sayac a2; ap_bekleyen := ap_bekleyen a2;
             ap_gorunen := snd <$> kullaniciya_gorunecek_bolumler s k; ap_derslik := ap_derslik a2 |}.

(** ** The session *)

Definition etkin_sekme (a : Ana) (t : SekmeTuru) : Prop :=
  exists x, x ∈ ap_sekmeler a /\ sk_tur x = t /\ sk_etkin x = true.

Inductive ana_adimi (k : KullaniciSatiri) : Sistem * Ana -> Sistem * Ana -> Prop :=
  | Aa_zaman s a ms e rest :
      ap_bekleyen a = (ms, e) :: rest ->
      ana_adimi k (s, a) (s, olay_calistir (bekleyen_yaz a rest) e)
  | Aa_derslik s a b s' w' :
      etkin_sekme a Derslikler ->
      pencere_adimi true k (s, ap_derslik a) b (s', w') ->
      ana_adimi k (s, a) (s', if b then _on_first_derslik_added (derslik_yaz a w') else derslik_yaz a w')
  | Aa_import s a kt tip :
      etkin_sekme a ExcelAktar -> derslik_sayisi s k <> 0 ->
      t_derslikler kt = t_derslikler (katalog s) ->
      tip = "ders" \/ tip = "ogrenci" ->
      ana_adimi k (s, a) (katalog_yaz s kt, _on_after_import a tip)
  | Aa_sekme s a i x :
      ap_sekmeler a !! i = Some x -> sk_etkin x = true ->
      ana_adimi k (s, a) (s, secili_yaz a i).

(** ** Invariant of a coordinator's session *)

(** The key of [self._tab_refs] a tab kind is stored under. *)
Definition veri_anahtari (t : SekmeTuru) : option string :=
  match t with
  | OturmaPlani => Some "oturma"
  | SinavProgrami => Some "sinav_programi"
  | OgrenciListesi => Some "ogrenci_listesi"
  | DersListesi => Some "ders_listesi"
  | _ => None
  end.

(** Widget and kind of each tab: what [nb.tab(i, ...)] never changes. *)
Definition iskelet (a : Ana) : list (nat * SekmeTuru) :=
  (fun x => (sk_widget x, sk_tur x)) <$> ap_sekmeler a.

Record ana_inv (s : Sistem) (k : KullaniciSatiri) (a : Ana) : Prop := {
  inv_tur : NoDup (snd <$> iskelet a);
  inv_widget : NoDup (fst <$> iskelet a);
  inv_sayac : Forall (fun p => (p.1 < ap_sayac a)%nat) (iskelet a);
  inv_metin : Forall (fun x => ile_baslar "Excel Aktar" (sk_metin x) = true <-> sk_tur x = ExcelAktar)
                (ap_sekmeler a);
  inv_kilit : Forall (fun x => sk_tur x = ExcelAktar -> sk_etkin x = false -> derslik_sayisi s k = 0)
                (ap_sekmeler a);
  inv_etkin : Forall (fun x => sk_tur x <> ExcelAktar -> sk_etkin x = true) (ap_sekmeler a);
  inv_anahtar : forall p key, p ∈ iskelet a -> veri_anahtari p.2 = Some key -> is_Some (ap_refs a !! key);
  inv_refs : forall key w, ap_refs a !! key = Some w ->
               exists t, (w, t) ∈ iskelet a /\ veri_anahtari t = Some key;
  inv_bekleyen : forall ms i, (ms, BilgilendirKilit i) ∈ ap_bekleyen a ->
               snd <$> iskelet a !! i = Some ExcelAktar
}.

(** ** Lemmas on the notebook *)

Lemma alter_fmap_eq {A B} (g : A -> B) (f : A -> A) i (l : list A) :
  (forall x, g (f x) = g x) -> g <$> alter f i l = g <$> l.
Proof.
  intros Hg. apply list_eq. intros j. rewrite !list_lookup_fmap.
  destruct (decide (i = j)) as [->|Hij].
  - rewrite list_lookup_alter_eq. destruct (l !! j); simpl; [by rewrite Hg|done].
  - by rewrite list_lookup_alter_ne.
Qed.

Lemma alter_elem {A} (f : A -> A) i (l : list A) y :
  y ∈ alter f i l -> y ∈ l \/ exists x, l !! i = Some x /\ y = f x.
Proof.
  intros (j & Hj)%list_elem_of_lookup. destruct (decide (i = j)) as [->|Hij].
  - rewrite list_lookup_alter_eq in Hj. destruct (l !! j) eqn:E; simplify_eq/=. right. eauto.
  - rewrite list_lookup_alter_ne in Hj by done. left. by eapply list_elem_of_lookup_2.
Qed.

Lemma iskelet_degistir a i f :
  (forall x, sk_widget (f x) = sk_widget x /\ sk_tur (f x) = sk_tur x) ->
  iskelet (sekme_degistir a i f) = iskelet a.
Proof. intros Hf. unfold iskelet. simpl. apply alter_fmap_eq. intros x. by destruct (Hf x) as [-> ->]. Qed.

Lemma derslik_sayisi_katalog s kt k :
  t_derslikler kt = t_derslikler (katalog s) -> derslik_sayisi (katalog_yaz s kt) k = derslik_sayisi s k.
Proof. intros H. unfold derslik_sayisi. simpl. by rewrite H. Qed.

(** [nb.tab(i, ...)] keeps the invariant when the new text starts with
    [Excel Aktar] exactly for the [Excel Aktar] tab and the tab it
    disables is one whose department has no room. *)
Lemma degistir_inv s k a i f :
  (forall x, sk_widget (f x) = sk_widget x /\ sk_tur (f x) = sk_tur x) ->
  (forall x, ap_sekmeler a !! i = Some x ->
     (ile_baslar "Excel Aktar" (sk_metin (f x)) = true <-> sk_tur x = ExcelAktar) /\
     (sk_tur x = ExcelAktar -> sk_etkin (f x) = false -> derslik_sayisi s k = 0) /\
     (sk_tur x <> ExcelAktar -> sk_etkin (f x) = true)) ->
  ana_inv s k a -> ana_inv s k (sekme_degistir a i f).
Proof.
  intros Hf Hx [] . pose proof (iskelet_degistir a i f Hf) as Hi.
  split; rewrite ?Hi; unfold sekme_degistir, sekmeler_yaz; cbn [ap_sayac ap_refs ap_bekleyen ap_sekmeler]; try done.
  - apply Forall_forall. intros y [Hy|(x & Hx' & ->)]%alter_elem.
    + exact (proj1 (Forall_forall _ _) inv_metin0 y Hy).
    + destruct (Hf x) as [_ ->]. apply Hx, Hx'.
  - apply Forall_forall. intros y [Hy|(x & Hx' & ->)]%alter_elem.
    + exact (proj1 (Forall_forall _ _) inv_kilit0 y Hy).
    + destruct (Hf x) as [_ ->]. apply Hx, Hx'.
  - apply Forall_forall. intros y [Hy|(x & Hx' & ->)]%alter_elem.
    + exact (proj1 (Forall_forall _ _) inv_etkin0 y Hy).
    + destruct (Hf x) as [_ ->]. apply Hx, Hx'.
Qed.

(** Handlers that keep the tabs, the dictionary, the counter and the
    queue keep the invariant. *)
Lemma ayni_yapi_inv s k a a' :
  ap_sekmeler a' = ap_sekmeler a -> ap_refs a' = ap_refs a -> ap_sayac a' = ap_sayac a ->
  ap_bekleyen a' = ap_bekleyen a -> ana_inv s k a -> ana_inv s k a'.
Proof. intros H1 H2 H3 H4 []. split; unfold iskelet in *; rewrite ?H1, ?H2, ?H3, ?H4; done. Qed.

Lemma bekleyen_inv s k a l :
  (forall e, e ∈ l -> e ∈ ap_bekleyen a) -> ana_inv s k a -> ana_inv s k (bekleyen_yaz a l).
Proof. intros Hl []. split; try done. intros ms i Hi. apply (inv_bekleyen0 ms i), Hl, Hi. Qed.

(** The invariant for another database in which the department has a
    room whenever it had one, or whose [Excel Aktar] tabs are enabled. *)
Lemma sayisi_inv s s' k a :
  (forall x, x ∈ ap_sekmeler a -> sk_tur x = ExcelAktar -> sk_etkin x = false -> derslik_sayisi s' k = 0) ->
  ana_inv s k a -> ana_inv s' k a.
Proof. intros Hx []. split; try done. apply Forall_forall. intros x Hin. by apply Hx. Qed.

Lemma sayisi_azalir_inv s s' k a :
  (derslik_sayisi s k = 0 -> derslik_sayisi s' k = 0) -> ana_inv s k a -> ana_inv s' k a.
Proof.
  intros Hs Hinv. apply (sayisi_inv s); [|done]. intros x Hx Ht He. apply Hs.
  exact (proj1 (Forall_forall _ _) (inv_kilit _ _ _ Hinv) x Hx Ht He).
Qed.

Lemma iskelet_ekle a t m :
  iskelet (sekme_ekle a t m).1 = iskelet a ++ [(ap_sayac a, t)].
Proof. unfold iskelet. simpl. by rewrite fmap_app. Qed.

(** One block of [_ensure_data_tabs] keeps the invariant. *)
Lemma veri_sekmesi_inv s k a key t m :
  veri_anahtari t = Some key -> t <> ExcelAktar -> ile_baslar "Excel Aktar" m = false ->
  ana_inv s k a -> ana_inv s k (veri_sekmesi a key t m).
Proof.
  intros Hkey Ht Hm Hinv. unfold veri_sekmesi.
  destruct (ap_refs a !! key) as [w|] eqn:Hr; [done|]. destruct Hinv as [].
  assert (Htur : t ∉ snd <$> iskelet a).
  { intros (p & Hp & Hpi)%list_elem_of_fmap. subst t.
    destruct (inv_anahtar0 p key Hpi Hkey) as [? Hs]. congruence. }
  assert (Hw : ap_sayac a ∉ fst <$> iskelet a).
  { intros (p & Hp & Hpi)%list_elem_of_fmap.
    pose proof (proj1 (Forall_forall _ _) inv_sayac0 p Hpi). simpl in *. lia. }
  unfold refs_yaz. simpl. split; unfold iskelet in *; cbn [ap_sekmeler ap_refs ap_sayac ap_bekleyen];
    rewrite ?fmap_app.
  - rewrite ?fmap_app. apply NoDup_app. split_and!; [done| |by apply NoDup_singleton].
    intros x Hx ->%list_elem_of_singleton. by apply Htur.
  - rewrite ?fmap_app. apply NoDup_app. split_and!; [done| |by apply NoDup_singleton].
    intros x Hx ->%list_elem_of_singleton. by apply Hw.
  - apply Forall_app. split.
    + eapply Forall_impl; [exact inv_sayac0|]. intros p Hp. simpl in *. lia.
    + apply Forall_singleton. simpl. lia.
  - apply Forall_app. split; [done|]. apply Forall_singleton. cbn [sk_metin sk_tur]. rewrite Hm.
    split; [discriminate|done].
  - apply Forall_app. split; [done|]. apply Forall_singleton. cbn [sk_etkin]. discriminate.
  - apply Forall_app. split; [done|]. apply Forall_singleton. done.
  - intros p key' [Hp|Hp%list_elem_of_singleton]%elem_of_app Hk.
    + destruct (decide (key' = key)) as [->|Hne]; [by rewrite lookup_insert_eq|].
      rewrite lookup_insert_ne by done. by apply (inv_anahtar0 p).
    + subst p. simpl in Hk. rewrite Hkey in Hk. injection Hk as ->. by rewrite lookup_insert_eq.
  - intros key' w' [[<- <-]|[Hne Hl]]%lookup_insert_Some.
    + exists t. split; [apply elem_of_app; right; by apply list_elem_of_singleton|done].
    + destruct (inv_refs0 key' w' Hl) as (t' & Ht' & Hk'). exists t'. split; [|done].
      apply elem_of_app. by left.
  - intros ms i Hi. pose proof (inv_bekleyen0 ms i Hi) as Hb.
    set (l0 := (fun x => (sk_widget x, sk_tur x)) <$> ap_sekmeler a) in *.
    destruct (l0 !! i) as [p|] eqn:E; [|done]. by rewrite (lookup_app_l_Some _ _ _ _ E).
Qed.

Lemma ensure_inv s k a : ana_inv s k a -> ana_inv s k (_ensure_data_tabs a).
Proof.
  intros H. unfold _ensure_data_tabs.
  repeat (apply veri_sekmesi_inv; [done|done|vm_compute; reflexivity|]). done.
Qed.

Lemma alter_elem_ne {A} (f : A -> A) i (l : list A) y :
  y ∈ alter f i l -> (exists j, j <> i /\ l !! j = Some y) \/ exists x, l !! i = Some x /\ y = f x.
Proof.
  intros (j & Hj)%list_elem_of_lookup. destruct (decide (i = j)) as [->|Hij].
  - rewrite list_lookup_alter_eq in Hj. destruct (l !! j) eqn:E; simplify_eq/=. right. eauto.
  - rewrite list_lookup_alter_ne in Hj by done. left. eauto.
Qed.

(** At most one tab of each kind. *)
Lemma tek_tur s k a i j x y :
  ana_inv s k a -> ap_sekmeler a !! i = Some x -> ap_sekmeler a !! j = Some y -> sk_tur x = sk_tur y -> i = j.
Proof.
  intros Hinv Hx Hy Ht. apply (NoDup_lookup (snd <$> iskelet a) i j (sk_tur x)); [apply Hinv| |];
    unfold iskelet; rewrite !list_lookup_fmap; [rewrite Hx|rewrite Hy, Ht]; done.
Qed.

Lemma derslik_sayisi_nonneg s k : 0 <= derslik_sayisi s k.
Proof. unfold derslik_sayisi. destruct (koordinator_mu k); lia. Qed.

Lemma bilgilendir_inv s k a idx :
  snd <$> iskelet a !! idx = Some ExcelAktar -> ana_inv s k a -> ana_inv s k (_bilgilendir_kilit a idx).
Proof.
  intros Hidx Hinv. unfold _bilgilendir_kilit.
  destruct (ap_sekmeler a !! idx) as [x|] eqn:E; [|done].
  unfold iskelet in Hidx. rewrite !list_lookup_fmap, E in Hidx. injection Hidx as Hx.
  apply degistir_inv; [done| |done]. intros y Hy. rewrite E in Hy. injection Hy as <-. simpl.
  pose proof (proj1 (Forall_forall _ _) (inv_metin _ _ _ Hinv) x (list_elem_of_lookup_2 _ _ _ E)) as Hm.
  pose proof (proj1 (Forall_forall _ _) (inv_kilit _ _ _ Hinv) x (list_elem_of_lookup_2 _ _ _ E)) as Hk.
  pose proof (proj1 (Forall_forall _ _) (inv_etkin _ _ _ Hinv) x (list_elem_of_lookup_2 _ _ _ E)) as He.
  split_and!; [|done|done]. split; [done|]. intros _. by apply ile_baslar_app, Hm.
Qed.

(** After [_on_first_derslik_added] no [Excel Aktar] tab is disabled. *)
Lemma ilk_derslik_etkin s k a :
  ana_inv s k a -> forall x, x ∈ ap_sekmeler (_on_first_derslik_added a) ->
  sk_tur x = ExcelAktar -> sk_etkin x = true.
Proof.
  intros Hinv x. unfold _on_first_derslik_added.
  destruct (list_find _ _) as [[i y]|] eqn:E.
  - apply list_find_Some in E as (Hy & Hp & _).
    pose proof (proj1 (Forall_forall _ _) (inv_metin _ _ _ Hinv) y (list_elem_of_lookup_2 _ _ _ Hy)) as Hm.
    intros [(j & Hj & Hx)|(y' & Hy' & ->)]%alter_elem_ne Ht.
    + exfalso. apply Hj. apply (tek_tur s k a j i x y Hinv Hx Hy). rewrite Ht. symmetry. by apply Hm.
    + done.
  - apply list_find_None in E. intros Hx Ht. exfalso.
    apply (proj1 (Forall_forall _ _) E x Hx).
    exact (proj2 (proj1 (Forall_forall _ _) (inv_metin _ _ _ Hinv) x Hx) Ht).
Qed.

Lemma ilk_derslik_inv s k a : ana_inv s k a -> ana_inv s k (_on_first_derslik_added a).
Proof.
  intros Hinv. unfold _on_first_derslik_added. destruct (list_find _ _) as [[i y]|]; [|done].
  apply degistir_inv; [done| |done]. intros x Hx. simpl.
  pose proof (proj1 (Forall_forall _ _) (inv_metin _ _ _ Hinv) x (list_elem_of_lookup_2 _ _ _ Hx)).
  split_and!; [done|discriminate|done].
Qed.

(** Every step of the session keeps the invariant. *)
Lemma ana_adimi_inv k s a s' a' :
  ana_adimi k (s, a) (s', a') -> ana_inv s k a -> ana_inv s' k a'.
Proof.
  intros Hs Hinv. inversion Hs; subst.
  - assert (Hr : ana_inv s' k (bekleyen_yaz a rest)).
    { apply bekleyen_inv; [|done]. intros e' He'. match goal with H : ap_bekleyen a = _ |- _ => rewrite H end.
      by apply elem_of_cons; right. }
    destruct e as [idx|]; simpl; [|by apply ensure_inv].
    apply bilgilendir_inv; [|done]. apply (inv_bekleyen _ _ _ Hinv ms).
    match goal with H : ap_bekleyen a = _ |- _ => rewrite H end. by apply elem_of_cons; left.
  - match goal with H : pencere_adimi _ _ _ _ _ |- _ => pose proof (pencere_adimi_sayisi _ _ _ _ _ _ H) as Hb end.
    assert (Hd : ana_inv s k (derslik_yaz a w')) by (by apply (ayni_yapi_inv _ _ a)).
    destruct b.
    + apply (sayisi_inv s); [|by apply ilk_derslik_inv].
      intros x Hx Ht He. rewrite (ilk_derslik_etkin _ _ _ Hd x Hx Ht) in He. discriminate.
    + apply (sayisi_azalir_inv s); [|done]. pose proof (derslik_sayisi_nonneg s' k). lia.
  - apply (sayisi_azalir_inv s); [rewrite derslik_sayisi_katalog; done|].
    unfold _on_after_import. pose proof (ensure_inv _ _ _ Hinv) as He.
    case_bool_decide; unfold _focus_tab; repeat case_match; try done; by apply (ayni_yapi_inv _ _ (_ensure_data_tabs a)).
  - by apply (ayni_yapi_inv _ _ a).
Qed.

Lemma ana_rtc_inv k x y : rtc (ana_adimi k) x y -> ana_inv x.1 k x.2 -> ana_inv y.1 k y.2.
Proof.
  induction 1 as [|[s a] [s1 a1] z Hxy _ IH]; [done|]. intros H. apply IH. by eapply ana_adimi_inv.
Qed.

(** A property of every element of a list written out. *)
Ltac liste_hepsi :=
  apply Forall_forall; intros ? Hx;
  repeat (apply elem_of_cons in Hx as [->|Hx]); [..|by apply not_elem_of_nil in Hx].

(** The tabs [_build] makes satisfy the invariant. *)
Lemma build_inv s k a : _build s k ?= a -> ana_inv s k a.
Proof.
  unfold _build. case_bool_decide.
  - case_bool_decide as H0; simpl; intros [= <-].
    + split; simpl.
      * karar.
      * karar.
      * repeat constructor; simpl; lia.
      * liste_hepsi. all: vm_compute; split; intros Hc; (discriminate Hc || done).
      * liste_hepsi. all: simpl; intros; (discriminate || done).
      * liste_hepsi. all: simpl; intros; (discriminate || done).
      * intros p key Hp Hk. unfold iskelet in Hp. simpl in Hp.
        repeat (apply elem_of_cons in Hp as [->|Hp]); [..|by apply not_elem_of_nil in Hp];
          simpl in Hk; simplify_eq; by rewrite lookup_insert_eq.
      * intros key w [[<- <-]|[_ Hl]]%lookup_insert_Some; [|by rewrite lookup_empty in Hl].
        exists OturmaPlani. split; [|done]. unfold iskelet. simpl. by do 2 right; left.
      * intros ms i Hi. repeat (apply elem_of_cons in Hi as [Hi|Hi]); simplify_eq; try done.
        by apply not_elem_of_nil in Hi.
    + split; simpl.
      * karar.
      * karar.
      * repeat constructor; simpl; lia.
      * liste_hepsi. all: vm_compute; split; intros Hc; (discriminate Hc || done).
      * liste_hepsi. all: simpl; intros; (discriminate || done).
      * liste_hepsi. all: simpl; intros; (discriminate || done).
      * intros p key Hp Hk. unfold iskelet in Hp. simpl in Hp.
        repeat (apply elem_of_cons in Hp as [->|Hp]); [..|by apply not_elem_of_nil in Hp];
          simpl in Hk; simplify_eq; by rewrite lookup_insert_eq.
      * intros key w [[<- <-]|[_ Hl]]%lookup_insert_Some; [|by rewrite lookup_empty in Hl].
        exists OturmaPlani. split; [|done]. unfold iskelet. simpl. by do 2 right; left.
      * intros ms i Hi. repeat (apply elem_of_cons in Hi as [Hi|Hi]); simplify_eq; try done.
        by apply not_elem_of_nil in Hi.
  - simpl. intros [= <-]. split; simpl.
    * karar.
    * karar.
    * repeat constructor; simpl; lia.
    * liste_hepsi. all: vm_compute; split; intros Hc; (discriminate Hc || done).
    * liste_hepsi. all: simpl; intros; (discriminate || done).
    * liste_hepsi. all: simpl; intros; (discriminate || done).
    * intros p key Hp Hk. unfold iskelet in Hp. simpl in Hp.
      repeat (apply elem_of_cons in Hp as [->|Hp]); [..|by apply not_elem_of_nil in Hp]; simpl in Hk; done.
    * intros key w Hl. by rewrite lookup_empty in Hl.
    * intros ms i Hi. by apply not_elem_of_nil in Hi.
Qed.

Lemma iskelet_turler a : snd <$> iskelet a = sk_tur <$> ap_sekmeler a.
Proof. unfold iskelet. by rewrite <- list_fmap_compose. Qed.

Lemma iskelet_widgetler a : fst <$> iskelet a = sk_widget <$> ap_sekmeler a.
Proof. unfold iskelet. by rewrite <- list_fmap_compose. Qed.

Lemma veri_sekmesi_anahtar a key t m : is_Some (ap_refs (veri_sekmesi a key t m) !! key).
Proof.
  unfold veri_sekmesi. destruct (ap_refs a !! key) eqn:E; [by eexists|].
  simpl. by rewrite lookup_insert_eq.
Qed.

Lemma veri_sekmesi_korur a key t m key' :
  is_Some (ap_refs a !! key') -> is_Some (ap_refs (veri_sekmesi a key t m) !! key').
Proof.
  unfold veri_sekmesi. destruct (ap_refs a !! key) eqn:E; [done|]. simpl.
  destruct (decide (key = key')) as [->|Hne]; [by rewrite lookup_insert_eq|by rewrite lookup_insert_ne].
Qed.

(** [_focus_tab] on a key of the dictionary selects the tab of its kind. *)
Lemma focus_tab_sekme s k a key t w :
  ana_inv s k a -> ap_refs a !! key = Some w -> veri_anahtari t = Some key ->
  exists i x, ap_sekmeler (_focus_tab a key) !! i = Some x /\ sk_tur x = t /\
              ap_secili (_focus_tab a key) = Some i.
Proof.
  intros Hinv Hw Ht. destruct (inv_refs _ _ _ Hinv key w Hw) as (t' & Ht' & Hk).
  assert (t' = t) as ->.
  { destruct t, t'; simpl in *; congruence. }
  unfold iskelet in Ht'. apply list_elem_of_fmap in Ht' as (y & Hyw & Hy). injection Hyw as Hw' Hty.
  unfold _focus_tab. rewrite Hw. unfold sekme_indeksi.
  destruct (list_find (fun x => sk_widget x = w) (ap_sekmeler a)) as [[i x]|] eqn:E.
  - apply list_find_Some in E as (Hx & Hxw & _). exists i, x. simpl. split_and!; [done| |done].
    assert (x = y) as ->; [|done].
    apply (NoDup_fmap_esit sk_widget (ap_sekmeler a)); [|by eapply list_elem_of_lookup_2|done|congruence].
    rewrite <- iskelet_widgetler. apply Hinv.
  - apply list_find_None in E. exfalso. by apply (proj1 (Forall_forall _ _) E y Hy).
Qed.

Lemma etkin_degistir a i f t :
  (forall x, sk_tur (f x) = sk_tur x /\ sk_etkin (f x) = sk_etkin x) ->
  etkin_sekme a t -> etkin_sekme (sekme_degistir a i f) t.
Proof.
  intros Hf (x & (j & Hj)%list_elem_of_lookup & Ht & He). unfold etkin_sekme, sekme_degistir. simpl.
  destruct (decide (i = j)) as [->|Hij].
  - exists (f x). destruct (Hf x) as [-> ->]. split_and!; [|done|done].
    apply list_elem_of_lookup. exists j. by rewrite list_lookup_alter_eq, Hj.
  - exists x. split_and!; [|done|done]. apply list_elem_of_lookup. exists j.
    by rewrite list_lookup_alter_ne.
Qed.

Lemma anahtar_etkin s k a key t :
  ana_inv s k a -> is_Some (ap_refs a !! key) -> veri_anahtari t = Some key -> t <> ExcelAktar ->
  etkin_sekme a t.
Proof.
  intros Hinv [w Hw] Ht Hex. destruct (inv_refs _ _ _ Hinv key w Hw) as (t' & Ht' & Hk).
  assert (t' = t) as -> by (destruct t, t'; simpl in *; congruence).
  unfold iskelet in Ht'. apply list_elem_of_fmap in Ht' as (y & [= _ Hty] & Hy).
  exists y. split_and!; [done|done|]. rewrite Hty in Hex.
  exact (proj1 (Forall_forall _ _) (inv_etkin _ _ _ Hinv) y Hy Hex).
Qed.

Lemma veri_sekmesi_bekleyen a key t m : ap_bekleyen (veri_sekmesi a key t m) = ap_bekleyen a.
Proof. unfold veri_sekmesi. by destruct (ap_refs a !! key). Qed.

Lemma ensure_bekleyen a : ap_bekleyen (_ensure_data_tabs a) = ap_bekleyen a.
Proof. unfold _ensure_data_tabs. by rewrite !veri_sekmesi_bekleyen. Qed.

(** After [_ensure_data_tabs] the three data tabs are there and enabled. *)
Lemma ensure_etkin s k a :
  ana_inv s k a ->
  etkin_sekme (_ensure_data_tabs a) SinavProgrami /\ etkin_sekme (_ensure_data_tabs a) OgrenciListesi /\
  etkin_sekme (_ensure_data_tabs a) DersListesi.
Proof.
  intros Hinv. pose proof (ensure_inv _ _ _ Hinv) as He. unfold _ensure_data_tabs in *.
  split_and!; (eapply anahtar_etkin; [exact He| |reflexivity|discriminate]);
    repeat first [apply veri_sekmesi_anahtar | apply veri_sekmesi_korur].
Qed.

(** ** Properties *)

(** No tab is ever shown twice: from the tabs [_build] makes, along
    any session (scheduled callbacks, work in the room tab, spreadsheet
    imports, tab clicks), the notebook holds at most one tab of each
    kind, however often [_ensure_data_tabs] runs. *)
Theorem sekmeler_tekil s k a0 s' a' :
  _build s k ?= a0 -> rtc (ana_adimi k) (s, a0) (s', a') -> NoDup (sk_tur <$> ap_sekmeler a').
Proof.
  intros Hb Hr. rewrite <- iskelet_turler.
  apply (inv_tur s' k a'), (ana_rtc_inv k (s, a0) (s', a') Hr), (build_inv s k a0 Hb).
Qed.

(** C27 The import tab stays locked only while it must: in every state
    of a session, a disabled [Excel Aktar] tab means that the
    coordinator's department has no room.  The room tab's [Ekle] calls
    [_on_first_derslik_added] whenever the department then has a room,
    and that handler finds the tab by [startswith("Excel Aktar")], so also
    after [_bilgilendir_kilit] has appended its notice. *)
Theorem excel_kilidi_dogru s k a0 s' a' :
  _build s k ?= a0 -> rtc (ana_adimi k) (s, a0) (s', a') ->
  forall x, x ∈ ap_sekmeler a' -> sk_tur x = ExcelAktar -> sk_etkin x = false ->
  derslik_sayisi s' k = 0.
Proof.
  intros Hb Hr x Hx. pose proof (ana_rtc_inv k (s, a0) (s', a') Hr (build_inv s k a0 Hb)) as Hinv.
  exact (proj1 (Forall_forall _ _) (inv_kilit _ _ _ Hinv) x Hx).
Qed.

(** After a course import the user lands on the timetable: in any
    state of a session, [_on_after_import] with [tip = "ders"] selects the
    [Sınav Programı] tab, and with any other [tip] the [Öğrenci Listesi]
    tab, both of which it has made sure exist. *)
Theorem import_sonrasi_odak s k a0 s' a' tip :
  _build s k ?= a0 -> rtc (ana_adimi k) (s, a0) (s', a') ->
  exists i x, ap_sekmeler (_on_after_import a' tip) !! i = Some x /\
    sk_tur x = (if bool_decide (tip = "ders") then SinavProgrami else OgrenciListesi) /\
    ap_secili (_on_after_import a' tip) = Some i.
Proof.
  intros Hb Hr. pose proof (ensure_inv _ _ _ (ana_rtc_inv k (s, a0) (s', a') Hr (build_inv s k a0 Hb))) as He.
  unfold _on_after_import. simpl in He.
  case_bool_decide.
  - destruct (veri_sekmesi_korur _ "ders_listesi" DersListesi "Ders Listesi" "sinav_programi"
      (veri_sekmesi_korur _ "ogrenci_listesi" OgrenciListesi "Öğrenci Listesi" "sinav_programi"
        (veri_sekmesi_anahtar a' "sinav_programi" SinavProgrami "Sınav Programı"))) as [w Hw].
    by apply (focus_tab_sekme s' k _ _ _ w He).
  - destruct (veri_sekmesi_korur _ "ders_listesi" DersListesi "Ders Listesi" "ogrenci_listesi"
        (veri_sekmesi_anahtar (veri_sekmesi a' "sinav_programi" SinavProgrami "Sınav Programı")
           "ogrenci_listesi" OgrenciListesi "Öğrenci Listesi")) as [w Hw].
    by apply (focus_tab_sekme s' k _ _ _ w He).
Qed.

(** C32 The data tabs come whatever the data: once the callbacks [_build]
    schedules for a coordinator have run, which they do without any user
    action, the queue is empty and the [Sınav Programı], [Öğrenci
    Listesi] and [Ders Listesi] tabs are on screen and enabled, whether or
    not the department has any course or student, although the docstring
    of [_ensure_data_tabs] adds them only when spreadsheet data exist. *)
Theorem veri_sekmeleri_gelir s k a0 :
  ku_rol k = "koordinator" -> _build s k ?= a0 ->
  exists a1, rtc (ana_adimi k) (s, a0) (s, a1) /\ ap_bekleyen a1 = [] /\
    etkin_sekme a1 SinavProgrami /\ etkin_sekme a1 OgrenciListesi /\ etkin_sekme a1 DersListesi.
Proof.
  intros Hk Hb. pose proof (build_inv s k a0 Hb) as Hinv.
  unfold _build in Hb. rewrite bool_decide_true in Hb by done.
  case_bool_decide as H0; simpl in Hb; injection Hb as Ha; simpl in Ha.
  - set (a1 := olay_calistir (bekleyen_yaz a0 [(400, BilgilendirKilit 1)]) VeriSekmeleri).
    assert (Hi1 : ana_inv s k a1).
    { apply (ana_adimi_inv k s a0). apply Aa_zaman with (ms := 100). by rewrite <- Ha. done. }
    exists (olay_calistir (bekleyen_yaz a1 []) (BilgilendirKilit 1)). split_and!.
    + eapply rtc_l; [apply Aa_zaman with (ms := 100); by rewrite <- Ha|].
      apply rtc_once. apply Aa_zaman with (ms := 400). subst a1. simpl. by rewrite <- Ha.
    + cbn [olay_calistir]. unfold _bilgilendir_kilit. by case_match.
    + destruct (ensure_etkin s k _ (bekleyen_inv s k a0 [(400, BilgilendirKilit 1)]
                  ltac:(intros e He; rewrite <- Ha; simpl; by apply elem_of_cons; right) Hinv)) as (H1 & H2 & H3).
      simpl. unfold _bilgilendir_kilit. destruct (_ !! 1%nat); [|done].
      apply etkin_degistir; [done|exact H1].
    + destruct (ensure_etkin s k _ (bekleyen_inv s k a0 [(400, BilgilendirKilit 1)]
                  ltac:(intros e He; rewrite <- Ha; simpl; by apply elem_of_cons; right) Hinv)) as (H1 & H2 & H3).
      simpl. unfold _bilgilendir_kilit. destruct (_ !! 1%nat); [|done].
      apply etkin_degistir; [done|exact H2].
    + destruct (ensure_etkin s k _ (bekleyen_inv s k a0 [(400, BilgilendirKilit 1)]
                  ltac:(intros e He; rewrite <- Ha; simpl; by apply elem_of_cons; right) Hinv)) as (H1 & H2 & H3).
      simpl. unfold _bilgilendir_kilit. destruct (_ !! 1%nat); [|done].
      apply etkin_degistir; [done|exact H3].
  - exists (olay_calistir (bekleyen_yaz a0 []) VeriSekmeleri). split_and!.
    + apply rtc_once. apply Aa_zaman with (ms := 100). by rewrite <- Ha.
    + apply ensure_bekleyen.
    + apply ensure_etkin with s k. apply bekleyen_inv; [|done]. intros ? Hn. by apply not_elem_of_nil in Hn.
    + apply ensure_etkin with s k. apply bekleyen_inv; [|done]. intros ? Hn. by apply not_elem_of_nil in Hn.
    + apply ensure_etkin with s k. apply bekleyen_inv; [|done]. intros ? Hn. by apply not_elem_of_nil in Hn.
Qed.

(** ** Examples and witnesses *)

(** The coordinator of department 1 logs in while the department has no
    room; the callbacks run; the coordinator fills in the room form and
    presses [Ekle]. *)
Definition ornek_ana0 : Ana :=
  match _build ornek_sistem2 ornek_koordinator with Tamam a => a | Hata _ => bos_ana end.
Definition ornek_a1 : Ana := olay_calistir (bekleyen_yaz ornek_ana0 [(400, BilgilendirKilit 1)]) VeriSekmeleri.
Definition ornek_a2 : Ana := olay_calistir (bekleyen_yaz ornek_a1 []) (BilgilendirKilit 1).
Definition ornek_a3 : Ana := derslik_yaz ornek_a2 (form_yaz (ap_derslik ornek_a2) ornek_form).
Definition ornek_ekle2 := _ekle true ornek_sistem2 ornek_koordinator (ap_derslik ornek_a3).
Definition ornek_s4 : Sistem := ornek_ekle2.1.1.1.
Definition ornek_a4 : Ana := _on_first_derslik_added (derslik_yaz ornek_a3 ornek_ekle2.1.1.2).

Lemma ornek_build : _build ornek_sistem2 ornek_koordinator ?= ornek_ana0.
Proof. vm_compute. reflexivity. Qed.

Lemma ornek_derslikler_etkin a : ap_sekmeler a !! 0%nat = ap_sekmeler ornek_ana0 !! 0%nat ->
  etkin_sekme a Derslikler.
Proof.
  intros H. destruct (ap_sekmeler ornek_ana0 !! 0%nat) as [x|] eqn:E; [|discriminate].
  exists x. split; [by eapply list_elem_of_lookup_2|]. by vm_compute in E; injection E as <-.
Qed.

Lemma ornek_iz2 : rtc (ana_adimi ornek_koordinator) (ornek_sistem2, ornek_ana0) (ornek_sistem2, ornek_a2).
Proof.
  eapply rtc_l; [apply Aa_zaman with (ms := 100) (e := VeriSekmeleri); vm_compute; reflexivity|].
  apply rtc_once. apply Aa_zaman with (ms := 400). vm_compute. reflexivity.
Qed.

Lemma ornek_iz : rtc (ana_adimi ornek_koordinator) (ornek_sistem2, ornek_ana0) (ornek_s4, ornek_a4).
Proof.
  eapply rtc_trans; [exact ornek_iz2|].
  eapply rtc_l.
  { apply (Aa_derslik _ _ _ false ornek_sistem2 (form_yaz (ap_derslik ornek_a2) ornek_form)).
    - apply ornek_derslikler_etkin. vm_compute. reflexivity.
    - apply Pa_yaz. }
  apply rtc_once. apply (Aa_derslik _ _ _ true ornek_s4 ornek_ekle2.1.1.2).
  - apply ornek_derslikler_etkin. vm_compute. reflexivity.
  - apply Pa_ekle with (ms := ornek_ekle2.1.2). vm_compute. reflexivity.
Qed.

(** The lock notice outlives the lock: in the session above the
    department gets its first room and the [Excel Aktar] tab is enabled,
    but its text is still [Excel Aktar (Önce derslik girin)], since
    [_on_first_derslik_added] changes the tab's state and never its
    text. *)
Theorem kilit_eki_kalir :
  _build ornek_sistem2 ornek_koordinator ?= ornek_ana0 /\
  exists s' a', rtc (ana_adimi ornek_koordinator) (ornek_sistem2, ornek_ana0) (s', a') /\
    0 < derslik_sayisi s' ornek_koordinator /\
    exists x, x ∈ ap_sekmeler a' /\ sk_tur x = ExcelAktar /\ sk_etkin x = true /\
              sk_metin x = ("Excel Aktar" +:+ KILIT_EKI)%string.
Proof.
  split; [exact ornek_build|]. exists ornek_s4, ornek_a4. split_and!; [exact ornek_iz|vm_compute; reflexivity|].
  destruct (ap_sekmeler ornek_a4 !! 1%nat) as [x|] eqn:E; [|vm_compute in E; discriminate].
  exists x. split; [by eapply list_elem_of_lookup_2|]. vm_compute in E. injection E as <-.
  split_and!; reflexivity.
Qed.

(** Witness of [sekmeler_tekil]. *)
Lemma sekmeler_tekil_ornek : NoDup (sk_tur <$> ap_sekmeler ornek_a4).
Proof. exact (sekmeler_tekil _ _ _ _ _ ornek_build ornek_iz). Defined.

(** Witness of [excel_kilidi_dogru]: after the callbacks the tab is
    locked and the department has no room. *)
Lemma excel_kilidi_dogru_ornek : derslik_sayisi ornek_sistem2 ornek_koordinator = 0.
Proof.
  destruct (ap_sekmeler ornek_a2 !! 1%nat) as [x|] eqn:E; [|vm_compute in E; discriminate].
  apply (excel_kilidi_dogru _ _ _ _ _ ornek_build ornek_iz2 x);
    [by eapply list_elem_of_lookup_2|vm_compute in E; by injection E as <-..].
Defined.

(** Witness of [import_sonrasi_odak]. *)
Lemma import_sonrasi_odak_ornek :
  exists i x, ap_sekmeler (_on_after_import ornek_a4 "ders") !! i = Some x /\
    sk_tur x = SinavProgrami /\ ap_secili (_on_after_import ornek_a4 "ders") = Some i.
Proof.
  destruct (import_sonrasi_odak _ _ _ _ _ "ders" ornek_build ornek_iz) as (i & x & H1 & H2 & H3).
  exists i, x. split_and!; [done| |done]. rewrite H2. by rewrite bool_decide_true.
Defined.

(** Witness of [veri_sekmeleri_gelir]: department 1 has no course. *)
Lemma veri_sekmeleri_gelir_ornek :
  t_dersler (katalog ornek_sistem2) = [] /\
  exists a1, rtc (ana_adimi ornek_koordinator) (ornek_sistem2, ornek_ana0) (ornek_sistem2, a1) /\
    ap_bekleyen a1 = [] /\ etkin_sekme a1 SinavProgrami /\ etkin_sekme a1 OgrenciListesi /\
    etkin_sekme a1 DersListesi.
Proof.
  split; [vm_compute; reflexivity|].
  apply (veri_sekmeleri_gelir ornek_sistem2 ornek_koordinator ornek_ana0 eq_refl ornek_build).
Defined.

End AnaPencere.
