(* ===== verification/UserWindows.v ===== *)
(** * UserWindows: user administration and login

    [KullaniciYonetimi] of [src/arayuz/kullanici_yonetimi.py] is the
    admin's form for new users; [GirisPenceresi] of
    [src/arayuz/giris_penceresi.py] is the login window.  The form state
    [Form] holds the e-mail and password entries, the role combobox, the
    department combobox with its items [f"{bid} - {ad}"] (line 48) and
    whether it is enabled.  The handlers are [_rol_degisti] (61-67),
    [_temizle] (69-75), a choice in the department combobox, [_ekle]
    (77-115), which checks the entries ([EMAIL_RE], a password of at
    least six characters, a department for a coordinator) before it calls
    [yetkili_kullanici_ekle] of [Accounts], and [_giris_yap] (28-39).

    [bcrypt] is a pair of functions given as section variables: [hashpw p
    salt] with the salt [bcrypt.gensalt()] drew, and [checkpw p h], of
    which only [checkpw p (hashpw p salt) = true] is assumed. *)

From S2P Require Import Prelude Normalize Catalog Accounts Forms.

Module KullaniciPenceresi.
Import Normal Yetki Metin.

Record Form := {
  ky_eposta : string;
  ky_sifre : string;
  ky_rol : string;
  ky_bolum : string;
  ky_bolum_etkin : bool;
  ky_ogeler : list string
}.

(** [_build]: empty entries, the department combobox disabled and filled
    with the departments of [tum_bolumleri_getir]. *)
Definition _build (s : Sistem) : Form :=
  {| ky_eposta := ""; ky_sifre := ""; ky_rol := ""; ky_bolum := ""; ky_bolum_etkin := false;
     ky_ogeler := bolum_ogesi <$> tum_bolumleri_getir s |}.

(** [_rol_degisti] after the role [rol] was chosen. *)
Definition _rol_degisti (f : Form) (rol : string) : Form :=
  if bool_decide (rol = "koordinator")
  then {| ky_eposta := ky_eposta f; ky_sifre := ky_sifre f; ky_rol := rol; ky_bolum := ky_bolum f;
          ky_bolum_etkin := true; ky_ogeler := ky_ogeler f |}
  else {| ky_eposta := ky_eposta f; ky_sifre := ky_sifre f; ky_rol := rol; ky_bolum := "";
          ky_bolum_etkin := false; ky_ogeler := ky_ogeler f |}.

(** Choosing the [i]-th item of the read-only department combobox. *)
Definition bolum_sec (f : Form) (i : nat) : Form :=
  match ky_ogeler f !! i with
  | Some o => if ky_bolum_etkin f
              then {| ky_eposta := ky_eposta f; ky_sifre := ky_sifre f; ky_rol := ky_rol f; ky_bolum := o;
                      ky_bolum_etkin := true; ky_ogeler := ky_ogeler f |}
              else f
  | None => f
  end.

(** [_temizle] *)
Definition _temizle (f : Form) : Form :=
  {| ky_eposta := ""; ky_sifre := ""; ky_rol := ""; ky_bolum := ""; ky_bolum_etkin := false;
     ky_ogeler := ky_ogeler f |}.

Section Bcrypt.
Variable hashpw : string -> string -> string.
Variable checkpw : string -> string -> bool.

(** [_ekle]; [salt] is what [bcrypt.gensalt()] returned. *)
Definition _ekle (s : Sistem) (admin : KullaniciSatiri) (f : Form) (salt : string)
    : Sistem * Form * list Bildirim :=
  let eposta := metin_strip (ky_eposta f) in
  let sifre := metin_strip (ky_sifre f) in
  let rol := metin_strip (ky_rol f) in
  if bool_decide (eposta = "") || bool_decide (sifre = "") || bool_decide (rol = "")
  then (s, f, [HataMesaji "E-posta, şifre ve rol zorunludur."])
  else if negb (EMAIL_RE_match eposta)
  then (s, f, [HataMesaji "Lütfen geçerli bir e-posta adresi giriniz."])
  else if bool_decide (length (metin sifre) < 6)%nat
  then (s, f, [HataMesaji "Şifre en az 6 karakter olmalıdır."])
  else
    let bolum :=
      if bool_decide (rol = "koordinator") then
        let secim := metin_strip (ky_bolum f) in
        if bool_decide (secim = "") then inl "Koordinatör için bölüm seçiniz."
        else match bolum_secimi_id secim with
             | Some b => inr (Some b)
             | None => inl "Bölüm seçimi geçersiz."
             end
      else inr None in
    match bolum with
    | inl m => (s, f, [HataMesaji m])
    | inr bolum_id =>
        match yetkili_kullanici_ekle s admin eposta (hashpw sifre salt) rol bolum_id with
        | Hata e => (s, f, [HataIstisna e])
        | Tamam s' => (s', _temizle f, [Bilgi "Kullanıcı eklendi."])
        end
    end.

(** [_giris_yap]: [inr] the row handed to [giris_sonrasi_cb], [inl] the
    text of the error box. *)
Definition _giris_yap (s : Sistem) (eposta_girdisi sifre_girdisi : string) : string + KullaniciSatiri :=
  let eposta := metin_strip eposta_girdisi in
  let sifre := metin_strip sifre_girdisi in
  match kullanici_bul s eposta with
  | None => inl "Kullanıcı bulunamadı."
  | Some kayit => if checkpw sifre (ku_sifre_hash kayit) then inr kayit else inl "Şifre hatalı."
  end.

End Bcrypt.

(** ** Lemmas *)

Lemma yetkili_ekle_satir s u e h r b s' :
  yetkili_kullanici_ekle s u e h r b ?= s' ->
  (e ∉ ku_eposta <$> kullanicilar s) /\
  exists b', kullanicilar s' = kullanicilar s ++
    [{| ku_id := kullanici_seq s + 1; ku_eposta := e; ku_sifre_hash := h; ku_rol := r; ku_bolum_id := b' |}] /\
    ((r = "admin" /\ b' = None) \/ (r = "koordinator" /\ b' = b /\ b <> None)).
Proof.
  unfold yetkili_kullanici_ekle. intros H.
  case_decide as H1; [discriminate|]. case_decide as H2; [discriminate|]. case_decide as H3.
  - destruct b as [b0|]; [|discriminate]. case_decide; [discriminate|].
    destruct (_bolumde_koordinator_var_mi s b0); [discriminate|].
    apply kullanici_ekle_tamam in H as (Hn & _ & Hs). split; [done|].
    exists (Some b0). split; [done|]. right. split_and!; congruence.
  - apply kullanici_ekle_tamam in H as (Hn & _ & Hs). split; [done|].
    exists None. split; [done|]. left. split; [|done].
    destruct (decide (r = "admin")); [done|]. tauto.
Qed.

Lemma find_son {A} (p : A -> bool) (l : list A) u :
  (forall x, x ∈ l -> p x = false) -> p u = true -> List.find p (l ++ [u]) = Some u.
Proof.
  induction l as [|x l IH]; intros Hl Hu; simpl; [by rewrite Hu|].
  rewrite (Hl x) by (apply elem_of_cons; by left). apply IH; [|done].
  intros y Hy. apply Hl. apply elem_of_cons. by right.
Qed.

Section Kanitlar.
Context (hashpw : string -> string -> string).

(** What a successful [_ekle] did: the checks passed and
    [yetkili_kullanici_ekle] committed. *)
Lemma ekle_basarili s admin f salt s' f' :
  _ekle hashpw s admin f salt = (s', f', [Bilgi "Kullanıcı eklendi."]) ->
  let eposta := metin_strip (ky_eposta f) in
  let sifre := metin_strip (ky_sifre f) in
  let rol := metin_strip (ky_rol f) in
  EMAIL_RE_match eposta = true /\ (6 <= length (metin sifre))%nat /\
  exists bolum_id, yetkili_kullanici_ekle s admin eposta (hashpw sifre salt) rol bolum_id ?= s' /\
    (rol = "koordinator" -> bolum_id = bolum_secimi_id (metin_strip (ky_bolum f))).
Proof.
  unfold _ekle. cbv zeta. intros H.
  destruct (bool_decide _ || _ || _); [by simplify_eq|].
  destruct (EMAIL_RE_match _) eqn:Hre; [|by simplify_eq]. simpl in H.
  case_bool_decide as Hlen; [by simplify_eq|].
  split_and!; [done|lia|].
  case_bool_decide as Hk.
  - case_bool_decide; [by simplify_eq|].
    destruct (bolum_secimi_id _) as [b|] eqn:Hb; [|by simplify_eq].
    destruct (yetkili_kullanici_ekle _ _ _ _ _ _) as [s1|] eqn:E; [|by simplify_eq].
    injection H as -> _. exists (Some b). by split.
  - destruct (yetkili_kullanici_ekle _ _ _ _ _ _) as [s1|] eqn:E; [|by simplify_eq].
    injection H as -> _. exists None. by split.
Qed.

(** ** Properties *)

(** C29 A user the admin form stores is well formed: the stored address is
    the stripped entry and has the shape [EMAIL_RE] requires (a non-empty
    local part, [@], a domain with an inner [.], no [@] or whitespace),
    the stored hash is that of the stripped password, which has at least
    six characters, and the user is an admin without a department or a
    coordinator of the department whose item was chosen. *)
Theorem eklenen_kullanici_bicimi s admin f salt s' f' :
  _ekle hashpw s admin f salt = (s', f', [Bilgi "Kullanıcı eklendi."]) ->
  exists u, kullanicilar s' = kullanicilar s ++ [u] /\
    ku_eposta u = metin_strip (ky_eposta f) /\
    (exists a x y, metin (ku_eposta u) = a ++ 64 :: x ++ 46 :: y /\
       a <> [] /\ x <> [] /\ y <> [] /\ Forall (fun c => c <> 64 /\ bosluk c = false) (a ++ x ++ 46 :: y)) /\
    ku_sifre_hash u = hashpw (metin_strip (ky_sifre f)) salt /\
    (6 <= length (metin (metin_strip (ky_sifre f))))%nat /\
    ((ku_rol u = "admin" /\ ku_bolum_id u = None) \/
     (ku_rol u = "koordinator" /\ ku_bolum_id u = bolum_secimi_id (metin_strip (ky_bolum f)) /\
      ku_bolum_id u <> None)).
Proof.
  intros H. apply ekle_basarili in H as (Hre & Hlen & b & Hy & Hb).
  apply yetkili_ekle_satir in Hy as (_ & b' & Hs & Hr).
  eexists. split_and!; [exact Hs|done| |done|done|].
  - destruct (EMAIL_RE_sekli _ Hre) as (a & x & y & [He|He] & ? & ? & ? & ?).
    + exists a, x, y. split_and!; done.
    + exfalso. apply metin_strip_son in He. discriminate.
  - simpl. destruct Hr as [[Hr1 ->]|(Hr1 & -> & Hn)]; rewrite Hr1; [by left|right].
    rewrite <- (Hb Hr1). done.
Qed.

(** The department the admin picks is the one stored: after choosing
    the role [koordinator] and the [i]-th item of the department combobox
    [_build] filled, a successful [_ekle] stores a coordinator of that
    department, provided the item text has no surrounding blanks (which
    [strip()] would otherwise cut into the [" - "] separator). *)
Theorem secilen_bolum_kaydedilir s admin f i b salt s' f' :
  ky_ogeler f = ky_ogeler (_build s) -> tum_bolumleri_getir s !! i = Some b ->
  metin_strip (bolum_ogesi b) = bolum_ogesi b ->
  _ekle hashpw s admin (bolum_sec (_rol_degisti f "koordinator") i) salt = (s', f', [Bilgi "Kullanıcı eklendi."]) ->
  exists u, kullanicilar s' = kullanicilar s ++ [u] /\ ku_rol u = "koordinator" /\ ku_bolum_id u = Some b.1.
Proof.
  intros Ho Hi Hs H.
  assert (Hf : ky_bolum (bolum_sec (_rol_degisti f "koordinator") i) = bolum_ogesi b /\
               ky_rol (bolum_sec (_rol_degisti f "koordinator") i) = "koordinator").
  { unfold bolum_sec, _rol_degisti. rewrite bool_decide_true by done. simpl.
    rewrite Ho. simpl. rewrite list_lookup_fmap, Hi. done. }
  destruct Hf as [Hb Hr].
  apply ekle_basarili in H as (_ & _ & bid & Hy & Hbid). rewrite Hr in Hy, Hbid.
  assert (Hk : metin_strip "koordinator" = "koordinator") by reflexivity. rewrite Hk in Hy.
  rewrite (Hbid Hk), Hb, Hs, bolum_secimi_ogesi in Hy.
  apply yetkili_ekle_satir in Hy as (_ & b' & Hs' & [[Ha _]|(_ & -> & _)]); [discriminate|].
  eexists. split_and!; [exact Hs'|done|done].
Qed.

End Kanitlar.

Section Giris.
Context (hashpw : string -> string -> string) (checkpw : string -> string -> bool).
Hypothesis checkpw_hashpw : forall p salt, checkpw p (hashpw p salt) = true.

(** C28 A user the admin adds can log in: after a successful [_ekle], the
    login window given the same e-mail and password entries finds the
    new user (the address is new, so [kullanici_bul] cannot return an
    older row) and the password check passes, so [giris_sonrasi_cb]
    receives the new user with the chosen role. *)
Theorem eklenen_giris_yapar s admin f salt s' f' :
  _ekle hashpw s admin f salt = (s', f', [Bilgi "Kullanıcı eklendi."]) ->
  exists u, _giris_yap checkpw s' (ky_eposta f) (ky_sifre f) = inr u /\
    u ∈ kullanicilar s' /\ (u ∉ kullanicilar s) /\
    ku_eposta u = metin_strip (ky_eposta f) /\ ku_rol u = metin_strip (ky_rol f).
Proof.
  intros H. apply (ekle_basarili hashpw) in H as (_ & _ & b & Hy & _).
  apply yetkili_ekle_satir in Hy as (Hn & b' & Hs & _).
  eexists. unfold _giris_yap, kullanici_bul. rewrite Hs, find_son.
  - cbn [ku_sifre_hash]. rewrite checkpw_hashpw. split_and!; [done| | |done|done].
    + apply elem_of_app. right. by apply list_elem_of_singleton.
    + intros Hu. apply Hn. apply list_elem_of_fmap. eexists; split; [|exact Hu]. done.
  - intros x Hx. apply bool_decide_eq_false. intros He. apply Hn.
    apply list_elem_of_fmap. by exists x.
  - by apply bool_decide_eq_true.
Qed.

End Giris.

(** C21: On a fresh installation no login ever succeeds: in every state the
    application can reach from the start-up of [main.py], whatever is
    typed into the login window (the announced [admin@uni.edu] /
    [admin123] included) and whatever [bcrypt.checkpw] answers,
    [_giris_yap] shows [Kullanıcı bulunamadı.], because the default admin
    is never loaded. *)
Theorem ilk_kurulum_giris_yok checkpw h s e p :
  rtc uygulama_adimi (main_baslat {| dosya_var := false; dosya_boyut := 0 |} bos_sistem h).2 s ->
  _giris_yap checkpw s e p = inl "Kullanıcı bulunamadı.".
Proof.
  intros Hr. apply ilk_kurulum_kullanicisiz in Hr as [Hk _].
  unfold _giris_yap, kullanici_bul. by rewrite Hk.
Qed.

(** ** Examples and witnesses *)

Definition ornek_hash (p salt : string) : string := (p +:+ "$") +:+ salt.
Definition ornek_check (p h : string) : bool := ile_baslar (p +:+ "$") h.

Lemma ornek_check_hash p salt : ornek_check p (ornek_hash p salt) = true.
Proof. apply ile_baslar_kendi. Qed.

(** The admin adds [yeni@uni.edu] as coordinator of department 2, the
    fourth item of the combobox. *)
Definition ornek_kyform : Form :=
  bolum_sec (_rol_degisti {| ky_eposta := " yeni@uni.edu "; ky_sifre := "gizli123 "; ky_rol := "";
                             ky_bolum := ""; ky_bolum_etkin := false;
                             ky_ogeler := ky_ogeler (_build ornek_sistem) |} "koordinator") 3.

Definition ornek_ky := _ekle ornek_hash ornek_sistem ornek_admin ornek_kyform "tuz".

Lemma ornek_ky_tamam : ornek_ky = (ornek_ky.1.1, ornek_ky.1.2, [Bilgi "Kullanıcı eklendi."]).
Proof. vm_compute. reflexivity. Qed.

(** Witness of [eklenen_kullanici_bicimi]. *)
Lemma eklenen_kullanici_bicimi_ornek :
  exists u, kullanicilar ornek_ky.1.1 = kullanicilar ornek_sistem ++ [u] /\
    ku_eposta u = "yeni@uni.edu" /\ ku_bolum_id u = Some 2.
Proof.
  destruct (eklenen_kullanici_bicimi ornek_hash ornek_sistem ornek_admin ornek_kyform "tuz"
              ornek_ky.1.1 ornek_ky.1.2 ornek_ky_tamam) as (u & Hs & He & _ & _ & _ & Hr).
  exists u. split_and!; [done|by rewrite He|].
  destruct Hr as [[Ha _]|(_ & -> & _)]; [|reflexivity].
  exfalso. vm_compute in Hs. injection Hs as <-. discriminate.
Defined.

(** Witness of [secilen_bolum_kaydedilir]: the fourth item is department 2. *)
Lemma secilen_bolum_kaydedilir_ornek :
  exists u, kullanicilar ornek_ky.1.1 = kullanicilar ornek_sistem ++ [u] /\
    ku_rol u = "koordinator" /\ ku_bolum_id u = Some 2.
Proof.
  apply (secilen_bolum_kaydedilir ornek_hash ornek_sistem ornek_admin
           {| ky_eposta := " yeni@uni.edu "; ky_sifre := "gizli123 "; ky_rol := "";
              ky_bolum := ""; ky_bolum_etkin := false; ky_ogeler := ky_ogeler (_build ornek_sistem) |}
           3 (2, "Yazılım Mühendisliği") "tuz" ornek_ky.1.1 ornek_ky.1.2);
    [reflexivity|vm_compute; reflexivity|vm_compute; reflexivity|exact ornek_ky_tamam].
Defined.

(** Witness of [eklenen_giris_yapar]: the new coordinator logs in with the
    entries as typed, blanks included. *)
Lemma eklenen_giris_yapar_ornek :
  exists u, _giris_yap ornek_check ornek_ky.1.1 " yeni@uni.edu " "gizli123 " = inr u /\
    ku_rol u = "koordinator".
Proof.
  destruct (eklenen_giris_yapar ornek_hash ornek_check ornek_check_hash ornek_sistem ornek_admin
              ornek_kyform "tuz" ornek_ky.1.1 ornek_ky.1.2 ornek_ky_tamam) as (u & Hg & _ & _ & _ & Hr).
  exists u. split; [exact Hg|]. rewrite Hr. reflexivity.
Defined.

(** Witness of [ilk_kurulum_giris_yok]: right after the first start, the
    announced admin account does not exist. *)
Lemma ilk_kurulum_giris_yok_ornek :
  _giris_yap ornek_check
    (main_baslat {| dosya_var := false; dosya_boyut := 0 |} bos_sistem (ornek_hash "admin123" "tuz")).2
    "admin@uni.edu" "admin123" = inl "Kullanıcı bulunamadı.".
Proof. apply (ilk_kurulum_giris_yok ornek_check (ornek_hash "admin123" "tuz")). apply rtc_refl. Defined.

End KullaniciPenceresi.
