(* ===== verification/ExcelImport.v ===== *)
(** * ExcelImport: the spreadsheet parsers of [src/excel_parser.py]

    [ders_excel_parse] and [ogrenci_excel_parse] read the sheets of a
    workbook through pandas and return the course records, the students
    with their enrolments, and error lines.  This file models:
    - the regular expressions of the importers ([RE_KOD], [RE_OGRNO] of
      [excel_parser.py] lines 45-46, [RE_DERSKODU] of [veri_deposu.py]
      line 12 and the class-heading pattern of [_is_heading_like]) as
      values of [Desen], with [re.match] as [tam_eslesme]: a matcher that
      computes every end position of a match, proved equal to the
      declarative matching relation [eslesir];
    - the text helpers [_norm], [_clean_headingish], [_looks_like_person],
      [_looks_like_course], [_infer_sinif_from_kod] (lines 10-100) and
      their copies in [veri_deposu.py] (lines 14-44);
    - the cells ([Hucre]) and tables ([Tablo]) pandas returns, with
      [_safe_str] and [_as_int_or_none];
    - the header search and row loops of [ders_excel_parse] (lines
      143-276) and the column choice and row loop of
      [ogrenci_excel_parse] (lines 280-361).

    Text is a [pystr] (code points).  [str.lower] is Python's on the
    code points below U+0180 (ASCII, Latin-1, Latin Extended-A: every
    letter of Turkish and English), including [İ] to [i] and U+0307;
    other code points are left as they are.  [\d] and [int] are on ASCII
    digits, [\s] is [str.isspace].  What pandas and openpyxl do
    (opening the file, taking the first row as column labels, the cell
    types) is outside the model: a workbook is given as the tables
    pandas returns.  A cell is empty, a text or an integer; floats,
    dates and booleans are not modelled.  [int(float(txt))] is the
    section variable [float_int], of which only its agreement with
    [int(txt)] on integers below [2 ^ 53] is assumed.  The scoring
    heuristics that choose columns when no header is recognised (lines
    104-139, 219-250, 318-337) average floats with pandas; they are
    section variables, and the rows are then read as the code reads
    them. *)

From S2P Require Import Prelude Normalize Forms.
From stdpp Require Import lexico.

Module Aktarim.
Import Normal Metin.

(** ** Regular expressions *)

(** The patterns of the importers: character classes, concatenation
    and bounded repetition of a class ([c{m,n}], [n = None] for no upper
    bound; [?], [*] and [+] are [{0,1}], [{0,}] and [{1,}]). *)
Inductive Desen :=
  | BosDesen
  | Sinif (p : Z -> bool)
  | Ard (d1 d2 : Desen)
  | Tekrar (m : nat) (n : option nat) (p : Z -> bool).

(** The strings a pattern matches. *)
Inductive eslesir : Desen -> pystr -> Prop :=
  | E_bos : eslesir BosDesen []
  | E_sinif p c : p c = true -> eslesir (Sinif p) [c]
  | E_ard d1 d2 s1 s2 : eslesir d1 s1 -> eslesir d2 s2 -> eslesir (Ard d1 d2) (s1 ++ s2)
  | E_tekrar m n p s : (m <= length s)%nat -> (forall k, n = Some k -> length s <= k)%nat ->
      Forall (fun c => p c = true) s -> eslesir (Tekrar m n p) s.

(** [re.match(r"^d$", s)]: [$] matches at the end of the string or
    before a newline that ends it. *)
Definition py_eslesir (d : Desen) (s : pystr) : Prop :=
  eslesir d s \/ exists t, s = t ++ [10] /\ eslesir d t.

(** The rests of [s] after [c{m,n}] has matched a prefix, every length
    tried, as the backtracking engine tries them. *)
Fixpoint tekrar_kalan (p : Z -> bool) (m : nat) (n : option nat) (s : pystr) : list pystr :=
  (match m with O => [s] | S _ => [] end) ++
  match n, s with
  | Some O, _ => []
  | _, c :: r => if p c then tekrar_kalan p (pred m) (pred <$> n) r else []
  | _, [] => []
  end.

Fixpoint kalanlar (d : Desen) (s : pystr) : list pystr :=
  match d with
  | BosDesen => [s]
  | Sinif p => match s with c :: r => if p c then [r] else [] | [] => [] end
  | Ard d1 d2 => kalanlar d1 s ≫= kalanlar d2
  | Tekrar m n p => tekrar_kalan p m n s
  end.

(** [bool(re.match(r"^d$", s))] *)
Definition tam_eslesme (d : Desen) (s : pystr) : bool :=
  existsb (fun r => bool_decide (r = []) || bool_decide (r = [10])) (kalanlar d s).

(** A literal string. *)
Fixpoint harfler (l : pystr) : Desen :=
  match l with [] => BosDesen | c :: r => Ard (Sinif (Z.eqb c)) (harfler r) end.

(** *** The classes and the patterns *)

Definition ascii_harf (c : Z) : bool := ((65 <=? c) && (c <=? 90)) || ((97 <=? c) && (c <=? 122)).
Definition tire_bolu (c : Z) : bool := (c =? 45) || (c =? 47).
Definition kod_kuyrugu (c : Z) : bool := ascii_harf c || rakam c || (c =? 45).

(** [RE_KOD = r"^[A-Za-z]{1,6}\s*[-/]?\s*\d{1,4}[A-Za-z0-9\-]*$"] *)
Definition RE_KOD : Desen :=
  Ard (Tekrar 1 (Some 6%nat) ascii_harf) (Ard (Tekrar 0 None bosluk) (Ard (Tekrar 0 (Some 1%nat) tire_bolu)
    (Ard (Tekrar 0 None bosluk) (Ard (Tekrar 1 (Some 4%nat) rakam) (Tekrar 0 None kod_kuyrugu))))).

(** [RE_OGRNO = r"^\d{5,}$"] *)
Definition RE_OGRNO : Desen := Tekrar 5 None rakam.

(** [RE_DERSKODU = r"^[A-Za-z]{1,6}[-/]?\d{1,4}[A-Za-z0-9\-]*$"] of
    [veri_deposu.py]: no blanks between the letters and the digits. *)
Definition RE_DERSKODU : Desen :=
  Ard (Tekrar 1 (Some 6%nat) ascii_harf) (Ard (Tekrar 0 (Some 1%nat) tire_bolu)
    (Ard (Tekrar 1 (Some 4%nat) rakam) (Tekrar 0 None kod_kuyrugu))).

(** [r"^\s*\d+\s*\.?\s*sinif\s*$"] of [_is_heading_like]. *)
Definition SINIF_RE : Desen :=
  Ard (Tekrar 0 None bosluk) (Ard (Tekrar 1 None rakam) (Ard (Tekrar 0 None bosluk)
    (Ard (Tekrar 0 (Some 1%nat) (Z.eqb 46)) (Ard (Tekrar 0 None bosluk)
    (Ard (harfler (ascii_str "sinif")) (Tekrar 0 None bosluk)))))).

(** ** Text helpers *)

(** [str.lower()] of one code point (see the header for the range). *)
Definition kucuk_harfler (c : Z) : pystr :=
  if ((65 <=? c) && (c <=? 90)) || ((192 <=? c) && (c <=? 222) && negb (c =? 215)) then [c + 32]
  else if c =? 304 then [105; 775]
  else if (((256 <=? c) && (c <=? 311)) || ((330 <=? c) && (c <=? 375))) && Z.even c then [c + 1]
  else if (((313 <=? c) && (c <=? 327)) || ((377 <=? c) && (c <=? 382))) && Z.odd c then [c + 1]
  else if c =? 376 then [255]
  else [c].

Definition py_lower_tam (s : pystr) : pystr := s ≫= kucuk_harfler.

(** The six [.replace] calls of [_norm]: [ı ş ğ ö ü ç] to [i s g o u c]. *)
Definition sadelestir (c : Z) : Z :=
  if c =? 305 then 105 else if c =? 351 then 115 else if c =? 287 then 103
  else if c =? 246 then 111 else if c =? 252 then 117 else if c =? 231 then 99 else c.

(** [_norm] (lines 10-13) *)
Definition _norm (s : pystr) : pystr := sadelestir <$> py_lower_tam (py_strip s).

(** [[.:;,\-_/]] *)
Definition noktalama (c : Z) : bool :=
  (c =? 46) || (c =? 58) || (c =? 59) || (c =? 44) || (c =? 45) || (c =? 95) || (c =? 47).

(** [re.sub(r"[.:;,\-_/]+", " ", s)]: every maximal run becomes one
    blank; [icinde] tells whether the previous character was in a run. *)
Fixpoint noktalama_sil (icinde : bool) (s : pystr) : pystr :=
  match s with
  | [] => []
  | c :: r =>
      if noktalama c then (if icinde then noktalama_sil true r else 32 :: noktalama_sil true r)
      else c :: noktalama_sil false r
  end.

(** [_clean_headingish] (lines 16-17) *)
Definition _clean_headingish (s : pystr) : pystr := py_strip (_norm (noktalama_sil false s)).

(** [_clean_headingish] of [veri_deposu.py] (lines 19-20): no final [strip]. *)
Definition _clean_headingish_vd (s : pystr) : pystr := _norm (noktalama_sil false s).

Definition HEADING_LIKE : list pystr := ascii_str <$>
  ["ders kodu"; "dersin adi"; "ders adi"; "ders ismi"; "kod"; "ad"; "adi";
   "secimli ders"; "secimlik ders"; "secmeli ders"; "secmelik ders"; "secmeli"; "secimlik";
   "1 sinif"; "2 sinif"; "3 sinif"; "4 sinif"; "1. sinif"; "2. sinif"; "3. sinif"; "4. sinif";
   "ogretim elemani"; "ogretim uyesi"; "ogretim gorevlisi"; "ders"; "bolum"; "sinif"; "dersin adi"].

(** [("prof", "doc", "doç", "dr", "ogr", "ögr", "yard", "yrd", "ars", "arş")] *)
Definition TITLE_TOKENS : list pystr :=
  [ascii_str "prof"; ascii_str "doc"; [100; 111; 231]; ascii_str "dr"; ascii_str "ogr";
   [246; 103; 114]; ascii_str "yard"; ascii_str "yrd"; ascii_str "ars"; [97; 114; 351]].

Fixpoint on_ek (p s : pystr) : bool :=
  match p, s with
  | [], _ => true
  | a :: p', b :: s' => (a =? b) && on_ek p' s'
  | _, _ => false
  end.

(** [t in s] on strings. *)
Fixpoint alt_dizi (t s : pystr) : bool :=
  on_ek t s || match s with [] => false | _ :: s' => alt_dizi t s' end.

(** The truth value of an [Optional[str]]. *)
Definition dolu (s : option pystr) : bool := match s with Some (_ :: _) => true | _ => false end.

Definition unvanli (s : pystr) : bool := existsb (fun tok => alt_dizi tok (_norm s)) TITLE_TOKENS.

(** [_looks_like_person] (lines 59-62) *)
Definition _looks_like_person (s : option pystr) : bool :=
  match s with Some s' => dolu s && unvanli s' | None => false end.

(** [_looks_like_course] (lines 65-70) *)
Definition _looks_like_course (s : option pystr) : bool :=
  match s with
  | Some s' =>
      dolu s && negb (unvanli s') &&
      (5 <=? length (py_strip s'))%nat && (alt_dizi [32] s' || (8 <=? length s')%nat)
  | None => false
  end.

(** The "strong swap" of lines 206-207 and 267-268 (and of
    [dersleri_toplu_yaz]): [ad, hoca = (hoca, ad) if (hoca or ad) else
    (ad, hoca)] when the name looks like a person, or not like a course
    while the instructor looks like one. *)
Definition takas (ad hoca : option pystr) : option pystr * option pystr :=
  if _looks_like_person ad || (negb (_looks_like_course ad) && _looks_like_course hoca)
  then (if dolu hoca || dolu ad then (hoca, ad) else (ad, hoca))
  else (ad, hoca).

(** [_infer_sinif_from_kod] (lines 81-100): the first digit of the code
    if it is 1 to 4. *)
Definition _infer_sinif_from_kod (kod : option pystr) : option Z :=
  if dolu kod then
    match List.filter rakam (default [] kod) with
    | d :: _ => if (1 <=? d - 48) && (d - 48 <=? 4) then Some (d - 48) else None
    | [] => None
    end
  else None.

(** [_is_heading_like] of [veri_deposu.py] (lines 30-32) *)
Definition _is_heading_like (s : option pystr) : bool :=
  match s with
  | Some s' => dolu s && (bool_decide (_clean_headingish_vd s' ∈ HEADING_LIKE) ||
                          tam_eslesme SINIF_RE (_clean_headingish_vd s'))
  | None => false
  end.

(** ** Cells, tables and workbooks *)

(** A cell of a table read with [dtype=object]: [None] or [NaN], a text,
    an integer. *)
Inductive Hucre := HBos | HMetin (s : pystr) | HTam (z : Z).

(** [str(v)] of a non-empty cell. *)
Definition hucre_metni (h : Hucre) : pystr :=
  match h with HBos => [] | HMetin s => s | HTam z => ascii_str (str_of_Z z) end.

(** [_safe_str] (lines 20-29) *)
Definition _safe_str (h : Hucre) : option pystr :=
  match h with
  | HBos => None
  | _ => let s := py_strip (hucre_metni h) in if bool_decide (s = []) then None else Some s
  end.

(** A table: its column labels and its rows, each as wide as the table. *)
Record Tablo := { sutunlar : list pystr; satirlar : list (list Hucre) }.

(** [row.iloc[j]] *)
Definition hucre (row : list Hucre) (j : nat) : Hucre := default HBos (row !! j).

(** [df.empty] *)
Definition bos_tablo (t : Tablo) : bool := bool_decide (satirlar t = [] \/ sutunlar t = []).

(** The error lines: [f"Excel açılamadı: {e}"], [f"Sayfa '{sheet}'
    okunamadı: {e}"] and [f"Sayfa '{sheet}', satır {ridx + 1}: 'ogr_no'
    boş veya bulunamadı."]. *)
Inductive AktarimHatasi :=
  | ExcelAcilamadi (e : pystr)
  | SayfaOkunamadi (sayfa e : pystr)
  | OgrNoBos (sayfa : pystr) (satir : nat).

(** A workbook: [pd.ExcelFile] raised, or its sheets by name, each with
    the message [xls.parse] raised or the table it returned. *)
Inductive Kitap := KitapAcilamadi (e : pystr) | Sayfalar (ss : list (pystr * (pystr + Tablo))).

(** A course record [{"kod", "ad", "hoca", "sinif", "tur"}]. *)
Record DersKaydi := {
  dk_kod : pystr; dk_ad : option pystr; dk_hoca : option pystr; dk_sinif : option Z; dk_tur : option pystr
}.

(** A student record [{"ogr_no", "adsoyad", "sinif"}]. *)
Record OgrenciKaydi := { ok_ogr_no : pystr; ok_adsoyad : option pystr; ok_sinif : option Z }.

(** A dict in insertion order: [yeni] is stored under a new key [k]; the
    value of an existing key is changed by [f] in its place. *)
Fixpoint sozluk_guncelle {V} (k : pystr) (yeni : V) (f : V -> V) (m : list (pystr * V))
    : list (pystr * V) :=
  match m with
  | [] => [(k, yeni)]
  | (k', v') :: m' =>
      if bool_decide (k' = k) then (k', f v') :: m' else (k', v') :: sozluk_guncelle k yeni f m'
  end.

(** [d[k] = v] *)
Definition sozluk_yaz {V} (k : pystr) (v : V) : list (pystr * V) -> list (pystr * V) :=
  sozluk_guncelle k v (fun _ => v).

(** [set.add] *)
Definition kume_ekle {A} `{EqDecision A} (x : A) (l : list A) : list A :=
  if bool_decide (x ∈ l) then l else l ++ [x].

(** [list(dict.fromkeys(l))] *)
Definition tekrarsiz (l : list pystr) : list pystr := fold_left (fun acc x => kume_ekle x acc) l [].

(** Python's order on [(str, str)] tuples. *)
Definition cift_le (x y : pystr * pystr) : bool :=
  match trichotomyT lexico x y with inleft _ => true | inright _ => false end.

(** The column choices of the scoring heuristics. *)
Record OtoSecim := { os_kod : nat; os_ad : nat; os_hoca : option nat; os_sinif : option nat; os_tur : option nat }.

Record Baslik := { b_kod : nat; b_ad : nat; b_hoca : option nat; b_sinif : option nat; b_tur : option nat }.

Definition KOD_KEYS : list pystr := ascii_str <$> ["ders kodu"; "kod"; "kodu"; "course code"; "code"; "ders"].
Definition AD_KEYS : list pystr := ascii_str <$> ["dersin adi"; "ders adi"; "ders ismi"; "ad"; "adi"; "course"; "name"].
Definition HOCA_KEYS : list pystr :=
  ascii_str <$> ["hoca"; "ogretim uyesi"; "instructor"; "ogretim gorevlisi"; "ogretim elemani"].
Definition SINIF_KEYS : list pystr := ascii_str <$> ["sinif"; "grade"; "year"; "sinifi"].
Definition TUR_KEYS : list pystr := ascii_str <$> ["tur"; "type"; "zorunlu"; "zorunlu/secmeli"; "z/s"].
Definition OGRNO_KEYS : list pystr := ascii_str <$>
  ["ogr_no"; "ogrenci no"; "ogrenci_no"; "ogrenci numarasi"; "ogrencino"; "numara"; "student id"; "ogrenci id"].
Definition ADSOYAD_KEYS : list pystr := ascii_str <$> ["adsoyad"; "ad soyad"; "adi soyadi"; "isim"; "name"].
Definition DERS_SUTUN_KEYS : list pystr :=
  ascii_str <$> ["ders_kodu"; "ders kodu"; "kod"; "course code"; "code"; "course"].

Section Ayristirici.

(** [int(float(txt))], [None] where it raises. *)
Variable float_int : pystr -> option Z.
(** Lines 219-250 on the table after its leading empty rows; [None]
    where the loop [continue]s. *)
Variable otomatik_sec : Tablo -> option OtoSecim.
(** Lines 318-329 and 330-337 on the table with cleaned labels: the
    column label the scores choose, if any. *)
Variables ogrno_skor adsoyad_skor sinif_skor : Tablo -> option pystr.
Variable ders_skor : Tablo -> list pystr.

(** [_as_int_or_none] (lines 32-41) *)
Definition _as_int_or_none (h : Hucre) : option Z :=
  match h with
  | HBos => None
  | _ => let txt := py_strip (hucre_metni h) in if bool_decide (txt = []) then None else float_int txt
  end.

(** [_first_nonempty_row_idx] (lines 73-77) *)
Definition _first_nonempty_row_idx (rows : list (list Hucre)) : nat :=
  match list_find (fun row => existsb (fun v => dolu (_safe_str v)) row = true) (take 60 rows) with
  | Some (i, _) => i
  | None => 0%nat
  end.

(** *** [ders_excel_parse] *)

(** [_find(keys, name)] (lines 177-181): the first column whose cleaned
    heading is a key. *)
Definition _find (keys norm : list pystr) : option nat := fst <$> list_find (fun v => v ∈ keys) norm.

(** Lines 173-189 on row [hi]: the column map when the row names a code
    and a name column. *)
Definition baslik_satiri (row : list Hucre) : option Baslik :=
  let norm := (fun v => _clean_headingish (default [] (_safe_str v))) <$> row in
  match _find KOD_KEYS norm, _find AD_KEYS norm with
  | Some jk, Some ja =>
      Some {| b_kod := jk; b_ad := ja; b_hoca := _find HOCA_KEYS norm;
              b_sinif := _find SINIF_KEYS norm; b_tur := _find TUR_KEYS norm |}
  | _, _ => None
  end.

Fixpoint baslik_ara_i (i : nat) (rows : list (list Hucre)) : option (nat * Baslik) :=
  match rows with
  | [] => None
  | row :: rest => match baslik_satiri row with Some b => Some (i, b) | None => baslik_ara_i (S i) rest end
  end.

(** [for hi in range(min(len(df), 25))] *)
Definition baslik_ara (rows : list (list Hucre)) : option (nat * Baslik) := baslik_ara_i 0 (take 25 rows).

(** [x and _clean_headingish(x) in HEADING_LIKE] *)
Definition basliksi (s : option pystr) : bool :=
  match s with Some s' => dolu s && bool_decide (_clean_headingish s' ∈ HEADING_LIKE) | None => false end.

(** Lines 205-213 (and 266-274): swap, class from the code, store. *)
Definition ders_kaydet (m : list (pystr * DersKaydi)) (kod : pystr) (ad hoca : option pystr)
    (sinif : option Z) (tur : option pystr) : list (pystr * DersKaydi) :=
  let '(ad', hoca') := takas ad hoca in
  let sinif' := match sinif with None => _infer_sinif_from_kod (Some kod) | Some _ => sinif end in
  sozluk_yaz kod {| dk_kod := kod; dk_ad := ad'; dk_hoca := hoca'; dk_sinif := sinif'; dk_tur := tur |} m.

(** One row under a recognised header (lines 192-213). *)
Definition baslikli_satir (b : Baslik) (m : list (pystr * DersKaydi)) (row : list Hucre)
    : list (pystr * DersKaydi) :=
  let kod := _safe_str (hucre row (b_kod b)) in
  let ad := _safe_str (hucre row (b_ad b)) in
  let hoca := j ← b_hoca b; _safe_str (hucre row j) in
  let sinif := j ← b_sinif b; _as_int_or_none (hucre row j) in
  let tur := j ← b_tur b; _safe_str (hucre row j) in
  if basliksi kod || basliksi ad || basliksi hoca then m else
  match kod, ad with
  | Some k, Some _ => if tam_eslesme RE_KOD k then ders_kaydet m k ad hoca sinif tur else m
  | _, _ => m
  end.

(** One row with the chosen columns (lines 252-274). *)
Definition oto_satir (o : OtoSecim) (m : list (pystr * DersKaydi)) (row : list Hucre)
    : list (pystr * DersKaydi) :=
  let kod := _safe_str (hucre row (os_kod o)) in
  let ad := _safe_str (hucre row (os_ad o)) in
  if basliksi kod || basliksi ad then m else
  match kod, ad with
  | Some k, Some _ =>
      if tam_eslesme RE_KOD k then
        let hoca0 := j ← os_hoca o; _safe_str (hucre row j) in
        let hoca := if basliksi hoca0 then None else hoca0 in
        let sinif := j ← os_sinif o; _as_int_or_none (hucre row j) in
        let tur := j ← os_tur o; _safe_str (hucre row j) in
        ders_kaydet m k ad hoca sinif tur
      else m
  | _, _ => m
  end.

(** One sheet (lines 158-274). *)
Definition ders_sayfasi (acc : list (pystr * DersKaydi) * list AktarimHatasi)
    (sayfa : pystr * (pystr + Tablo)) : list (pystr * DersKaydi) * list AktarimHatasi :=
  let '(m, hatalar) := acc in
  match sayfa.2 with
  | inl e => (m, hatalar ++ [SayfaOkunamadi sayfa.1 e])
  | inr t =>
      if bos_tablo t then (m, hatalar) else
      let rows := drop (_first_nonempty_row_idx (satirlar t)) (satirlar t) in
      match baslik_ara rows with
      | Some (hi, b) => (fold_left (baslikli_satir b) (drop (S hi) rows) m, hatalar)
      | None =>
          match otomatik_sec {| sutunlar := sutunlar t; satirlar := rows |} with
          | Some o => (fold_left (oto_satir o) rows m, hatalar)
          | None => (m, hatalar)
          end
      end
  end.

(** [ders_excel_parse] (lines 143-276) *)
Definition ders_excel_parse (k : Kitap) : list DersKaydi * list AktarimHatasi :=
  match k with
  | KitapAcilamadi e => ([], [ExcelAcilamadi e])
  | Sayfalar ss => let '(m, _) := fold_left ders_sayfasi ss ([], []) in (snd <$> m, [])
  end.

(** *** [ogrenci_excel_parse] *)

(** [next((c for c in df.columns if c in keys), None)] *)
Definition ilk_anahtar (keys cols : list pystr) : option pystr := snd <$> list_find (fun c => c ∈ keys) cols.

(** [row.get(c)]: the cell of the column labelled [c]. *)
Definition sutun_hucresi (cols : list pystr) (row : list Hucre) (c : pystr) : Hucre :=
  match list_find (fun c' => c' = c) cols with Some (j, _) => hucre row j | None => HBos end.

(** A column label used only when it is truthy. *)
Definition etiket (c : option pystr) : option pystr :=
  match c with Some (_ :: _) => c | _ => None end.

(** Lines 348-353: a new student, or the non-[None] fields of a known one. *)
Definition ogr_birlestir (key : pystr) (adsoyad : option pystr) (sinif : option Z)
    : list (pystr * OgrenciKaydi) -> list (pystr * OgrenciKaydi) :=
  sozluk_guncelle key {| ok_ogr_no := key; ok_adsoyad := adsoyad; ok_sinif := sinif |}
    (fun o => {| ok_ogr_no := ok_ogr_no o;
                 ok_adsoyad := match adsoyad with Some _ => adsoyad | None => ok_adsoyad o end;
                 ok_sinif := match sinif with Some _ => sinif | None => ok_sinif o end |}).

Record OgrDurum := {
  od_ogrenciler : list (pystr * OgrenciKaydi);
  od_kayitlar : list (pystr * pystr);
  od_hatalar : list AktarimHatasi
}.

(** Lines 355-359: the enrolments of one row. *)
Definition kayit_ekle (cols : list pystr) (row : list Hucre) (key : pystr)
    (ks : list (pystr * pystr)) (c : pystr) : list (pystr * pystr) :=
  match _safe_str (sutun_hucresi cols row c) with
  | Some v => if tam_eslesme RE_KOD v then kume_ekle (key, v) ks else ks
  | None => ks
  end.

(** One row (lines 340-359). *)
Definition ogr_satiri (sayfa : pystr) (cols : list pystr) (c_no c_ad c_sinif : option pystr)
    (ders_cols : list pystr) (st : OgrDurum) (ir : nat * list Hucre) : OgrDurum :=
  let '(ridx, row) := ir in
  let ogr_no := c ← etiket c_no; _safe_str (sutun_hucresi cols row c) in
  let adsoyad := c ← etiket c_ad; _safe_str (sutun_hucresi cols row c) in
  let sinif := c ← etiket c_sinif; _as_int_or_none (sutun_hucresi cols row c) in
  match ogr_no with
  | None => {| od_ogrenciler := od_ogrenciler st; od_kayitlar := od_kayitlar st;
               od_hatalar := od_hatalar st ++ [OgrNoBos sayfa (S ridx)] |}
  | Some key =>
      {| od_ogrenciler := ogr_birlestir key adsoyad sinif (od_ogrenciler st);
         od_kayitlar := fold_left (kayit_ekle cols row key) ders_cols (od_kayitlar st);
         od_hatalar := od_hatalar st |}
  end.

(** One sheet (lines 290-359). *)
Definition ogr_sayfasi (st : OgrDurum) (sayfa : pystr * (pystr + Tablo)) : OgrDurum :=
  match sayfa.2 with
  | inl e => {| od_ogrenciler := od_ogrenciler st; od_kayitlar := od_kayitlar st;
                od_hatalar := od_hatalar st ++ [SayfaOkunamadi sayfa.1 e] |}
  | inr t =>
      if bos_tablo t then st else
      let rows := drop (_first_nonempty_row_idx (satirlar t)) (satirlar t) in
      let cols := _clean_headingish <$> sutunlar t in
      let t' := {| sutunlar := cols; satirlar := rows |} in
      let ders_cols := tekrarsiz (filter (fun c => on_ek (ascii_str "ders") c = true) cols ++
                                  filter (fun c => c ∈ DERS_SUTUN_KEYS) cols) in
      let c_no := match ilk_anahtar OGRNO_KEYS cols with Some c => Some c | None => ogrno_skor t' end in
      let c_ad := match ilk_anahtar ADSOYAD_KEYS cols with Some c => Some c | None => adsoyad_skor t' end in
      let c_sinif := match ilk_anahtar SINIF_KEYS cols with Some c => Some c | None => sinif_skor t' end in
      let ders_cols' := match ders_cols with [] => ders_skor t' | _ => ders_cols end in
      fold_left (ogr_satiri sayfa.1 cols c_no c_ad c_sinif ders_cols') (zip (seq 0 (length rows)) rows) st
  end.

(** [ogrenci_excel_parse] (lines 280-361) *)
Definition ogrenci_excel_parse (k : Kitap) : list OgrenciKaydi * list (pystr * pystr) * list AktarimHatasi :=
  match k with
  | KitapAcilamadi e => ([], [], [ExcelAcilamadi e])
  | Sayfalar ss =>
      let st := fold_left ogr_sayfasi ss {| od_ogrenciler := []; od_kayitlar := []; od_hatalar := [] |} in
      (snd <$> od_ogrenciler st, sirala cift_le (od_kayitlar st), od_hatalar st)
  end.

End Ayristirici.

(** ** The regular-expression engine *)

Lemma tekrar_kalan_spec p m n s r :
  r ∈ tekrar_kalan p m n s <-> exists t, s = t ++ r /\ (m <= length t)%nat /\
    (forall k, n = Some k -> length t <= k)%nat /\ Forall (fun c => p c = true) t.
Proof.
  revert m n. induction s as [|c s IH]; intros m n; simpl.
  - split.
    + intros Hr. assert (m = O /\ r = []) as [-> ->].
      { destruct m, n as [[|]|]; simpl in Hr; set_solver. }
      exists []. split_and!; [done|lia|intros; simpl; lia|constructor].
    + intros ([|x t] & Ht & Hm & _ & _); [|discriminate]. simpl in *. subst.
      destruct m; [|lia]. destruct n as [[|]|]; set_solver.
  - rewrite elem_of_app. split.
    + intros [Hr|Hr].
      * destruct m; [|set_solver]. apply list_elem_of_singleton in Hr as ->.
        exists []. split_and!; [done|lia|intros; simpl; lia|constructor].
      * destruct n as [[|k]|]; [set_solver| |]; destruct (p c) eqn:Hp; try set_solver;
          apply IH in Hr as (t & -> & Hm & Hn & Ht); exists (c :: t);
          (split_and!; [done|simpl; lia| |by constructor]); simpl;
          intros k' [= <-]; specialize (Hn _ eq_refl); lia.
    + intros ([|x t] & Ht & Hm & Hn & Hf).
      * left. simpl in Ht. subst. destruct m; [set_solver|simpl in Hm; lia].
      * right. simpl in Ht. injection Ht as <- ->. inversion Hf as [|? ? Hp Ht]; subst.
        assert (Hk : n <> Some O) by (intros ->; specialize (Hn _ eq_refl); simpl in Hn; lia).
        destruct n as [[|k]|]; [done| |]; rewrite Hp; apply IH; exists t;
          (split_and!; [done|simpl in Hm; lia| |done]);
          [intros k' [= <-]; specialize (Hn _ eq_refl); simpl in Hn; lia|done].
Qed.

Lemma kalanlar_spec d s r : r ∈ kalanlar d s <-> exists t, s = t ++ r /\ eslesir d t.
Proof.
  revert s r. induction d as [|p|d1 IH1 d2 IH2|m n p]; intros s r; simpl.
  - rewrite list_elem_of_singleton. split; [intros ->; exists []; split; [done|constructor]|].
    intros (t & -> & Ht). by inversion Ht.
  - split.
    + destruct s as [|c s]; [set_solver|]. destruct (p c) eqn:Hp; [|set_solver].
      intros ->%list_elem_of_singleton. exists [c]. split; [done|by constructor].
    + intros (t & -> & Ht). inversion Ht as [|? c Hc| |]; subst. simpl. rewrite Hc. set_solver.
  - rewrite list_elem_of_bind. split.
    + intros (m & Hr & Hm). apply IH2 in Hr as (t2 & -> & H2). apply IH1 in Hm as (t1 & -> & H1).
      exists (t1 ++ t2). split; [by rewrite app_assoc|by constructor].
    + intros (t & -> & H). inversion H; subst. exists (s2 ++ r). split.
      * apply IH2. eauto.
      * apply IH1. exists s1. split; [by rewrite app_assoc|done].
  - rewrite tekrar_kalan_spec. split.
    + intros (t & -> & H1 & H2 & H3). exists t. split; [done|by constructor].
    + intros (t & -> & H). inversion H; subst. eauto.
Qed.

(** ** Theorems *)

(** The matcher is [re.match]: [tam_eslesme d s] holds exactly when [s],
    or [s] without one final newline, is matched by the pattern. *)
Theorem tam_eslesme_dogru d s : tam_eslesme d s = true <-> py_eslesir d s.
Proof.
  unfold tam_eslesme, py_eslesir. rewrite existsb_exists. split.
  - intros (r & Hr%list_elem_of_In & Hb). apply kalanlar_spec in Hr as (t & -> & Ht).
    apply orb_true_iff in Hb as [Hb|Hb]; apply bool_decide_eq_true in Hb as ->;
      [left; by rewrite app_nil_r|right; eauto].
  - intros [H|(t & -> & H)].
    + exists []. split; [|done]. apply list_elem_of_In, kalanlar_spec. exists s. by rewrite app_nil_r.
    + exists [10]. split; [|done]. apply list_elem_of_In, kalanlar_spec. eauto.
Qed.

(** The character classes of a pattern. *)
Fixpoint siniflar (d : Desen) : list (Z -> bool) :=
  match d with
  | BosDesen => []
  | Sinif p => [p]
  | Ard d1 d2 => siniflar d1 ++ siniflar d2
  | Tekrar _ _ p => [p]
  end.

(** Every character of a match is in a class of the pattern. *)
Lemma eslesir_siniflar d t : eslesir d t -> Forall (fun c => Exists (fun p => p c = true) (siniflar d)) t.
Proof.
  induction 1 as [|p c Hc|d1 d2 s1 s2 _ IH1 _ IH2|m n p s _ _ Hs]; simpl.
  - constructor.
  - repeat constructor. done.
  - apply Forall_app. split; (eapply Forall_impl; [done|]); intros c Hc; apply Exists_app; auto.
  - eapply Forall_impl; [exact Hs|]. intros c Hc. by constructor.
Qed.

(** [RE_DERSKODU] matches no whitespace but a final newline. *)
Lemma derskodu_bosluksuz t : eslesir RE_DERSKODU t -> Forall (fun c => bosluk c = false) t.
Proof.
  intros H%eslesir_siniflar. eapply Forall_impl; [exact H|]. intros c Hc. simpl in Hc.
  destruct (bosluk c) eqn:E; [exfalso|done].
  repeat (apply Exists_cons in Hc as [Hc|Hc]); [..|by apply Exists_nil in Hc];
    unfold kod_kuyrugu, ascii_harf, tire_bolu, rakam, bosluk in *;
    repeat match goal with H : (_ || _) = true |- _ => apply orb_true_iff in H as [H|H] end;
    bool_prop; repeat match goal with H : (_ =? _) = true |- _ => apply Z.eqb_eq in H end; lia.
Qed.

(** [RE_KOD] matches one to six letters, blanks, one to four digits. *)
Lemma kod_bosluklu_eslesir l w d :
  (1 <= length l <= 6)%nat -> Forall (fun c => ascii_harf c = true) l -> Forall (fun c => bosluk c = true) w ->
  (1 <= length d <= 4)%nat -> Forall (fun c => rakam c = true) d -> tam_eslesme RE_KOD (l ++ w ++ d) = true.
Proof.
  intros Hl Hlf Hw Hd Hdf. apply tam_eslesme_dogru. left. unfold RE_KOD.
  replace (l ++ w ++ d) with (l ++ (w ++ ([] ++ ([] ++ (d ++ []))))) by (by rewrite app_nil_r).
  apply E_ard; [apply E_tekrar; [lia|intros ? [= <-]; lia|done]|].
  apply E_ard; [apply E_tekrar; [lia|by intros ? [=]|done]|].
  apply E_ard; [apply E_tekrar; [simpl; lia|intros ? [= <-]; simpl; lia|constructor]|].
  apply E_ard; [apply E_tekrar; [simpl; lia|by intros ? [=]|constructor]|].
  apply E_ard; [apply E_tekrar; [lia|intros ? [= <-]; lia|done]|].
  apply E_tekrar; [simpl; lia|by intros ? [=]|constructor].
Qed.




(** ** Text helpers *)

Lemma noktalama_dogru c :
  noktalama c = true -> c = 46 \/ c = 58 \/ c = 59 \/ c = 44 \/ c = 45 \/ c = 95 \/ c = 47.
Proof. unfold noktalama. intros H. repeat (apply orb_true_iff in H as [H|H]); apply Z.eqb_eq in H; lia. Qed.

Lemma noktalama_sil_temiz b s : Forall (fun c => noktalama c = false) (noktalama_sil b s).
Proof.
  revert b. induction s as [|c s IH]; intros b; simpl; [constructor|].
  destruct (noktalama c) eqn:E; [destruct b; [apply IH|by constructor]|by constructor].
Qed.

Lemma kucuk_harfler_temiz c :
  noktalama c = false -> Forall (fun x => noktalama x = false) (kucuk_harfler c).
Proof.
  intros Hc. unfold kucuk_harfler.
  repeat case_match; bool_prop;
    repeat match goal with H : (_ || _) = true |- _ => apply orb_true_iff in H as [H|H]; bool_prop end;
    repeat constructor; try done;
    match goal with |- noktalama ?x = false =>
      destruct (noktalama x) eqn:E; [apply noktalama_dogru in E; lia|done] end.
Qed.

Lemma sadelestir_temiz c : noktalama c = false -> noktalama (sadelestir c) = false.
Proof. unfold sadelestir. intros Hc. by repeat case_match. Qed.

(** A cleaned heading has none of [. : ; , - _ /]: they became blanks. *)
Lemma clean_temiz s : Forall (fun c => noktalama c = false) (_clean_headingish s).
Proof.
  unfold _clean_headingish, _norm, py_lower_tam. apply py_strip_Forall, Forall_fmap.
  apply (Forall_impl (fun c => noktalama c = false)); [|intros c Hc; by apply sadelestir_temiz].
  apply Forall_bind. eapply Forall_impl; [apply py_strip_Forall, noktalama_sil_temiz|].
  intros c Hc. by apply kucuk_harfler_temiz.
Qed.

Lemma filter_ilk (p : Z -> bool) l c r :
  List.filter p l = c :: r ->
  exists pre post, l = pre ++ c :: post /\ Forall (fun x => p x = false) pre /\ p c = true.
Proof.
  induction l as [|x l IH]; simpl; [discriminate|]. destruct (p x) eqn:Ex.
  - intros [= <- _]. exists [], l. split_and!; [done|constructor|done].
  - intros H. destruct (IH H) as (pre & post & -> & Hpre & Hc).
    exists (x :: pre), post. split_and!; [done|by constructor|done].
Qed.

(** ** Dicts and sets *)

Lemma sozluk_guncelle_anahtarlar {V} k (yeni : V) f m :
  fst <$> sozluk_guncelle k yeni f m =
    if bool_decide (k ∈ fst <$> m) then fst <$> m else (fst <$> m) ++ [k].
Proof.
  induction m as [|[k' v'] m IH]; [done|]. cbn [sozluk_guncelle]. rewrite !fmap_cons. simpl fst.
  destruct (decide (k' = k)) as [->|Hk].
  - rewrite !bool_decide_true by set_solver. by rewrite fmap_cons.
  - rewrite bool_decide_false by done. rewrite fmap_cons, IH. simpl fst.
    destruct (decide (k ∈ m.*1));
      [rewrite !bool_decide_true by set_solver|rewrite !bool_decide_false by set_solver]; done.
Qed.

Lemma sozluk_guncelle_NoDup {V} k (yeni : V) f m :
  NoDup (fst <$> m) -> NoDup (fst <$> sozluk_guncelle k yeni f m).
Proof.
  rewrite sozluk_guncelle_anahtarlar. case_bool_decide; [done|]. intros Hm.
  apply NoDup_app. split_and!; [done| |apply NoDup_singleton]. set_solver.
Qed.

Lemma sozluk_guncelle_icerir {V} k (yeni : V) f m k' :
  k' ∈ fst <$> m \/ k' = k -> k' ∈ fst <$> sozluk_guncelle k yeni f m.
Proof. rewrite sozluk_guncelle_anahtarlar. case_bool_decide; set_solver. Qed.

Lemma sozluk_guncelle_Forall {V} (P : pystr * V -> Prop) k (yeni : V) f m :
  Forall P m -> P (k, yeni) -> (forall v, P (k, v) -> P (k, f v)) ->
  Forall P (sozluk_guncelle k yeni f m).
Proof.
  induction 1 as [|[k' v'] m Hkv Hm IH]; intros Hy Hf; simpl; [by constructor|].
  case_bool_decide; subst; constructor; auto.
Qed.

Lemma kume_ekle_NoDup {A} `{EqDecision A} (x : A) l : NoDup l -> NoDup (kume_ekle x l).
Proof.
  unfold kume_ekle. case_bool_decide; [done|]. intros Hl.
  apply NoDup_app. split_and!; [done| |apply NoDup_singleton]. set_solver.
Qed.

Lemma kume_ekle_Forall {A} `{EqDecision A} (P : A -> Prop) x l :
  Forall P l -> P x -> Forall P (kume_ekle x l).
Proof. unfold kume_ekle. case_bool_decide; [done|]. intros. apply Forall_app. by split; [|constructor]. Qed.

(** [cift_le] is Python's [<=] on tuples of strings. *)
Lemma cift_le_spec x y : cift_le x y = true <-> lexico x y \/ x = y.
Proof.
  unfold cift_le. destruct (trichotomyT lexico x y) as [[H|H]|H].
  - split; [by left|done].
  - split; [by right|done].
  - split; [discriminate|]. intros [H'| ->]; exfalso.
    + apply (irreflexivity lexico x). by transitivity y.
    + by apply (irreflexivity lexico y).
Qed.

Lemma cift_le_total x y : cift_le x y = true \/ cift_le y x = true.
Proof.
  rewrite !cift_le_spec. destruct (trichotomyT lexico x y) as [[H|H]|H]; tauto.
Qed.

Lemma cift_le_trans x y z : cift_le x y = true -> cift_le y z = true -> cift_le x z = true.
Proof.
  rewrite !cift_le_spec. intros [H1| ->] [H2| ->]; [left; by transitivity y|by left|by left|by right].
Qed.

Lemma anahtar_fmap {V} (g : V -> pystr) (m : list (pystr * V)) :
  Forall (fun kv => kv.1 = g kv.2) m -> g <$> (snd <$> m) = fst <$> m.
Proof.
  intros Hf. rewrite <- list_fmap_compose. apply list_fmap_ext. intros i kv Hi.
  by apply (Forall_lookup_1 _ _ _ _ Hf) in Hi.
Qed.

Lemma sozluk_yaz_deger {V} k (v : V) m : (k, v) ∈ sozluk_yaz k v m.
Proof.
  induction m as [|[k' v'] m IH]; simpl; [set_solver|]. unfold sozluk_yaz in *. simpl.
  case_bool_decide; subst; set_solver.
Qed.

Lemma safe_str_dolu h s : _safe_str h = Some s -> s <> [].
Proof. destruct h; simpl; try case_bool_decide; intros; simplify_eq; done. Qed.

Section Kanitlar.
Context (float_int : pystr -> option Z) (otomatik_sec : Tablo -> option OtoSecim).
Context (ogrno_skor adsoyad_skor sinif_skor : Tablo -> option pystr) (ders_skor : Tablo -> list pystr).

(** *** The course records *)

(** The dict of [ders_excel_parse]: its keys are distinct and are the
    codes of their records, which match [RE_KOD] and are no heading. *)
Definition ders_inv (m : list (pystr * DersKaydi)) : Prop :=
  NoDup (fst <$> m) /\
  Forall (fun kv => kv.1 = dk_kod kv.2 /\ tam_eslesme RE_KOD kv.1 = true /\ basliksi (Some kv.1) = false) m.

Lemma ders_kaydet_inv m kod ad hoca sinif tur :
  ders_inv m -> tam_eslesme RE_KOD kod = true -> basliksi (Some kod) = false ->
  ders_inv (ders_kaydet m kod ad hoca sinif tur).
Proof.
  intros [Hn Hf] Hk Hb. unfold ders_kaydet. destruct (takas ad hoca) as [ad' hoca'].
  split; [by apply sozluk_guncelle_NoDup|]. by apply sozluk_guncelle_Forall.
Qed.

Lemma baslikli_satir_inv b m row : ders_inv m -> ders_inv (baslikli_satir float_int b m row).
Proof.
  intros Hm. unfold baslikli_satir.
  destruct (basliksi _ || _ || _) eqn:E; [done|]. bool_prop.
  destruct (_safe_str (hucre row (b_kod b))) as [k|], (_safe_str (hucre row (b_ad b))); try done.
  destruct (tam_eslesme RE_KOD k) eqn:Hk; [by apply ders_kaydet_inv|done].
Qed.

Lemma oto_satir_inv o m row : ders_inv m -> ders_inv (oto_satir float_int o m row).
Proof.
  intros Hm. unfold oto_satir.
  destruct (basliksi _ || _) eqn:E; [done|]. bool_prop.
  destruct (_safe_str (hucre row (os_kod o))) as [k|], (_safe_str (hucre row (os_ad o))); try done.
  destruct (tam_eslesme RE_KOD k) eqn:Hk; [by apply ders_kaydet_inv|done].
Qed.

Lemma ders_sayfasi_inv acc x : ders_inv acc.1 -> ders_inv (ders_sayfasi float_int otomatik_sec acc x).1.
Proof.
  destruct acc as [m h]. intros Hm. unfold ders_sayfasi. destruct x.2 as [e|t]; [done|].
  destruct (bos_tablo t); [done|].
  destruct (baslik_ara _) as [[hi b]|]; [|destruct (otomatik_sec _)]; simpl; try done;
    apply fold_left_inv; auto using baslikli_satir_inv, oto_satir_inv.
Qed.

(** Every course [ders_excel_parse] returns has a code that matches
    [RE_KOD] and is no heading, and no code is returned twice. *)
Theorem ders_kayitlari_gecerli k :
  NoDup (dk_kod <$> (ders_excel_parse float_int otomatik_sec k).1) /\
  Forall (fun d => tam_eslesme RE_KOD (dk_kod d) = true /\ basliksi (Some (dk_kod d)) = false)
    (ders_excel_parse float_int otomatik_sec k).1.
Proof.
  destruct k as [e|ss]; [simpl; split; constructor|]. unfold ders_excel_parse.
  destruct (fold_left _ ss ([], [])) as [m h] eqn:E.
  assert (Hm : ders_inv m).
  { change m with (m, h).1. rewrite <- E. apply fold_left_inv; [intros; by apply ders_sayfasi_inv|].
    split; constructor. }
  destruct Hm as [Hn Hf]. simpl.
  rewrite anahtar_fmap by (eapply Forall_impl; [exact Hf|]; by intros ? [? _]). split; [done|]. apply Forall_fmap. eapply Forall_impl; [exact Hf|].
  intros [k v] (Hkv & H1 & H2). simpl in *. subst. done.
Qed.

Lemma ders_sayfasi_hatalar acc x : acc.2 `prefix_of` (ders_sayfasi float_int otomatik_sec acc x).2.
Proof.
  destruct acc as [m h]. unfold ders_sayfasi. destruct x.2; simpl; [by eexists|].
  repeat case_match; simpl; done.
Qed.

(** A sheet that cannot be read is recorded by the loop (line 161),
    but [ders_excel_parse] returns no error (line 276): the error list
    it returns is always empty once the file opens. *)
Theorem sayfa_hatasi_bildirilmez ss sayfa e :
  (sayfa, inl e) ∈ ss ->
  SayfaOkunamadi sayfa e ∈ (fold_left (ders_sayfasi float_int otomatik_sec) ss ([], [])).2 /\
  (ders_excel_parse float_int otomatik_sec (Sayfalar ss)).2 = [].
Proof.
  intros (l1 & l2 & ->)%list_elem_of_split. split.
  - rewrite fold_left_app. simpl. set (acc := fold_left _ l1 _).
    assert (Hin : SayfaOkunamadi sayfa e ∈ (ders_sayfasi float_int otomatik_sec acc (sayfa, inl e)).2).
    { destruct acc. simpl. set_solver. }
    revert Hin. generalize (ders_sayfasi float_int otomatik_sec acc (sayfa, inl e)). intros a Ha.
    apply (fold_left_inv (fun a => SayfaOkunamadi sayfa e ∈ a.2)); [|done].
    intros a' x _ H. destruct (ders_sayfasi_hatalar a' x) as [r ->]. set_solver.
  - unfold ders_excel_parse. by destruct (fold_left _ _ _).
Qed.

(** *** The students and their enrolments *)

Definition ogr_inv (st : OgrDurum) : Prop :=
  NoDup (fst <$> od_ogrenciler st) /\ Forall (fun kv => kv.1 = ok_ogr_no kv.2) (od_ogrenciler st) /\
  NoDup (od_kayitlar st) /\
  Forall (fun p => p.1 ∈ fst <$> od_ogrenciler st /\ tam_eslesme RE_KOD p.2 = true) (od_kayitlar st).

Lemma kayit_ekle_inv (P : pystr * pystr -> Prop) cols row key ks c :
  NoDup ks -> Forall P ks -> (forall v, tam_eslesme RE_KOD v = true -> P (key, v)) ->
  NoDup (kayit_ekle cols row key ks c) /\ Forall P (kayit_ekle cols row key ks c).
Proof.
  intros Hn Hf HP. unfold kayit_ekle. case_match; [|done]. case_match eqn:Hr; [|done].
  split; [by apply kume_ekle_NoDup|apply kume_ekle_Forall; auto].
Qed.

Lemma ogr_satiri_inv sayfa cols c_no c_ad c_sinif ders_cols st ir :
  ogr_inv st -> ogr_inv (ogr_satiri float_int sayfa cols c_no c_ad c_sinif ders_cols st ir).
Proof.
  destruct ir as [ridx row]. intros (Hn & Hk & Hkn & Hkf). unfold ogr_satiri.
  destruct (c ← etiket c_no; _) as [key|]; [|done].
  set (ogrs := ogr_birlestir key _ _ (od_ogrenciler st)).
  assert (Hin : forall k, k ∈ fst <$> od_ogrenciler st \/ k = key -> k ∈ fst <$> ogrs).
  { intros. by apply sozluk_guncelle_icerir. }
  split_and!; simpl.
  - by apply sozluk_guncelle_NoDup.
  - apply sozluk_guncelle_Forall; [done|done|]. intros [] ?. done.
  - apply (fold_left_inv (fun ks => NoDup ks /\ Forall (fun p => p.1 ∈ fst <$> ogrs /\
                                      tam_eslesme RE_KOD p.2 = true) ks)); [|split].
    + intros ks c _ [Hn' Hf']. apply kayit_ekle_inv; [done|done|]. intros v Hv. split; [apply Hin; by right|done].
    + done.
    + eapply Forall_impl; [exact Hkf|]. intros p [Hp Hr]. split; [apply Hin; by left|done].
  - apply (fold_left_inv (fun ks => NoDup ks /\ Forall (fun p => p.1 ∈ fst <$> ogrs /\
                                      tam_eslesme RE_KOD p.2 = true) ks)); [|split].
    + intros ks c _ [Hn' Hf']. apply kayit_ekle_inv; [done|done|]. intros v Hv. split; [apply Hin; by right|done].
    + done.
    + eapply Forall_impl; [exact Hkf|]. intros p [Hp Hr]. split; [apply Hin; by left|done].
Qed.

Lemma ogr_sayfasi_inv st x :
  ogr_inv st -> ogr_inv (ogr_sayfasi float_int ogrno_skor adsoyad_skor sinif_skor ders_skor st x).
Proof.
  intros Hst. unfold ogr_sayfasi. destruct x.2 as [e|t]; [done|].
  destruct (bos_tablo t); [done|]. apply fold_left_inv; [|done]. intros. by apply ogr_satiri_inv.
Qed.

(** [ogrenci_excel_parse] returns each student number once, and its
    enrolments sorted as Python sorts tuples, without repetition, each
    naming a returned student and a code that matches [RE_KOD]. *)
Theorem ogrenci_kayitlari_gecerli k ogrs kayitlar hatalar :
  ogrenci_excel_parse float_int ogrno_skor adsoyad_skor sinif_skor ders_skor k = (ogrs, kayitlar, hatalar) ->
  NoDup (ok_ogr_no <$> ogrs) /\ NoDup kayitlar /\ StronglySorted (fun x y => cift_le x y = true) kayitlar /\
  Forall (fun p => p.1 ∈ ok_ogr_no <$> ogrs /\ tam_eslesme RE_KOD p.2 = true) kayitlar.
Proof.
  destruct k as [e|ss]; simpl; [intros [= <- <- <-]; split_and!; constructor|].
  set (st := fold_left _ ss _). intros [= <- <- <-].
  assert (Hi : ogr_inv st).
  { apply fold_left_inv; [intros; by apply ogr_sayfasi_inv|]. split_and!; constructor. }
  destruct Hi as (Hn & Hk & Hkn & Hkf). rewrite anahtar_fmap by done. split_and!.
  - done.
  - by rewrite (sirala_perm cift_le (od_kayitlar st)).
  - apply sirala_strongly_sorted; [apply cift_le_total|apply cift_le_trans].
  - apply Forall_forall. intros p Hp%sirala_elem. exact (proj1 (Forall_forall _ _) Hkf p Hp).
Qed.

(** A name that contains a title token ([prof], [doc], [dr], [ogr],
    [yard], [yrd], [ars] after [_norm]) in a sheet without an instructor
    column is moved to [hoca] and the course is stored without a name
    (lines 206-207). *)
Lemma unvanli_ad_kayar b m row k a :
  b_hoca b = None -> _safe_str (hucre row (b_kod b)) = Some k ->
  _safe_str (hucre row (b_ad b)) = Some a -> tam_eslesme RE_KOD k = true ->
  basliksi (Some k) = false -> basliksi (Some a) = false -> unvanli a = true ->
  exists d, (k, d) ∈ baslikli_satir float_int b m row /\ dk_kod d = k /\ dk_ad d = None /\ dk_hoca d = Some a.
Proof.
  intros Hh Hk Ha Hr Hbk Hba Hu. unfold baslikli_satir. rewrite Hh, Hk, Ha, Hbk, Hba, Hr. simpl.
  unfold ders_kaydet, takas, _looks_like_person.
  destruct a as [|c a]; [by apply safe_str_dolu in Ha|]. cbn [dolu andb]. rewrite Hu. cbn [orb andb dolu].
  eexists. split; [apply sozluk_yaz_deger|done].
Qed.

End Kanitlar.

(** C34 The class guessed from a course code is 1 to 4 and is the first
    digit of the code. *)
Theorem infer_sinif_aralik kod d :
  _infer_sinif_from_kod kod = Some d ->
  1 <= d <= 4 /\ exists pre post, kod = Some (pre ++ (48 + d) :: post) /\ Forall (fun x => rakam x = false) pre.
Proof.
  unfold _infer_sinif_from_kod. destruct (dolu kod) eqn:Hd; [|discriminate].
  destruct (List.filter rakam (default [] kod)) as [|c r] eqn:E; [discriminate|].
  destruct ((1 <=? c - 48) && (c - 48 <=? 4)) eqn:Hb; [|discriminate]. intros [= <-]. bool_prop.
  destruct kod as [k|]; [|discriminate]. simpl in E.
  destruct (filter_ilk _ _ _ _ E) as (pre & post & -> & Hpre & _).
  split; [lia|]. exists pre, post. split; [|done]. by replace (48 + (c - 48)) with c by lia.
Qed.

(** A cleaned heading has none of [. : ; , - _ /], so the keys
    [ogr_no], [ogrenci_no], [ders_kodu], [zorunlu/secmeli] and [z/s] of
    the parsers never match a column. *)
Theorem olu_anahtarlar s :
  Forall (fun c => noktalama c = false) (_clean_headingish s) /\
  Forall (fun k => _clean_headingish s <> k)
    (ascii_str <$> ["ogr_no"; "ogrenci_no"; "ders_kodu"; "zorunlu/secmeli"; "z/s"]).
Proof.
  pose proof (clean_temiz s) as H. split; [done|].
  apply Forall_forall. intros k Hk E. rewrite E in H.
  assert (Hb : forallb (fun c => negb (noktalama c)) k = true).
  { apply forallb_forall. intros c Hc%list_elem_of_In. by rewrite (proj1 (Forall_forall _ _) H c Hc). }
  clear -Hk Hb. apply list_elem_of_fmap in Hk as (w & -> & Hw).
  repeat (apply elem_of_cons in Hw as [->|Hw]; [vm_compute in Hb; discriminate|]).
  by apply not_elem_of_nil in Hw.
Qed.

(** [DERSİN ADI] and [Dersin Adı] *)
Definition DERSIN_ADI_BUYUK : pystr := ascii_str "DERS" ++ [304] ++ ascii_str "N ADI".
Definition DERSIN_ADI : pystr := ascii_str "Dersin Ad" ++ [305].

(** A heading in Turkish capitals is not recognised: [str.lower]
    turns [İ] into [i] and U+0307, so [DERSİN ADI] does not clean to
    [dersin adi], and a header row [DERS KODU | DERSİN ADI] is not found,
    while [DERS KODU | Dersin Adı] is. *)
Theorem buyuk_harfli_baslik_taninmaz :
  _clean_headingish DERSIN_ADI_BUYUK = ascii_str "dersi" ++ [775] ++ ascii_str "n adi" /\
  _clean_headingish DERSIN_ADI_BUYUK ∉ AD_KEYS /\ _clean_headingish DERSIN_ADI ∈ AD_KEYS /\
  baslik_satiri [HMetin (ascii_str "DERS KODU"); HMetin DERSIN_ADI_BUYUK] = None /\
  is_Some (baslik_satiri [HMetin (ascii_str "DERS KODU"); HMetin DERSIN_ADI]).
Proof. split_and!; [vm_compute; reflexivity|karar|karar|vm_compute; reflexivity|karar]. Qed.


(** ** Examples and witnesses *)

(** [int(float(t))] on the integer texts of the examples. *)
Definition ornek_float (t : pystr) : option Z := py_int t.

Definition hm (s : string) : Hucre := HMetin (metin s).

(** A course sheet whose first row became the column labels, with its
    header in the first data row and no instructor column. *)
Definition ornek_ders_tablosu : Tablo :=
  {| sutunlar := [metin "Bilgisayar Mühendisliği 2024 Güz"; metin "Unnamed: 1"; metin "Unnamed: 2"];
     satirlar := [[hm "Ders Kodu"; hm "Dersin Adı"; hm "Sınıf"];
                  [hm "BLM101"; hm "Programlamaya Giriş"; HTam 1];
                  [hm "BLM 203"; hm "Veri Yapıları"; HBos];
                  [hm "MAT101"; hm "Matematik I"; HTam 1]] |}.

Definition ornek_ders_sayfalari : list (pystr * (pystr + Tablo)) :=
  [(metin "Dersler", inr ornek_ders_tablosu); (metin "Notlar", inl (metin "bozuk sayfa"))].

Definition ornek_dersler : list DersKaydi :=
  (ders_excel_parse ornek_float (fun _ => None) (Sayfalar ornek_ders_sayfalari)).1.

(** The three courses are read; the name of the first, which contains
    [ogr], has moved to [hoca]; the class of [BLM 203] comes from its
    code. *)
Lemma ornek_dersler_deger :
  ornek_dersler =
    [{| dk_kod := metin "BLM101"; dk_ad := None; dk_hoca := Some (metin "Programlamaya Giriş");
        dk_sinif := Some 1; dk_tur := None |};
     {| dk_kod := metin "BLM 203"; dk_ad := Some (metin "Veri Yapıları"); dk_hoca := None;
        dk_sinif := Some 2; dk_tur := None |};
     {| dk_kod := metin "MAT101"; dk_ad := Some (metin "Matematik I"); dk_hoca := None;
        dk_sinif := Some 1; dk_tur := None |}].
Proof. vm_compute. reflexivity. Qed.

Definition ornek_ogr_tablosu : Tablo :=
  {| sutunlar := [metin "Öğrenci No"; metin "Ad Soyad"; metin "Ders 1"; metin "Ders 2"];
     satirlar := [[hm "2001"; hm "Ali Veli"; hm "BLM101"; hm "MAT101"];
                  [HTam 2002; HBos; hm "BLM 203"; HBos];
                  [HBos; hm "Ayşe Kaya"; hm "BLM101"; HBos]] |}.

Definition ornek_ogr_kitabi : Kitap := Sayfalar [(metin "Öğrenciler", inr ornek_ogr_tablosu)].

Definition ornek_ogr_sonuc :=
  ogrenci_excel_parse ornek_float (fun _ => None) (fun _ => None) (fun _ => None) (fun _ => []) ornek_ogr_kitabi.

(** Two students (the second without a name), three enrolments, and an
    error line for the row without a number. *)
Lemma ornek_ogr_sonuc_deger :
  ornek_ogr_sonuc =
    ([{| ok_ogr_no := metin "2001"; ok_adsoyad := Some (metin "Ali Veli"); ok_sinif := None |};
      {| ok_ogr_no := metin "2002"; ok_adsoyad := None; ok_sinif := None |}],
     [(metin "2001", metin "BLM101"); (metin "2001", metin "MAT101"); (metin "2002", metin "BLM 203")],
     [OgrNoBos (metin "Öğrenciler") 3]).
Proof. vm_compute. reflexivity. Qed.

Lemma sayfa_hatasi_bildirilmez_ornek :
  SayfaOkunamadi (metin "Notlar") (metin "bozuk sayfa")
    ∈ (fold_left (ders_sayfasi ornek_float (fun _ => None)) ornek_ders_sayfalari ([], [])).2 /\
  (ders_excel_parse ornek_float (fun _ => None) (Sayfalar ornek_ders_sayfalari)).2 = [].
Proof.
  apply sayfa_hatasi_bildirilmez. apply elem_of_cons. right. apply elem_of_cons. by left.
Defined.

Lemma ogrenci_kayitlari_gecerli_ornek :
  let '(ogrs, kayitlar, _) := ornek_ogr_sonuc in
  NoDup (ok_ogr_no <$> ogrs) /\ NoDup kayitlar /\ StronglySorted (fun x y => cift_le x y = true) kayitlar /\
  Forall (fun p => p.1 ∈ ok_ogr_no <$> ogrs /\ tam_eslesme RE_KOD p.2 = true) kayitlar.
Proof.
  destruct ornek_ogr_sonuc as [[ogrs kayitlar] hatalar] eqn:E.
  exact (ogrenci_kayitlari_gecerli _ _ _ _ _ _ _ _ _ E).
Defined.

Lemma infer_sinif_aralik_ornek :
  _infer_sinif_from_kod (Some (metin "BLM 203")) = Some 2 /\
  1 <= 2 <= 4 /\ exists pre post, Some (metin "BLM 203") = Some (pre ++ (48 + 2) :: post) /\
    Forall (fun x => rakam x = false) pre.
Proof.
  assert (H : _infer_sinif_from_kod (Some (metin "BLM 203")) = Some 2) by (vm_compute; reflexivity).
  split; [exact H|]. exact (infer_sinif_aralik _ _ H).
Defined.

Lemma tam_eslesme_dogru_ornek :
  tam_eslesme RE_KOD (metin "BLM 203") = true /\ tam_eslesme RE_DERSKODU (metin "BLM 203") = false /\
  py_eslesir RE_KOD (metin "BLM 203").
Proof.
  assert (H : tam_eslesme RE_KOD (metin "BLM 203") = true) by (vm_compute; reflexivity).
  split_and!; [exact H|vm_compute; reflexivity|exact (proj1 (tam_eslesme_dogru _ _) H)].
Defined.

End Aktarim.
