(* ===== verification/ImportWindow.v ===== *)
(** * ImportWindow: the bulk writers and the import window

    [ImportPenceresi] of [src/arayuz/import_penceresi.py] lets a
    coordinator load a course list and a student list from spreadsheets:
    [_ders_yukle] (lines 51-83) and [_ogrenci_yukle] (lines 86-120) check
    that the department has a room ([_derslik_kontrol], lines 44-48),
    parse the chosen file with [ExcelImport], write the records with
    [dersleri_toplu_yaz] and [ogrencileri_toplu_yaz_ve_kayitla] of
    [src/veri_deposu.py] (lines 183-234), show an info box, call the
    main window back and show the error label.

    The writers work on the [Katalog] tables of [Catalog].  Text is
    stored as its UTF-8 bytes ([utf8_kodla]).  An [INSERT ... ON
    CONFLICT DO UPDATE] updates the row of the department with the same
    key in place, or appends a row whose id is one above the largest id
    of the table.  [AUTOINCREMENT] gives a value above every id ever
    used: this is SQLite's value while no row of [dersler] or
    [ogrenciler] has been deleted, and a smaller one after the
    maintenance script [veri_temizle_yeniden_yukle.py] has deleted
    courses (line 38); the theorems only use that the id is fresh, which
    holds for both.  A
    [NOT NULL] column given [None] raises [IntegrityError], and the
    [with baglanti()] block then rolls back every write of the call.  An
    exception raised in a handler leaves it (Tk reports it on the
    console), after the error label has been cleared.  Writing the error
    log file is not modelled; the label that points at it is. *)

From S2P Require Import Prelude Normalize Catalog Accounts Forms ExcelImport.

Module ImportPenceresi.
Import Normal Katalog Yetki Metin Aktarim.

(** ** [dersleri_toplu_yaz] *)

(** [1 + max(id)] of a table. *)
Definition sonraki_id (ids : list Z) : Z := 1 + fold_left Z.max ids 0.

(** The keys of [UNIQUE(bolum_id, kod)] and [UNIQUE(bolum_id, ogr_no)]. *)
Definition ders_anahtari (r : DersSatiri) : Z * string := (ds_bolum_id r, ds_kod r).
Definition ogr_anahtari (r : OgrenciSatiri) : Z * string := (og_bolum_id r, og_ogr_no r).

(** [COALESCE(excluded.x, tablo.x)] *)
Definition birlestir {A} (yeni eski : option A) : option A :=
  match yeni with Some _ => yeni | None => eski end.

(** The statement of lines 201-210 with [ad] already swapped: a [NULL]
    department or name raises [IntegrityError] ([NOT NULL]). *)
Definition ders_upsert (kt : Katalog) (bolum_id : option Z) (kod : pystr) (ad hoca : option pystr)
    (sinif : option Z) (tur : option pystr) : Sonuc Katalog :=
  match bolum_id, ad with
  | Some b, Some a =>
      let k := utf8_kodla kod in
      let ds := t_dersler kt in
      let ds' :=
        match list_find (fun r => ders_anahtari r = (b, k)) ds with
        | Some (i, r) =>
            <[i := {| ds_id := ds_id r; ds_bolum_id := b; ds_kod := ds_kod r; ds_ad := utf8_kodla a;
                      ds_hoca := birlestir (utf8_kodla <$> hoca) (ds_hoca r);
                      ds_sinif := birlestir sinif (ds_sinif r);
                      ds_tur := birlestir (utf8_kodla <$> tur) (ds_tur r) |}]> ds
        | None =>
            ds ++ [{| ds_id := sonraki_id (ds_id <$> ds); ds_bolum_id := b; ds_kod := k;
                      ds_ad := utf8_kodla a; ds_hoca := utf8_kodla <$> hoca; ds_sinif := sinif;
                      ds_tur := utf8_kodla <$> tur |}]
        end in
      Tamam {| t_dersler := ds'; t_ogrenciler := t_ogrenciler kt;
               t_ogrenci_ders := t_ogrenci_ders kt; t_derslikler := t_derslikler kt |}
  | _, _ => Hata IntegrityError
  end.

(** The body of the loop (lines 185-210). *)
Definition ders_yaz (bolum_id : option Z) (kt : Katalog) (d : DersKaydi) : Sonuc Katalog :=
  let kod := py_strip (dk_kod d) in
  let ad := py_strip (default [] (dk_ad d)) in
  let hoca := if dolu (dk_hoca d) then dk_hoca d else None in
  if bool_decide (kod = []) || bool_decide (ad = []) then Tamam kt
  else if _is_heading_like (Some kod) || _is_heading_like (Some ad) || (dolu hoca && _is_heading_like hoca)
  then Tamam kt
  else if negb (tam_eslesme RE_DERSKODU kod) then Tamam kt
  else let '(ad', hoca') := takas (Some ad) hoca in ders_upsert kt bolum_id kod ad' hoca' (dk_sinif d) (dk_tur d).

(** [dersleri_toplu_yaz] (lines 183-210): [Hata] is the rolled-back
    block. *)
Definition dersleri_toplu_yaz (kt : Katalog) (bolum_id : option Z) (ds : list DersKaydi) : Sonuc Katalog :=
  sirayla (ders_yaz bolum_id) kt ds.

(** ** [ogrencileri_toplu_yaz_ve_kayitla] *)

(** Lines 215-221 for one student. *)
Definition ogr_upsert (bolum_id : option Z) (kt : Katalog) (o : OgrenciKaydi) : Sonuc Katalog :=
  match bolum_id, ok_adsoyad o with
  | Some b, Some ad =>
      let no := utf8_kodla (ok_ogr_no o) in
      let os := t_ogrenciler kt in
      let os' :=
        match list_find (fun r => ogr_anahtari r = (b, no)) os with
        | Some (i, r) =>
            <[i := {| og_id := og_id r; og_bolum_id := b; og_ogr_no := og_ogr_no r;
                      og_adsoyad := utf8_kodla ad; og_sinif := birlestir (ok_sinif o) (og_sinif r) |}]> os
        | None =>
            os ++ [{| og_id := sonraki_id (og_id <$> os); og_bolum_id := b; og_ogr_no := no;
                      og_adsoyad := utf8_kodla ad; og_sinif := ok_sinif o |}]
        end in
      Tamam {| t_dersler := t_dersler kt; t_ogrenciler := os';
               t_ogrenci_ders := t_ogrenci_ders kt; t_derslikler := t_derslikler kt |}
  | _, _ => Hata IntegrityError
  end.


(** [{row[key]: row["id"] for row in ...}]: the last row with the key. *)
Definition son_kimlik {R} (anahtar : R -> string) (kimlik : R -> Z) (rows : list R) (k : string) : option Z :=
  fold_left (fun acc r => if bool_decide (anahtar r = k) then Some (kimlik r) else acc) rows None.

(** [SELECT ... WHERE bolum_id=?]: no row matches [NULL]. *)
Definition bolumun {R} (bid : R -> Z) (bolum_id : option Z) (rows : list R) : list R :=
  match bolum_id with Some b => List.filter (fun r => bid r =? b) rows | None => [] end.

(** [INSERT OR IGNORE INTO ogrenci_ders] ([PRIMARY KEY(ogrenci_id, ders_id)]). *)
Definition kayit_ekle_tablo (o d : Z) (ks : list KayitSatiri) : list KayitSatiri :=
  if existsb (fun r => (kd_ogrenci_id r =? o) && (kd_ders_id r =? d)) ks then ks
  else ks ++ [{| kd_ogrenci_id := o; kd_ders_id := d |}].

(** Lines 229-234 for one pair. *)
Definition kayit_yaz (ogr_map ders_map : string -> option Z) (ks : list KayitSatiri)
    (p : pystr * pystr) : list KayitSatiri :=
  if negb (tam_eslesme RE_DERSKODU p.2) then ks else
  match ogr_map (utf8_kodla p.1), ders_map (utf8_kodla p.2) with
  | Some o, Some d => if bool_decide (o <> 0 /\ d <> 0) then kayit_ekle_tablo o d ks else ks
  | _, _ => ks
  end.

(** [ogrencileri_toplu_yaz_ve_kayitla] (lines 212-234) *)
Definition ogrencileri_toplu_yaz_ve_kayitla (kt : Katalog) (bolum_id : option Z) (os : list OgrenciKaydi)
    (kayitlar : list (pystr * pystr)) : Sonuc Katalog :=
  kt' ← sirayla (ogr_upsert bolum_id) kt os;
  let ogr_map := son_kimlik og_ogr_no og_id (bolumun og_bolum_id bolum_id (t_ogrenciler kt')) in
  let ders_map := son_kimlik ds_kod ds_id (bolumun ds_bolum_id bolum_id (t_dersler kt')) in
  Tamam {| t_dersler := t_dersler kt'; t_ogrenciler := t_ogrenciler kt';
           t_ogrenci_ders := fold_left (kayit_yaz ogr_map ders_map) kayitlar (t_ogrenci_ders kt');
           t_derslikler := t_derslikler kt' |}.

(** ** Lemmas *)

Lemma fold_max_ust (ids : list Z) a :
  a <= fold_left Z.max ids a /\ Forall (fun x => x <= fold_left Z.max ids a) ids.
Proof.
  revert a. induction ids as [|x ids IH]; intros a; simpl; [split; [lia|constructor]|].
  destruct (IH (Z.max a x)) as [H1 H2]. split; [lia|constructor; [lia|done]].
Qed.

(** A new id is positive and above every id of the table. *)
Lemma sonraki_id_taze ids : 0 < sonraki_id ids /\ Forall (fun x => x < sonraki_id ids) ids.
Proof.
  unfold sonraki_id. destruct (fold_max_ust ids 0) as [H1 H2]. split; [lia|].
  eapply Forall_impl; [exact H2|]. intros x Hx; simpl in *; lia.
Qed.

Lemma filter_insert_disi {A} (Q : A -> bool) (l : list A) i x y :
  l !! i = Some y -> Q y = false -> Q x = false -> List.filter Q (<[i := x]> l) = List.filter Q l.
Proof.
  revert i. induction l as [|z l IH]; intros [|i] Hi Hy Hx; simpl in *; try discriminate.
  - injection Hi as ->. by rewrite Hx, Hy.
  - by rewrite (IH i).
Qed.

(** *** [INSERT ... ON CONFLICT(key) DO UPDATE] on a table *)

Section Upsert.
Context {R : Type} (K : R -> Z * string) (I : R -> Z).

(** The unique key, the primary key, and positive ids. *)
Definition tablo_tekil (l : list R) : Prop :=
  NoDup (K <$> l) /\ NoDup (I <$> l) /\ Forall (fun r => 0 < I r) l.

Definition upsert (l : list R) (key : Z * string) (guncel : R -> R) (yeni : R) : list R :=
  match list_find (fun r => K r = key) l with Some (i, r) => <[i := guncel r]> l | None => l ++ [yeni] end.

Lemma upsert_tekil l key guncel yeni :
  tablo_tekil l -> (forall r, K r = key -> K (guncel r) = K r /\ I (guncel r) = I r) ->
  K yeni = key -> I yeni = sonraki_id (I <$> l) -> tablo_tekil (upsert l key guncel yeni).
Proof.
  intros (Hk & Hi & Hp) Hg Hy Hyi. unfold upsert. destruct (list_find _ l) as [[i r]|] eqn:E.
  - apply list_find_Some in E as (Hl & Hr & _). destruct (Hg r Hr) as [Hgk Hgi].
    unfold tablo_tekil. rewrite !list_fmap_insert, Hgk, Hgi, !list_insert_id
      by (rewrite list_lookup_fmap, Hl; done).
    split_and!; [done|done|]. apply Forall_insert; [done|]. rewrite Hgi. exact (Forall_lookup_1 _ _ _ _ Hp Hl).
  - apply list_find_None in E. destruct (sonraki_id_taze (I <$> l)) as [H0 Hb].
    unfold tablo_tekil. rewrite !fmap_app. split_and!.
    + apply NoDup_app. split_and!; [done| |apply NoDup_singleton].
      intros x (r & -> & Hr)%list_elem_of_fmap Hx%list_elem_of_singleton.
      rewrite Hy in Hx. exact (proj1 (Forall_forall _ _) E r Hr Hx).
    + apply NoDup_app. split_and!; [done| |apply NoDup_singleton].
      intros x Hx ->%list_elem_of_singleton. rewrite Hyi in Hx.
      pose proof (proj1 (Forall_forall _ _) Hb _ Hx). simpl in *. lia.
    + apply Forall_app. split; [done|]. constructor; [lia|constructor].
Qed.

(** The rows [Q] selects are untouched when the key's row and the new
    row are not among them. *)
Lemma upsert_disi (Q : R -> bool) l key guncel yeni :
  (forall r, K r = key -> Q r = false /\ Q (guncel r) = false) -> Q yeni = false ->
  List.filter Q (upsert l key guncel yeni) = List.filter Q l.
Proof.
  intros Hg Hy. unfold upsert. destruct (list_find _ l) as [[i r]|] eqn:E.
  - apply list_find_Some in E as (Hl & Hr & _). destruct (Hg r Hr).
    by apply (filter_insert_disi _ _ _ _ r).
  - rewrite List.filter_app. simpl. rewrite Hy. apply app_nil_r.
Qed.

End Upsert.

(** The unique keys, the primary keys and the positive ids of [dersler],
    [ogrenciler] and [ogrenci_ders]. *)
Definition katalog_tekil (kt : Katalog) : Prop :=
  tablo_tekil ders_anahtari ds_id (t_dersler kt) /\ tablo_tekil ogr_anahtari og_id (t_ogrenciler kt) /\
  NoDup ((fun r => (kd_ogrenci_id r, kd_ders_id r)) <$> t_ogrenci_ders kt).

(** The rows of the other departments and the rooms. *)
Definition bolum_disi (b : Z) (kt : Katalog) : list DersSatiri * list OgrenciSatiri * list DerslikSatiri :=
  (List.filter (fun r => negb (ds_bolum_id r =? b)) (t_dersler kt),
   List.filter (fun r => negb (og_bolum_id r =? b)) (t_ogrenciler kt), t_derslikler kt).

Lemma ders_upsert_tekil kt b kod ad hoca sinif tur kt' :
  ders_upsert kt (Some b) kod ad hoca sinif tur = Tamam kt' -> katalog_tekil kt ->
  katalog_tekil kt' /\ bolum_disi b kt' = bolum_disi b kt.
Proof.
  unfold ders_upsert. destruct ad as [a|]; [|discriminate]. intros [= <-] (Hd & Ho & Hk).
  fold (upsert ders_anahtari (t_dersler kt) (b, utf8_kodla kod)
          (fun r => {| ds_id := ds_id r; ds_bolum_id := b; ds_kod := ds_kod r; ds_ad := utf8_kodla a;
                       ds_hoca := birlestir (utf8_kodla <$> hoca) (ds_hoca r);
                       ds_sinif := birlestir sinif (ds_sinif r);
                       ds_tur := birlestir (utf8_kodla <$> tur) (ds_tur r) |})
          {| ds_id := sonraki_id (ds_id <$> t_dersler kt); ds_bolum_id := b; ds_kod := utf8_kodla kod;
             ds_ad := utf8_kodla a; ds_hoca := utf8_kodla <$> hoca; ds_sinif := sinif;
             ds_tur := utf8_kodla <$> tur |}).
  split; [split_and!; [apply upsert_tekil|done|done]|]; unfold bolum_disi; simpl.
  - done.
  - intros r Hr. unfold ders_anahtari in *. simpl. injection Hr as -> _. done.
  - done.
  - done.
  - f_equal. f_equal. apply upsert_disi; [|simpl; by rewrite Z.eqb_refl].
    intros r Hr. unfold ders_anahtari in Hr. injection Hr as -> _. simpl. by rewrite Z.eqb_refl.
Qed.

Lemma ogr_upsert_tekil kt b o kt' :
  ogr_upsert (Some b) kt o = Tamam kt' -> katalog_tekil kt ->
  katalog_tekil kt' /\ bolum_disi b kt' = bolum_disi b kt.
Proof.
  unfold ogr_upsert. destruct (ok_adsoyad o) as [a|]; [|discriminate]. intros [= <-] (Hd & Ho & Hk).
  fold (upsert ogr_anahtari (t_ogrenciler kt) (b, utf8_kodla (ok_ogr_no o))
          (fun r => {| og_id := og_id r; og_bolum_id := b; og_ogr_no := og_ogr_no r;
                       og_adsoyad := utf8_kodla a; og_sinif := birlestir (ok_sinif o) (og_sinif r) |})
          {| og_id := sonraki_id (og_id <$> t_ogrenciler kt); og_bolum_id := b;
             og_ogr_no := utf8_kodla (ok_ogr_no o); og_adsoyad := utf8_kodla a; og_sinif := ok_sinif o |}).
  split; [split_and!; [done|apply upsert_tekil|done]|]; unfold bolum_disi; simpl.
  - done.
  - intros r Hr. unfold ogr_anahtari in *. simpl. injection Hr as -> _. done.
  - done.
  - done.
  - f_equal. f_equal. apply upsert_disi; [|simpl; by rewrite Z.eqb_refl].
    intros r Hr. unfold ogr_anahtari in Hr. injection Hr as -> _. simpl. by rewrite Z.eqb_refl.
Qed.

Lemma ders_yaz_tekil b kt d kt' :
  ders_yaz (Some b) kt d = Tamam kt' -> katalog_tekil kt ->
  katalog_tekil kt' /\ bolum_disi b kt' = bolum_disi b kt.
Proof.
  unfold ders_yaz.
  do 3 (match goal with |- (if ?c then Tamam _ else _) = _ -> _ => destruct c; [intros [= <-]; done|] end).
  destruct (takas _ _). apply ders_upsert_tekil.
Qed.

Lemma kayit_ekle_tablo_NoDup o d ks :
  NoDup ((fun r => (kd_ogrenci_id r, kd_ders_id r)) <$> ks) ->
  NoDup ((fun r => (kd_ogrenci_id r, kd_ders_id r)) <$> kayit_ekle_tablo o d ks).
Proof.
  unfold kayit_ekle_tablo. destruct (existsb _ ks) eqn:E; [done|]. intros Hn.
  rewrite fmap_app. apply NoDup_app. split_and!; [done| |apply NoDup_singleton].
  intros x (r & -> & Hr)%list_elem_of_fmap [= Ho Hd]%list_elem_of_singleton.
  assert (Ht : existsb (fun r => (kd_ogrenci_id r =? o) && (kd_ders_id r =? d)) ks = true).
  { apply existsb_exists. exists r. split; [by apply list_elem_of_In|]. by rewrite Ho, Hd, !Z.eqb_refl. }
  congruence.
Qed.

Lemma ogrencileri_toplu_tekil kt b os ks kt' :
  ogrencileri_toplu_yaz_ve_kayitla kt (Some b) os ks = Tamam kt' -> katalog_tekil kt ->
  katalog_tekil kt' /\ bolum_disi b kt' = bolum_disi b kt.
Proof.
  unfold ogrencileri_toplu_yaz_ve_kayitla. destruct (sirayla _ kt os) as [k1|] eqn:E; [|discriminate].
  intros [= <-] Hk.
  destruct (sirayla_korur (fun k => katalog_tekil k /\ bolum_disi b k = bolum_disi b kt) (ogr_upsert (Some b))
              ltac:(intros k x k' Hx [Ht Hb]; destruct (ogr_upsert_tekil _ _ _ _ Hx Ht); split; congruence)
              os kt k1 E (conj Hk eq_refl)) as [(Hd & Ho & Hkd) Hb].
  split; [split_and!; [done|done|]|done]. simpl.
  apply (fold_left_inv (fun ks => NoDup ((fun r => (kd_ogrenci_id r, kd_ders_id r)) <$> ks))); [|done].
  intros l p _ Hl. unfold kayit_yaz. repeat case_match; try done. by apply kayit_ekle_tablo_NoDup.
Qed.

(** *** The enrolment maps *)

Lemma son_kimlik_disi {R} (anahtar : R -> string) (kimlik : R -> Z) k rows acc :
  Forall (fun r => anahtar r <> k) rows ->
  fold_left (fun acc r => if bool_decide (anahtar r = k) then Some (kimlik r) else acc) rows acc = acc.
Proof. induction 1 as [|r rows Hr _ IH]; simpl; [done|]. by rewrite bool_decide_false. Qed.

(** With distinct keys, the map gives the id of the row with the key. *)
Lemma son_kimlik_bul {R} (anahtar : R -> string) (kimlik : R -> Z) rows r :
  NoDup (anahtar <$> rows) -> r ∈ rows -> son_kimlik anahtar kimlik rows (anahtar r) = Some (kimlik r).
Proof.
  intros Hn (pre & post & ->)%list_elem_of_split. unfold son_kimlik.
  rewrite fold_left_app. simpl. rewrite bool_decide_true by done. apply son_kimlik_disi.
  rewrite fmap_app, fmap_cons in Hn. apply NoDup_app in Hn as (_ & _ & Hn). apply NoDup_cons in Hn as [Hn _].
  apply Forall_forall. intros x Hx E. apply Hn, list_elem_of_fmap. eauto.
Qed.

Lemma bolumun_NoDup {R} (B : R -> Z) (N : R -> string) b rows :
  NoDup ((fun r => (B r, N r)) <$> rows) -> NoDup (N <$> bolumun B (Some b) rows).
Proof.
  unfold bolumun. induction rows as [|r rows IH]; intros Hn; simpl; [constructor|].
  apply NoDup_cons in Hn as [Hr Hn]. destruct (B r =? b) eqn:E; simpl; [|by apply IH].
  constructor; [|by apply IH]. intros (r' & Hk & Hr')%list_elem_of_fmap.
  apply list_elem_of_In, filter_In in Hr' as [Hr' Hb]. apply Z.eqb_eq in E, Hb.
  apply Hr, list_elem_of_fmap. exists r'. split; [congruence|by apply list_elem_of_In].
Qed.

Lemma bolumun_elem {R} (B : R -> Z) b rows r : r ∈ rows -> B r = b -> r ∈ bolumun B (Some b) rows.
Proof. intros Hr Hb. apply list_elem_of_In, filter_In. split; [by apply list_elem_of_In|by apply Z.eqb_eq]. Qed.

Lemma kayit_ekle_tablo_icerir o d ks :
  exists r, r ∈ kayit_ekle_tablo o d ks /\ kd_ogrenci_id r = o /\ kd_ders_id r = d.
Proof.
  unfold kayit_ekle_tablo. destruct (existsb _ ks) eqn:E; cbn iota.
  - apply existsb_exists in E as (r & Hr & Hb). apply andb_true_iff in Hb as [H1 H2].
    apply Z.eqb_eq in H1, H2.
    exists r. split_and!; [by apply list_elem_of_In|done|done].
  - eexists. split_and!; [apply elem_of_app; right; by apply list_elem_of_singleton|done|done].
Qed.

Lemma kayit_yaz_korur m1 m2 ks p x : x ∈ ks -> x ∈ kayit_yaz m1 m2 ks p.
Proof. unfold kayit_yaz, kayit_ekle_tablo. intros Hx. repeat case_match; set_solver. Qed.

(** ** The window *)

(** The text of [lbl_hata]: empty, or "Bazı satırlar atlandı.
    Ayrıntılar: ..." in red (nothing was read) or grey. *)
Inductive Etiket := EtiketBos | Atlandi (kirmizi : bool).

(** What a handler leaves: the database, the label, the message boxes in
    order, the [on_after_import] argument if it was called, and the
    exception that ended it, if any. *)
Record Cikti := {
  c_sistem : Sistem;
  c_etiket : Etiket;
  c_mesajlar : list Bildirim;
  c_geri_cagri : option string;
  c_istisna : option Istisna
}.

Definition DERSLIK_YOK : string := "Önce en az bir derslik eklemelisiniz. (Gereksinim)".

Section Pencere.
Variable float_int : pystr -> option Z.
Variable otomatik_sec : Tablo -> option OtoSecim.
Variables ogrno_skor adsoyad_skor sinif_skor : Tablo -> option pystr.
Variable ders_skor : Tablo -> list pystr.

(** [_ders_yukle] (lines 51-83); [dosya] is the workbook chosen in the
    file dialog, [None] when it was cancelled; [cb] tells whether
    [on_after_import] is set. *)
Definition _ders_yukle (cb : bool) (s : Sistem) (k : KullaniciSatiri) (etiket : Etiket)
    (dosya : option Kitap) : Cikti :=
  if bool_decide (derslik_sayisi s k = 0)
  then {| c_sistem := s; c_etiket := etiket; c_mesajlar := [HataMesaji DERSLIK_YOK];
          c_geri_cagri := None; c_istisna := None |}
  else match dosya with
  | None => {| c_sistem := s; c_etiket := etiket; c_mesajlar := []; c_geri_cagri := None; c_istisna := None |}
  | Some kitap =>
      let '(dersler, hatalar) := ders_excel_parse float_int otomatik_sec kitap in
      let etiket' := match hatalar with [] => EtiketBos | _ => Atlandi (bool_decide (dersler = [])) end in
      match dersler with
      | [] => {| c_sistem := s; c_etiket := etiket'; c_mesajlar := []; c_geri_cagri := None; c_istisna := None |}
      | _ =>
          match dersleri_toplu_yaz (katalog s) (ku_bolum_id k) dersler with
          | Hata e => {| c_sistem := s; c_etiket := EtiketBos; c_mesajlar := []; c_geri_cagri := None;
                         c_istisna := Some e |}
          | Tamam kt =>
              {| c_sistem := katalog_yaz s kt; c_etiket := etiket';
                 c_mesajlar := [Bilgi (str_of_Z (Z.of_nat (length dersler)) +:+ " ders işlendi.")];
                 c_geri_cagri := if cb then Some "ders" else None; c_istisna := None |}
          end
      end
  end.

(** [_ogrenci_yukle] (lines 86-120) *)
Definition _ogrenci_yukle (cb : bool) (s : Sistem) (k : KullaniciSatiri) (etiket : Etiket)
    (dosya : option Kitap) : Cikti :=
  if bool_decide (derslik_sayisi s k = 0)
  then {| c_sistem := s; c_etiket := etiket; c_mesajlar := [HataMesaji DERSLIK_YOK];
          c_geri_cagri := None; c_istisna := None |}
  else match dosya with
  | None => {| c_sistem := s; c_etiket := etiket; c_mesajlar := []; c_geri_cagri := None; c_istisna := None |}
  | Some kitap =>
      let '(ogrenciler, kayitlar, hatalar) :=
        ogrenci_excel_parse float_int ogrno_skor adsoyad_skor sinif_skor ders_skor kitap in
      let etiket' := match hatalar with [] => EtiketBos | _ => Atlandi (bool_decide (ogrenciler = [])) end in
      match ogrenciler with
      | [] => {| c_sistem := s; c_etiket := etiket'; c_mesajlar := []; c_geri_cagri := None; c_istisna := None |}
      | _ =>
          match ogrencileri_toplu_yaz_ve_kayitla (katalog s) (ku_bolum_id k) ogrenciler kayitlar with
          | Hata e => {| c_sistem := s; c_etiket := EtiketBos; c_mesajlar := []; c_geri_cagri := None;
                         c_istisna := Some e |}
          | Tamam kt =>
              {| c_sistem := katalog_yaz s kt; c_etiket := etiket';
                 c_mesajlar := [Bilgi (str_of_Z (Z.of_nat (length ogrenciler)) +:+ " öğrenci ve " +:+
                                       str_of_Z (Z.of_nat (length kayitlar)) +:+ " kayıt işlendi.")];
                 c_geri_cagri := if cb then Some "ogrenci" else None; c_istisna := None |}
          end
      end
  end.

End Pencere.

(** ** Theorems *)

Section Kanitlar.
Context (float_int : pystr -> option Z) (otomatik_sec : Tablo -> option OtoSecim).
Context (ogrno_skor adsoyad_skor sinif_skor : Tablo -> option pystr) (ders_skor : Tablo -> list pystr).

(** C30 The imports keep the keys of the tables unique ([UNIQUE(bolum_id,
    kod)], [UNIQUE(bolum_id, ogr_no)], the ids, the key of
    [ogrenci_ders]) and the ids positive, and change no course or student
    of another department and no room. *)
Theorem aktarim_tekil_ve_yerel kt b :
  katalog_tekil kt ->
  (forall ds kt', dersleri_toplu_yaz kt (Some b) ds = Tamam kt' ->
     katalog_tekil kt' /\ bolum_disi b kt' = bolum_disi b kt) /\
  (forall os ks kt', ogrencileri_toplu_yaz_ve_kayitla kt (Some b) os ks = Tamam kt' ->
     katalog_tekil kt' /\ bolum_disi b kt' = bolum_disi b kt).
Proof.
  intros Hk. split.
  - intros ds kt' H.
    apply (sirayla_korur (fun k => katalog_tekil k /\ bolum_disi b k = bolum_disi b kt) (ders_yaz (Some b)))
      with (xs := ds) (s := kt); [|done|done].
    intros k x k' Hx [Ht Hb]. destruct (ders_yaz_tekil _ _ _ _ Hx Ht). split; congruence.
  - intros os ks kt' H. by apply (ogrencileri_toplu_tekil _ _ _ _ _ H).
Qed.

(** A code with blanks between its letters and digits matches
    [RE_KOD], so the parsers keep the course and its enrolments; but a
    record whose stripped code contains such blanks is skipped by
    [dersleri_toplu_yaz], which checks [RE_DERSKODU]. *)
Theorem bosluklu_kod_yazilmaz l w dg b kt d :
  (1 <= length l <= 6)%nat -> Forall (fun c => ascii_harf c = true) l -> Forall (fun c => bosluk c = true) w ->
  (1 <= length dg <= 4)%nat -> Forall (fun c => rakam c = true) dg ->
  tam_eslesme RE_KOD (l ++ w ++ dg) = true /\
  (w <> [] -> py_strip (dk_kod d) = l ++ w ++ dg -> ders_yaz b kt d = Tamam kt).
Proof.
  intros Hl Hlf Hw Hd Hdf. split; [by apply kod_bosluklu_eslesir|]. intros Hne Hs.
  unfold ders_yaz. rewrite Hs.
  do 2 (match goal with |- (if ?c then Tamam _ else _) = _ => destruct c; [done|] end).
  destruct (tam_eslesme RE_DERSKODU _) eqn:E; [exfalso|done].
  destruct w as [|c w]; [done|]. inversion Hw as [|? ? Hc _]; subst.
  apply tam_eslesme_dogru in E as [E|(t & Ht & E)]; apply derskodu_bosluksuz in E.
  - apply Forall_app in E as [_ E]. inversion E. congruence.
  - rewrite Ht in Hs. apply py_strip_son in Hs. done.
Qed.

Lemma ogrencileri_isimsiz b kt os :
  (exists o, o ∈ os /\ ok_adsoyad o = None) -> sirayla (ogr_upsert b) kt os = Hata IntegrityError.
Proof.
  revert kt. induction os as [|o os IH]; intros kt (o' & Hin & Hn); [set_solver|]. simpl.
  destruct (ogr_upsert b kt o) as [k1|e] eqn:E; simpl.
  - apply elem_of_cons in Hin as [->|Hin]; [|apply IH; eauto].
    unfold ogr_upsert in E. rewrite Hn in E. by destruct b.
  - unfold ogr_upsert in E. by repeat case_match; simplify_eq.
Qed.

(** C33 One student without a name stops the whole student import: its
    [NULL] name violates [adsoyad NOT NULL], the [IntegrityError] rolls
    back every student and enrolment of the file and leaves the handler,
    which shows no message and does not call the main window back. *)
Theorem isimsiz_ogrenci_aktarimi_bozar cb s k et kitap ogrs kayitlar hatalar :
  derslik_sayisi s k <> 0 ->
  ogrenci_excel_parse float_int ogrno_skor adsoyad_skor sinif_skor ders_skor kitap = (ogrs, kayitlar, hatalar) ->
  (exists o, o ∈ ogrs /\ ok_adsoyad o = None) ->
  _ogrenci_yukle float_int ogrno_skor adsoyad_skor sinif_skor ders_skor cb s k et (Some kitap) =
    {| c_sistem := s; c_etiket := EtiketBos; c_mesajlar := []; c_geri_cagri := None;
       c_istisna := Some IntegrityError |}.
Proof.
  intros Hd Hp Ho. unfold _ogrenci_yukle. rewrite bool_decide_false by done. rewrite Hp.
  destruct ogrs as [|o ogrs]; [destruct Ho as (? & Hin & _); set_solver|].
  unfold ogrencileri_toplu_yaz_ve_kayitla. by rewrite ogrencileri_isimsiz.
Qed.

(** C31 A student import stores the enrolments: every pair of the file
    whose code matches [RE_DERSKODU] and whose student and course are
    rows of the department afterwards is in [ogrenci_ders]. *)
Theorem kayitlar_yazilir kt b os ks kt' p ro rd :
  katalog_tekil kt -> ogrencileri_toplu_yaz_ve_kayitla kt (Some b) os ks = Tamam kt' ->
  p ∈ ks -> tam_eslesme RE_DERSKODU p.2 = true ->
  ro ∈ t_ogrenciler kt' -> og_bolum_id ro = b -> og_ogr_no ro = utf8_kodla p.1 ->
  rd ∈ t_dersler kt' -> ds_bolum_id rd = b -> ds_kod rd = utf8_kodla p.2 ->
  exists r, r ∈ t_ogrenci_ders kt' /\ kd_ogrenci_id r = og_id ro /\ kd_ders_id r = ds_id rd.
Proof.
  intros Hk H Hp Hre Hro Hbo Hno Hrd Hbd Hkd.
  pose proof (ogrencileri_toplu_tekil _ _ _ _ _ H Hk) as [((Hdk & _ & Hdp) & (Hok & _ & Hop) & _) _].
  revert H Hro Hrd Hdk Hdp Hok Hop. unfold ogrencileri_toplu_yaz_ve_kayitla.
  destruct (sirayla _ kt os) as [k1|] eqn:E; [|discriminate]. intros [= <-].
  cbn [t_ogrenci_ders t_ogrenciler t_dersler]. intros Hro Hrd Hdk Hdp Hok Hop.
  assert (Ho : son_kimlik og_ogr_no og_id (bolumun og_bolum_id (Some b) (t_ogrenciler k1)) (utf8_kodla p.1)
               = Some (og_id ro)).
  { rewrite <- Hno. apply son_kimlik_bul; [by apply bolumun_NoDup|by apply bolumun_elem]. }
  assert (Hd : son_kimlik ds_kod ds_id (bolumun ds_bolum_id (Some b) (t_dersler k1)) (utf8_kodla p.2)
               = Some (ds_id rd)).
  { rewrite <- Hkd. apply son_kimlik_bul; [by apply bolumun_NoDup|by apply bolumun_elem]. }
  unfold bolumun in Ho, Hd.
  assert (0 < og_id ro) by exact (proj1 (Forall_forall _ _) Hop ro Hro).
  assert (0 < ds_id rd) by exact (proj1 (Forall_forall _ _) Hdp rd Hrd).
  apply list_elem_of_split in Hp as (pre & post & ->). rewrite fold_left_app. simpl.
  set (ks0 := fold_left _ pre _).
  destruct (kayit_ekle_tablo_icerir (og_id ro) (ds_id rd) ks0) as (r & Hr & Hr1 & Hr2).
  exists r. split_and!; [|done|done].
  apply (fold_left_inv (fun ks => r ∈ ks)); [intros; by apply kayit_yaz_korur|].
  unfold kayit_yaz. rewrite Hre, Ho, Hd. simpl. rewrite bool_decide_true by lia. done.
Qed.

End Kanitlar.


(** ** Examples and witnesses *)

(** The course file of [Aktarim.ornek_ders_sayfalari] imported by the
    coordinator of department 1, which has room 7. *)
Definition ornek_ders_cikti : Cikti :=
  _ders_yukle ornek_float (fun _ => None) true ornek_sistem3 ornek_koordinator EtiketBos
    (Some (Sayfalar ornek_ders_sayfalari)).

(** End to end: the window reports three courses, shows no sheet
    error and calls the main window back, but of [BLM101] (its name moved
    to [hoca]), [BLM 203] (blank in the code) and [MAT101] only [MAT101]
    is stored. *)
Theorem ders_aktarimi_eksik :
  c_mesajlar ornek_ders_cikti = [Bilgi "3 ders işlendi."] /\ c_etiket ornek_ders_cikti = EtiketBos /\
  c_geri_cagri ornek_ders_cikti = Some "ders" /\ c_istisna ornek_ders_cikti = None /\
  ds_kod <$> t_dersler (katalog (c_sistem ornek_ders_cikti)) = ["MAT101"].
Proof. vm_compute. split_and!; reflexivity. Qed.

Definition ornek_katalog : Katalog := katalog (c_sistem ornek_ders_cikti).

Definition ornek_ogr_girdisi : list OgrenciKaydi :=
  [{| ok_ogr_no := metin "2001"; ok_adsoyad := Some (metin "Ali Veli"); ok_sinif := None |}].

Definition ornek_kayit_girdisi : list (pystr * pystr) :=
  [(metin "2001", metin "BLM101"); (metin "2001", metin "MAT101")].

Definition ornek_katalog2 : Katalog :=
  match ogrencileri_toplu_yaz_ve_kayitla ornek_katalog (Some 1) ornek_ogr_girdisi ornek_kayit_girdisi with
  | Tamam k => k | Hata _ => ornek_katalog end.

Definition ornek_ogr_satiri : OgrenciSatiri :=
  {| og_id := 1; og_bolum_id := 1; og_ogr_no := "2001"; og_adsoyad := "Ali Veli"; og_sinif := None |}.

Definition ornek_ders_satiri : DersSatiri :=
  {| ds_id := 1; ds_bolum_id := 1; ds_kod := "MAT101"; ds_ad := "Matematik I"; ds_hoca := None;
     ds_sinif := Some 1; ds_tur := None |}.

Lemma aktarim_tekil_ve_yerel_ornek :
  katalog_tekil ornek_katalog /\ bolum_disi 1 ornek_katalog = bolum_disi 1 (katalog ornek_sistem3).
Proof.
  assert (H0 : katalog_tekil (katalog ornek_sistem3)).
  { unfold katalog_tekil, tablo_tekil. karar. }
  apply (proj1 (aktarim_tekil_ve_yerel (katalog ornek_sistem3) 1 H0) ornek_dersler).
  vm_compute. reflexivity.
Defined.

Lemma bosluklu_kod_yazilmaz_ornek :
  tam_eslesme RE_KOD (metin "BLM" ++ metin " " ++ metin "203") = true /\
  ders_yaz (Some 1) ornek_katalog
    {| dk_kod := metin "BLM 203"; dk_ad := Some (metin "Veri Yapıları"); dk_hoca := None;
       dk_sinif := Some 2; dk_tur := None |} = Tamam ornek_katalog.
Proof.
  destruct (bosluklu_kod_yazilmaz (metin "BLM") (metin " ") (metin "203") (Some 1) ornek_katalog
    {| dk_kod := metin "BLM 203"; dk_ad := Some (metin "Veri Yapıları"); dk_hoca := None;
       dk_sinif := Some 2; dk_tur := None |}) as [H1 H2];
    [vm_compute; lia|karar|karar|vm_compute; lia|karar|].
  split; [exact H1|]. apply H2; [discriminate|vm_compute; reflexivity].
Defined.

Lemma isimsiz_ogrenci_aktarimi_bozar_ornek :
  _ogrenci_yukle ornek_float (fun _ => None) (fun _ => None) (fun _ => None) (fun _ => []) true
    ornek_sistem3 ornek_koordinator EtiketBos (Some ornek_ogr_kitabi) =
  {| c_sistem := ornek_sistem3; c_etiket := EtiketBos; c_mesajlar := []; c_geri_cagri := None;
     c_istisna := Some IntegrityError |}.
Proof.
  eapply isimsiz_ogrenci_aktarimi_bozar; [vm_compute; discriminate|exact ornek_ogr_sonuc_deger|].
  exists {| ok_ogr_no := metin "2002"; ok_adsoyad := None; ok_sinif := None |}.
  split; [|reflexivity]. apply elem_of_cons. right. by apply list_elem_of_singleton.
Defined.

Lemma kayitlar_yazilir_ornek :
  exists r, r ∈ t_ogrenci_ders ornek_katalog2 /\ kd_ogrenci_id r = og_id ornek_ogr_satiri /\
    kd_ders_id r = ds_id ornek_ders_satiri.
Proof.
  apply (kayitlar_yazilir ornek_katalog 1 ornek_ogr_girdisi ornek_kayit_girdisi ornek_katalog2
           (metin "2001", metin "MAT101")).
  - unfold katalog_tekil, tablo_tekil. karar.
  - vm_compute. reflexivity.
  - apply elem_of_cons. right. by apply list_elem_of_singleton.
  - vm_compute. reflexivity.
  - replace (t_ogrenciler ornek_katalog2) with [ornek_ogr_satiri] by (vm_compute; reflexivity).
    by apply list_elem_of_singleton.
  - reflexivity.
  - vm_compute. reflexivity.
  - replace (t_dersler ornek_katalog2) with [ornek_ders_satiri] by (vm_compute; reflexivity).
    by apply list_elem_of_singleton.
  - reflexivity.
  - vm_compute. reflexivity.
Defined.

End ImportPenceresi.
