(* ===== verification/PlannerProps.v ===== *)
(** * PlannerProps: the invariant of [planla] and its consequences

    [Inv rs havuz st] says of a planner state [st]: every placement
    names its course, one room of [rs] large enough for the course, and
    its interval is recorded in the time table of that room and of each
    of the course's students; no two placements share a room or a
    student at overlapping times; and the pool together with the placed
    courses is a permutation of the courses [havuz] the run started
    with.  Every loop level of [Planner] preserves it, so every state
    [planla] returns satisfies it. *)

From S2P Require Import Prelude Interval Normalize Planner.

Module PlanProps.
Import Aralik Tarih Normal Plan.

(** ** Reading the tests of the code *)

Lemma bos_mu_spec ivs bas bit :
  bos_mu ivs bas bit = true <-> forall iv, iv ∈ ivs -> overlaps bas bit iv.1 iv.2 = false.
Proof.
  unfold bos_mu. rewrite forallb_forall. setoid_rewrite negb_true_iff.
  setoid_rewrite list_elem_of_In. done.
Qed.

Lemma ogrenciler_musait_spec st ids bas bit :
  ogrenciler_musait st ids bas bit = true <->
  forall s iv, s ∈ ids -> iv ∈ default [] (ogr_zaman st !! s) -> overlaps bas bit iv.1 iv.2 = false.
Proof.
  unfold ogrenciler_musait. rewrite forallb_forall. setoid_rewrite bos_mu_spec.
  split.
  - intros H s iv Hs Hiv. apply (H s); [apply list_elem_of_In, elem_of_elements, Hs|done].
  - intros H s Hs iv Hiv. apply (H s); [apply elem_of_elements, list_elem_of_In, Hs|done].
Qed.

Lemma derslik_sec_uygun st rs say bas bit dl :
  derslik_sec st rs say bas bit = Some dl ->
  dl ∈ rs /\ say <= kapasite dl /\ derslik_musait st (dl_id dl) bas bit = true.
Proof.
  unfold derslik_sec. intros H.
  assert (Hin : dl ∈ uygunlar st rs say bas bit).
  { apply (sirala_elem (anahtar_le (kullanim_say st))).
    destruct (sirala _ _) as [|x l]; simplify_eq/=. apply list_elem_of_here. }
  unfold uygunlar in Hin. apply list_elem_of_In, filter_In in Hin as [Hin Hb].
  bool_prop. split; [by apply list_elem_of_In|done].
Qed.

Lemma lookup_ogr_ekle_list (l : list Z) (m : gmap Z (list (Z * Z))) (bas bit s : Z) :
  NoDup l ->
  fold_left (fun m oid => <[oid := default [] (m !! oid) ++ [(bas, bit)]]> m) l m !! s =
  if decide (s ∈ l) then Some (default [] (m !! s) ++ [(bas, bit)]) else m !! s.
Proof.
  revert m. induction l as [|x l IH]; intros m Hnd; simpl.
  - destruct (decide (s ∈ [])) as [H|H]; [by apply elem_of_nil in H|done].
  - apply NoDup_cons in Hnd as [Hx Hnd]. rewrite IH by done.
    destruct (decide (s = x)) as [->|Hne].
    + rewrite decide_False by done. rewrite decide_True by apply list_elem_of_here.
      by rewrite lookup_insert_eq.
    + rewrite lookup_insert_ne by congruence.
      repeat case_decide; try done.
      * exfalso. match goal with H : s ∉ x :: l |- _ => apply H end.
        by apply list_elem_of_further.
      * match goal with H : s ∈ x :: l |- _ => apply elem_of_cons in H as [?|?] end;
          [congruence|contradiction].
Qed.

Lemma lookup_ogr_ekle (m : gmap Z (list (Z * Z))) ids bas bit s :
  ogr_ekle m ids bas bit !! s =
  if decide (s ∈ ids) then Some (default [] (m !! s) ++ [(bas, bit)]) else m !! s.
Proof.
  unfold ogr_ekle. rewrite lookup_ogr_ekle_list by apply NoDup_elements.
  repeat case_decide; try done; set_solver.
Qed.

(** A list only grows under [setdefault(k, []).append(x)]. *)
Lemma ekle_korur (ivs : list (Z * Z)) x iv : iv ∈ ivs -> iv ∈ ivs ++ [x].
Proof. intros H. apply elem_of_app. by left. Qed.

Lemma derslik_zaman_korur (m : gmap Z (list (Z * Z))) r x r' iv :
  iv ∈ default [] (m !! r') ->
  iv ∈ default [] (<[r := default [] (m !! r) ++ [x]]> m !! r').
Proof.
  intros H. destruct (decide (r = r')) as [->|Hne].
  - rewrite lookup_insert_eq. by apply ekle_korur.
  - by rewrite lookup_insert_ne.
Qed.

Lemma ogr_zaman_korur (m : gmap Z (list (Z * Z))) ids bas bit s iv :
  iv ∈ default [] (m !! s) -> iv ∈ default [] (ogr_ekle m ids bas bit !! s).
Proof.
  intros H. rewrite lookup_ogr_ekle. case_decide; [|done]. by apply ekle_korur.
Qed.

(** ** The invariant *)

Definition ayni_zamanda (y1 y2 : Yerlestirme) : bool :=
  overlaps (baslangic y1) (bitis y1) (baslangic y2) (bitis y2).

(** Two placements that share a room or a student do not overlap. *)
Definition uyumlu (p q : Ders * Yerlestirme) : Prop :=
  (forall r, r ∈ derslik_ids p.2 -> r ∈ derslik_ids q.2 -> ayni_zamanda p.2 q.2 = false) /\
  (forall s, s ∈ ogr_ids p.1 -> s ∈ ogr_ids q.1 -> ayni_zamanda p.2 q.2 = false).

Definition cakismasiz (l : list (Ders * Yerlestirme)) : Prop :=
  forall i j p q, (i < j)%nat -> l !! i = Some p -> l !! j = Some q -> uyumlu p q.

(** What the state records about one placement. *)
Definition kayitli (rs : list Derslik) (st : PState) (p : Ders * Yerlestirme) : Prop :=
  y_ders_id p.2 = ders_id p.1 /\
  exists dl, dl ∈ rs /\ derslik_ids p.2 = [dl_id dl] /\ ogr_say p.1 <= kapasite dl /\
    (baslangic p.2, bitis p.2) ∈ default [] (derslik_zaman st !! dl_id dl) /\
    forall s, s ∈ ogr_ids p.1 -> (baslangic p.2, bitis p.2) ∈ default [] (ogr_zaman st !! s).

Record Inv (rs : list Derslik) (havuz : list Ders) (st : PState) : Prop := {
  inv_kayitli : forall p, p ∈ yerlesenler st -> kayitli rs st p;
  inv_cakismasiz : cakismasiz (yerlesenler st);
  inv_havuz : dersler_sirali st ++ (fst <$> yerlesenler st) ≡ₚ havuz
}.

Lemma ayni_zamanda_comm y1 y2 : ayni_zamanda y1 y2 = ayni_zamanda y2 y1.
Proof. apply overlaps_comm. Qed.

Lemma uyumlu_sym p q : uyumlu p q -> uyumlu q p.
Proof.
  intros [Hr Hs]. split; intros; rewrite ayni_zamanda_comm; eauto.
Qed.

Lemma cakismasiz_snoc l q :
  cakismasiz l -> (forall p, p ∈ l -> uyumlu p q) -> cakismasiz (l ++ [q]).
Proof.
  intros Hl Hq i j p p' Hij Hi Hj.
  assert (Hil : (i < length l)%nat).
  { apply lookup_lt_Some in Hj. rewrite length_app in Hj. simpl in Hj.
    destruct (decide (j < length l)%nat); [|].
    - lia.
    - assert (j = length l) by lia. subst.
      apply lookup_lt_Some in Hi. rewrite length_app in Hi. simpl in Hi. lia. }
  rewrite lookup_app_l in Hi by done.
  destruct (decide (j < length l)%nat) as [Hjl|Hjl].
  - rewrite lookup_app_l in Hj by done. eauto.
  - rewrite lookup_app_r in Hj by lia.
    apply list_lookup_singleton_Some in Hj as [_ <-].
    apply Hq. by apply list_elem_of_lookup_2 in Hi.
Qed.

(** ** Preservation, one loop level at a time *)

Lemma yerlestir_inv rs havuz st d dl bas bit st' :
  Inv rs havuz st -> dl ∈ rs -> ogr_say d <= kapasite dl ->
  derslik_musait st (dl_id dl) bas bit = true ->
  ogrenciler_musait st (ogr_ids d) bas bit = true ->
  yerlestir st d (dl_id dl) bas bit ?= st' ->
  Inv rs havuz st'.
Proof.
  intros [Hk Hc Hh] Hdl Hkap Hr Ho Hy. unfold yerlestir in Hy.
  destruct (kaldir d (dersler_sirali st)) as [kalan|e] eqn:Ek; simpl in Hy; [|discriminate].
  injection Hy as <-. apply kaldir_perm in Ek.
  unfold derslik_musait in Hr. rewrite bos_mu_spec in Hr. rewrite ogrenciler_musait_spec in Ho.
  split; simpl.
  - intros p [Hp|Hp%list_elem_of_singleton]%elem_of_app.
    + destruct (Hk p Hp) as (Hid & dl' & Hdl' & Hids & Hkap' & Hrz & Hoz).
      split; [done|]. exists dl'. do 3 (split; [done|]). split.
      * by apply derslik_zaman_korur.
      * intros s Hs. apply ogr_zaman_korur; auto.
    + subst p. split; [done|]. exists dl. do 3 (split; [done|]). simpl. split.
      * rewrite lookup_insert_eq. simpl. apply elem_of_app. right. apply list_elem_of_here.
      * intros s Hs. rewrite lookup_ogr_ekle, decide_True by done. simpl.
        apply elem_of_app. right. apply list_elem_of_here.
  - apply cakismasiz_snoc; [done|]. intros p Hp.
    destruct (Hk p Hp) as (Hid & dl' & Hdl' & Hids & Hkap' & Hrz & Hoz). split; simpl.
    + rewrite Hids. intros r Hr1%list_elem_of_singleton Hr2%list_elem_of_singleton.
      rewrite Hr1 in Hr2. rewrite Hr2 in Hrz.
      unfold ayni_zamanda. rewrite overlaps_comm. by apply (Hr (_, _)).
    + intros s Hs Hs'. unfold ayni_zamanda. rewrite overlaps_comm.
      apply (Ho s (_, _)); auto.
  - rewrite fmap_app, <- Hh, Ek. simpl. solve_Permutation.
Qed.

Lemma uyari_ekle_inv rs havuz st u : Inv rs havuz st -> Inv rs havuz (uyari_ekle st u).
Proof. intros [Hk Hc Hh]. by split. Qed.

Lemma ders_dene_inv o havuz gun slot d st st' b :
  Inv (o_derslikler o) havuz st -> ders_dene o gun slot d st ?= (st', b) ->
  Inv (o_derslikler o) havuz st'.
Proof.
  intros Hinv. unfold ders_dene.
  destruct (dakika_ekle _ _) as [bit|e]; simpl; [|discriminate].
  destruct (ogrenciler_musait _ _ _ _) eqn:Ho; simpl; [|by intros [= <- _]].
  destruct (derslik_sec _ _ _ _ _) as [dl|] eqn:Hs.
  - destruct (yerlestir _ _ _ _ _) as [st''|e] eqn:Hy; simpl; [|discriminate].
    intros [= <- _]. apply derslik_sec_uygun in Hs as (Hdl & Hkap & Hr).
    by eapply yerlestir_inv.
  - intros [= <- _]. by apply uyari_ekle_inv.
Qed.

Lemma slot_dongusu_inv o havuz gun slot mx aday eklendi st st' :
  Inv (o_derslikler o) havuz st -> slot_dongusu o gun slot mx aday eklendi st ?= st' ->
  Inv (o_derslikler o) havuz st'.
Proof.
  revert eklendi st. induction aday as [|d aday IH]; intros eklendi st Hinv; simpl;
    [by intros [= <-]|].
  case_decide; [by intros [= <-]|].
  destruct (ders_dene o gun slot d st) as [[st'' []]|e] eqn:Hd; [| |discriminate].
  all: apply (ders_dene_inv _ havuz) in Hd; [|done].
  - destruct (o_tek_seans o); [by intros [= <-]|]. by apply IH.
  - by apply IH.
Qed.

Lemma slotlar_dongusu_inv o havuz gun slotlar st st' :
  Inv (o_derslikler o) havuz st -> slotlar_dongusu o gun slotlar st ?= st' ->
  Inv (o_derslikler o) havuz st'.
Proof.
  revert st. induction slotlar as [|slot slotlar IH]; intros st Hinv; simpl; [by intros [= <-]|].
  destruct (dersler_sirali st); [by intros [= <-]|].
  destruct (slot_dongusu _ _ _ _ _ _ _) as [st''|e] eqn:Hs; simpl; [|discriminate].
  apply IH. by eapply slot_dongusu_inv.
Qed.

Lemma gun_dongusu_inv o havuz bit gd slotlar yakit gun st st' :
  Inv (o_derslikler o) havuz st -> gun_dongusu o bit gd slotlar yakit gun st ?= st' ->
  Inv (o_derslikler o) havuz st'.
Proof.
  revert gun st. induction yakit as [|yakit IH]; intros gun st Hinv; simpl; [by intros [= <-]|].
  destruct (gun <=? bit); [|by intros [= <-]].
  case_decide.
  - destruct (gun_ekle gun 1); simpl; [|discriminate]. by apply IH.
  - destruct (slotlar_dongusu _ _ _ _) as [st''|e] eqn:Hs; simpl; [|discriminate].
    destruct (gun_ekle gun 1); simpl; [|discriminate].
    apply IH. by eapply slotlar_dongusu_inv.
Qed.

Lemma ilk_durum_inv k ds rs :
  Inv (sirala_azalan kapasite rs) (dahil_filtre (dahil_ders_ids k) ds) (ilk_durum k ds rs).
Proof.
  split; simpl.
  - intros p Hp. by apply elem_of_nil in Hp.
  - intros i j p q _ Hi. done.
  - rewrite app_nil_r. apply sirala_perm.
Qed.

(** Every state [planla] ends in satisfies the invariant. *)
Lemma planla_durum_inv k ds rs st :
  planla_durum k ds rs ?= st ->
  Inv (sirala_azalan kapasite rs) (dahil_filtre (dahil_ders_ids k) ds) st.
Proof.
  unfold planla_durum. intros H. eapply (gun_dongusu_inv (ortam k rs)); [|exact H].
  apply ilk_durum_inv.
Qed.

(** ** Consequences for the result of [planla] *)

Lemma cakismasiz_ne l i j p q :
  cakismasiz l -> i <> j -> l !! i = Some p -> l !! j = Some q -> uyumlu p q.
Proof.
  intros Hc Hij Hi Hj. destruct (decide (i < j)%nat); [by eapply Hc|].
  apply uyumlu_sym. eapply Hc; [|done..]. lia.
Qed.

Lemma planla_tamam k ds rs ys us f :
  planla k ds rs ?= (ys, us, f) ->
  exists st, planla_durum k ds rs ?= st /\ ys = snd <$> yerlesenler st /\ us = uyarilar st /\ f = false.
Proof.
  unfold planla. destruct (planla_durum k ds rs) as [st|e]; simpl; [|discriminate].
  intros [= <- <- <-]. by exists st.
Qed.

Lemma dahil_filtre_sub dahil ds : dahil_filtre dahil ds ⊆+ ds.
Proof.
  unfold dahil_filtre. destruct dahil as [[|x l]|]; try done.
  apply sublist_submseteq. induction ds as [|d ds IH]; simpl; [done|].
  destruct (bool_decide _); by constructor.
Qed.

Lemma elem_of_dahil_filtre dahil ds d :
  d ∈ dahil_filtre dahil ds ->
  d ∈ ds /\ forall izinli, dahil = Some izinli -> izinli <> [] -> ders_id d ∈ izinli.
Proof.
  unfold dahil_filtre. destruct dahil as [[|x l]|]; intros Hd.
  - split; [done|]. intros ? [= <-] Hne. by contradiction Hne.
  - apply list_elem_of_In, filter_In in Hd as [Hd Hb]. apply bool_decide_eq_true_1 in Hb.
    split; [by apply list_elem_of_In|]. by intros ? [= <-] _.
  - split; [done|]. by intros ? [=].
Qed.


Lemma anahtar_le_total m a b : anahtar_le m a b = true \/ anahtar_le m b a = true.
Proof.
  unfold anahtar_le. destruct (Z.lt_trichotomy (default 0 (m !! dl_id a)) (default 0 (m !! dl_id b)))
    as [H|[H|H]].
  - left. apply orb_true_iff. left. by apply Z.ltb_lt.
  - rewrite H, Z.ltb_irrefl, Z.eqb_refl. simpl. rewrite !Z.leb_le. lia.
  - right. apply orb_true_iff. left. by apply Z.ltb_lt.
Qed.

Lemma anahtar_le_trans m a b c :
  anahtar_le m a b = true -> anahtar_le m b c = true -> anahtar_le m a c = true.
Proof.
  unfold anahtar_le. rewrite !orb_true_iff, !andb_true_iff, !Z.ltb_lt, !Z.eqb_eq, !Z.leb_le. lia.
Qed.

(** The number of placements grows by one exactly when [ders_dene] places. *)
Lemma ders_dene_uzunluk o gun slot d st st' b :
  ders_dene o gun slot d st ?= (st', b) ->
  length (yerlesenler st') = (length (yerlesenler st) + if b then 1 else 0)%nat.
Proof.
  unfold ders_dene. destruct (dakika_ekle _ _) as [bit|e]; simpl; [|discriminate].
  destruct (ogrenciler_musait _ _ _ _); simpl; [|intros [= <- <-]; lia].
  destruct (derslik_sec _ _ _ _ _) as [dl|].
  - unfold yerlestir. destruct (kaldir _ _); simpl; [|discriminate].
    intros [= <- <-]. simpl. rewrite length_app. simpl. lia.
  - intros [= <- <-]. simpl. lia.
Qed.

(** The day loop ignores fuel beyond the number of remaining days. *)
Lemma gun_dongusu_yakit o bit gd sl f1 f2 gun st :
  (Z.to_nat (bit - gun + 1) <= f1)%nat -> (Z.to_nat (bit - gun + 1) <= f2)%nat ->
  gun_dongusu o bit gd sl f1 gun st = gun_dongusu o bit gd sl f2 gun st.
Proof.
  revert f2 gun st. induction f1 as [|f1 IH]; intros f2 gun st H1 H2.
  - destruct f2 as [|f2]; simpl; [done|]. rewrite (proj2 (Z.leb_gt gun bit)) by lia. done.
  - destruct f2 as [|f2]; simpl; [rewrite (proj2 (Z.leb_gt gun bit)) by lia; done|].
    destruct (Z.leb_spec gun bit); [|done].
    unfold gun_ekle. destruct (gecerli_tarih (gun + 1)); simpl.
    + case_decide.
      * apply IH; lia.
      * destruct (slotlar_dongusu o gun sl st); simpl; [|done]. apply IH; lia.
    + case_decide; [done|]. by destruct (slotlar_dongusu o gun sl st).
Qed.

(** The placed courses are distinct when the input courses are. *)
Lemma yerlesenler_ders_nodup rs dahil ds st :
  Inv rs (dahil_filtre dahil ds) st -> NoDup (ders_id <$> ds) ->
  NoDup (y_ders_id <$> (snd <$> yerlesenler st)).
Proof.
  intros [Hk _ Hh] Hnd.
  assert (Hsub : fst <$> yerlesenler st ⊆+ ds).
  { transitivity (dahil_filtre dahil ds); [|apply dahil_filtre_sub].
    rewrite <- Hh. by apply submseteq_inserts_l. }
  assert (Hid : y_ders_id <$> (snd <$> yerlesenler st) = ders_id <$> (fst <$> yerlesenler st)).
  { rewrite <- !list_fmap_compose. apply list_fmap_ext. intros i [d y] Hi.
    apply list_elem_of_lookup_2 in Hi. by destruct (Hk _ Hi) as [? _]. }
  rewrite Hid. eapply submseteq_NoDup_inv; [|exact Hnd]. by apply fmap_submseteq.
Qed.

(** ** Exceptions: [list.remove] never fails, only the date additions can *)

(** The course pool after one iteration of the course loop. *)
Lemma ders_dene_havuz o gun slot d st st' b :
  ders_dene o gun slot d st ?= (st', b) ->
  if b then dersler_sirali st ≡ₚ d :: dersler_sirali st' else dersler_sirali st' = dersler_sirali st.
Proof.
  unfold ders_dene. destruct (dakika_ekle _ _) as [bit|e]; simpl; [|discriminate].
  destruct (ogrenciler_musait _ _ _ _); simpl; [|by intros [= <- <-]].
  destruct (derslik_sec _ _ _ _ _) as [dl|].
  - unfold yerlestir. destruct (kaldir _ _) eqn:Ek; simpl; [|discriminate].
    intros [= <- <-]. simpl. by apply kaldir_perm.
  - by intros [= <- <-].
Qed.

(** What is left of the candidate list is still in the pool. *)
Lemma ders_dene_aday o gun slot d aday st st' b :
  d :: aday ⊆+ dersler_sirali st -> ders_dene o gun slot d st ?= (st', b) ->
  aday ⊆+ dersler_sirali st'.
Proof.
  intros Hsub Hd. apply ders_dene_havuz in Hd. destruct b.
  - rewrite Hd in Hsub. by apply (submseteq_app_inv_l _ _ [d]).
  - rewrite Hd. etrans; [|exact Hsub]. by apply submseteq_cons.
Qed.

Lemma ders_dene_hata o gun slot d st e :
  d ∈ dersler_sirali st -> ders_dene o gun slot d st = Hata e -> e = OverflowError.
Proof.
  intros Hd. unfold ders_dene.
  destruct (dakika_ekle _ _) as [bit|e'] eqn:Hb; simpl; [|intros [= <-]; by eapply dakika_ekle_hata].
  destruct (ogrenciler_musait _ _ _ _); simpl; [|discriminate].
  destruct (derslik_sec _ _ _ _ _) as [dl|]; [|discriminate].
  unfold yerlestir. destruct (kaldir_elem d _ Hd) as (l' & -> & _). simpl. discriminate.
Qed.

Lemma slot_dongusu_hata o gun slot mx aday eklendi st e :
  aday ⊆+ dersler_sirali st -> slot_dongusu o gun slot mx aday eklendi st = Hata e ->
  e = OverflowError.
Proof.
  revert eklendi st. induction aday as [|d aday IH]; intros eklendi st Hsub; simpl; [discriminate|].
  case_decide; [discriminate|].
  destruct (ders_dene o gun slot d st) as [[st' b]|e'] eqn:Hd.
  - pose proof (ders_dene_aday _ _ _ _ _ _ _ _ Hsub Hd).
    destruct b; [destruct (o_tek_seans o); [discriminate|]|]; by apply IH.
  - intros [= <-]. eapply ders_dene_hata; [|exact Hd].
    eapply elem_of_submseteq; [apply list_elem_of_here|exact Hsub].
Qed.

Lemma slotlar_dongusu_hata o gun slotlar st e :
  slotlar_dongusu o gun slotlar st = Hata e -> e = OverflowError.
Proof.
  revert st. induction slotlar as [|slot slotlar IH]; intros st; simpl; [discriminate|].
  destruct (dersler_sirali st) as [|x l] eqn:Hp; [discriminate|].
  destruct (slot_dongusu _ _ _ _ _ _ _) as [st'|e'] eqn:Hs; simpl; [apply IH|].
  intros [= <-]. eapply slot_dongusu_hata; [|exact Hs]. by rewrite Hp.
Qed.

Lemma gun_dongusu_hata o bit gd sl yakit gun st e :
  gun_dongusu o bit gd sl yakit gun st = Hata e -> e = OverflowError.
Proof.
  revert gun st. induction yakit as [|yakit IH]; intros gun st; simpl; [discriminate|].
  destruct (gun <=? bit); [|discriminate].
  case_decide; [|destruct (slotlar_dongusu o gun sl st) as [st'|e'] eqn:Hs; simpl;
                 [|intros [= <-]; by eapply slotlar_dongusu_hata]].
  all: destruct (gun_ekle gun 1) as [g'|e'] eqn:Hg; simpl; [apply IH|intros [= <-]; by eapply gun_ekle_hata].
Qed.

(** ** Totality: ranges under which no exception is raised *)

(** The exam durations of a run lie in [[0, 1440]] minutes. *)
Definition sureler_sinirli (o : Ortam) : Prop :=
  (0 <= o_default_sure o <= DAKIKA_GUN) /\
  map_Forall (fun _ v => 0 <= v <= DAKIKA_GUN) (o_sure_map o).

Lemma sure_sinirli o d :
  sureler_sinirli o -> 0 <= default (o_default_sure o) (o_sure_map o !! ders_id d) <= DAKIKA_GUN.
Proof. intros [Hd Hm]. destruct (o_sure_map o !! ders_id d) eqn:E; simpl; [exact (Hm _ _ E)|done]. Qed.

Lemma ders_dene_tamam o gun slot d st :
  sureler_sinirli o -> MINORD <= gun < MAXORD -> 0 <= slot < DAKIKA_GUN ->
  d ∈ dersler_sirali st -> exists r, ders_dene o gun slot d st ?= r.
Proof.
  intros Ho Hg Hs Hd. unfold ders_dene.
  rewrite dakika_ekle_ok by (apply gecerli_an_combine; auto using sure_sinirli). simpl.
  destruct (ogrenciler_musait _ _ _ _); simpl; [|eauto].
  destruct (derslik_sec _ _ _ _ _) as [dl|]; [|eauto].
  unfold yerlestir. destruct (kaldir_elem d _ Hd) as (l' & -> & _). simpl. eauto.
Qed.

Section Toplam.
Context (o : Ortam) (Ho : sureler_sinirli o).

Lemma slot_dongusu_tamam gun slot mx aday eklendi st :
  MINORD <= gun < MAXORD -> 0 <= slot < DAKIKA_GUN -> aday ⊆+ dersler_sirali st ->
  exists st', slot_dongusu o gun slot mx aday eklendi st ?= st'.
Proof.
  intros Hg Hs. revert eklendi st.
  induction aday as [|d aday IH]; intros eklendi st Hsub; simpl; [eauto|].
  case_decide; [eauto|].
  destruct (ders_dene_tamam o gun slot d st) as [[st' b] Hd]; [done..| |].
  { eapply elem_of_submseteq; [apply list_elem_of_here|exact Hsub]. }
  rewrite Hd. pose proof (ders_dene_aday _ _ _ _ _ _ _ _ Hsub Hd).
  destruct b; [destruct (o_tek_seans o); [eauto|]|]; by apply IH.
Qed.

Lemma slotlar_dongusu_tamam gun slotlar st :
  MINORD <= gun < MAXORD -> (forall s, s ∈ slotlar -> 0 <= s < DAKIKA_GUN) ->
  exists st', slotlar_dongusu o gun slotlar st ?= st'.
Proof.
  intros Hg. revert st. induction slotlar as [|slot slotlar IH]; intros st Hs; simpl; [eauto|].
  destruct (dersler_sirali st) as [|x l] eqn:Hp; [eauto|].
  destruct (slot_dongusu_tamam gun slot (if o_tek_seans o then 1%nat else length (x :: l))
    (x :: l) 0 st) as [st' ->]; [done|by apply Hs, list_elem_of_here|by rewrite Hp|].
  simpl. apply IH. intros s Hs'. apply Hs. by apply list_elem_of_further.
Qed.

Lemma gun_dongusu_tamam bit gd sl yakit gun st :
  MINORD <= gun -> bit < MAXORD -> (forall s, s ∈ sl -> 0 <= s < DAKIKA_GUN) ->
  exists st', gun_dongusu o bit gd sl yakit gun st ?= st'.
Proof.
  intros Hg Hb Hs. revert gun st Hg. induction yakit as [|yakit IH]; intros gun st Hg; simpl; [eauto|].
  destruct (Z.leb_spec gun bit); [|eauto].
  rewrite gun_ekle_ok by (unfold MINORD, MAXORD in *; lia). simpl.
  case_decide; [apply IH; lia|].
  destruct (slotlar_dongusu_tamam gun sl st) as [st' ->]; [lia|done|]. simpl. apply IH. lia.
Qed.

End Toplam.

(** The day loop ends in [OverflowError] when it reaches [date.max]. *)
Lemma gun_dongusu_maks o gd sl yakit gun st :
  MINORD <= gun <= MAXORD -> (Z.to_nat (MAXORD - gun + 1) <= yakit)%nat ->
  exists e, gun_dongusu o MAXORD gd sl yakit gun st = Hata e.
Proof.
  revert gun st. induction yakit as [|yakit IH]; intros gun st Hg Hy; [lia|]. simpl.
  rewrite (proj2 (Z.leb_le gun MAXORD)) by lia.
  assert (Hstep : forall st', exists e,
    (gun' ← gun_ekle gun 1; gun_dongusu o MAXORD gd sl yakit gun' st') = Hata e).
  { intros st'. destruct (decide (gun = MAXORD)) as [->|Hne].
    - rewrite gun_ekle_overflow by lia. simpl. eauto.
    - rewrite gun_ekle_ok by (unfold MINORD in *; lia). simpl. apply IH; lia. }
  case_decide; [apply Hstep|].
  destruct (slotlar_dongusu o gun sl st); simpl; [apply Hstep|eauto].
Qed.

(** ** A concrete run

    Two courses that share student 2, one room of 40 seats, one day
    (2024-01-01, ordinal 738886) with the slots ["09:00"] and ["12:00"]
    and 90-minute exams: the larger course goes to 09:00, the other
    cannot sit then and goes to 12:00 in the same room. *)
Definition ornek_mat : Ders :=
  {| ders_id := 1; kod := "MAT101"%string; ad := "Matematik"%string; hoca := None;
     sinif := Some 1; ogr_say := 30; ogr_ids := {[1; 2; 3]} |}.
Definition ornek_fiz : Ders :=
  {| ders_id := 2; kod := "FIZ101"%string; ad := "Fizik"%string; hoca := None;
     sinif := Some 1; ogr_say := 20; ogr_ids := {[2; 4]} |}.
Definition ornek_dersler : list Ders := [ornek_fiz; ornek_mat].
Definition ornek_derslikler : list Derslik := [{| dl_id := 7; kapasite := 40 |}].
Definition ornek_kisit (bas bit : Z) (tek : bool) : Kisit :=
  {| tarih_bas := bas; tarih_bit := bit;
     slot_saatleri := [SaatMetni (ascii_str "09:00"); SaatMetni (ascii_str "12:00")];
     varsayilan_sure_dk := 90; bekleme_dk := 0; tek_seans := tek; dahil_ders_ids := None;
     gun_disi := [GunMetni (ascii_str "Pazar")]; ders_istisna_sure := ∅ |}.
Definition ornek_y1 : Yerlestirme :=
  {| y_ders_id := 1; baslangic := combine 738886 540; bitis := combine 738886 540 + 90;
     derslik_ids := [7] |}.
Definition ornek_y2 : Yerlestirme :=
  {| y_ders_id := 2; baslangic := combine 738886 720; bitis := combine 738886 720 + 90;
     derslik_ids := [7] |}.

(** A one-day constraint with given slots and [tek_seans] flag. *)
Definition ornek_kisit_slotlar (slotlar : list SaatDegeri) (tek : bool) : Kisit :=
  {| tarih_bas := 738886; tarih_bit := 738886; slot_saatleri := slotlar;
     varsayilan_sure_dk := 90; bekleme_dk := 0; tek_seans := tek; dahil_ders_ids := None;
     gun_disi := []; ders_istisna_sure := ∅ |}.
Definition ornek_kim : Ders :=
  {| ders_id := 3; kod := "KIM101"%string; ad := "Kimya"%string; hoca := None;
     sinif := Some 2; ogr_say := 10; ogr_ids := {[5; 6]} |}.

(** ** Theorems *)

(** C1 (no room double-booking): in the placements [planla] returns,
    two different placements that use the same room have disjoint
    half-open intervals [[baslangic, bitis)]. *)
Theorem planla_derslik_cakismasiz k ds rs ys us f i j y1 y2 r :
  planla k ds rs ?= (ys, us, f) -> i <> j ->
  ys !! i = Some y1 -> ys !! j = Some y2 ->
  r ∈ derslik_ids y1 -> r ∈ derslik_ids y2 ->
  overlaps (baslangic y1) (bitis y1) (baslangic y2) (bitis y2) = false.
Proof.
  intros (st & Hst & -> & _ & _)%planla_tamam Hij Hi Hj Hr1 Hr2.
  apply planla_durum_inv in Hst as [_ Hc _].
  apply list_lookup_fmap_Some in Hi as ([d1 y1'] & -> & Hi).
  apply list_lookup_fmap_Some in Hj as ([d2 y2'] & -> & Hj).
  exact (proj1 (cakismasiz_ne _ _ _ _ _ Hc Hij Hi Hj) r Hr1 Hr2).
Qed.

(** C2 (no student conflict): two different placements of a run whose
    courses share a student have disjoint intervals. *)
Theorem planla_ogrenci_cakismasiz k ds rs st i j d1 y1 d2 y2 s :
  planla_durum k ds rs ?= st -> i <> j ->
  yerlesenler st !! i = Some (d1, y1) -> yerlesenler st !! j = Some (d2, y2) ->
  s ∈ ogr_ids d1 -> s ∈ ogr_ids d2 ->
  overlaps (baslangic y1) (bitis y1) (baslangic y2) (bitis y2) = false.
Proof.
  intros Hst Hij Hi Hj Hs1 Hs2. apply planla_durum_inv in Hst as [_ Hc _].
  exact (proj2 (cakismasiz_ne _ _ _ _ _ Hc Hij Hi Hj) s Hs1 Hs2).
Qed.

(** C3 (capacity): every placement of a run names its course and exactly
    one input room whose capacity is at least the course's [ogr_say]. *)
Theorem planla_kapasite k ds rs st d y :
  planla_durum k ds rs ?= st -> (d, y) ∈ yerlesenler st ->
  y_ders_id y = ders_id d /\
  exists dl, dl ∈ rs /\ derslik_ids y = [dl_id dl] /\ ogr_say d <= kapasite dl.
Proof.
  intros Hst Hp. apply planla_durum_inv in Hst as [Hk _ _].
  destruct (Hk _ Hp) as (Hid & dl & Hdl & Hids & Hkap & _).
  split; [done|]. exists dl. unfold sirala_azalan in Hdl. rewrite sirala_elem in Hdl. done.
Qed.

(** C4 (each course at most once, only selected courses): if the input
    courses have distinct ids, the placements of [planla] have distinct
    course ids, and each is the id of a course that passed the
    [dahil_ders_ids] filter. *)
Theorem planla_ders_bir_kez k ds rs ys us f :
  NoDup (ders_id <$> ds) -> planla k ds rs ?= (ys, us, f) ->
  NoDup (y_ders_id <$> ys) /\
  forall y, y ∈ ys -> exists d, d ∈ dahil_filtre (dahil_ders_ids k) ds /\ ders_id d = y_ders_id y.
Proof.
  intros Hnd (st & Hst & -> & _ & _)%planla_tamam.
  pose proof (planla_durum_inv _ _ _ _ Hst) as Hinv.
  split; [by eapply yerlesenler_ders_nodup|]. destruct Hinv as [Hk _ Hh].
  intros y (p & -> & Hp)%list_elem_of_fmap. exists p.1. split.
  - rewrite <- Hh. apply elem_of_app. right. by apply list_elem_of_fmap_2.
  - by destruct (Hk _ Hp) as [? _].
Qed.

(** (room choice): [derslik_sec] returns a room of the list that is
    large enough and free at [[bas, bit)], and no such room has a smaller
    key [(kullanim_say[id], kapasite)]; it returns [None] only when no
    room is large enough and free. *)
Theorem derslik_sec_dogru st rs say bas bit :
  match derslik_sec st rs say bas bit with
  | Some dl =>
      (dl ∈ rs /\ say <= kapasite dl /\ derslik_musait st (dl_id dl) bas bit = true) /\
      forall dl', dl' ∈ rs -> say <= kapasite dl' -> derslik_musait st (dl_id dl') bas bit = true ->
        anahtar_le (kullanim_say st) dl dl' = true
  | None => forall dl, dl ∈ rs -> say <= kapasite dl -> derslik_musait st (dl_id dl) bas bit = false
  end.
Proof.
  destruct (derslik_sec st rs say bas bit) as [dl|] eqn:Hs.
  - split; [by apply derslik_sec_uygun in Hs|].
    intros dl' Hdl' Hk Hm. unfold derslik_sec in Hs.
    destruct (sirala _ _) as [|x l] eqn:Hsr; simplify_eq/=.
    eapply sirala_head_min; [apply anahtar_le_total|apply anahtar_le_trans|exact Hsr|].
    apply list_elem_of_In, filter_In. split; [by apply list_elem_of_In|].
    rewrite Hm, andb_true_r. by apply Z.leb_le.
  - intros dl Hdl Hk. destruct (derslik_musait st (dl_id dl) bas bit) eqn:Hm; [|done].
    exfalso. unfold derslik_sec in Hs.
    assert (Hin : dl ∈ sirala (anahtar_le (kullanim_say st)) (uygunlar st rs say bas bit)).
    { apply sirala_elem, list_elem_of_In, filter_In. split; [by apply list_elem_of_In|].
      rewrite Hm, andb_true_r. by apply Z.leb_le. }
    destruct (sirala _ _); [by apply elem_of_nil in Hin|done].
Qed.

(** (no parallel exams per slot): when [tek_seans] is set, one pass of
    the slot loop adds at most one placement. *)
Theorem slot_dongusu_tek_seans o gun slot mx aday eklendi st st' :
  o_tek_seans o = true -> slot_dongusu o gun slot mx aday eklendi st ?= st' ->
  (length (yerlesenler st') <= length (yerlesenler st) + 1)%nat.
Proof.
  intros Hts. revert eklendi st. induction aday as [|d aday IH]; intros eklendi st; simpl;
    [intros [= <-]; lia|].
  case_decide; [intros [= <-]; lia|].
  destruct (ders_dene o gun slot d st) as [[st'' []]|e] eqn:Hd; [| |discriminate].
  - rewrite Hts. intros [= <-]. apply ders_dene_uzunluk in Hd. lia.
  - intros Hr. apply IH in Hr. apply ders_dene_uzunluk in Hd. lia.
Qed.

(** (fuel): the fuel [gun_sayisi] of the day loop is enough: any
    larger fuel gives the same result, so the loop has run to its exit
    [gun > tarih_bit] (or to an exception). *)
Theorem gun_dongusu_yakit_yeterli k dersler derslikler n :
  (gun_sayisi k <= n)%nat ->
  gun_dongusu (ortam k derslikler) (tarih_bit k) (normalize_gun_disi (gun_disi k))
    (omap to_time (slot_saatleri k)) n (tarih_bas k) (ilk_durum k dersler derslikler) =
  planla_durum k dersler derslikler.
Proof.
  intros Hn. unfold planla_durum, gun_sayisi in *. apply gun_dongusu_yakit; lia.
Qed.

(** (exceptions): the course loop only tries courses still in the
    pool, so [dersler_sirali.remove(d)] never raises [ValueError]; the
    only exception [planla] can raise is the [OverflowError] of a date or
    datetime addition. *)
Theorem planla_hata_overflow k ds rs e :
  planla k ds rs = Hata e -> e = OverflowError.
Proof.
  unfold planla, planla_durum. destruct (gun_dongusu _ _ _ _ _ _ _) eqn:Hg; simpl; [discriminate|].
  intros [= <-]. by eapply gun_dongusu_hata.
Qed.

(** C18 (totality): when the period starts at or after [date.min] and
    ends before [date.max], every slot is a time of day and every exam
    duration lies in [[0, 1440]] minutes, [planla] returns a result. *)
Theorem planla_toplam k ds rs :
  MINORD <= tarih_bas k -> tarih_bit k < MAXORD ->
  Forall (fun m => 0 <= m < DAKIKA_GUN) (omap to_time (slot_saatleri k)) ->
  0 <= default_sure k <= DAKIKA_GUN ->
  map_Forall (fun _ v => 0 <= v <= DAKIKA_GUN) (ders_istisna_sure k) ->
  exists r, planla k ds rs ?= r.
Proof.
  intros Hb He Hs Hd Hm. unfold planla, planla_durum.
  destruct (gun_dongusu_tamam (ortam k rs)) with (bit := tarih_bit k)
    (gd := normalize_gun_disi (gun_disi k)) (sl := omap to_time (slot_saatleri k))
    (yakit := gun_sayisi k) (gun := tarih_bas k) (st := ilk_durum k ds rs) as [st ->];
    [by split|done|done|by apply Forall_forall|].
  simpl. eauto.
Qed.

(** C25 (overflow at [date.max]): when the period is not empty and ends
    on [date.max], [planla] raises [OverflowError]: after the last day
    the loop still computes [gun + timedelta(days=1)]. *)
Theorem planla_tarih_max k ds rs :
  MINORD <= tarih_bas k <= tarih_bit k -> tarih_bit k = MAXORD ->
  planla k ds rs = Hata OverflowError.
Proof.
  intros Hb Hm. unfold planla, planla_durum. rewrite Hm.
  destruct (gun_dongusu_maks (ortam k rs) (normalize_gun_disi (gun_disi k))
    (omap to_time (slot_saatleri k)) (gun_sayisi k) (tarih_bas k) (ilk_durum k ds rs))
    as [e He]; [lia|unfold gun_sayisi; lia|].
  rewrite He. simpl. f_equal. by eapply gun_dongusu_hata.
Qed.

(** (parallel exams with [tek_seans]): [tek_seans] allows one course
    per slot start, not one exam at a time: with the slots 09:00 and
    10:00 and 90-minute exams, two courses without common students are
    placed at 09:00-10:30 and 10:00-11:30 in two rooms, overlapping. *)
Theorem tek_seans_zamanda_cakisir :
  exists k ds rs y1 y2,
    tek_seans k = true /\ planla k ds rs ?= ([y1; y2], [], false) /\
    overlaps (baslangic y1) (bitis y1) (baslangic y2) (bitis y2) = true.
Proof.
  exists (ornek_kisit_slotlar [SaatMetni (ascii_str "09:00"); SaatMetni (ascii_str "10:00")] true),
    [ornek_mat; ornek_kim], [{| dl_id := 7; kapasite := 40 |}; {| dl_id := 8; kapasite := 40 |}].
  do 2 eexists. split; [reflexivity|]. split; [vm_compute; reflexivity|].
  vm_compute. reflexivity.
Qed.

(** (silent skip): a course that cannot sit in any slot because of a
    student conflict is left out without a warning: with the single slot
    09:00, [FIZ101] shares student 2 with [MAT101], is not placed, and
    the warning list is empty. *)
Theorem planla_sessiz_atlama :
  exists ys, planla (ornek_kisit_slotlar [SaatMetni (ascii_str "09:00")] false)
      ornek_dersler ornek_derslikler ?= (ys, [], false) /\
    ornek_fiz ∈ ornek_dersler /\ ders_id ornek_fiz ∉ y_ders_id <$> ys.
Proof.
  eexists. split; [vm_compute; reflexivity|]. split.
  - apply list_elem_of_here.
  - simpl. rewrite list_elem_of_singleton. done.
Qed.

(** ** Witnesses *)

Lemma planla_derslik_cakismasiz_ornek :
  planla (ornek_kisit 738886 738886 false) ornek_dersler ornek_derslikler
    ?= ([ornek_y1; ornek_y2], [], false) /\
  overlaps (baslangic ornek_y1) (bitis ornek_y1) (baslangic ornek_y2) (bitis ornek_y2) = false.
Proof.
  split; [vm_compute; reflexivity|].
  apply (planla_derslik_cakismasiz (ornek_kisit 738886 738886 false) ornek_dersler
    ornek_derslikler [ornek_y1; ornek_y2] [] false 0 1 ornek_y1 ornek_y2 7);
    [vm_compute; reflexivity|lia|reflexivity|reflexivity|simpl; apply list_elem_of_here..].
Defined.

Lemma planla_ogrenci_cakismasiz_ornek :
  exists st, planla_durum (ornek_kisit 738886 738886 false) ornek_dersler ornek_derslikler ?= st /\
    yerlesenler st = [(ornek_mat, ornek_y1); (ornek_fiz, ornek_y2)] /\
    overlaps (baslangic ornek_y1) (bitis ornek_y1) (baslangic ornek_y2) (bitis ornek_y2) = false.
Proof.
  eexists. split; [vm_compute; reflexivity|]. split; [reflexivity|].
  eapply (planla_ogrenci_cakismasiz (ornek_kisit 738886 738886 false) ornek_dersler
    ornek_derslikler _ 0 1 ornek_mat ornek_y1 ornek_fiz ornek_y2 2);
    [vm_compute; reflexivity|lia|reflexivity|reflexivity|set_solver..].
Defined.

Lemma planla_kapasite_ornek :
  exists st, planla_durum (ornek_kisit 738886 738886 false) ornek_dersler ornek_derslikler ?= st /\
    (ornek_fiz, ornek_y2) ∈ yerlesenler st /\
    (y_ders_id ornek_y2 = ders_id ornek_fiz /\
     exists dl, dl ∈ ornek_derslikler /\ derslik_ids ornek_y2 = [dl_id dl] /\
       ogr_say ornek_fiz <= kapasite dl).
Proof.
  eexists. split; [vm_compute; reflexivity|]. split; [simpl; apply list_elem_of_further, list_elem_of_here|].
  eapply (planla_kapasite (ornek_kisit 738886 738886 false) ornek_dersler ornek_derslikler);
    [vm_compute; reflexivity|simpl; apply list_elem_of_further, list_elem_of_here].
Defined.

Lemma planla_ders_bir_kez_ornek :
  NoDup (ders_id <$> ornek_dersler) /\
  NoDup (y_ders_id <$> [ornek_y1; ornek_y2]) /\
  forall y, y ∈ [ornek_y1; ornek_y2] -> exists d,
    d ∈ dahil_filtre (dahil_ders_ids (ornek_kisit 738886 738886 false)) ornek_dersler /\
    ders_id d = y_ders_id y.
Proof.
  split; [karar|].
  apply (planla_ders_bir_kez (ornek_kisit 738886 738886 false) ornek_dersler ornek_derslikler
    [ornek_y1; ornek_y2] [] false); [karar|vm_compute; reflexivity].
Defined.

Lemma slot_dongusu_tek_seans_ornek :
  exists st', slot_dongusu (ortam (ornek_kisit 738886 738886 true) ornek_derslikler) 738886 540 1
    (dersler_sirali (ilk_durum (ornek_kisit 738886 738886 true) ornek_dersler ornek_derslikler)) 0
    (ilk_durum (ornek_kisit 738886 738886 true) ornek_dersler ornek_derslikler) ?= st' /\
  length (yerlesenler st') = 1%nat /\
  (length (yerlesenler st') <= length (yerlesenler
     (ilk_durum (ornek_kisit 738886 738886 true) ornek_dersler ornek_derslikler)) + 1)%nat.
Proof.
  eexists. split; [vm_compute; reflexivity|]. split; [reflexivity|].
  eapply (slot_dongusu_tek_seans (ortam (ornek_kisit 738886 738886 true) ornek_derslikler)
    738886 540 1
    (dersler_sirali (ilk_durum (ornek_kisit 738886 738886 true) ornek_dersler ornek_derslikler)) 0
    (ilk_durum (ornek_kisit 738886 738886 true) ornek_dersler ornek_derslikler));
    [reflexivity|vm_compute; reflexivity].
Defined.

Lemma gun_dongusu_yakit_yeterli_ornek :
  (gun_sayisi (ornek_kisit 738886 738892 false) <= 10)%nat /\
  gun_dongusu (ortam (ornek_kisit 738886 738892 false) ornek_derslikler) 738892
    (normalize_gun_disi (gun_disi (ornek_kisit 738886 738892 false)))
    (omap to_time (slot_saatleri (ornek_kisit 738886 738892 false))) 10 738886
    (ilk_durum (ornek_kisit 738886 738892 false) ornek_dersler ornek_derslikler) =
  planla_durum (ornek_kisit 738886 738892 false) ornek_dersler ornek_derslikler.
Proof.
  split; [karar|].
  apply (gun_dongusu_yakit_yeterli (ornek_kisit 738886 738892 false)); karar.
Defined.

Lemma planla_hata_overflow_ornek :
  planla (ornek_kisit MAXORD MAXORD false) ornek_dersler ornek_derslikler = Hata OverflowError /\
  OverflowError = OverflowError.
Proof.
  split; [vm_compute; reflexivity|].
  apply (planla_hata_overflow (ornek_kisit MAXORD MAXORD false) ornek_dersler ornek_derslikler).
  vm_compute. reflexivity.
Defined.

Lemma planla_toplam_ornek :
  exists r, planla (ornek_kisit 738886 738892 true) ornek_dersler ornek_derslikler ?= r.
Proof.
  apply (planla_toplam (ornek_kisit 738886 738892 true) ornek_dersler ornek_derslikler); karar.
Defined.

Lemma planla_tarih_max_ornek :
  planla (ornek_kisit 3652000 MAXORD true) ornek_dersler ornek_derslikler = Hata OverflowError.
Proof.
  apply (planla_tarih_max (ornek_kisit 3652000 MAXORD true) ornek_dersler ornek_derslikler);
    [karar|reflexivity].
Defined.

End PlanProps.
