(* ===== verification/Pipeline.v ===== *)
(** * Pipeline: creating a timetable from the exam window

    [_olustur] of [src/arayuz/sinav_programi_penceresi.py] (lines
    94-168): [_parse_saatler] reads the slot text, [_secili_ders_ids]
    the selected courses, [pencere_kisiti] builds the [PlanKisit]; then
    [program_olustur] (lines 138-158) calls [planla], clears the
    timetable of the department and exam type with
    [sinav_programini_temizle] and saves each placement with
    [sinav_kaydet], one transaction per placement.  The period entries
    are read with [date.fromisoformat] ([Calendar]).  The datetimes go
    through [strftime("%Y-%m-%d %H:%M")] and back through
    [fromisoformat], which gives the same minute from year 1000 on
    ([Calendar.Takvim.strftime_geri_donus]); the model passes the
    minutes.  An exception ends the handler (its message box, line 168)
    with the database as the committed calls left it.

    The theorems of this file compose the components through the
    contract [Kalici.KayitUygun]: every result of [planla] meets it, and
    the writer accepts every plan that meets it; so the handler stores
    the whole plan, and the stored timetable has no student conflict. *)

From S2P Require Import Prelude Interval Normalize Calendar Planner Constraints Catalog Store Accounts PlannerProps.

Module Akis.
Import Aralik Normal Takvim Plan Kisitlar Katalog Kalici Yetki PlanProps.

(** The loop of lines 146-156.  [(bitis - baslangic).seconds // 60] is
    the duration in minutes modulo a day; [sinav_kaydet] does not use it. *)
Fixpoint satirlari_kaydet (vt : Veritabani) (bolum_id : Z) (sinav_turu : string) (bekleme : Z)
    (cikti : list Yerlestirme) : Veritabani * option Istisna :=
  match cikti with
  | [] => (vt, None)
  | row :: rest =>
      match sinav_kaydet vt bolum_id (y_ders_id row) sinav_turu (baslangic row) (bitis row)
              ((bitis row - baslangic row) mod 1440) bekleme (derslik_ids row) with
      | (vt', Hata e) => (vt', Some e)
      | (vt', Tamam _) => satirlari_kaydet vt' bolum_id sinav_turu bekleme rest
      end
  end.

(** Lines 138-158: plan, stop on [fatal], clear, save. *)
Definition program_olustur (vt : Veritabani) (bolum_id : Z) (sinav_turu : string) (bekleme : Z)
    (k : Kisit) (dersler : list Ders) (derslikler : list Derslik) : Veritabani * option Istisna :=
  match planla k dersler derslikler with
  | Hata e => (vt, Some e)
  | Tamam (cikti, uyarilar, fatal) =>
      if fatal then (vt, None)
      else satirlari_kaydet (sinav_programini_temizle vt bolum_id sinav_turu)
             bolum_id sinav_turu bekleme cikti
  end.

(** ** The whole handler (lines 94-168) *)

(** One part of [self.ent_saatler.get().split(",")] (lines 101-107):
    [hh, mm = p.split(":")], [int] and [time(h, m)] raise [ValueError]. *)
Fixpoint saatleri_coz (parcalar : list pystr) : Sonuc (list Z) :=
  match parcalar with
  | [] => Tamam []
  | p0 :: rest =>
      let p := py_strip p0 in
      if bool_decide (p = []) then saatleri_coz rest
      else match bol 58 p with
           | [hh; mm] =>
               match py_int hh, py_int mm with
               | Some h, Some m =>
                   if (0 <=? h) && (h <=? 23) && (0 <=? m) && (m <=? 59)
                   then out ← saatleri_coz rest; Tamam ((h * 60 + m) :: out)
                   else Hata ValueError
               | _, _ => Hata ValueError
               end
           | _ => Hata ValueError
           end
  end.

(** [_parse_saatler] (lines 100-108). *)
Definition _parse_saatler (metin : pystr) : Sonuc (list Z) := saatleri_coz (bol 44 metin).

(** [_secili_ders_ids] (lines 94-98): the ids of the selected rows of the
    list loaded when the window was built, or of all of them; the
    indices of [curselection()] are in range. *)
Definition _secili_ders_ids (liste : list Ders) (secim : list nat) : list Z :=
  match secim with
  | [] => ders_id <$> liste
  | _ => omap (fun i => ders_id <$> liste !! i) secim
  end.

Definition program_yaz (s : Sistem) (vt : Veritabani) : Sistem :=
  {| bolumler := bolumler s; bolum_seq := bolum_seq s; kullanicilar := kullanicilar s;
     kullanici_seq := kullanici_seq s; katalog := katalog s; derslik_seq := derslik_seq s;
     program := vt |}.

(** The [PlanKisit] of lines 127-137. *)
Definition pencere_kisiti (t1 t2 : Z) (saatler : list Z) (sinav_turu : string)
    (default_sure bekleme : Z) (cts paz nopar : bool) (dahil : list Z) : PlanKisit :=
  post_init {| pk_tarih_bas := t1; pk_tarih_bit := t2; pk_slot_saatleri := None;
     pk_gunluk_slot_saatleri := Some (SaatNesnesi <$> saatler);
     pk_varsayilan_sure_dk := None; pk_default_sure := Some default_sure; pk_sure_dk := None;
     pk_vars_sure_dk := None; pk_bekleme_dk := Some bekleme; pk_bekleme := None;
     pk_bekleme_suresi_dk := None; pk_sinav_turu := sinav_turu; pk_tek_seans := None;
     pk_paralel_yasak := Some nopar; pk_tek_oturum := None; pk_dahil_ders_ids := Some dahil;
     pk_gun_disi := Some ((if cts then [GunSayi 5] else []) ++ (if paz then [GunSayi 6] else []));
     pk_ders_istisna_sure := PyDict []; pk_ders_sureleri := PyNone;
     pk_ders_ozel_sureleri := PyNone; pk_per_ders_sure := PyNone;
     pk_slotlar := []; pk_ders_sure_map := ∅ |}.

(** [_olustur] (lines 110-168) on the window's entries: the two date
    texts, the slot text, the duration and buffer texts, the weekend and
    no-parallel boxes, the listbox and its selection.  Every exception
    ends in the message box of line 168; the result is the state and the
    exception, if any. *)
Definition _olustur (s : Sistem) (bolum_id : Z) (t1_metni t2_metni saat_metni : pystr) (sinav_turu : string)
    (sure_metni bekleme_metni : pystr) (cts paz nopar : bool) (liste : list Ders)
    (secim : list nat) : Sistem * option Istisna :=
  match date_fromisoformat (py_strip t1_metni), date_fromisoformat (py_strip t2_metni) with
  | Hata e, _ | _, Hata e => (s, Some e)
  | Tamam t1, Tamam t2 =>
  match _parse_saatler saat_metni with
  | Hata e => (s, Some e)
  | Tamam saatler =>
      match py_int sure_metni, py_int bekleme_metni with
      | Some default_sure, Some bekleme =>
          let dahil := _secili_ders_ids liste secim in
          let dersler := dersler_ogrsay_ve_alanlar_detayli (katalog s) bolum_id in
          let derslikler := derslik_gorunumu <$> derslikler_kapasite_listesi (katalog s) bolum_id in
          let p := pencere_kisiti t1 t2 saatler sinav_turu default_sure bekleme cts paz nopar dahil in
          match kisit_coz (GKisit p) with
          | Hata e => (s, Some e)
          | Tamam k =>
              let '(vt', r) := program_olustur (program s) bolum_id sinav_turu bekleme k dersler derslikler in
              (program_yaz s vt', r)
          end
      | _, _ => (s, Some ValueError)
      end
  end
  end.

(** ** The exams a store holds, with their times *)

Definition zaman_kayitlari (vt : Veritabani) (b : Z) (t : string) : list (Z * Z * Z) :=
  (fun sp => (sp_ders sp, sp_bas sp, sp_bit sp)) <$> List.filter (secili b t) (sinav_programi vt).

Definition plan_zamanlari (ys : list Yerlestirme) : list (Z * Z * Z) :=
  (fun y => (y_ders_id y, baslangic y, bitis y)) <$> ys.

Lemma zaman_temizle vt b t : zaman_kayitlari (sinav_programini_temizle vt b t) b t = [].
Proof.
  unfold zaman_kayitlari. pose proof (temizle_secili vt b t) as H.
  induction (sinav_programi (sinav_programini_temizle vt b t)) as [|sp rows IH]; [done|].
  simpl. rewrite H by apply list_elem_of_here. apply IH. intros sp' Hsp'. apply H. by right.
Qed.

Lemma zaman_sinav_kaydet vt b d t bas bit sure bek dls vt' id :
  sinav_kaydet vt b d t bas bit sure bek dls = (vt', Tamam id) ->
  zaman_kayitlari vt' b t = zaman_kayitlari vt b t ++ [(d, bas, bit)].
Proof.
  unfold sinav_kaydet, baglanti_ile.
  destruct (program_satiri_yaz _ _ _ _ _ _ _ _) as [[vt1 id1]|e] eqn:E; [|discriminate].
  intros [= <- _]. apply program_satiri_yaz_tamam in E as (_ & _ & _ & _ & ->).
  unfold zaman_kayitlari, eklenmis. simpl. rewrite List.filter_app, fmap_app. simpl.
  by rewrite secili_refl.
Qed.

Lemma zaman_satirlari_kaydet vt b t bek ys vt' :
  satirlari_kaydet vt b t bek ys = (vt', None) ->
  zaman_kayitlari vt' b t = zaman_kayitlari vt b t ++ plan_zamanlari ys.
Proof.
  revert vt. induction ys as [|y ys IH]; intros vt; simpl.
  - intros [= ->]. by rewrite app_nil_r.
  - destruct (sinav_kaydet _ _ _ _ _ _ _ _ _) as [vt1 [id|e]] eqn:E; [|discriminate].
    intros H. rewrite (IH _ H), (zaman_sinav_kaydet _ _ _ _ _ _ _ _ _ _ _ E).
    by rewrite <- app_assoc.
Qed.

(** A completed run of the handler parsed its entries, resolved the
    [PlanKisit] of lines 127-137 built from them, and replaced the
    timetable of the department and type by the plan [planla] made with
    those constraints for the catalog. *)
Lemma _olustur_girdiler s b t1 t2 sm tur sure bek cts paz nopar liste secim s' :
  _olustur s b t1 t2 sm tur sure bek cts paz nopar liste secim = (s', None) ->
  exists d1 d2 saatler ds bk k ys us,
    date_fromisoformat (py_strip t1) = Tamam d1 /\ date_fromisoformat (py_strip t2) = Tamam d2 /\
    _parse_saatler sm = Tamam saatler /\ py_int sure = Some ds /\ py_int bek = Some bk /\
    kisit_coz (GKisit (pencere_kisiti d1 d2 saatler tur ds bk cts paz nopar
                         (_secili_ders_ids liste secim))) = Tamam k /\
    planla k (dersler_ogrsay_ve_alanlar_detayli (katalog s) b)
      (derslik_gorunumu <$> derslikler_kapasite_listesi (katalog s) b) ?= (ys, us, false) /\
    zaman_kayitlari (program s') b tur = plan_zamanlari ys.
Proof.
  unfold _olustur.
  destruct (date_fromisoformat (py_strip t1)) as [d1|] eqn:E1, (date_fromisoformat (py_strip t2)) as [d2|] eqn:E2;
    try discriminate.
  destruct (_parse_saatler sm) as [saatler|] eqn:Es; [|discriminate].
  destruct (py_int sure) as [ds|] eqn:Ed, (py_int bek) as [bk|] eqn:Eb; try discriminate.
  destruct (kisit_coz _) as [k|e] eqn:Ek; [|discriminate].
  destruct (program_olustur _ _ _ _ _ _ _) as [vt' r] eqn:E. intros [= <- ->].
  unfold program_olustur in E.
  destruct (planla k _ _) as [[[ys us] f]|e] eqn:Hp; [|discriminate].
  pose proof Hp as (st & _ & _ & _ & ->)%planla_tamam.
  exists d1, d2, saatler, ds, bk, k, ys, us. split_and!; try done. simpl.
  by rewrite (zaman_satirlari_kaydet _ _ _ _ _ _ E), zaman_temizle.
Qed.

(** A completed run of the handler replaced the timetable of the
    department and type by the plan [planla] made for the catalog. *)
Lemma _olustur_tamam s b t1 t2 sm tur sure bek cts paz nopar liste secim s' :
  _olustur s b t1 t2 sm tur sure bek cts paz nopar liste secim = (s', None) ->
  exists k ys us,
    planla k (dersler_ogrsay_ve_alanlar_detayli (katalog s) b)
      (derslik_gorunumu <$> derslikler_kapasite_listesi (katalog s) b) ?= (ys, us, false) /\
    zaman_kayitlari (program s') b tur = plan_zamanlari ys.
Proof.
  intros H. apply _olustur_girdiler in H as (_ & _ & _ & _ & _ & k & ys & us & _ & _ & _ & _ & _ & _ & Hp & Hz).
  eauto.
Qed.

(** A placement of [planla] on the catalog's course list comes from a
    course row, with the enrolled set of that row. *)
Lemma planla_katalog_ders kt b k rs ys us f y :
  planla k (dersler_ogrsay_ve_alanlar_detayli kt b) rs ?= (ys, us, f) -> y ∈ ys ->
  exists st i d, planla_durum k (dersler_ogrsay_ve_alanlar_detayli kt b) rs ?= st /\
    ys = snd <$> yerlesenler st /\ yerlesenler st !! i = Some (d, y) /\
    ogr_ids d = ogr_ids_of kt (y_ders_id y) /\
    exists r, r ∈ bolum_dersleri kt b /\ ds_id r = y_ders_id y.
Proof.
  intros (st & Hst & -> & _ & _)%planla_tamam (p & -> & Hp)%list_elem_of_fmap.
  pose proof (planla_durum_inv _ _ _ _ Hst) as [Hk _ Hh].
  apply list_elem_of_lookup in Hp as [i Hi].
  destruct (Hk p) as [Hid _]; [by eapply list_elem_of_lookup_2|].
  assert (Hd : p.1 ∈ dersler_ogrsay_ve_alanlar_detayli kt b).
  { eapply elem_of_submseteq; [|apply (dahil_filtre_sub (dahil_ders_ids k))].
    rewrite <- Hh. apply elem_of_app. right. apply list_elem_of_fmap_2. by eapply list_elem_of_lookup_2. }
  apply list_elem_of_fmap in Hd as (r & Hr1 & Hr).
  exists st, i, p.1. rewrite Hid, Hr1. split_and!; [done|done|by destruct p; simpl in *; subst|done|eauto].
Qed.

(** ** The planner meets the writer's contract *)

Lemma planla_kayit_uygun k ds rs ys us f :
  NoDup (ders_id <$> ds) -> planla k ds rs ?= (ys, us, f) -> KayitUygun ys.
Proof.
  intros Hnd (st & Hst & -> & _ & _)%planla_tamam.
  pose proof (planla_durum_inv _ _ _ _ Hst) as Hinv. split.
  - by eapply yerlesenler_ders_nodup.
  - destruct Hinv as [Hk _ _]. intros y (p & -> & Hp)%list_elem_of_fmap.
    destruct (Hk _ Hp) as (_ & dl & _ & -> & _). apply NoDup_singleton.
  - destruct Hinv as [_ Hc _]. intros i j y1 y2 Hij Hi Hj.
    apply list_lookup_fmap_Some in Hi as ([d1 y1'] & -> & Hi).
    apply list_lookup_fmap_Some in Hj as ([d2 y2'] & -> & Hj).
    exact (proj1 (Hc i j _ _ Hij Hi Hj)).
Qed.

Lemma satirlari_kaydet_basarili vt b t bek pre ys :
  saglam vt -> oda_kayitlari vt b t = plan_kayitlari pre ->
  ders_kayitlari vt b t = y_ders_id <$> pre -> KayitUygun (pre ++ ys) ->
  exists vt', satirlari_kaydet vt b t bek ys = (vt', None) /\
    oda_kayitlari vt' b t = plan_kayitlari (pre ++ ys) /\
    ders_kayitlari vt' b t = y_ders_id <$> (pre ++ ys).
Proof.
  revert vt pre. induction ys as [|y ys IH]; intros vt pre Hs Ho Hd Hk; simpl.
  - rewrite app_nil_r. eauto.
  - destruct (kayit_adimi vt b t bek pre y ys) as (vt1 & Ey & Hs1 & Ho1 & Hd1); [done..|].
    unfold sinav_kaydet, baglanti_ile. rewrite Ey.
    rewrite cons_middle, app_assoc in Hk |- *. by apply IH.
Qed.

(** ** Theorems *)

(** C5 (end to end): when the input courses have distinct ids and
    [planla] returns a plan, the create handler saves it without an
    exception: the timetable of the department and exam type then holds
    exactly the planned courses and room bookings, whatever it held
    before. *)
Theorem program_olustur_kaydeder vt b t bek k ds rs ys us f :
  saglam vt -> NoDup (ders_id <$> ds) -> planla k ds rs ?= (ys, us, f) ->
  exists vt', program_olustur vt b t bek k ds rs = (vt', None) /\
    oda_kayitlari vt' b t = plan_kayitlari ys /\ ders_kayitlari vt' b t = y_ders_id <$> ys.
Proof.
  intros Hs Hnd Hp. pose proof (planla_kayit_uygun _ _ _ _ _ _ Hnd Hp) as Hk.
  pose proof Hp as (st & _ & _ & _ & ->)%planla_tamam.
  unfold program_olustur. rewrite Hp.
  destruct (secili_yok_bos (sinav_programini_temizle vt b t) b t) as [Ho Hd];
    [apply temizle_secili|].
  apply (satirlari_kaydet_basarili _ b t bek [] ys); [by apply temizle_saglam|done|done|done].
Qed.

(** C6 (end to end, no student conflict in the stored timetable): when
    the exam window's create handler completes, two exams of different
    courses that it stored for the department and exam type do not
    overlap if a student is enrolled in both according to the
    enrolment table [ogrenci_ders]. *)
Theorem olustur_ogrenci_cakismasiz s b t1 t2 sm tur sure bek cts paz nopar liste secim s'
    d1 b1 e1 d2 b2 e2 o :
  _olustur s b t1 t2 sm tur sure bek cts paz nopar liste secim = (s', None) ->
  (d1, b1, e1) ∈ zaman_kayitlari (program s') b tur ->
  (d2, b2, e2) ∈ zaman_kayitlari (program s') b tur -> d1 <> d2 ->
  o ∈ ogr_ids_of (katalog s) d1 -> o ∈ ogr_ids_of (katalog s) d2 ->
  overlaps b1 e1 b2 e2 = false.
Proof.
  intros H. apply _olustur_tamam in H as (k & ys & us & Hp & Hz). rewrite Hz.
  intros (y1 & [= -> -> ->] & Hy1)%list_elem_of_fmap (y2 & [= -> -> ->] & Hy2)%list_elem_of_fmap
    Hne Ho1 Ho2.
  destruct (planla_katalog_ders _ _ _ _ _ _ _ _ Hp Hy1) as (st & i & D1 & Hst & _ & Hi & Hd1 & _).
  destruct (planla_katalog_ders _ _ _ _ _ _ _ _ Hp Hy2) as (st' & j & D2 & Hst' & _ & Hj & Hd2 & _).
  rewrite Hst in Hst'. injection Hst' as <-.
  apply planla_durum_inv in Hst as [_ Hc _].
  assert (Hij : i <> j) by (intros ->; rewrite Hi in Hj; injection Hj as <- <-; done).
  apply (proj2 (cakismasiz_ne _ _ _ _ _ Hc Hij Hi Hj) o); simpl; congruence.
Qed.

(** ** Witness *)

Lemma program_olustur_kaydeder_ornek :
  NoDup (ders_id <$> ornek_dersler) /\
  planla (ornek_kisit 738886 738886 false) ornek_dersler ornek_derslikler
    ?= ([ornek_y1; ornek_y2], [], false) /\
  exists vt', program_olustur ornek_vt 1 "vize"%string 0 (ornek_kisit 738886 738886 false)
      ornek_dersler ornek_derslikler = (vt', None) /\
    oda_kayitlari vt' 1 "vize"%string = plan_kayitlari [ornek_y1; ornek_y2] /\
    ders_kayitlari vt' 1 "vize"%string = y_ders_id <$> [ornek_y1; ornek_y2].
Proof.
  assert (Hp : planla (ornek_kisit 738886 738886 false) ornek_dersler ornek_derslikler
    ?= ([ornek_y1; ornek_y2], [], false)) by (vm_compute; reflexivity).
  split; [karar|]. split; [exact Hp|].
  apply (program_olustur_kaydeder ornek_vt 1 "vize"%string 0 (ornek_kisit 738886 738886 false)
    ornek_dersler ornek_derslikler [ornek_y1; ornek_y2] [] false); [exact ornek_vt_saglam|karar|exact Hp].
Defined.

Definition ornek_sistem_k : Sistem :=
  {| bolumler := []; bolum_seq := 0; kullanicilar := []; kullanici_seq := 0;
     katalog := ornek_katalog; derslik_seq := 6; program := bos_veritabani |}.

(** The handler on the catalog example: slots 09:00 and 11:00 on one day,
    90 minutes; MAT101 and FIZ101 share student 11. *)
Definition ornek_olustur : Sistem * option Istisna :=
  _olustur ornek_sistem_k 1 (ascii_str "2024-01-01") (ascii_str "2024-01-01") (ascii_str "09:00, 11:00") "vize" (ascii_str "90")
    (ascii_str "0") false false false [] [].

(** Witness of [olustur_ogrenci_cakismasiz]. *)
Lemma olustur_ogrenci_cakismasiz_ornek :
  zaman_kayitlari (program ornek_olustur.1) 1 "vize" =
    [(1, 738886 * 1440 + 540, 738886 * 1440 + 630); (2, 738886 * 1440 + 660, 738886 * 1440 + 750)] /\
  overlaps (738886 * 1440 + 540) (738886 * 1440 + 630) (738886 * 1440 + 660) (738886 * 1440 + 750)
    = false.
Proof.
  assert (H : _olustur ornek_sistem_k 1 (ascii_str "2024-01-01") (ascii_str "2024-01-01") (ascii_str "09:00, 11:00") "vize"
                (ascii_str "90") (ascii_str "0") false false false [] [] = (ornek_olustur.1, None))
    by (vm_compute; reflexivity).
  assert (Hz : zaman_kayitlari (program ornek_olustur.1) 1 "vize" =
    [(1, 738886 * 1440 + 540, 738886 * 1440 + 630); (2, 738886 * 1440 + 660, 738886 * 1440 + 750)])
    by (vm_compute; reflexivity).
  split; [exact Hz|].
  apply (olustur_ogrenci_cakismasiz ornek_sistem_k 1 (ascii_str "2024-01-01") (ascii_str "2024-01-01") (ascii_str "09:00, 11:00") "vize"
    (ascii_str "90") (ascii_str "0") false false false [] [] ornek_olustur.1 1
    (738886 * 1440 + 540) (738886 * 1440 + 630) 2 (738886 * 1440 + 660) (738886 * 1440 + 750) 11 H).
  - rewrite Hz. left.
  - rewrite Hz. right. left.
  - discriminate.
  - vm_compute. karar.
  - karar.
Defined.

End Akis.
