(* ===== verification/ListWindows.v ===== *)
(** * ListWindows: the windows that list courses, students and exams

    [src/arayuz/ders_listesi_penceresi.py] (the course list and the
    students of the selected course), [src/arayuz/ogrenci_listesi_penceresi.py]
    (the search by student number) and the list parts of
    [src/arayuz/sinav_programi_penceresi.py] (the course listbox, the
    timetable tree filled by [_listele] from
    [veri_deposu.sinav_programi_listele], and [_temizle]).  Each window
    is a record of its widget contents; a handler maps the database and
    the window to a new window and the message boxes it shows.

    The theorems compose these reads with the components that write the
    data: the number a course line shows is the number of students the
    course shows when selected, as long as the enrolment table refers to
    existing students without repetition; the search text lists exactly
    the courses the planner counts the student in; and after the create
    handler of the exam window the tree shows every placement of the
    plan, once, with its course and its times as stored. *)

From S2P Require Import Prelude Interval Normalize Calendar Planner Constraints PlannerProps Catalog Store Accounts Forms ExcelImport Pipeline.

Module ListePencereleri.
Import Normal Takvim Plan PlanProps Kisitlar Katalog Kalici Yetki Metin Akis.

(** The department of the logged-in coordinator: [WHERE bolum_id=?]
    with [NULL] matches no row. *)
Definition bolum_ile {A} (k : KullaniciSatiri) (f : Z -> list A) : list A :=
  match ku_bolum_id k with Some b => f b | None => [] end.

(** A line break, ["\n"]. *)
Definition YENI_SATIR : string := String (Ascii.ascii_of_nat 10) EmptyString.

(** [sep.join(l)] *)
Fixpoint katil (sep : string) (l : list string) : string :=
  match l with [] => "" | [x] => x | x :: r => x +:+ sep +:+ katil sep r end.

(** ** [DersListesiPenceresi] *)

(** [self._dersler], the listbox and the student tree. *)
Record DersListesi := {
  dlp_dersler : list Ders;
  dlp_liste : list string;
  dlp_agac : list (string * string)
}.

(** [f"{d['kod']} – {d['ad']} ({d['ogr_say']})"] (line 66) *)
Definition ders_satiri (d : Ders) : string :=
  Plan.kod d +:+ " – " +:+ Plan.ad d +:+ " (" +:+ str_of_Z (ogr_say d) +:+ ")".

(** [_dersleri_yukle] (lines 62-66) *)
Definition _dersleri_yukle (s : Sistem) (k : KullaniciSatiri) (p : DersListesi) : DersListesi :=
  let ds := bolum_ile k (dersler_ogrsay_ve_alanlar_detayli (katalog s)) in
  {| dlp_dersler := ds; dlp_liste := ders_satiri <$> ds; dlp_agac := dlp_agac p |}.

(** [__init__] and [_build] (lines 11-59): an empty tree and the loaded
    list. *)
Definition ders_listesi_ac (s : Sistem) (k : KullaniciSatiri) : DersListesi :=
  _dersleri_yukle s k {| dlp_dersler := []; dlp_liste := []; dlp_agac := [] |}.

(** [_ders_secildi] (lines 69-80): [curselection()] holds indices of
    listbox rows, and the listbox has a row per element of [_dersler]
    (see [ders_listesi_satirlar]), so [self._dersler[sel[0]]] exists. *)
Definition _ders_secildi (s : Sistem) (secim : list nat) (p : DersListesi) : DersListesi :=
  match secim with
  | [] => p
  | i :: _ =>
      match dlp_dersler p !! i with
      | Some d =>
          {| dlp_dersler := dlp_dersler p; dlp_liste := dlp_liste p;
             dlp_agac := (fun o => (og_ogr_no o, og_adsoyad o)) <$>
                           derse_kayitli_ogrenciler (katalog s) (ders_id d) |}
      | None => p
      end
  end.

(** ** [OgrenciListesiPenceresi._ara] (lines 32-63) *)

Definition ARAMA_UYARISI : string := "Lütfen öğrenci numarasını giriniz.".

(** The lines of lines 52-58. *)
Definition arama_satirlari (o : OgrenciSatiri) (dersler : list (string * string)) : list string :=
  ("Öğrenci: " +:+ og_adsoyad o +:+ " (" +:+ og_ogr_no o +:+ ")") ::
  match dersler with
  | [] => [YENI_SATIR +:+ "Bu öğrenciye ait ders kaydı bulunamadı."]
  | _ => (YENI_SATIR +:+ "Aldığı Dersler (" +:+ str_of_Z (Z.of_nat (length dersler)) +:+ "):") ::
         ((fun '(kod, ad) => "- " +:+ ad +:+ " (Kodu: " +:+ kod +:+ ")") <$> dersler)
  end.

(** The text box and the message boxes after a search for the entry
    [girdi]; the box keeps its text when a warning is shown. *)
Definition _ara (s : Sistem) (k : KullaniciSatiri) (girdi kutu : string) : string * list Bildirim :=
  let ogr_no := metin_strip girdi in
  if bool_decide (ogr_no = "") then (kutu, [Uyari ARAMA_UYARISI])
  else
    let '(ogrenci, dersler) :=
      match ku_bolum_id k with
      | Some b => ogrenci_ara_ve_dersleri_getir (katalog s) b ogr_no
      | None => (None, [])
      end in
    match ogrenci with
    | None => ("Öğrenci bulunamadı.", [])
    | Some o => (katil YENI_SATIR (arama_satirlari o dersler), [])
    end.

(** ** The lists of [SinavProgramiPenceresi] *)

(** [f"{d['kod']} - {d['ad']}{sinif_txt}  ({d['ogr_say']} öğr.)"] with
    [sinif_txt = f" [S{d['sinif']}]" if d.get("sinif") else ""]
    (lines 91-92). *)
Definition sinav_ders_satiri (d : Ders) : string :=
  let sinif_txt := match sinif d with Some c => if bool_decide (c = 0) then "" else " [S" +:+ str_of_Z c +:+ "]"
                                      | None => "" end in
  Plan.kod d +:+ " - " +:+ Plan.ad d +:+ sinif_txt +:+ "  (" +:+ str_of_Z (ogr_say d) +:+ " öğr.)".

(** [_dersleri_yukle_listbox] (lines 87-92): the list it keeps and the
    listbox lines. *)
Definition _dersleri_yukle_listbox (s : Sistem) (k : KullaniciSatiri) : list Ders * list string :=
  let ds := bolum_ile k (dersler_ogrsay_ve_alanlar_detayli (katalog s)) in (ds, sinav_ders_satiri <$> ds).

(** A row of [sinav_programi_listele]: [sp.id, d.kod, d.ad, sp.baslangic,
    sp.bitis], the datetimes as the text [_program_satiri_yaz] stored,
    [isoformat(timespec="minutes")]. *)
Record ProgramSatiri := {
  ps_id : Z; ps_kod : string; ps_ad : string; ps_bas : pystr; ps_bit : pystr
}.

(** Byte order of ASCII texts ([ORDER BY] on [TEXT]). *)
Fixpoint pystr_le (a b : pystr) : bool :=
  match a, b with
  | [], _ => true
  | _ :: _, [] => false
  | x :: a', y :: b' => (x <? y) || ((x =? y) && pystr_le a' b')
  end.

Definition program_satiri_le (x y : ProgramSatiri) : bool :=
  negb (pystr_le (ps_bas y) (ps_bas x)) ||
  (bool_decide (ps_bas x = ps_bas y) && metin_le (ps_kod x) (ps_kod y)).

(** [sinav_programi_listele(bolum_id, sinav_turu)] (veri_deposu.py
    488-496): the exams of the department and type joined with their
    course, [ORDER BY sp.baslangic, d.kod]. *)
Definition sinav_programi_listele (s : Sistem) (bolum_id : Z) (sinav_turu : string) : list ProgramSatiri :=
  let satirlar :=
    List.filter (secili bolum_id sinav_turu) (sinav_programi (program s)) ≫= fun sp =>
      (fun d => {| ps_id := sp_id sp; ps_kod := ds_kod d; ps_ad := ds_ad d;
                   ps_bas := isoformat_dk (sp_bas sp); ps_bit := isoformat_dk (sp_bit sp) |}) <$>
      filter (fun d => ds_id d = sp_ders sp) (t_dersler (katalog s)) in
  sirala program_satiri_le satirlar.





(** [_listele] (lines 179-185): the tree, for the combobox text [tur]
    ([cmb_tur.get() or "vize"]). *)
Definition _listele (s : Sistem) (k : KullaniciSatiri) (tur : string) : list (string * string * pystr * pystr) :=
  let tur := if bool_decide (tur = "") then "vize" else tur in
  (fun r => (ps_kod r, ps_ad r, ps_bas r, ps_bit r)) <$> bolum_ile k (fun b => sinav_programi_listele s b tur).

(** [_temizle] (lines 170-177): [sinav_programini_temizle], the new tree
    and the message. *)
Definition _temizle (s : Sistem) (k : KullaniciSatiri) (tur : string)
    : Sistem * list (string * string * pystr * pystr) * list Bildirim :=
  let s' := match ku_bolum_id k with
            | Some b => {| bolumler := bolumler s; bolum_seq := bolum_seq s; kullanicilar := kullanicilar s;
                           kullanici_seq := kullanici_seq s; katalog := katalog s; derslik_seq := derslik_seq s;
                           program := sinav_programini_temizle (program s) b tur |}
            | None => s
            end in
  (s', _listele s' k tur, [Bilgi "Bu sınav türündeki program temizlendi."]).

(** ** Theorems *)

(** *** The count of a course line *)

(** The constraints [veritabani.py] declares on the tables these
    windows read: the primary keys of [ogrenciler] and [dersler],
    [UNIQUE(bolum_id, ogr_no)] and [PRIMARY KEY(ogrenci_id, ders_id)],
    which SQLite enforces, and the two foreign keys of [ogrenci_ders],
    which it does not check on the connections [baglanti()] opens
    ([PRAGMA foreign_keys] is off there) but which the importer keeps,
    as it only enrols ids it has just looked up. *)
Definition kayitlar_butun (kt : Katalog) : Prop :=
  NoDup (og_id <$> t_ogrenciler kt) /\
  NoDup (ds_id <$> t_dersler kt) /\
  NoDup ((fun o => (og_bolum_id o, og_ogr_no o)) <$> t_ogrenciler kt) /\
  NoDup ((fun r => (kd_ogrenci_id r, kd_ders_id r)) <$> t_ogrenci_ders kt) /\
  Forall (fun r => kd_ogrenci_id r ∈ og_id <$> t_ogrenciler kt /\
                   kd_ders_id r ∈ ds_id <$> t_dersler kt) (t_ogrenci_ders kt).

#[global] Instance kayitlar_butun_dec kt : Decision (kayitlar_butun kt).
Proof. unfold kayitlar_butun. apply _. Defined.

Lemma filter_tek_uzunluk {A} (f : A -> Z) (l : list A) x :
  NoDup (f <$> l) -> x ∈ f <$> l -> length (filter (fun a => f a = x) l) = 1%nat.
Proof.
  induction l as [|a l IH]; simpl; intros Hn Hx; [by apply not_elem_of_nil in Hx|].
  apply NoDup_cons in Hn as [Hn1 Hn2]. rewrite filter_cons. case_decide as Ha.
  - subst x. simpl. f_equal. rewrite filter_bos; [done|].
    intros b Hb E. apply Hn1, list_elem_of_fmap. eauto.
  - apply elem_of_cons in Hx as [->|Hx]; [done|]. by apply IH.
Qed.

(** A join on a key that is unique on the right side and present for
    every left row keeps one row per selected left row. *)
Lemma birlestirme_uzunluk {A B} (ka : A -> Z) (kb : B -> Z) (P : A -> Prop)
    `{!forall a, Decision (P a)} (E : list A) (O : list B) :
  NoDup (kb <$> O) -> Forall (fun e => ka e ∈ kb <$> O) E ->
  length (filter (fun '(e, o) => P e /\ kb o = ka e) (cprod E O)) = length (filter P E).
Proof.
  intros Hn HE. rewrite list_cprod_list_prod. induction E as [|e E IH]; [done|].
  apply Forall_cons in HE as [He HE]. simpl. rewrite filter_app, length_app, IH by done.
  rewrite filter_cons.
  assert (Hm : forall O', length (filter (fun '(e', o) => P e' /\ kb o = ka e') (map (pair e) O')) =
                          length (filter (fun o => P e /\ kb o = ka e) O')).
  { induction O' as [|o O' IHO]; [done|]. simpl. rewrite !filter_cons. by repeat case_decide; simpl; rewrite IHO. }
  rewrite Hm. case_decide as Hd.
  - rewrite (list_filter_iff _ (fun o => kb o = ka e)) by naive_solver.
    by rewrite filter_tek_uzunluk.
  - rewrite filter_bos; [done|]. naive_solver.
Qed.

(** With a unique pair key [(f, g)], the [f] values of the rows with one
    [g] value are distinct. *)
Lemma anahtar_NoDup {A} (f g : A -> Z) (E : list A) i :
  NoDup ((fun r => (f r, g r)) <$> E) -> NoDup (f <$> filter (fun e => g e = i) E).
Proof.
  induction E as [|e E IH]; simpl; intros Hn; [constructor|].
  apply NoDup_cons in Hn as [Hn1 Hn2]. rewrite filter_cons. case_decide as Hd; simpl; [|by apply IH].
  constructor; [|by apply IH]. intros (e' & Ho & He')%list_elem_of_fmap.
  apply list_elem_of_filter in He' as [Hd' He']. apply Hn1, list_elem_of_fmap. exists e'. split; [|done].
  rewrite Ho. congruence.
Qed.

Lemma anahtar_takas {A} (f g : A -> Z) (E : list A) :
  NoDup ((fun r => (f r, g r)) <$> E) -> NoDup ((fun r => (g r, f r)) <$> E).
Proof.
  induction E as [|e E IH]; simpl; intros Hn; [constructor|].
  apply NoDup_cons in Hn as [Hn1 Hn2]. constructor; [|by apply IH].
  intros (e' & He & He')%list_elem_of_fmap. apply Hn1, list_elem_of_fmap. exists e'. split; [|done].
  congruence.
Qed.

(** The class list of a course has as many students as its record
    counts. *)
Lemma derse_kayitli_sayisi kt i :
  kayitlar_butun kt -> length (derse_kayitli_ogrenciler kt i) = size (ogr_ids_of kt i).
Proof.
  intros (Hn & _ & _ & Hk & Hf). unfold derse_kayitli_ogrenciler, ogr_ids_of.
  apply Forall_and in Hf as [Hf _].
  rewrite length_fmap, sirala_length, (birlestirme_uzunluk kd_ogrenci_id og_id (fun e => kd_ders_id e = i)) by done.
  rewrite size_list_to_set by (by apply anahtar_NoDup). by rewrite length_fmap.
Qed.

(** Every course the list loads carries its enrolled set and its count. *)
Lemma yuklenen_ders_kaydi s k d :
  d ∈ bolum_ile k (dersler_ogrsay_ve_alanlar_detayli (katalog s)) ->
  ogr_ids d = ogr_ids_of (katalog s) (ders_id d) /\ ogr_say d = Z.of_nat (size (ogr_ids d)).
Proof.
  unfold bolum_ile, dersler_ogrsay_ve_alanlar_detayli.
  destruct (ku_bolum_id k); [|by intros ?%not_elem_of_nil].
  intros (r & -> & _)%list_elem_of_fmap. by split.
Qed.

(** A course selected in the course list window shows its line with
    the count [ogr_say], a student tree with exactly that many rows,
    and in it the number and name of exactly the stored students
    enrolled in the course, provided the enrolment table refers to
    existing students without repetition. *)
Theorem ders_listesi_tutarli s k i rest d :
  kayitlar_butun (katalog s) ->
  dlp_dersler (ders_listesi_ac s k) !! i = Some d ->
  let p := _ders_secildi s (i :: rest) (ders_listesi_ac s k) in
  dlp_liste p !! i = Some (ders_satiri d) /\
  Z.of_nat (length (dlp_agac p)) = ogr_say d /\
  forall no ad, (no, ad) ∈ dlp_agac p <->
    exists o, o ∈ t_ogrenciler (katalog s) /\ og_id o ∈ ogr_ids d /\
              og_ogr_no o = no /\ og_adsoyad o = ad.
Proof.
  intros Hb Hi p. subst p. unfold _ders_secildi. rewrite Hi. cbn [dlp_liste dlp_agac].
  assert (Hd : d ∈ dlp_dersler (ders_listesi_ac s k)) by (by eapply list_elem_of_lookup_2).
  destruct (yuklenen_ders_kaydi s k d Hd) as [Hids Hsay]. split_and!.
  - change (dlp_liste (ders_listesi_ac s k)) with (ders_satiri <$> dlp_dersler (ders_listesi_ac s k)).
    by rewrite list_lookup_fmap, Hi.
  - by rewrite length_fmap, derse_kayitli_sayisi, Hsay, Hids.
  - intros no ad. rewrite list_elem_of_fmap. setoid_rewrite derse_kayitli_tutarli. rewrite Hids.
    split; [intros (o & [= -> ->] & Ho & Hs); eauto|intros (o & Ho & Hs & <- & <-); eauto].
Qed.

(** *** The student search *)

(** With [UNIQUE(bolum_id, ogr_no)] the first match is the student. *)
Lemma find_tekil (O : list OgrenciSatiri) o b no :
  NoDup ((fun o => (og_bolum_id o, og_ogr_no o)) <$> O) -> o ∈ O ->
  og_bolum_id o = b -> og_ogr_no o = no ->
  List.find (fun o => bool_decide (og_bolum_id o = b /\ og_ogr_no o = no)) O = Some o.
Proof.
  induction O as [|o' O IH]; simpl; intros Hn Ho Hb Hno; [by apply not_elem_of_nil in Ho|].
  apply NoDup_cons in Hn as [Hn1 Hn2]. case_bool_decide as Hd.
  - apply elem_of_cons in Ho as [->|Ho]; [done|]. destruct Hd as [Hb' Hno'].
    exfalso. apply Hn1, list_elem_of_fmap. exists o. split; [congruence|done].
  - apply elem_of_cons in Ho as [->|Ho]; [naive_solver|]. by apply IH.
Qed.

(** A student's enrolment rows and the courses whose enrolled set holds
    the student are as many. *)
Lemma ogrenci_ders_sayisi kt x :
  kayitlar_butun kt ->
  length (filter (fun e => kd_ogrenci_id e = x) (t_ogrenci_ders kt)) =
  length (filter (fun r => x ∈ ogr_ids_of kt (ds_id r)) (t_dersler kt)).
Proof.
  intros (_ & Hd & _ & Hk & Hf).
  rewrite <- (length_fmap kd_ders_id), <- (length_fmap ds_id (filter _ (t_dersler kt))).
  apply Permutation_length, NoDup_Permutation.
  - by apply anahtar_NoDup, anahtar_takas.
  - by apply fmap_filter_NoDup.
  - intros y. rewrite !list_elem_of_fmap. setoid_rewrite list_elem_of_filter.
    setoid_rewrite elem_of_ogr_ids. split.
    + intros (e & -> & Hx & He). rewrite Forall_forall in Hf.
      destruct (Hf e He) as [_ (r & Hr & Hr')%list_elem_of_fmap]. exists r. naive_solver.
    + intros (r & -> & (e & He & Hx & Hr) & _). exists e. naive_solver.
Qed.

(** For a coordinator of department [b] and an entry that is not
    blank after stripping, the search finds the student with that
    number in [b] and shows the text of its lines for a list of courses
    with as many entries as there are courses whose enrolled set (the
    one the planner counts) holds the student, and exactly those
    courses by code and name. *)
Theorem ara_tutarli s k b girdi kutu o :
  kayitlar_butun (katalog s) -> ku_bolum_id k = Some b ->
  o ∈ t_ogrenciler (katalog s) -> og_bolum_id o = b -> og_ogr_no o = metin_strip girdi ->
  metin_strip girdi <> "" ->
  exists ds, _ara s k girdi kutu = (katil YENI_SATIR (arama_satirlari o ds), []) /\
    length ds = length (filter (fun r => og_id o ∈ ogr_ids (ders_kaydi (katalog s) r))
                               (t_dersler (katalog s))) /\
    forall kod ad, (kod, ad) ∈ ds <->
      exists r, r ∈ t_dersler (katalog s) /\ ds_kod r = kod /\ ds_ad r = ad /\
                og_id o ∈ ogr_ids (ders_kaydi (katalog s) r).
Proof.
  intros Hb Hk Ho Hob Hno Hbos.
  pose proof (find_tekil _ o b (metin_strip girdi) (proj1 (proj2 (proj2 Hb))) Ho Hob Hno) as Hf.
  assert (Ha := ogrenci_ara_tutarli (katalog s) b (metin_strip girdi) o).
  unfold _ara. rewrite bool_decide_eq_false_2 by done. rewrite Hk.
  unfold ogrenci_ara_ve_dersleri_getir in *. rewrite Hf in Ha |- *.
  eexists. split; [reflexivity|]. split; [|by apply Ha].
  rewrite length_fmap, sirala_length.
  destruct Hb as (Hn1 & Hn2 & Hn3 & Hn4 & Hfk) eqn:Hb'.
  rewrite (birlestirme_uzunluk kd_ders_id ds_id (fun e => kd_ogrenci_id e = og_id o)).
  - by apply ogrenci_ders_sayisi.
  - done.
  - eapply Forall_impl; [done|]. naive_solver.
Qed.

(** *** The timetable tree after the create handler *)

(** The handler writes the timetable only. *)
Lemma _olustur_katalog s b t1 t2 sm tur sure bek cts paz nopar liste secim s' r :
  _olustur s b t1 t2 sm tur sure bek cts paz nopar liste secim = (s', r) -> katalog s' = katalog s.
Proof.
  unfold _olustur.
  destruct (date_fromisoformat (py_strip t1)), (date_fromisoformat (py_strip t2)); try (intros [= <- _]; done).
  destruct (_parse_saatler sm); [|intros [= <- _]; done].
  destruct (py_int sure), (py_int bek); try (intros [= <- _]; done).
  destruct (kisit_coz _); [|intros [= <- _]; done].
  destruct (program_olustur _ _ _ _ _ _ _). intros [= <- _]. done.
Qed.

Lemma bind_uzunluk {A B} (f : A -> list B) (l : list A) :
  (forall x, x ∈ l -> length (f x) = 1%nat) -> length (l ≫= f) = length l.
Proof.
  induction l as [|x l IH]; intros H; [done|]. rewrite bind_cons, length_app, IH by set_solver.
  rewrite H by set_solver. done.
Qed.

(** The rows of the tree of [_listele] for a department's coordinator. *)
Lemma sinav_listele_elem s k b tur row :
  ku_bolum_id k = Some b -> tur <> "" ->
  row ∈ _listele s k tur <->
  exists sp r, sp ∈ List.filter (secili b tur) (sinav_programi (program s)) /\
    r ∈ t_dersler (katalog s) /\ ds_id r = sp_ders sp /\
    row = (ds_kod r, ds_ad r, isoformat_dk (sp_bas sp), isoformat_dk (sp_bit sp)).
Proof.
  intros Hk Ht. unfold _listele, bolum_ile, sinav_programi_listele.
  rewrite bool_decide_eq_false_2, Hk by done.
  rewrite list_elem_of_fmap. setoid_rewrite sirala_elem. setoid_rewrite list_elem_of_bind.
  setoid_rewrite list_elem_of_fmap. setoid_rewrite list_elem_of_filter. split.
  - intros (x & -> & sp & (r & -> & Hr & Hrl) & Hsp). exists sp, r. done.
  - intros (sp & r & Hsp & Hr & Hrl & ->). eexists. split; [|exists sp; split; [|done]]; [|by exists r]. done.
Qed.

(** With unique course ids and every selected exam's course present, the
    tree has a row per stored exam. *)
Lemma listele_uzunluk s k b tur :
  ku_bolum_id k = Some b -> tur <> "" -> NoDup (ds_id <$> t_dersler (katalog s)) ->
  (forall sp, sp ∈ List.filter (secili b tur) (sinav_programi (program s)) ->
              sp_ders sp ∈ ds_id <$> t_dersler (katalog s)) ->
  length (_listele s k tur) = length (zaman_kayitlari (program s) b tur).
Proof.
  intros Hk Ht Hn Hv. unfold _listele, bolum_ile, sinav_programi_listele, zaman_kayitlari.
  rewrite bool_decide_eq_false_2, Hk by done.
  rewrite !length_fmap, sirala_length, bind_uzunluk; [done|].
  intros sp Hsp. rewrite length_fmap. by apply filter_tek_uzunluk, Hv.
Qed.

(** C7 After the exam window's create handler completes, the timetable
    tree it lists for the same department and exam type shows the plan
    [planla] made from the handler's own entries: the dates, slot hours,
    duration and buffer it parsed, the weekend and no-parallel boxes
    and the selected courses, resolved into the [PlanKisit] of lines
    127-137.  The tree has one row per placement, and a row is exactly
    the code and name of a placement's course with its start and end
    written as stored, [YYYY-MM-DDTHH:MM]. *)
Theorem olustur_listele s b t1 t2 sm tur sure bek cts paz nopar liste secim s' k :
  _olustur s b t1 t2 sm tur sure bek cts paz nopar liste secim = (s', None) ->
  ku_bolum_id k = Some b -> tur <> "" -> NoDup (ds_id <$> t_dersler (katalog s)) ->
  exists d1 d2 saatler ds bk kk ys us,
    date_fromisoformat (py_strip t1) = Tamam d1 /\ date_fromisoformat (py_strip t2) = Tamam d2 /\
    _parse_saatler sm = Tamam saatler /\ py_int sure = Some ds /\ py_int bek = Some bk /\
    kisit_coz (GKisit (pencere_kisiti d1 d2 saatler tur ds bk cts paz nopar
                         (_secili_ders_ids liste secim))) = Tamam kk /\
    planla kk (dersler_ogrsay_ve_alanlar_detayli (katalog s) b)
      (derslik_gorunumu <$> derslikler_kapasite_listesi (katalog s) b) ?= (ys, us, false) /\
    length (_listele s' k tur) = length ys /\
    forall row, row ∈ _listele s' k tur <->
      exists y r, y ∈ ys /\ r ∈ t_dersler (katalog s) /\ ds_id r = y_ders_id y /\
        row = (ds_kod r, ds_ad r, isoformat_dk (baslangic y), isoformat_dk (bitis y)).
Proof.
  intros H Hk Ht Hn. pose proof (_olustur_katalog _ _ _ _ _ _ _ _ _ _ _ _ _ _ _ H) as Hkt.
  apply _olustur_girdiler in H as (d1 & d2 & saatler & ds & bk & kk & ys & us & E1 & E2 & Es & Ed & Eb & Ek & Hp & Hz).
  exists d1, d2, saatler, ds, bk, kk, ys, us. do 6 (split; [done|]).
  unfold zaman_kayitlari, plan_zamanlari in Hz.
  assert (Ha : forall sp, sp ∈ List.filter (secili b tur) (sinav_programi (program s')) ->
               exists y, y ∈ ys /\ sp_ders sp = y_ders_id y /\ sp_bas sp = baslangic y /\ sp_bit sp = bitis y).
  { intros sp Hsp. assert (Hm := list_elem_of_fmap_2 (fun sp => (sp_ders sp, sp_bas sp, sp_bit sp)) _ _ Hsp).
    rewrite Hz in Hm. apply list_elem_of_fmap in Hm as (y & [= ? ? ?] & Hy). eauto. }
  assert (Hb : forall y, y ∈ ys ->
               exists sp, sp ∈ List.filter (secili b tur) (sinav_programi (program s')) /\
                 sp_ders sp = y_ders_id y /\ sp_bas sp = baslangic y /\ sp_bit sp = bitis y).
  { intros y Hy. assert (Hm := list_elem_of_fmap_2 (fun y => (y_ders_id y, baslangic y, bitis y)) _ _ Hy).
    rewrite <- Hz in Hm. apply list_elem_of_fmap in Hm as (sp & [= ? ? ?] & Hsp). eauto. }
  split_and!; [done| |].
  - rewrite (listele_uzunluk _ _ b); [|done|done|by rewrite Hkt|].
    { unfold zaman_kayitlari. by rewrite Hz, length_fmap. }
    rewrite Hkt. intros sp (y & Hy & -> & _)%Ha.
    destruct (planla_katalog_ders _ _ _ _ _ _ _ _ Hp Hy) as (_ & _ & _ & _ & _ & _ & _ & r & Hr & Hid).
    apply list_elem_of_fmap. exists r. split; [done|].
    by apply sirala_elem, list_elem_of_filter in Hr as [_ Hr].
  - intros row. rewrite (sinav_listele_elem _ _ b), Hkt by done. split.
    + intros (sp & r & (y & Hy & Hd & Hs & He)%Ha & Hr & Hid & ->). exists y, r.
      rewrite Hs, He. split_and!; congruence.
    + intros (y & r & Hy & Hr & Hid & ->). destruct (Hb y Hy) as (sp & Hsp & Hd & Hs & He).
      exists sp, r. rewrite Hs, He. split_and!; congruence.
Qed.



(** *** Examples *)

Definition ornek_liste_sistem : Sistem :=
  {| bolumler := []; bolum_seq := 0; kullanicilar := []; kullanici_seq := 0;
     katalog := ornek_katalog; derslik_seq := 0; program := bos_veritabani |}.

Definition ornek_liste_koordinator : KullaniciSatiri :=
  {| ku_id := 2; ku_eposta := "k@uni.edu"; ku_sifre_hash := "h2"; ku_rol := "koordinator";
     ku_bolum_id := Some 1 |}.

(** Witness of [ders_listesi_tutarli]: the list is FIZ101 (1 student)
    then MAT101 (4 students); selecting row 1 shows four rows. *)
Lemma ders_listesi_tutarli_ornek :
  dlp_liste (ders_listesi_ac ornek_liste_sistem ornek_liste_koordinator) =
    ["FIZ101 – Fizik I (1)"; "MAT101 – Matematik I (4)"]%string /\
  let p := _ders_secildi ornek_liste_sistem [1%nat] (ders_listesi_ac ornek_liste_sistem ornek_liste_koordinator) in
  dlp_liste p !! 1%nat = Some "MAT101 – Matematik I (4)"%string /\
  Z.of_nat (length (dlp_agac p)) = 4 /\
  forall no ad, (no, ad) ∈ dlp_agac p <->
    exists o, o ∈ t_ogrenciler ornek_katalog /\ og_id o ∈ ogr_ids (ders_kaydi ornek_katalog ornek_mat_satir) /\
              og_ogr_no o = no /\ og_adsoyad o = ad.
Proof.
  split; [vm_compute; reflexivity|].
  apply (ders_listesi_tutarli ornek_liste_sistem ornek_liste_koordinator 1 []
           (ders_kaydi ornek_katalog ornek_mat_satir)).
  - apply (bool_decide_unpack _). vm_compute. reflexivity.
  - vm_compute. reflexivity.
Defined.

(** Witness of [ara_tutarli]: the entry [" 2002 "] finds student B
    with two courses. *)
Lemma ara_tutarli_ornek :
  let o := {| og_id := 11; og_bolum_id := 1; og_ogr_no := "2002"; og_adsoyad := "B"; og_sinif := Some 1 |} in
  (_ara ornek_liste_sistem ornek_liste_koordinator " 2002 " "").2 = [] /\
  exists ds, _ara ornek_liste_sistem ornek_liste_koordinator " 2002 " "" = (katil YENI_SATIR (arama_satirlari o ds), []) /\
    length ds = length (filter (fun r => og_id o ∈ ogr_ids (ders_kaydi ornek_katalog r)) (t_dersler ornek_katalog)) /\
    forall kod ad, (kod, ad) ∈ ds <->
      exists r, r ∈ t_dersler ornek_katalog /\ ds_kod r = kod /\ ds_ad r = ad /\
                og_id o ∈ ogr_ids (ders_kaydi ornek_katalog r).
Proof.
  split; [vm_compute; reflexivity|].
  apply (ara_tutarli ornek_liste_sistem ornek_liste_koordinator 1 " 2002 " "").
  - apply (bool_decide_unpack _). vm_compute. reflexivity.
  - reflexivity.
  - apply list_elem_of_In. vm_compute. right. left. reflexivity.
  - reflexivity.
  - vm_compute. reflexivity.
  - vm_compute. discriminate.
Defined.

(** Witness of [olustur_listele]: after the create handler of the
    pipeline example the tree lists MAT101 at 09:00 and FIZ101 at
    11:00 on 2024-01-01. *)
Lemma olustur_listele_ornek :
  _listele ornek_olustur.1 ornek_liste_koordinator "vize" =
    [("MAT101", "Matematik I", ascii_str "2024-01-01T09:00", ascii_str "2024-01-01T10:30");
     ("FIZ101", "Fizik I", ascii_str "2024-01-01T11:00", ascii_str "2024-01-01T12:30")]%string /\
  exists d1 d2 saatler ds bk kk ys us,
    date_fromisoformat (py_strip (ascii_str "2024-01-01")) = Tamam d1 /\
    date_fromisoformat (py_strip (ascii_str "2024-01-01")) = Tamam d2 /\
    _parse_saatler (ascii_str "09:00, 11:00") = Tamam saatler /\
    py_int (ascii_str "90") = Some ds /\ py_int (ascii_str "0") = Some bk /\
    kisit_coz (GKisit (pencere_kisiti d1 d2 saatler "vize" ds bk false false false
                         (_secili_ders_ids [] []))) = Tamam kk /\
    planla kk (dersler_ogrsay_ve_alanlar_detayli ornek_katalog 1)
      (derslik_gorunumu <$> derslikler_kapasite_listesi ornek_katalog 1) ?= (ys, us, false) /\
    length (_listele ornek_olustur.1 ornek_liste_koordinator "vize") = length ys /\
    forall row, row ∈ _listele ornek_olustur.1 ornek_liste_koordinator "vize" <->
      exists y r, y ∈ ys /\ r ∈ t_dersler ornek_katalog /\ ds_id r = y_ders_id y /\
        row = (ds_kod r, ds_ad r, isoformat_dk (baslangic y), isoformat_dk (bitis y)).
Proof.
  split; [vm_compute; reflexivity|].
  apply (olustur_listele ornek_sistem_k 1 (ascii_str "2024-01-01") (ascii_str "2024-01-01")
           (ascii_str "09:00, 11:00") "vize" (ascii_str "90") (ascii_str "0") false false false [] []).
  - vm_compute. reflexivity.
  - reflexivity.
  - discriminate.
  - apply (bool_decide_unpack _). vm_compute. reflexivity.
Defined.

End ListePencereleri.
