(* ===== verification/PyRecords.v ===== *)
(** * PyRecords: the records the seating tab passes around

    The seating window ([src/arayuz/oturma_plani_penceresi.py]) and its
    PDF writer ([src/raporlar/oturma_plani_pdf.py]) receive lists of
    records from callbacks and read them with [rec.get(k)], [rec[k]],
    [int(...)], [str(...)] and [or].  A record is a dict or an
    [sqlite3.Row], what the queries of [veri_deposu] return (the
    connection of [veritabani.baglanti] sets [row_factory = sqlite3.Row]).
    A field holds [None], an int, a str or a [datetime], kept to the
    minute as in Calendar.  The keys the code uses are lower case and
    so are the column names, so the case-insensitive key match of
    [sqlite3.Row] is the plain one here. *)

From S2P Require Import Prelude Normalize Calendar Forms.

Module Sozluk.
Import Normal Takvim Metin.

Inductive Deger :=
  | DNone
  | DInt (z : Z)
  | DStr (s : pystr)
  | DTarih (t : Z).

Inductive Kayit :=
  | KDict (alanlar : list (string * Deger))
  | KRow (alanlar : list (string * Deger)).

(** [bool(v)]: a [datetime] is always true. *)
Definition dogru (v : Deger) : bool :=
  match v with
  | DNone => false
  | DInt z => negb (z =? 0)
  | DStr s => negb (bool_decide (s = []))
  | DTarih _ => true
  end.

(** [a or b] *)
Definition veya (a b : Deger) : Deger := if dogru a then a else b.

(** [str(v)], which is also [f"{v}"]; [str(datetime)] writes the
    seconds. *)
Definition py_str (v : Deger) : pystr :=
  match v with
  | DNone => ascii_str "None"
  | DInt z => ascii_str (str_of_Z z)
  | DStr s => s
  | DTarih t => strftime_dk t ++ ascii_str ":00"
  end.

(** [int(v)] *)
Definition py_int_d (v : Deger) : Sonuc Z :=
  match v with
  | DInt z => Tamam z
  | DStr s => match py_int s with Some z => Tamam z | None => Hata ValueError end
  | DNone | DTarih _ => Hata TypeError
  end.

Definition bul (alanlar : list (string * Deger)) (k : string) : option Deger :=
  snd <$> List.find (fun p => bool_decide (p.1 = k)) alanlar.

(** [rec.get(k, d)]: an [sqlite3.Row] has no [get]. *)
Definition get (r : Kayit) (k : string) (d : Deger) : Sonuc Deger :=
  match r with
  | KDict l => Tamam (default d (bul l k))
  | KRow _ => Hata AttributeError
  end.

(** [rec[k]]: a missing key raises [KeyError] in a dict and
    [IndexError] in an [sqlite3.Row]. *)
Definition getitem (r : Kayit) (k : string) : Sonuc Deger :=
  match r with
  | KDict l => match bul l k with Some v => Tamam v | None => Hata KeyError end
  | KRow l => match bul l k with Some v => Tamam v | None => Hata IndexError end
  end.

(** ** Lemmas *)

Lemma veya_dogru a b : dogru a = true -> veya a b = a.
Proof. unfold veya. by intros ->. Qed.

Lemma veya_yanlis a b : dogru a = false -> veya a b = b.
Proof. unfold veya. by intros ->. Qed.

Lemma py_int_d_str z : py_int_d (DStr (py_str (DInt z))) = Tamam z.
Proof. simpl. rewrite <- str_of_Z_metin, int_str_geri_donus. done. Qed.

Lemma getitem_dict_tamam l k v : bul l k = Some v -> getitem (KDict l) k = Tamam v.
Proof. simpl. by intros ->. Qed.

End Sozluk.
