(* ===== verification/SeatStore.v ===== *)
(** * SeatStore: the seat-plan tables of [veri_deposu]

    The reads and writes of [src/veri_deposu.py] around a seat plan:
    [sinav_derslikleri] (the rooms booked for an exam, lines 346-354),
    [oturma_plani_temizle], [oturma_plani_kaydet] and
    [oturma_plani_listele] (lines 369-391), over the tables of
    [Store] and [Catalog]; and the way [oturma_atayici.atama_yap] reads
    the rows it is given, through [_g] (lines 5-16 of
    [src/oturma_atayici.py]), which the [SeatAssign] model takes as
    already read.

    [oturma_plani] has [PRIMARY KEY(sinav_id, ogrenci_id)]: an insert of
    a second seat for a student of the same exam raises
    [IntegrityError], and [with baglanti()] rolls the block back.  The
    foreign keys are not checked ([PRAGMA foreign_keys] is off on these
    connections), and the joins of the reads drop the rows whose student
    or room is missing.  [ORDER BY] is a stable sort of the join, taken
    in the order of its driving table; SQLite leaves the order of ties
    open, and the theorems below do not depend on it.

    Theorems: clearing an exam's plan and storing the result of the seat
    engine always succeeds and leaves exactly the engine's assignments
    for that exam; a plan that repeats a student of the exam is refused
    with the store unchanged; the listing shows one row per stored seat;
    and (finding) the rows of [sinav_derslikleri] have no [sira_yapisi]
    column, so [atama_yap] seats every room read from it as a room of
    two-seat desks. *)

From S2P Require Import Prelude Normalize SeatLayout SeatAssign Catalog Store Accounts Forms Pipeline PyRecords.

Module OturmaDeposu.
Import Koltuk Oturma Katalog Kalici Yetki Metin Akis Sozluk.

(** ** Reads *)

(** The join of [sinav_programi_derslik] with [derslikler] for one exam. *)
Definition sinav_derslik_satirlari (s : Sistem) (sinav_id : Z) : list DerslikSatiri :=
  filter (fun l => l.1 = sinav_id) (sinav_programi_derslik (program s)) ≫= fun l =>
    filter (fun dl => dl_satir_id dl = l.2) (t_derslikler (katalog s)).

(** A row [dl.id, dl.derslik_kodu, dl.enine, dl.boyuna, dl.kapasite]. *)
Definition derslik_kaydi (dl : DerslikSatiri) : Kayit :=
  KRow [("id", DInt (dl_satir_id dl)); ("derslik_kodu", DStr (metin (dl_kodu dl)));
        ("enine", DInt (dl_enine dl)); ("boyuna", DInt (dl_boyuna dl));
        ("kapasite", DInt (dl_kapasite dl))].

(** [sinav_derslikleri(sinav_id)]: [ORDER BY dl.kapasite DESC]. *)
Definition sinav_derslikleri (s : Sistem) (sinav_id : Z) : list Kayit :=
  derslik_kaydi <$> sirala_azalan dl_kapasite (sinav_derslik_satirlari s sinav_id).

(** A row of [oturma_plani_listele]: [op.ogrenci_id, o.adsoyad,
    o.ogr_no, dl.derslik_kodu, op.sira_no, op.sutun_no]. *)
Record ListeSatiri := {
  ls_ogrenci : Z;
  ls_adsoyad : string;
  ls_ogr_no : string;
  ls_derslik_kodu : string;
  ls_sira : Z;
  ls_sutun : Z
}.

Definition liste_satirlari (s : Sistem) (sinav_id : Z) : list ListeSatiri :=
  filter (fun op => op_sinav op = sinav_id) (oturma_plani (program s)) ≫= fun op =>
    filter (fun o => og_id o = op_ogrenci op) (t_ogrenciler (katalog s)) ≫= fun o =>
      (fun dl => {| ls_ogrenci := op_ogrenci op; ls_adsoyad := og_adsoyad o; ls_ogr_no := og_ogr_no o;
                    ls_derslik_kodu := dl_kodu dl; ls_sira := op_sira op; ls_sutun := op_sutun op |})
      <$> filter (fun dl => dl_satir_id dl = op_derslik op) (t_derslikler (katalog s)).

(** [ORDER BY dl.derslik_kodu, op.sira_no, op.sutun_no] *)
Definition liste_le (a b : ListeSatiri) : bool :=
  match String.compare (ls_derslik_kodu a) (ls_derslik_kodu b) with
  | Lt => true
  | Gt => false
  | Eq => (ls_sira a <? ls_sira b) || ((ls_sira a =? ls_sira b) && (ls_sutun a <=? ls_sutun b))
  end.

(** [oturma_plani_listele(sinav_id)] *)
Definition oturma_plani_listele (s : Sistem) (sinav_id : Z) : list ListeSatiri :=
  sirala liste_le (liste_satirlari s sinav_id).

(** ** Writes *)

(** [oturma_plani_temizle(sinav_id)]: [DELETE FROM oturma_plani WHERE
    sinav_id=?]. *)
Definition oturma_plani_temizle (vt : Veritabani) (sinav_id : Z) : Veritabani :=
  {| sinav_programi := sinav_programi vt;
     sinav_programi_derslik := sinav_programi_derslik vt;
     oturma_plani := filter (fun op => op_sinav op <> sinav_id) (oturma_plani vt);
     sqlite_sequence := sqlite_sequence vt |}.

(** The values [(sinav_id, ogr_id, derslik_id, sira, sut)] of one
    assignment. *)
Definition oturma_satiri (sinav_id : Z) (a : Atama) : OturmaSatiri :=
  {| op_sinav := sinav_id; op_ogrenci := a_ogr a; op_derslik := a_derslik a;
     op_sira := a_sira a; op_sutun := a_sutun a |}.

(** The primary key [(sinav_id, ogrenci_id)] of the stored rows. *)
Definition anahtarlar (vt : Veritabani) : list (Z * Z) :=
  (fun op => (op_sinav op, op_ogrenci op)) <$> oturma_plani vt.

(** One [INSERT INTO oturma_plani(...) VALUES(?,?,?,?,?)] and its
    primary key. *)
Definition oturma_satiri_ekle (vt : Veritabani) (sinav_id : Z) (a : Atama) : Sonuc Veritabani :=
  if bool_decide ((sinav_id, a_ogr a) ∈ anahtarlar vt) then Hata IntegrityError
  else Tamam {| sinav_programi := sinav_programi vt;
                sinav_programi_derslik := sinav_programi_derslik vt;
                oturma_plani := oturma_plani vt ++ [oturma_satiri sinav_id a];
                sqlite_sequence := sqlite_sequence vt |}.

(** The [for] loop of [oturma_plani_kaydet]. *)
Fixpoint kaydet_satirlari (vt : Veritabani) (sinav_id : Z) (atamalar : list Atama) : Sonuc Veritabani :=
  match atamalar with
  | [] => Tamam vt
  | a :: rest => vt' ← oturma_satiri_ekle vt sinav_id a; kaydet_satirlari vt' sinav_id rest
  end.

(** [oturma_plani_kaydet(sinav_id, atamalar)] in its [with baglanti()]
    block. *)
Definition oturma_plani_kaydet (vt : Veritabani) (sinav_id : Z) (atamalar : list Atama)
    : Veritabani * Sonuc () :=
  baglanti_ile vt (vt' ← kaydet_satirlari vt sinav_id atamalar; Tamam (vt', ())).

(** ** How [atama_yap] reads a room row *)

(** [_g(row_or_dict, key, default)]: [row[key]], and on any exception
    [row.get(key, default)], and on any exception [default]. *)
Definition _g (r : Kayit) (k : string) (d : Deger) : Deger :=
  match getitem r k with
  | Tamam v => v
  | Hata _ => match get r k d with Tamam v => v | Hata _ => d end
  end.

(** Python's [*] on the values a row holds: integers multiply, a string
    times an integer repeats it, anything else raises [TypeError]. *)
Definition py_carp (a b : Deger) : Sonuc Deger :=
  match a, b with
  | DInt x, DInt y => Tamam (DInt (x * y))
  | DStr s, DInt n | DInt n, DStr s => Tamam (DStr (mjoin (replicate (Z.to_nat n) s)))
  | _, _ => Hata TypeError
  end.

(** The reads of the first loop (lines 59-62): [enine], [boyuna],
    [sira_yapisi] and [id]. *)
Definition ilk_okuma (r : Kayit) : Sonuc (Z * Z * Z * Z) :=
  e ← py_int_d (veya (_g r "enine" (DInt 0)) (DInt 0));
  b ← py_int_d (veya (_g r "boyuna" (DInt 0)) (DInt 0));
  sy ← py_int_d (veya (_g r "sira_yapisi" (DInt 2)) (DInt 2));
  i ← py_int_d (_g r "id" DNone);
  Tamam (e, b, sy, i).

(** The sort key (line 76), whose default
    [(_g(d, "enine", 0) or 0) * (_g(d, "boyuna", 0) or 0)] Python
    evaluates before the call. *)
Definition kapasite_okuma (r : Kayit) : Sonuc Z :=
  v ← py_carp (veya (_g r "enine" (DInt 0)) (DInt 0)) (veya (_g r "boyuna" (DInt 0)) (DInt 0));
  py_int_d (veya (_g r "kapasite" v) (DInt 0)).

Definition derslik_yap (ilk : Z * Z * Z * Z) (k : Z) : Derslik :=
  let '(e, b, sy, i) := ilk in {| dl_id := i; kapasite := k; enine := e; boyuna := b; sira_yapisi := sy |}.

(** [atama_yap(ogrenciler, derslikler)] on the rows it is given: the
    first loop reads every row, the early return for an empty class
    comes before the sort, and the sort reads every key. *)
Definition atama_yap_satirlar (ogrenciler : list Z) (rows : list Kayit) : Sonuc (list Atama * list Oturma.Uyari) :=
  ilk ← mapM ilk_okuma rows;
  match ogrenciler with
  | [] => Tamam ([], [OgrenciYok])
  | _ => ks ← mapM kapasite_okuma rows; Tamam (atama_yap ogrenciler (zip_with derslik_yap ilk ks))
  end.

(** ** The writer's contract *)

(** The store with a list of assignments appended to [oturma_plani]. *)
Definition ekli (vt : Veritabani) (sinav_id : Z) (atamalar : list Atama) : Veritabani :=
  {| sinav_programi := sinav_programi vt;
     sinav_programi_derslik := sinav_programi_derslik vt;
     oturma_plani := oturma_plani vt ++ (oturma_satiri sinav_id <$> atamalar);
     sqlite_sequence := sqlite_sequence vt |}.

(** What the primary key asks of a plan for an exam: no student twice,
    and no student already seated for the exam. *)
Definition eklenebilir (vt : Veritabani) (sinav_id : Z) (atamalar : list Atama) : Prop :=
  NoDup (a_ogr <$> atamalar) /\ Forall (fun a => (sinav_id, a_ogr a) ∉ anahtarlar vt) atamalar.

(** The room [atama_yap] sees in a row of [sinav_derslikleri]: the row
    has no [sira_yapisi], so [_g] falls back to its default [2]. *)
Definition iki_sirali (dl : DerslikSatiri) : Derslik :=
  {| dl_id := dl_satir_id dl; kapasite := dl_kapasite dl; enine := dl_enine dl;
     boyuna := dl_boyuna dl; sira_yapisi := 2 |}.

(** ** The writer *)

Lemma anahtarlar_ekli vt sid a :
  anahtarlar (ekli vt sid [a]) = anahtarlar vt ++ [(sid, a_ogr a)].
Proof. unfold anahtarlar, ekli. simpl. by rewrite fmap_app. Qed.

Lemma ekli_app vt sid a l : ekli (ekli vt sid [a]) sid l = ekli vt sid (a :: l).
Proof. unfold ekli. simpl. by rewrite <- app_assoc. Qed.

Lemma eklenebilir_cons vt sid a l :
  (sid, a_ogr a) ∉ anahtarlar vt ->
  eklenebilir vt sid (a :: l) <-> eklenebilir (ekli vt sid [a]) sid l.
Proof.
  intros Ha. unfold eklenebilir. rewrite anahtarlar_ekli, fmap_cons, NoDup_cons, Forall_cons.
  setoid_rewrite elem_of_app. setoid_rewrite list_elem_of_singleton.
  rewrite !Forall_forall, list_elem_of_fmap. split.
  - intros [[Hn Hnd] [_ Hf]]. split; [done|]. intros b Hb [Hk|Hk]; [by apply (Hf b Hb)|].
    apply Hn. exists b. split; [congruence|done].
  - intros [Hnd Hf]. split; [split; [|done]|split; [done|]].
    + intros (b & Hb & Hbl). apply (Hf b Hbl). right. congruence.
    + intros b Hb Hk. apply (Hf b Hb). by left.
Qed.

Lemma oturma_satiri_ekle_tamam vt sid a :
  (sid, a_ogr a) ∉ anahtarlar vt -> oturma_satiri_ekle vt sid a = Tamam (ekli vt sid [a]).
Proof. intros Ha. unfold oturma_satiri_ekle. by rewrite bool_decide_eq_false_2. Qed.

(** The loop of [oturma_plani_kaydet]: every row is appended when the
    plan respects the primary key, and [IntegrityError] is raised
    otherwise. *)
Lemma kaydet_satirlari_spec vt sid atamalar :
  kaydet_satirlari vt sid atamalar =
    if bool_decide (eklenebilir vt sid atamalar) then Tamam (ekli vt sid atamalar) else Hata IntegrityError.
Proof.
  revert vt. induction atamalar as [|a l IH]; intros vt; cbn [kaydet_satirlari].
  - rewrite bool_decide_eq_true_2.
    + unfold ekli. cbn [fmap list_fmap]. rewrite app_nil_r. by destruct vt.
    + split; [constructor|done].
  - destruct (decide ((sid, a_ogr a) ∈ anahtarlar vt)) as [Ha|Ha].
    + unfold oturma_satiri_ekle. rewrite !bool_decide_eq_true_2 by done.
      rewrite bool_decide_eq_false_2; [done|]. intros [_ Hf]. by inversion Hf.
    + rewrite oturma_satiri_ekle_tamam by done. cbn [mbind Sonuc_bind].
      by rewrite IH, (bool_decide_ext _ _ (eklenebilir_cons vt sid a l Ha)), ekli_app.
Qed.

Lemma oturma_plani_kaydet_tamam vt sid atamalar :
  eklenebilir vt sid atamalar -> oturma_plani_kaydet vt sid atamalar = (ekli vt sid atamalar, Tamam ()).
Proof. intros H. unfold oturma_plani_kaydet. rewrite kaydet_satirlari_spec, bool_decide_eq_true_2 by done. done. Qed.

(** After the plan of an exam is cleared, any plan of distinct
    students can be stored for it. *)
Lemma temizle_eklenebilir vt sid atamalar :
  NoDup (a_ogr <$> atamalar) -> eklenebilir (oturma_plani_temizle vt sid) sid atamalar.
Proof.
  intros Hn. split; [done|]. apply Forall_forall. intros a _.
  intros (op & [= Hs _] & [Hne _]%list_elem_of_filter)%list_elem_of_fmap. done.
Qed.

(** The rows of the exam after a clear and a store are the new plan,
    and the rows of the other exams are those before. *)
Lemma ekli_temizle_sinav vt sid atamalar :
  filter (fun op => op_sinav op = sid) (oturma_plani (ekli (oturma_plani_temizle vt sid) sid atamalar)) =
    oturma_satiri sid <$> atamalar /\
  filter (fun op => op_sinav op <> sid) (oturma_plani (ekli (oturma_plani_temizle vt sid) sid atamalar)) =
    filter (fun op => op_sinav op <> sid) (oturma_plani vt).
Proof.
  cbn [ekli oturma_plani oturma_plani_temizle]. rewrite !filter_app. split.
  - rewrite filter_bos, filter_hepsi; [done| |].
    + intros op (a & -> & _)%list_elem_of_fmap. done.
    + by intros op [Hne _]%list_elem_of_filter.
  - rewrite (filter_bos _ (oturma_satiri sid <$> _)), app_nil_r.
    + apply filter_hepsi. by intros op [Hne _]%list_elem_of_filter.
    + intros op (a & -> & _)%list_elem_of_fmap H. by apply H.
Qed.

(** The seat engine seats each student at most once. *)
Lemma atama_yap_ogrenci_NoDup ogr dls :
  NoDup ogr -> NoDup (dl_id <$> dls) -> NoDup (a_ogr <$> (atama_yap ogr dls).1).
Proof. intros Ho Hd. rewrite atama_yap_zip, ogrenci_zip by done. by apply NoDup_take_l. Qed.

Lemma filter_tek {A} (f : A -> Z) (l : list A) x :
  NoDup (f <$> l) -> x ∈ f <$> l -> exists y, filter (fun y => f y = x) l = [y].
Proof.
  induction l as [|a l IH]; intros Hn Hx; [by apply not_elem_of_nil in Hx|].
  rewrite fmap_cons, NoDup_cons in Hn. destruct Hn as [Ha Hn]. rewrite filter_cons.
  case_decide as E.
  - exists a. rewrite filter_bos; [done|]. intros y Hy Hy'. apply Ha. subst x.
    rewrite <- Hy'. by apply list_elem_of_fmap_2.
  - apply IH; [done|]. rewrite fmap_cons in Hx. apply elem_of_cons in Hx as [->|]; [done|done].
Qed.

(** One listing row for each stored seat whose student and room exist. *)
Lemma liste_satirlari_kayitli s sid atamalar :
  NoDup (og_id <$> t_ogrenciler (katalog s)) -> NoDup (dl_satir_id <$> t_derslikler (katalog s)) ->
  Forall (fun a => a_ogr a ∈ og_id <$> t_ogrenciler (katalog s) /\
                   a_derslik a ∈ dl_satir_id <$> t_derslikler (katalog s)) atamalar ->
  filter (fun op => op_sinav op = sid) (oturma_plani (program s)) = oturma_satiri sid <$> atamalar ->
  (fun r => (ls_ogrenci r, ls_sira r, ls_sutun r)) <$> liste_satirlari s sid =
  (fun a => (a_ogr a, a_sira a, a_sutun a)) <$> atamalar.
Proof.
  intros Ho Hd Hf Hp. unfold liste_satirlari. rewrite Hp. clear Hp.
  induction Hf as [|a l [Hao Had] _ IH]; [done|].
  cbn [fmap list_fmap mbind list_bind oturma_satiri op_ogrenci op_derslik op_sira op_sutun].
  destruct (filter_tek og_id _ _ Ho Hao) as [o ->].
  destruct (filter_tek dl_satir_id _ _ Hd Had) as [dl ->]. cbn. f_equal. exact IH.
Qed.

(** *** The rows of [sinav_derslikleri] as [atama_yap] reads them *)

Lemma veya_DInt z d : veya (DInt z) (DInt d) = DInt (if z =? 0 then d else z).
Proof. unfold veya, dogru. by destruct (z =? 0). Qed.

Lemma ilk_okuma_kaydi dl :
  ilk_okuma (derslik_kaydi dl) = Tamam (dl_enine dl, dl_boyuna dl, 2, dl_satir_id dl).
Proof.
  destruct dl as [i b0 kod ad kap e b sy]. unfold ilk_okuma, _g.
  vm_compute getitem. vm_compute get. cbn beta iota. rewrite !veya_DInt. cbn.
  by destruct (Z.eqb_spec e 0) as [->|], (Z.eqb_spec b 0) as [->|].
Qed.

Lemma kapasite_okuma_kaydi dl : kapasite_okuma (derslik_kaydi dl) = Tamam (dl_kapasite dl).
Proof.
  destruct dl as [i b0 kod ad kap e b sy]. unfold kapasite_okuma, _g. vm_compute getitem.
  cbn beta iota. rewrite !veya_DInt. cbn. by destruct (Z.eqb_spec kap 0) as [->|].
Qed.

Lemma zip_with_derslik_yap (l : list DerslikSatiri) :
  zip_with derslik_yap ((fun dl => (dl_enine dl, dl_boyuna dl, 2, dl_satir_id dl)) <$> l) (dl_kapasite <$> l) =
  iki_sirali <$> l.
Proof. induction l as [|dl l IH]; [done|]. cbn. by rewrite IH. Qed.

(** ** Theorems *)

(** C16: [oturma_plani_kaydet] appends the whole plan, in order, when no
    student appears twice and none is already seated for the exam;
    otherwise the primary key raises [IntegrityError] and the block is
    rolled back, leaving the store as it was. *)
Theorem oturma_plani_kaydet_dogru vt sid atamalar :
  oturma_plani_kaydet vt sid atamalar =
    if bool_decide (eklenebilir vt sid atamalar) then (ekli vt sid atamalar, Tamam ())
    else (vt, Hata IntegrityError).
Proof. unfold oturma_plani_kaydet. rewrite kaydet_satirlari_spec. by case_bool_decide. Qed.

(** Storing a plan a second time without [oturma_plani_temizle] fails:
    its first student is already seated for the exam. *)
Theorem tekrar_kaydet_reddedilir vt sid atamalar :
  atamalar <> [] -> eklenebilir vt sid atamalar ->
  oturma_plani_kaydet (ekli vt sid atamalar) sid atamalar = (ekli vt sid atamalar, Hata IntegrityError).
Proof.
  intros Hne _. unfold oturma_plani_kaydet. rewrite kaydet_satirlari_spec, bool_decide_eq_false_2; [done|].
  destruct atamalar as [|a l]; [done|]. intros [_ Hf]. apply Forall_cons in Hf as [Ha _]. apply Ha.
  unfold anahtarlar, ekli. cbn [oturma_plani]. rewrite fmap_app. apply elem_of_app. right. by left.
Qed.

(** C15: Seating an exam again: after [oturma_plani_temizle], storing the
    result of the seat engine for distinct students and rooms with
    distinct ids never raises, the exam's rows are exactly the engine's
    assignments in its order, and the other exams keep their rows. *)
Theorem yeniden_oturtma vt sid ogr dls :
  NoDup ogr -> NoDup (dl_id <$> dls) ->
  exists vt', oturma_plani_kaydet (oturma_plani_temizle vt sid) sid (atama_yap ogr dls).1 = (vt', Tamam ()) /\
    filter (fun op => op_sinav op = sid) (oturma_plani vt') = oturma_satiri sid <$> (atama_yap ogr dls).1 /\
    filter (fun op => op_sinav op <> sid) (oturma_plani vt') = filter (fun op => op_sinav op <> sid) (oturma_plani vt).
Proof.
  intros Ho Hd. eexists. rewrite oturma_plani_kaydet_tamam.
  - split; [done|]. apply ekli_temizle_sinav.
  - by apply temizle_eklenebilir, atama_yap_ogrenci_NoDup.
Qed.

(** C17: After a stored plan, [oturma_plani_listele] shows each assignment
    once, with its student and seat, when students and rooms are rows
    of their tables (their ids being primary keys). *)
Theorem listele_kaydedilen s sid atamalar vt' :
  NoDup (og_id <$> t_ogrenciler (katalog s)) -> NoDup (dl_satir_id <$> t_derslikler (katalog s)) ->
  Forall (fun a => a_ogr a ∈ og_id <$> t_ogrenciler (katalog s) /\
                   a_derslik a ∈ dl_satir_id <$> t_derslikler (katalog s)) atamalar ->
  oturma_plani_kaydet (oturma_plani_temizle (program s) sid) sid atamalar = (vt', Tamam ()) ->
  (fun r => (ls_ogrenci r, ls_sira r, ls_sutun r)) <$> oturma_plani_listele (program_yaz s vt') sid ≡ₚ
  (fun a => (a_ogr a, a_sira a, a_sutun a)) <$> atamalar.
Proof.
  intros Ho Hd Hf Hk. unfold oturma_plani_kaydet in Hk. rewrite kaydet_satirlari_spec in Hk.
  case_bool_decide; [|done]. cbn [mbind Sonuc_bind baglanti_ile] in Hk. injection Hk as Hv. subst vt'.
  unfold oturma_plani_listele. rewrite sirala_perm, (liste_satirlari_kayitli _ _ atamalar); try done.
  apply ekli_temizle_sinav.
Qed.

(** C38: Finding: [atama_yap] given the rows of [sinav_derslikleri] always
    succeeds and seats every room as a room of two-seat desks, whatever
    its [sira_yapisi]: the query does not select that column, [row[k]]
    raises, [sqlite3.Row] has no [get], and [_g] returns its default. *)
Theorem sinav_derslikleri_ikili ogr s sid :
  atama_yap_satirlar ogr (sinav_derslikleri s sid) =
    Tamam (atama_yap ogr (iki_sirali <$> sirala_azalan dl_kapasite (sinav_derslik_satirlari s sid))).
Proof.
  unfold atama_yap_satirlar, sinav_derslikleri.
  rewrite (mapM_fmap_tamam ilk_okuma derslik_kaydi (fun dl => (dl_enine dl, dl_boyuna dl, 2, dl_satir_id dl)))
    by (intros; apply ilk_okuma_kaydi).
  cbn [mbind Sonuc_bind]. destruct ogr as [|o os].
  - unfold atama_yap. by destruct (koltuk_haritasi _).
  - rewrite (mapM_fmap_tamam kapasite_okuma derslik_kaydi dl_kapasite) by (intros; apply kapasite_okuma_kaydi).
    cbn [mbind Sonuc_bind]. by rewrite zip_with_derslik_yap.
Qed.

(** ** Examples *)

(** Room D1: one row of six seats in two desks of three, booked for
    exam 1; two students. *)
Definition ornek_d1 : DerslikSatiri :=
  {| dl_satir_id := 5; dl_bolum_id := 1; dl_kodu := "D1"; dl_adi := "Derslik 1"; dl_kapasite := 6;
     dl_enine := 6; dl_boyuna := 1; dl_sira_yapisi := 3 |}.

Definition ornek_ogrenci (i : Z) (no ad : string) : OgrenciSatiri :=
  {| og_id := i; og_bolum_id := 1; og_ogr_no := no; og_adsoyad := ad; og_sinif := Some 1 |}.

Definition ornek_oturma : Sistem :=
  {| bolumler := [(1, "Bilgisayar Mühendisliği")]; bolum_seq := 1; kullanicilar := []; kullanici_seq := 0;
     katalog := {| t_dersler := []; t_ogrenci_ders := [];
                   t_ogrenciler := [ornek_ogrenci 10 "220201010" "Ali Veli"; ornek_ogrenci 11 "220201011" "Ayşe Kaya"];
                   t_derslikler := [ornek_d1] |};
     derslik_seq := 5;
     program := {| sinav_programi := []; sinav_programi_derslik := [(1, 5)]; oturma_plani := [];
                   sqlite_sequence := 1 |} |}.

(** The room as its row describes it, three-seat desks included. *)
Definition ornek_d1_derslik : Derslik :=
  {| dl_id := 5; kapasite := 6; enine := 6; boyuna := 1; sira_yapisi := 3 |}.

(** Read from [sinav_derslikleri], the two students get columns 1 and
    3, the two ends of the first desk; the room's own three-seat order
    would give them columns 1 and 4, one per desk. *)
Example ikili_ornek :
  atama_yap_satirlar [10; 11] (sinav_derslikleri ornek_oturma 1) =
    Tamam ([{| a_ogr := 10; a_derslik := 5; a_sira := 1; a_sutun := 1 |};
            {| a_ogr := 11; a_derslik := 5; a_sira := 1; a_sutun := 3 |}], []) /\
  (atama_yap [10; 11] [ornek_d1_derslik]).1 =
    [{| a_ogr := 10; a_derslik := 5; a_sira := 1; a_sutun := 1 |};
     {| a_ogr := 11; a_derslik := 5; a_sira := 1; a_sutun := 4 |}].
Proof. split; vm_compute; reflexivity. Qed.

(** Witness of [tekrar_kaydet_reddedilir]. *)
Lemma tekrar_kaydet_reddedilir_ornek :
  oturma_plani_kaydet (ekli (program ornek_oturma) 1 (atama_yap [10; 11] [ornek_d1_derslik]).1) 1
    (atama_yap [10; 11] [ornek_d1_derslik]).1 =
  (ekli (program ornek_oturma) 1 (atama_yap [10; 11] [ornek_d1_derslik]).1, Hata IntegrityError).
Proof.
  apply tekrar_kaydet_reddedilir.
  - vm_compute. discriminate.
  - apply (bool_decide_unpack _). vm_compute. reflexivity.
Defined.

(** Witness of [yeniden_oturtma]. *)
Lemma yeniden_oturtma_ornek :
  exists vt', oturma_plani_kaydet (oturma_plani_temizle (program ornek_oturma) 1) 1
                (atama_yap [10; 11] [ornek_d1_derslik]).1 = (vt', Tamam ()) /\
    filter (fun op => op_sinav op = 1) (oturma_plani vt') =
      oturma_satiri 1 <$> (atama_yap [10; 11] [ornek_d1_derslik]).1 /\
    filter (fun op => op_sinav op <> 1) (oturma_plani vt') =
      filter (fun op => op_sinav op <> 1) (oturma_plani (program ornek_oturma)).
Proof.
  apply yeniden_oturtma; apply (bool_decide_unpack _); vm_compute; reflexivity.
Defined.

(** Witness of [listele_kaydedilen]. *)
Lemma listele_kaydedilen_ornek :
  (fun r => (ls_ogrenci r, ls_sira r, ls_sutun r)) <$>
    oturma_plani_listele (program_yaz ornek_oturma
      (ekli (oturma_plani_temizle (program ornek_oturma) 1) 1 (atama_yap [10; 11] [ornek_d1_derslik]).1)) 1
  ≡ₚ (fun a => (a_ogr a, a_sira a, a_sutun a)) <$> (atama_yap [10; 11] [ornek_d1_derslik]).1.
Proof.
  apply listele_kaydedilen.
  - apply (bool_decide_unpack _). vm_compute. reflexivity.
  - apply (bool_decide_unpack _). vm_compute. reflexivity.
  - apply (bool_decide_unpack _). vm_compute. reflexivity.
  - vm_compute. reflexivity.
Defined.

End OturmaDeposu.
