(* ===== verification/SeatingPdf.v ===== *)
(** * SeatingPdf: the seating plan PDF writer

    [src/raporlar/oturma_plani_pdf.py]: [oturma_plani_pdf_yaz] draws one
    A4 page per room record: a header, the room's seat grid, the
    student number of every assignment of the room in its seat, and a
    list of placements at the foot of the page; with no room it draws
    one sample page.  [oturma_plani_pdf_kaydet] forwards to it.

    A page is the list of the canvas calls made on it, in order.  The
    [drawString] positions are fixed multiples of [mm] and are kept in
    tenths of a millimetre ([20 * mm] is [200]); the float arithmetic of
    the list's cursor ([ylist], from [14 * mm] down by [4.2 * mm] while
    not below [10 * mm]) compares values at least [0.2 mm] apart, so
    the integer cursor takes the same branches.  The grid and the seat
    labels are kept by room size and by seat (column, row) rather than
    by their float coordinates, which only depend on those.  Font sizes
    are in tenths of a point.  Writing the file ([c.save()]) is the
    result [Tamam]; an exception of the loop is [Hata], and no file is
    written. *)

From S2P Require Import Prelude Normalize Calendar Forms PyRecords.

Module OturmaPdf.
Import Normal Takvim Metin Sozluk.

Inductive Komut :=
  | YaziTipi (ad : string) (boyut : Z)       (* [c.setFont] *)
  | Yazi (x y : Z) (s : pystr)                (* [c.drawString] *)
  | Izgara (enine boyuna : Z)                 (* [_draw_grid] *)
  | Etiket (sutun sira : Z) (s : pystr)       (* [c.drawCentredString] at a seat *)
  | SayfaSonu.                                (* [c.showPage] *)

(** [esine(n)] (lines 31-36) *)
Definition esine (n : Deger) : Z :=
  match py_int_d n with Tamam z => z | Hata _ => 0 end.

(** [f"{i:02d}"] *)
Definition iki_basamakli (i : Z) : pystr :=
  if (0 <=? i) && (i <? 100) then basamaklar 2 i else ascii_str (str_of_Z i).

(** The loop [this = [a for a in atamalar if int(a["derslik_id"]) == d_id]]
    (line 97). *)
Fixpoint bu_derslik (d_id : Z) (atamalar : list Kayit) : Sonuc (list Kayit) :=
  match atamalar with
  | [] => Tamam []
  | a :: r =>
      v ← getitem a "derslik_id"; x ← py_int_d v; rest ← bu_derslik d_id r;
      Tamam (if x =? d_id then a :: rest else rest)
  end.

(** One seat label (lines 100-104). *)
Definition etiket (a : Kayit) : Sonuc Komut :=
  row ← getitem a "sira_no" ≫= py_int_d;
  col ← getitem a "sutun_no" ≫= py_int_d;
  no ← get a "ogr_no" (DStr []);
  Tamam (Etiket col row (py_str no)).

Fixpoint etiketler (this : list Kayit) : Sonuc (list Komut) :=
  match this with
  | [] => Tamam []
  | a :: r => k ← etiket a; ks ← etiketler r; Tamam (k :: ks)
  end.

(** One line of the list (lines 113-117). *)
Definition liste_satiri (i ylist : Z) (a : Kayit) : Sonuc Komut :=
  no ← get a "ogr_no" (DStr []);
  ad ← get a "adsoyad" (DStr []);
  s ← getitem a "sira_no";
  c ← getitem a "sutun_no";
  Tamam (Yazi 200 ylist (iki_basamakli i ++ ascii_str ") " ++ py_str no ++ ascii_str " - " ++
                         py_str ad ++ ascii_str "  " ++ metin "(Sıra:" ++ py_str s ++
                         metin ", Sütun:" ++ py_str c ++ ascii_str ")")).

(** The loop of lines 112-120 over [this[:max_list]], from [i] and the
    cursor [ylist]: after each line the cursor moves down [4.2 mm] and
    the loop stops once it is below [10 mm]. *)
Fixpoint liste (i ylist : Z) (this : list Kayit) : Sonuc (list Komut) :=
  match this with
  | [] => Tamam []
  | a :: r =>
      k ← liste_satiri i ylist a;
      let y' := ylist - 42 in
      if y' <? 100 then Tamam [k]
      else ks ← liste (i + 1) y' r; Tamam (k :: ks)
  end.

Definition max_list : nat := 50.

(** The header of a room page (lines 66-71). *)
Definition baslik_satirlari (sinav_baslik tarih_saat kod : pystr) (enine boyuna : Z) : list Komut :=
  [YaziTipi "Helvetica-Bold" 140; Yazi 200 2720 sinav_baslik;
   YaziTipi "Helvetica" 110; Yazi 200 2650 (ascii_str "Tarih/Saat: " ++ tarih_saat);
   Yazi 200 2590 (ascii_str "Derslik: " ++ kod ++ ascii_str "  " ++ metin "(Sütun: " ++
                  ascii_str (str_of_Z (esine (DInt enine))) ++ metin ", Sıra: " ++
                  ascii_str (str_of_Z (esine (DInt boyuna))) ++ ascii_str ")")].

(** [int(dl.get(k) or 0)] (lines 63-64) *)
Definition boyut (dl : Kayit) (k : string) : Sonuc Z :=
  v ← get dl k DNone; py_int_d (veya v (DInt 0)).

(** The body of the loop [for dl in derslikler] (lines 61-123). *)
Definition derslik_sayfasi (sinav_baslik tarih_saat : pystr) (atamalar : list Kayit) (dl : Kayit)
    : Sonuc (list Komut) :=
  d_id ← getitem dl "id" ≫= py_int_d;
  kod ← get dl "derslik_kodu" (DStr (metin "—"));
  enine ← boyut dl "enine";
  boyuna ← boyut dl "boyuna";
  let ust := baslik_satirlari sinav_baslik tarih_saat (py_str kod) enine boyuna in
  if (enine <=? 0) || (boyuna <=? 0) then
    Tamam (ust ++ [YaziTipi "Helvetica-Oblique" 100;
                   Yazi 200 2490 (metin "Uyarı: Geçersiz sınıf düzeni (enine/boyuna).");
                   SayfaSonu])
  else
    this ← bu_derslik d_id atamalar;
    ks ← etiketler this;
    ls ← liste 1 140 (firstn max_list this);
    Tamam (ust ++ [Izgara enine boyuna; YaziTipi "Helvetica" 75] ++ ks ++
           [YaziTipi "Helvetica" 90; Yazi 200 180 (metin "Öğrenci Yerleşimleri:");
            YaziTipi "Helvetica" 80] ++ ls ++ [SayfaSonu]).

(** The sample page of lines 126-134. *)
Definition ornek_sayfa (sinav_baslik tarih_saat : pystr) : list Komut :=
  [YaziTipi "Helvetica-Bold" 140;
   Yazi 200 2720 (if bool_decide (sinav_baslik = []) then metin "Oturma Planı" else sinav_baslik);
   YaziTipi "Helvetica" 110; Yazi 200 2650 tarih_saat;
   YaziTipi "Helvetica-Oblique" 100;
   Yazi 200 2490 (metin "Uyarı: Bu sınava ait derslik bulunamadı (PDF örnek sayfası).");
   SayfaSonu].

Fixpoint sayfalar (sinav_baslik tarih_saat : pystr) (atamalar : list Kayit) (derslikler : list Kayit)
    : Sonuc (list (list Komut)) :=
  match derslikler with
  | [] => Tamam []
  | dl :: r =>
      p ← derslik_sayfasi sinav_baslik tarih_saat atamalar dl;
      ps ← sayfalar sinav_baslik tarih_saat atamalar r;
      Tamam (p :: ps)
  end.

(** [oturma_plani_pdf_yaz] (lines 42-136): the pages of the saved
    file; [sayfa_sayildi] is set by every room. *)
Definition oturma_plani_pdf_yaz (dosya_yolu sinav_baslik tarih_saat : pystr)
    (derslikler atamalar : list Kayit) : Sonuc (list (list Komut)) :=
  ps ← sayfalar sinav_baslik tarih_saat atamalar derslikler;
  match ps with
  | [] => Tamam [ornek_sayfa sinav_baslik tarih_saat]
  | _ => Tamam ps
  end.

(** [oturma_plani_pdf_kaydet] (lines 139-157) *)
Definition oturma_plani_pdf_kaydet (dosya_yolu sinav_baslik tarih_saat : pystr)
    (derslikler atamalar : list Kayit) : Sonuc (list (list Komut)) :=
  oturma_plani_pdf_yaz dosya_yolu sinav_baslik tarih_saat derslikler atamalar.

(** ** What a page shows *)

(** The seat labels of a page, in drawing order. *)
Fixpoint etiketleri (p : list Komut) : list (Z * Z * pystr) :=
  match p with
  | [] => []
  | Etiket c r s :: q => (c, r, s) :: etiketleri q
  | _ :: q => etiketleri q
  end.

(** The lines of the placement list: the texts drawn at or below the
    list's first line, [14 mm] from the foot. *)
Fixpoint liste_satirlari (p : list Komut) : list pystr :=
  match p with
  | [] => []
  | Yazi _ y s :: q => if y <=? 140 then s :: liste_satirlari q else liste_satirlari q
  | _ :: q => liste_satirlari q
  end.

(** ** Lemmas *)

Lemma sayfalar_uzunluk b t a ds ps :
  sayfalar b t a ds ?= ps -> length ps = length ds.
Proof.
  revert ps. induction ds as [|d ds IH]; intros ps; simpl; [by intros [= <-]|].
  destruct (derslik_sayfasi _ _ _ _) as [p|]; simpl; [|discriminate].
  destruct (sayfalar _ _ _ ds) as [ps'|] eqn:E; simpl; [|discriminate].
  intros [= <-]. simpl. by rewrite (IH ps').
Qed.

Lemma sayfalar_elem b t a ds ps p :
  sayfalar b t a ds ?= ps -> p ∈ ps -> exists dl, dl ∈ ds /\ derslik_sayfasi b t a dl ?= p.
Proof.
  revert ps. induction ds as [|d ds IH]; intros ps; simpl; [intros [= <-]; set_solver|].
  destruct (derslik_sayfasi _ _ _ _) as [p'|] eqn:Ep; simpl; [|discriminate].
  destruct (sayfalar _ _ _ ds) as [ps'|] eqn:E; simpl; [|discriminate].
  intros [= <-] [->|Hp]%elem_of_cons; [exists d; set_solver|].
  destruct (IH ps' eq_refl Hp) as (dl & ? & ?). exists dl. set_solver.
Qed.

Lemma liste_satirlari_uzunluk p : (length (liste_satirlari p) <= length p)%nat.
Proof.
  induction p as [|k p IH]; simpl; [lia|].
  destruct k; simpl; try lia. case_match; simpl; lia.
Qed.

Lemma liste_en_cok_bir i l ks : liste i 140 l ?= ks -> (length ks <= 1)%nat.
Proof.
  destruct l as [|a l]; simpl; [by intros [= <-]; simpl; lia|].
  destruct (liste_satiri i 140 a); simpl; [|discriminate]. intros [= <-]. simpl. lia.
Qed.


Lemma liste_satirlari_app p q : liste_satirlari (p ++ q) = liste_satirlari p ++ liste_satirlari q.
Proof. induction p as [|k p IH]; [done|]. destruct k; simpl; rewrite ?IH; try done. by case_match. Qed.

Lemma etiketleri_app p q : etiketleri (p ++ q) = etiketleri p ++ etiketleri q.
Proof. induction p as [|k p IH]; [done|]. by destruct k; simpl; rewrite IH. Qed.

Lemma liste_etiketsiz i y l ls : liste i y l ?= ls -> etiketleri ls = [].
Proof.
  revert i y ls. induction l as [|a l IH]; intros i y ls; simpl; [by intros [= <-]|].
  unfold liste_satiri. destruct (get a "ogr_no" _), (get a "adsoyad" _), (getitem a "sira_no"),
    (getitem a "sutun_no"); simpl; try discriminate.
  destruct (y - 42 <? 100); [by intros [= <-]|].
  destruct (liste (i + 1) (y - 42) l) as [ks'|] eqn:E; simpl; [|discriminate]. intros [= <-].
  apply (IH _ _ _ E).
Qed.

Lemma etiketler_elem this ks :
  etiketler this ?= ks ->
  liste_satirlari ks = [] /\
  forall c r s, (c, r, s) ∈ etiketleri ks <-> exists a, a ∈ this /\ etiket a ?= Etiket c r s.
Proof.
  revert ks. induction this as [|a this IH]; intros ks; simpl.
  - intros [= <-]. split; [done|]. intros c r s. split; [intros Hk; inversion Hk|intros (? & Ha & _); inversion Ha].
  - destruct (etiket a) as [k|] eqn:Ek; simpl; [|discriminate].
    destruct (etiketler this) as [ks'|]; simpl; [|discriminate]. intros [= <-].
    destruct (IH ks' eq_refl) as [Hl Hm].
    assert (Hk : exists c0 r0 s0, k = Etiket c0 r0 s0).
    { unfold etiket in Ek. destruct (_ ≫= py_int_d), (_ ≫= py_int_d), (get a _ _); simpl in Ek;
        try discriminate. injection Ek as <-. eauto. }
    destruct Hk as (c0 & r0 & s0 & ->). split; [done|]. intros c r s.
    change (etiketleri (Etiket c0 r0 s0 :: ks')) with ((c0, r0, s0) :: etiketleri ks').
    rewrite elem_of_cons, Hm. split.
    + intros [[= -> -> ->]|(a' & Ha' & E)]; [exists a; set_solver|exists a'; set_solver].
    + intros (a' & [->|Ha']%elem_of_cons & E); [left; rewrite Ek in E; congruence|right; eauto].
Qed.

Lemma bu_derslik_elem d atamalar this a :
  bu_derslik d atamalar ?= this -> a ∈ this <-> a ∈ atamalar /\ (getitem a "derslik_id" ≫= py_int_d) ?= d.
Proof.
  revert this. induction atamalar as [|a' r IH]; intros this; simpl.
  - intros [= <-]. set_solver.
  - destruct (getitem a' _) as [v|] eqn:Eg; simpl; [|discriminate].
    destruct (py_int_d v) as [x|] eqn:Ex; simpl; [|discriminate].
    destruct (bu_derslik d r) as [rest|]; simpl; [|discriminate]. intros [= <-].
    specialize (IH rest eq_refl).
    assert (Ea : (getitem a' "derslik_id" ≫= py_int_d) = Tamam x) by (rewrite Eg; exact Ex).
    destruct (Z.eqb_spec x d) as [->|Hne]; rewrite ?elem_of_cons, IH, ?elem_of_cons; split.
    + intros [->|[? ?]]; auto.
    + intros [[->|?] ?]; auto.
    + intros [? ?]; auto.
    + intros [[->|?] E]; [rewrite Ea in E; congruence|auto].
Qed.

Lemma ornek_sayfa_listesiz b t : liste_satirlari (ornek_sayfa b t) = [].
Proof. done. Qed.

(** Every room page has the header, then either the warning or the grid,
    the labels and the list. *)
Lemma derslik_sayfasi_yapi b t atamalar dl p :
  derslik_sayfasi b t atamalar dl ?= p ->
  exists d en bo, (getitem dl "id" ≫= py_int_d) ?= d /\ boyut dl "enine" ?= en /\ boyut dl "boyuna" ?= bo /\
    (((en <= 0 \/ bo <= 0) /\ liste_satirlari p = [] /\ etiketleri p = []) \/
     (0 < en /\ 0 < bo /\ exists this ks ls, bu_derslik d atamalar ?= this /\ etiketler this ?= ks /\
        liste 1 140 (firstn max_list this) ?= ls /\
        liste_satirlari p = liste_satirlari ls /\ etiketleri p = etiketleri ks)).
Proof.
  unfold derslik_sayfasi. intros Hp.
  destruct (getitem dl "id" ≫= py_int_d) as [d|] eqn:Ed; [|discriminate]. cbn [mbind Sonuc_bind] in Hp.
  destruct (get dl "derslik_kodu" _) as [kod|]; [|discriminate]. cbn [mbind Sonuc_bind] in Hp.
  destruct (boyut dl "enine") as [en|] eqn:Ee; [|discriminate]. cbn [mbind Sonuc_bind] in Hp.
  destruct (boyut dl "boyuna") as [bo|] eqn:Eb; [|discriminate]. cbn [mbind Sonuc_bind] in Hp.
  exists d, en, bo. do 3 (split; [done|]).
  destruct (Z.leb_spec en 0), (Z.leb_spec bo 0); cbn [orb] in Hp;
    try (apply tamam_inj in Hp; subst p; left; split; [lia|]; split; reflexivity).
  right. split; [lia|]. split; [lia|].
  destruct (bu_derslik d atamalar) as [this|]; [|discriminate]. cbn [mbind Sonuc_bind] in Hp.
  destruct (etiketler this) as [ks|] eqn:Ek; [|discriminate]. cbn [mbind Sonuc_bind] in Hp.
  destruct (liste 1 140 _) as [ls|] eqn:El; [|discriminate]. cbn [mbind Sonuc_bind] in Hp.
  apply tamam_inj in Hp. subst p. exists this, ks, ls. split_and!; [done..| |].
  - rewrite !liste_satirlari_app, (proj1 (etiketler_elem _ _ Ek)). simpl. by rewrite app_nil_r.
  - rewrite !etiketleri_app, (liste_etiketsiz _ _ _ _ El). simpl. by rewrite !app_nil_r.
Qed.

(** C35 The placement list at the foot of each page of the seating plan
    PDF shows at most one student: the cursor starts at [14 mm], moves
    down [4.2 mm] after the first line and is then below the [10 mm]
    limit, so the loop over [this[:max_list]] ([max_list = 50]) always
    stops after its first line. *)
Theorem pdf_liste_tek_satir dosya b t derslikler atamalar ps p :
  oturma_plani_pdf_kaydet dosya b t derslikler atamalar ?= ps -> p ∈ ps ->
  (length (liste_satirlari p) <= 1)%nat.
Proof.
  unfold oturma_plani_pdf_kaydet, oturma_plani_pdf_yaz.
  destruct (sayfalar b t atamalar derslikler) as [qs|] eqn:E; simpl; [|discriminate].
  destruct qs as [|q qs]; intros [= <-] Hp.
  - apply list_elem_of_singleton in Hp as ->. rewrite ornek_sayfa_listesiz. simpl. lia.
  - destruct (sayfalar_elem _ _ _ _ _ _ E Hp) as (dl & _ & Hd).
    destruct (derslik_sayfasi_yapi _ _ _ _ _ Hd)
      as (d & en & bo & _ & _ & _ & [(_ & -> & _)|(_ & _ & this & ks & ls & _ & _ & Hl & -> & _)]);
      [simpl; lia|].
    pose proof (liste_en_cok_bir _ _ _ Hl). pose proof (liste_satirlari_uzunluk ls). lia.
Qed.

Lemma etiket_tamam a c r s :
  etiket a ?= Etiket c r s <->
  (getitem a "sira_no" ≫= py_int_d) ?= r /\ (getitem a "sutun_no" ≫= py_int_d) ?= c /\
  exists v, get a "ogr_no" (DStr []) ?= v /\ s = py_str v.
Proof.
  unfold etiket. destruct (getitem a "sira_no" ≫= py_int_d) as [r'|], (getitem a "sutun_no" ≫= py_int_d) as [c'|],
    (get a "ogr_no" _) as [v|]; simpl; split; try discriminate; try naive_solver.
Qed.

(** On the page of a room whose layout is positive, the seat labels
    are exactly those of the assignment records of that room
    ([int(a["derslik_id"]) == int(dl["id"])]): the student number
    [a.get('ogr_no', '')] at the seat of column [int(a["sutun_no"])]
    and row [int(a["sira_no"])]. *)
Theorem pdf_etiketler b t atamalar dl p d en bo :
  derslik_sayfasi b t atamalar dl ?= p ->
  (getitem dl "id" ≫= py_int_d) ?= d -> boyut dl "enine" ?= en -> boyut dl "boyuna" ?= bo ->
  0 < en -> 0 < bo ->
  forall c r s, (c, r, s) ∈ etiketleri p <->
    exists a, a ∈ atamalar /\ (getitem a "derslik_id" ≫= py_int_d) ?= d /\
      (getitem a "sira_no" ≫= py_int_d) ?= r /\ (getitem a "sutun_no" ≫= py_int_d) ?= c /\
      exists v, get a "ogr_no" (DStr []) ?= v /\ s = py_str v.
Proof.
  intros Hp Hd He Hb Hen Hbo c r s.
  destruct (derslik_sayfasi_yapi _ _ _ _ _ Hp)
    as (d' & en' & bo' & Hd' & He' & Hb' & [(Hle & _)|(_ & _ & this & ks & ls & Ht & Hk & _ & _ & ->)]);
    rewrite Hd in Hd'; rewrite He in He'; rewrite Hb in Hb'; simplify_eq; [lia|].
  rewrite (proj2 (etiketler_elem _ _ Hk)). setoid_rewrite (bu_derslik_elem _ _ _ _ Ht).
  setoid_rewrite etiket_tamam. naive_solver.
Qed.

(** ** Examples *)

Definition ornek_derslik : Kayit :=
  KDict [("id", DInt 5); ("derslik_kodu", DStr (ascii_str "D1")); ("enine", DInt 2); ("boyuna", DInt 2)].

Definition ornek_atama (no : string) (sira sutun dl : Z) : Kayit :=
  KDict [("ogr_no", DStr (ascii_str no)); ("adsoyad", DStr (ascii_str "X")); ("derslik_id", DInt dl);
         ("sira_no", DInt sira); ("sutun_no", DInt sutun)].

Definition ornek_atamalar : list Kayit :=
  [ornek_atama "2001" 1 1 5; ornek_atama "2002" 1 2 5; ornek_atama "2003" 1 1 6].

(** Witness of [pdf_liste_tek_satir]: room D1 holds two students, both
    labelled in their seats, and the list under the grid names only the
    first. *)
Lemma pdf_liste_tek_satir_ornek :
  exists ps p, oturma_plani_pdf_kaydet (ascii_str "a.pdf") (ascii_str "MAT101") [] [ornek_derslik] ornek_atamalar ?= ps /\
    p ∈ ps /\ length (etiketleri p) = 2%nat /\ (length (liste_satirlari p) <= 1)%nat.
Proof.
  eexists _, _. split; [vm_compute; reflexivity|]. split; [apply list_elem_of_here|].
  split; [vm_compute; reflexivity|].
  eapply (pdf_liste_tek_satir (ascii_str "a.pdf") (ascii_str "MAT101") [] [ornek_derslik] ornek_atamalar).
  - vm_compute. reflexivity.
  - apply list_elem_of_here.
Defined.

(** Witness of [pdf_etiketler]: the labels of room 5 are those of its
    two assignments. *)
Lemma pdf_etiketler_ornek :
  exists p, derslik_sayfasi (ascii_str "MAT101") [] ornek_atamalar ornek_derslik ?= p /\
    etiketleri p = [(1, 1, ascii_str "2001"); (2, 1, ascii_str "2002")] /\
    forall c r s, (c, r, s) ∈ etiketleri p <->
      exists a, a ∈ ornek_atamalar /\ (getitem a "derslik_id" ≫= py_int_d) ?= 5 /\
        (getitem a "sira_no" ≫= py_int_d) ?= r /\ (getitem a "sutun_no" ≫= py_int_d) ?= c /\
        exists v, get a "ogr_no" (DStr []) ?= v /\ s = py_str v.
Proof.
  eexists. split; [vm_compute; reflexivity|]. split; [vm_compute; reflexivity|].
  eapply (pdf_etiketler (ascii_str "MAT101") [] ornek_atamalar ornek_derslik _ 5 2 2);
    [vm_compute; reflexivity..|lia|lia].
Defined.

End OturmaPdf.
