(* ===== verification/SeatingWindow.v ===== *)
(** * SeatingWindow: the seating plan tab

    [src/arayuz/oturma_plani_penceresi.py], class [OturmaPlaniPenceresi].
    The window lists exams in a tree, fetched through an optional
    callback [get_program_func] or, failing that, through the first
    function of the module [veri_deposu] among four candidate names that
    does not raise; its buttons fetch (or have the module create) the
    seat assignments of the selected exam, and write the PDF of
    SeatingPdf.

    - A callable is a [Fonk]: how many positional arguments it requires
      and accepts, and its body on the store; a call with a wrong
      number of arguments raises [TypeError] before the body runs.
    - The module is its function attributes by name ([getattr]).  Of
      the thirteen names the window tries, [veri_deposu.py] defines
      [sinav_programi_listele] (two parameters) and [derslik_listele]
      (one) and none of the others.
    - The tree is the list of its rows (item id, the texts of the five
      columns, the tags) and the selection; Tk keeps texts, and reading
      the values back converts a text that [int()] accepts to an int
      ([ttk._convert_stringval]).
    - A handler returns the store, its message boxes and the PDF files
      it wrote; an exception that escapes a handler is [Hata].

    The main window builds the tab as [OturmaPlaniPenceresi(nb,
    self.kullanici)] ([ana_pencere.py] line 66): the logged-in user's
    [sqlite3.Row] lands in [get_program_func], which is not callable,
    and the module fallbacks either do not exist or raise [TypeError]
    when called without arguments.  The theorems show the consequence:
    in the application the tab never lists an exam and every click on
    its two buttons warns that no exam is selected. *)

From S2P Require Import Prelude Interval Normalize Calendar Planner Constraints PlannerProps Catalog Store Accounts Forms Pipeline ListWindows PyRecords SeatingPdf.

Module OturmaPenceresi.
Import Normal Takvim Metin Sozluk OturmaPdf Yetki Kalici ListePencereleri.

(** ** Callables and the module *)

Record Fonk := {
  f_gerekli : nat;
  f_en_cok : nat;
  f_govde : Sistem -> list Deger -> Sistem * Sonuc (list Kayit)
}.

(** Calling [f] on positional arguments. *)
Definition cagir (f : Fonk) (s : Sistem) (args : list Deger) : Sistem * Sonuc (list Kayit) :=
  if (f_gerekli f <=? length args)%nat && (length args <=? f_en_cok f)%nat
  then f_govde f s args else (s, Hata TypeError).

(** What the window receives as [get_*_func]. *)
Inductive Nesne :=
  | NYok                                      (* [None] *)
  | NSatir (alanlar : list (string * Deger))  (* an [sqlite3.Row] *)
  | NFonk (f : Fonk).

Definition Modul := list (string * Fonk).

(** [getattr(m, ad, None)], kept when [callable]. *)
Definition getattr (m : Modul) (ad : string) : option Fonk :=
  snd <$> List.find (fun p => bool_decide (p.1 = ad)) m.

(** A row of [sinav_programi_listele]: an [sqlite3.Row] with the
    columns of its [SELECT]. *)
Definition program_kaydi (r : ProgramSatiri) : Kayit :=
  KRow [("id", DInt (ps_id r)); ("kod", DStr (metin (ps_kod r))); ("ad", DStr (metin (ps_ad r)));
        ("baslangic", DStr (ps_bas r)); ("bitis", DStr (ps_bit r))].

(** The attributes of [veri_deposu] among the names the window tries:
    [sinav_programi_listele(bolum_id, sinav_turu)] (lines 488-496), on
    an int and a str (the window passes no argument, so other argument
    types are not modelled), and [derslik_listele(koordinator)] (lines
    124-133), whose first statement [koordinator["rol"]] raises
    [TypeError] on a [None], an int, a str or a [datetime]. *)
Definition veri_deposu_modulu : Modul :=
  [("sinav_programi_listele",
      {| f_gerekli := 2; f_en_cok := 2;
         f_govde := fun s args =>
           match args with
           | [DInt b; DStr t] => (s, Tamam (program_kaydi <$> sinav_programi_listele s b (utf8_kodla t)))
           | _ => (s, Hata TypeError)
           end |});
   ("derslik_listele", {| f_gerekli := 1; f_en_cok := 1; f_govde := fun s _ => (s, Hata TypeError) |})].

(** ** The flexible fetchers (lines 127-219) *)

Definition PROGRAM_ADLARI : list string :=
  ["sinav_programi_listele"; "program_listele"; "programi_listele"; "listele_program"].
Definition ATAMA_ADLARI : list string :=
  ["oturma_atamalari_getir"; "oturma_plani_atamalari"; "atamalari_getir"].
Definition DERSLIK_ADLARI : list string :=
  ["derslik_listele"; "derslikleri_listele"; "listele_derslik"].
Definition URETICI_ADLARI : list string :=
  ["oturma_plani_olustur"; "oturma_planini_olustur"; "plan_olustur"].

(** [for name in [...]: fn = getattr(...); if callable(fn): try: return
    fn(...) except Exception: continue] and then [return []]. *)
Fixpoint adlari_dene (m : Modul) (s : Sistem) (adlar : list string) (args : list Deger)
    : Sistem * list Kayit :=
  match adlar with
  | [] => (s, [])
  | ad :: r =>
      match getattr m ad with
      | Some fn =>
          match cagir fn s args with
          | (s', Tamam v) => (s', v)
          | (s', Hata _) => adlari_dene m s' r args
          end
      | None => adlari_dene m s r args
      end
  end.

(** The shape of the three fetchers: the callback if callable and it
    returns, else [if veri_deposu:] the names of the module. *)
Definition esnek_cagri (vd : option Modul) (ozel : Nesne) (ozel_args : list Deger)
    (adlar : list string) (args : list Deger) (s : Sistem) : Sistem * list Kayit :=
  let yedek s := match vd with Some m => adlari_dene m s adlar args | None => (s, []) end in
  match ozel with
  | NFonk f => match cagir f s ozel_args with (s', Tamam v) => (s', v) | (s', Hata _) => yedek s' end
  | _ => yedek s
  end.

(** The window's state: its callbacks, the tree rows and the selection. *)
Record Satir := { s_iid : pystr; s_degerler : list pystr; s_etiketler : list pystr }.

Record Pencere := {
  get_program_func : Nesne;
  get_atamalar_func : Nesne;
  get_derslikler_func : Nesne;
  tv : list Satir;
  secim : list pystr
}.

(** ** The tree (lines 223-254) *)

(** [_str(dtobj)] (lines 21-22) *)
Definition _str (v : Deger) : pystr :=
  match v with DTarih t => strftime_dk t | _ => py_str (veya v (DStr [])) end.

(** [rec.get(k1) or rec.get(k2) or ... or son]: the first true value,
    else [son]. *)
Fixpoint alan_sec (rec : Kayit) (anahtarlar : list string) (son : Sonuc Deger) : Sonuc Deger :=
  match anahtarlar with
  | [] => son
  | k :: r => v ← get rec k DNone; if dogru v then Tamam v else alan_sec rec r son
  end.

(** [ttk._convert_stringval]: a text [int()] accepts comes back an int. *)
Definition tk_deger (t : pystr) : Deger :=
  match py_int t with Some z => DInt z | None => DStr t end.

Definition iid_var (rows : list Satir) (iid : pystr) : bool :=
  existsb (fun r => bool_decide (s_iid r = iid)) rows.

(** One turn of the loop of lines 228-241: [tv.insert] raises
    [TclError] on an item id already in the tree. *)
Definition satir_ekle (w : Pencere) (rec : Kayit) : Sonuc Pencere :=
  pid ← alan_sec rec ["program_id"; "id"] (get rec "pid" DNone);
  ders_kodu ← alan_sec rec ["ders_kodu"; "kod"; "code"] (Tamam (DStr []));
  ders_adi ← alan_sec rec ["ders_adi"; "ad"; "name"] (Tamam (DStr []));
  bas ← alan_sec rec ["baslangic"; "start"; "bas_tarih"] (Tamam (DStr []));
  bit ← alan_sec rec ["bitis"; "end"; "bit_tarih"] (Tamam (DStr []));
  derslik ← alan_sec rec ["derslik_kodu"; "derslik"; "room"] (Tamam (DStr []));
  let iid := ascii_str "p_" ++ py_str pid in
  if iid_var (tv w) iid then Hata TclError
  else Tamam {| get_program_func := get_program_func w; get_atamalar_func := get_atamalar_func w;
                get_derslikler_func := get_derslikler_func w;
                tv := tv w ++ [{| s_iid := iid;
                                  s_degerler := [py_str ders_kodu; py_str ders_adi; _str bas; _str bit;
                                                 py_str derslik];
                                  s_etiketler := [py_str pid] |}];
                secim := secim w |}.

Definition satir_bul (rows : list Satir) (iid : pystr) : option Satir :=
  List.find (fun r => bool_decide (s_iid r = iid)) rows.

(** [_get_selected_program_id] (lines 243-254): [int(tags[0])], or the
    tag itself when [int] raises; [tv.item] on an unknown id raises
    [TclError]. *)
Definition _get_selected_program_id (w : Pencere) : Sonuc (option Deger) :=
  match secim w with
  | [] => Tamam None
  | iid :: _ =>
      match satir_bul (tv w) iid with
      | None => Hata TclError
      | Some r => match s_etiketler r with [] => Tamam None | t :: _ => Tamam (Some (tk_deger t)) end
      end
  end.

(** [self.tv.selection_set(iid)], the user's click on a row. *)
Definition sec (w : Pencere) (iid : pystr) : Pencere :=
  {| get_program_func := get_program_func w; get_atamalar_func := get_atamalar_func w;
     get_derslikler_func := get_derslikler_func w; tv := tv w;
     secim := if iid_var (tv w) iid then [iid] else secim w |}.

Section Pencere.
(** The module as imported at lines 11-15: [None] if the import failed. *)
Variable veri_deposu : option Modul.

(** [_fetch_program] (lines 127-149) *)
Definition _fetch_program (w : Pencere) (s : Sistem) : Sistem * list Kayit :=
  esnek_cagri veri_deposu (get_program_func w) [DNone] PROGRAM_ADLARI [] s.

(** [_fetch_atamalar] (lines 152-171) *)
Definition _fetch_atamalar (w : Pencere) (pid : Deger) (s : Sistem) : Sistem * list Kayit :=
  esnek_cagri veri_deposu (get_atamalar_func w) [pid] ATAMA_ADLARI [pid] s.

(** [_fetch_derslikler] (lines 174-193) *)
Definition _fetch_derslikler (w : Pencere) (pid : Deger) (s : Sistem) : Sistem * list Kayit :=
  esnek_cagri veri_deposu (get_derslikler_func w) [pid] DERSLIK_ADLARI [] s.

(** The generator loop of lines 206-217: the first one that returns
    ends it ([break]). *)
Fixpoint ureticileri_dene (m : Modul) (s : Sistem) (adlar : list string) (pid : Deger) : Sistem :=
  match adlar with
  | [] => s
  | ad :: r =>
      match getattr m ad with
      | Some fn =>
          match cagir fn s [pid] with
          | (s', Tamam _) => s'
          | (s', Hata _) => ureticileri_dene m s' r pid
          end
      | None => ureticileri_dene m s r pid
      end
  end.

(** [_create_plan_if_needed] (lines 196-219) *)
Definition _create_plan_if_needed (w : Pencere) (pid : Deger) (s : Sistem) : Sistem * list Kayit :=
  let '(s1, atamalar) := _fetch_atamalar w pid s in
  match atamalar with
  | _ :: _ => (s1, atamalar)
  | [] =>
      let s2 := match veri_deposu with Some m => ureticileri_dene m s1 URETICI_ADLARI pid | None => s1 end in
      _fetch_atamalar w pid s2
  end.


(** [_load_program] (lines 223-241): the tree is emptied (and so is the
    selection), then filled. *)
Definition _load_program (w : Pencere) (s : Sistem) : Sistem * Sonuc Pencere :=
  let w0 := {| get_program_func := get_program_func w; get_atamalar_func := get_atamalar_func w;
               get_derslikler_func := get_derslikler_func w; tv := []; secim := [] |} in
  let '(s1, program) := _fetch_program w s in
  (s1, sirayla satir_ekle w0 program).

(** [__init__] (lines 58-75) with [_build] (lines 79-122), which makes
    the empty tree and the buttons. *)
Definition __init__ (gp ga gd : Nesne) (s : Sistem) : Sistem * Sonuc Pencere :=
  _load_program {| get_program_func := gp; get_atamalar_func := ga; get_derslikler_func := gd;
                   tv := []; secim := [] |} s.

(** ** The buttons (lines 256-334) *)

Definition SECIM_UYARISI : string := "Lütfen listeden bir sınav seçin.".

(** [_click_olustur] (lines 256-267) *)
Definition _click_olustur (w : Pencere) (s : Sistem) : Sistem * Sonuc (list Bildirim) :=
  match _get_selected_program_id w with
  | Hata e => (s, Hata e)
  | Tamam None => (s, Tamam [Uyari SECIM_UYARISI])
  | Tamam (Some pid) =>
      let '(s1, atamalar) := _create_plan_if_needed w pid s in
      match atamalar with
      | [] => (s1, Tamam [Uyari "Bu sınav için derslik/atama bulunamadı veya oluşturulamadı."])
      | _ => (s1, Tamam [Bilgi "Oturma planı oluşturuldu."])
      end
  end.

(** [s.strip(chars)] *)
Definition strip_kume (cs : list Z) (s : pystr) : pystr :=
  let kirp := fix kirp (l : pystr) := match l with c :: r => if bool_decide (c ∈ cs) then kirp r else l | [] => [] end in
  rev (kirp (rev (kirp s))).

(** [os.path.basename(p)]: the text after the last ["/"]. *)
Definition basename (p : pystr) : pystr := default [] (last (bol 47 p)).

(** A file written by a handler: its path and its pages. *)
Definition Dosya : Type := pystr * list (list Komut).

(** [_click_pdf] (lines 269-327).  [kaydet_yolu] is the answer of
    [filedialog.asksaveasfilename] to the proposed file name ([""] on
    cancel).  A second, positional call of the writer after a
    [TypeError] computes the same pages, so it fails the same way; the
    error box shows the text of the exception, [HataIstisna e]. *)
Definition _click_pdf (w : Pencere) (kaydet_yolu : pystr -> pystr) (s : Sistem)
    : Sistem * Sonuc (list Bildirim * list Dosya) :=
  match _get_selected_program_id w with
  | Hata e => (s, Hata e)
  | Tamam None => (s, Tamam ([Uyari SECIM_UYARISI], []))
  | Tamam (Some pid) =>
      let v := match secim w with
               | iid :: _ => match satir_bul (tv w) iid with Some r => tk_deger <$> s_degerler r | None => [] end
               | [] => [] end in
      let v5 := take 5 (v ++ [DStr []; DStr []; DStr []; DStr []; DStr []]) in
      let ders_kodu := default (DStr []) (v5 !! 0%nat) in
      let ders_adi := default (DStr []) (v5 !! 1%nat) in
      let bas_s := default (DStr []) (v5 !! 2%nat) in
      let bit_s := default (DStr []) (v5 !! 3%nat) in
      let sinav_baslik := strip_kume [32; 8211] (py_str ders_kodu ++ metin " – " ++ py_str ders_adi) in
      let tarih_saat := py_strip (py_str bas_s ++ ascii_str " - " ++ py_str bit_s) in
      let '(s1, atamalar) := _create_plan_if_needed w pid s in
      match atamalar with
      | [] => (s1, Tamam ([Uyari "Bu sınava ait derslik/atama bulunamadı (PDF üretilemedi)."], []))
      | _ =>
          let '(s2, derslikler) := _fetch_derslikler w pid s1 in
          let default_name := ascii_str "oturma_plani_" ++ py_str (veya ders_kodu (DStr (ascii_str "sinav"))) ++
                              ascii_str ".pdf" in
          let pth := kaydet_yolu default_name in
          match pth with
          | [] => (s2, Tamam ([], []))
          | _ =>
              match oturma_plani_pdf_kaydet pth sinav_baslik tarih_saat derslikler atamalar with
              | Tamam sayfalar =>
                  (s2, Tamam ([Bilgi ("PDF kaydedildi:" +:+ YENI_SATIR +:+ utf8_kodla (basename pth))],
                              [(pth, sayfalar)]))
              | Hata e => (s2, Tamam ([HataIstisna e], []))
              end
          end
      end
  end.

(** [_click_xlsx] (lines 329-334) *)
Definition _click_xlsx : list Bildirim := [Bilgi "Excel çıktı modülü bu ekranda devre dışı bırakıldı."].

End Pencere.

(** ** The tab as the application builds it *)

(** A user interaction: a click on a row, or on one of the buttons
    ([Pdf] with the answer of the save dialog). *)
Inductive Olay :=
  | Sec (iid : pystr)
  | Olustur
  | Pdf (kaydet_yolu : pystr -> pystr)
  | Xlsx.

Definition olay_isle (vd : option Modul) (s : Sistem) (w : Pencere) (o : Olay)
    : Sistem * Pencere * Sonuc (list Bildirim * list Dosya) :=
  match o with
  | Sec iid => (s, sec w iid, Tamam ([], []))
  | Olustur =>
      let '(s', r) := _click_olustur vd w s in
      (s', w, match r with Tamam ms => Tamam (ms, []) | Hata e => Hata e end)
  | Pdf f => let '(s', r) := _click_pdf vd w f s in (s', w, r)
  | Xlsx => (s, w, Tamam (_click_xlsx, []))
  end.

(** A run of interactions and what each showed. *)
Fixpoint calistir (vd : option Modul) (s : Sistem) (w : Pencere) (os : list Olay)
    : Sistem * Pencere * list (Sonuc (list Bildirim * list Dosya)) :=
  match os with
  | [] => (s, w, [])
  | o :: r =>
      let '(s1, w1, c) := olay_isle vd s w o in
      let '(s2, w2, cs) := calistir vd s1 w1 r in
      (s2, w2, c :: cs)
  end.

(** The logged-in user's row, [self.kullanici] of the main window. *)
Definition kullanici_nesnesi (k : KullaniciSatiri) : Nesne :=
  NSatir [("id", DInt (ku_id k)); ("eposta", DStr (metin (ku_eposta k)));
          ("sifre_hash", DStr (metin (ku_sifre_hash k))); ("rol", DStr (metin (ku_rol k)));
          ("bolum_id", match ku_bolum_id k with Some b => DInt b | None => DNone end)].

(** [OturmaPlaniPenceresi(nb, self.kullanici)] ([ana_pencere.py] line 66). *)
Definition uygulama_sekmesi (s : Sistem) (k : KullaniciSatiri) : Sistem * Sonuc Pencere :=
  __init__ (Some veri_deposu_modulu) (kullanici_nesnesi k) NYok NYok s.

(** What the tab shows for an interaction when no exam is listed. *)
Definition bos_sekme_cevabi (o : Olay) : Sonuc (list Bildirim * list Dosya) :=
  match o with
  | Sec _ => Tamam ([], [])
  | Olustur | Pdf _ => Tamam ([Uyari SECIM_UYARISI], [])
  | Xlsx => Tamam (_click_xlsx, [])
  end.

(** ** Lemmas *)

Lemma iid_var_spec rows iid : iid_var rows iid = true <-> iid ∈ s_iid <$> rows.
Proof.
  unfold iid_var. rewrite existsb_exists, list_elem_of_fmap.
  setoid_rewrite bool_decide_eq_true. setoid_rewrite <- list_elem_of_In. naive_solver.
Qed.

Lemma satir_bul_NoDup rows i r :
  NoDup (s_iid <$> rows) -> rows !! i = Some r -> satir_bul rows (s_iid r) = Some r.
Proof.
  revert i. induction rows as [|r' rows IH]; intros i Hn Hi; [done|].
  apply NoDup_cons in Hn as [Hn1 Hn2]. simpl. case_bool_decide as E.
  - destruct i as [|i]; simpl in Hi; [congruence|]. exfalso. apply Hn1. rewrite E.
    apply list_elem_of_fmap_2. by eapply list_elem_of_lookup_2.
  - destruct i as [|i]; simpl in Hi; [congruence|]. by apply (IH i).
Qed.

Lemma tk_deger_int n : tk_deger (py_str (DInt n)) = DInt n.
Proof. unfold tk_deger. simpl. by rewrite <- str_of_Z_metin, int_str_geri_donus. Qed.

Lemma sec_bos w iid : tv w = [] -> sec w iid = w.
Proof. destruct w; simpl. by intros ->. Qed.

(** The row [satir_ekle] inserts for a record. *)
Definition satiri (rec : Kayit) (r : Satir) : Prop :=
  exists pid, alan_sec rec ["program_id"; "id"] (get rec "pid" DNone) ?= pid /\
    s_iid r = ascii_str "p_" ++ py_str pid /\ s_etiketler r = [py_str pid].

Lemma satir_ekle_tamam w rec w' :
  satir_ekle w rec ?= w' ->
  secim w' = secim w /\ exists r, tv w' = tv w ++ [r] /\ s_iid r ∉ s_iid <$> tv w /\ satiri rec r.
Proof.
  unfold satir_ekle.
  destruct (alan_sec rec ["program_id"; "id"] _) as [pid|] eqn:Ep; cbn [mbind Sonuc_bind]; [|discriminate].
  destruct (alan_sec rec ["ders_kodu"; "kod"; "code"] _); cbn [mbind Sonuc_bind]; [|discriminate].
  destruct (alan_sec rec ["ders_adi"; "ad"; "name"] _); cbn [mbind Sonuc_bind]; [|discriminate].
  destruct (alan_sec rec ["baslangic"; "start"; "bas_tarih"] _); cbn [mbind Sonuc_bind]; [|discriminate].
  destruct (alan_sec rec ["bitis"; "end"; "bit_tarih"] _); cbn [mbind Sonuc_bind]; [|discriminate].
  destruct (alan_sec rec ["derslik_kodu"; "derslik"; "room"] _); cbn [mbind Sonuc_bind]; [|discriminate].
  destruct (iid_var (tv w) _) eqn:Ei; [discriminate|]. intros Hw. apply tamam_inj in Hw. subst w'.
  split; [done|]. eexists. split; [reflexivity|]. split.
  - intros Hin%iid_var_spec. cbn [s_iid] in Hin. congruence.
  - exists pid. done.
Qed.

(** Filling the tree: one row per record, in order, with distinct ids. *)
Lemma yukle_satirlar recs w0 w :
  sirayla satir_ekle w0 recs ?= w -> NoDup (s_iid <$> tv w0) ->
  NoDup (s_iid <$> tv w) /\ secim w = secim w0 /\ tv w0 `prefix_of` tv w /\
  forall i rec, recs !! i = Some rec -> exists r, tv w !! (length (tv w0) + i)%nat = Some r /\ satiri rec r.
Proof.
  revert w0. induction recs as [|rec recs IH]; intros w0; simpl.
  - intros [= <-] Hn. split_and!; [done|done|done|]. intros i rec Hi. by rewrite lookup_nil in Hi.
  - destruct (satir_ekle w0 rec) as [w1|] eqn:E; simpl; [|discriminate]. intros Hs Hn.
    destruct (satir_ekle_tamam _ _ _ E) as (Hsec & r & Htv & Hnin & Hr).
    assert (Hn1 : NoDup (s_iid <$> tv w1)).
    { rewrite Htv, fmap_app. simpl. apply NoDup_app. split_and!; [done| |by apply NoDup_singleton].
      intros x Hx ->%list_elem_of_singleton. done. }
    destruct (IH w1 Hs Hn1) as (Hnw & Hsw & Hpre & Hall). split_and!; [done|congruence| |].
    + etrans; [|exact Hpre]. rewrite Htv. by eexists.
    + intros [|i] rec' Hi; simpl in Hi.
      * injection Hi as <-. exists r. split; [|done]. rewrite Nat.add_0_r.
        eapply prefix_lookup_Some; [|exact Hpre]. rewrite Htv, lookup_app_r, Nat.sub_diag by lia. done.
      * destruct (Hall i rec' Hi) as (r' & Hr' & Hs'). exists r'. split; [|done].
        rewrite Htv, length_app in Hr'. simpl in Hr'. by replace (length (tv w0) + S i)%nat with (length (tv w0) + 1 + i)%nat by lia.
Qed.

(** With no row and no selection, nothing changes. *)
Lemma bos_sekme_calistir vd s w os :
  tv w = [] -> secim w = [] -> calistir vd s w os = (s, w, bos_sekme_cevabi <$> os).
Proof.
  intros Ht Hs. induction os as [|o os IH]; [done|].
  destruct o; cbn [calistir olay_isle fmap list_fmap].
  - rewrite sec_bos, IH by done. done.
  - unfold _click_olustur, _get_selected_program_id. rewrite Hs, IH. done.
  - unfold _click_pdf, _get_selected_program_id. rewrite Hs, IH. done.
  - rewrite IH. done.
Qed.

(** ** Theorems *)

(** C9 As the application builds it, with the logged-in user's row
    passed where [get_program_func] is expected, the seating tab opens
    without touching the database and with an empty exam list, and stays
    so whatever the user does: a click on a row selects nothing, both
    [Oturma Planı Oluştur] and [PDF Olarak Kaydet] only warn
    [Lütfen listeden bir sınav seçin.], and no PDF is ever written. *)
Theorem oturma_sekmesi_sinav_listelemez s k :
  exists w, uygulama_sekmesi s k = (s, Tamam w) /\ tv w = [] /\
    forall os, calistir (Some veri_deposu_modulu) s w os = (s, w, bos_sekme_cevabi <$> os).
Proof.
  eexists. split; [reflexivity|]. split; [reflexivity|].
  intros os. by apply bos_sekme_calistir.
Qed.

(** The id a selected row stands for is the one of its record: when
    the program callback returns records and the tab opens, the row of
    a record whose ["program_id"] is a non-zero int [n] is the [i]-th
    row of the tree, and selecting it makes [_get_selected_program_id]
    return [n] (written into the tag by [str] and read back by [int]). *)
Theorem secilen_program_id vd f ga gd s s1 recs w i rec n :
  cagir f s [DNone] = (s1, Tamam recs) ->
  __init__ vd (NFonk f) ga gd s = (s1, Tamam w) ->
  recs !! i = Some rec -> get rec "program_id" DNone ?= DInt n -> n <> 0 ->
  exists r, tv w !! i = Some r /\ _get_selected_program_id (sec w (s_iid r)) ?= Some (DInt n).
Proof.
  intros Hf Hi Hr Hg Hn. unfold __init__, _load_program, _fetch_program, esnek_cagri in Hi.
  simpl in Hi. rewrite Hf in Hi. injection Hi as Hs.
  destruct (yukle_satirlar _ _ _ Hs) as (Hnd & _ & _ & Hall); [constructor|].
  destruct (Hall i rec Hr) as (r & Hri & pid & Hpid & Hiid & Htag). simpl in Hri.
  exists r. split; [done|].
  assert (Hv : iid_var (tv w) (s_iid r) = true).
  { apply iid_var_spec, list_elem_of_fmap_2. by eapply list_elem_of_lookup_2. }
  unfold _get_selected_program_id, sec. simpl. rewrite Hv. simpl.
  rewrite (satir_bul_NoDup _ _ _ Hnd Hri), Htag.
  simpl in Hpid. rewrite Hg in Hpid. simpl in Hpid.
  rewrite (proj2 (Z.eqb_neq n 0) Hn) in Hpid. simpl in Hpid. injection Hpid as <-. by rewrite tk_deger_int.
Qed.

(** Witness of [secilen_program_id]: a callback returning two exams
    with ids 7 and 9; the second row stands for 9. *)
Definition ornek_fonk : Fonk :=
  {| f_gerekli := 1; f_en_cok := 1;
     f_govde := fun s _ => (s, Tamam [KDict [("program_id", DInt 7); ("ders_kodu", DStr (ascii_str "MAT101"))];
                                      KDict [("program_id", DInt 9); ("ders_kodu", DStr (ascii_str "FIZ101"))]]) |}.


Definition ornek_kayitlar : list Kayit :=
  [KDict [("program_id", DInt 7); ("ders_kodu", DStr (ascii_str "MAT101"))];
   KDict [("program_id", DInt 9); ("ders_kodu", DStr (ascii_str "FIZ101"))]].

Definition ornek_sekme : Pencere :=
  match (__init__ None (NFonk ornek_fonk) NYok NYok bos_sistem).2 with
  | Tamam w => w
  | Hata _ => {| get_program_func := NYok; get_atamalar_func := NYok; get_derslikler_func := NYok;
                 tv := []; secim := [] |}
  end.

Lemma secilen_program_id_ornek :
  exists r, tv ornek_sekme !! 1%nat = Some r /\ _get_selected_program_id (sec ornek_sekme (s_iid r)) ?= Some (DInt 9).
Proof.
  apply (secilen_program_id None ornek_fonk NYok NYok bos_sistem bos_sistem ornek_kayitlar ornek_sekme 1
           (KDict [("program_id", DInt 9); ("ders_kodu", DStr (ascii_str "FIZ101"))]) 9);
    [reflexivity|vm_compute; reflexivity|reflexivity|reflexivity|lia].
Defined.

End OturmaPenceresi.
