(* ===== verification/ExcelReport.v ===== *)
(** * ExcelReport: the timetable export

    [veri_deposu.export_sinav_programi_to_excel] (lines 498-545) reads
    the exams of a department and exam type with their course and
    department, drops the rows whose code does not match [RE_DERSKODU]
    or whose name or instructor looks like a heading, applies the
    "strong swap" of name and instructor, reads the rooms of the exam
    by decreasing capacity, drops the rows left without a name, and
    hands the records to [raporlar/sinav_programi_excel.programi_xlsx_yaz]
    (lines 11-79), which writes a title, a header row and one row per
    record sorted by (date, time, code).  The exam window's
    [_export_excel] ([sinav_programi_penceresi.py] lines 187-200) asks
    for the file and reports the outcome.

    The text helpers ([_norm], [_is_heading_like], [_looks_like_person],
    [_looks_like_course], [RE_DERSKODU]) are those of ExcelImport: the
    two files have the same code for them.  A sheet is its title, its
    name and its rows of cell values; column widths, fonts, borders and
    alignments are formatting and are not modelled.  [str.upper] is
    modelled for ASCII letters and the Turkish letters; the exam types
    the window offers are ASCII. *)

From S2P Require Import Prelude Interval Normalize Calendar Planner Constraints PlannerProps Catalog Store Accounts Forms ExcelImport Pipeline ListWindows.

Module ExcelRapor.
Import Tarih Normal Takvim Metin Katalog Kalici Yetki Aktarim ListePencereleri.

(** ** The query (lines 500-508) *)

(** [sp.id, sp.baslangic, sp.bitis, d.kod, d.ad, d.hoca, b.ad AS bolum_adi] *)
Record RaporSatiri := {
  rs_id : Z; rs_bas : pystr; rs_bit : pystr; rs_kod : string; rs_ad : string;
  rs_hoca : option string; rs_bolum_adi : string
}.

(** [ORDER BY sp.baslangic, d.kod] *)
Definition rapor_le (x y : RaporSatiri) : bool :=
  negb (pystr_le (rs_bas y) (rs_bas x)) ||
  (bool_decide (rs_bas x = rs_bas y) && metin_le (rs_kod x) (rs_kod y)).

(** The stored row of an exam, its course and its department. *)
Definition rapor_satiri (sp : SinavSatiri) (d : DersSatiri) (bo : Z * string) : RaporSatiri :=
  {| rs_id := sp_id sp; rs_bas := isoformat_dk (sp_bas sp); rs_bit := isoformat_dk (sp_bit sp);
     rs_kod := ds_kod d; rs_ad := ds_ad d; rs_hoca := ds_hoca d; rs_bolum_adi := bo.2 |}.

(** [WHERE sp.bolum_id=? AND sp.sinav_turu=?] with the two joins; a
    [None] department id ([NULL]) matches no row. *)
Definition rapor_sorgusu (s : Sistem) (bolum_id : option Z) (sinav_turu : string) : list RaporSatiri :=
  match bolum_id with
  | None => []
  | Some b =>
      sirala rapor_le
        (List.filter (secili b sinav_turu) (sinav_programi (program s)) ≫= fun sp =>
         filter (fun d => ds_id d = sp_ders sp) (t_dersler (katalog s)) ≫= fun d =>
         filter (fun bo : Z * string => bo.1 = sp_bolum sp) (bolumler s) ≫= fun bo =>
         [rapor_satiri sp d bo])
  end.

(** The room codes of an exam, [ORDER BY dl.kapasite DESC] (lines
    525-531). *)
Definition sinav_derslik_kodlari (s : Sistem) (sinav_id : Z) : list string :=
  dl_kodu <$> sirala_azalan dl_kapasite
    (List.filter (fun p : Z * Z => p.1 =? sinav_id) (sinav_programi_derslik (program s)) ≫= fun p =>
     filter (fun dl => dl_satir_id dl = p.2) (t_derslikler (katalog s))).

(** ** The records (lines 509-543) *)

(** The dict of lines 536-543. *)
Record ProgramKaydi := {
  k_bolum : pystr; k_tarih : Z; k_saat : pystr; k_bas : Z; k_bit : Z;
  k_kod : pystr; k_ad : pystr; k_hoca : option pystr; k_derslikler : list pystr
}.

(** The body of [for r in rows] (lines 510-543): [None] for a
    [continue]; [datetime.fromisoformat] raises [ValueError] out of
    the export. *)
Definition satir_isle (s : Sistem) (r : RaporSatiri) : Sonuc (option ProgramKaydi) :=
  let kod := metin (rs_kod r) in
  if negb (tam_eslesme RE_DERSKODU kod) then Tamam None else
  bas ← datetime_fromisoformat (rs_bas r);
  bit ← datetime_fromisoformat (rs_bit r);
  let ad0 := Some (metin (rs_ad r)) in
  let hoca0 := metin <$> rs_hoca r in
  if _is_heading_like ad0 || _is_heading_like hoca0 then Tamam None else
  let '(ad, hoca) := takas ad0 hoca0 in
  let derslikler := metin <$> sinav_derslik_kodlari s (rs_id r) in
  if negb (dolu ad) then Tamam None else
  Tamam (Some {| k_bolum := metin (rs_bolum_adi r); k_tarih := bas / DAKIKA_GUN;
                 k_saat := saat_yaz (bas mod DAKIKA_GUN); k_bas := bas; k_bit := bit; k_kod := kod;
                 k_ad := default [] ad; k_hoca := hoca; k_derslikler := derslikler |}).

Fixpoint kayitlari_topla (s : Sistem) (rows : list RaporSatiri) : Sonuc (list ProgramKaydi) :=
  match rows with
  | [] => Tamam []
  | r :: rs =>
      o ← satir_isle s r; rest ← kayitlari_topla s rs;
      Tamam (match o with Some k => k :: rest | None => rest end)
  end.

(** ** The workbook (sinav_programi_excel.py) *)

(** A cell value: a text, a [date] (its ordinal) or empty ([None]). *)
Inductive XHucre := XMetin (s : pystr) | XTarih (g : Z) | XBos.

Record Sayfa := { sy_ad : pystr; sy_satirlar : list (list XHucre) }.

(** [str.upper()] on the letters the model covers. *)
Definition buyuk_harf (c : Z) : pystr :=
  if (97 <=? c) && (c <=? 122) then [c - 32]
  else if c =? 305 then [73] else if c =? 351 then [350] else if c =? 287 then [286]
  else if c =? 246 then [214] else if c =? 252 then [220] else if c =? 231 then [199]
  else [c].

Definition py_upper (s : pystr) : pystr := s ≫= buyuk_harf.

Definition BASLIKLAR : list pystr :=
  metin <$> ["Bölüm"; "Tarih"; "Saat"; "Ders Kodu"; "Ders Adı"; "Öğr. Üyesi"; "Derslik(ler)"; "Bitiş Saati"].

(** [sep.join(l)] on texts. *)
Fixpoint birlestir (sep : pystr) (l : list pystr) : pystr :=
  match l with [] => [] | [x] => x | x :: r => x ++ sep ++ birlestir sep r end.

Definition pystr_lt (a b : pystr) : bool := negb (pystr_le b a).

(** The key [(r.get("tarih"), r.get("saat", ""), r.get("kod", ""))]
    of line 44, compared as tuples. *)
Definition kayit_le (x y : ProgramKaydi) : bool :=
  (k_tarih x <? k_tarih y) ||
  ((k_tarih x =? k_tarih y) &&
   (pystr_lt (k_saat x) (k_saat y) || (bool_decide (k_saat x = k_saat y) && pystr_le (k_kod x) (k_kod y)))).

(** The row of lines 46-62: [bit.strftime("%H:%M")] for the end. *)
Definition kayit_satiri (r : ProgramKaydi) : list XHucre :=
  [XMetin (k_bolum r); XTarih (k_tarih r); XMetin (k_saat r); XMetin (k_kod r); XMetin (k_ad r);
   match k_hoca r with Some h => XMetin h | None => XBos end;
   XMetin (birlestir (ascii_str ", ") (k_derslikler r));
   XMetin (saat_yaz (k_bit r mod DAKIKA_GUN))].

(** [programi_xlsx_yaz] (lines 11-79): the title in [A1], the headers
    in row 2, then the sorted records. *)
Definition programi_xlsx_yaz (dosya_yolu : pystr) (program_kayitlari : list ProgramKaydi) (sinav_turu : pystr)
    : pystr * Sayfa :=
  (dosya_yolu,
   {| sy_ad := metin "Sınav Programı";
      sy_satirlar := [XMetin (ascii_str "SINAV PROGRAMI (" ++ py_upper sinav_turu ++ ascii_str ")")] ::
                     (XMetin <$> BASLIKLAR) :: (kayit_satiri <$> sirala kayit_le program_kayitlari) |}).

(** [export_sinav_programi_to_excel] (lines 498-545) *)
Definition export_sinav_programi_to_excel (s : Sistem) (bolum_id : option Z) (sinav_turu : string)
    (dosya_yolu : pystr) : Sonuc (pystr * Sayfa) :=
  payload ← kayitlari_topla s (rapor_sorgusu s bolum_id sinav_turu);
  Tamam (programi_xlsx_yaz dosya_yolu payload (metin sinav_turu)).

(** [_export_excel] (sinav_programi_penceresi.py lines 187-200): the
    combobox text [tur], the answer of the save dialog ([""] on
    cancel); the messages and the file written. *)
Definition _export_excel (s : Sistem) (k : KullaniciSatiri) (tur : string) (p : pystr)
    : list Bildirim * list (pystr * Sayfa) :=
  let sinav_turu := if bool_decide (tur = "") then "vize" else tur in
  match p with
  | [] => ([], [])
  | _ =>
      match export_sinav_programi_to_excel s (ku_bolum_id k) sinav_turu p with
      | Tamam f => ([Bilgi ("Excel kaydedildi:" +:+ YENI_SATIR +:+ utf8_kodla p)], [f])
      | Hata e => ([HataIstisna e], [])
      end
  end.

(** The data rows of a sheet: those after the title and the headers. *)
Definition veri_satirlari (sy : Sayfa) : list (list XHucre) := drop 2 (sy_satirlar sy).

(** ** Lemmas *)

(** A stored datetime the text conversions keep. *)
Definition zaman_gecerli (t : Z) : Prop := YIL_1000 * DAKIKA_GUN <= t < (MAXORD + 1) * DAKIKA_GUN.

Lemma rapor_sorgusu_elem s b t r :
  r ∈ rapor_sorgusu s (Some b) t <->
  exists sp d bo, sp ∈ sinav_programi (program s) /\ secili b t sp = true /\
    d ∈ t_dersler (katalog s) /\ ds_id d = sp_ders sp /\ bo ∈ bolumler s /\ bo.1 = sp_bolum sp /\
    r = rapor_satiri sp d bo.
Proof.
  unfold rapor_sorgusu. rewrite sirala_elem.
  do 3 setoid_rewrite list_elem_of_bind. setoid_rewrite list_elem_of_singleton.
  setoid_rewrite list_elem_of_filter. setoid_rewrite elem_of_List_filter. naive_solver.
Qed.

(** The rows of a stored exam never raise, and give a record exactly
    when the code, heading and name tests pass. *)
Lemma satir_isle_kayit s sp d bo :
  zaman_gecerli (sp_bas sp) -> zaman_gecerli (sp_bit sp) ->
  exists o, satir_isle s (rapor_satiri sp d bo) ?= o /\
  forall k, o = Some k <->
    exists ad hoca, tam_eslesme RE_DERSKODU (metin (ds_kod d)) = true /\
      _is_heading_like (Some (metin (ds_ad d))) = false /\ _is_heading_like (metin <$> ds_hoca d) = false /\
      takas (Some (metin (ds_ad d))) (metin <$> ds_hoca d) = (Some ad, hoca) /\ ad <> [] /\
      k = {| k_bolum := metin bo.2; k_tarih := sp_bas sp / DAKIKA_GUN;
             k_saat := saat_yaz (sp_bas sp mod DAKIKA_GUN); k_bas := sp_bas sp; k_bit := sp_bit sp;
             k_kod := metin (ds_kod d); k_ad := ad; k_hoca := hoca;
             k_derslikler := metin <$> sinav_derslik_kodlari s (sp_id sp) |}.
Proof.
  intros Hb He. unfold satir_isle, rapor_satiri. cbn [rs_kod rs_bas rs_bit rs_ad rs_hoca rs_id rs_bolum_adi].
  destruct (tam_eslesme RE_DERSKODU _) eqn:Er; cbn [negb]; [|eexists; split; [done|naive_solver]].
  unfold isoformat_dk. rewrite (tarih_saat_geri_donus 84 _ Hb), (tarih_saat_geri_donus 84 _ He). cbn [mbind Sonuc_bind].
  destruct (_is_heading_like (Some _)) eqn:Ea, (_is_heading_like (metin <$> _)) eqn:Eh; cbn [orb];
    try (eexists; split; [done|naive_solver]).
  destruct (takas _ _) as [[ad|] hoca] eqn:Et; cbn [dolu].
  - destruct ad as [|c ad]; cbn [negb]; eexists; (split; [done|]); [naive_solver|].
    intros k. split; [intros [= <-]; eexists _, _; split_and!; done|].
    intros (ad' & hoca' & _ & _ & _ & Ht & _ & ->). by injection Ht as <- <-.
  - eexists; split; [done|]. naive_solver.
Qed.

Lemma kayitlari_topla_elem s rows :
  (forall r, r ∈ rows -> exists o, satir_isle s r ?= o) ->
  exists ks, kayitlari_topla s rows ?= ks /\
    forall k, k ∈ ks <-> exists r, r ∈ rows /\ satir_isle s r ?= Some k.
Proof.
  induction rows as [|r rows IH]; intros Hr; simpl.
  - eexists. split; [done|]. intros k. split; [by intros ?%not_elem_of_nil|]. intros (? & ?%not_elem_of_nil & _). done.
  - destruct (Hr r (list_elem_of_here _ _)) as [o Ho]. rewrite Ho. cbn [mbind Sonuc_bind].
    destruct IH as (ks & Hks & Hm); [intros r' ?; apply Hr; by right|]. rewrite Hks. cbn [mbind Sonuc_bind].
    eexists. split; [done|]. intros k. destruct o as [k'|]; [rewrite elem_of_cons|]; rewrite Hm;
      setoid_rewrite elem_of_cons; split; try naive_solver.
    + intros (r' & [->|?] & E); [left; rewrite Ho in E; congruence|right; eauto].
    + intros (r' & [->|?] & E); [rewrite Ho in E; congruence|eauto].
Qed.

Lemma alt_dizi_tek c s : alt_dizi [c] s = true <-> c ∈ s.
Proof.
  induction s as [|a s IH]; simpl; [split; [done|intros ?%not_elem_of_nil; done]|].
  rewrite elem_of_cons, orb_true_iff, andb_true_r, Z.eqb_eq, IH. naive_solver.
Qed.

(** The strong swap exchanges a short one-word course name with an
    instructor name without a title that has a blank and five
    characters. *)
Lemma takas_kisa_ad ad h :
  ad <> [] -> unvanli ad = false -> (length ad < 8)%nat -> 32 ∉ ad ->
  unvanli h = false -> (5 <= length (py_strip h))%nat -> 32 ∈ h ->
  takas (Some ad) (Some h) = (Some h, Some ad).
Proof.
  intros Ha Hua Hl Hsp Huh Hs Hh.
  assert (Hda : alt_dizi [32] ad = false) by (apply not_true_iff_false; by rewrite alt_dizi_tek).
  assert (Hdh : alt_dizi [32] h = true) by (by apply alt_dizi_tek).
  assert (Hdolu : dolu (Some h) = true) by (destruct h; [by apply not_elem_of_nil in Hh|done]).
  unfold takas, _looks_like_person, _looks_like_course. rewrite Hua, Huh, Hda, Hdh, Hdolu.
  rewrite (proj2 (Nat.leb_le _ _) Hs), (proj2 (Nat.leb_gt 8 (length ad))) by lia.
  rewrite !orb_false_r, !andb_false_r. destruct ad; [done|]. reflexivity.
Qed.

(** ** Theorems *)

(** The rows of the sheet, for [export_dogru] and the swap. *)
Lemma export_satirlari s b t dosya :
  (forall sp, sp ∈ sinav_programi (program s) -> secili b t sp = true ->
              zaman_gecerli (sp_bas sp) /\ zaman_gecerli (sp_bit sp)) ->
  exists sy, export_sinav_programi_to_excel s (Some b) t dosya ?= (dosya, sy) /\
    forall row, row ∈ veri_satirlari sy <->
      exists sp d bo ad hoca, sp ∈ sinav_programi (program s) /\ secili b t sp = true /\
        d ∈ t_dersler (katalog s) /\ ds_id d = sp_ders sp /\ bo ∈ bolumler s /\ bo.1 = sp_bolum sp /\
        tam_eslesme RE_DERSKODU (metin (ds_kod d)) = true /\
        _is_heading_like (Some (metin (ds_ad d))) = false /\ _is_heading_like (metin <$> ds_hoca d) = false /\
        takas (Some (metin (ds_ad d))) (metin <$> ds_hoca d) = (Some ad, hoca) /\ ad <> [] /\
        row = [XMetin (metin bo.2); XTarih (sp_bas sp / DAKIKA_GUN); XMetin (saat_yaz (sp_bas sp mod DAKIKA_GUN));
               XMetin (metin (ds_kod d)); XMetin ad; match hoca with Some h => XMetin h | None => XBos end;
               XMetin (birlestir (ascii_str ", ") (metin <$> sinav_derslik_kodlari s (sp_id sp)));
               XMetin (saat_yaz (sp_bit sp mod DAKIKA_GUN))].
Proof.
  intros Hz. destruct (kayitlari_topla_elem s (rapor_sorgusu s (Some b) t)) as (ks & Hks & Hm).
  { intros r (sp & d & bo & Hsp & Hsec & _ & _ & _ & _ & ->)%rapor_sorgusu_elem.
    destruct (Hz sp Hsp Hsec) as [Hb He]. destruct (satir_isle_kayit s sp d bo Hb He) as (o & Ho & _). eauto. }
  unfold export_sinav_programi_to_excel. rewrite Hks. cbn [mbind Sonuc_bind]. eexists. split; [done|].
  intros row. unfold veri_satirlari, programi_xlsx_yaz. cbn [sy_satirlar drop].
  rewrite drop_0, list_elem_of_fmap. setoid_rewrite sirala_elem. setoid_rewrite Hm.
  setoid_rewrite rapor_sorgusu_elem. split.
  - intros (k & -> & r & (sp & d & bo & Hsp & Hsec & Hd & Hid & Hbo & Hb & ->) & Hk).
    destruct (Hz sp Hsp Hsec) as [Hzb Hze]. destruct (satir_isle_kayit s sp d bo Hzb Hze) as (o & Ho & Hok).
    rewrite Ho in Hk. injection Hk as ->. destruct (proj1 (Hok k) eq_refl) as (ad & hoca & ? & ? & ? & ? & ? & ->).
    exists sp, d, bo, ad, hoca. split_and!; done.
  - intros (sp & d & bo & ad & hoca & Hsp & Hsec & Hd & Hid & Hbo & Hb & Hr & Ha & Hh & Ht & Hne & ->).
    destruct (Hz sp Hsp Hsec) as [Hzb Hze]. destruct (satir_isle_kayit s sp d bo Hzb Hze) as (o & Ho & Hok).
    eexists. split; [|exists (rapor_satiri sp d bo); split; [exists sp, d, bo; done|]].
    2: { rewrite Ho. f_equal. apply Hok. exists ad, hoca. split_and!; done. }
    done.
Qed.

(** C8 The export writes the stored timetable: when the stored exams of
    the department and type have datetimes in range, the export does not
    raise, and the data rows of the sheet are exactly the exams whose
    course code matches [RE_DERSKODU], whose name and instructor are not
    heading-like and whose name (after the swap) is not empty, each with
    its department, the date and the [HH:MM] time of its stored start,
    its code, name and instructor after the swap, its rooms by
    decreasing capacity and the time of its stored end. *)
Theorem export_dogru s b t dosya :
  (forall sp, sp ∈ sinav_programi (program s) -> secili b t sp = true ->
              zaman_gecerli (sp_bas sp) /\ zaman_gecerli (sp_bit sp)) ->
  exists sy, export_sinav_programi_to_excel s (Some b) t dosya ?= (dosya, sy) /\
    forall row, row ∈ veri_satirlari sy <->
      exists sp d bo ad hoca, sp ∈ sinav_programi (program s) /\ secili b t sp = true /\
        d ∈ t_dersler (katalog s) /\ ds_id d = sp_ders sp /\ bo ∈ bolumler s /\ bo.1 = sp_bolum sp /\
        tam_eslesme RE_DERSKODU (metin (ds_kod d)) = true /\
        _is_heading_like (Some (metin (ds_ad d))) = false /\ _is_heading_like (metin <$> ds_hoca d) = false /\
        takas (Some (metin (ds_ad d))) (metin <$> ds_hoca d) = (Some ad, hoca) /\ ad <> [] /\
        row = [XMetin (metin bo.2); XTarih (sp_bas sp / DAKIKA_GUN); XMetin (saat_yaz (sp_bas sp mod DAKIKA_GUN));
               XMetin (metin (ds_kod d)); XMetin ad; match hoca with Some h => XMetin h | None => XBos end;
               XMetin (birlestir (ascii_str ", ") (metin <$> sinav_derslik_kodlari s (sp_id sp)));
               XMetin (saat_yaz (sp_bit sp mod DAKIKA_GUN))].
Proof. apply export_satirlari. Qed.

(** The strong swap of the export misreads a short course name: a
    course whose name is one word of fewer than eight characters and
    whose instructor is recorded without a title as a name of two words
    comes out of the export with the instructor's name in the
    [Ders Adı] column and the course name in the [Öğr. Üyesi] column. *)
Theorem export_kisa_ad_takasi s b t dosya sp d bo h :
  (forall sp', sp' ∈ sinav_programi (program s) -> secili b t sp' = true ->
               zaman_gecerli (sp_bas sp') /\ zaman_gecerli (sp_bit sp')) ->
  sp ∈ sinav_programi (program s) -> secili b t sp = true -> d ∈ t_dersler (katalog s) ->
  ds_id d = sp_ders sp -> bo ∈ bolumler s -> bo.1 = sp_bolum sp -> ds_hoca d = Some h ->
  tam_eslesme RE_DERSKODU (metin (ds_kod d)) = true ->
  _is_heading_like (Some (metin (ds_ad d))) = false -> _is_heading_like (Some (metin h)) = false ->
  metin (ds_ad d) <> [] -> unvanli (metin (ds_ad d)) = false -> (length (metin (ds_ad d)) < 8)%nat ->
  32 ∉ metin (ds_ad d) -> unvanli (metin h) = false -> (5 <= length (py_strip (metin h)))%nat ->
  32 ∈ metin h ->
  exists sy, export_sinav_programi_to_excel s (Some b) t dosya ?= (dosya, sy) /\
    [XMetin (metin bo.2); XTarih (sp_bas sp / DAKIKA_GUN); XMetin (saat_yaz (sp_bas sp mod DAKIKA_GUN));
     XMetin (metin (ds_kod d)); XMetin (metin h); XMetin (metin (ds_ad d));
     XMetin (birlestir (ascii_str ", ") (metin <$> sinav_derslik_kodlari s (sp_id sp)));
     XMetin (saat_yaz (sp_bit sp mod DAKIKA_GUN))] ∈ veri_satirlari sy.
Proof.
  intros Hz Hsp Hsec Hd Hid Hbo Hb Hh Hr Ha Hhl Hne Hua Hl Hsp' Huh Hs Hhs.
  destruct (export_satirlari s b t dosya Hz) as (sy & Hsy & Hm). exists sy. split; [done|].
  apply Hm. exists sp, d, bo, (metin h), (Some (metin (ds_ad d))).
  rewrite Hh. simpl fmap. rewrite takas_kisa_ad by done.
  split_and!; try done. intros E. rewrite E in Hhs. by apply not_elem_of_nil in Hhs.
Qed.

(** ** Examples *)

Definition ornek_rapor_sistemi : Sistem :=
  {| bolumler := [(1, "Kimya Bölümü")]; bolum_seq := 1; kullanicilar := []; kullanici_seq := 0;
     katalog := {| t_dersler := [{| ds_id := 3; ds_bolum_id := 1; ds_kod := "KIM101"; ds_ad := "Kimya";
                                    ds_hoca := Some "Ayşe Yılmaz"; ds_sinif := None; ds_tur := None |}];
                   t_ogrenciler := []; t_ogrenci_ders := [];
                   t_derslikler := [{| dl_satir_id := 5; dl_bolum_id := 1; dl_kodu := "D1"; dl_adi := "Derslik 1";
                                       dl_kapasite := 30; dl_enine := 6; dl_boyuna := 5; dl_sira_yapisi := 2 |}] |};
     derslik_seq := 5;
     program := {| sinav_programi := [{| sp_id := 1; sp_bolum := 1; sp_ders := 3; sp_tur := "vize";
                                          sp_bas := 738886 * 1440 + 540; sp_bit := 738886 * 1440 + 630;
                                          sp_sure := 90; sp_bekleme := 0 |}];
                   sinav_programi_derslik := [(1, 5)]; oturma_plani := []; sqlite_sequence := 1 |} |}.

(** Witness of [export_kisa_ad_takasi] and [export_dogru]: the exam of
    KIM101 "Kimya" by "Ayşe Yılmaz" is exported as course "Ayşe Yılmaz"
    by "Kimya". *)
Lemma export_kisa_ad_takasi_ornek :
  export_sinav_programi_to_excel ornek_rapor_sistemi (Some 1) "vize" (ascii_str "p.xlsx") =
    Tamam (ascii_str "p.xlsx",
           {| sy_ad := metin "Sınav Programı";
              sy_satirlar := [[XMetin (ascii_str "SINAV PROGRAMI (VIZE)")]; XMetin <$> BASLIKLAR;
                              [XMetin (metin "Kimya Bölümü"); XTarih 738886; XMetin (ascii_str "09:00");
                               XMetin (ascii_str "KIM101"); XMetin (metin "Ayşe Yılmaz"); XMetin (metin "Kimya");
                               XMetin (ascii_str "D1"); XMetin (ascii_str "10:30")]] |}) /\
  exists sy, export_sinav_programi_to_excel ornek_rapor_sistemi (Some 1) "vize" (ascii_str "p.xlsx")
      ?= (ascii_str "p.xlsx", sy) /\
    [XMetin (metin "Kimya Bölümü"); XTarih ((738886 * 1440 + 540) / DAKIKA_GUN);
     XMetin (saat_yaz ((738886 * 1440 + 540) mod DAKIKA_GUN)); XMetin (metin "KIM101");
     XMetin (metin "Ayşe Yılmaz"); XMetin (metin "Kimya");
     XMetin (birlestir (ascii_str ", ") (metin <$> sinav_derslik_kodlari ornek_rapor_sistemi 1));
     XMetin (saat_yaz ((738886 * 1440 + 630) mod DAKIKA_GUN))] ∈ veri_satirlari sy.
Proof.
  split; [vm_compute; reflexivity|].
  refine (export_kisa_ad_takasi ornek_rapor_sistemi 1 "vize" (ascii_str "p.xlsx")
            {| sp_id := 1; sp_bolum := 1; sp_ders := 3; sp_tur := "vize";
               sp_bas := 738886 * 1440 + 540; sp_bit := 738886 * 1440 + 630; sp_sure := 90; sp_bekleme := 0 |}
            {| ds_id := 3; ds_bolum_id := 1; ds_kod := "KIM101"; ds_ad := "Kimya";
               ds_hoca := Some "Ayşe Yılmaz"; ds_sinif := None; ds_tur := None |}
            (1, "Kimya Bölümü") "Ayşe Yılmaz" _ _ _ _ _ _ _ _ _ _ _ _ _ _ _ _ _ _).
  - intros sp' Hsp' _. apply list_elem_of_singleton in Hsp' as ->.
    unfold zaman_gecerli, YIL_1000, MAXORD, DAKIKA_GUN. cbn [sp_bas sp_bit]. lia.
  - apply list_elem_of_here.
  - vm_compute. reflexivity.
  - apply list_elem_of_here.
  - reflexivity.
  - apply list_elem_of_here.
  - reflexivity.
  - reflexivity.
  - vm_compute. reflexivity.
  - vm_compute. reflexivity.
  - vm_compute. reflexivity.
  - vm_compute. discriminate.
  - vm_compute. reflexivity.
  - apply Nat.ltb_lt. vm_compute. reflexivity.
  - apply (bool_decide_unpack _). vm_compute. reflexivity.
  - vm_compute. reflexivity.
  - apply Nat.leb_le. vm_compute. reflexivity.
  - apply (bool_decide_unpack _). vm_compute. reflexivity.
Defined.

(** Witness of [export_dogru] on the same store. *)
Lemma export_dogru_ornek :
  exists sy, export_sinav_programi_to_excel ornek_rapor_sistemi (Some 1) "vize" (ascii_str "p.xlsx")
      ?= (ascii_str "p.xlsx", sy) /\
    forall row, row ∈ veri_satirlari sy <->
      exists sp d bo ad hoca, sp ∈ sinav_programi (program ornek_rapor_sistemi) /\ secili 1 "vize" sp = true /\
        d ∈ t_dersler (katalog ornek_rapor_sistemi) /\ ds_id d = sp_ders sp /\ bo ∈ bolumler ornek_rapor_sistemi /\
        bo.1 = sp_bolum sp /\ tam_eslesme RE_DERSKODU (metin (ds_kod d)) = true /\
        _is_heading_like (Some (metin (ds_ad d))) = false /\ _is_heading_like (metin <$> ds_hoca d) = false /\
        takas (Some (metin (ds_ad d))) (metin <$> ds_hoca d) = (Some ad, hoca) /\ ad <> [] /\
        row = [XMetin (metin bo.2); XTarih (sp_bas sp / DAKIKA_GUN); XMetin (saat_yaz (sp_bas sp mod DAKIKA_GUN));
               XMetin (metin (ds_kod d)); XMetin ad; match hoca with Some h => XMetin h | None => XBos end;
               XMetin (birlestir (ascii_str ", ") (metin <$> sinav_derslik_kodlari ornek_rapor_sistemi (sp_id sp)));
               XMetin (saat_yaz (sp_bit sp mod DAKIKA_GUN))].
Proof.
  apply export_dogru. intros sp' Hsp' _. apply list_elem_of_singleton in Hsp' as ->.
  unfold zaman_gecerli, YIL_1000, MAXORD, DAKIKA_GUN. simpl. lia.
Defined.

End ExcelRapor.
