(* ===== verification/Maintenance.v ===== *)
(** * Maintenance: the one-off clean-up script

    [src/bakim/veri_temizle_yeniden_yukle.py]: [temizle(bolum_id)]
    reads every row of [dersler], collects the ids of the rows of the
    chosen department (all rows when [bolum_id] is [None]) whose code
    does not match [RE_KOD] or whose name, code or instructor is a
    heading text once normalised by [_norm], deletes their enrolments and
    the rows, and deletes the department's exams.  It runs in one
    [with baglanti()] block; none of its statements can fail, so the
    block always commits.  The script imports nothing of the application
    but [veritabani.baglanti]: it has its own [RE_KOD] (the same text as
    [veri_deposu.RE_DERSKODU]), its own [_norm] (that of
    [excel_parser.py]) and its own, shorter [HEADING_LIKE].

    The connection [baglanti()] opens does not enable
    [PRAGMA foreign_keys], so the [ON DELETE CASCADE] clauses of
    [sinav_programi_derslik] and [oturma_plani] do not fire: the model
    deletes exactly the rows the three [DELETE] statements name.

    Theorems: the rows the loop collects are the rows its test selects
    (the loop is a filter); after the script a course of the chosen
    department is kept exactly when its code matches and no field is a
    heading, and the other departments are untouched; the constraints
    of [kayitlar_butun] survive it; the department's exams are gone
    while their room bookings and seat plans stay; and (finding) a
    course named [DERSİN ADI] or [2. Sınıf] survives it. *)

From S2P Require Import Prelude Normalize Catalog Store Accounts Forms ExcelImport ListWindows.

Module Bakim.
Import Normal Katalog Kalici Yetki Metin Aktarim ListePencereleri.

(** [RE_KOD = re.compile(r"^[A-Za-z]{1,6}[-/]?\d{1,4}[A-Za-z0-9\-]*$")] *)
Definition RE_KOD : Desen :=
  Ard (Tekrar 1 (Some 6%nat) ascii_harf) (Ard (Tekrar 0 (Some 1%nat) tire_bolu)
    (Ard (Tekrar 1 (Some 4%nat) rakam) (Tekrar 0 None kod_kuyrugu))).

(** The set literal, in its own spelling: four entries keep the
    dotless [ı]. *)
Definition HEADING_LIKE : list pystr := metin <$>
  ["2. sınıf"; "3. sınıf"; "4. sınıf"; "1. sınıf"; "2 sinif"; "3 sinif"; "4 sinif";
   "ders kodu"; "dersin adi"; "ders adi"; "secimli ders"; "secmeli ders"; "secimlik ders"; "dersin adı";
   "ders"; "ogretim elemani"; "ogretim uyesi"; "ogretim gorevlisi"].

(** [_norm]: [strip], [lower], then the six [replace] calls. *)
Definition _norm (s : pystr) : pystr := sadelestir <$> py_lower_tam (py_strip s).

Definition baslik_mi (s : pystr) : bool := bool_decide (_norm s ∈ HEADING_LIKE).

(** The body of the [for r in rows] loop: [true] when it appends
    [r["id"]] to [sil_ids].  [r["kod"]] and [r["ad"]] are [NOT NULL];
    [r["hoca"] or ""] turns [NULL] into the empty string. *)
Definition satir_karari (bolum_id : option Z) (r : DersSatiri) : bool :=
  let kod := metin (ds_kod r) in
  let ad := metin (ds_ad r) in
  let hoca := default [] (metin <$> ds_hoca r) in
  if (match bolum_id with Some b => negb (ds_bolum_id r =? b) | None => false end) then false
  else if negb (tam_eslesme RE_KOD kod) then true
  else if baslik_mi ad || baslik_mi kod || baslik_mi hoca then true
  else false.

(** [sil_ids], built in the order of the rows. *)
Fixpoint sil_dongusu (bolum_id : option Z) (rows : list DersSatiri) : list Z :=
  match rows with
  | [] => []
  | r :: rs => if satir_karari bolum_id r then ds_id r :: sil_dongusu bolum_id rs
               else sil_dongusu bolum_id rs
  end.

(** [f"{len(sil_ids)} ders silindi."] *)
Definition silindi_mesaji (n : nat) : pystr := ascii_str (str_of_Z (Z.of_nat n)) ++ metin " ders silindi.".

Definition TEMIZLENDI : pystr := metin "Sınav programı temizlendi.".

(** The two [DELETE ... WHERE id IN (...)] statements. *)
Definition dersleri_sil (sil_ids : list Z) (kt : Katalog) : Katalog :=
  {| t_dersler := filter (fun d => ds_id d ∉ sil_ids) (t_dersler kt);
     t_ogrenciler := t_ogrenciler kt;
     t_ogrenci_ders := filter (fun r => kd_ders_id r ∉ sil_ids) (t_ogrenci_ders kt);
     t_derslikler := t_derslikler kt |}.

(** [DELETE FROM sinav_programi WHERE bolum_id=?] or all of it; the
    other tables are left as they are. *)
Definition sinavlari_sil (bolum_id : option Z) (vt : Veritabani) : Veritabani :=
  {| sinav_programi := match bolum_id with
                       | Some b => filter (fun sp => sp_bolum sp <> b) (sinav_programi vt)
                       | None => []
                       end;
     sinav_programi_derslik := sinav_programi_derslik vt;
     oturma_plani := oturma_plani vt;
     sqlite_sequence := sqlite_sequence vt |}.

(** [temizle(bolum_id)]: the database after the block and the lines it
    prints. *)
Definition temizle (bolum_id : option Z) (s : Sistem) : Sistem * list pystr :=
  let sil_ids := sil_dongusu bolum_id (t_dersler (katalog s)) in
  let '(kt, cikti) :=
    match sil_ids with
    | [] => (katalog s, [])
    | _ => (dersleri_sil sil_ids (katalog s), [silindi_mesaji (length sil_ids)])
    end in
  ({| bolumler := bolumler s; bolum_seq := bolum_seq s; kullanicilar := kullanicilar s;
      kullanici_seq := kullanici_seq s; katalog := kt; derslik_seq := derslik_seq s;
      program := sinavlari_sil bolum_id (program s) |},
   cikti ++ [TEMIZLENDI]).

(** ** The loop *)

(** The loop collects the ids of the rows its body selects, in order. *)
Lemma sil_dongusu_filter b rows :
  sil_dongusu b rows = ds_id <$> List.filter (satir_karari b) rows.
Proof.
  induction rows as [|r rows IH]; simpl; [done|].
  destruct (satir_karari b r); simpl; by rewrite IH.
Qed.

(** With unique ids, the id of a row is collected exactly when the
    body selects that row. *)
Lemma sil_dongusu_elem b rows d :
  NoDup (ds_id <$> rows) -> d ∈ rows ->
  ds_id d ∈ sil_dongusu b rows <-> satir_karari b d = true.
Proof.
  intros Hn Hd. rewrite sil_dongusu_filter, list_elem_of_fmap. split.
  - intros (d' & Hid & [Hd' Hk]%elem_of_List_filter).
    by rewrite (NoDup_fmap_esit ds_id rows d d').
  - intros Hk. exists d. split; [done|]. by apply elem_of_List_filter.
Qed.

(** The body keeps a row when it is of another department, or when its
    code matches and none of its three fields is a heading. *)
Lemma satir_karari_false b r :
  satir_karari b r = false <->
  (match b with Some b => ds_bolum_id r <> b | None => False end) \/
  (tam_eslesme RE_KOD (metin (ds_kod r)) = true /\ baslik_mi (metin (ds_ad r)) = false /\
   baslik_mi (metin (ds_kod r)) = false /\ baslik_mi (default [] (metin <$> ds_hoca r)) = false).
Proof.
  unfold satir_karari. destruct b as [b|]; [destruct (Z.eqb_spec (ds_bolum_id r) b)|]; cbn [negb];
    destruct (tam_eslesme _ _), (baslik_mi (metin (ds_ad r))), (baslik_mi (metin (ds_kod r))),
      (baslik_mi (default _ _)); cbn; naive_solver.
Qed.

(** The catalog after the script is the catalog with the collected rows
    and their enrolments deleted, also when nothing is collected. *)
Lemma temizle_katalog b s :
  katalog (temizle b s).1 = dersleri_sil (sil_dongusu b (t_dersler (katalog s))) (katalog s).
Proof.
  unfold temizle. destruct (sil_dongusu b _) as [|i l]; [|done].
  unfold dersleri_sil. rewrite !filter_hepsi by (intros; apply not_elem_of_nil). by destruct (katalog s).
Qed.

(** With unique ids, a row the body does not select is still in
    [dersler] after the script. *)
Lemma temizle_satir_kalir b s d :
  NoDup (ds_id <$> t_dersler (katalog s)) -> d ∈ t_dersler (katalog s) ->
  satir_karari b d = false -> d ∈ t_dersler (katalog (temizle b s).1).
Proof.
  intros Hn Hd Hk. rewrite temizle_katalog. cbn [dersleri_sil t_dersler].
  apply list_elem_of_filter. split; [|done].
  intros E. apply sil_dongusu_elem in E; [congruence|done..].
Qed.

#[local] Hint Resolve fmap_filter_NoDup : sinav.

(** ** Theorems *)

(** C11: After [temizle(bolum_id)], a course row is in [dersler] exactly when
    it was there and either belongs to another department or has a code
    matching [RE_KOD] and no field that [_norm] turns into a heading;
    course ids are the table's primary key. *)
Theorem temizle_dersler b s d :
  NoDup (ds_id <$> t_dersler (katalog s)) ->
  d ∈ t_dersler (katalog (temizle b s).1) <->
  d ∈ t_dersler (katalog s) /\
  ((match b with Some b => ds_bolum_id d <> b | None => False end) \/
   (tam_eslesme RE_KOD (metin (ds_kod d)) = true /\ baslik_mi (metin (ds_ad d)) = false /\
    baslik_mi (metin (ds_kod d)) = false /\ baslik_mi (default [] (metin <$> ds_hoca d)) = false)).
Proof.
  intros Hn. rewrite temizle_katalog, <- satir_karari_false. cbn [dersleri_sil t_dersler].
  rewrite list_elem_of_filter. split.
  - intros [Hp Hd]. split; [done|]. apply not_true_is_false. intros E. apply Hp. by apply sil_dongusu_elem.
  - intros [Hd Hk]. split; [|done]. intros E. apply sil_dongusu_elem in E; [congruence|done..].
Qed.

(** C12: The script keeps the constraints of [kayitlar_butun]: keys stay
    unique, and no enrolment is left naming a deleted course. *)
Theorem temizle_butunluk b s :
  kayitlar_butun (katalog s) -> kayitlar_butun (katalog (temizle b s).1).
Proof.
  rewrite temizle_katalog. intros (H1 & H2 & H3 & H4 & H5).
  unfold dersleri_sil, kayitlar_butun; cbn. split_and!; eauto with sinav.
  apply Forall_forall. intros r [Hr Hk]%list_elem_of_filter.
  rewrite Forall_forall in H5. destruct (H5 r Hk) as [Ho (d & Hid & Hd)%list_elem_of_fmap].
  split; [done|]. apply list_elem_of_fmap. exists d. split; [done|].
  apply list_elem_of_filter. split; [congruence|done].
Qed.

Lemma temizle_program b s : program (temizle b s).1 = sinavlari_sil b (program s).
Proof. unfold temizle. by destruct (sil_dongusu b _). Qed.

(** C36: The department's exams are deleted but their room bookings and
    seat plans are not: a booking of a deleted exam stays in
    [sinav_programi_derslik] and names an exam id that is no longer in
    [sinav_programi] (exam ids are the table's primary key). *)
Theorem temizle_sarkan_rezervasyon b s sp l :
  NoDup (sp_id <$> sinav_programi (program s)) ->
  sp ∈ sinav_programi (program s) -> sp_bolum sp = b ->
  l ∈ sinav_programi_derslik (program s) -> l.1 = sp_id sp ->
  l ∈ sinav_programi_derslik (program (temizle (Some b) s).1) /\
  l.1 ∉ sp_id <$> sinav_programi (program (temizle (Some b) s).1) /\
  oturma_plani (program (temizle (Some b) s).1) = oturma_plani (program s).
Proof.
  intros Hn Hsp Hb Hl Hid. rewrite temizle_program. cbn. split_and!; [done| |done].
  rewrite Hid. intros (x & Hx & [Hxb Hx']%list_elem_of_filter)%list_elem_of_fmap.
  apply Hxb. by rewrite (NoDup_fmap_esit sp_id (sinav_programi (program s)) x sp).
Qed.

(** ** Example *)

Definition ornek_ders (i : Z) (kod ad : string) : DersSatiri :=
  {| ds_id := i; ds_bolum_id := 1; ds_kod := kod; ds_ad := ad; ds_hoca := None;
     ds_sinif := None; ds_tur := None |}.

Definition ornek_sinav : SinavSatiri :=
  {| sp_id := 1; sp_bolum := 1; sp_ders := 1; sp_tur := "vize"; sp_bas := 738886 * 1440 + 540;
     sp_bit := 738886 * 1440 + 630; sp_sure := 90; sp_bekleme := 15 |}.

(** Four course rows left by a bad import, an enrolment in one that
    goes and an exam booked in room 5. *)
Definition ornek_bakim : Sistem :=
  {| bolumler := [(1, "Bilgisayar Mühendisliği")]; bolum_seq := 1; kullanicilar := []; kullanici_seq := 0;
     katalog := {| t_dersler := [ornek_ders 1 "BLM101" "DERSİN ADI"; ornek_ders 2 "BLM102" "2. Sınıf";
                                 ornek_ders 3 "DERS KODU" "DERSİN ADI"; ornek_ders 4 "BLM104" "Seçmeli Ders"];
                   t_ogrenciler := [{| og_id := 7; og_bolum_id := 1; og_ogr_no := "220201001";
                                       og_adsoyad := "Ali Veli"; og_sinif := Some 1 |}];
                   t_ogrenci_ders := [{| kd_ogrenci_id := 7; kd_ders_id := 1 |};
                                      {| kd_ogrenci_id := 7; kd_ders_id := 3 |}];
                   t_derslikler := [] |};
     derslik_seq := 5;
     program := {| sinav_programi := [ornek_sinav]; sinav_programi_derslik := [(1, 5)]; oturma_plani := [];
                   sqlite_sequence := 1 |} |}.

(** C37: The script spares every course named [DERSİN ADI] or
    [2. Sınıf], in any spelling with the same normal form, of any
    department and in any database, when its code matches [RE_KOD] and
    neither its code nor its lecturer is a heading, although its first
    comment names these two among the headings it removes: [str.lower]
    turns [İ] into [i] and U+0307, and the set holds [2. sınıf] with the
    dotless [ı] that [_norm] has just replaced, so neither normal form is
    in [HEADING_LIKE]. *)
Theorem baslik_dersleri_kalir b s d :
  NoDup (ds_id <$> t_dersler (katalog s)) -> d ∈ t_dersler (katalog s) ->
  _norm (metin (ds_ad d)) ∈ [_norm (metin "DERSİN ADI"); _norm (metin "2. Sınıf")] ->
  tam_eslesme RE_KOD (metin (ds_kod d)) = true -> baslik_mi (metin (ds_kod d)) = false ->
  baslik_mi (default [] (metin <$> ds_hoca d)) = false ->
  d ∈ t_dersler (katalog (temizle b s).1).
Proof.
  intros Hn Hd Ha Hk Hbk Hh. apply temizle_satir_kalir; [done..|].
  apply satir_karari_false. right. split_and!; [done| |done..].
  unfold baslik_mi. apply bool_decide_eq_false_2. intros Hb.
  apply list_elem_of_In in Ha as [Ha|[Ha|[]]]; rewrite <- Ha in Hb;
    apply (bool_decide_pack _) in Hb; vm_compute in Hb; contradiction.
Qed.

(** Witness of [temizle_dersler]: the row [BLM101] of department 1 is kept. *)
Lemma temizle_dersler_ornek :
  ornek_ders 1 "BLM101" "DERSİN ADI" ∈ t_dersler (katalog (temizle (Some 1) ornek_bakim).1).
Proof.
  refine (proj2 (temizle_dersler (Some 1) ornek_bakim _ _) _).
  - apply (bool_decide_unpack _). vm_compute. reflexivity.
  - split; [apply list_elem_of_here|right]. split_and!; vm_compute; reflexivity.
Defined.

(** Witness of [temizle_butunluk]: the enrolment in row 3 goes with it. *)
Lemma temizle_butunluk_ornek :
  kayitlar_butun (katalog (temizle (Some 1) ornek_bakim).1).
Proof. apply temizle_butunluk. apply (bool_decide_unpack _). vm_compute. reflexivity. Defined.

(** Witness of [temizle_sarkan_rezervasyon]: the booking of room 5 by
    exam 1 outlives the exam. *)
Lemma temizle_sarkan_rezervasyon_ornek :
  (1, 5) ∈ sinav_programi_derslik (program (temizle (Some 1) ornek_bakim).1) /\
  1 ∉ sp_id <$> sinav_programi (program (temizle (Some 1) ornek_bakim).1) /\
  oturma_plani (program (temizle (Some 1) ornek_bakim).1) = oturma_plani (program ornek_bakim).
Proof.
  refine (temizle_sarkan_rezervasyon 1 ornek_bakim ornek_sinav (1, 5) _ _ _ _ _).
  - apply (bool_decide_unpack _). vm_compute. reflexivity.
  - apply list_elem_of_here.
  - reflexivity.
  - apply list_elem_of_here.
  - reflexivity.
Defined.

(** Witness of [baslik_dersleri_kalir]: in the example database the
    row [BLM101 / DERSİN ADI] of department 1 survives the clean-up of
    department 1. *)
Lemma baslik_dersleri_kalir_ornek :
  ornek_ders 1 "BLM101" "DERSİN ADI" ∈ t_dersler (katalog (temizle (Some 1) ornek_bakim).1).
Proof.
  apply (baslik_dersleri_kalir (Some 1) ornek_bakim (ornek_ders 1 "BLM101" "DERSİN ADI")).
  - apply (bool_decide_unpack _). vm_compute. reflexivity.
  - apply list_elem_of_here.
  - apply list_elem_of_here.
  - vm_compute. reflexivity.
  - vm_compute. reflexivity.
  - vm_compute. reflexivity.
Defined.

End Bakim.
