(* ===== verification/SampleTimetable.v ===== *)
(** * SampleTimetable: [ornek_sinav_programi_olustur]

    The optional sample timetable of [src/veri_deposu.py] (lines
    396-413): it reads the department's courses and rooms with
    [plan_kaynagini_hazirla], and, when both are there, gives course [i]
    (in the order of their codes) an exam of 90 minutes on day
    [today + i // 3] at [9 + 2 * (i % 3)] o'clock in the first room (the
    largest), with a break of 15 minutes, through [_program_satiri_yaz]
    in one [with baglanti()] block.  A [ValueError] of the room guard is
    caught and its text kept as a warning; any other exception (the
    unique index, the date range) leaves the block, which is rolled
    back.  [datetime.now().date()] is the parameter [bugun] (a date
    ordinal, as in [Interval]).

    Theorems: on a department and exam type with no exam yet, the
    function stores one exam per course, at the announced day and hour,
    in the first room, and warns nothing; the three daily slots never
    overlap, which is why its own exams never trip the room guard. *)

From S2P Require Import Prelude Interval Planner Catalog Store Accounts Pipeline.

Module OrnekProgram.
Import Aralik Tarih Plan Katalog Kalici Yetki Akis.

(** The warnings: the early answer, and [str(e)] of the guard's
    [ValueError] ([f"Derslik çakışması: derslik_id={dl} {bas_dt:...}–{bit_dt:%H:%M} ..."]),
    by the data it interpolates. *)
Inductive OrnekUyari :=
  | DersVeyaDerslikYok
  | DerslikCakismasi (derslik_id bas bit : Z).

(** [datetime.combine(base + timedelta(days=i // 3), time(9 + 2 * (i % 3), 0))]
    without the range checks. *)
Definition ornek_bas (bugun : Z) (i : nat) : Z :=
  combine (bugun + Z.of_nat i / 3) (60 * (9 + 2 * (Z.of_nat i mod 3))).

(** The [for i, d in enumerate(dersler)] loop: the counter and the
    warnings are threaded along with the store. *)
Fixpoint ornek_dongu (vt : Veritabani) (bugun bolum_id : Z) (sinav_turu : string) (derslik0 : Z)
    (i : nat) (dersler : list Ders) (eklenen : Z) (uyarilar : list OrnekUyari)
    : Sonuc (Veritabani * (Z * list OrnekUyari)) :=
  match dersler with
  | [] => Tamam (vt, (eklenen, uyarilar))
  | d :: rest =>
      gun ← gun_ekle bugun (Z.of_nat i / 3);
      let bas := combine gun (60 * (9 + 2 * (Z.of_nat i mod 3))) in
      bit ← dakika_ekle bas 90;
      match program_satiri_yaz vt bolum_id (ders_id d) sinav_turu bas bit 15 [derslik0] with
      | Tamam (vt', _) => ornek_dongu vt' bugun bolum_id sinav_turu derslik0 (S i) rest (eklenen + 1) uyarilar
      | Hata ValueError =>
          ornek_dongu vt bugun bolum_id sinav_turu derslik0 (S i) rest eklenen
            (uyarilar ++ [DerslikCakismasi derslik0 bas bit])
      | Hata e => Hata e
      end
  end.

(** [ornek_sinav_programi_olustur(bolum_id, sinav_turu)] *)
Definition ornek_sinav_programi_olustur (s : Sistem) (bugun bolum_id : Z) (sinav_turu : string)
    : Sistem * Sonuc (Z * list OrnekUyari) :=
  match plan_kaynagini_hazirla (katalog s) bolum_id with
  | (dersler, dl0 :: _) =>
      match dersler with
      | [] => (s, Tamam (0, [DersVeyaDerslikYok]))
      | _ =>
          let '(vt', r) := baglanti_ile (program s)
                             (ornek_dongu (program s) bugun bolum_id sinav_turu (dl_satir_id dl0) 0 dersler 0 []) in
          (program_yaz s vt', r)
      end
  | (_, []) => (s, Tamam (0, [DersVeyaDerslikYok]))
  end.

(** ** The slots *)

(** The slots are in order and never overlap: an exam of slot [j] ends
    before slot [i > j] starts (three slots of 90 minutes two hours
    apart, from 9:00 to 14:30, then the next day). *)
Lemma ornek_bas_ayrik bugun j i : (j < i)%nat -> ornek_bas bugun j + 90 <= ornek_bas bugun i.
Proof.
  intros Hji. unfold ornek_bas, combine, DAKIKA_GUN.
  pose proof (Z.div_mod (Z.of_nat j) 3 ltac:(lia)) as Hj. pose proof (Z.mod_pos_bound (Z.of_nat j) 3 ltac:(lia)).
  pose proof (Z.div_mod (Z.of_nat i) 3 ltac:(lia)) as Hi. pose proof (Z.mod_pos_bound (Z.of_nat i) 3 ltac:(lia)).
  destruct (Z.eq_dec (Z.of_nat j / 3) (Z.of_nat i / 3)) as [E|E]; [lia|].
  assert (Z.of_nat j / 3 < Z.of_nat i / 3) by lia. nia.
Qed.

Lemma ornek_bas_aralik bugun i :
  MINORD <= bugun + Z.of_nat i / 3 <= MAXORD ->
  gun_ekle bugun (Z.of_nat i / 3) = Tamam (bugun + Z.of_nat i / 3) /\
  dakika_ekle (ornek_bas bugun i) 90 = Tamam (ornek_bas bugun i + 90).
Proof.
  intros Hb. pose proof (Z.mod_pos_bound (Z.of_nat i) 3 ltac:(lia)).
  unfold gun_ekle, dakika_ekle, gecerli_tarih, gecerli_an, ornek_bas, combine, DAKIKA_GUN in *.
  split; (replace (_ && _) with true; [done|]); symmetry; apply andb_true_iff; rewrite !Z.leb_le; lia.
Qed.

(** The converse of [Store.ders_yok]. *)
Lemma ders_yok_tersi vt b t d :
  d ∉ ders_kayitlari vt b t ->
  existsb (fun sp => secili b t sp && (sp_ders sp =? d)) (sinav_programi vt) = false.
Proof.
  intros Hd. apply not_true_is_false. intros (sp & Hsp & E)%existsb_exists.
  apply andb_true_iff in E as [Hs Hdd]. apply Z.eqb_eq in Hdd. subst d. apply Hd.
  apply list_elem_of_fmap_2, list_elem_of_In, filter_In. split; [done|]. done.
Qed.

(** ** The loop *)

(** On a store where the room's bookings of the department and type
    end before slot [i], and no course of the rest has an exam yet, the
    loop stores every course in its slot. *)
Lemma ornek_dongu_tam vt bugun b t dl0 i ds n ws :
  saglam vt -> NoDup (ders_id <$> ds) ->
  (forall d, d ∈ ds -> ders_id d ∉ ders_kayitlari vt b t) ->
  (forall f, f ∈ oda_kayitlari vt b t -> f.1.1 = dl0 -> f.2 <= ornek_bas bugun i) ->
  MINORD <= bugun -> bugun + Z.of_nat (i + length ds) / 3 <= MAXORD ->
  exists vt', ornek_dongu vt bugun b t dl0 i ds n ws = Tamam (vt', (n + Z.of_nat (length ds), ws)) /\
    saglam vt' /\
    ders_kayitlari vt' b t = ders_kayitlari vt b t ++ (ders_id <$> ds) /\
    oda_kayitlari vt' b t = oda_kayitlari vt b t ++
      imap (fun j _ => (dl0, ornek_bas bugun (i + j), ornek_bas bugun (i + j) + 90)) ds.
Proof.
  revert vt i n. induction ds as [|d ds IH]; intros vt i n Hs Hn Hd Hf Hmin Hmax.
  { exists vt. rewrite !app_nil_r, Z.add_0_r. done. }
  cbn [length] in Hmax. rewrite fmap_cons, NoDup_cons in Hn. destruct Hn as [Hn1 Hn].
  assert (Hdiv : Z.of_nat i / 3 <= Z.of_nat (i + S (length ds)) / 3) by (apply Z.div_le_mono; lia).
  assert (Hpos : 0 <= Z.of_nat i / 3) by (apply Z.div_pos; lia).
  destruct (ornek_bas_aralik bugun i ltac:(lia)) as [Hg Hdk]. cbn [ornek_dongu]. rewrite Hg.
  cbn [mbind Sonuc_bind]. fold (ornek_bas bugun i). rewrite Hdk. cbn [mbind Sonuc_bind].
  rewrite program_satiri_yaz_ok; [|done|by apply NoDup_singleton| |].
  2:{ apply cakisma_yok. intros f Hf1 Hin%list_elem_of_singleton. apply overlaps_false_iff. left.
      by apply Hf. }
  2:{ apply ders_yok_tersi, Hd, list_elem_of_here. }
  set (sp := yeni_satir vt b (ders_id d) t (ornek_bas bugun i) (ornek_bas bugun i + 90) 15).
  assert (Hsec : secili b t sp = true) by (apply secili_refl; done).
  destruct (IH (eklenmis vt sp [dl0]) (S i) (n + 1)) as (vt' & Hr & Hs' & Hdk' & Hok');
    [by apply eklenmis_saglam|done| | |done|rewrite Nat.add_succ_comm; lia|].
  - intros d' Hd'. rewrite ders_kayitlari_eklenmis, Hsec by done. rewrite elem_of_app, list_elem_of_singleton.
    intros [H|H]; [by apply (Hd d'); [right|]|]. apply Hn1. change (sp_ders sp) with (ders_id d) in H.
    rewrite <- H. by apply list_elem_of_fmap_2.
  - intros f. rewrite oda_kayitlari_eklenmis, Hsec by done. cbn. rewrite elem_of_app, list_elem_of_singleton.
    intros [Hf1| ->] Hd0; [|apply ornek_bas_ayrik; lia].
    etransitivity; [by apply Hf|]. pose proof (ornek_bas_ayrik bugun i (S i) ltac:(lia)). lia.
  - exists vt'. rewrite Hr. cbn [length]. split; [do 3 f_equal; lia|]. split; [done|].
    rewrite Hdk', Hok', ders_kayitlari_eklenmis, oda_kayitlari_eklenmis, Hsec by done. cbn.
    rewrite <- !app_assoc, Nat.add_0_r. split; [done|]. do 2 f_equal.
    apply imap_ext. intros j x _. cbn. by rewrite Nat.add_succ_r.
Qed.

(** ** Theorem *)

(** C22: On a department and exam type without exams, with courses and
    rooms, the sample timetable stores every course, course [i] (in the
    order of the codes) on day [bugun + i / 3] at 9, 11 or 13 o'clock
    for 90 minutes, all in the first room [plan_kaynagini_hazirla]
    returns, and reports as many exams as courses and no warning.
    Course ids are the primary key, and the date of the last exam is
    at most [date.max]. *)
Theorem ornek_program_tam s bugun b t dersler dl0 dls :
  saglam (program s) -> NoDup (ds_id <$> t_dersler (katalog s)) ->
  (forall sp, sp ∈ sinav_programi (program s) -> secili b t sp = false) ->
  plan_kaynagini_hazirla (katalog s) b = (dersler, dl0 :: dls) -> dersler <> [] ->
  MINORD <= bugun -> bugun + Z.of_nat (length dersler) / 3 <= MAXORD ->
  exists vt', ornek_sinav_programi_olustur s bugun b t =
                (program_yaz s vt', Tamam (Z.of_nat (length dersler), [])) /\
    ders_kayitlari vt' b t = ders_id <$> dersler /\
    oda_kayitlari vt' b t = imap (fun i _ => (dl_satir_id dl0, ornek_bas bugun i, ornek_bas bugun i + 90)) dersler.
Proof.
  intros Hs Hn Hsec Hp Hne Hmin Hmax. destruct (secili_yok_bos _ _ _ Hsec) as [Ho Hd].
  assert (Hnd : NoDup (ders_id <$> dersler)).
  { unfold plan_kaynagini_hazirla in Hp. injection Hp as <- _. rewrite ders_kaydi_id, sirala_perm.
    by apply fmap_filter_NoDup. }
  destruct (ornek_dongu_tam (program s) bugun b t (dl_satir_id dl0) 0 dersler 0 [])
    as (vt' & Hr & _ & Hdk & Hok); try done.
  - rewrite Hd. intros d _. apply not_elem_of_nil.
  - rewrite Ho. intros f Hf. by apply not_elem_of_nil in Hf.
  - exists vt'. unfold ornek_sinav_programi_olustur. rewrite Hp. destruct dersler as [|d ds]; [done|].
    rewrite Hr. cbn [baglanti_ile]. rewrite Hdk, Hok, Hd, Ho. done.
Qed.

(** ** Example *)

Definition ornek_ders (i : Z) (kod : string) : DersSatiri :=
  {| ds_id := i; ds_bolum_id := 1; ds_kod := kod; ds_ad := "Ders"; ds_hoca := None;
     ds_sinif := None; ds_tur := None |}.

Definition ornek_d1 : DerslikSatiri :=
  {| dl_satir_id := 5; dl_bolum_id := 1; dl_kodu := "D1"; dl_adi := "Derslik 1";
     dl_kapasite := 40; dl_enine := 8; dl_boyuna := 5; dl_sira_yapisi := 2 |}.

(** Four courses and one room; no exam yet. *)
Definition ornek_sistem : Sistem :=
  {| bolumler := [(1, "Bilgisayar Mühendisliği")]; bolum_seq := 1; kullanicilar := []; kullanici_seq := 0;
     katalog := {| t_dersler := [ornek_ders 1 "BLM101"; ornek_ders 2 "BLM102"; ornek_ders 3 "BLM103";
                                 ornek_ders 4 "BLM104"];
                   t_ogrenciler := []; t_ogrenci_ders := [];
                   t_derslikler := [ornek_d1] |};
     derslik_seq := 5; program := bos_veritabani |}.

(** Witness of [ornek_program_tam]: from 2024-01-01 (ordinal 738886)
    the four courses sit at 9:00, 11:00 and 13:00, then at 9:00 the next
    day. *)
Lemma ornek_program_tam_ornek :
  exists vt', ornek_sinav_programi_olustur ornek_sistem 738886 1 "vize" = (program_yaz ornek_sistem vt', Tamam (4, [])) /\
    ders_kayitlari vt' 1 "vize" = [1; 2; 3; 4] /\
    oda_kayitlari vt' 1 "vize" =
      [(5, 738886 * 1440 + 540, 738886 * 1440 + 630); (5, 738886 * 1440 + 660, 738886 * 1440 + 750);
       (5, 738886 * 1440 + 780, 738886 * 1440 + 870); (5, 738887 * 1440 + 540, 738887 * 1440 + 630)].
Proof.
  destruct (ornek_program_tam ornek_sistem 738886 1 "vize" (plan_kaynagini_hazirla (katalog ornek_sistem) 1).1
              ornek_d1 []) as (vt' & H1 & H2 & H3).
  - split; constructor.
  - apply (bool_decide_unpack _). vm_compute. reflexivity.
  - intros sp Hsp. by apply not_elem_of_nil in Hsp.
  - vm_compute. reflexivity.
  - vm_compute. discriminate.
  - unfold MINORD. lia.
  - unfold MAXORD. vm_compute. discriminate.
  - exists vt'. rewrite H1, H2, H3. split_and!; vm_compute; reflexivity.
Defined.

(** Run again on the same day, every slot is taken by the first run:
    each course gets the room guard's warning and nothing is stored. *)
Example ornek_program_ikinci :
  match ornek_sinav_programi_olustur ornek_sistem 738886 1 "vize" with
  | (s', Tamam _) => (ornek_sinav_programi_olustur s' 738886 1 "vize").2 =
      Tamam (0, [DerslikCakismasi 5 (738886 * 1440 + 540) (738886 * 1440 + 630);
                 DerslikCakismasi 5 (738886 * 1440 + 660) (738886 * 1440 + 750);
                 DerslikCakismasi 5 (738886 * 1440 + 780) (738886 * 1440 + 870);
                 DerslikCakismasi 5 (738887 * 1440 + 540) (738887 * 1440 + 630)])
  | _ => False
  end.
Proof. vm_compute. reflexivity. Qed.

End OrnekProgram.
